(* ===== verification/_CoqProject ===== *)
-Q . S2P
Prelude.v
Machine.v
Utils.v
Floats.v
Serial.v
Memory.v
Heap.v
HeapChain.v
HeapInv.v
HeapOps.v
HeapList.v
HeapSpec.v
Alloc.v
HeapRealloc.v
HeapTheorems.v
Pages.v
Process.v
ProcessTheorems.v
Disk.v
BlockDev.v
Fat32.v
Fat32Spec.v
Fat32Dir.v
Fat32Theorems.v
SysFile.v
SysFileSpec.v
SysFileTheorems.v
Display.v
DisplayTheorems.v
Syscall.v
SyscallTheorems.v
Paging.v
PagingTheorems.v
Uart.v
Cpu.v
CpuTheorems.v
Interrupt.v
InterruptTheorems.v
Elf.v
ElfTheorems.v
UserHeap.v
Png.v
PngTheorems.v
Pci.v
PciTheorems.v
Virtio.v
VirtioTheorems.v
VirtioInit.v
Loader.v
LoaderTheorems.v
Userland.v
UserCalls.v
Boot.v
BootTheorems.v
Fat32List.v
Fat32ListTheorems.v
KernelMain.v
