(* ===== verification/Prelude.v ===== *)
(** * ImplusOS: a verification of the system

    ImplusOS is a small x86-64 operating system in C: a UEFI boot loader
    (BootLoader/), a kernel (Kernel/) and a user program (Userland/).  This
    library models all three and proves what they do.

    ** The program and its model

    The firmware starts the boot loader, which puts the kernel's image into
    memory, fetches the memory map and jumps to [kernel_main].  The kernel
    sets up its memory, tables, display and system calls, loads the user
    program from the disk and enters it; after that the only entry into the
    kernel is the [syscall] instruction.  Everything runs in one
    identity-mapped address space on one processor.  Syscall_Entry.asm saves
    the user's registers in a frame on a stack, [syscall_dispatch] runs the
    call and asks the process manager which frame to resume.  The calls reach
    the heap, the process table, the file table, the FAT32 driver over the
    ATA driver, and the frame buffer of the VirtIO GPU.

    - RAM is a map from addresses to bytes (Machine.v), and structures that
      live in RAM (heap headers, frames, descriptor and page tables, queues,
      sectors, ELF images) are read and written there byte by byte.  Static
      variables of a C file are the fields of a record, one record per file.
    - Unsigned integers are [Z] with the wrap-around of their width written
      out ([u8], [u16], [u32], [u64]); signed ones wrap with [s32], [s64].
    - Code is in the state monad [M] over [outcome]: [Ret], [Hang] (a lock
      that is never released, a [hlt] loop) or [NoFuel].  [zoom] runs a
      component on its part of a larger state.
    - Hardware and firmware are type classes of operations: [Ports] (I/O
      ports), [GpuConfig] and [GpuDevice] (the registers and queues of the
      GPU), [Firmware] (UEFI).  What the code relies on are classes of laws,
      each with a simulated instance: [AtaDrive] (the PIO protocol of a
      drive), [Uart], [PciHost], [VirtioGpu] (the registers and queue of a
      GPU), [FirmwareLaws] and [BootServices].  Two classes say what the code
      relies on beyond the documents: [PromptDrive] (a drive is never seen
      busy after it has taken a sector, for which [disk_write] does not wait)
      and [PromptGpu] (a GPU resets at once and takes 64-bit writes to its
      queue registers).  A theorem that needs them names them.
    - Components meet in interfaces: [Allocator] (instance: the kernel heap;
      also, for a client that allocates before anything else does, its lower
      part), [BlockReader] and [BlockWriter] (the ATA driver), [UserHeap]
      (what the PNG decoder asks of [kmalloc] and [kfree]; the kernel's own
      satisfy it, the system call that offers [kmalloc] to programs does
      not, see [user_kmalloc_call]).

    ** Files

    - Prelude.v: integers, monad, counted loops, table scans, tactics.
      Machine.v: RAM.  Serial.v: the output events.
    - Utils.v, Floats.v: Memory/Memory_Utils.c and Memory/Other_Utils.c, with
      [double] as the Standard Library's binary64.
    - Memory.v: locks, interrupt flag, [align_up] and the static variables
      of Memory/Memory_Main.c.  Heap.v: its heap functions.  HeapChain.v,
      HeapInv.v, HeapOps.v, HeapList.v, HeapSpec.v, HeapRealloc.v: the block
      list the headers represent, the invariant, and what each function does
      to the list.  Alloc.v: the class [Allocator] and its instance
      [kernel_heap].  HeapTheorems.v: the properties.
    - Pages.v: the page bitmap of Memory_Main.c and its properties.
    - Process.v, ProcessTheorems.v: ProcessManager/ProcessManager_Create.c.
    - Disk.v: IO/IO_Main.c.  BlockDev.v: the classes [BlockReader],
      [BlockWriter], [AtaDrive] and [PromptDrive], and the driver as an
      instance of the first two on drives of the other two.
    - Fat32.v, Fat32List.v: Drivers/FileSystem/FAT32/FAT32_Main.c.
      Fat32Spec.v, Fat32Dir.v: chains, file contents and directories as
      mathematical objects, for any [BlockReader] and, where they write,
      [BlockWriter].  Fat32Theorems.v, Fat32ListTheorems.v: the properties.
    - SysFile.v, SysFileSpec.v, SysFileTheorems.v: Syscall/Syscall_File.c,
      for any [Allocator], [BlockReader] and [BlockWriter].
    - Display.v, DisplayTheorems.v: Drivers/Display/Display_Main.c and the
      drawing and command part of Drivers/Display/VirtIO/VirtIO.c.  Virtio.v,
      VirtioTheorems.v, VirtioInit.v: the rest of VirtIO.c, the GPU's set-up,
      and [display_init] as a whole, with a simulated computer.
    - Pci.v, PciTheorems.v: Drivers/PCI/PCI_Main.c and [find_virtio_gpu].
    - Paging.v, PagingTheorems.v: Paging/Paging_Main.c, with a page walk.
    - Uart.v: Kernel_Main.c's serial driver, which connects the output events
      of the other files to characters on the line.
    - Cpu.v, CpuTheorems.v: GDT/GDT_Main.c, IDT/IDT_Main.c and the
      model-specific registers of Syscall/Syscall_Init.c.  Interrupt.v,
      InterruptTheorems.v: the stubs of IDT/IDT.asm on a processor that
      delivers interrupts.
    - Syscall.v, SyscallTheorems.v: Syscall/Syscall_Entry.asm,
      Syscall_Dispatch.c and Syscall_Init.c, over all components.
    - Elf.v, ElfTheorems.v: [load_userland_elf] of Kernel_Main.c.
    - Boot.v, BootTheorems.v: [kernel_main] as the composition of all this.
      KernelMain.v: its theorem, over all components at once, for any drive,
      PCI host and GPU on one bus (the class [Board]).
    - Loader.v, LoaderTheorems.v: BootLoader/Loader.c over [Firmware].
    - UserHeap.v: a program's heap as an interface.  Png.v, PngTheorems.v:
      Userland/Application/PNG_Decoder/PNG_Decoder.c.  Userland.v:
      Userland/Userland.c over any [syscall] instruction.  UserCalls.v: that
      instruction on the modelled kernel, and the program's drawing on it.

    ** What is shown

    - Heap: [kmalloc] and [kfree] refine an allocator of disjoint, aligned
      regions; no sequence of calls, with any 32-bit sizes, and of writes to
      live regions breaks the heap or makes a call hang; next fit, splitting, coalescing,
      statistics, [kcalloc] and [krealloc] behave as their code intends,
      with two exceptions stated as theorems: growing in place can leave the
      search hint on an absorbed header ([krealloc_stale_hint]) and a size
      near 2^32 wraps to 0 and gives an empty region
      ([kmalloc_wraps_to_empty]).
    - Pages: the bitmap refines a set of free pages, and starts as the
      usable pages of the firmware's map above kernel and heap.  Paging maps
      the first gigabytes to themselves; the MMIO window translates to its
      devices.
    - Scheduler: one process runs; round robin; a ready process is resumed
      within fifteen switches, with the stack pointers it was saved with.
    - Disk and FAT32: the driver refines a readable block device on any
      drive that follows the protocol and a writable one on a drive that is
      also a [PromptDrive]; reading gives the bytes of the cluster chain;
      write then read is the identity; lookup in the root directory and its
      listing (long names up to 247 characters); FAT entries round trip; every routine returns, also on a
      circular chain.
    - Descriptors: the segments and gates decode to what the kernel needs,
      and [syscall] and [sysret] load matching selectors.  An interrupt
      leaves the interrupted code as it was, unless the processor pushes an
      error code: the stub returns to it ([error_code_is_return_address]).  A
      page fault gives its handler the address, error code and stack.
    - Display: the GPU is found where PCI has it and its registers where its
      capabilities say; its set-up ends whatever the device answers and, when
      it reports success, the device works on the driver's queue and there is
      a cleared frame buffer in an allocation of its own; drawing paints
      exactly the rectangle's pixels.
    - System calls: open, read and write do to the file what they should; the
      read call is followed from the user's registers down to the ports, for
      clusters whose buffer fits the system call stack.  Two
      defects of the path are theorems: the allocation call resumes its
      caller from the fresh block ([user_kmalloc_call]), and processes
      overwrite each other's frames ([yield_returns_other_registers]).
    - Start: the boot loader puts the kernel's segments where they belong,
      or returns the firmware's error, and leaves the firmware with a current
      memory map; the kernel loads a valid user image and enters user mode,
      and refuses others; the whole of [kernel_main] is shown to get there,
      with the GPU or without.  Without one this covers images at 0x400000,
      where the repository links its program: the address is in the kernel's
      heap, of which nothing above the file's buffer is in use then.  The
      loader's range check also admits allocated parts of the heap and
      overwrites them ([loader_overwrites_heap]).
    - User program: decoding inverts an encoder of the PNG subset it reads;
      its drawing call reaches the screen.

    ** Bounds and fuel

    Loops over the heap take [heap_fuel] steps, more than the headers that
    fit 16 MiB, and on a well-formed heap never run out (HeapInv.v).  Polling
    loops run for their timeout in binary ([loop_pos]), chain walks for the
    number of clusters of the volume, as the code does; both return always
    ([disk_always_returns], [fat32_read_file_returns]).  Reading a string
    takes one step more than RAM has bytes, which is enough for every string.
    The loops over program headers take 65537 steps, one more than a 16-bit
    count; the PNG chunk loop one per eight bytes of the file, the least a
    chunk takes; the capability walk its own limit of 64 and one more; the
    user program reads its 1 MiB in full pieces of 256 bytes, as the kernel
    delivers them, in 4097 steps.  The retries of leaving the
    firmware take their number as an argument, and [exit_hands_over_map]
    shows it suffices when it exceeds the number of refusals.

    ** What is not modelled

    The stack the C compiler uses: local variables are values or memories of
    their own.  Where an array of variable length could leave the 4 KiB
    system call stack, the theorem has a bound on it ([stack_room]) and does
    not say what the array leaves there.  Translation buffers; faults while an interrupt is delivered;
    nested interrupts; timing.  exFAT_Main.c, exFAT_Main.h and Paging.asm are empty.  The
    packed structures of VirtIO.c appear as the offsets of their fields. *)
From stdpp Require Export base tactics list numbers gmap strings.
From Stdlib Require Export ZArith Lia.

#[global] Open Scope Z_scope.

(** ** Machine integers

    A [w]-bit unsigned integer of the C code is a [Z] in [[0, 2^w)]; every
    operation that can leave that range is followed by the wrap-around of
    its type, written out. *)

Definition u8 (z : Z) : Z := z mod 256.
Definition u16 (z : Z) : Z := z mod 65536.
Definition u32 (z : Z) : Z := z mod 4294967296.
Definition u64 (z : Z) : Z := z mod 18446744073709551616.

(** Two's complement readings of a wrapped value ([int32_t], [int64_t]). *)
Definition s32 (z : Z) : Z :=
  if u32 z <? 2147483648 then u32 z else u32 z - 4294967296.
Definition s64 (z : Z) : Z :=
  if u64 z <? 9223372036854775808 then u64 z else u64 z - 18446744073709551616.

Definition b2z (b : bool) : Z := if b then 1 else 0.

(** ** Tactics *)

(** Linear arithmetic over wrapped integers. *)
Ltac word_lia :=
  unfold u8, u16, u32, u64 in *; Z.to_euclidean_division_equations; lia.

(** Case analysis on the boolean comparisons of the code, leaving linear
    facts behind. *)
Ltac zcases :=
  repeat match goal with
  | |- context [Z.eqb ?a ?b] => destruct (Z.eqb_spec a b)
  | |- context [Z.ltb ?a ?b] => destruct (Z.ltb_spec a b)
  | |- context [Z.leb ?a ?b] => destruct (Z.leb_spec a b)
  | H : context [Z.eqb ?a ?b] |- _ => destruct (Z.eqb_spec a b)
  | H : context [Z.ltb ?a ?b] |- _ => destruct (Z.ltb_spec a b)
  | H : context [Z.leb ?a ?b] |- _ => destruct (Z.leb_spec a b)
  end; cbn [andb orb negb] in *.

Create HintDb words.
Create Rewrite HintDb words.

Lemma u8_range z : 0 <= u8 z < 256.
Proof. apply Z.mod_pos_bound; lia. Qed.
Lemma u16_range z : 0 <= u16 z < 65536.
Proof. apply Z.mod_pos_bound; lia. Qed.
Lemma u32_range z : 0 <= u32 z < 4294967296.
Proof. apply Z.mod_pos_bound; lia. Qed.
Lemma u64_range z : 0 <= u64 z < 18446744073709551616.
Proof. apply Z.mod_pos_bound; lia. Qed.

Lemma u8_small z : 0 <= z < 256 -> u8 z = z.
Proof. apply Z.mod_small. Qed.
Lemma u16_small z : 0 <= z < 65536 -> u16 z = z.
Proof. apply Z.mod_small. Qed.
Lemma u32_small z : 0 <= z < 4294967296 -> u32 z = z.
Proof. apply Z.mod_small. Qed.
Lemma u64_small z : 0 <= z < 18446744073709551616 -> u64 z = z.
Proof. apply Z.mod_small. Qed.

Lemma u8_u8 z : u8 (u8 z) = u8 z.
Proof. apply u8_small, u8_range. Qed.
Lemma u32_add_l a b : u32 (u32 a + b) = u32 (a + b).
Proof. apply Zplus_mod_idemp_l. Qed.
Lemma u32_sub_l a b : u32 (u32 a - b) = u32 (a - b).
Proof. apply Zminus_mod_idemp_l. Qed.
Lemma u32_sub_r a b : u32 (a - u32 b) = u32 (a - b).
Proof. apply Zminus_mod_idemp_r. Qed.

#[export] Hint Resolve u8_range u16_range u32_range u64_range : words.
#[export] Hint Rewrite u8_u8 u32_add_l u32_sub_l u32_sub_r : words.

(** [value + align - 1 & ~(align - 1)] at 32 bits, for a power of two. *)
Lemma land_lnot_ones z k : 0 <= k -> Z.land z (Z.lnot (Z.ones k)) = z - z mod 2 ^ k.
Proof.
  intros Hk. rewrite <- Z.ldiff_land, Z.ldiff_ones_r, Z.shiftl_mul_pow2, Z.shiftr_div_pow2 by lia.
  pose proof (Z.div_mod z (2 ^ k) ltac:(apply Z.pow_nonzero; lia)). lia.
Qed.

Lemma land_u64_lnot_ones z k :
  0 <= z < 18446744073709551616 -> 0 <= k ->
  Z.land z (u64 (Z.lnot (Z.ones k))) = z - z mod 2 ^ k.
Proof.
  intros Hz Hk. rewrite <- land_lnot_ones by lia.
  change u64 with (fun z => z mod 2 ^ 64). cbn beta. rewrite <- Z.land_ones by lia.
  rewrite Z.land_assoc, Z.land_ones by lia. apply Z.mod_small.
  rewrite land_lnot_ones by lia. pose proof (Z.mod_pos_bound z (2 ^ k) ltac:(apply Z.pow_pos_nonneg; lia)).
  pose proof (Z.mod_le z (2 ^ k) ltac:(lia) ltac:(apply Z.pow_pos_nonneg; lia)).
  change (2 ^ 64) with 18446744073709551616. lia.
Qed.

Lemma lor_shiftl a b k : 0 <= k -> 0 <= a < 2 ^ k -> Z.lor a (Z.shiftl b k) = a + b * 2 ^ k.
Proof.
  intros Hk Ha. rewrite <- Z.shiftl_mul_pow2 by lia. symmetry. apply Z.add_nocarry_lor.
  apply Z.bits_inj'. intros i Hi. rewrite Z.land_spec, Z.bits_0.
  destruct (Z.lt_ge_cases i k).
  - rewrite Z.shiftl_spec_low by lia. apply andb_false_r.
  - rewrite <- (Z.mod_small a (2 ^ k)) by lia. by rewrite Z.mod_pow2_bits_high by lia.
Qed.

Lemma land_pow2_bit v k : 0 <= k -> (Z.land v (2 ^ k) =? 0) = negb (Z.testbit v k).
Proof.
  intros Hk. destruct (Z.testbit v k) eqn:E; cbn.
  - apply Z.eqb_neq. intros H0. assert (Z.testbit (Z.land v (2 ^ k)) k = true) as Hb
      by (rewrite Z.land_spec, E, Z.pow2_bits_true by lia; done). by rewrite H0, Z.bits_0 in Hb.
  - apply Z.eqb_eq, Z.bits_inj'. intros i Hi. rewrite Z.land_spec, Z.bits_0, Z.pow2_bits_eqb by lia.
    destruct (Z.eqb_spec k i) as [<-|]; [by rewrite E|apply andb_false_r].
Qed.

(** ** Outcomes and the state monad

    [Hang] is a run of the code that never comes back: a spin on a lock no
    one can release, or a [hlt] loop.  [NoFuel] is the model running out of
    the fuel of one of its loops; the theorems show it is never reached. *)

Inductive outcome (A : Type) : Type :=
| Ret (a : A)
| Hang
| NoFuel.
Arguments Ret {A} _.
Arguments Hang {A}.
Arguments NoFuel {A}.

#[export] Instance outcome_ret : MRet outcome := fun A => Ret.
#[export] Instance outcome_bind : MBind outcome := fun A B k o =>
  match o with Ret a => k a | Hang => Hang | NoFuel => NoFuel end.

(** A computation over a component's state. *)
Definition M (S A : Type) : Type := S -> outcome (A * S).
#[export] Instance M_ret S : MRet (M S) := fun A a s => Ret (a, s).
#[export] Instance M_bind S : MBind (M S) := fun A B k c s =>
  match c s with Ret (a, s') => k a s' | Hang => Hang | NoFuel => NoFuel end.
Definition gets {S A} (f : S -> A) : M S A := fun s => Ret (f s, s).
Definition modify {S} (f : S -> S) : M S unit := fun s => Ret (tt, f s).
Definition liftO {S A} (o : outcome A) : M S A :=
  fun s => match o with Ret a => Ret (a, s) | Hang => Hang | NoFuel => NoFuel end.

(** Runs a computation on a part of a larger state. *)
Definition zoom {S T A} (get : S -> T) (put : T -> S -> S) (c : M T A) : M S A :=
  fun s => match c (get s) with
           | Ret (a, t) => Ret (a, put t s)
           | Hang => Hang
           | NoFuel => NoFuel
           end.

Lemma bind_run {S A B} (c : M S A) (k : A -> M S B) s a s' :
  c s = Ret (a, s') -> (x ← c; k x) s = k a s'.
Proof. intros H. unfold mbind, M_bind. by rewrite H. Qed.
Lemma bind_assoc {S A B C} (c : M S A) (f : A -> M S B) (g : B -> M S C) s :
  (y ← (x ← c; f x); g y) s = (x ← c; y ← f x; g y) s.
Proof. unfold mbind, M_bind. by destruct (c s) as [[a s']| |]. Qed.
Lemma bind_gets {S A B} (f : S -> A) (k : A -> M S B) s : (x ← gets f; k x) s = k (f s) s.
Proof. reflexivity. Qed.
Lemma bind_modify {S B} (f : S -> S) (k : unit -> M S B) s :
  (x ← modify f; k x) s = k tt (f s).
Proof. reflexivity. Qed.

(** ** Counted loops

    [for_up n i f a] is [for (j = i; j < i + n; j++) a = f(j, a)]. *)

Fixpoint for_up {A} (n : nat) (i : Z) (f : Z -> A -> A) (a : A) : A :=
  match n with
  | O => a
  | S n' => for_up n' (i + 1) f (f i a)
  end.

(** Invariant rule: [P j a] holds before iteration [j]. *)
Lemma for_up_ind {A} (P : Z -> A -> Prop) (f : Z -> A -> A) n i a :
  P i a ->
  (forall j b, i <= j < i + Z.of_nat n -> P j b -> P (j + 1) (f j b)) ->
  P (i + Z.of_nat n) (for_up n i f a).
Proof.
  revert i a; induction n as [|n IH]; intros i a H0 Hs; simpl for_up.
  - replace (i + Z.of_nat 0) with i by lia. exact H0.
  - replace (i + Z.of_nat (S n)) with ((i + 1) + Z.of_nat n) by lia.
    apply IH; [apply Hs; [lia | exact H0] | intros; apply Hs; [lia | assumption]].
Qed.

Lemma for_up_ext {A} (f g : Z -> A -> A) n i a :
  (forall j b, i <= j < i + Z.of_nat n -> f j b = g j b) ->
  for_up n i f a = for_up n i g a.
Proof.
  revert i a; induction n as [|n IH]; intros i a H; simpl; [reflexivity|].
  rewrite H by lia. apply IH. intros; apply H; lia.
Qed.

Lemma for_up_add {A} (f : Z -> A -> A) n k i a :
  for_up (n + k) i f a = for_up k (i + Z.of_nat n) f (for_up n i f a).
Proof.
  revert i a; induction n as [|n IH]; intros i a; cbn [for_up Nat.add].
  - f_equal; lia.
  - rewrite IH. f_equal; lia.
Qed.

(** ** Membership *)

Lemma elem_hd {A} (x : A) l : x ∈ x :: l.
Proof. apply elem_of_cons. by left. Qed.
Lemma elem_tl {A} (x y : A) l : x ∈ l -> x ∈ y :: l.
Proof. intros. apply elem_of_cons. by right. Qed.
Lemma elem_mid {A} (x : A) l1 l2 : x ∈ l1 ++ x :: l2.
Proof. apply elem_of_app. right. apply elem_hd. Qed.

(** The first hit of a scan over consecutive integers. *)
Lemma find_seqZ {A} (f : A -> bool) (g : Z -> A) a n y :
  List.find f (g <$> seqZ a n) = Some y ->
  exists k, a <= k < a + n /\ y = g k /\ f y = true /\ forall k', a <= k' < k -> f (g k') = false.
Proof.
  remember (Z.to_nat n) as c eqn:Hc. revert a n Hc. induction c as [|c IH]; intros a n Hc.
  - rewrite seqZ_nil by lia. discriminate.
  - rewrite seqZ_cons by lia. cbn [fmap list_fmap List.find]. destruct (f (g a)) eqn:E.
    + injection 1 as <-. exists a. split_and!; [lia|lia|done|done|intros; lia].
    + intros H. apply IH in H as (k & H1 & H2 & H3 & H4); [|lia]. exists k. split_and!; [lia|lia|done|done|].
      intros k' Hk'. destruct (Z.eq_dec k' a) as [->|]; [done|]. apply H4. lia.
Qed.

(** ** Table scans *)

(** [for (i = from; i < from + n; ++i) if (test(i)) return i;], then -1. *)
Fixpoint first_from (n : nat) (i : Z) (test : Z -> bool) : Z :=
  match n with
  | O => -1
  | S n' => if test i then i else first_from n' (i + 1) test
  end.

(** The result of a scan: its first hit, or -1. *)
Lemma first_from_spec n i test : 0 <= i ->
  (first_from n i test = -1 /\ forall j, i <= j < i + Z.of_nat n -> test j = false) \/
  (i <= first_from n i test < i + Z.of_nat n /\ test (first_from n i test) = true /\
   forall j, i <= j < first_from n i test -> test j = false).
Proof.
  revert i; induction n as [|n IH]; intros i Hi; cbn [first_from]; [left; split; [reflexivity|lia]|].
  destruct (test i) eqn:E; [right; split_and!; [lia|lia|assumption|intros; lia]|].
  destruct (IH (i + 1) ltac:(lia)) as [[-> H]|(H1 & H2 & H3)]; [left|right];
    split_and!; try lia; try reflexivity; try assumption;
    intros j Hj; (destruct (Z.eq_dec j i) as [->|]; [assumption|]); [apply H|apply H3]; lia.
Qed.
