(* ===== verification/Machine.v ===== *)
(** * The byte-addressed memory of the machine

    All code of the kernel runs in one identity-mapped address space.  A
    memory is a finite map from addresses to bytes; an address that was
    never written reads as 0, and every theorem quantifies over all
    memories, so nothing relies on that value.  Multi-byte accesses are
    little endian, as on the target. *)
From S2P Require Import Prelude.

Abbreviation mem := (gmap Z Z).

Definition ld8 (m : mem) (a : Z) : Z := u8 (default 0 (m !! a)).
Definition st8 (m : mem) (a v : Z) : mem := <[a := u8 v]> m.

Fixpoint ldn (n : nat) (m : mem) (a : Z) : Z :=
  match n with
  | O => 0
  | S n' => ld8 m a + 256 * ldn n' m (a + 1)
  end.

Fixpoint stn (n : nat) (m : mem) (a v : Z) : mem :=
  match n with
  | O => m
  | S n' => stn n' (st8 m a v) (a + 1) (v / 256)
  end.

Definition ld16 := ldn 2.
Definition ld32 := ldn 4.
Definition ld64 := ldn 8.
Definition st16 := stn 2.
Definition st32 := stn 4.
Definition st64 := stn 8.
#[global] Arguments ld16 : simpl never.
#[global] Arguments ld32 : simpl never.
#[global] Arguments ld64 : simpl never.
#[global] Arguments st16 : simpl never.
#[global] Arguments st32 : simpl never.
#[global] Arguments st64 : simpl never.

(** Two memories hold the same bytes at [[lo, hi)]. *)
Definition agree (m m' : mem) (lo hi : Z) : Prop :=
  forall a, lo <= a < hi -> ld8 m' a = ld8 m a.

(** The [n] bytes at [a]. *)
Definition bytes (m : mem) (a n : Z) : list Z :=
  (fun i => ld8 m (a + i)) <$> seqZ 0 n.

(** ** Loads after stores *)

Create HintDb memory.
Create Rewrite HintDb memory.

Lemma ld8_range m a : 0 <= ld8 m a < 256.
Proof. apply u8_range. Qed.

Lemma ld8_st8 m a b v : ld8 (st8 m a v) b = if a =? b then u8 v else ld8 m b.
Proof.
  unfold ld8, st8. destruct (Z.eqb_spec a b) as [->|].
  - rewrite lookup_insert_eq. apply u8_u8.
  - by rewrite lookup_insert_ne.
Qed.

Lemma ldn_range n m a : 0 <= ldn n m a < 256 ^ Z.of_nat n.
Proof.
  revert a; induction n as [|n IH]; intros a; [simpl; lia|].
  rewrite Nat2Z.inj_succ, Z.pow_succ_r by lia. cbn [ldn].
  pose proof (ld8_range m a). specialize (IH (a + 1)). lia.
Qed.

Lemma ldn_ext n m m' a : agree m m' a (a + Z.of_nat n) -> ldn n m' a = ldn n m a.
Proof.
  revert a; induction n as [|n IH]; intros a H; [reflexivity|]. cbn [ldn].
  rewrite (H a) by lia. f_equal. f_equal. apply IH. intros b Hb. apply H. lia.
Qed.

Lemma ld8_stn n m a v b :
  b < a \/ a + Z.of_nat n <= b -> ld8 (stn n m a v) b = ld8 m b.
Proof.
  revert m a v; induction n as [|n IH]; intros m a v H; [reflexivity|]. cbn [stn].
  rewrite IH, ld8_st8 by lia. zcases; [lia|reflexivity].
Qed.

Lemma agree_stn n m a v lo hi :
  hi <= a \/ a + Z.of_nat n <= lo -> agree m (stn n m a v) lo hi.
Proof. intros H b Hb. apply ld8_stn. lia. Qed.

Lemma ldn_stn_disj k n m a v b :
  b + Z.of_nat k <= a \/ a + Z.of_nat n <= b -> ldn k (stn n m a v) b = ldn k m b.
Proof. intros H. apply ldn_ext, agree_stn. lia. Qed.

Lemma ldn_stn_eq n m a v : ldn n (stn n m a v) a = v mod 256 ^ Z.of_nat n.
Proof.
  revert m a v; induction n as [|n IH]; intros m a v; cbn [ldn stn].
  - by rewrite Z.mod_1_r.
  - rewrite IH, ld8_stn, ld8_st8 by lia. rewrite Z.eqb_refl.
    rewrite Nat2Z.inj_succ, Z.pow_succ_r by lia.
    unfold u8. rewrite Z.rem_mul_r by lia. reflexivity.
Qed.

Lemma ld32_range m a : 0 <= ld32 m a < 4294967296.
Proof. apply (ldn_range 4). Qed.
Lemma ld64_range m a : 0 <= ld64 m a < 18446744073709551616.
Proof. apply (ldn_range 8). Qed.

Lemma ld32_st32_eq m a v : ld32 (st32 m a v) a = u32 v.
Proof. apply (ldn_stn_eq 4). Qed.
Lemma ld64_st64_eq m a v : ld64 (st64 m a v) a = u64 v.
Proof. apply (ldn_stn_eq 8). Qed.

Lemma ld32_st32 m a v b :
  b + 4 <= a \/ a + 4 <= b -> ld32 (st32 m a v) b = ld32 m b.
Proof. apply (ldn_stn_disj 4 4). Qed.
Lemma ld32_st64 m a v b :
  b + 4 <= a \/ a + 8 <= b -> ld32 (st64 m a v) b = ld32 m b.
Proof. apply (ldn_stn_disj 4 8). Qed.
Lemma ld64_st32 m a v b :
  b + 8 <= a \/ a + 4 <= b -> ld64 (st32 m a v) b = ld64 m b.
Proof. apply (ldn_stn_disj 8 4). Qed.
Lemma ld64_st64 m a v b :
  b + 8 <= a \/ a + 8 <= b -> ld64 (st64 m a v) b = ld64 m b.
Proof. apply (ldn_stn_disj 8 8). Qed.
Lemma ld32_ext m m' a : agree m m' a (a + 4) -> ld32 m' a = ld32 m a.
Proof. apply (ldn_ext 4). Qed.
Lemma ld64_ext m m' a : agree m m' a (a + 8) -> ld64 m' a = ld64 m a.
Proof. apply (ldn_ext 8). Qed.

#[export] Hint Resolve ld8_range ld32_range ld64_range : words.
#[export] Hint Rewrite ld32_st32_eq ld64_st64_eq : memory.
#[export] Hint Rewrite ld32_st32 ld32_st64 ld64_st32 ld64_st64 using lia : memory.

Lemma agree_refl m lo hi : agree m m lo hi.
Proof. intros a _. reflexivity. Qed.
Lemma agree_trans m1 m2 m3 lo hi :
  agree m1 m2 lo hi -> agree m2 m3 lo hi -> agree m1 m3 lo hi.
Proof. intros H1 H2 a Ha. rewrite H2, H1 by lia. reflexivity. Qed.
Lemma agree_sub m m' lo hi lo' hi' :
  lo <= lo' -> hi' <= hi -> agree m m' lo hi -> agree m m' lo' hi'.
Proof. intros H1 H2 H a Ha. apply H. lia. Qed.
Lemma agree_st8 m a v lo hi : hi <= a \/ a < lo -> agree m (st8 m a v) lo hi.
Proof. intros H b Hb. rewrite ld8_st8. zcases; [lia|reflexivity]. Qed.
Lemma agree_st32 m a v lo hi : hi <= a \/ a + 4 <= lo -> agree m (st32 m a v) lo hi.
Proof. intros. by apply (agree_stn 4). Qed.
Lemma agree_st64 m a v lo hi : hi <= a \/ a + 8 <= lo -> agree m (st64 m a v) lo hi.
Proof. intros. by apply (agree_stn 8). Qed.
#[export] Hint Resolve agree_refl : memory.

(** ** Reading byte ranges *)

Lemma length_bytes m a n : length (bytes m a n) = Z.to_nat n.
Proof. unfold bytes. by rewrite length_fmap, length_seqZ. Qed.

Lemma lookup_bytes m a n i :
  bytes m a n !! i = if Z.of_nat i <? n then Some (ld8 m (a + Z.of_nat i)) else None.
Proof.
  unfold bytes. rewrite list_lookup_fmap.
  destruct (Z.ltb_spec (Z.of_nat i) n).
  - by rewrite lookup_seqZ_lt by lia.
  - by rewrite lookup_seqZ_ge by lia.
Qed.

Lemma bytes_eq m m' a a' n :
  (forall i, 0 <= i < n -> ld8 m' (a' + i) = ld8 m (a + i)) -> bytes m' a' n = bytes m a n.
Proof.
  intros H. apply list_eq. intros i. rewrite !lookup_bytes.
  zcases; [|reflexivity]. by rewrite H by lia.
Qed.

Lemma bytes_agree m m' a n : agree m m' a (a + n) -> bytes m' a n = bytes m a n.
Proof. intros H. apply bytes_eq. intros i Hi. apply H. lia. Qed.

Lemma bytes_app m a n k :
  0 <= n -> 0 <= k -> bytes m a (n + k) = bytes m a n ++ bytes m (a + n) k.
Proof.
  intros Hn Hk. apply list_eq. intros i. rewrite lookup_app, !lookup_bytes, length_bytes.
  zcases; try lia; try reflexivity.
  - f_equal. f_equal. lia.
Qed.

Lemma bytes_take m a n k : 0 <= n <= k -> take (Z.to_nat n) (bytes m a k) = bytes m a n.
Proof.
  intros H. replace k with (n + (k - n)) by lia. rewrite bytes_app by lia.
  by rewrite take_app_length' by (by rewrite length_bytes).
Qed.

Lemma bytes_drop m a n k : 0 <= n <= k -> drop (Z.to_nat n) (bytes m a k) = bytes m (a + n) (k - n).
Proof.
  intros H. replace k with (n + (k - n)) at 1 by lia. rewrite bytes_app by lia.
  by rewrite drop_app_length' by (by rewrite length_bytes).
Qed.

Lemma take_drop_bytes m a n o k : 0 <= o -> 0 <= k -> o + k <= n ->
  take (Z.to_nat k) (drop (Z.to_nat o) (bytes m a n)) = bytes m (a + o) k.
Proof. intros. rewrite bytes_drop, bytes_take by lia. reflexivity. Qed.

Lemma bytes_range m a n : Forall (fun x => 0 <= x < 256) (bytes m a n).
Proof. apply Forall_fmap, Forall_forall. intros x _. apply ld8_range. Qed.

(** Byte [i] of a list, and the little-endian words at an offset. *)
Definition byte_at (l : list Z) (i : Z) : Z := default 0 (l !! Z.to_nat i).
Definition word16_at (l : list Z) (o : Z) : Z := byte_at l o + 256 * byte_at l (o + 1).
Definition word32_at (l : list Z) (o : Z) : Z := word16_at l o + 65536 * word16_at l (o + 2).

Definition word64_at (l : list Z) (o : Z) : Z := word32_at l o + 4294967296 * word32_at l (o + 4).

Lemma byte_at_bytes m a n i : 0 <= i < n -> byte_at (bytes m a n) i = ld8 m (a + i).
Proof.
  intros H. unfold byte_at. rewrite lookup_bytes. zcases; [|lia]. cbn. f_equal. lia.
Qed.
Lemma word16_at_bytes m a n o : 0 <= o -> o + 2 <= n -> word16_at (bytes m a n) o = ld16 m (a + o).
Proof.
  intros H1 H2. unfold word16_at, ld16. rewrite !byte_at_bytes by lia. cbn [ldn]. rewrite Z.add_assoc. lia.
Qed.
Lemma word32_at_bytes m a n o : 0 <= o -> o + 4 <= n -> word32_at (bytes m a n) o = ld32 m (a + o).
Proof.
  intros H1 H2. unfold word32_at. rewrite !word16_at_bytes by lia. unfold ld16, ld32. cbn [ldn].
  replace (a + (o + 2)) with (a + o + 1 + 1) by lia. lia.
Qed.
Lemma word64_at_bytes m a n o : 0 <= o -> o + 8 <= n -> word64_at (bytes m a n) o = ld64 m (a + o).
Proof.
  intros H1 H2. unfold word64_at. rewrite !word32_at_bytes by lia. unfold ld32, ld64. cbn [ldn].
  replace (a + (o + 4)) with (a + o + 1 + 1 + 1 + 1) by lia. lia.
Qed.

(** ** Data in memory *)

(** The list [data] is at [q]. *)
Definition holds (m : mem) (q : Z) (data : list Z) : Prop := bytes m q (Z.of_nat (length data)) = data.

Lemma holds16 m q data o : holds m q data -> 0 <= o -> o + 2 <= Z.of_nat (length data) -> ld16 m (q + o) = word16_at data o.
Proof. intros H Ho Hl. rewrite <- H at 1. by rewrite word16_at_bytes. Qed.
Lemma holds32 m q data o : holds m q data -> 0 <= o -> o + 4 <= Z.of_nat (length data) -> ld32 m (q + o) = word32_at data o.
Proof. intros H Ho Hl. rewrite <- H at 1. by rewrite word32_at_bytes. Qed.
Lemma holds64 m q data o : holds m q data -> 0 <= o -> o + 8 <= Z.of_nat (length data) -> ld64 m (q + o) = word64_at data o.
Proof. intros H Ho Hl. rewrite <- H at 1. by rewrite word64_at_bytes. Qed.
Lemma holds8 m q data o : holds m q data -> 0 <= o < Z.of_nat (length data) -> ld8 m (q + o) = byte_at data o.
Proof. intros H Ho. rewrite <- H at 1. by rewrite byte_at_bytes. Qed.

Lemma holds_agree m m' q data : agree m m' q (q + Z.of_nat (length data)) -> holds m q data -> holds m' q data.
Proof. intros Ha H. unfold holds. by rewrite (bytes_agree m). Qed.

Lemma holds_app m p l1 l2 : holds m p (l1 ++ l2) <-> holds m p l1 /\ holds m (p + Z.of_nat (length l1)) l2.
Proof.
  unfold holds. rewrite length_app, Nat2Z.inj_add, bytes_app by lia. split; [|by intros [-> ->]].
  intros H. apply app_inj_1 in H; [done|]. rewrite length_bytes. lia.
Qed.
Lemma holds_nil m p : holds m p [].
Proof. reflexivity. Qed.
Lemma holds_cons m p v l : holds m p (v :: l) <-> ld8 m p = v /\ holds m (p + 1) l.
Proof.
  rewrite (holds_app m p [v] l). change (Z.of_nat (length [v])) with 1. f_equiv. unfold holds.
  change (bytes m p (Z.of_nat (length [v]))) with [ld8 m (p + 0)]. rewrite Z.add_0_r. split; [by intros [=]|by intros ->].
Qed.

Definition byte_list (l : list Z) : Prop := Forall (fun x => 0 <= x < 256) l.
Lemma byte_at_range data o : byte_list data -> 0 <= byte_at data o < 256.
Proof.
  intros H. unfold byte_at. destruct (data !! Z.to_nat o) eqn:E; cbn; [|lia]. exact (proj1 (Forall_lookup _ _) H _ _ E).
Qed.

(** Bytes stored from an address up. *)
Fixpoint store_bytes (m : mem) (a : Z) (l : list Z) : mem :=
  match l with [] => m | v :: l => store_bytes (st8 m a v) (a + 1) l end.
Lemma ld8_store_bytes l : forall m a x, x < a \/ a + Z.of_nat (length l) <= x -> ld8 (store_bytes m a l) x = ld8 m x.
Proof.
  induction l as [|v l IH]; intros m a x Hx; [done|]. cbn [store_bytes length] in *. rewrite IH by lia. rewrite ld8_st8. zcases; (lia || done).
Qed.
Lemma holds_store_bytes l : byte_list l -> forall m a, holds (store_bytes m a l) a l.
Proof.
  induction 1 as [|v l Hv _ IH]; intros m a; [apply holds_nil|]. cbn [store_bytes]. apply holds_cons. split; [|apply IH].
  rewrite ld8_store_bytes by lia. rewrite ld8_st8, Z.eqb_refl. by apply u8_small.
Qed.
