(* ===== verification/Utils.v ===== *)
(** * Byte and string routines

    Kernel/Memory/Memory_Utils.c ([memset]) and Kernel/Memory/Other_Utils.c
    ([memcpy], [memcmp], [strcmp], [strncmp], [strtol], [abs]; its two
    floating-point routines are in Floats.v).  A loop bounded by its
    [size_t] argument recurses on that argument; the loops that run to a NUL
    byte or a non-digit take fuel, and the theorems give a bound that
    suffices. *)
From S2P Require Import Prelude Machine.

Definition memset (m : mem) (ptr value num : Z) : mem :=
  for_up (Z.to_nat num) 0 (fun i m => st8 m (ptr + i) (u8 value)) m.

Definition memcpy (m : mem) (dst src n : Z) : mem :=
  for_up (Z.to_nat n) 0 (fun i m => st8 m (dst + i) (ld8 m (src + i))) m.

Fixpoint memcmp_from (m : mem) (s1 s2 i : Z) (n : nat) : Z :=
  match n with
  | O => 0
  | S n' =>
      if negb (ld8 m (s1 + i) =? ld8 m (s2 + i))
      then ld8 m (s1 + i) - ld8 m (s2 + i)
      else memcmp_from m s1 s2 (i + 1) n'
  end.

Definition memcmp (m : mem) (s1 s2 n : Z) : Z := memcmp_from m s1 s2 0 (Z.to_nat n).

Fixpoint strcmp (fuel : nat) (m : mem) (a b : Z) : outcome Z :=
  match fuel with
  | O => NoFuel
  | S f =>
      if negb (ld8 m a =? 0) && (ld8 m a =? ld8 m b)
      then strcmp f m (a + 1) (b + 1)
      else Ret (ld8 m a - ld8 m b)
  end.

Fixpoint strncmp_from (m : mem) (a b i : Z) (n : nat) : Z :=
  match n with
  | O => 0
  | S n' =>
      if negb (ld8 m (a + i) =? ld8 m (b + i)) || (ld8 m (a + i) =? 0)
      then ld8 m (a + i) - ld8 m (b + i)
      else strncmp_from m a b (i + 1) n'
  end.

Definition strncmp (m : mem) (a b n : Z) : Z := strncmp_from m a b 0 (Z.to_nat n).

(** Signed overflow of [val], undefined in C, is given the wrap-around of
    the 64-bit [long]; the theorem below needs no case of it. *)
Fixpoint strtol_from (fuel : nat) (m : mem) (nptr val : Z) : outcome Z :=
  match fuel with
  | O => NoFuel
  | S f =>
      let c := ld8 m nptr in
      if (48 <=? c) && (c <=? 57)
      then strtol_from f m (nptr + 1) (s64 (val * 10 + (c - 48)))
      else Ret val
  end.

Definition strtol (fuel : nat) (m : mem) (nptr : Z) : outcome Z := strtol_from fuel m nptr 0.

Definition abs (x : Z) : Z := if x <? 0 then s32 (- x) else x.

(** ** Lemmas *)

Lemma ld8_memset m p v n b :
  ld8 (memset m p v n) b = if (p <=? b) && (b <? p + n) then u8 v else ld8 m b.
Proof.
  unfold memset.
  pose (P := fun j m' => forall b,
    ld8 m' b = if (p <=? b) && (b <? p + j) then u8 v else ld8 m b).
  assert (P (0 + Z.of_nat (Z.to_nat n))
            (for_up (Z.to_nat n) 0 (fun i m => st8 m (p + i) (u8 v)) m)) as H.
  { apply for_up_ind; subst P; cbn beta.
    - intros c. zcases; (reflexivity || lia).
    - intros j m' Hj IH c. rewrite ld8_st8, IH, u8_u8. zcases; (reflexivity || lia). }
  rewrite (H b). zcases; (reflexivity || lia).
Qed.

(** The forward copy is right on disjoint regions and when moving down. *)
Lemma ld8_memcpy m d s n b :
  d <= s \/ s + n <= d ->
  ld8 (memcpy m d s n) b = if (d <=? b) && (b <? d + n) then ld8 m (s + (b - d)) else ld8 m b.
Proof.
  intros Hds. unfold memcpy.
  pose (P := fun j m' => forall b,
    ld8 m' b = if (d <=? b) && (b <? d + j) then ld8 m (s + (b - d)) else ld8 m b).
  assert (P (0 + Z.of_nat (Z.to_nat n))
            (for_up (Z.to_nat n) 0 (fun i m => st8 m (d + i) (ld8 m (s + i))) m)) as H.
  { apply for_up_ind; subst P; cbn beta.
    - intros c. zcases; (reflexivity || lia).
    - intros j m' Hj IH c. rewrite ld8_st8, !IH.
      zcases; try lia; try reflexivity;
        rewrite u8_small by apply ld8_range; f_equal; lia. }
  rewrite (H b). zcases; (reflexivity || lia).
Qed.

Lemma agree_memset m p v n lo hi :
  hi <= p \/ p + n <= lo -> agree m (memset m p v n) lo hi.
Proof. intros H a Ha. rewrite ld8_memset. zcases; (reflexivity || lia). Qed.

Lemma agree_memcpy m d s n lo hi :
  d <= s \/ s + n <= d -> hi <= d \/ d + n <= lo -> agree m (memcpy m d s n) lo hi.
Proof. intros Hds H a Ha. rewrite ld8_memcpy by lia. zcases; (reflexivity || lia). Qed.

Lemma bytes_memcpy m d s n :
  d <= s \/ s + n <= d -> bytes (memcpy m d s n) d n = bytes m s n.
Proof.
  intros H. apply bytes_eq. intros i Hi. rewrite ld8_memcpy by lia.
  zcases; try lia. f_equal. lia.
Qed.

Lemma bytes_memset m p v n : bytes (memset m p v n) p n = replicate (Z.to_nat n) (u8 v).
Proof.
  apply list_eq. intros i. rewrite lookup_bytes, ld8_memset.
  destruct (Z.ltb_spec (Z.of_nat i) n).
  - rewrite lookup_replicate_2 by lia. zcases; (reflexivity || lia).
  - symmetry. apply lookup_replicate_None. lia.
Qed.

Lemma memcmp_from_zero m s1 s2 i n :
  memcmp_from m s1 s2 i n = 0 <->
  forall j, i <= j < i + Z.of_nat n -> ld8 m (s1 + j) = ld8 m (s2 + j).
Proof.
  revert i; induction n as [|n IH]; intros i; cbn [memcmp_from].
  - split; [lia|reflexivity].
  - zcases.
    + rewrite IH. split; intros H j Hj.
      * destruct (Z.eq_dec j i) as [->|]; [assumption|apply H; lia].
      * apply H; lia.
    + split; intros H; [lia|]. specialize (H i ltac:(lia)). contradiction.
Qed.

(** [memcmp] is 0 exactly on equal ranges. *)
Lemma memcmp_zero m s1 s2 n : memcmp m s1 s2 n = 0 <-> bytes m s1 n = bytes m s2 n.
Proof.
  unfold memcmp. rewrite memcmp_from_zero. split.
  - intros H. apply bytes_eq. intros i Hi. apply H. lia.
  - intros H j Hj. apply (f_equal (lookup (Z.to_nat j))) in H.
    rewrite !lookup_bytes in H. zcases; try lia. rewrite !Z2Nat.id in H by lia. congruence.
Qed.

(** Its value is the difference of the first bytes that differ. *)
Lemma memcmp_first_diff m s1 s2 n k :
  0 <= k < n ->
  (forall j, 0 <= j < k -> ld8 m (s1 + j) = ld8 m (s2 + j)) ->
  ld8 m (s1 + k) <> ld8 m (s2 + k) ->
  memcmp m s1 s2 n = ld8 m (s1 + k) - ld8 m (s2 + k).
Proof.
  intros Hk Heq Hne. unfold memcmp.
  assert (forall c i, i + Z.of_nat c = n -> 0 <= i <= k ->
    memcmp_from m s1 s2 i c = ld8 m (s1 + k) - ld8 m (s2 + k)) as H.
  { induction c as [|c IH]; intros i Hi Hik; [lia|]. cbn [memcmp_from].
    destruct (Z.eq_dec i k) as [->|]; zcases; try congruence.
    - apply IH; lia.
    - exfalso. apply n1. apply Heq. lia. }
  apply H; lia.
Qed.

(** The decimal digits at [p], most significant first. *)
Definition digits_at (m : mem) (p : Z) (ds : list Z) : Prop :=
  forall i d, ds !! i = Some d -> 0 <= d <= 9 /\ ld8 m (p + Z.of_nat i) = 48 + d.
Definition decimal (v : Z) (ds : list Z) : Z := fold_left (fun v d => v * 10 + d) ds v.

Lemma digits_at_cons m p d ds :
  digits_at m p (d :: ds) -> 0 <= d <= 9 /\ ld8 m p = 48 + d /\ digits_at m (p + 1) ds.
Proof.
  intros H. destruct (H 0%nat d eq_refl) as [Hd Hl]. split; [assumption|]. split.
  - rewrite <- Hl. f_equal. lia.
  - intros i e Hi. destruct (H (S i) e Hi) as [He <-]. split; [assumption|]. f_equal. lia.
Qed.

Lemma decimal_ge v ds :
  0 <= v -> Forall (fun d => 0 <= d <= 9) ds -> v <= decimal v ds.
Proof.
  intros Hv H. revert v Hv. induction H as [|d ds Hd _ IH]; intros v Hv; cbn; [lia|].
  specialize (IH (v * 10 + d) ltac:(lia)). unfold decimal in IH. lia.
Qed.

Lemma digits_at_Forall m p ds : digits_at m p ds -> Forall (fun d => 0 <= d <= 9) ds.
Proof. intros H. apply Forall_lookup. intros i d Hd. apply (H i d Hd). Qed.

Lemma s64_small z : -9223372036854775808 <= z < 9223372036854775808 -> s64 z = z.
Proof. intros H. unfold s64. zcases; word_lia. Qed.
Lemma s32_small z : -2147483648 <= z < 2147483648 -> s32 z = z.
Proof. intros H. unfold s32. zcases; word_lia. Qed.

Lemma strtol_from_decimal m ds p v fuel :
  digits_at m p ds ->
  ~ (48 <= ld8 m (p + Z.of_nat (length ds)) <= 57) ->
  0 <= v -> decimal v ds < 9223372036854775808 ->
  (length ds < fuel)%nat ->
  strtol_from fuel m p v = Ret (decimal v ds).
Proof.
  revert p v fuel; induction ds as [|d ds IH]; intros p v fuel Hds Hend Hv Hlt Hf;
    (destruct fuel as [|fuel]; [cbn in Hf; lia|]); cbn [strtol_from].
  - cbn [length] in Hend. replace (p + Z.of_nat 0) with p in Hend by lia.
    zcases; (lia || reflexivity).
  - apply digits_at_cons in Hds as (Hd & Hl & Hds). rewrite Hl.
    pose proof (decimal_ge (v * 10 + d) ds ltac:(lia) (digits_at_Forall _ _ _ Hds)) as Hge.
    change (decimal v (d :: ds)) with (decimal (v * 10 + d) ds) in *.
    zcases; try lia. replace (48 + d - 48) with d by lia. rewrite s64_small by lia.
    apply IH; try assumption; cbn [length] in *; try lia.
    replace (p + 1 + Z.of_nat (length ds)) with (p + Z.of_nat (S (length ds))) by lia. assumption.
Qed.

(** The NUL-terminated string at [p] has the bytes [cs]. *)
Definition cstring_at (m : mem) (p : Z) (cs : list Z) : Prop :=
  Forall (fun c => c <> 0) cs /\ bytes m p (Z.of_nat (length cs) + 1) = cs ++ [0].

Lemma bytes_cons m a n : 0 <= n -> bytes m a (n + 1) = ld8 m a :: bytes m (a + 1) n.
Proof.
  intros Hn. replace (n + 1) with (1 + n) by lia. rewrite bytes_app by lia.
  change (bytes m a 1) with [ld8 m (a + 0)]. by replace (a + 0) with a by lia.
Qed.

Lemma cstring_at_nil m p : cstring_at m p [] <-> ld8 m p = 0.
Proof.
  unfold cstring_at. cbn [length]. rewrite bytes_cons by lia. split.
  - intros [_ [=]]. assumption.
  - intros ->. split; [constructor|reflexivity].
Qed.

Lemma cstring_at_cons m p c cs :
  cstring_at m p (c :: cs) <-> c <> 0 /\ ld8 m p = c /\ cstring_at m (p + 1) cs.
Proof.
  unfold cstring_at. rewrite Forall_cons. cbn [length].
  replace (Z.of_nat (S (length cs)) + 1) with ((Z.of_nat (length cs) + 1) + 1) by lia.
  rewrite bytes_cons by lia. cbn [app]. split.
  - intros [[Hc Hcs] [= H1 H2]]. auto.
  - intros (Hc & -> & Hcs & ->). auto.
Qed.

(** [strcmp] comes back on NUL-terminated strings, with 0 exactly when they
    are the same string. *)
Lemma strcmp_spec m a b xs ys fuel :
  cstring_at m a xs -> cstring_at m b ys -> (length xs < fuel)%nat ->
  exists r, strcmp fuel m a b = Ret r /\ (r = 0 <-> xs = ys).
Proof.
  revert a b ys fuel; induction xs as [|x xs IH]; intros a b ys fuel Ha Hb Hf;
    (destruct fuel as [|fuel]; [cbn in Hf; lia|]); cbn [strcmp].
  - apply cstring_at_nil in Ha. rewrite Ha. zcases; try lia; eexists; (split; [reflexivity|]);
      destruct ys as [|y ys]; try apply cstring_at_nil in Hb; try apply cstring_at_cons in Hb;
      split; intros; (lia || congruence || naive_solver lia).
  - apply cstring_at_cons in Ha as (Hx & Hl & Ha). rewrite Hl.
    destruct ys as [|y ys]; [apply cstring_at_nil in Hb | apply cstring_at_cons in Hb as (Hy & Hly & Hb)].
    + rewrite Hb. zcases; try lia. eexists; split; [reflexivity|]. split; [lia|discriminate].
    + rewrite Hly. zcases; try lia.
      * subst y. destruct (IH (a + 1) (b + 1) ys fuel Ha Hb ltac:(cbn in Hf; lia)) as (r & -> & Hr).
        exists r. split; [reflexivity|]. rewrite Hr. split; congruence.
      * eexists; split; [reflexivity|]. split; [lia|congruence].
Qed.
