(* ===== verification/Floats.v ===== *)
(** * Floating point ([pow] and [ldexp] of Kernel/Memory/Other_Utils.c)

    A [double] is a number of the IEEE 754 format with 53 bits of precision,
    as in the Standard Library's [SpecFloat]; multiplication and division
    round to nearest even.  On numbers of full precision [ldexp] shifts the
    exponent and nothing else, and [pow] takes powers of two exactly. *)
From S2P Require Import Prelude.
From Stdlib Require Import SpecFloat.

Abbreviation double := spec_float.
Definition dmul : double -> double -> double := SFmul 53 1024.
Definition ddiv : double -> double -> double := SFdiv 53 1024.
Definition one : double := S754_finite false 4503599627370496 (-52).
Definition two : double := S754_finite false 4503599627370496 (-51).

(** The conversion to [int], which rounds towards 0; what does not fit gives
    the least [int], as the processor's instruction does. *)
Definition to_int (y : double) : Z :=
  let fit v := if (-2147483648 <=? v) && (v <? 2147483648) then v else -2147483648 in
  match y with
  | S754_zero _ => 0
  | S754_finite s m e => fit (let v := Z.shiftl (Z.pos m) e in if s then - v else v)
  | _ => -2147483648
  end.

Definition pow (x y : double) : double :=
  let r := one in
  let yi := to_int y in
  for_up (Z.to_nat yi) 0 (fun _ r => dmul r x) r.

(** The two loops run [exp] and [-exp] times. *)
Definition ldexp (x : double) (exp : Z) : double :=
  let x := for_up (Z.to_nat exp) 0 (fun _ x => dmul x two) x in
  for_up (Z.to_nat (- exp)) 0 (fun _ x => ddiv x two) x.

(** ** Doubling and halving *)

(** Numbers of full precision, in the range of exponents. *)
Definition normal (m : positive) (e : Z) : Prop := digits2_pos m = 53%positive /\ -1074 <= e <= 971.

Lemma round_exact s m e : normal m e -> binary_round_aux 53 1024 s (Z.pos m) e loc_Exact = S754_finite s m e.
Proof.
  intros [Hm He]. unfold binary_round_aux, shr_fexp. cbn [Zdigits2 shr_record_of_loc]. rewrite Hm.
  assert (fexp 53 1024 (Z.pos 53 + e) - e = 0) as E by (unfold fexp, emin; lia). rewrite E. cbn [shr shr_m loc_of_shr_record round_nearest_even Zdigits2 shr_record_of_loc].
  rewrite Hm, E. cbn [shr shr_m]. change (1024 - 53) with 971. by destruct (Z.leb_spec e 971); [|lia].
Qed.

(** Rounding away zeros at the end. *)
Lemma round_zeros s m e k p : normal m (e + Z.pos k) -> digits2_pos p = (53 + k)%positive ->
  iter_pos shr_1 k (Build_shr_record (Z.pos p) false false) = Build_shr_record (Z.pos m) false false ->
  binary_round_aux 53 1024 s (Z.pos p) e loc_Exact = S754_finite s m (e + Z.pos k).
Proof.
  intros Hn Hd Hi. rewrite <- (round_exact s m _ Hn). destruct Hn as [Hm He]. unfold binary_round_aux, shr_fexp. cbn [Zdigits2 shr_record_of_loc]. rewrite Hd.
  assert (fexp 53 1024 (Z.pos (53 + k) + e) - e = Z.pos k) as E by (unfold fexp, emin; lia). rewrite E. cbn [shr]. rewrite Hi.
  cbn [shr_m loc_of_shr_record round_nearest_even Zdigits2]. rewrite Hm.
  assert (fexp 53 1024 (Z.pos 53 + (e + Z.pos k)) - (e + Z.pos k) = 0) as E2 by (unfold fexp, emin; lia). rewrite E2.
  cbn [shr shr_m loc_of_shr_record round_nearest_even Zdigits2 shr_record_of_loc]. rewrite Hm, E2. reflexivity.
Qed.

(** [m] with [k] zeros behind it. *)
Lemma digits_zeros m k : digits2_pos (Pos.iter xO m k) = (digits2_pos m + k)%positive.
Proof.
  revert m. induction k as [|k IH] using Pos.peano_ind; intros m; [apply eq_sym, Pos.add_1_r|].
  rewrite Pos.iter_succ. cbn [digits2_pos]. rewrite IH. lia.
Qed.

Lemma double_exact s m e : normal m e -> normal m (e + 1) -> dmul (S754_finite s m e) two = S754_finite s m (e + 1).
Proof.
  intros [Hm _] Hn. unfold dmul, two. cbn [SFmul]. rewrite xorb_false_r, Pos.mul_comm.
  change (4503599627370496 * m)%positive with (Pos.iter xO m 52). replace (e + 1) with (e + -51 + 52) in * by lia.
  apply round_zeros; [exact Hn|by rewrite digits_zeros, Hm|reflexivity].
Qed.

Lemma div_exact v : 0 <= v -> Z.div_eucl (Z.shiftl v 52) 4503599627370496 = (v, 0).
Proof.
  intros Hv. rewrite Z.shiftl_mul_pow2 by lia. change (2 ^ 52) with 4503599627370496.
  pose proof (Z.div_eucl_eq (v * 4503599627370496) 4503599627370496 ltac:(lia)) as Hd.
  pose proof (Z.mod_pos_bound (v * 4503599627370496) 4503599627370496 ltac:(lia)) as Hb. unfold Z.modulo in Hb.
  destruct (Z.div_eucl _ _) as [q r]. f_equal; lia.
Qed.

Lemma halve_exact s m e : normal m e -> normal m (e - 1) -> ddiv (S754_finite s m e) two = S754_finite s m (e - 1).
Proof.
  intros [Hm He] Hn. unfold ddiv, two. cbn [SFdiv]. rewrite xorb_false_r. unfold SFdiv_core_binary. cbn [Zdigits2]. rewrite Hm.
  change (digits2_pos 4503599627370496) with 53%positive. pose proof Hn as [_ He2].
  destruct (Z.eq_dec e (-1073)) as [->|Hne].
  - change (Z.min _ _) with (-1074). change (-1073 - -51 - -1074) with 52. cbv beta iota zeta. rewrite div_exact by lia.
    by apply round_exact.
  - assert (Z.min (fexp 53 1024 (53 + e - (53 + -51))) (e - -51) = e - 2) as -> by (unfold fexp, emin; lia).
    replace (e - -51 - (e - 2)) with 53 by lia. cbv beta iota zeta. change (Z.shiftl (Z.pos m) 53) with (Z.shiftl (Z.pos m~0) 52). rewrite div_exact by lia.
    replace (e - 1) with (e - 2 + 1) in * by lia. by apply round_zeros; [|cbn [digits2_pos]; rewrite Hm|].
Qed.

(** Doubling and halving in a loop. *)
Lemma doubles s m n e i : normal m e -> normal m (e + Z.of_nat n) ->
  for_up n i (fun _ x => dmul x two) (S754_finite s m e) = S754_finite s m (e + Z.of_nat n).
Proof.
  revert e i. induction n as [|n IH]; intros e i [Hm He] [_ Hk]; cbn [for_up]; [by rewrite Z.add_0_r|].
  rewrite double_exact, IH by (split; [done|lia]). f_equal. lia.
Qed.

Lemma halves s m n e i : normal m e -> normal m (e - Z.of_nat n) ->
  for_up n i (fun _ x => ddiv x two) (S754_finite s m e) = S754_finite s m (e - Z.of_nat n).
Proof.
  revert e i. induction n as [|n IH]; intros e i [Hm He] [_ Hk]; cbn [for_up]; [by rewrite Z.sub_0_r|].
  rewrite halve_exact, IH by (split; [done|lia]). f_equal. lia.
Qed.

(** [ldexp] multiplies a number of full precision by a power of two
    exactly: only its exponent changes, in either direction, as long as the
    result is in the range of exponents. *)
Theorem ldexp_exact s m e k : normal m e -> normal m (e + k) -> ldexp (S754_finite s m e) k = S754_finite s m (e + k).
Proof.
  intros [Hm He] [_ Hk]. unfold ldexp. destruct (Z.le_ge_cases 0 k).
  - rewrite doubles by (split; [done|lia]). replace (Z.to_nat (- k)) with 0%nat by lia. cbn [for_up]. f_equal. lia.
  - replace (Z.to_nat k) with 0%nat by lia. cbn [for_up]. rewrite halves by (split; [done|lia]). f_equal. lia.
Qed.

Lemma ldexp_exact_witness : ldexp one (-3) = S754_finite false 4503599627370496 (-55).
Proof. apply (ldexp_exact false 4503599627370496 (-52) (-3)); split; [reflexivity|lia|reflexivity|lia]. Defined.

(** Powers of two are exact; a negative exponent gives 1, not a fraction. *)
Theorem pow_two y : to_int y <= 1023 -> pow two y = S754_finite false 4503599627370496 (Z.max 0 (to_int y) - 52).
Proof.
  intros Hy. unfold pow, one. rewrite (doubles false 4503599627370496) by (split; [reflexivity|lia]). f_equal. lia.
Qed.

Lemma pow_two_witness : pow two (S754_finite true 4503599627370496 (-52)) = one.
Proof. apply pow_two. vm_compute. discriminate. Defined.
