(* ===== verification/Serial.v ===== *)
(** * Serial output (Kernel/Serial.h, Kernel/Kernel_Main.c)

    The components print through [serial_write_string] and its variants.
    Their states carry the sequence of those calls as [sev] events; [SBytes]
    is a string read from memory. *)

From S2P Require Import Prelude.

Inductive sev : Type :=
| SChar (c : Z)
| SStr (s : string)
| SBytes (l : list Z)
| SU64 (v : Z)
| SU32 (v : Z)
| SU16 (v : Z).

(** A string literal that ends in [\n]. *)
Definition line (s : string) : sev := SStr (s +:+ String (Ascii.ascii_of_nat 10) EmptyString).

#[export] Instance sev_eq_dec : EqDecision sev.
Proof. solve_decision. Defined.
