(* ===== verification/Memory.v ===== *)
(** * State of Kernel/Memory/Memory_Main.c, its locks and [align_up]

    [mstate] holds the machine parts the memory manager touches (RAM, the
    RFLAGS register, the serial output) and the file's static variables.
    [heap_vars] are the variables protected by [heap_lock], [page_vars]
    those protected by [page_lock]. *)
From S2P Require Import Prelude Machine Serial.

Definition PAGE_SIZE : Z := 4096.
Definition MAX_PAGES : Z := 262144.
Definition HEAP_PAGE_COUNT : Z := 4096.
Definition MIN_ALLOC_ALIGN : Z := 8.
Definition MIN_SPLIT_REMAINDER : Z := 64.

(** [heap_start], [heap_search_hint] are pointers; NULL is 0. *)
Record heap_vars := HeapVars {
  heap_start : Z;
  heap_search_hint : Z;
  heap_initialized : Z;
  total_allocated : Z;
  total_freed : Z;
  heap_start_page : Z
}.

(** [page_bitmap] is the [uint8_t] array of [MAX_PAGES] entries, as a byte
    memory indexed from 0. *)
Record page_vars := PageVars {
  page_bitmap : mem;
  page_alloc_hint : Z
}.

Record mstate := MState {
  ram : mem;
  rflags : Z;
  serial : list sev;
  heap_lock : Z;
  page_lock : Z;
  hv : heap_vars;
  pv : page_vars
}.

Definition set_ram (m : mem) (s : mstate) : mstate :=
  MState m (rflags s) (serial s) (heap_lock s) (page_lock s) (hv s) (pv s).
Definition set_rflags (f : Z) (s : mstate) : mstate :=
  MState (ram s) f (serial s) (heap_lock s) (page_lock s) (hv s) (pv s).
Definition set_heap (h : heap_vars) (m : mem) (s : mstate) : mstate :=
  MState m (rflags s) (serial s) (heap_lock s) (page_lock s) h (pv s).
Definition set_pages (p : page_vars) (s : mstate) : mstate :=
  MState (ram s) (rflags s) (serial s) (heap_lock s) (page_lock s) (hv s) p.
Definition add_serial (es : list sev) (s : mstate) : mstate :=
  MState (ram s) (rflags s) (serial s ++ es) (heap_lock s) (page_lock s) (hv s) (pv s).

Definition set_hint (p : Z) (h : heap_vars) : heap_vars :=
  HeapVars (heap_start h) p (heap_initialized h) (total_allocated h) (total_freed h) (heap_start_page h).
Definition set_total_allocated (v : Z) (h : heap_vars) : heap_vars :=
  HeapVars (heap_start h) (heap_search_hint h) (heap_initialized h) v (total_freed h) (heap_start_page h).
Definition set_total_freed (v : Z) (h : heap_vars) : heap_vars :=
  HeapVars (heap_start h) (heap_search_hint h) (heap_initialized h) (total_allocated h) v (heap_start_page h).
Definition set_start_page (v : Z) (h : heap_vars) : heap_vars :=
  HeapVars (heap_start h) (heap_search_hint h) (heap_initialized h) (total_allocated h) (total_freed h) v.

Definition say (es : list sev) : M mstate unit := modify (add_serial es).

(** ** Interrupt flag and spin locks *)

Inductive lock_id := HeapLock | PageLock.

Definition lock_word (l : lock_id) (s : mstate) : Z :=
  match l with HeapLock => heap_lock s | PageLock => page_lock s end.
Definition set_lock (l : lock_id) (v : Z) (s : mstate) : mstate :=
  match l with
  | HeapLock => MState (ram s) (rflags s) (serial s) v (page_lock s) (hv s) (pv s)
  | PageLock => MState (ram s) (rflags s) (serial s) (heap_lock s) v (hv s) (pv s)
  end.

(** [pushfq; popq; cli]: the old flags, then IF (bit 9) cleared. *)
Definition irq_save_disable : M mstate Z := fun s =>
  Ret (rflags s, set_rflags (Z.clearbit (rflags s) 9) s).

Definition irq_restore (flags : Z) : M mstate unit := fun s =>
  if Z.testbit flags 9 then Ret (tt, set_rflags (Z.setbit (rflags s) 9) s) else Ret (tt, s).

(** [__sync_lock_test_and_set] stores 1 and returns the old word.  If that
    was not 0 the code waits for someone else to clear the lock: on the one
    processor, with interrupts off, no one does. *)
Definition spin_lock (l : lock_id) : M mstate unit := fun s =>
  if lock_word l s =? 0 then Ret (tt, set_lock l 1 s) else Hang.

Definition spin_unlock (l : lock_id) : M mstate unit := modify (set_lock l 0).

(** [align_up], at 32 bits: the complement and the sum wrap. *)
Definition align_up (value align : Z) : Z :=
  Z.land (u32 (value + align - 1)) (u32 (Z.lnot (u32 (align - 1)))).

(** Runs a locked region that only touches the heap variables and RAM. *)
Definition on_heap {A} (f : heap_vars -> mem -> outcome (A * heap_vars * mem)) : M mstate A :=
  fun s => match f (hv s) (ram s) with
           | Ret (a, h, m) => Ret (a, set_heap h m s)
           | Hang => Hang
           | NoFuel => NoFuel
           end.

(** ** Lemmas *)

(** At 8 bytes, [align_up] rounds up to the next multiple of 8, and wraps
    to 0 in the last seven values of the type. *)
Lemma align_up_8 v :
  0 <= v < 4294967296 ->
  align_up v 8 = if v <=? 4294967288 then v + (- v) mod 8 else 0.
Proof.
  intros Hv. unfold align_up.
  assert (Z.land (u32 (v + 8 - 1)) (u32 (Z.lnot (u32 (8 - 1))))
          = u32 (v + 8 - 1) - u32 (v + 8 - 1) mod 2 ^ 3) as ->.
  { rewrite <- land_lnot_ones by lia.
    change (u32 (Z.lnot (u32 (8 - 1)))) with (Z.land (Z.lnot (Z.ones 3)) (Z.ones 32)).
    rewrite Z.land_assoc, Z.land_ones by lia. apply Z.mod_small.
    rewrite land_lnot_ones by lia. pose proof (u32_range (v + 8 - 1)).
    change (2 ^ 3) with 8. change (2 ^ 32) with 4294967296. word_lia. }
  change (2 ^ 3) with 8. zcases; word_lia.
Qed.

Lemma align_up_8_bounds v :
  0 <= v <= 4294967288 -> v <= align_up v 8 < v + 8 /\ align_up v 8 mod 8 = 0.
Proof. intros H. rewrite align_up_8 by lia. zcases; word_lia. Qed.

(** A locked section entered with the lock free leaves the lock free and the
    interrupt flag as it was, whatever it does to heap and memory. *)
Definition locked {A} (l : lock_id) (c : M mstate A) : M mstate A :=
  flags ← irq_save_disable;
  spin_lock l;;
  r ← c;
  spin_unlock l;;
  irq_restore flags;;
  mret r.

Lemma rflags_restored f : 
  (if Z.testbit f 9 then Z.setbit (Z.clearbit f 9) 9 else Z.clearbit f 9) = f.
Proof.
  destruct (Z.testbit f 9) eqn:E; apply Z.bits_inj'; intros n Hn.
  - rewrite Z.setbit_eqb by lia. destruct (Z.eqb_spec 9 n) as [<-|]; [by rewrite E|].
    rewrite Z.clearbit_neq by lia. reflexivity.
  - rewrite Z.clearbit_eqb. destruct (Z.eqb_spec 9 n) as [<-|]; [by rewrite E|].
    by rewrite andb_true_r.
Qed.

Lemma locked_on_heap {A} (f : heap_vars -> mem -> outcome (A * heap_vars * mem)) s a h m :
  heap_lock s = 0 ->
  f (hv s) (ram s) = Ret (a, h, m) ->
  locked HeapLock (on_heap f) s = Ret (a, set_heap h m s).
Proof.
  intros Hl Hf. destruct s as [r fl ser hl pl hvs pvs]; cbn in Hl, Hf; subst hl.
  pose proof (rflags_restored fl) as Hfl.
  unfold locked, mbind, M_bind, irq_save_disable, spin_lock, on_heap, spin_unlock, modify,
    irq_restore, set_rflags; cbn [lock_word set_lock heap_lock page_lock ram rflags serial hv pv].
  cbn [Z.eqb]. cbn [hv ram]. rewrite Hf.
  cbn [set_heap set_lock heap_lock page_lock ram rflags serial hv pv].
  destruct (Z.testbit fl 9); unfold mret, M_ret, set_heap; cbn; rewrite Hfl; reflexivity.
Qed.

(** ** Output *)

Lemma add_serial_nil m : add_serial [] m = m.
Proof. destruct m. unfold add_serial. cbn. by rewrite app_nil_r. Qed.

Lemma add_serial_app es1 es2 m : add_serial es2 (add_serial es1 m) = add_serial (es1 ++ es2) m.
Proof. unfold add_serial. cbn. by rewrite app_assoc. Qed.
