(* ===== verification/Heap.v ===== *)
(** * The kernel heap (Kernel/Memory/Memory_Main.c, lines 22-133 and 186-429)

    The heap is a chain of [memory_block_t] headers kept in RAM, each
    followed by its payload: [size] (4 bytes), [is_free] (4 bytes), [next]
    (8 bytes), 16 bytes in all.  The operations below read and write those
    bytes, in the order of the source.  Loops over the chain take
    [heap_fuel] steps, more than the number of headers that fit the heap;
    HeapInv.v shows that a well-formed heap never runs out. *)
From S2P Require Import Prelude Machine Utils Serial Memory.

Definition sizeof_block : Z := 16.

Definition blk_size (m : mem) (b : Z) : Z := ld32 m b.
Definition blk_is_free (m : mem) (b : Z) : Z := ld32 m (b + 4).
Definition blk_next (m : mem) (b : Z) : Z := ld64 m (b + 8).
Definition set_blk_size (m : mem) (b v : Z) : mem := st32 m b v.
Definition set_blk_is_free (m : mem) (b v : Z) : mem := st32 m (b + 4) v.
Definition set_blk_next (m : mem) (b v : Z) : mem := st64 m (b + 8) v.

Definition heap_fuel : nat := Z.to_nat 1048578.
Lemma heap_fuel_val : Z.of_nat heap_fuel = 1048578.
Proof. unfold heap_fuel. lia. Qed.
#[global] Opaque heap_fuel.

(** The block whose payload is [target], and the block before it (0 at the
    head); [(0, 0)] when the chain has none. *)
Fixpoint find_block_from (fuel : nat) (m : mem) (current prev target : Z) : outcome (Z * Z) :=
  match fuel with
  | O => NoFuel
  | S f =>
      if current =? 0 then Ret (0, 0)
      else if u64 (current + sizeof_block) =? target then Ret (current, prev)
      else find_block_from f m (blk_next m current) current target
  end.

Definition find_block_by_payload (h : heap_vars) (m : mem) (ptr : Z) : outcome (Z * Z) :=
  find_block_from heap_fuel m (heap_start h) 0 ptr.

Definition split_block_if_needed (m : mem) (block size : Z) : mem :=
  if size + sizeof_block + MIN_SPLIT_REMAINDER <=? blk_size m block then
    let new_block := block + sizeof_block + size in
    let m := set_blk_size m new_block (u32 (u32 (blk_size m block - size) - sizeof_block)) in
    let m := set_blk_is_free m new_block 1 in
    let m := set_blk_next m new_block (blk_next m block) in
    let m := set_blk_size m block size in
    set_blk_next m block new_block
  else m.

Fixpoint kmalloc_loop (fuel : nat) (h : heap_vars) (m : mem) (start current : Z) (wrapped : bool)
    (size : Z) : outcome (Z * heap_vars * mem) :=
  match fuel with
  | O => NoFuel
  | S f =>
      if current =? 0 then Ret (0, h, m)
      else if negb (blk_is_free m current =? 0) && (size <=? blk_size m current) then
        let m := split_block_if_needed m current size in
        let m := set_blk_is_free m current 0 in
        let h := set_total_allocated (u32 (total_allocated h + blk_size m current)) h in
        let nx := blk_next m current in
        let h := set_hint (if nx =? 0 then heap_start h else nx) h in
        Ret (current + sizeof_block, h, m)
      else
        let current := blk_next m current in
        let '(current, wrapped) :=
          if (current =? 0) && negb wrapped then (heap_start h, true) else (current, wrapped) in
        if wrapped && (current =? start) then Ret (0, h, m)
        else kmalloc_loop f h m start current wrapped size
  end.

Definition kmalloc_locked (size : Z) (h : heap_vars) (m : mem) : outcome (Z * heap_vars * mem) :=
  let h := if heap_search_hint h =? 0 then set_hint (heap_start h) h else h in
  let start := heap_search_hint h in
  kmalloc_loop heap_fuel h m start start false size.

(** [kernel_end] is the address of the linker symbol [_kernel_end]. *)
Definition calc_heap_start_page (kernel_end : Z) (h : heap_vars) : Z * heap_vars :=
  if negb (heap_start_page h =? 0) then (heap_start_page h, h)
  else let p := u32 (u64 (kernel_end + PAGE_SIZE - 1) / PAGE_SIZE) in (p, set_start_page p h).

Definition memory_init (kernel_end : Z) : M mstate unit := fun s =>
  if negb (heap_initialized (hv s) =? 0) then
    say [line "[OS] [Memory] Heap already initialized"] s
  else
    let '(start_page, h) := calc_heap_start_page kernel_end (hv s) in
    let hs := u64 (start_page * PAGE_SIZE) in
    let m := set_blk_size (ram s) hs (u32 (HEAP_PAGE_COUNT * PAGE_SIZE - sizeof_block)) in
    let m := set_blk_is_free m hs 1 in
    let m := set_blk_next m hs 0 in
    let h := HeapVars hs hs 1 0 0 (heap_start_page h) in
    let s := set_heap h m s in
    let s := set_pages (PageVars (page_bitmap (pv s)) 0) s in
    say [SStr "[OS] [Memory] Heap initialized at "; SU64 hs; SStr " with size ";
         SU32 (blk_size m hs); line " bytes"] s.

Definition kmalloc (size : Z) : M mstate Z :=
  init ← gets (fun s => heap_initialized (hv s));
  if init =? 0 then
    say [line "[OS] [Memory] kmalloc called before heap init!"];; mret 0
  else if size =? 0 then mret 0
  else
    let size := align_up size MIN_ALLOC_ALIGN in
    ptr ← locked HeapLock (on_heap (kmalloc_locked size));
    if negb (ptr =? 0) then mret ptr
    else
      say [SStr "[OS] [Memory] kmalloc: Out of memory (requested "; SU32 size;
           line " bytes)"];; mret 0.

(** The three exits of the locked region of [kfree]. *)
Inductive kfree_exit := FreeUntracked | FreeDouble | FreeDone.

Definition kfree_locked (ptr : Z) (h : heap_vars) (m : mem)
    : outcome (kfree_exit * heap_vars * mem) :=
  '(block, prev) ← find_block_by_payload h m ptr;
  if block =? 0 then Ret (FreeUntracked, h, m)
  else if negb (blk_is_free m block =? 0) then Ret (FreeDouble, h, m)
  else
    let m := set_blk_is_free m block 1 in
    let h := set_total_freed (u32 (total_freed h + blk_size m block)) h in
    let nx := blk_next m block in
    let m :=
      if negb (nx =? 0) && negb (blk_is_free m nx =? 0) then
        let m := set_blk_size m block (u32 (blk_size m block + (sizeof_block + blk_size m nx))) in
        set_blk_next m block (blk_next m nx)
      else m in
    let '(m, block) :=
      if negb (prev =? 0) && negb (blk_is_free m prev =? 0) then
        let m := set_blk_size m prev (u32 (blk_size m prev + (sizeof_block + blk_size m block))) in
        let m := set_blk_next m prev (blk_next m block) in
        (m, prev)
      else (m, block) in
    Ret (FreeDone, set_hint block h, m).

Definition kfree (ptr : Z) : M mstate unit :=
  if ptr =? 0 then mret tt
  else
    h ← gets hv;
    if (heap_initialized h =? 0) || (heap_start h =? 0) then
      say [line "[OS] [Memory] kfree: Heap not initialized"]
    else
      let heap_end_addr := u64 (heap_start h + HEAP_PAGE_COUNT * PAGE_SIZE) in
      if (ptr <? u64 (heap_start h + sizeof_block)) || (heap_end_addr <=? ptr) then
        say [line "[OS] [Memory] kfree: Invalid pointer"]
      else
        r ← locked HeapLock (on_heap (kfree_locked ptr));
        match r with
        | FreeUntracked => say [line "[OS] [Memory] kfree: Pointer not tracked"]
        | FreeDouble => say [line "[OS] [Memory] kfree: Double free detected"]
        | FreeDone => mret tt
        end.

Definition kcalloc (num size : Z) : M mstate Z :=
  if negb (num =? 0) && (4294967295 / num <? size) then
    say [line "[OS] [Memory] kcalloc: Size overflow"];; mret 0
  else
    let total_size := u32 (num * size) in
    ptr ← kmalloc total_size;
    (if negb (ptr =? 0) then
       modify (fun s => set_ram
         (for_up (Z.to_nat total_size) 0 (fun i m => st8 m (ptr + i) 0) (ram s)) s)
     else mret tt);;
    mret ptr.

(** The exits of the locked region of [krealloc]: a pointer that is not an
    allocated block, the block resized in place, or its old size when the
    contents have to move. *)
Inductive krealloc_exit := ReallocInvalid | ReallocInPlace | ReallocMove (old_size : Z).

Definition krealloc_locked (ptr new_size : Z) (h : heap_vars) (m : mem)
    : outcome (krealloc_exit * heap_vars * mem) :=
  '(block, _) ← find_block_by_payload h m ptr;
  if (block =? 0) || negb (blk_is_free m block =? 0) then Ret (ReallocInvalid, h, m)
  else
    let old_size := blk_size m block in
    if new_size <=? old_size then
      Ret (ReallocInPlace, h, split_block_if_needed m block new_size)
    else
      let nx := blk_next m block in
      if negb (nx =? 0) && negb (blk_is_free m nx =? 0) &&
         (new_size <=? blk_size m block + sizeof_block + blk_size m nx) then
        let m := set_blk_size m block (u32 (blk_size m block + (sizeof_block + blk_size m nx))) in
        let m := set_blk_next m block (blk_next m nx) in
        Ret (ReallocInPlace, h, split_block_if_needed m block new_size)
      else Ret (ReallocMove old_size, h, m).

Definition krealloc (ptr new_size : Z) : M mstate Z :=
  if ptr =? 0 then kmalloc new_size
  else if new_size =? 0 then kfree ptr;; mret 0
  else
    let new_size := align_up new_size MIN_ALLOC_ALIGN in
    r ← locked HeapLock (on_heap (krealloc_locked ptr new_size));
    match r with
    | ReallocInvalid => say [line "[OS] [Memory] krealloc: Invalid pointer"];; mret 0
    | ReallocInPlace => mret ptr
    | ReallocMove old_size =>
        new_ptr ← kmalloc new_size;
        if new_ptr =? 0 then mret 0
        else
          modify (fun s => set_ram (memcpy (ram s) new_ptr ptr old_size) s);;
          kfree ptr;;
          mret new_ptr
    end.

Fixpoint free_memory_from (fuel : nat) (m : mem) (current acc : Z) : outcome Z :=
  match fuel with
  | O => NoFuel
  | S f =>
      if current =? 0 then Ret acc
      else free_memory_from f m (blk_next m current)
             (if negb (blk_is_free m current =? 0) then u32 (acc + blk_size m current) else acc)
  end.

Definition get_free_memory : M mstate Z :=
  init ← gets (fun s => heap_initialized (hv s));
  if init =? 0 then mret 0
  else locked HeapLock (on_heap (fun h m =>
         n ← free_memory_from heap_fuel m (heap_start h) 0; Ret (n, h, m))).

Definition get_used_memory : M mstate Z :=
  locked HeapLock (on_heap (fun h m => Ret (u32 (total_allocated h - total_freed h), h, m))).

(** [block_count] is an [int], the other two counters are [uint32_t]. *)
Fixpoint count_blocks_from (fuel : nat) (m : mem) (current : Z) (n free used : Z)
    : outcome (Z * Z * Z) :=
  match fuel with
  | O => NoFuel
  | S f =>
      if current =? 0 then Ret (n, free, used)
      else if negb (blk_is_free m current =? 0)
      then count_blocks_from f m (blk_next m current) (s32 (n + 1)) (u32 (free + 1)) used
      else count_blocks_from f m (blk_next m current) (s32 (n + 1)) free (u32 (used + 1))
  end.

Definition debug_print_memory_info : M mstate unit :=
  init ← gets (fun s => heap_initialized (hv s));
  if init =? 0 then say [line "[OS] [Memory] Heap not initialized"]
  else
    locked HeapLock (fun s =>
      '(n, free, used) ← count_blocks_from heap_fuel (ram s) (heap_start (hv s)) 0 0 0;
      say [SStr "[OS] [Memory] Total blocks: "; SU32 (u32 n); SStr " (Free: "; SU32 free;
           SStr ", Used: "; SU32 used; line ")"] s).

(** The [malloc] and [free] of Kernel/Memory/Other_Utils.c. *)
Definition malloc (size : Z) : M mstate Z :=
  if 4294967295 <? size then mret 0 else kmalloc (u32 size).
Definition free (ptr : Z) : M mstate unit := kfree ptr.
