(* ===== verification/HeapChain.v ===== *)
(** * Block lists and their representation in memory

    The abstract heap is a list of blocks in address order.  [tiles] says
    that the blocks cover an address range without gaps; [chain] says that
    the headers in memory are those of the list.  The update lemmas say what
    [split_block_if_needed] and the header writes of [kmalloc], [kfree] and
    [krealloc] do to a chain, and that they touch nothing outside the blocks
    they work on ([frame]). *)
From S2P Require Import Prelude Machine Utils Serial Memory Heap.

Record blk := Blk { ba : Z; bsz : Z; bfr : bool }.
#[export] Instance blk_eq_dec : EqDecision blk.
Proof. solve_decision. Defined.

(** The payload address and the end of a block. *)
Definition bpay (b : blk) : Z := ba b + 16.
Definition bend (b : blk) : Z := ba b + 16 + bsz b.

Definition hd_addr (bs : list blk) (nxt : Z) : Z :=
  match bs with [] => nxt | b :: _ => ba b end.

(** The headers of [bs] are in memory, linked in order; the last one points
    to [nxt]. *)
Fixpoint chain (m : mem) (bs : list blk) (nxt : Z) : Prop :=
  match bs with
  | [] => True
  | b :: r =>
      blk_size m (ba b) = bsz b /\ blk_is_free m (ba b) = b2z (bfr b) /\
      blk_next m (ba b) = hd_addr r nxt /\ chain m r nxt
  end.

(** [bs] covers [[a, e)]; sizes are multiples of 8. *)
Fixpoint tiles (a : Z) (bs : list blk) (e : Z) : Prop :=
  match bs with
  | [] => a = e
  | b :: r => ba b = a /\ 0 <= bsz b /\ bsz b mod 8 = 0 /\ tiles (bend b) r e
  end.

(** Everything outside [[lo, hi)] is unchanged. *)
Definition frame (m m' : mem) (lo hi : Z) : Prop :=
  forall a, a < lo \/ hi <= a -> ld8 m' a = ld8 m a.

(** ** Frames *)

Create HintDb heap.

Lemma frame_refl m lo hi : frame m m lo hi.
Proof. intros a _. reflexivity. Qed.
Lemma frame_trans m1 m2 m3 lo hi :
  frame m1 m2 lo hi -> frame m2 m3 lo hi -> frame m1 m3 lo hi.
Proof. intros H1 H2 a Ha. rewrite H2, H1 by assumption. reflexivity. Qed.
Lemma frame_wider m m' lo hi lo' hi' :
  frame m m' lo hi -> lo' <= lo -> hi <= hi' -> frame m m' lo' hi'.
Proof. intros H ? ? a Ha. apply H. lia. Qed.
Lemma frame_agree m m' lo hi l h : frame m m' lo hi -> h <= lo \/ hi <= l -> agree m m' l h.
Proof. intros H Hd a Ha. apply H. lia. Qed.
Lemma frame_st32 m a v lo hi : lo <= a -> a + 4 <= hi -> frame m (st32 m a v) lo hi.
Proof. intros ? ? b Hb. apply (ld8_stn 4). lia. Qed.
Lemma frame_st64 m a v lo hi : lo <= a -> a + 8 <= hi -> frame m (st64 m a v) lo hi.
Proof. intros ? ? b Hb. apply (ld8_stn 8). lia. Qed.

(** Discharges a frame goal for a nest of header writes. *)
Ltac solve_frame :=
  repeat match goal with
  | |- frame ?m ?m _ _ => apply frame_refl
  | |- frame _ (set_blk_size _ _ _) _ _ => unfold set_blk_size
  | |- frame _ (set_blk_is_free _ _ _) _ _ => unfold set_blk_is_free
  | |- frame _ (set_blk_next _ _ _) _ _ => unfold set_blk_next
  | |- frame _ (st32 ?m ?a ?v) _ _ =>
      apply frame_trans with m; [|apply frame_st32; unfold bend in *; lia]
  | |- frame _ (st64 ?m ?a ?v) _ _ =>
      apply frame_trans with m; [|apply frame_st64; unfold bend in *; lia]
  end.

(** ** Geometry *)

Lemma tiles_app a l1 l2 e :
  tiles a (l1 ++ l2) e <-> exists c, tiles a l1 c /\ tiles c l2 e.
Proof.
  revert a; induction l1 as [|b l1 IH]; intros a; simpl.
  - split; [eauto | intros (c & -> & H); exact H].
  - rewrite IH. split.
    + intros (H1 & H2 & H3 & c & H4 & H5). eauto 10.
    + intros (c & (H1 & H2 & H3 & H4) & H5). eauto 10.
Qed.

Lemma tiles_le a bs e : tiles a bs e -> a + 16 * Z.of_nat (length bs) <= e.
Proof.
  revert a; induction bs as [|b bs IH]; intros a; simpl; [lia|].
  intros (H1 & H2 & H3 & H4). apply IH in H4. unfold bend in H4. lia.
Qed.

Lemma tiles_bounds a bs e b : tiles a bs e -> b ∈ bs -> a <= ba b /\ bend b <= e.
Proof.
  revert a; induction bs as [|c bs IH]; intros a; simpl; [set_solver|].
  intros (H1 & H2 & H3 & H4) [->|Hb]%elem_of_cons.
  - apply tiles_le in H4. lia.
  - apply (IH _ H4) in Hb. unfold bend in *. lia.
Qed.

Lemma tiles_size a bs e b : tiles a bs e -> b ∈ bs -> 0 <= bsz b /\ bsz b mod 8 = 0.
Proof.
  revert a; induction bs as [|c bs IH]; intros a; simpl; [set_solver|].
  intros (H1 & H2 & H3 & H4) [->|Hb]%elem_of_cons; [auto|eauto].
Qed.

Lemma tiles_middle a l1 b l2 e :
  tiles a (l1 ++ b :: l2) e ->
  tiles a l1 (ba b) /\ 0 <= bsz b /\ bsz b mod 8 = 0 /\ tiles (bend b) l2 e /\
  a <= ba b /\ bend b <= e.
Proof.
  intros H. pose proof (tiles_bounds _ _ _ b H (elem_mid _ _ _)) as Hb.
  apply tiles_app in H as (c & H1 & H2). simpl in H2. destruct H2 as (<- & H3 & H4 & H5). tauto.
Qed.

Lemma tiles_aligned a bs e b : tiles a bs e -> a mod 8 = 0 -> b ∈ bs -> ba b mod 8 = 0.
Proof.
  revert a; induction bs as [|c bs IH]; intros a; simpl; [set_solver|].
  intros (H1 & H2 & H3 & H4) Ha [->|Hb]%elem_of_cons; [congruence|].
  apply (IH _ H4); [|assumption]. unfold bend. word_lia.
Qed.

(** Two blocks of a tiling are the same or apart. *)
Lemma tiles_disjoint a bs e b c :
  tiles a bs e -> b ∈ bs -> c ∈ bs -> b = c \/ bend b <= ba c \/ bend c <= ba b.
Proof.
  revert a; induction bs as [|d bs IH]; intros a; simpl; [set_solver|].
  intros (H1 & H2 & H3 & H4) [->|Hb]%elem_of_cons [->|Hc]%elem_of_cons;
    [auto | apply (tiles_bounds _ _ _ _ H4) in Hc; lia
     | apply (tiles_bounds _ _ _ _ H4) in Hb; lia | eauto].
Qed.

Lemma tiles_addr_inj a bs e b c :
  tiles a bs e -> b ∈ bs -> c ∈ bs -> ba b = ba c -> b = c.
Proof.
  intros Ht Hb Hc Heq. pose proof (tiles_size _ _ _ _ Ht Hb). pose proof (tiles_size _ _ _ _ Ht Hc).
  destruct (tiles_disjoint _ _ _ _ _ Ht Hb Hc) as [|[?|?]]; [assumption| |]; unfold bend in *; lia.
Qed.

(** ** Chains *)

Lemma hd_addr_app l1 l2 nxt : hd_addr (l1 ++ l2) nxt = hd_addr l1 (hd_addr l2 nxt).
Proof. by destruct l1. Qed.

Lemma chain_app m l1 l2 nxt :
  chain m (l1 ++ l2) nxt <-> chain m l1 (hd_addr l2 nxt) /\ chain m l2 nxt.
Proof.
  induction l1 as [|b l1 IH]; simpl; [tauto|]. rewrite IH, hd_addr_app. tauto.
Qed.

Lemma chain_ext m m' bs nxt :
  (forall b, b ∈ bs -> agree m m' (ba b) (ba b + 16)) -> chain m bs nxt -> chain m' bs nxt.
Proof.
  induction bs as [|b bs IH]; simpl; [auto|]. intros Ha (H1 & H2 & H3 & H4).
  pose proof (Ha b (elem_hd _ _)) as Hb.
  unfold blk_size, blk_is_free, blk_next in *.
  rewrite (ld32_ext m m' (ba b)), (ld32_ext m m' (ba b + 4)), (ld64_ext m m' (ba b + 8))
    by (eapply agree_sub; [..|exact Hb]; lia).
  split_and!; try assumption. apply IH; [|assumption]. intros c Hc. by apply Ha, elem_tl.
Qed.

Lemma chain_frame_before m m' a bs lo hi nxt :
  tiles a bs lo -> frame m m' lo hi -> chain m bs nxt -> chain m' bs nxt.
Proof.
  intros Ht Hf. apply chain_ext. intros b Hb.
  pose proof (tiles_bounds _ _ _ _ Ht Hb). pose proof (tiles_size _ _ _ _ Ht Hb).
  eapply frame_agree; [exact Hf|]. unfold bend in *. lia.
Qed.

Lemma chain_frame_after m m' bs lo hi e nxt :
  tiles hi bs e -> frame m m' lo hi -> chain m bs nxt -> chain m' bs nxt.
Proof.
  intros Ht Hf. apply chain_ext. intros b Hb.
  pose proof (tiles_bounds _ _ _ _ Ht Hb). eapply frame_agree; [exact Hf|]. lia.
Qed.

(** The middle of a chain is rewritten in place: the blocks before and after
    keep their headers, and the address of the first rewritten block stays. *)
Lemma chain_replace m m' a pre mid mid' post e nxt :
  tiles a (pre ++ mid ++ post) e ->
  chain m (pre ++ mid ++ post) nxt ->
  (forall lo hi, tiles a pre lo -> tiles lo mid hi -> tiles hi post e ->
     chain m mid (hd_addr post nxt) -> frame m m' lo hi /\ chain m' mid' (hd_addr post nxt)) ->
  hd_addr mid' 0 = hd_addr mid 0 -> mid <> [] -> mid' <> [] ->
  chain m' (pre ++ mid' ++ post) nxt.
Proof.
  intros Ht Hc Hm Hhd Hne Hne'.
  apply tiles_app in Ht as (lo & Hpre & Ht). apply tiles_app in Ht as (hi & Hmid & Hpost).
  rewrite !chain_app in Hc. destruct Hc as (C1 & C2 & C3).
  destruct (Hm lo hi Hpre Hmid Hpost C2) as [Hf Hm'].
  rewrite !chain_app. repeat split.
  - replace (hd_addr (mid' ++ post) nxt) with (hd_addr (mid ++ post) nxt)
      by (destruct mid, mid'; simpl in *; congruence).
    eapply chain_frame_before; eauto.
  - assumption.
  - eapply chain_frame_after; eauto.
Qed.

(** Reads of the header words just written. *)
Ltac header_simpl :=
  unfold blk_size, blk_is_free, blk_next, set_blk_size, set_blk_is_free, set_blk_next in *;
  autorewrite with memory.

(** [split_block_if_needed] on a block list. *)
Definition split_abs (b : blk) (size : Z) : list blk :=
  if size + 16 + 64 <=? bsz b
  then [Blk (ba b) size (bfr b); Blk (ba b + 16 + size) (bsz b - size - 16) true]
  else [b].

Lemma split_abs_hd b size nxt : hd_addr (split_abs b size) nxt = ba b.
Proof. unfold split_abs. by destruct (_ <=? _). Qed.
Lemma split_abs_ne b size : split_abs b size <> [].
Proof. unfold split_abs. by destruct (_ <=? _). Qed.

Lemma tiles_split b size : 0 <= size -> size mod 8 = 0 -> 0 <= bsz b -> bsz b mod 8 = 0 ->
  tiles (ba b) (split_abs b size) (bend b).
Proof.
  intros H1 H2 H3 H4. unfold split_abs, bend. zcases; simpl; unfold bend; simpl; split_and!; word_lia.
Qed.

Section split.
Context (m : mem) (b : blk) (size nxt : Z).
Context (Hb0 : 0 <= ba b) (Hb : bend b < 18446744073709551616) (Hsz : bsz b < 4294967296).
Context (Hs : 0 <= size) (Hn : 0 <= nxt < 18446744073709551616).
Context (Hc : chain m [b] nxt).

Lemma split_frame : 0 <= bsz b -> frame m (split_block_if_needed m (ba b) size) (ba b) (bend b).
Proof using Hc Hs.
  intros Hb1. destruct Hc as (H1 & _). unfold split_block_if_needed. rewrite H1.
  unfold sizeof_block, MIN_SPLIT_REMAINDER. zcases; solve_frame.
Qed.

(** The first [size] payload bytes stay. *)
Lemma split_payload :
  agree m (split_block_if_needed m (ba b) size) (ba b + 16) (ba b + 16 + size).
Proof using Hc Hs.
  destruct Hc as (H1 & _). unfold split_block_if_needed. rewrite H1.
  unfold sizeof_block, MIN_SPLIT_REMAINDER. zcases; [|apply agree_refl].
  unfold set_blk_size, set_blk_is_free, set_blk_next.
  repeat (eapply agree_trans; [|first [apply agree_st32 | apply agree_st64]; lia]).
  apply agree_refl.
Qed.

Lemma split_chain : chain (split_block_if_needed m (ba b) size) (split_abs b size) nxt.
Proof using All.
  destruct Hc as (H1 & H2 & H3 & _).
  unfold split_block_if_needed, split_abs. rewrite H1.
  unfold sizeof_block, MIN_SPLIT_REMAINDER, bend in *.
  zcases; [|simpl; auto]. cbn [chain ba bsz bfr hd_addr].
  header_simpl. cbn [hd_addr] in H3. rewrite ?H1, ?H2, ?H3.
  split_and!; (word_lia || reflexivity).
Qed.
End split.
