(* ===== verification/HeapInv.v ===== *)
(** * The heap invariant and the locked regions of [kmalloc] and [kfree]

    [heap_wf h m bs]: the static variables [h] and the headers in [m]
    represent the block list [bs], which tiles the 16 MiB heap.  The lemmas
    give the result of the search loops on a well-formed heap as functions
    of the block list, hence that they never run out of fuel, and the block
    list after each operation. *)
From S2P Require Import Prelude Machine Utils Serial Memory Heap HeapChain.

Definition HEAP_BYTES : Z := HEAP_PAGE_COUNT * PAGE_SIZE.

Record heap_wf (h : heap_vars) (m : mem) (bs : list blk) : Prop := HeapWf {
  wf_init : heap_initialized h = 1;
  wf_start : 0 < heap_start h;
  wf_align : heap_start h mod 8 = 0;
  wf_end : heap_start h + HEAP_BYTES < 18446744073709551616;
  wf_tiles : tiles (heap_start h) bs (heap_start h + HEAP_BYTES);
  wf_chain : chain m bs 0;
  wf_hint : heap_search_hint h = 0 \/ exists b, b ∈ bs /\ heap_search_hint h = ba b
}.

(** Sum of the sizes of the allocated blocks, and of the free ones. *)
Fixpoint used (bs : list blk) : Z :=
  match bs with [] => 0 | b :: r => (if bfr b then 0 else bsz b) + used r end.
Fixpoint unused (bs : list blk) : Z :=
  match bs with [] => 0 | b :: r => (if bfr b then bsz b else 0) + unused r end.

(** The two counters agree with the blocks. *)
Definition heap_acct (h : heap_vars) (bs : list blk) : Prop :=
  u32 (total_allocated h - total_freed h) = used bs.

(** No two free blocks are neighbours. *)
Fixpoint coalesced (bs : list blk) : Prop :=
  match bs with
  | b :: ((c :: _) as r) => (bfr b && bfr c = false) /\ coalesced r
  | _ => True
  end.

(** ** Facts a well-formed heap gives about its blocks *)

Section wf_facts.
Context (h : heap_vars) (m : mem) (bs : list blk) (Hwf : heap_wf h m bs).

Lemma wf_nonempty : bs <> [].
Proof using Hwf.
  destruct Hwf as [_ _ _ _ Ht]. intros ->. cbn [tiles] in Ht.
  change HEAP_BYTES with 16777216 in Ht. lia.
Qed.

Lemma wf_start_hd : heap_start h = hd_addr bs 0.
Proof using Hwf.
  pose proof wf_nonempty. destruct Hwf as [_ _ _ _ Ht]. destruct bs; [done|]. simpl in *. lia.
Qed.

Lemma wf_length : (length bs < heap_fuel)%nat.
Proof using Hwf.
  destruct Hwf as [_ _ _ _ Ht]. apply tiles_le in Ht.
  pose proof heap_fuel_val.
  change HEAP_BYTES with 16777216 in Ht. lia.
Qed.

Lemma wf_block b : b ∈ bs ->
  heap_start h <= ba b /\ bend b <= heap_start h + HEAP_BYTES /\ 0 < ba b /\ ba b mod 8 = 0 /\
  bend b < 18446744073709551616 /\ 0 <= bsz b < 16777216 /\ bsz b mod 8 = 0.
Proof using Hwf.
  intros Hb. destruct Hwf as [_ Hs Ha He Ht].
  pose proof (tiles_bounds _ _ _ _ Ht Hb). pose proof (tiles_size _ _ _ _ Ht Hb).
  pose proof (tiles_aligned _ _ _ _ Ht Ha Hb).
  change HEAP_BYTES with 16777216 in *. unfold bend in *. lia.
Qed.
End wf_facts.

(** ** The search of [find_block_by_payload] *)

Fixpoint find_abs (bs : list blk) (prev target : Z) : Z * Z :=
  match bs with
  | [] => (0, 0)
  | b :: r => if bpay b =? target then (ba b, prev) else find_abs r (ba b) target
  end.

Lemma find_block_from_abs fuel m bs prev target :
  chain m bs 0 ->
  (forall b, b ∈ bs -> 0 < ba b /\ bpay b < 18446744073709551616) ->
  (length bs < fuel)%nat ->
  find_block_from fuel m (hd_addr bs 0) prev target = Ret (find_abs bs prev target).
Proof.
  revert bs prev; induction fuel as [|fuel IH]; intros bs prev Hc Hb Hl; [lia|].
  destruct bs as [|b bs]; cbn [find_block_from hd_addr find_abs]; [reflexivity|].
  destruct (Hb b (elem_hd _ _)) as [Hb1 Hb2]. destruct Hc as (_ & _ & H3 & H4).
  destruct (Z.eqb_spec (ba b) 0); [lia|]. unfold bpay, sizeof_block in *.
  rewrite u64_small by lia. destruct (Z.eqb_spec (ba b + 16) target); [reflexivity|].
  rewrite H3. apply IH; [assumption| |simpl in Hl; lia]. intros c Hc'. by apply Hb, elem_tl.
Qed.

Definition last_addr (bs : list blk) (d : Z) : Z :=
  match last bs with Some b => ba b | None => d end.

Lemma find_abs_middle a pre b post e prev :
  tiles a (pre ++ b :: post) e ->
  find_abs (pre ++ b :: post) prev (bpay b) = (ba b, last_addr pre prev).
Proof.
  revert a prev; induction pre as [|c pre IH]; intros a prev Ht; simpl.
  - by rewrite Z.eqb_refl.
  - pose proof (tiles_middle a (c :: pre) b post e Ht) as (Hpre & _).
    simpl in Ht, Hpre. destruct Ht as (H1 & H2 & H3 & H4).
    destruct Hpre as (_ & _ & _ & Hpre). apply tiles_le in Hpre.
    unfold bpay, bend in *. destruct (Z.eqb_spec (ba c + 16) (ba b + 16)); [lia|].
    rewrite (IH _ _ H4). unfold last_addr. rewrite last_cons. by destruct (last pre).
Qed.

Lemma find_abs_none bs prev target :
  (forall b, b ∈ bs -> bpay b <> target) -> find_abs bs prev target = (0, 0).
Proof.
  revert prev; induction bs as [|b bs IH]; intros prev H; simpl; [reflexivity|].
  destruct (Z.eqb_spec (bpay b) target) as [He|]; [exfalso; by apply (H b (elem_hd _ _))|].
  apply IH. intros c Hc. by apply H, elem_tl.
Qed.

Lemma find_block_wf h m bs ptr :
  heap_wf h m bs -> find_block_by_payload h m ptr = Ret (find_abs bs 0 ptr).
Proof.
  intros Hwf. unfold find_block_by_payload. rewrite (wf_start_hd _ _ _ Hwf).
  apply find_block_from_abs; [apply Hwf| |apply (wf_length _ _ _ Hwf)].
  intros b Hb. pose proof (wf_block _ _ _ Hwf b Hb). unfold bpay, bend in *. lia.
Qed.

(** ** The search of [kmalloc_locked]: next fit *)

Definition fits (size : Z) (b : blk) : bool := bfr b && (size <=? bsz b).

Fixpoint from_addr (a : Z) (bs : list blk) : list blk :=
  match bs with [] => [] | b :: r => if ba b =? a then bs else from_addr a r end.
Fixpoint before_addr (a : Z) (bs : list blk) : list blk :=
  match bs with [] => [] | b :: r => if ba b =? a then [] else b :: before_addr a r end.

(** The blocks in the order they are tried: from the hint to the end, then
    from the start up to the hint. *)
Definition search_order (hint : Z) (bs : list blk) : list blk :=
  if hint =? 0 then bs else from_addr hint bs ++ before_addr hint bs.

Lemma from_before_addr a bs : bs = before_addr a bs ++ from_addr a bs.
Proof.
  induction bs as [|b bs IH]; simpl; [reflexivity|]. destruct (ba b =? a); [reflexivity|].
  simpl. by f_equal.
Qed.

Lemma from_addr_hd a b bs : b ∈ bs -> ba b = a -> hd_addr (from_addr a bs) 0 = a /\ from_addr a bs <> [].
Proof.
  intros Hb Ha. induction bs as [|c bs IH]; [set_solver|]. simpl.
  destruct (Z.eqb_spec (ba c) a) as [<-|Hne]; [split; [reflexivity|discriminate]|].
  apply elem_of_cons in Hb as [->|Hb]; [contradiction|auto].
Qed.

Lemma search_order_elem hint bs b : b ∈ search_order hint bs <-> b ∈ bs.
Proof.
  unfold search_order. destruct (hint =? 0); [reflexivity|].
  rewrite (from_before_addr hint bs) at 3. rewrite !elem_of_app. tauto.
Qed.

(** What [kmalloc_locked] does with the block it takes. *)
Definition take_block (h : heap_vars) (m : mem) (current size : Z) : Z * heap_vars * mem :=
  let m := split_block_if_needed m current size in
  let m := set_blk_is_free m current 0 in
  let h := set_total_allocated (u32 (total_allocated h + blk_size m current)) h in
  let nx := blk_next m current in
  let h := set_hint (if nx =? 0 then heap_start h else nx) h in
  (current + sizeof_block, h, m).

Section kmalloc_loop.
Context (h : heap_vars) (m : mem) (start size : Z).

(** One step of the loop at a block of the chain. *)
Lemma kmalloc_step fuel b r nxt w :
  ba b <> 0 -> chain m (b :: r) nxt ->
  kmalloc_loop (S fuel) h m start (ba b) w size =
  if fits size b then Ret (take_block h m (ba b) size)
  else
    let '(current, w) :=
      if (hd_addr r nxt =? 0) && negb w then (heap_start h, true) else (hd_addr r nxt, w) in
    if w && (current =? start) then Ret (0, h, m)
    else kmalloc_loop fuel h m start current w size.
Proof.
  intros Hb (H1 & H2 & H3 & H4). cbn [kmalloc_loop].
  destruct (Z.eqb_spec (ba b) 0); [contradiction|].
  rewrite H1, H2, H3. unfold fits. destruct (bfr b); reflexivity.
Qed.

(** After the wrap: [rest] runs up to the block [start]. *)
Lemma kmalloc_wrapped rest fuel :
  rest <> [] -> chain m rest start -> start <> 0 ->
  (forall b, b ∈ rest -> ba b <> 0 /\ ba b <> start) ->
  (length rest <= fuel)%nat ->
  kmalloc_loop fuel h m start (hd_addr rest start) true size =
  match List.find (fits size) rest with
  | Some b => Ret (take_block h m (ba b) size)
  | None => Ret (0, h, m)
  end.
Proof.
  revert fuel; induction rest as [|b rest IH]; intros fuel Hne Hc Hs Hb Hl; [done|].
  destruct fuel as [|fuel]; [simpl in Hl; lia|].
  destruct (Hb b (elem_hd _ _)) as [Hb0 Hbs].
  cbn [hd_addr]. rewrite (kmalloc_step fuel b rest start true Hb0 Hc). cbn [List.find].
  destruct (fits size b); [reflexivity|]. rewrite andb_false_r. cbn [andb].
  destruct rest as [|c rest].
  - cbn [hd_addr]. by rewrite Z.eqb_refl.
  - cbn [hd_addr]. destruct (Z.eqb_spec (ba c) start) as [Hcs|].
    { exfalso. apply (Hb c); [by apply elem_tl, elem_hd|assumption]. }
    apply IH; [done|apply Hc|assumption| |simpl in *; lia]. intros d Hd. by apply Hb, elem_tl.
Qed.

(** From the hint to the end of the chain, then around. *)
Lemma kmalloc_unwrapped pre suf fuel :
  suf <> [] -> chain m suf 0 -> chain m pre start -> start <> 0 ->
  heap_start h = hd_addr pre start ->
  (forall b, b ∈ pre -> ba b <> 0 /\ ba b <> start) ->
  (forall b, b ∈ suf -> ba b <> 0) ->
  (length suf + length pre <= fuel)%nat ->
  kmalloc_loop fuel h m start (hd_addr suf 0) false size =
  match List.find (fits size) (suf ++ pre) with
  | Some b => Ret (take_block h m (ba b) size)
  | None => Ret (0, h, m)
  end.
Proof.
  revert fuel; induction suf as [|b suf IH]; intros fuel Hne Hc Hp Hs Hst Hpre Hsuf Hl; [done|].
  destruct fuel as [|fuel]; [simpl in Hl; lia|].
  cbn [hd_addr app List.find].
  rewrite (kmalloc_step fuel b suf 0 false (Hsuf b (elem_hd _ _)) Hc).
  destruct (fits size b); [reflexivity|]. cbn [negb]. rewrite andb_true_r.
  destruct suf as [|c suf].
  - cbn [hd_addr Z.eqb app andb]. rewrite Hst. destruct pre as [|d pre].
    + cbn [hd_addr]. by rewrite Z.eqb_refl.
    + cbn [hd_addr]. destruct (Z.eqb_spec (ba d) start) as [Hd|].
      { exfalso. apply (Hpre d); [apply elem_hd|assumption]. }
      apply (kmalloc_wrapped (d :: pre)); [done|assumption|assumption|assumption|simpl in *; lia].
  - cbn [hd_addr]. pose proof (Hsuf c (elem_tl _ _ _ (elem_hd _ _))) as Hc0.
    destruct (Z.eqb_spec (ba c) 0); [contradiction|]. cbn [andb].
    apply (IH fuel); try assumption; [done|apply Hc| |simpl in *; lia].
    intros d Hd. by apply Hsuf, elem_tl.
Qed.
End kmalloc_loop.

(** The search on a well-formed heap. *)
Lemma kmalloc_locked_search h m bs size :
  heap_wf h m bs ->
  kmalloc_locked size h m =
  let h0 := if heap_search_hint h =? 0 then set_hint (heap_start h) h else h in
  match List.find (fits size) (search_order (heap_search_hint h) bs) with
  | Some b => Ret (take_block h0 m (ba b) size)
  | None => Ret (0, h0, m)
  end.
Proof.
  intros Hwf. unfold kmalloc_locked, search_order. cbn zeta.
  pose proof (wf_nonempty _ _ _ Hwf) as Hne. pose proof (wf_length _ _ _ Hwf) as Hlen.
  pose proof (wf_start_hd _ _ _ Hwf) as Hst.
  assert (forall b, b ∈ bs -> ba b <> 0) as Hnz.
  { intros b Hb. pose proof (wf_block _ _ _ Hwf b Hb). lia. }
  destruct (Z.eqb_spec (heap_search_hint h) 0) as [H0|H0].
  - pose proof (kmalloc_unwrapped (set_hint (heap_start h) h) m (heap_start h) size [] bs heap_fuel) as Hk.
    rewrite <- Hst, app_nil_r in Hk. apply Hk;
      [done|apply Hwf|exact I|pose proof (wf_start _ _ _ Hwf); lia|reflexivity
       |by intros ? ?%elem_of_nil|done|simpl; lia].
  - destruct (wf_hint _ _ _ Hwf) as [|(b & Hb & Hhb)]; [contradiction|].
    destruct (from_addr_hd _ b bs Hb (eq_sym Hhb)) as [Hhd Hfne].
    pose proof (from_before_addr (heap_search_hint h) bs) as Hbs.
    pose proof (wf_chain _ _ _ Hwf) as Hc. pose proof (wf_tiles _ _ _ Hwf) as Ht.
    set (start := heap_search_hint h) in *. set (suf := from_addr start bs) in *.
    set (pre := before_addr start bs) in *. clearbody suf pre.
    rewrite Hbs in Hc, Ht. apply chain_app in Hc as [Hc1 Hc2]. rewrite Hhd in Hc1.
    pose proof (kmalloc_unwrapped h m start size pre suf heap_fuel) as Hk. rewrite Hhd in Hk.
    apply Hk; try assumption; clear Hk.
    + rewrite Hst, Hbs, hd_addr_app, Hhd. reflexivity.
    + intros c Hcp. split; [apply Hnz; rewrite Hbs, elem_of_app; by left|].
      apply tiles_app in Ht as (mid & Ht1 & Ht2).
      destruct suf as [|d suf]; [done|]. simpl in Hhd, Ht2. destruct Ht2 as (Hd & _).
      pose proof (tiles_bounds _ _ _ _ Ht1 Hcp). pose proof (tiles_size _ _ _ _ Ht1 Hcp).
      unfold bend in *. lia.
    + intros c Hcs. apply Hnz. rewrite Hbs, elem_of_app. by right.
    + rewrite Hbs, length_app in Hlen. lia.
Qed.
