(* ===== verification/HeapOps.v ===== *)
(** * What the locked regions do to the block list

    Each header update of Memory_Main.c is a step on represented block lists
    ([rep]): splitting a block, setting its [is_free] word, absorbing its
    successor.  The locked regions of [kmalloc], [kfree] and [krealloc] are
    compositions of these steps. *)
From S2P Require Import Prelude Machine Utils Serial Memory Heap HeapChain HeapInv.

(** Header facts as memory facts, for the rewriting of [header_simpl]. *)
Ltac header_facts H :=
  unfold blk_size, blk_is_free, blk_next in H; cbn [hd_addr] in H.

Lemma chain_set_free m b r v nxt :
  0 <= bsz b -> (forall c, c ∈ r -> bend b <= ba c) -> chain m (b :: r) nxt ->
  chain (set_blk_is_free m (ba b) (b2z v)) (Blk (ba b) (bsz b) v :: r) nxt.
Proof.
  intros Hb Hr (H1 & H2 & H3 & H4). cbn [chain ba bsz bfr].
  header_facts H1. header_facts H3. split; [|split; [|split]].
  - header_simpl. assumption.
  - header_simpl. by destruct v.
  - header_simpl. assumption.
  - eapply chain_ext; [|exact H4]. intros c Hc. apply Hr in Hc. unfold bend in Hc.
    apply agree_st32. lia.
Qed.

(** [b->size += sizeof + n->size; b->next = n->next]. *)
Definition absorb (m : mem) (b n : Z) : mem :=
  let m := set_blk_size m b (u32 (blk_size m b + (sizeof_block + blk_size m n))) in
  set_blk_next m b (blk_next m n).

Lemma chain_absorb m b n nxt :
  ba n = bend b -> 0 <= bsz b -> 0 <= bsz n -> bsz b + 16 + bsz n < 4294967296 ->
  0 <= nxt < 18446744073709551616 -> chain m [b; n] nxt ->
  chain (absorb m (ba b) (ba n)) [Blk (ba b) (bsz b + 16 + bsz n) (bfr b)] nxt.
Proof.
  intros Hn H1 H2 H3 Hx (C1 & C2 & C3 & D1 & D2 & D3 & _). unfold absorb, sizeof_block.
  cbn [chain ba bsz bfr hd_addr]. header_facts C1. header_facts C2. header_facts C3.
  header_facts D1. header_facts D3. unfold bend in Hn. header_simpl.
  rewrite C1, C2, D1, D3. split_and!; try reflexivity; word_lia.
Qed.

Section rep.
Context (a e : Z) (Ha : 0 < a) (He : e < 18446744073709551616) (Hae : e - a <= 16777216).

(** The headers in [m] represent the block list [bs] over [[a, e)]. *)
Definition rep (m : mem) (bs : list blk) : Prop := tiles a bs e /\ chain m bs 0.

Lemma rep_bounds m bs b : rep m bs -> b ∈ bs ->
  0 < ba b /\ a <= ba b /\ bend b <= e /\ 0 <= bsz b < 16777216 /\ bsz b mod 8 = 0.
Proof using All.
  intros [Ht _] Hb. pose proof (tiles_bounds _ _ _ _ Ht Hb). pose proof (tiles_size _ _ _ _ Ht Hb).
  unfold bend in *. lia.
Qed.

Lemma rep_hd m pre post : rep m (pre ++ post) -> 0 <= hd_addr post 0 < 18446744073709551616.
Proof using All.
  intros Hr. destruct post as [|c post]; simpl; [lia|].
  pose proof (rep_bounds _ _ c Hr (elem_mid _ _ _)). unfold bend in *. lia.
Qed.

(** Reading the header of a block. *)
Lemma rep_read m pre b post : rep m (pre ++ b :: post) ->
  blk_size m (ba b) = bsz b /\ blk_is_free m (ba b) = b2z (bfr b) /\
  blk_next m (ba b) = hd_addr post 0 /\ ba b <> 0.
Proof using All.
  intros Hr. pose proof (rep_bounds _ _ b Hr (elem_mid _ _ _)).
  destruct Hr as [_ Hc]. apply chain_app in Hc as [_ (H1 & H2 & H3 & _)]. split_and!; auto; lia.
Qed.

(** A local rewrite of the middle of the list. *)
Lemma rep_replace m m' pre mid mid' post :
  rep m (pre ++ mid ++ post) ->
  (forall lo hi, tiles lo mid hi -> tiles lo mid' hi) ->
  (forall lo hi, tiles lo mid hi -> chain m mid (hd_addr post 0) ->
     frame m m' lo hi /\ chain m' mid' (hd_addr post 0)) ->
  hd_addr mid' 0 = hd_addr mid 0 -> mid <> [] -> mid' <> [] ->
  rep m' (pre ++ mid' ++ post).
Proof.
  intros [Ht Hc] Htm Hm Hhd Hne Hne'. split.
  - clear -Ht Htm. apply tiles_app in Ht as (c & H1 & H2). apply tiles_app in H2 as (d & H2 & H3).
    apply tiles_app. exists c. split; [assumption|]. apply tiles_app. eauto.
  - eapply chain_replace; eauto.
Qed.

Lemma rep_set_free m pre b post v : rep m (pre ++ b :: post) ->
  rep (set_blk_is_free m (ba b) (b2z v)) (pre ++ Blk (ba b) (bsz b) v :: post).
Proof using All.
  intros Hr. pose proof (rep_bounds _ _ b Hr (elem_mid _ _ _)) as Hb.
  apply (rep_replace m _ pre [b] [_] post Hr); [by intros lo hi H|..|done|done|done].
  intros lo hi (<- & _ & _ & <-) Hc. split; [solve_frame|].
  apply chain_set_free; [lia|by intros c ?%elem_of_nil|assumption].
Qed.

Lemma rep_split m pre b post size : 0 <= size -> size mod 8 = 0 -> rep m (pre ++ b :: post) ->
  rep (split_block_if_needed m (ba b) size) (pre ++ split_abs b size ++ post).
Proof using All.
  intros Hs Hs8 Hr. pose proof (rep_bounds _ _ b Hr (elem_mid _ _ _)) as Hb.
  assert (0 <= hd_addr post 0 < 18446744073709551616) as Hp.
  { apply (rep_hd m (pre ++ [b])). by rewrite <- app_assoc. }
  apply (rep_replace m _ pre [b] _ post Hr); [..|apply split_abs_hd|done|apply split_abs_ne].
  - intros lo hi (<- & _ & _ & <-). apply tiles_split; lia.
  - intros lo hi (<- & _ & _ & <-) Hc. split.
    + eapply split_frame; [lia|exact Hc|lia].
    + apply split_chain; try assumption; lia.
Qed.

Lemma rep_absorb m pre b n post : rep m (pre ++ b :: n :: post) ->
  rep (absorb m (ba b) (ba n)) (pre ++ Blk (ba b) (bsz b + 16 + bsz n) (bfr b) :: post).
Proof using All.
  intros Hr. pose proof (rep_bounds _ _ b Hr (elem_mid _ _ _)) as Hb.
  assert (rep m ((pre ++ [b]) ++ n :: post)) as Hr' by (by rewrite <- app_assoc).
  pose proof (rep_bounds _ _ n Hr' (elem_mid _ _ _)) as Hn.
  assert (0 <= hd_addr post 0 < 18446744073709551616) as Hp.
  { apply (rep_hd m (pre ++ [b; n])). by rewrite <- app_assoc. }
  apply (rep_replace m _ pre [b; n] [_] post Hr); [..|done|done|done].
  - intros lo hi (<- & T1 & T2 & T3 & T4 & T5 & <-). unfold bend in *. simpl. unfold bend. simpl.
    split_and!; word_lia.
  - intros lo hi (<- & _ & _ & T & _ & _ & <-) Hc. unfold bend in *. split.
    + unfold absorb. solve_frame.
    + apply chain_absorb; unfold bend; try assumption; lia.
Qed.
End rep.

Lemma heap_wf_rep h m bs :
  heap_wf h m bs -> rep (heap_start h) (heap_start h + HEAP_BYTES) m bs.
Proof. intros Hwf. split; apply Hwf. Qed.

(** The side conditions of the [rep] lemmas, from a well-formed heap. *)
Lemma heap_wf_region h m bs : heap_wf h m bs ->
  0 < heap_start h /\ heap_start h + HEAP_BYTES < 18446744073709551616 /\
  heap_start h + HEAP_BYTES - heap_start h <= 16777216.
Proof. intros [? ? ? ? ? ? ?]. change HEAP_BYTES with 16777216 in *. lia. Qed.

(** A represented list with a hint in it is a well-formed heap. *)
Lemma rep_heap_wf h m bs h' m' bs' :
  heap_wf h m bs ->
  rep (heap_start h) (heap_start h + HEAP_BYTES) m' bs' ->
  heap_start h' = heap_start h -> heap_initialized h' = 1 ->
  (heap_search_hint h' = 0 \/ exists b, b ∈ bs' /\ heap_search_hint h' = ba b) ->
  heap_wf h' m' bs'.
Proof.
  intros [? ? ? ? _ _ _] [? ?] Hs Hi Hh. constructor; rewrite ?Hs; assumption.
Qed.

(** ** Sums over block lists *)

Lemma used_app l1 l2 : used (l1 ++ l2) = used l1 + used l2.
Proof. induction l1 as [|b l1 IH]; simpl; [reflexivity|]. rewrite IH. lia. Qed.

Lemma tiles_used a bs e : tiles a bs e ->
  0 <= used bs /\ 0 <= unused bs /\ used bs + unused bs + 16 * Z.of_nat (length bs) = e - a.
Proof.
  revert a; induction bs as [|b bs IH]; intros a; cbn [tiles used unused length]; [lia|].
  intros (H1 & H2 & H3 & H4). apply IH in H4. unfold bend in H4. destruct (bfr b); lia.
Qed.

(** ** [kmalloc]: taking a block *)

(** Only header bytes of blocks of [bs] change. *)
Definition headers_only (m m' : mem) (bs : list blk) : Prop :=
  forall x, (forall c, c ∈ bs -> x < ba c \/ ba c + 16 <= x) -> ld8 m' x = ld8 m x.

Lemma headers_only_refl m bs : headers_only m m bs.
Proof. intros x _. reflexivity. Qed.
Lemma headers_only_trans m1 m2 m3 bs :
  headers_only m1 m2 bs -> headers_only m2 m3 bs -> headers_only m1 m3 bs.
Proof. intros H1 H2 x Hx. rewrite H2, H1 by assumption. reflexivity. Qed.
Lemma frame_headers m m' b bs : b ∈ bs -> frame m m' (ba b) (ba b + 16) -> headers_only m m' bs.
Proof. intros Hb Hf x Hx. apply Hf, Hx, Hb. Qed.

(** The size [kmalloc] really grants out of block [b]. *)
Definition granted (b : blk) (size : Z) : Z :=
  if size + 16 + 64 <=? bsz b then size else bsz b.

(** The free block a split leaves behind. *)
Definition leftover (b : blk) (size : Z) : list blk :=
  if size + 16 + 64 <=? bsz b then [Blk (ba b + 16 + size) (bsz b - size - 16) true] else [].

Definition alloc_abs (b : blk) (size : Z) : list blk :=
  Blk (ba b) (granted b size) false :: leftover b size.

(** The new search hint is a block of the list. *)
Lemma next_hint_elem a pre x r e :
  tiles a (pre ++ x :: r) e ->
  exists c, c ∈ pre ++ x :: r /\ (if hd_addr r 0 =? 0 then a else hd_addr r 0) = ba c.
Proof.
  intros Ht. destruct (Z.eqb_spec (hd_addr r 0) 0) as [E|E].
  - destruct (pre ++ x :: r) as [|c l] eqn:El; [by destruct pre|].
    exists c; split; [apply elem_hd|simpl in Ht; lia].
  - destruct r as [|c r']; [done|]. exists c. split; [|reflexivity].
    apply elem_of_app. right. apply elem_tl, elem_hd.
Qed.

Section take.
Context (h : heap_vars) (m : mem) (pre post : list blk) (b : blk) (size : Z).
Context (Hwf : heap_wf h m (pre ++ b :: post)) (Hs : 0 <= size) (Hs8 : size mod 8 = 0).

Lemma take_rep :
  rep (heap_start h) (heap_start h + HEAP_BYTES)
    (set_blk_is_free (split_block_if_needed m (ba b) size) (ba b) 0)
    (pre ++ alloc_abs b size ++ post).
Proof using All.
  destruct (heap_wf_region _ _ _ Hwf) as (R1 & R2 & R3).
  pose proof (rep_split _ _ R1 R2 R3 m pre b post size Hs Hs8 (heap_wf_rep _ _ _ Hwf)) as Hr.
  unfold split_abs, alloc_abs, leftover, granted in *. destruct (_ <=? _).
  - exact (rep_set_free _ _ R1 R2 R3 _ pre (Blk (ba b) size (bfr b)) _ false Hr).
  - exact (rep_set_free _ _ R1 R2 R3 _ pre b _ false Hr).
Qed.

Lemma take_frame :
  frame m (set_blk_is_free (split_block_if_needed m (ba b) size) (ba b) 0) (ba b) (bend b).
Proof using All.
  pose proof (wf_block _ _ _ Hwf b (elem_mid _ _ _)) as Hb.
  pose proof (wf_chain _ _ _ Hwf) as Hc. apply chain_app in Hc as [_ (H1 & H2 & H3 & _)].
  eapply frame_trans; [apply (split_frame m b size (hd_addr post 0)); [lia|cbn; auto|lia]|].
  apply frame_st32; unfold bend; lia.
Qed.

(** The headers written are those of the block and of what is left of it. *)
Lemma take_headers :
  headers_only m (set_blk_is_free (split_block_if_needed m (ba b) size) (ba b) 0) (pre ++ alloc_abs b size ++ post).
Proof using All.
  intros x Hx. assert (x < ba b \/ ba b + 16 <= x) as Hb.
  { apply (Hx (Blk (ba b) (granted b size) false)). unfold alloc_abs. cbn [app]. apply elem_mid. }
  pose proof (wf_chain _ _ _ Hwf) as Hc. apply chain_app in Hc as [_ (H1 & _)].
  unfold split_block_if_needed, set_blk_is_free. rewrite H1. unfold sizeof_block, MIN_SPLIT_REMAINDER.
  destruct (Z.leb_spec (size + 16 + 64) (bsz b)) as [Hle|_]; [|apply agree_st32 with (lo := x) (hi := x + 1); lia].
  assert (x < ba b + 16 + size \/ ba b + 16 + size + 16 <= x) as Hn.
  { apply (Hx (Blk (ba b + 16 + size) (bsz b - size - 16) true)). unfold alloc_abs, leftover. rewrite (proj2 (Z.leb_le _ _) Hle).
    apply elem_of_app. right. apply elem_tl, elem_hd. }
  unfold set_blk_size, set_blk_is_free, set_blk_next.
  assert (forall m0 m1 : mem, ld8 m0 x = ld8 m x -> agree m0 m1 x (x + 1) -> ld8 m1 x = ld8 m x) as Hstep
    by (intros m0 m1 <- Ha; apply Ha; lia).
  repeat (eapply Hstep; [|first [apply agree_st32 | apply agree_st64]; lia]). reflexivity.
Qed.

(** The block list, pointer and counters after the block is taken. *)
Lemma take_block_wf : exists h' m',
  take_block h m (ba b) size = (bpay b, h', m') /\
  heap_wf h' m' (pre ++ alloc_abs b size ++ post) /\ frame m m' (ba b) (bend b) /\
  heap_start h' = heap_start h /\ total_freed h' = total_freed h /\
  total_allocated h' = u32 (total_allocated h + granted b size) /\
  heap_start_page h' = heap_start_page h /\ headers_only m m' (pre ++ alloc_abs b size ++ post).
Proof using All.
  pose proof take_rep as Hr. pose proof take_frame as Hf. pose proof take_headers as Hh.
  destruct (heap_wf_region _ _ _ Hwf) as (R1 & R2 & R3).
  destruct (rep_read _ _ R1 R2 R3 _ pre _ _ Hr) as (C1 & _ & C3 & _). cbn [ba bsz] in C1, C3.
  unfold take_block. cbn zeta. rewrite C1, C3. do 2 eexists. split; [reflexivity|].
  split; [|split_and!; try reflexivity; assumption].
  eapply rep_heap_wf; [exact Hwf|exact Hr|reflexivity|cbn; apply Hwf|]. right.
  apply (next_hint_elem (heap_start h) pre _ (leftover b size ++ post) _ (proj1 Hr)).
Qed.
End take.

Lemma used_alloc pre b post size : bfr b = true ->
  used (pre ++ alloc_abs b size ++ post) = used (pre ++ b :: post) + granted b size.
Proof.
  intros Hb. rewrite !used_app. unfold alloc_abs, leftover. destruct (_ <=? _); simpl; rewrite Hb; lia.
Qed.

(** ** [kfree] *)

(** The freed block, with its successor when that is free too. *)
Definition absorb_next (b : blk) (post : list blk) : blk * list blk :=
  match post with
  | n :: r =>
      if bfr n then (Blk (ba b) (bsz b + 16 + bsz n) true, r) else (Blk (ba b) (bsz b) true, post)
  | [] => (Blk (ba b) (bsz b) true, [])
  end.

(** The list after freeing [b], and the block that holds it then. *)
Definition free_abs (pre : list blk) (b : blk) (post : list blk) : list blk * blk :=
  let '(c, r) := absorb_next b post in
  match last pre with
  | Some p =>
      if bfr p then let d := Blk (ba p) (bsz p + 16 + bsz c) true in (removelast pre ++ d :: r, d)
      else (pre ++ c :: r, c)
  | None => (pre ++ c :: r, c)
  end.

(** Payloads lie between headers. *)
Lemma headers_only_payload a e m m' bs b :
  tiles a bs e -> headers_only m m' bs -> b ∈ bs -> agree m m' (bpay b) (bend b).
Proof.
  intros Ht Hh Hb x Hx. apply Hh. intros c Hc. unfold bpay, bend in *.
  pose proof (tiles_size _ _ _ _ Ht Hc).
  destruct (tiles_disjoint _ _ _ _ _ Ht Hb Hc) as [->|[?|?]]; unfold bend in *; lia.
Qed.

Lemma kfree_locked_eq ptr h m :
  kfree_locked ptr h m =
  '(block, prev) ← find_block_by_payload h m ptr;
  if block =? 0 then Ret (FreeUntracked, h, m)
  else if negb (blk_is_free m block =? 0) then Ret (FreeDouble, h, m)
  else
    let m1 := set_blk_is_free m block 1 in
    let h1 := set_total_freed (u32 (total_freed h + blk_size m1 block)) h in
    let nx := blk_next m1 block in
    let m2 := if negb (nx =? 0) && negb (blk_is_free m1 nx =? 0) then absorb m1 block nx else m1 in
    let '(m3, block) :=
      if negb (prev =? 0) && negb (blk_is_free m2 prev =? 0)
      then (absorb m2 prev block, prev) else (m2, block) in
    Ret (FreeDone, set_hint block h1, m3).
Proof. reflexivity. Qed.

Section free_steps.
Context (a e : Z) (Ha : 0 < a) (He : e < 18446744073709551616) (Hae : e - a <= 16777216).

Lemma absorb_headers m b n : frame m (absorb m b n) b (b + 16).
Proof using. unfold absorb. solve_frame. Qed.

(** The merge with the successor. *)
Lemma merge_next_rep m pre b post :
  rep a e m (pre ++ Blk (ba b) (bsz b) true :: post) ->
  let nx := blk_next m (ba b) in
  let m2 := if negb (nx =? 0) && negb (blk_is_free m nx =? 0) then absorb m (ba b) nx else m in
  let '(c, r) := absorb_next b post in
  rep a e m2 (pre ++ c :: r) /\ ba c = ba b /\ frame m m2 (ba b) (ba b + 16).
Proof using All.
  intros Hr. cbn zeta. destruct (rep_read _ _ Ha He Hae _ pre _ _ Hr) as (_ & _ & Hnx & _).
  cbn [ba] in Hnx. rewrite Hnx. clear Hnx.
  destruct post as [|n post]; cbn [hd_addr absorb_next].
  { simpl. split_and!; [assumption|reflexivity|apply frame_refl]. }
  assert (rep a e m ((pre ++ [Blk (ba b) (bsz b) true]) ++ n :: post)) as Hr' by (by rewrite <- app_assoc).
  destruct (rep_read _ _ Ha He Hae _ _ _ _ Hr') as (_ & -> & _ & Hn).
  destruct (Z.eqb_spec (ba n) 0); [contradiction|].
  destruct (bfr n); cbn [negb andb b2z Z.eqb].
  - split_and!; [|reflexivity|apply absorb_headers]. exact (rep_absorb _ _ Ha He Hae _ pre _ n post Hr).
  - split_and!; [assumption|reflexivity|apply frame_refl].
Qed.

(** The merge with the predecessor. *)
Lemma merge_prev_rep m pre c r :
  rep a e m (pre ++ c :: r) ->
  let prev := last_addr pre 0 in
  let '(m3, block) :=
    if negb (prev =? 0) && negb (blk_is_free m prev =? 0)
    then (absorb m prev (ba c), prev) else (m, ba c) in
  let '(bs, d) :=
    match last pre with
    | Some p =>
        if bfr p then let d := Blk (ba p) (bsz p + 16 + bsz c) true in (removelast pre ++ d :: r, d)
        else (pre ++ c :: r, c)
    | None => (pre ++ c :: r, c)
    end in
  rep a e m3 bs /\ block = ba d /\ d ∈ bs /\ headers_only m m3 pre.
Proof using All.
  intros Hr. cbn zeta. unfold last_addr. destruct pre as [|p pre _] using rev_ind.
  { simpl. split_and!; [assumption|reflexivity|apply elem_hd|apply headers_only_refl]. }
  rewrite last_snoc, removelast_last. rewrite <- app_assoc in Hr. simpl in Hr.
  destruct (rep_read _ _ Ha He Hae _ _ _ _ Hr) as (_ & -> & _ & Hp).
  destruct (Z.eqb_spec (ba p) 0); [contradiction|].
  destruct (bfr p) eqn:Ep; cbn [negb andb b2z Z.eqb].
  - split_and!; [|reflexivity|apply elem_mid|].
    + pose proof (rep_absorb _ _ Ha He Hae _ pre p c r Hr) as Hm. by rewrite Ep in Hm.
    + apply (frame_headers _ _ p); [apply elem_mid|]. apply absorb_headers.
  - rewrite <- app_assoc. simpl. split_and!; [assumption|reflexivity| |apply headers_only_refl].
    apply elem_of_app. right. apply elem_tl, elem_hd.
Qed.
End free_steps.

(** [kfree] of an allocated block. *)
Lemma kfree_locked_done h m pre b post :
  heap_wf h m (pre ++ b :: post) -> bfr b = false ->
  exists h' m',
    kfree_locked (bpay b) h m = Ret (FreeDone, h', m') /\
    heap_wf h' m' (fst (free_abs pre b post)) /\
    headers_only m m' (pre ++ b :: post) /\
    heap_start h' = heap_start h /\ total_allocated h' = total_allocated h /\
    total_freed h' = u32 (total_freed h + bsz b) /\ heap_start_page h' = heap_start_page h.
Proof.
  intros Hwf Hb. destruct (heap_wf_region _ _ _ Hwf) as (R1 & R2 & R3).
  pose proof (heap_wf_rep _ _ _ Hwf) as Hr.
  rewrite kfree_locked_eq, (find_block_wf _ _ _ _ Hwf), (find_abs_middle _ _ _ _ _ _ (proj1 Hr)).
  cbn [mbind outcome_bind].
  destruct (rep_read _ _ R1 R2 R3 _ _ _ _ Hr) as (_ & H2 & _ & H4). rewrite Hb in H2.
  rewrite H2. destruct (Z.eqb_spec (ba b) 0); [contradiction|]. cbn [b2z Z.eqb negb]. cbn zeta.
  pose proof (rep_set_free _ _ R1 R2 R3 m pre b post true Hr) as Hr1. cbn [b2z] in Hr1.
  destruct (rep_read _ _ R1 R2 R3 _ _ _ _ Hr1) as (Hsz & _). cbn [ba bsz] in Hsz. rewrite Hsz. clear Hsz.
  assert (frame m (set_blk_is_free m (ba b) 1) (ba b) (ba b + 16)) as Hf1 by solve_frame.
  set (m1 := set_blk_is_free m (ba b) 1) in *. clearbody m1.
  pose proof (merge_next_rep _ _ R1 R2 R3 m1 pre b post Hr1) as Hr2. cbn zeta in Hr2.
  set (m2 := if negb (blk_next m1 (ba b) =? 0) && negb (blk_is_free m1 (blk_next m1 (ba b)) =? 0)
             then absorb m1 (ba b) (blk_next m1 (ba b)) else m1) in *. clearbody m2.
  unfold free_abs. destruct (absorb_next b post) as [c r]. destruct Hr2 as (Hr2 & Hc & Hf2).
  pose proof (merge_prev_rep _ _ R1 R2 R3 m2 pre c r Hr2) as Hr3. cbn zeta in Hr3. rewrite Hc in Hr3.
  destruct (if negb (last_addr pre 0 =? 0) && negb (blk_is_free m2 (last_addr pre 0) =? 0)
            then (absorb m2 (last_addr pre 0) (ba b), last_addr pre 0) else (m2, ba b)) as [m3 block].
  match goal with |- context [fst ?t] => destruct t as [bs d] end.
  destruct Hr3 as (Hr3 & -> & Hd & Hh). do 2 eexists. split; [reflexivity|]. split.
  - eapply rep_heap_wf; [exact Hwf|exact Hr3|reflexivity|cbn; apply Hwf|]. right. exists d. auto.
  - split; [|split_and!; reflexivity].
    apply headers_only_trans with m2.
    + apply (frame_headers _ _ b); [apply elem_mid|]. eapply frame_trans; eassumption.
    + intros x Hx. apply Hh. intros y Hy. apply Hx, elem_of_app. by left.
Qed.
