(* ===== verification/HeapList.v ===== *)
(** * Coalescing and accounting on block lists

    The list-level facts behind [kmalloc] and [kfree]: both keep a
    coalesced list coalesced, freeing what was just allocated gives the
    original list back, and the sums of allocated sizes move by the size of
    the block. *)
From S2P Require Import Prelude Machine Utils Serial Memory Heap HeapChain HeapInv HeapOps.

(** The last block of [l1] and the first of [l2] are not both free. *)
Definition junction (l1 l2 : list blk) : Prop :=
  match last l1, l2 with
  | Some p, n :: _ => bfr p && bfr n = false
  | _, _ => True
  end.

Lemma coalesced_app l1 l2 : coalesced (l1 ++ l2) <-> coalesced l1 /\ coalesced l2 /\ junction l1 l2.
Proof.
  unfold junction. induction l1 as [|b l1 IH]; [simpl; tauto|].
  destruct l1 as [|c l1].
  - cbn [app last coalesced]. destruct l2 as [|d l2]; simpl; tauto.
  - change ((b :: c :: l1) ++ l2) with (b :: (c :: l1) ++ l2).
    change (coalesced (b :: (c :: l1) ++ l2)) with
      ((bfr b && bfr c = false) /\ coalesced ((c :: l1) ++ l2)).
    change (coalesced (b :: c :: l1)) with ((bfr b && bfr c = false) /\ coalesced (c :: l1)).
    change (last (b :: c :: l1)) with (last (c :: l1)). rewrite IH. tauto.
Qed.

Lemma junction_snoc l p n r : junction (l ++ [p]) (n :: r) <-> bfr p && bfr n = false.
Proof. unfold junction. by rewrite last_snoc. Qed.

Lemma coalesced_cons b l : coalesced (b :: l) <-> coalesced l /\ junction [b] l.
Proof. rewrite (coalesced_app [b] l). simpl. tauto. Qed.

(** The neighbours of a free block in a coalesced list are allocated. *)
Lemma coalesced_free_neighbours pre b post :
  coalesced (pre ++ b :: post) -> bfr b = true ->
  (forall p, last pre = Some p -> bfr p = false) /\ (forall n, hd_error post = Some n -> bfr n = false).
Proof.
  rewrite coalesced_app, coalesced_cons. unfold junction. intros (_ & (_ & Hj2) & Hj1) Hb. split.
  - intros p Hp. rewrite Hp, Hb, andb_true_r in Hj1. assumption.
  - intros n Hn. destruct post as [|c post]; [done|]. simpl in *. rewrite Hb in Hj2. injection Hn as <-. exact Hj2.
Qed.

Lemma coalesced_alloc pre b post size :
  coalesced (pre ++ b :: post) -> bfr b = true -> coalesced (pre ++ alloc_abs b size ++ post).
Proof.
  intros Hc Hb. destruct (coalesced_free_neighbours _ _ _ Hc Hb) as [_ Hn].
  rewrite coalesced_app, coalesced_cons in Hc. destruct Hc as (H1 & (H2 & _) & _).
  unfold alloc_abs. rewrite <- app_comm_cons, coalesced_app, coalesced_cons. split_and!; [assumption| | |].
  - unfold leftover. destruct (_ <=? _); [|assumption]. simpl app. rewrite coalesced_cons.
    split; [assumption|]. unfold junction. simpl. destruct post as [|n post]; [done|]. by apply Hn.
  - unfold junction. simpl. by destruct (leftover b size ++ post).
  - unfold junction. destruct (last pre) as [p|]; [|done]. apply andb_false_r.
Qed.

Lemma coalesced_free pre b post :
  coalesced (pre ++ b :: post) -> bfr b = false -> coalesced (fst (free_abs pre b post)).
Proof.
  rewrite coalesced_app, coalesced_cons. intros (H1 & (H2 & H3) & H4) Hb.
  assert (exists c r, absorb_next b post = (c, r) /\ bfr c = true /\ coalesced (c :: r)) as (c & r & Ec & Hc & Hcr).
  { unfold absorb_next. destruct post as [|n post]; [do 2 eexists; split_and!; done|].
    apply coalesced_cons in H2 as [H2 Hj]. destruct (bfr n) eqn:En; do 2 eexists; (split_and!; [done|done|]).
    - rewrite coalesced_cons. split; [assumption|]. unfold junction in *. simpl in *. rewrite En in Hj.
      by destruct post.
    - rewrite !coalesced_cons. split_and!; assumption. }
  unfold free_abs. rewrite Ec. destruct pre as [|p pre _] using rev_ind; [simpl; assumption|].
  rewrite last_snoc, removelast_last. apply coalesced_cons in Hcr as [Hr Hj].
  apply coalesced_app in H1 as (H1 & _ & Hjp). destruct (bfr p) eqn:Ep; simpl fst.
  - rewrite coalesced_app, coalesced_cons. split_and!; [assumption|assumption| |].
    + unfold junction in *. simpl in *. by rewrite Hc in Hj.
    + unfold junction in *. destruct (last pre); [|done]. simpl in *. by rewrite Ep in Hjp.
  - rewrite coalesced_app. rewrite coalesced_cons, junction_snoc, Ep. split_and!; try done.
    rewrite coalesced_app. split_and!; done.
Qed.

Lemma granted_le b size : size <= bsz b -> size <= granted b size <= bsz b.
Proof. unfold granted. zcases; lia. Qed.

(** Freeing what was just allocated out of [b] gives the list back. *)
Lemma free_alloc pre b post size :
  coalesced (pre ++ b :: post) -> bfr b = true ->
  fst (free_abs pre (Blk (ba b) (granted b size) false) (leftover b size ++ post)) = pre ++ b :: post.
Proof.
  intros Hc Hb. destruct (coalesced_free_neighbours _ _ _ Hc Hb) as [Hp Hn].
  assert (absorb_next (Blk (ba b) (granted b size) false) (leftover b size ++ post) = (b, post)) as Ha.
  { unfold absorb_next, leftover, granted. destruct b as [x sz fr]; simpl in *. subst fr.
    destruct (Z.leb_spec (size + 16 + 64) sz); simpl.
    - f_equal. f_equal. lia.
    - destruct post as [|n post]; [reflexivity|]. by rewrite (Hn n eq_refl). }
  unfold free_abs. rewrite Ha. destruct (last pre) as [p|]; [|reflexivity].
  by rewrite (Hp p eq_refl).
Qed.

Lemma used_free pre b post : bfr b = false ->
  used (fst (free_abs pre b post)) = used (pre ++ b :: post) - bsz b.
Proof.
  intros Hb. unfold free_abs, absorb_next.
  destruct post as [|n post]; [|destruct (bfr n) eqn:En]; destruct pre as [|p pre _] using rev_ind;
    rewrite ?last_snoc, ?removelast_last; try (destruct (bfr p) eqn:Ep);
    simpl fst; rewrite ?used_app; simpl; rewrite ?Hb, ?En, ?Ep; lia.
Qed.
