(* ===== verification/HeapSpec.v ===== *)
(** * Correctness of the heap operations

    [mem_ok s bs]: the heap of [s] is well formed with block list [bs] and
    its lock is free.  The theorems describe [kmalloc], [kfree], [kcalloc],
    [krealloc] and the two statistics functions on such states. *)
From S2P Require Import Prelude Machine Utils Serial Memory.
From S2P Require Import Heap HeapChain HeapInv HeapOps HeapList.

Definition mem_ok (s : mstate) (bs : list blk) : Prop :=
  heap_wf (hv s) (ram s) bs /\ heap_lock s = 0.

(** The parts of the state no heap operation may change. *)
Definition untouched (s s' : mstate) : Prop :=
  rflags s' = rflags s /\ page_lock s' = page_lock s /\ pv s' = pv s /\
  heap_start (hv s') = heap_start (hv s) /\ heap_start_page (hv s') = heap_start_page (hv s).

(** An allocated block of the list, with payload [p] and size [n]. *)
Definition live (bs : list blk) (p n : Z) : Prop :=
  exists b, b ∈ bs /\ bfr b = false /\ p = bpay b /\ n = bsz b.

Lemma find_split {A} (f : A -> bool) l x :
  List.find f l = Some x -> x ∈ l /\ f x = true.
Proof. intros H. apply List.find_some in H as [H1 H2]. by rewrite list_elem_of_In. Qed.

Lemma mem_ok_default_hint s bs : mem_ok s bs ->
  heap_wf (if heap_search_hint (hv s) =? 0 then set_hint (heap_start (hv s)) (hv s) else hv s) (ram s) bs.
Proof.
  intros [Hwf _]. destruct (_ =? 0); [|assumption].
  eapply rep_heap_wf; [exact Hwf|apply heap_wf_rep, Hwf|reflexivity|apply Hwf|]. right.
  pose proof (wf_nonempty _ _ _ Hwf) as Hne. pose proof (wf_start_hd _ _ _ Hwf) as Hh.
  destruct bs as [|b bs]; [done|]. exists b. split; [apply elem_hd|exact Hh].
Qed.

(** [kmalloc] on an initialised heap, for every non-zero 32-bit request. *)
Lemma kmalloc_run s bs size :
  mem_ok s bs -> 0 < size < 4294967296 ->
  let n := align_up size 8 in
  match List.find (fits n) (search_order (heap_search_hint (hv s)) bs) with
  | Some b => exists pre post s',
      bs = pre ++ b :: post /\ kmalloc size s = Ret (bpay b, s') /\
      mem_ok s' (pre ++ alloc_abs b n ++ post) /\ frame (ram s) (ram s') (ba b) (bend b) /\
      untouched s s' /\ serial s' = serial s /\
      total_freed (hv s') = total_freed (hv s) /\
      total_allocated (hv s') = u32 (total_allocated (hv s) + granted b n) /\
      headers_only (ram s) (ram s') (pre ++ alloc_abs b n ++ post)
  | None => exists s',
      kmalloc size s = Ret (0, s') /\ mem_ok s' bs /\ ram s' = ram s /\ untouched s s' /\
      serial s' = serial s ++ [SStr "[OS] [Memory] kmalloc: Out of memory (requested "; SU32 n;
                               line " bytes)"] /\
      total_freed (hv s') = total_freed (hv s) /\ total_allocated (hv s') = total_allocated (hv s)
  end.
Proof.
  intros Hok Hsz n. pose proof (mem_ok_default_hint _ _ Hok) as Hwf0.
  destruct Hok as [Hwf Hl]. pose proof (kmalloc_locked_search _ _ _ n Hwf) as Hk. cbn zeta in Hk.
  set (h0 := if heap_search_hint (hv s) =? 0 then _ else _) in *.
  assert (0 <= n /\ n mod 8 = 0) as [Hn0 Hn8].
  { subst n. rewrite align_up_8 by lia. zcases; word_lia. }
  assert (heap_start h0 = heap_start (hv s) /\ heap_start_page h0 = heap_start_page (hv s) /\
          total_freed h0 = total_freed (hv s) /\ total_allocated h0 = total_allocated (hv s))
    as (E1 & E2 & E3 & E4) by (subst h0; by destruct (_ =? 0)).
  clearbody h0.
  assert (kmalloc size s = (ptr ← locked HeapLock (on_heap (kmalloc_locked n));
    if negb (ptr =? 0) then mret ptr
    else say [SStr "[OS] [Memory] kmalloc: Out of memory (requested "; SU32 n; line " bytes)"];; mret 0) s) as ->.
  { unfold kmalloc. rewrite bind_gets, (wf_init _ _ _ Hwf). cbn [Z.eqb].
    by destruct (Z.eqb_spec size 0); [lia|]. }
  destruct (List.find _ _) as [b|] eqn:Ef.
  - apply find_split in Ef as [Hb Hfit]. apply search_order_elem in Hb.
    apply list_elem_of_split in Hb as (pre & post & ->). exists pre, post.
    destruct (take_block_wf h0 (ram s) pre post b n Hwf0 Hn0 Hn8) as (h' & m' & Ht & Hwf' & Hf & H1 & H2 & H3 & H4 & H5).
    rewrite Ht in Hk. exists (set_heap h' m' s). split; [reflexivity|].
    pose proof (wf_block _ _ _ Hwf b (elem_mid _ _ _)) as Hbb.
    rewrite (bind_run _ _ _ _ _ (locked_on_heap _ _ _ _ _ Hl Hk)).
    destruct (Z.eqb_spec (bpay b) 0) as [E|_]; [unfold bpay in E; lia|].
    unfold untouched, mem_ok; cbn. split_and!; try assumption; try reflexivity; congruence.
  - exists (add_serial [SStr "[OS] [Memory] kmalloc: Out of memory (requested "; SU32 n; line " bytes)"]
              (set_heap h0 (ram s) s)).
    rewrite (bind_run _ _ _ _ _ (locked_on_heap _ _ _ _ _ Hl Hk)).
    unfold untouched, mem_ok; cbn. split_and!; try assumption; reflexivity.
Qed.

(** A pointer that is the payload of an allocated block. *)
Lemma kfree_run_done s pre b post :
  mem_ok s (pre ++ b :: post) -> bfr b = false -> bpay b < heap_start (hv s) + HEAP_BYTES ->
  exists s', kfree (bpay b) s = Ret (tt, s') /\ mem_ok s' (fst (free_abs pre b post)) /\
    headers_only (ram s) (ram s') (pre ++ b :: post) /\ untouched s s' /\ serial s' = serial s /\
    total_allocated (hv s') = total_allocated (hv s) /\
    total_freed (hv s') = u32 (total_freed (hv s) + bsz b).
Proof.
  intros [Hwf Hl] Hb Hsz. pose proof (wf_block _ _ _ Hwf b (elem_mid _ _ _)) as Hbb.
  destruct (kfree_locked_done _ _ _ _ _ Hwf Hb) as (h' & m' & Hk & Hwf' & Hh & H1 & H2 & H3 & H4).
  exists (set_heap h' m' s). pose proof (wf_end _ _ _ Hwf). pose proof (wf_start _ _ _ Hwf).
  split; [|unfold mem_ok, untouched; cbn; split_and!; try assumption; reflexivity].
  change HEAP_BYTES with 16777216 in *. unfold bpay, bend in *.
  unfold kfree, sizeof_block. change (HEAP_PAGE_COUNT * PAGE_SIZE) with 16777216.
  destruct (Z.eqb_spec (ba b + 16) 0); [lia|].
  rewrite bind_gets, (wf_init _ _ _ Hwf). cbn [Z.eqb orb].
  rewrite !u64_small by lia. zcases; try lia.
  by rewrite (bind_run _ _ _ _ _ (locked_on_heap _ _ _ _ _ Hl Hk)).
Qed.

(** A pointer [kfree] refuses: nothing but the message changes. *)
Lemma kfree_run_refused s bs p :
  mem_ok s bs -> 0 <= p < 18446744073709551616 ->
  (forall b, b ∈ bs -> bpay b = p -> bfr b = true \/ heap_start (hv s) + HEAP_BYTES <= p) ->
  exists es, kfree p s = Ret (tt, add_serial es s) /\ (es = [] <-> p = 0).
Proof.
  intros [Hwf Hl] Hp Hbs. pose proof (wf_end _ _ _ Hwf) as He. pose proof (wf_start _ _ _ Hwf) as Hs0.
  change HEAP_BYTES with 16777216 in *.
  unfold kfree, sizeof_block. change (HEAP_PAGE_COUNT * PAGE_SIZE) with 16777216.
  destruct (Z.eqb_spec p 0); [exists []; split; [|done]; destruct s; unfold add_serial; simpl; by rewrite app_nil_r|].
  rewrite bind_gets, (wf_init _ _ _ Hwf). cbn [Z.eqb orb].
  destruct (Z.eqb_spec (heap_start (hv s)) 0); [lia|].
  rewrite !u64_small by lia. zcases; try (eexists; split; [reflexivity|done]).
  pose proof (find_block_wf _ _ _ p Hwf) as Hfind.
  assert (exists x, kfree_locked p (hv s) (ram s) = Ret (x, hv s, ram s) /\ x <> FreeDone) as (x & Hk & Hx).
  { unfold kfree_locked. rewrite Hfind. cbn [mbind outcome_bind].
    destruct (decide (Exists (fun b => bpay b = p) bs)) as [(b & Hb & <-)%Exists_exists|Hno].
    - pose proof Hb as Hb'. apply list_elem_of_split in Hb' as (pre & post & ->).
      rewrite (find_abs_middle _ _ _ _ _ _ (wf_tiles _ _ _ Hwf)).
      destruct (heap_wf_region _ _ _ Hwf) as (R1 & R2 & R3).
      destruct (rep_read _ _ R1 R2 R3 _ _ _ _ (heap_wf_rep _ _ _ Hwf)) as (_ & H2 & _ & H4).
      destruct (Z.eqb_spec (ba b) 0); [contradiction|]. rewrite H2.
      destruct (bfr b) eqn:E; [by exists FreeDouble|].
      destruct (Hbs b Hb eq_refl) as [?|Hz0]; [congruence|lia].
    - rewrite find_abs_none; [by exists FreeUntracked|]. intros b Hb He'. apply Hno, Exists_exists. eauto. }
  assert (set_heap (hv s) (ram s) s = s) as Hid by (by destruct s).
  rewrite (bind_run _ _ _ _ _ (locked_on_heap _ _ _ _ _ Hl Hk)), Hid.
  destruct x; [eexists; split; [reflexivity|done]..|contradiction].
Qed.

(** ** Payload writes, [kcalloc], initialisation *)

Lemma heap_wf_payload h m m' bs b :
  heap_wf h m bs -> b ∈ bs -> frame m m' (bpay b) (bend b) -> heap_wf h m' bs.
Proof.
  intros Hwf Hb Hf. eapply rep_heap_wf; [exact Hwf| |reflexivity|apply Hwf|apply Hwf].
  split; [apply Hwf|]. eapply chain_ext; [|apply Hwf]. intros c Hc. eapply frame_agree; [exact Hf|].
  pose proof (tiles_size _ _ _ _ (wf_tiles _ _ _ Hwf) Hc).
  destruct (tiles_disjoint _ _ _ _ _ (wf_tiles _ _ _ Hwf) Hb Hc) as [->|[?|?]];
    unfold bpay, bend in *; lia.
Qed.

Lemma memory_init_run kernel_end s :
  heap_initialized (hv s) = 0 -> heap_start_page (hv s) = 0 \/ heap_start_page (hv s) = (kernel_end + 4095) / 4096 -> heap_lock s = 0 ->
  0 < kernel_end < 17592169267200 ->
  exists s', memory_init kernel_end s = Ret (tt, s') /\
    mem_ok s' [Blk (heap_start (hv s')) (HEAP_BYTES - 16) true] /\
    heap_start (hv s') = (kernel_end + 4095) / 4096 * 4096 /\
    total_allocated (hv s') = 0 /\ total_freed (hv s') = 0 /\ heap_lock s' = 0 /\
    rflags s' = rflags s /\ page_lock s' = page_lock s /\ page_bitmap (pv s') = page_bitmap (pv s) /\
    frame (ram s) (ram s') (heap_start (hv s')) (heap_start (hv s') + 16).
Proof.
  intros Hi Hp Hl Hk. unfold memory_init, calc_heap_start_page, PAGE_SIZE. rewrite Hi. cbn [Z.eqb negb].
  assert (exists h, (if negb (heap_start_page (hv s) =? 0) then (heap_start_page (hv s), hv s)
      else (u32 (u64 (kernel_end + 4096 - 1) / 4096), set_start_page (u32 (u64 (kernel_end + 4096 - 1) / 4096)) (hv s))) =
      ((kernel_end + 4095) / 4096, h)) as [h ->].
  { replace (kernel_end + 4096 - 1) with (kernel_end + 4095) by lia.
    destruct Hp as [-> | ->]; cbn [Z.eqb negb]; [|destruct (Z.eqb_spec ((kernel_end + 4095) / 4096) 0); [word_lia|by eexists]].
    rewrite (u64_small (kernel_end + 4095)), (u32_small ((kernel_end + 4095) / 4096)) by word_lia. by eexists. }
  rewrite (u64_small ((kernel_end + 4095) / 4096 * 4096)) by word_lia.
  set (hs := (kernel_end + 4095) / 4096 * 4096).
  assert (0 < hs < 17592169271296 /\ hs mod 8 = 0) as [Hhs Hhs8] by (subst hs; word_lia).
  eexists. split; [reflexivity|].
  cbn [hv ram heap_start total_allocated total_freed heap_lock rflags page_lock set_heap set_pages
       add_serial set_start_page heap_start_page].
  split_and!; try reflexivity; try assumption; [|solve_frame].
  split; [|assumption]. constructor;
    cbn [hv ram heap_start heap_initialized heap_search_hint add_serial set_pages set_heap];
    change HEAP_BYTES with 16777216; try lia.
  - simpl. unfold bend. simpl. split_and!; try lia; reflexivity.
  - unfold sizeof_block. change (u32 (HEAP_PAGE_COUNT * 4096 - 16)) with 16777200.
    cbn [chain ba bsz bfr hd_addr b2z]. header_simpl. split_and!; reflexivity.
  - right. eexists. split; [apply elem_hd|reflexivity].
Qed.

(** ** The statistics *)

Lemma free_memory_from_abs m bs acc fuel :
  chain m bs 0 -> (forall b, b ∈ bs -> ba b <> 0 /\ 0 <= bsz b) ->
  0 <= acc -> acc + unused bs < 4294967296 -> (length bs < fuel)%nat ->
  free_memory_from fuel m (hd_addr bs 0) acc = Ret (acc + unused bs).
Proof.
  revert bs acc; induction fuel as [|fuel IH]; intros bs acc Hc Hb Ha Hu Hl; [lia|].
  destruct bs as [|b bs]; cbn [free_memory_from hd_addr unused]; [f_equal; lia|].
  destruct (Hb b (elem_hd _ _)) as [Hb1 Hb2]. destruct Hc as (H1 & H2 & H3 & H4).
  destruct (Z.eqb_spec (ba b) 0); [contradiction|]. rewrite H1, H2, H3. cbn [unused] in Hu.
  assert (0 <= unused bs) as Hun.
  { assert (forall c, c ∈ bs -> 0 <= bsz c) as Hs by (intros c Hc'; apply Hb; by apply elem_tl).
    clear -Hs. induction bs as [|c bs IH]; simpl; [lia|].
    pose proof (Hs c (elem_hd _ _)). specialize (IH (fun d Hd => Hs d (elem_tl _ _ _ Hd))).
    destruct (bfr c); lia. }
  destruct (bfr b); cbn [b2z Z.eqb negb] in *; rewrite ?u32_small by lia; rewrite IH; try assumption;
    try (f_equal; lia); try (simpl in Hl; lia); try lia; intros c Hc'; apply Hb; by apply elem_tl.
Qed.

Lemma get_free_memory_run s bs :
  mem_ok s bs -> get_free_memory s = Ret (unused bs, s).
Proof.
  intros [Hwf Hl]. unfold get_free_memory. rewrite bind_gets, (wf_init _ _ _ Hwf). cbn [Z.eqb].
  assert (set_heap (hv s) (ram s) s = s) as Hid by (by destruct s). rewrite <- Hid at 2.
  apply locked_on_heap; [assumption|].
  pose proof (tiles_used _ _ _ (wf_tiles _ _ _ Hwf)) as Hu. change HEAP_BYTES with 16777216 in Hu.
  rewrite (wf_start_hd _ _ _ Hwf), free_memory_from_abs.
  - cbn [mbind outcome_bind]. do 3 f_equal.
  - apply Hwf.
  - intros b Hb. pose proof (wf_block _ _ _ Hwf b Hb). lia.
  - lia.
  - lia.
  - apply (wf_length _ _ _ Hwf).
Qed.

Lemma get_used_memory_run s bs :
  mem_ok s bs -> heap_acct (hv s) bs -> get_used_memory s = Ret (used bs, s).
Proof.
  intros [Hwf Hl] Ha. unfold get_used_memory.
  assert (set_heap (hv s) (ram s) s = s) as Hid by (by destruct s). rewrite <- Hid at 2.
  apply locked_on_heap; [assumption|]. unfold heap_acct in Ha. by rewrite Ha.
Qed.

Lemma acct_alloc h h' pre b post n :
  heap_acct h (pre ++ b :: post) -> bfr b = true ->
  0 <= used (pre ++ b :: post) + granted b n < 4294967296 ->
  total_freed h' = total_freed h -> total_allocated h' = u32 (total_allocated h + granted b n) ->
  heap_acct h' (pre ++ alloc_abs b n ++ post).
Proof.
  unfold heap_acct. intros Ha Hb Hr -> ->. rewrite used_alloc by assumption. rewrite <- Ha in *.
  rewrite u32_sub_l.
  replace (total_allocated h + granted b n - total_freed h)
    with ((total_allocated h - total_freed h) + granted b n) by lia.
  rewrite <- u32_add_l. apply u32_small. assumption.
Qed.

Lemma acct_free h h' pre b post :
  heap_acct h (pre ++ b :: post) -> bfr b = false ->
  0 <= used (pre ++ b :: post) - bsz b < 4294967296 ->
  total_allocated h' = total_allocated h -> total_freed h' = u32 (total_freed h + bsz b) ->
  heap_acct h' (fst (free_abs pre b post)).
Proof.
  unfold heap_acct. intros Ha Hb Hr -> ->. rewrite used_free by assumption. rewrite <- Ha in *.
  rewrite u32_sub_r.
  replace (total_allocated h - (total_freed h + bsz b))
    with ((total_allocated h - total_freed h) - bsz b) by lia.
  rewrite <- u32_sub_l. apply u32_small. assumption.
Qed.
