(* ===== verification/Alloc.v ===== *)
(** * The allocator interface

    What [kmalloc] and [kfree] promise to the rest of the kernel, as a type
    class over the map of live allocations (payload address to size).  The
    clients (process creation, the file system calls, the ELF loader) are
    verified against the class; the instance [kernel_heap] at the end
    discharges it with the heap of Memory_Main.c. *)
From S2P Require Import Prelude Machine Utils Serial Memory.
From S2P Require Import Heap HeapChain HeapInv HeapOps HeapList HeapSpec.

(** A byte an allocator call must not change: outside the managed region
    [[lo, hi)], or inside a live allocation. *)
Definition owned (lo hi : Z) (L : gmap Z Z) (x : Z) : Prop :=
  x < lo \/ hi <= x \/ exists p n, L !! p = Some n /\ p <= x < p + n.

Definition kept (lo hi : Z) (L : gmap Z Z) (s s' : mstate) : Prop :=
  rflags s' = rflags s /\ page_lock s' = page_lock s /\ pv s' = pv s /\
  forall x, owned lo hi L x -> ld8 (ram s') x = ld8 (ram s) x.

(** [lo] and [hi] are the bounds of the managed region. *)
Class Allocator (malloc : Z -> M mstate Z) (free : Z -> M mstate unit) (lo hi : Z)
    (ok : mstate -> gmap Z Z -> Prop) : Prop := {
  (** The request is served, or refused with NULL; nothing live changes. *)
  alloc_malloc s L size :
    ok s L -> 0 < size <= 4294967288 ->
    exists p s', malloc size s = Ret (p, s') /\ kept lo hi L s s' /\
      ((p = 0 /\ ok s' L) \/
       (p <> 0 /\ L !! p = None /\ exists n, size <= n /\ ok s' (<[p := n]> L) /\ serial s' = serial s));
  (** A live allocation can be given back. *)
  alloc_free s L p n :
    ok s L -> L !! p = Some n ->
    exists s', free p s = Ret (tt, s') /\ kept lo hi L s s' /\ ok s' (delete p L) /\ serial s' = serial s;
  (** Live allocations are in the region, aligned to 8 and apart. *)
  alloc_range s L p n :
    ok s L -> L !! p = Some n -> 0 < lo /\ lo <= p /\ 0 < n < 4294967296 /\ p + n <= hi /\ p mod 8 = 0 /\
    hi < 18446744073709551616;
  alloc_disjoint s L p n q k :
    ok s L -> L !! p = Some n -> L !! q = Some k -> p = q \/ p + n <= q \/ q + k <= p;
  (** Clients may write to their allocations and outside the region, and
      use the other parts of the machine state. *)
  alloc_write s s' L :
    ok s L -> (forall x, ~ owned lo hi L x -> ld8 (ram s') x = ld8 (ram s) x) ->
    hv s' = hv s -> heap_lock s' = heap_lock s -> ok s' L
}.

(** ** The map of live blocks *)

Definition live_map (bs : list blk) : gmap Z Z :=
  list_to_map ((fun b => (bpay b, bsz b)) <$> List.filter (fun b => negb (bfr b)) bs).

Lemma live_map_spec a bs e p n : tiles a bs e -> live_map bs !! p = Some n <-> live bs p n.
Proof.
  intros Ht. unfold live_map. rewrite <- elem_of_list_to_map.
  - rewrite list_elem_of_fmap. unfold live. split.
    + intros (b & [= -> ->] & Hb). apply list_elem_of_In, List.filter_In in Hb as [Hb Hf].
      exists b. rewrite list_elem_of_In. by destruct (bfr b).
    + intros (b & Hb & Hf & -> & ->). exists b. split; [reflexivity|].
      apply list_elem_of_In, List.filter_In. rewrite <- list_elem_of_In. by rewrite Hf.
  - rewrite <- list_fmap_compose. clear p n.
    revert a Ht; induction bs as [|b bs IH]; intros a; cbn [tiles List.filter]; [constructor|].
    intros (H1 & H2 & H3 & H4). destruct (bfr b); cbn [negb]; [by eapply IH|].
    cbn. constructor; [|by eapply IH]. intros Hin. apply list_elem_of_fmap in Hin as (c & Hc & Hin).
    apply list_elem_of_In, List.filter_In in Hin as [Hin _]. rewrite <- list_elem_of_In in Hin.
    pose proof (tiles_bounds _ _ _ _ H4 Hin). unfold bpay, bend in *. simpl in Hc. lia.
Qed.

Lemma live_map_none a bs e p : tiles a bs e ->
  (forall n, ~ live bs p n) -> live_map bs !! p = None.
Proof.
  intros Ht Hn. destruct (live_map bs !! p) as [n|] eqn:E; [|reflexivity].
  exfalso. apply (Hn n). by eapply live_map_spec.
Qed.

Lemma live_app l1 l2 p n : live (l1 ++ l2) p n <-> live l1 p n \/ live l2 p n.
Proof.
  unfold live. split.
  - intros (b & [Hb|Hb]%elem_of_app & H); eauto.
  - intros [(b & Hb & H)|(b & Hb & H)]; exists b; rewrite elem_of_app; auto.
Qed.

Lemma live_cons b l p n :
  live (b :: l) p n <-> (bfr b = false /\ p = bpay b /\ n = bsz b) \/ live l p n.
Proof.
  unfold live. split.
  - intros (c & [->|Hc]%elem_of_cons & H); eauto.
  - intros [H|(c & Hc & H)]; [exists b|exists c]; rewrite elem_of_cons; tauto.
Qed.

Lemma live_nil p n : ~ live [] p n.
Proof. intros (c & Hc & _). by apply elem_of_nil in Hc. Qed.

Lemma live_free_cons b l p n : bfr b = true -> live (b :: l) p n <-> live l p n.
Proof. intros Hb. rewrite live_cons, Hb. intuition congruence. Qed.

Lemma live_alloc pre b post size p n : bfr b = true ->
  live (pre ++ alloc_abs b size ++ post) p n <->
  live (pre ++ b :: post) p n \/ (p = bpay b /\ n = granted b size).
Proof.
  intros Hb. rewrite !live_app, (live_free_cons b) by assumption. unfold alloc_abs.
  rewrite live_cons. cbn [bfr bsz]. change (bpay (Blk (ba b) (granted b size) false)) with (bpay b).
  unfold leftover. destruct (_ <=? _); rewrite ?live_free_cons by reflexivity;
    pose proof (live_nil p n); tauto.
Qed.

Lemma live_free pre b post p n :
  live (fst (free_abs pre b post)) p n <-> live (pre ++ post) p n.
Proof.
  pose proof (live_nil p n). unfold free_abs, absorb_next.
  destruct post as [|c post]; [|destruct (bfr c) eqn:Ec]; destruct pre as [|d pre _] using rev_ind;
    rewrite ?last_snoc, ?removelast_last; try (destruct (bfr d) eqn:Ed);
    simpl fst; rewrite ?live_app, ?live_cons; cbn [bfr]; rewrite ?Ec, ?Ed; intuition congruence.
Qed.

(** ** The kernel heap implements the interface *)

(** The invariant of the kernel heap: well formed, counters right,
    coalesced, and no empty block. *)
Definition heap_inv (s : mstate) (bs : list blk) : Prop :=
  mem_ok s bs /\ heap_acct (hv s) bs /\ coalesced bs /\ Forall (fun b => 0 < bsz b) bs.

Definition heap_ok (lo : Z) (s : mstate) (L : gmap Z Z) : Prop :=
  exists bs, heap_inv s bs /\ heap_start (hv s) = lo /\ L = live_map bs.

Lemma Forall_alloc pre b post n :
  0 < n <= bsz b -> Forall (fun b => 0 < bsz b) (pre ++ b :: post) ->
  Forall (fun b => 0 < bsz b) (pre ++ alloc_abs b n ++ post).
Proof.
  intros Hn. rewrite !Forall_app, Forall_cons. intros (H1 & H2 & H3). split_and!; try assumption.
  unfold alloc_abs, leftover, granted. zcases; repeat constructor; simpl; lia.
Qed.

Lemma Forall_free pre b post :
  Forall (fun b => 0 < bsz b) (pre ++ b :: post) ->
  Forall (fun b => 0 < bsz b) (fst (free_abs pre b post)).
Proof.
  rewrite Forall_app, Forall_cons. intros (H1 & H2 & H3). unfold free_abs, absorb_next.
  destruct post as [|c post]; [|apply Forall_cons in H3 as [H3 H4]; destruct (bfr c)];
    (destruct pre as [|d pre _] using rev_ind;
     [|apply Forall_app in H1 as [H1 Hd]; apply Forall_cons in Hd as [Hd _];
       rewrite last_snoc, removelast_last; destruct (bfr d)]);
    simpl fst; rewrite ?Forall_app, ?Forall_cons; cbn [bsz]; split_and!; try done; try lia; repeat constructor; done.
Qed.

(** [kmalloc] keeps the invariant. *)
Lemma heap_inv_malloc s bs size :
  heap_inv s bs -> 0 < size <= 4294967288 ->
  exists p s' bs', kmalloc size s = Ret (p, s') /\ heap_inv s' bs' /\ untouched s s' /\
    ((p = 0 /\ bs' = bs /\ ram s' = ram s) \/
     (exists pre b post, bs = pre ++ b :: post /\ bfr b = true /\ p = bpay b /\ size <= granted b (align_up size 8) /\
        bs' = pre ++ alloc_abs b (align_up size 8) ++ post /\ serial s' = serial s /\
        frame (ram s) (ram s') (ba b) (bend b) /\ headers_only (ram s) (ram s') bs')).
Proof.
  intros (Hok & Hac & Hco & Hpos) Hsz. pose proof (align_up_8_bounds size ltac:(lia)) as [Hal _].
  pose proof (kmalloc_run s bs size Hok ltac:(lia)) as Hk. cbn zeta in Hk.
  destruct (List.find _ _) as [b|] eqn:Ef.
  - apply find_split in Ef as [_ Hfit]. apply andb_prop in Hfit as [Hb Hle%Z.leb_le].
    destruct Hk as (pre & post & s' & -> & Hk & Hok' & Hf & Hu & Hser & H1 & H2 & Hh).
    exists (bpay b), s', (pre ++ alloc_abs b (align_up size 8) ++ post). split; [assumption|].
    pose proof (granted_le b _ Hle) as Hg.
    pose proof (wf_block _ _ _ (proj1 Hok) b (elem_mid _ _ _)) as Hbb.
    pose proof (tiles_used _ _ _ (wf_tiles _ _ _ (proj1 Hok))) as Hus.
    change HEAP_BYTES with 16777216 in *.
    split; [|split; [assumption|right; exists pre, b, post; split_and!; try done; lia]].
    split_and!; [assumption| |by apply coalesced_alloc|apply Forall_alloc; [lia|assumption]].
    eapply acct_alloc; [exact Hac|assumption|lia|assumption|assumption].
  - destruct Hk as (s' & Hk & Hok' & Hr & Hu & _ & H1 & H2). exists 0, s', bs. split; [assumption|].
    split; [|split; [assumption|left; auto]]. split_and!; try assumption.
    unfold heap_acct. by rewrite H1, H2.
Qed.

(** [kfree] of an allocated block keeps it. *)
Lemma heap_inv_free s pre b post :
  heap_inv s (pre ++ b :: post) -> bfr b = false ->
  exists s', kfree (bpay b) s = Ret (tt, s') /\ heap_inv s' (fst (free_abs pre b post)) /\
    untouched s s' /\ serial s' = serial s /\ headers_only (ram s) (ram s') (pre ++ b :: post).
Proof.
  intros (Hok & Hac & Hco & Hpos) Hb. pose proof (wf_block _ _ _ (proj1 Hok) b (elem_mid _ _ _)) as Hbb.
  assert (0 < bsz b) as Hbp.
  { rewrite Forall_forall in Hpos. apply Hpos, elem_mid. }
  pose proof (tiles_used _ _ _ (wf_tiles _ _ _ (proj1 Hok))) as Hus.
  destruct (kfree_run_done s pre b post Hok Hb ltac:(unfold bpay, bend in *; lia))
    as (s' & Hk & Hok' & Hh & Hu & Hser & H1 & H2).
  exists s'. change HEAP_BYTES with 16777216 in *. split; [assumption|]. split; [|auto].
  split_and!; [assumption| |by apply coalesced_free|by apply Forall_free].
  eapply acct_free; [exact Hac|assumption| |assumption|assumption].
  rewrite <- (used_free pre b post Hb).
  pose proof (tiles_used _ _ _ (wf_tiles _ _ _ (proj1 Hok'))) as Hus'.
  change HEAP_BYTES with 16777216 in *. lia.
Qed.

(** A payload byte of another block lies outside block [b]. *)
Lemma owned_outside a bs e b x :
  tiles a bs e -> b ∈ bs -> bfr b = true -> owned a e (live_map bs) x -> x < ba b \/ bend b <= x.
Proof.
  intros Ht Hb Hf Hx. pose proof (tiles_bounds _ _ _ _ Ht Hb).
  destruct Hx as [?|[?|(p & n & Hp & Hx)]]; [lia|lia|].
  apply (live_map_spec _ _ _ _ _ Ht) in Hp as (c & Hc & Hcf & -> & ->).
  destruct (tiles_disjoint _ _ _ _ _ Ht Hb Hc) as [->|[?|?]]; [congruence| |]; unfold bpay, bend in *; lia.
Qed.

(** Owned bytes are no header bytes. *)
Lemma owned_no_header a bs e b x :
  tiles a bs e -> b ∈ bs -> owned a e (live_map bs) x -> x < ba b \/ ba b + 16 <= x.
Proof.
  intros Ht Hb Hx. pose proof (tiles_bounds _ _ _ _ Ht Hb) as Hbb.
  pose proof (tiles_size _ _ _ _ Ht Hb).
  destruct Hx as [?|[?|(p & n & Hp & Hx)]]; [lia|unfold bend in *; lia|].
  apply (live_map_spec _ _ _ _ _ Ht) in Hp as (c & Hc & Hcf & -> & ->).
  destruct (tiles_disjoint _ _ _ _ _ Ht Hb Hc) as [->|[?|?]]; unfold bpay, bend in *; lia.
Qed.

Section instance.
Context (lo : Z).

Lemma live_map_alloc a e pre b post n :
  tiles a (pre ++ b :: post) e -> tiles a (pre ++ alloc_abs b n ++ post) e -> bfr b = true ->
  live_map (pre ++ alloc_abs b n ++ post) = <[bpay b := granted b n]> (live_map (pre ++ b :: post)) /\
  live_map (pre ++ b :: post) !! bpay b = None.
Proof using.
  intros Ht Ht' Hb.
  assert (forall k, ~ live (pre ++ b :: post) (bpay b) k) as Hfresh.
  { intros k (c & Hc & Hcf & Hp & _). assert (b = c) as <-.
    { eapply tiles_addr_inj; [exact Ht|apply elem_mid|assumption|]. unfold bpay in Hp. lia. }
    congruence. }
  split; [|eapply live_map_none; eassumption].
  apply map_eq. intros p. apply option_eq. intros k.
  rewrite (live_map_spec _ _ _ _ _ Ht'), live_alloc by assumption. rewrite lookup_insert.
  destruct (decide (bpay b = p)) as [<-|Hne].
  - split; [|intros [= <-]; auto]. intros [H|[_ ->]]; [by apply Hfresh in H|reflexivity].
  - rewrite (live_map_spec _ _ _ _ _ Ht). split; [intros [?|[-> _]]; [assumption|done]|auto].
Qed.

Lemma live_map_free a e pre b post :
  tiles a (pre ++ b :: post) e -> tiles a (fst (free_abs pre b post)) e -> bfr b = false ->
  live_map (fst (free_abs pre b post)) = delete (bpay b) (live_map (pre ++ b :: post)).
Proof using.
  intros Ht Ht' Hb. apply map_eq. intros p. apply option_eq. intros k.
  rewrite (live_map_spec _ _ _ _ _ Ht'), live_free, lookup_delete.
  assert (live (pre ++ b :: post) p k <-> live (pre ++ post) p k \/ (p = bpay b /\ k = bsz b)) as Hs.
  { rewrite !live_app, live_cons, Hb. tauto. }
  destruct (decide (bpay b = p)) as [<-|Hne].
  - split; [|done]. intros (c & Hc & Hcf & Hp & _). exfalso.
    apply tiles_middle in Ht as (T1 & T2 & _ & T3 & _).
    apply elem_of_app in Hc as [Hc|Hc].
    + pose proof (tiles_bounds _ _ _ _ T1 Hc). pose proof (tiles_size _ _ _ _ T1 Hc).
      unfold bpay, bend in *. lia.
    + pose proof (tiles_bounds _ _ _ _ T3 Hc). unfold bpay, bend in *. lia.
  - rewrite (live_map_spec _ _ _ _ _ Ht), Hs. naive_solver.
Qed.

(** The tiling behind an [heap_ok] state. *)
Lemma heap_ok_tiles s bs : heap_inv s bs -> heap_start (hv s) = lo -> tiles lo bs (lo + HEAP_BYTES).
Proof using. intros Hinv <-. apply Hinv. Qed.

Lemma kernel_malloc s L size : heap_ok lo s L -> 0 < size <= 4294967288 ->
  exists p s', kmalloc size s = Ret (p, s') /\ kept lo (lo + HEAP_BYTES) L s s' /\
    ((p = 0 /\ heap_ok lo s' L) \/
     (p <> 0 /\ L !! p = None /\
      exists n, size <= n /\ heap_ok lo s' (<[p := n]> L) /\ serial s' = serial s)).
Proof using.
  intros (bs & Hinv & Hlo & ->) Hsz.
  destruct (heap_inv_malloc s bs size Hinv Hsz) as (p & s' & bs' & Hk & Hinv' & Hu & Hcase).
  destruct Hu as (U1 & U2 & U3 & U4 & U5). rewrite Hlo in U4.
  pose proof (heap_ok_tiles _ _ Hinv Hlo) as Ht. pose proof (heap_ok_tiles _ _ Hinv' U4) as Ht'.
  exists p, s'. split; [assumption|].
  destruct Hcase as [(-> & -> & Hr)|(pre & b & post & -> & Hb & -> & Hg & -> & Hser & Hf & _)].
  - split; [|left; split; [reflexivity|exists bs; auto]].
    split_and!; try assumption. intros x _. by rewrite Hr.
  - destruct (live_map_alloc _ _ pre b post _ Ht Ht' Hb) as [E1 E2]. split; [|right].
    + split_and!; try assumption. intros x Hx.
      apply Hf. eapply owned_outside; [exact Ht|apply elem_mid|assumption|assumption].
    + pose proof (wf_block _ _ _ (proj1 (proj1 Hinv)) b (elem_mid _ _ _)).
      split; [unfold bpay; lia|]. split; [exact E2|]. eexists. split; [exact Hg|].
      split; [|assumption]. rewrite <- E1. eexists. split_and!; [exact Hinv'|assumption|reflexivity].
Qed.

Lemma kernel_free s L p n : heap_ok lo s L -> L !! p = Some n ->
  exists s', kfree p s = Ret (tt, s') /\ kept lo (lo + HEAP_BYTES) L s s' /\
    heap_ok lo s' (delete p L) /\ serial s' = serial s.
Proof using.
  intros (bs & Hinv & Hlo & ->) Hp. pose proof (heap_ok_tiles _ _ Hinv Hlo) as Ht.
  apply (live_map_spec _ _ _ _ _ Ht) in Hp as (b & Hb & Hbf & -> & ->).
  apply list_elem_of_split in Hb as (pre & post & ->).
  destruct (heap_inv_free s pre b post Hinv Hbf) as (s' & Hk & Hinv' & Hu & Hser & Hh).
  destruct Hu as (U1 & U2 & U3 & U4 & U5). rewrite Hlo in U4.
  pose proof (heap_ok_tiles _ _ Hinv' U4) as Ht'.
  exists s'. split; [assumption|]. split; [split_and!; try assumption|split; [|assumption]].
  - intros x Hx. apply Hh. intros c Hc. eapply owned_no_header; [exact Ht|exact Hc|exact Hx].
  - eexists. split_and!; [exact Hinv'|assumption|]. symmetry. eapply live_map_free; eassumption.
Qed.

Lemma kernel_range s L p n : heap_ok lo s L -> L !! p = Some n ->
  0 < lo /\ lo <= p /\ 0 < n < 4294967296 /\ p + n <= lo + HEAP_BYTES /\ p mod 8 = 0 /\
  lo + HEAP_BYTES < 18446744073709551616.
Proof using.
  intros (bs & Hinv & Hlo & ->) Hp. pose proof (heap_ok_tiles _ _ Hinv Hlo) as Ht.
  apply (live_map_spec _ _ _ _ _ Ht) in Hp as (b & Hb & Hbf & -> & ->).
  pose proof (wf_block _ _ _ (proj1 (proj1 Hinv)) b Hb) as Hbb.
  destruct Hinv as (Hok & _ & _ & Hpos). rewrite Forall_forall in Hpos. specialize (Hpos b Hb).
  pose proof (wf_end _ _ _ (proj1 Hok)). pose proof (wf_start _ _ _ (proj1 Hok)).
  unfold bpay, bend in *. split_and!; try lia. word_lia.
Qed.

Lemma kernel_disjoint s L p n q k :
  heap_ok lo s L -> L !! p = Some n -> L !! q = Some k -> p = q \/ p + n <= q \/ q + k <= p.
Proof using.
  intros (bs & Hinv & Hlo & ->) Hp Hq. pose proof (heap_ok_tiles _ _ Hinv Hlo) as Ht.
  apply (live_map_spec _ _ _ _ _ Ht) in Hp as (b & Hb & Hbf & -> & ->).
  apply (live_map_spec _ _ _ _ _ Ht) in Hq as (c & Hc & Hcf & -> & ->).
  destruct (tiles_disjoint _ _ _ _ _ Ht Hb Hc) as [->|[?|?]]; [auto| |]; unfold bpay, bend in *; lia.
Qed.

(** Writes outside the headers keep the block list. *)
Lemma mem_ok_write s s' bs : mem_ok s bs -> (forall b y, b ∈ bs -> ba b <= y < ba b + 16 -> ld8 (ram s') y = ld8 (ram s) y) ->
  hv s' = hv s -> heap_lock s' = heap_lock s -> mem_ok s' bs.
Proof using.
  intros [Hwf Hl] Hx Hhv Hlk. split; [|congruence]. rewrite Hhv. eapply rep_heap_wf; [exact Hwf| |reflexivity|apply Hwf|apply Hwf].
  split; [apply Hwf|]. eapply chain_ext; [|apply Hwf]. intros b Hb y Hy. by apply (Hx b).
Qed.

Lemma kernel_write s s' L :
  heap_ok lo s L ->
  (forall x, ~ owned lo (lo + HEAP_BYTES) L x -> ld8 (ram s') x = ld8 (ram s) x) ->
  hv s' = hv s -> heap_lock s' = heap_lock s -> heap_ok lo s' L.
Proof using.
  intros (bs & (Hok & Hac & Hco & Hpos) & Hlo & ->) Hx Hhv Hlk.
  exists bs. rewrite <- Hlo in *. rewrite Hhv. split_and!; try reflexivity.
  split_and!; try (rewrite ?Hhv; assumption). apply (mem_ok_write s); try done. intros b y Hb Hy. apply Hx. intros Ho.
  destruct (owned_no_header _ _ _ b _ (wf_tiles _ _ _ (proj1 Hok)) Hb Ho); lia.
Qed.

#[export] Instance kernel_heap : Allocator kmalloc kfree lo (lo + HEAP_BYTES) (heap_ok lo).
Proof using.
  split; eauto using kernel_malloc, kernel_free, kernel_range, kernel_disjoint, kernel_write.
Qed.
End instance.

(** ** The lower part of the kernel heap

    An allocation that the search finds below [top] leaves the heap from
    [top] on alone, unused bytes there included.  [kmalloc_below] is
    [kmalloc] for such requests and refuses the others, so that a client
    theorem over the interface also covers a heap whose upper part is in
    other use.  It is a device of the proofs: wherever the request fits it
    is [kmalloc]. *)

Section part.
Context (lo top : Z).

Definition kmalloc_below (n : Z) : M mstate Z := fun s =>
  match kmalloc n s with
  | Ret (p, s') => if (p =? 0) || (p + align_up n 8 + 80 <=? top) then Ret (p, s') else Ret (0, s)
  | r => r
  end.

(** No header and no live block reaches beyond [top]. *)
Definition below (b : blk) : Prop := ba b + 16 <= top /\ (bfr b = false -> bend b <= top).
Definition part_ok (s : mstate) (L : gmap Z Z) : Prop :=
  top <= lo + HEAP_BYTES /\ exists bs, heap_inv s bs /\ heap_start (hv s) = lo /\ L = live_map bs /\ Forall below bs.

Lemma part_heap s L : part_ok s L -> heap_ok lo s L.
Proof using. intros (_ & bs & H1 & H2 & H3 & _). by exists bs. Qed.

Lemma headers_below m m' bs x : Forall below bs -> headers_only m m' bs -> top <= x -> ld8 m' x = ld8 m x.
Proof using.
  intros Hb Hh Hx. apply Hh. intros c Hc. rewrite Forall_forall in Hb. destruct (Hb c Hc). lia.
Qed.

(** What is owned in the part is owned in the heap, but for bytes from
    [top] on. *)
Lemma owned_part L x : owned lo top L x -> owned lo (lo + HEAP_BYTES) L x \/ top <= x.
Proof using. unfold owned. intros [?|[?|?]]; auto. Qed.

Lemma kept_part L s s' : kept lo (lo + HEAP_BYTES) L s s' -> (forall x, top <= x -> ld8 (ram s') x = ld8 (ram s) x) -> kept lo top L s s'.
Proof using. intros (H1 & H2 & H3 & H4) Ht. split_and!; try done. intros x [Hx|Hx]%owned_part; auto. Qed.

Lemma below_alloc b n : 0 <= n -> below b -> bpay b + n + 80 <= top -> Forall below (alloc_abs b n).
Proof using.
  intros Hn [H1 H2] Hle. unfold alloc_abs, leftover, granted, below, bpay, bend in *.
  zcases; repeat constructor; cbn [ba bsz bfr]; intros; try discriminate; lia.
Qed.

Lemma below_free pre b post : Forall below (pre ++ b :: post) -> Forall below (fst (free_abs pre b post)).
Proof using.
  rewrite Forall_app, Forall_cons. intros (H1 & (H2 & _) & H3). unfold free_abs, absorb_next.
  destruct post as [|c post]; [|apply Forall_cons in H3 as [H3 H4]; destruct (bfr c)];
    (destruct pre as [|d pre _] using rev_ind;
     [|apply Forall_app in H1 as [H1 Hd]; apply Forall_cons in Hd as [Hd _];
       rewrite last_snoc, removelast_last; destruct (bfr d)]);
    simpl fst; rewrite ?Forall_app, ?Forall_cons; unfold below in *; cbn [ba bfr]; split_and!; try done; try tauto;
    repeat constructor; tauto.
Qed.

Lemma part_malloc s L n : part_ok s L -> 0 < n <= 4294967288 ->
  exists p s', kmalloc_below n s = Ret (p, s') /\ kept lo top L s s' /\
    ((p = 0 /\ part_ok s' L) \/ (p <> 0 /\ L !! p = None /\ exists k, n <= k /\ part_ok s' (<[p := k]> L) /\ serial s' = serial s)).
Proof using.
  intros Hok Hn. destruct (kernel_malloc lo s L n (part_heap _ _ Hok) Hn) as (p & s' & E & Hk & Hc).
  pose proof Hok as (Ht & bs & Hinv & Hlo & HL & Hb). unfold kmalloc_below. rewrite E.
  destruct (heap_inv_malloc s bs n Hinv Hn) as (p' & s2 & bs' & E' & Hinv' & (_ & _ & _ & U4 & _) & Hcase).
  rewrite E in E'. injection E' as <- <-. rewrite Hlo in U4. pose proof (align_up_8_bounds n ltac:(lia)) as [Hal _].
  destruct Hcase as [(-> & -> & Hr)|(pre & b & post & -> & Hbf & -> & Hg & -> & Hser & Hf & Hh)].
  { exists 0, s'. split; [done|]. split; [apply kept_part; [done|]; intros x _; by rewrite Hr|left]. split; [done|]. split; [done|]. by exists bs. }
  destruct Hc as [[Hz _]|(Hne & HLp & k & Hk1 & Hk2 & Hk3)].
  { pose proof (wf_block _ _ _ (proj1 (proj1 Hinv)) b (elem_mid _ _ _)). unfold bpay in Hz. lia. }
  destruct (Z.eqb_spec (bpay b) 0); [done|]. cbn [orb].
  destruct (Z.leb_spec (bpay b + align_up n 8 + 80) top).
  2:{ exists 0, s. split; [done|]. split; [split_and!; done|by left]. }
  assert (Forall below (pre ++ alloc_abs b (align_up n 8) ++ post)) as Hb'.
  { apply Forall_app in Hb as [B1 B2]. apply Forall_cons in B2 as [B2 B3]. rewrite !Forall_app. split_and!; try done. apply below_alloc; (done || lia). }
  exists (bpay b), s'. split; [done|]. split; [apply kept_part; [done|]; intros x Hx; by apply (headers_below _ _ _ x Hb')|].
  right. split; [done|]. split; [done|]. exists (granted b (align_up n 8)). split; [done|]. split; [|done]. split; [done|].
  eexists. split; [exact Hinv'|]. split; [done|]. split; [|done]. rewrite HL. symmetry.
  exact (proj1 (live_map_alloc lo (lo + HEAP_BYTES) pre b post _ (heap_ok_tiles lo _ _ Hinv Hlo) (heap_ok_tiles lo _ _ Hinv' U4) Hbf)).
Qed.

Lemma part_free s L p n : part_ok s L -> L !! p = Some n ->
  exists s', kfree p s = Ret (tt, s') /\ kept lo top L s s' /\ part_ok s' (delete p L) /\ serial s' = serial s.
Proof using.
  intros Hok Hp. destruct (kernel_free lo s L p n (part_heap _ _ Hok) Hp) as (s' & E & Hk & _ & Hser).
  destruct Hok as (Ht & bs & Hinv & Hlo & -> & Hb). pose proof (heap_ok_tiles lo _ _ Hinv Hlo) as Hti.
  apply (live_map_spec _ _ _ _ _ Hti) in Hp as (b & Hin & Hbf & -> & ->). apply list_elem_of_split in Hin as (pre & post & ->).
  destruct (heap_inv_free s pre b post Hinv Hbf) as (s2 & E' & Hinv' & (_ & _ & _ & U4 & _) & _ & Hh).
  rewrite E in E'. injection E' as <-. rewrite Hlo in U4. exists s'. split; [done|].
  split; [apply kept_part; [done|]; intros x Hx; by apply (headers_below _ _ _ x Hb)|]. split; [|done]. split; [done|].
  eexists. split; [exact Hinv'|]. split; [done|]. split; [|by apply below_free].
  symmetry. exact (live_map_free lo (lo + HEAP_BYTES) pre b post Hti (heap_ok_tiles lo _ _ Hinv' U4) Hbf).
Qed.

Lemma part_range s L p n : part_ok s L -> L !! p = Some n ->
  0 < lo /\ lo <= p /\ 0 < n < 4294967296 /\ p + n <= top /\ p mod 8 = 0 /\ top < 18446744073709551616.
Proof using.
  intros Hok Hp. destruct (kernel_range lo s L p n (part_heap _ _ Hok) Hp) as (R1 & R2 & R3 & _ & R5 & R6).
  destruct Hok as (Ht & bs & Hinv & Hlo & -> & Hb). split_and!; try done; try lia.
  apply (live_map_spec _ _ _ _ _ (heap_ok_tiles lo _ _ Hinv Hlo)) in Hp as (b & Hin & Hbf & -> & ->).
  rewrite Forall_forall in Hb. destruct (Hb b Hin) as [_ Hbe]. exact (Hbe Hbf).
Qed.

Lemma part_write s s' L : part_ok s L -> (forall x, ~ owned lo top L x -> ld8 (ram s') x = ld8 (ram s) x) ->
  hv s' = hv s -> heap_lock s' = heap_lock s -> part_ok s' L.
Proof using.
  intros (Ht & bs & (Hok & Hac & Hco & Hpos) & Hlo & -> & Hb) Hx Hhv Hlk.
  split; [done|]. exists bs. rewrite Hhv. split; [|by split_and!]. split; [|by rewrite Hhv]. destruct Hok as [Hwf Hl].
  split; [|congruence]. rewrite Hhv. eapply rep_heap_wf; [exact Hwf| |reflexivity|apply Hwf|apply Hwf].
  split; [apply Hwf|]. eapply chain_ext; [|apply Hwf]. intros b Hin y Hy. apply Hx.
  rewrite Forall_forall in Hb. destruct (Hb b Hin) as [Hbt _]. intros Ho%owned_part. destruct Ho as [Ho|Ho]; [|lia].
  pose proof (wf_tiles _ _ _ Hwf) as Hti. rewrite Hlo in Hti. destruct (owned_no_header _ _ _ b _ Hti Hin Ho); lia.
Qed.

#[export] Instance heap_part : Allocator kmalloc_below kfree lo top part_ok.
Proof using.
  split; eauto using part_malloc, part_free, part_range, part_write.
  intros s L p n q k Hok. exact (kernel_disjoint lo s L p n q k (part_heap _ _ Hok)).
Qed.
End part.

(** ** What clients use *)

Section Clients.
Context {malloc : Z -> M mstate Z} {free : Z -> M mstate unit} {lo hi : Z}
  {ok : mstate -> gmap Z Z -> Prop} {A : Allocator malloc free lo hi ok}.

(** A fresh allocation shares no byte with what was owned before. *)
Lemma fresh_apart s L p n x :
  ok s (<[p := n]> L) -> L !! p = None -> owned lo hi L x -> x < p \/ p + n <= x.
Proof using A.
  intros Hok HL Hx. destruct (alloc_range s _ p n Hok (lookup_insert_eq _ _ _)) as (_ & R1 & R2 & R3 & _).
  destruct Hx as [?|[?|(q & k & Hq & Hx)]]; [lia|lia|].
  destruct (alloc_disjoint s (<[p := n]> L) q k p n Hok) as [->|[?|?]]; try lia; [|apply lookup_insert_eq|congruence].
  rewrite lookup_insert_ne by congruence. exact Hq.
Qed.

(** The owner of an allocation may write to it. *)
Lemma alloc_write_own s s' L p n :
  ok s L -> L !! p = Some n -> (forall x, x < p \/ p + n <= x -> ld8 (ram s') x = ld8 (ram s) x) ->
  hv s' = hv s -> heap_lock s' = heap_lock s -> ok s' L.
Proof using A.
  intros Hok HL Hx Hh Hl. apply (alloc_write s); try assumption. intros x Hno. apply Hx.
  destruct (Z.lt_ge_cases x p); [lia|]. destruct (Z.le_gt_cases (p + n) x); [lia|].
  exfalso. apply Hno. right; right. exists p, n. split; [assumption|lia].
Qed.
End Clients.

Section Buffers.
Context (malloc : Z -> M mstate Z) (free : Z -> M mstate unit) (lo hi : Z)
  (aok : mstate -> gmap Z Z -> Prop) {AL : Allocator malloc free lo hi aok}.

Lemma owned_mono L q k x : L !! q = None -> owned lo hi L x -> owned lo hi (<[q := k]> L) x.
Proof.
  intros HL [?|[?|(q' & k' & Hq & Hx)]]; [by left|by right; left|right; right].
  exists q', k'. rewrite lookup_insert_ne by congruence. by split.
Qed.

(** A buffer is given back. *)
Lemma drop_buffer m L q k :
  aok m (<[q := k]> L) -> L !! q = None ->
  exists m', free q m = Ret (tt, m') /\ aok m' L /\ forall x, owned lo hi L x -> ld8 (ram m') x = ld8 (ram m) x.
Proof using AL.
  intros Hok HL. destruct (alloc_free m _ q k Hok (lookup_insert_eq _ _ _)) as (m' & E & (_ & _ & _ & Hk) & Hok' & _).
  rewrite delete_insert_id in Hok' by done. exists m'. split_and!; [done|done|]. intros x Hx. apply Hk. by apply owned_mono.
Qed.

(** A buffer of owned bytes and a fresh allocation are apart. *)
Lemma range_apart L q k a n :
  0 < k -> (forall x, owned lo hi L x -> x < q \/ q + k <= x) -> (forall x, a <= x < a + n -> owned lo hi L x) ->
  0 < n -> a + n <= q \/ q + k <= a.
Proof.
  intros Hk Hx Ha Hn. destruct (Z.le_gt_cases (a + n) q); [by left|right].
  destruct (Z.le_gt_cases a q); [|destruct (Hx a (Ha a ltac:(lia))); lia].
  destruct (Hx q (Ha q ltac:(lia))); lia.
Qed.
End Buffers.

(** A request some free block fits is served.  A heap without live
    allocations is one free block, and serves every request that is smaller
    than the heap by the two roundings. *)
Lemma empty_heap_block lo s : heap_ok lo s ∅ -> exists b, heap_inv s [b] /\ ba b = lo /\ bend b = lo + HEAP_BYTES /\ bfr b = true /\ 0 < lo /\ heap_start (hv s) = lo.
Proof.
  intros (bs & Hinv & Hlo & Hm). pose proof (heap_ok_tiles lo _ _ Hinv Hlo) as Ht. pose proof (wf_start _ _ _ (proj1 (proj1 Hinv))) as Hst.
  assert (forall b, b ∈ bs -> bfr b = true) as Hfree.
  { intros b Hb. destruct (bfr b) eqn:E; [done|]. exfalso.
    assert (live_map bs !! bpay b = Some (bsz b)) as Hl2 by (apply (live_map_spec _ _ _ _ _ Ht); by exists b).
    by rewrite <- Hm, lookup_empty in Hl2. }
  destruct bs as [|b [|c bs]]; cbn [tiles] in Ht.
  - change HEAP_BYTES with 16777216 in Ht. lia.
  - exists b. destruct Ht as (H1 & _ & _ & H4). split_and!; try done; [by apply Hfree, elem_hd|lia].
  - exfalso. destruct Hinv as (_ & _ & Hco & _). cbn [coalesced] in Hco. destruct Hco as [Hco _].
    rewrite (Hfree b (elem_hd _ _)), (Hfree c) in Hco; [done|]. apply elem_tl, elem_hd.
Qed.

Lemma heap_serves s bs b size : mem_ok s bs -> b ∈ bs -> fits (align_up size 8) b = true -> 0 < size < 4294967296 ->
  exists c pre post s', bs = pre ++ c :: post /\ kmalloc size s = Ret (bpay c, s') /\ bpay c <> 0.
Proof.
  intros Hok Hb Hf Hsz. pose proof (kmalloc_run s bs size Hok Hsz) as Hk. cbv zeta in Hk.
  destruct (List.find _ _) as [c|] eqn:E.
  - destruct Hk as (pre & post & s' & -> & Hk & _). exists c, pre, post, s'. split_and!; try done.
    pose proof (wf_block _ _ _ (proj1 Hok) c (elem_mid _ _ _)). unfold bpay. lia.
  - exfalso. pose proof (List.find_none _ _ E b) as Hn. rewrite <- list_elem_of_In, search_order_elem in Hn. rewrite Hf in Hn. by specialize (Hn Hb).
Qed.

Lemma empty_heap_serves lo s size : heap_ok lo s ∅ -> 0 < size <= HEAP_BYTES - 24 -> exists s', kmalloc size s = Ret (lo + 16, s') /\ lo + 16 <> 0.
Proof.
  intros Hok Hsz. destruct (empty_heap_block lo s Hok) as (b & (Hmok & _) & Hb & He & Hf & Hlo & _). change HEAP_BYTES with 16777216 in *.
  destruct (heap_serves s [b] b size Hmok (elem_hd _ _)) as (b' & pre & post & s' & Hl & Hk & _); [|lia|].
  - unfold fits. rewrite Hf. cbn [andb]. rewrite align_up_8 by lia. unfold bend in *. zcases; try done; word_lia.
  - exists s'. destruct pre as [|? [|? ?]]; injection Hl as <- Hl; try discriminate Hl. unfold bpay in Hk. rewrite Hb in Hk. split; [exact Hk|lia].
Qed.

(** An empty heap, with its part below [top] large enough for the request. *)
Lemma empty_heap_part lo top s : heap_ok lo s ∅ -> lo + 16 <= top <= lo + HEAP_BYTES -> part_ok lo top s ∅.
Proof.
  intros Hok Htop. destruct (empty_heap_block lo s Hok) as (b & Hinv & Hb & _ & Hf & _ & Hs). split; [lia|]. exists [b].
  split_and!; [done|done|unfold live_map; cbn; by rewrite Hf|]. repeat constructor; [lia|congruence].
Qed.
Lemma empty_part_serves lo top s size : heap_ok lo s ∅ -> 0 < size -> lo + size + 103 <= top <= lo + HEAP_BYTES ->
  kmalloc_below top size s = kmalloc size s /\ exists s', kmalloc size s = Ret (lo + 16, s') /\ lo + 16 <> 0.
Proof.
  intros Hok Hsz Htop. change HEAP_BYTES with 16777216 in *.
  destruct (empty_heap_serves lo s size Hok ltac:(change HEAP_BYTES with 16777216; lia)) as (s' & E & Hne). split; [|by exists s'].
  unfold kmalloc_below. rewrite E. assert (align_up size 8 <= size + 7) as Hal by (rewrite align_up_8 by lia; zcases; word_lia).
  rewrite (proj2 (Z.leb_le _ _)) by lia. by rewrite orb_true_r.
Qed.
