(* ===== verification/HeapRealloc.v ===== *)
(** * [krealloc]

    The locked region shrinks the block in place, grows it into a free
    successor, or asks for a move.  Growing in place leaves
    [heap_search_hint] alone, so the heap stays well formed only when the
    hint is not the absorbed successor; that is a hypothesis of the lemmas
    below, and HeapTheorems.v shows what happens without it. *)
From S2P Require Import Prelude Machine Utils Serial Memory.
From S2P Require Import Heap HeapChain HeapInv HeapOps HeapList HeapSpec Alloc.

Lemma krealloc_locked_eq ptr n h m :
  krealloc_locked ptr n h m =
  '(block, _) ← find_block_by_payload h m ptr;
  if (block =? 0) || negb (blk_is_free m block =? 0) then Ret (ReallocInvalid, h, m)
  else if n <=? blk_size m block then Ret (ReallocInPlace, h, split_block_if_needed m block n)
  else
    let nx := blk_next m block in
    if negb (nx =? 0) && negb (blk_is_free m nx =? 0) &&
       (n <=? blk_size m block + sizeof_block + blk_size m nx)
    then Ret (ReallocInPlace, h, split_block_if_needed (absorb m block nx) block n)
    else Ret (ReallocMove (blk_size m block), h, m).
Proof. reflexivity. Qed.

(** A list that keeps the old addresses keeps the hint valid. *)
Lemma hint_kept h (bs bs' : list blk) :
  heap_search_hint h = 0 \/ (exists b, b ∈ bs /\ heap_search_hint h = ba b) ->
  (forall b, b ∈ bs -> heap_search_hint h = ba b -> exists c, c ∈ bs' /\ ba c = ba b) ->
  heap_search_hint h = 0 \/ exists b, b ∈ bs' /\ heap_search_hint h = ba b.
Proof.
  intros [?|(b & Hb & He)] Hk; [by left|right]. destruct (Hk b Hb He) as (c & Hc & Hca).
  exists c. split; [assumption|congruence].
Qed.

Lemma split_abs_elem b n : exists c, c ∈ split_abs b n /\ ba c = ba b.
Proof. unfold split_abs. destruct (_ <=? _); eexists; (split; [apply elem_hd|reflexivity]). Qed.

Section locked.
Context (h : heap_vars) (m : mem) (pre post : list blk) (b : blk) (n : Z).
Context (Hwf : heap_wf h m (pre ++ b :: post)) (Hb : bfr b = false).
Context (Hn : 0 <= n) (Hn8 : n mod 8 = 0).

(** The region of code up to the size test. *)
Lemma krealloc_found :
  krealloc_locked (bpay b) n h m =
  if n <=? bsz b then Ret (ReallocInPlace, h, split_block_if_needed m (ba b) n)
  else
    match post with
    | c :: _ =>
        if bfr c && (n <=? bsz b + 16 + bsz c)
        then Ret (ReallocInPlace, h, split_block_if_needed (absorb m (ba b) (ba c)) (ba b) n)
        else Ret (ReallocMove (bsz b), h, m)
    | [] => Ret (ReallocMove (bsz b), h, m)
    end.
Proof using Hb Hwf.
  destruct (heap_wf_region _ _ _ Hwf) as (R1 & R2 & R3). pose proof (heap_wf_rep _ _ _ Hwf) as Hr.
  rewrite krealloc_locked_eq, (find_block_wf _ _ _ _ Hwf), (find_abs_middle _ _ _ _ _ _ (proj1 Hr)).
  cbn [mbind outcome_bind].
  destruct (rep_read _ _ R1 R2 R3 _ _ _ _ Hr) as (H1 & H2 & H3 & H4). rewrite Hb in H2.
  rewrite H1, H2, H3. destruct (Z.eqb_spec (ba b) 0); [contradiction|]. cbn [b2z Z.eqb negb orb].
  destruct (n <=? bsz b); [reflexivity|]. cbn zeta.
  destruct post as [|c post']; cbn [hd_addr]; [reflexivity|].
  assert (rep (heap_start h) (heap_start h + HEAP_BYTES) m ((pre ++ [b]) ++ c :: post')) as Hr'
    by (by rewrite <- app_assoc).
  destruct (rep_read _ _ R1 R2 R3 _ _ _ _ Hr') as (C1 & C2 & _ & C4). rewrite C1, C2.
  destruct (Z.eqb_spec (ba c) 0); [contradiction|]. unfold sizeof_block. by destruct (bfr c).
Qed.

Lemma split_wf :
  heap_wf h (split_block_if_needed m (ba b) n) (pre ++ split_abs b n ++ post).
Proof using Hn Hn8 Hwf.
  destruct (heap_wf_region _ _ _ Hwf) as (R1 & R2 & R3). pose proof (heap_wf_rep _ _ _ Hwf) as Hr.
  eapply rep_heap_wf; [exact Hwf|by apply rep_split|reflexivity|apply Hwf|].
  eapply hint_kept; [apply Hwf|]. intros c Hc _. apply elem_of_app in Hc as [Hc|Hc].
  - exists c. rewrite elem_of_app. auto.
  - apply elem_of_cons in Hc as [->|Hc].
    + destruct (split_abs_elem b n) as (d & Hd & Hda). exists d. rewrite !elem_of_app. auto.
    + exists c. rewrite !elem_of_app. auto.
Qed.
End locked.

Lemma absorb_wf h m pre b c post :
  heap_wf h m (pre ++ b :: c :: post) -> heap_search_hint h <> ba c ->
  heap_wf h (absorb m (ba b) (ba c)) (pre ++ Blk (ba b) (bsz b + 16 + bsz c) (bfr b) :: post).
Proof.
  intros Hwf Hh. destruct (heap_wf_region _ _ _ Hwf) as (R1 & R2 & R3).
  eapply rep_heap_wf; [exact Hwf|apply rep_absorb; try assumption; apply heap_wf_rep, Hwf|reflexivity|apply Hwf|].
  eapply hint_kept; [apply Hwf|]. intros d Hd He. apply elem_of_app in Hd as [Hd|Hd].
  - exists d. rewrite elem_of_app. auto.
  - apply elem_of_cons in Hd as [->|Hd]; [eexists; split; [apply elem_mid|reflexivity]|].
    apply elem_of_cons in Hd as [->|Hd]; [contradiction|].
    exists d. rewrite elem_of_app, elem_of_cons. auto.
Qed.

(** An allocated block survives the allocation of another one. *)
Lemma alloc_other a e b p c q k :
  tiles a (p ++ c :: q) e -> b ∈ p ++ c :: q -> bfr b = false -> bfr c = true ->
  b ∈ p ++ alloc_abs c k ++ q /\ (bend b <= ba c \/ bend c <= ba b).
Proof.
  intros Ht Hb Hbf Hcf. split.
  - rewrite !elem_of_app. apply elem_of_app in Hb as [?|[->|?]%elem_of_cons]; [auto|congruence|auto].
  - destruct (tiles_disjoint _ _ _ _ _ Ht Hb (elem_mid _ _ _)) as [->|?]; [congruence|assumption].
Qed.

(** Copying into an allocated block. *)
Lemma copy_ok s bs g src k :
  mem_ok s bs -> g ∈ bs -> 0 <= k <= bsz g -> bpay g <= src \/ src + k <= bpay g ->
  mem_ok (set_ram (memcpy (ram s) (bpay g) src k) s) bs.
Proof.
  intros [Hwf Hl] Hg Hk Hd. split; [|exact Hl]. eapply heap_wf_payload; [exact Hwf|exact Hg|].
  intros x Hx. cbn. rewrite ld8_memcpy by lia. unfold bend, bpay in *. zcases; (reflexivity || lia).
Qed.

(** [krealloc] of an allocated block comes back with a well-formed heap; if
    it returns a pointer, the block there is large enough and holds the old
    contents. *)
Section run.
Context (s : mstate) (pre post : list blk) (b : blk) (size : Z).
Context (Hok : mem_ok s (pre ++ b :: post)) (Hb : bfr b = false).
Context (Hsz : 0 < size <= 4294967288) (Hend : bpay b < heap_start (hv s) + HEAP_BYTES).
Context (Hhint : forall c, hd_error post = Some c -> heap_search_hint (hv s) <> ba c).

Let n := align_up size 8.

Lemma krealloc_head :
  krealloc (bpay b) size s =
  (r ← locked HeapLock (on_heap (krealloc_locked (bpay b) n));
   match r with
   | ReallocInvalid => say [line "[OS] [Memory] krealloc: Invalid pointer"];; mret 0
   | ReallocInPlace => mret (bpay b)
   | ReallocMove old_size =>
       new_ptr ← kmalloc n;
       if new_ptr =? 0 then mret 0
       else
         modify (fun s => set_ram (memcpy (ram s) new_ptr (bpay b) old_size) s);;
         kfree (bpay b);;
         mret new_ptr
   end) s.
Proof using Hok Hsz.
  pose proof (wf_block _ _ _ (proj1 Hok) b (elem_mid _ _ _)) as Hbb.
  unfold krealloc. destruct (Z.eqb_spec (bpay b) 0); [unfold bpay in *; lia|].
  by destruct (Z.eqb_spec size 0); [lia|].
Qed.

Lemma n_bounds : size <= n < size + 8 /\ n mod 8 = 0 /\ 0 < n <= 4294967288.
Proof using Hsz.
  subst n. pose proof (align_up_8_bounds size ltac:(lia)) as [? ?]. split_and!; try lia.
  rewrite align_up_8 by lia. zcases; word_lia.
Qed.

(** What a resize in place gives, from the split of the final block. *)
Lemma krealloc_in_place m1 b1 post1 :
  heap_wf (hv s) m1 (pre ++ b1 :: post1) -> ba b1 = ba b -> bfr b1 = false -> n <= bsz b1 ->
  agree (ram s) m1 (bpay b) (bpay b + Z.min (bsz b) size) ->
  krealloc_locked (bpay b) n (hv s) (ram s) = Ret (ReallocInPlace, hv s, split_block_if_needed m1 (ba b) n) ->
  exists s' bs' k, krealloc (bpay b) size s = Ret (bpay b, s') /\ mem_ok s' bs' /\ live bs' (bpay b) k /\
    size <= k /\ bytes (ram s') (bpay b) (Z.min (bsz b) size) = bytes (ram s) (bpay b) (Z.min (bsz b) size).
Proof using Hok Hsz.
  intros Hwf1 Hba Hbf Hle Hag Hk. destruct n_bounds as (Hn & Hn8 & Hn0).
  pose proof (split_wf _ _ _ _ _ n Hwf1 ltac:(lia) Hn8) as Hwf2. rewrite Hba in Hwf2.
  rewrite krealloc_head, (bind_run _ _ _ _ _ (locked_on_heap _ _ _ _ _ (proj2 Hok) Hk)).
  exists (set_heap (hv s) (split_block_if_needed m1 (ba b) n) s), (pre ++ split_abs b1 n ++ post1),
    (if n + 16 + 64 <=? bsz b1 then n else bsz b1).
  split; [reflexivity|]. split; [split; [exact Hwf2|apply Hok]|]. split_and!.
  - unfold split_abs. exists (Blk (ba b) (if n + 16 + 64 <=? bsz b1 then n else bsz b1) false).
    split_and!; try reflexivity. rewrite !elem_of_app. right. left.
    destruct b1 as [x1 z1 f1]. cbn in *. subst x1 f1. destruct (_ <=? _); apply elem_hd.
  - zcases; lia.
  - cbn [ram set_heap]. apply bytes_agree. eapply agree_trans; [exact Hag|].
    eapply agree_sub; [..|rewrite <- Hba; eapply (split_payload m1 b1 n); [lia|]];
      [rewrite <- Hba in *; unfold bpay in *; lia..|].
    pose proof (wf_chain _ _ _ Hwf1) as Hc. apply chain_app in Hc as [_ (C1 & C2 & C3 & _)].
    cbn. split_and!; eassumption || exact I.
Qed.

(** The move: allocate, copy, free. *)
Lemma krealloc_move :
  bsz b < n ->
  krealloc_locked (bpay b) n (hv s) (ram s) = Ret (ReallocMove (bsz b), hv s, ram s) ->
  exists q s' bs', krealloc (bpay b) size s = Ret (q, s') /\ mem_ok s' bs' /\
    ((q = 0 /\ bs' = pre ++ b :: post /\ ram s' = ram s) \/
     exists k, live bs' q k /\ size <= k /\
       bytes (ram s') q (bsz b) = bytes (ram s) (bpay b) (bsz b)).
Proof using All.
  intros Hlt Hk. destruct n_bounds as (Hn & Hn8 & Hn0).
  assert (set_heap (hv s) (ram s) s = s) as Hid by (by destruct s).
  rewrite krealloc_head, (bind_run _ _ _ _ _ (locked_on_heap _ _ _ _ _ (proj2 Hok) Hk)), Hid.
  pose proof (kmalloc_run s _ n Hok ltac:(lia)) as Hm. cbn zeta in Hm.
  destruct (List.find _ _) as [c|] eqn:Ef.
  2:{ destruct Hm as (s' & Hm & Hok' & Hr & _). rewrite (bind_run _ _ _ _ _ Hm).
      exists 0, s', (pre ++ b :: post). split; [reflexivity|]. split; [assumption|]. left. auto. }
  apply find_split in Ef as [_ Hfit]. apply andb_prop in Hfit as [Hcf Hle%Z.leb_le].
  destruct Hm as (p2 & q2 & s1 & Hbs & Hm & Hok1 & Hf & Hu & _).
  rewrite (bind_run _ _ _ _ _ Hm). set (g := Blk (ba c) (granted c (align_up n 8)) false).
  set (bs1 := p2 ++ alloc_abs c (align_up n 8) ++ q2) in *.
  pose proof (wf_tiles _ _ _ (proj1 Hok)) as Ht. pose proof (elem_mid b pre post) as Hbin.
  pose proof (wf_block _ _ _ (proj1 Hok) b Hbin) as Hbb. rewrite Hbs in Ht, Hbin.
  destruct (alloc_other _ _ b p2 c q2 (align_up n 8) Ht Hbin Hb Hcf) as [Hb1 Hdis]. fold bs1 in Hb1.
  pose proof (tiles_bounds _ _ _ c Ht (elem_mid _ _ _)) as Hcc. pose proof (wf_start _ _ _ (proj1 Hok)).
  pose proof (granted_le c _ Hle) as Hg. pose proof (align_up_8_bounds n ltac:(lia)) as [Hnn _].
  assert (g ∈ bs1) as Hg1 by (subst bs1; rewrite !elem_of_app; right; left; apply elem_hd).
  change (bpay c) with (bpay g). destruct (Z.eqb_spec (bpay g) 0) as [E|_]; [unfold bpay in E; cbn in E; lia|].
  rewrite bind_modify. set (s2 := set_ram (memcpy (ram s1) (bpay g) (bpay b) (bsz b)) s1).
  assert (bpay g <= bpay b \/ bpay b + bsz b <= bpay g) as Hcp by (unfold bpay, bend, g in *; cbn; lia).
  pose proof (copy_ok s1 bs1 g (bpay b) (bsz b) Hok1 Hg1 ltac:(cbn; lia) Hcp) as Hok2. fold s2 in Hok2.
  apply list_elem_of_split in Hb1 as (p3 & q3 & Hbs1). rewrite Hbs1 in Hok2.
  destruct (kfree_run_done s2 p3 b q3 Hok2 Hb) as (s3 & Hfr & Hok3 & Hh & _).
  { unfold s2; cbn. destruct Hu as (_ & _ & _ & -> & _). assumption. }
  rewrite (bind_run _ _ _ _ _ Hfr). exists (bpay g), s3, (fst (free_abs p3 b q3)).
  split; [reflexivity|]. split; [assumption|]. right. exists (bsz g). split_and!.
  - apply live_free. assert (g ∈ p3 ++ b :: q3) as Hin by (by rewrite <- Hbs1).
    exists g. split_and!; try reflexivity. rewrite elem_of_app in *. rewrite elem_of_cons in Hin.
    destruct Hin as [?|[Hgb|?]]; auto. exfalso. rewrite <- Hgb in Hdis. unfold bend, g in Hdis; cbn in Hdis. lia.
  - cbn. lia.
  - rewrite (bytes_agree (ram s2) (ram s3)).
    + unfold s2; cbn [ram set_ram]. rewrite bytes_memcpy by lia. apply bytes_agree.
      intros x Hx. apply Hf. unfold bpay, bend in *. lia.
    + eapply agree_sub; [..|eapply headers_only_payload; [apply Hok2|exact Hh|rewrite <- Hbs1; exact Hg1]];
        [lia|unfold bend, bpay, g; cbn; lia].
Qed.
End run.
