(* ===== verification/HeapTheorems.v ===== *)
(** * The properties of the kernel heap

    Statements about [kmalloc], [kfree], [kcalloc], [krealloc] and the
    statistics functions of Memory_Main.c, with witnesses on the heap of a
    booted kernel, and the two defects found in this file. *)
From S2P Require Import Prelude Machine Utils Serial Memory.
From S2P Require Import Heap HeapChain HeapInv HeapOps HeapList HeapSpec Alloc HeapRealloc.

(** A machine before [memory_init], interrupts enabled, and the state after
    it with the kernel image ending at 0x17FF00. *)
Definition power_on : mstate :=
  MState ∅ 0x202 [] 0 0 (HeapVars 0 0 0 0 0 0) (PageVars ∅ 0).
Definition booted : mstate :=
  match memory_init 0x17FF00 power_on with Ret (_, s) => s | _ => power_on end.
Definition boot_block : blk := Blk 0x180000 16777200 true.

Lemma booted_inv : heap_inv booted [boot_block].
Proof.
  split; [split; [|reflexivity]|].
  - constructor; try (vm_compute; congruence); try (vm_compute; reflexivity).
    + vm_compute. split_and!; congruence || reflexivity.
    + vm_compute. split_and!; reflexivity || exact I.
    + right. exists boot_block. split; [apply elem_hd|]. vm_compute. reflexivity.
  - split_and!; [vm_compute; reflexivity|exact I|]. repeat constructor.
Qed.

(** C6. [kmalloc(size)] is next fit: it takes the first block, in cyclic
    order from [heap_search_hint], that is free and at least as large as the
    request rounded up to 8; it returns the payload of that block, splits it
    when at least 64 bytes would be left for a new block, counts the size
    granted, and changes no byte outside that block.  If no block fits it
    returns NULL, reports it, and leaves memory as it was.  In both cases it
    returns, the lock is free again and RFLAGS is what it was. *)
Theorem kmalloc_next_fit s bs size :
  mem_ok s bs -> 0 < size <= 4294967288 ->
  let n := align_up size 8 in
  match List.find (fits n) (search_order (heap_search_hint (hv s)) bs) with
  | Some b => exists pre post s',
      bs = pre ++ b :: post /\ kmalloc size s = Ret (bpay b, s') /\
      mem_ok s' (pre ++ alloc_abs b n ++ post) /\ frame (ram s) (ram s') (ba b) (bend b) /\
      untouched s s' /\ serial s' = serial s /\
      total_allocated (hv s') = u32 (total_allocated (hv s) + granted b n)
  | None => exists s',
      kmalloc size s = Ret (0, s') /\ mem_ok s' bs /\ ram s' = ram s /\ untouched s s' /\
      serial s' = serial s ++ [SStr "[OS] [Memory] kmalloc: Out of memory (requested "; SU32 n;
                               line " bytes)"]
  end.
Proof.
  intros Hok Hsz n. pose proof (kmalloc_run s bs size Hok ltac:(lia)) as Hk. fold n in Hk. cbn zeta in Hk.
  destruct (List.find _ _) as [b|].
  - destruct Hk as (pre & post & s' & ? & ? & ? & ? & ? & ? & _ & ? & _).
    exists pre, post, s'. split_and!; assumption.
  - destruct Hk as (s' & ? & ? & ? & ? & ? & _). exists s'. split_and!; assumption.
Qed.

Lemma kmalloc_next_fit_witness : exists s', kmalloc 100 booted = Ret (0x180010, s').
Proof.
  destruct (kmalloc_next_fit booted [boot_block] 100 (proj1 booted_inv) ltac:(lia))
    as (pre & post & s' & _ & Hk & _).
  exists s'. exact Hk.
Defined.

(** C1. Refinement: [kmalloc] and [kfree] of Memory_Main.c implement the
    allocator interface over the heap's 16 MiB.  A request is served with a
    fresh region or refused with NULL; live regions lie in the heap, are
    aligned to 8 and never overlap; allocating and freeing changes no byte
    of a live region and none outside the heap; a live region can always be
    freed; and the heap stays usable whatever its owners write to live
    regions. *)
Theorem heap_implements_allocator lo :
  Allocator kmalloc kfree lo (lo + HEAP_BYTES) (heap_ok lo).
Proof. apply kernel_heap. Qed.

(** [memory_init] on a fresh kernel makes one free block of the whole
    heap, at the first page boundary after the kernel image, writes nothing
    but its 16 header bytes, and leaves a heap ready for [kmalloc] with no
    live allocation. *)
Theorem memory_init_ready kernel_end s :
  heap_initialized (hv s) = 0 -> heap_start_page (hv s) = 0 \/ heap_start_page (hv s) = (kernel_end + 4095) / 4096 -> heap_lock s = 0 ->
  0 < kernel_end < 17592169267200 ->
  let lo := (kernel_end + 4095) / 4096 * 4096 in
  exists s', memory_init kernel_end s = Ret (tt, s') /\ heap_ok lo s' ∅ /\
    mem_ok s' [Blk lo (HEAP_BYTES - 16) true] /\ frame (ram s) (ram s') lo (lo + 16).
Proof.
  intros Hi Hp Hl Hk lo. destruct (memory_init_run kernel_end s Hi Hp Hl Hk)
    as (s' & Hr & Hok & Hlo & Ha & Hf & _ & _ & _ & _ & Hfr). fold lo in Hlo. rewrite Hlo in Hok, Hfr.
  exists s'. split_and!; try assumption. exists [Blk lo (HEAP_BYTES - 16) true]. split_and!; try done.
  split_and!; try done; [|repeat constructor]. unfold heap_acct. by rewrite Ha, Hf.
Qed.

Lemma memory_init_ready_witness :
  exists s', memory_init 0x17FF00 power_on = Ret (tt, s') /\ heap_ok 0x180000 s' ∅.
Proof.
  destruct (memory_init_ready 0x17FF00 power_on eq_refl (or_introl eq_refl) eq_refl ltac:(lia)) as (s' & H & Hok & _).
  exists s'. split; [exact H|exact Hok].
Defined.

(** C5. [kfree] of an allocated block marks it free, merges it with a free
    successor and then with a free predecessor, adds its size to
    [total_freed], and changes only header bytes: every payload in the heap
    keeps its contents. *)
Theorem kfree_merges s pre b post :
  mem_ok s (pre ++ b :: post) -> bfr b = false -> bpay b < heap_start (hv s) + HEAP_BYTES ->
  exists s', kfree (bpay b) s = Ret (tt, s') /\ mem_ok s' (fst (free_abs pre b post)) /\
    untouched s s' /\ serial s' = serial s /\
    total_freed (hv s') = u32 (total_freed (hv s) + bsz b) /\
    forall c, c ∈ pre ++ b :: post -> bytes (ram s') (bpay c) (bsz c) = bytes (ram s) (bpay c) (bsz c).
Proof.
  intros Hok Hb He. destruct (kfree_run_done s pre b post Hok Hb He) as (s' & Hk & Hok' & Hh & Hu & Hs & _ & Hf).
  exists s'. split_and!; try assumption. intros c Hc. apply bytes_agree.
  eapply (headers_only_payload _ _ _ _ _ _ (wf_tiles _ _ _ (proj1 Hok)) Hh Hc).
Qed.

(** Two allocated blocks of 104 and 200 bytes, then the rest. *)
Definition two_blocks : mstate :=
  match (_ ← kmalloc 100; kmalloc 200) booted with Ret (_, s) => s | _ => booted end.
Definition blk1 : blk := Blk 0x180000 104 false.
Definition blk2 : blk := Blk 0x180078 200 false.
Definition blk3 : blk := Blk 0x180150 16776864 true.

Lemma two_blocks_inv : heap_inv two_blocks [blk1; blk2; blk3].
Proof.
  split; [split; [|vm_compute; reflexivity]|].
  - constructor; try (vm_compute; congruence); try (vm_compute; reflexivity).
    + vm_compute. split_and!; congruence || reflexivity.
    + vm_compute. split_and!; reflexivity || exact I.
    + right. exists blk3. split; [apply elem_tl, elem_tl, elem_hd|]. vm_compute. reflexivity.
  - split_and!; [vm_compute; reflexivity|vm_compute; auto|]. repeat constructor.
Qed.

Lemma kfree_merges_witness :
  exists s', kfree (bpay blk2) two_blocks = Ret (tt, s') /\ mem_ok s' [blk1; Blk 0x180078 16777080 true].
Proof.
  destruct (kfree_merges two_blocks [blk1] blk2 [blk3] (proj1 two_blocks_inv) eq_refl ltac:(vm_compute; reflexivity))
    as (s' & Hk & Hok & _).
  exists s'. split; [exact Hk|exact Hok].
Defined.

(** [kfree] of anything that is not the payload of an allocated block of
    the heap - a foreign pointer, a pointer into the middle of a block, a
    block already freed - changes nothing but the serial output, and says
    something unless the pointer is NULL. *)
Theorem kfree_rejects s bs p :
  mem_ok s bs -> 0 <= p < 18446744073709551616 ->
  (forall b, b ∈ bs -> bpay b = p -> bfr b = true) ->
  exists es, kfree p s = Ret (tt, add_serial es s) /\ (es = [] <-> p = 0).
Proof. intros Hok Hp Hb. apply (kfree_run_refused s bs p Hok Hp). intros b H1 H2. left. eauto. Qed.

Lemma kfree_rejects_witness : exists es, kfree 0x180020 two_blocks = Ret (tt, add_serial es two_blocks) /\ es <> [].
Proof.
  destruct (kfree_rejects two_blocks [blk1; blk2; blk3] 0x180020 (proj1 two_blocks_inv) ltac:(lia)) as (es & H & He).
  - intros b [->|[->|[->|Hb%elem_of_nil]%elem_of_cons]%elem_of_cons]%elem_of_cons; try (vm_compute; congruence).
    contradiction.
  - exists es. split; [exact H|]. intros E. apply He in E. discriminate.
Defined.

(** Round trip: in a coalesced heap, freeing what [kmalloc] just
    returned restores the block list exactly. *)
Theorem kmalloc_kfree_roundtrip s bs size :
  mem_ok s bs -> coalesced bs -> 0 < size <= 4294967288 ->
  exists p s', kmalloc size s = Ret (p, s') /\
    (p <> 0 -> exists s'', kfree p s' = Ret (tt, s'') /\ mem_ok s'' bs).
Proof.
  intros Hok Hco Hsz. pose proof (kmalloc_run s bs size Hok ltac:(lia)) as Hk. cbn zeta in Hk.
  pose proof (align_up_8_bounds size ltac:(lia)) as [Hal _].
  destruct (List.find _ _) as [b|] eqn:Ef.
  2:{ destruct Hk as (s' & Hk & _). exists 0, s'. split; [assumption|done]. }
  apply find_split in Ef as [_ Hfit]. apply andb_prop in Hfit as [Hb Hle%Z.leb_le].
  destruct Hk as (pre & post & s' & -> & Hk & Hok' & _ & (_ & _ & _ & Hst & _) & _).
  exists (bpay b), s'. split; [assumption|]. intros _.
  pose proof (granted_le b _ Hle). pose proof (wf_block _ _ _ (proj1 Hok) b (elem_mid _ _ _)).
  destruct (kfree_run_done s' pre (Blk (ba b) (granted b (align_up size 8)) false)
              (leftover b (align_up size 8) ++ post) Hok' eq_refl) as (s'' & Hf & Hok'' & _).
  { rewrite Hst. unfold bpay, bend in *. cbn. lia. }
  exists s''. split; [assumption|]. by rewrite free_alloc in Hok''.
Qed.

Lemma kmalloc_kfree_roundtrip_witness :
  exists p s', kmalloc 300 two_blocks = Ret (p, s') /\
    (p <> 0 -> exists s'', kfree p s' = Ret (tt, s'') /\ mem_ok s'' [blk1; blk2; blk3]).
Proof.
  exact (kmalloc_kfree_roundtrip two_blocks [blk1; blk2; blk3] 300 (proj1 two_blocks_inv)
           ltac:(vm_compute; auto) ltac:(lia)).
Defined.

(** The kernel as its memory manager sees it: calls of [kmalloc] with any
    32-bit size and of [kfree] with any pointer, and writes by the owners of
    live allocations. *)
Inductive heap_step : mstate -> mstate -> Prop :=
| step_kmalloc s size p s' :
    0 <= size < 4294967296 -> kmalloc size s = Ret (p, s') -> heap_step s s'
| step_kfree s p s' :
    0 <= p < 18446744073709551616 -> kfree p s = Ret (tt, s') -> heap_step s s'
| step_write s bs p n a v :
    mem_ok s bs -> live bs p n -> p <= a < p + n ->
    heap_step s (set_ram (st8 (ram s) a v) s).

(** [heap_inv] without the clause that no block is empty, which a request
    whose rounding wraps to 0 breaks. *)
Definition heap_sound (s : mstate) (bs : list blk) : Prop := mem_ok s bs /\ heap_acct (hv s) bs /\ coalesced bs.

Lemma heap_inv_sound s bs : heap_inv s bs -> heap_sound s bs.
Proof. intros (H1 & H2 & H3 & _). by split_and!. Qed.

Lemma heap_sound_malloc s bs size : heap_sound s bs -> 0 <= size < 4294967296 ->
  exists p s' bs', kmalloc size s = Ret (p, s') /\ heap_sound s' bs'.
Proof.
  intros (Hok & Hac & Hco) Hsz. destruct (Z.eq_dec size 0) as [->|].
  { exists 0, s, bs. split; [|by split_and!]. unfold kmalloc. by rewrite bind_gets, (wf_init _ _ _ (proj1 Hok)). }
  pose proof (kmalloc_run s bs size Hok ltac:(lia)) as Hk. cbn zeta in Hk. destruct (List.find _ _) as [b|] eqn:Ef.
  - apply find_split in Ef as [_ Hfit]. apply andb_prop in Hfit as [Hb Hle%Z.leb_le].
    destruct Hk as (pre & post & s' & -> & Hk & Hok' & _ & _ & _ & H1 & H2 & _). eexists _, s', _. split; [exact Hk|].
    split_and!; [exact Hok'| |by apply coalesced_alloc]. eapply acct_alloc; [exact Hac|done| |done..].
    rewrite <- used_alloc by done. pose proof (tiles_used _ _ _ (wf_tiles _ _ _ (proj1 Hok'))). change HEAP_BYTES with 16777216 in *. lia.
  - destruct Hk as (s' & Hk & Hok' & _ & _ & _ & H1 & H2). exists 0, s', bs. split; [done|]. split_and!; try done. unfold heap_acct. by rewrite H1, H2.
Qed.

Lemma heap_sound_free s bs p : heap_sound s bs -> 0 <= p < 18446744073709551616 ->
  exists s' bs', kfree p s = Ret (tt, s') /\ heap_sound s' bs'.
Proof.
  intros (Hok & Hac & Hco) Hp.
  destruct (decide (Exists (fun b => bpay b = p /\ bfr b = false /\ p < heap_start (hv s) + HEAP_BYTES) bs)) as [(b & Hb & <- & Hbf & Hend)%Exists_exists|Hno].
  - apply list_elem_of_split in Hb as (pre & post & ->).
    destruct (kfree_run_done s pre b post Hok Hbf Hend) as (s' & Hk & Hok' & _ & _ & _ & H1 & H2). exists s', (fst (free_abs pre b post)).
    split; [exact Hk|]. split_and!; [done| |by apply coalesced_free]. eapply acct_free; [exact Hac|done| |done..].
    rewrite <- (used_free pre b post Hbf). pose proof (tiles_used _ _ _ (wf_tiles _ _ _ (proj1 Hok'))). change HEAP_BYTES with 16777216 in *. lia.
  - destruct (kfree_run_refused s bs p Hok Hp) as (es & Hk & _); [|exists (add_serial es s), bs; split; [done|exact (conj Hok (conj Hac Hco))]].
    intros b Hb Hbp. destruct (bfr b) eqn:E; [by left|right]. destruct (Z.le_gt_cases (heap_start (hv s) + HEAP_BYTES) p); [done|].
    exfalso. apply Hno, Exists_exists. exists b. split_and!; (done || lia).
Qed.

(** A block list is determined by the memory. *)
Lemma chain_tiles_unique m a e bs bs' :
  tiles a bs e -> chain m bs 0 -> tiles a bs' e -> chain m bs' 0 -> 0 < a -> bs = bs'.
Proof.
  revert a bs'; induction bs as [|b bs IH]; intros a bs' Ht Hc Ht' Hc' Ha.
  - simpl in Ht. subst e. destruct bs' as [|b' bs']; [reflexivity|].
    apply tiles_le in Ht'. cbn [length] in Ht'. lia.
  - destruct bs' as [|b' bs'].
    { simpl in Ht'. subst e. apply tiles_le in Ht. cbn [length] in Ht. lia. }
    destruct Ht as (T1 & T2 & T3 & T4), Ht' as (T1' & T2' & T3' & T4').
    destruct Hc as (C1 & C2 & C3 & C4), Hc' as (C1' & C2' & C3' & C4').
    assert (b = b') as <-.
    { destruct b as [x z f], b' as [x' z' f']; cbn in *. subst x x'.
      rewrite C1 in C1'. rewrite C2 in C2'. subst z'. by destruct f, f'. }
    f_equal. eapply IH; try eassumption. unfold bend. lia.
Qed.

Lemma heap_step_sound s s' bs : heap_step s s' -> heap_sound s bs -> exists bs', heap_sound s' bs'.
Proof.
  intros Hs Hinv. destruct Hs as [s size p s' Hsz Hk|s p s' Hp Hk|s bs2 p n a v Hok2 Hl Ha].
  - destruct (heap_sound_malloc s bs size Hinv Hsz) as (p' & s2 & bs' & Hk' & Hinv'). rewrite Hk in Hk'. injection Hk' as -> ->. eauto.
  - destruct (heap_sound_free s bs p Hinv Hp) as (s2 & bs' & Hk' & Hinv'). rewrite Hk in Hk'. injection Hk' as ->. eauto.
  - destruct Hinv as ((Hwf & Hlk) & Hinv'). destruct Hok2 as [Hwf2 _].
    assert (bs2 = bs) as ->.
    { eapply chain_tiles_unique; [apply Hwf2|apply Hwf2|apply Hwf|apply Hwf|apply Hwf]. }
    destruct Hl as (b & Hb & Hbf & -> & ->). exists bs. split; [|exact Hinv']. split; [|exact Hlk].
    eapply heap_wf_payload; [exact Hwf|exact Hb|]. intros x Hx. cbn. rewrite ld8_st8.
    unfold bpay, bend in *. zcases; (reflexivity || lia).
Qed.

(** C2. Safety and termination of every run: after [memory_init] and any
    sequence of [kmalloc] calls of any 32-bit size, [kfree] calls of any
    pointer and writes inside live allocations, the heap is well formed
    (its blocks tile the 16 MiB and no two neighbours are free) and
    correctly counted, and the next [kmalloc] or [kfree] returns - it
    neither spins on the lock nor loses itself in the block chain. *)
Theorem heap_runs_safe s s' bs :
  heap_inv s bs -> rtc heap_step s s' ->
  (exists bs', heap_sound s' bs') /\
  (forall size, 0 <= size < 4294967296 -> exists p s'', kmalloc size s' = Ret (p, s'')) /\
  (forall p, 0 <= p < 18446744073709551616 -> exists s'', kfree p s' = Ret (tt, s'')).
Proof.
  intros Hinv%heap_inv_sound Hrun. revert bs Hinv. induction Hrun as [s|s t s' Hst _ IH]; intros bs Hinv.
  2:{ destruct (heap_step_sound _ _ _ Hst Hinv) as [bs' Hinv']. eauto. }
  split_and!; [eauto| |].
  - intros size Hsz. destruct (heap_sound_malloc s bs size Hinv Hsz) as (p & s2 & _ & Hk & _). eauto.
  - intros p Hp. destruct (heap_sound_free s bs p Hinv Hp) as (s2 & _ & Hk & _). eauto.
Qed.

Lemma heap_runs_safe_witness : exists p s'', kmalloc 4096 two_blocks = Ret (p, s'').
Proof.
  refine (proj1 (proj2 (heap_runs_safe booted two_blocks [boot_block] booted_inv _)) 4096 ltac:(lia)).
  destruct (kmalloc 100 booted) as [[p1 s1]| |] eqn:E1; [|vm_compute in E1; discriminate..].
  apply rtc_l with s1; [by apply (step_kmalloc _ 100 p1); [lia|]|].
  apply rtc_once, (step_kmalloc _ 200 (match kmalloc 200 s1 with Ret (p, _) => p | _ => 0 end)); [lia|].
  unfold two_blocks. rewrite (bind_run _ _ _ _ _ E1). vm_compute in E1. injection E1 as <- <-.
  vm_compute. reflexivity.
Defined.

Lemma kcalloc_overflow num size :
  0 < num < 4294967296 -> 0 <= size < 4294967296 -> (4294967295 / num <? size) = (4294967295 <? num * size).
Proof.
  intros Hn Hs. pose proof (Z.div_mod 4294967295 num ltac:(lia)) as Hd.
  pose proof (Z.mod_pos_bound 4294967295 num ltac:(lia)). zcases; nia.
Qed.

(** [kcalloc(num, size)] refuses a product that does not fit 32 bits;
    otherwise it returns NULL or a live allocation of at least [num * size]
    bytes, all zero, in a heap that still satisfies its invariant. *)
Theorem kcalloc_zeroed s bs num size :
  heap_inv s bs -> 0 < num < 4294967296 -> 0 < size < 4294967296 ->
  (4294967295 < num * size ->
   kcalloc num size s = Ret (0, add_serial [line "[OS] [Memory] kcalloc: Size overflow"] s)) /\
  (num * size <= 4294967288 ->
   exists p s' bs', kcalloc num size s = Ret (p, s') /\ heap_inv s' bs' /\
     (p = 0 \/ exists k, live bs' p k /\ num * size <= k /\
                 bytes (ram s') p (num * size) = replicate (Z.to_nat (num * size)) 0)).
Proof.
  intros Hinv Hn Hs. unfold kcalloc. rewrite kcalloc_overflow by lia.
  destruct (Z.eqb_spec num 0); [lia|]. cbn [negb andb]. split; intros Hp.
  { by destruct (Z.ltb_spec 4294967295 (num * size)); [|lia]. }
  destruct (Z.ltb_spec 4294967295 (num * size)); [lia|]. rewrite u32_small by nia.
  destruct (heap_inv_malloc s bs (num * size) Hinv ltac:(nia)) as (p & s1 & bs1 & Hk & Hinv1 & _ & Hc).
  rewrite (bind_run _ _ _ _ _ Hk).
  destruct Hc as [(-> & -> & _)|(pre & b & post & -> & Hb & -> & Hg & Hbs1 & _)].
  { exists 0, s1, bs. split; [reflexivity|]. auto. }
  set (g := Blk (ba b) (granted b (align_up (num * size) 8)) false).
  assert (g ∈ bs1) as Hg1 by (rewrite Hbs1, !elem_of_app; right; left; apply elem_hd).
  pose proof (wf_block _ _ _ (proj1 (proj1 Hinv1)) g Hg1) as Hgb. cbn in Hgb.
  destruct (Z.eqb_spec (bpay b) 0) as [E|_]; [unfold bpay in E; lia|]. cbn [negb]. rewrite bind_modify.
  change (for_up (Z.to_nat (num * size)) 0 (fun i m => st8 m (bpay b + i) 0) (ram s1))
    with (memset (ram s1) (bpay b) 0 (num * size)).
  eexists _, _, bs1. split; [reflexivity|]. split.
  - destruct Hinv1 as ((Hwf & Hl) & Hr). split; [|exact Hr]. split; [|exact Hl].
    eapply heap_wf_payload; [exact Hwf|exact Hg1|]. intros x Hx. cbn. rewrite ld8_memset.
    unfold bpay, bend, g in *; cbn in *. zcases; (reflexivity || lia).
  - right. exists (bsz g). split_and!; [exists g; auto|exact Hg|]. cbn [ram set_ram].
    apply bytes_memset.
Qed.

Lemma kcalloc_zeroed_witness : exists p s' bs', kcalloc 10 32 two_blocks = Ret (p, s') /\ heap_inv s' bs'.
Proof.
  destruct (kcalloc_zeroed two_blocks [blk1; blk2; blk3] 10 32 two_blocks_inv ltac:(lia) ltac:(lia)) as [_ H].
  destruct (H ltac:(lia)) as (p & s' & bs' & Hk & Hi & _). exists p, s', bs'. split; [exact Hk|exact Hi].
Defined.

(** The statistics tell the truth: [get_free_memory] is the sum of the
    sizes of the free blocks and [get_used_memory], a difference of two
    wrapping 32-bit counters, the sum of the sizes of the allocated ones;
    with the headers the two add up to the 16 MiB of the heap. *)
Theorem heap_statistics s bs :
  heap_inv s bs ->
  get_free_memory s = Ret (unused bs, s) /\ get_used_memory s = Ret (used bs, s) /\
  unused bs + used bs + 16 * Z.of_nat (length bs) = HEAP_BYTES.
Proof.
  intros (Hok & Ha & _). pose proof (tiles_used _ _ _ (wf_tiles _ _ _ (proj1 Hok))) as Hu.
  split_and!; [by apply get_free_memory_run|by apply get_used_memory_run|lia].
Qed.

Lemma heap_statistics_witness :
  get_free_memory two_blocks = Ret (16776864, two_blocks) /\ get_used_memory two_blocks = Ret (304, two_blocks).
Proof.
  destruct (heap_statistics two_blocks [blk1; blk2; blk3] two_blocks_inv) as (H1 & H2 & _).
  split; [exact H1|exact H2].
Defined.

(** [krealloc] of an allocated block returns, leaves a well-formed heap
    and - unless it returns NULL, and then nothing changed - gives a live
    block of at least the new size that starts with the old contents,
    whether the block was resized in place or moved.  This needs that
    [heap_search_hint] is not the block behind the resized one: see
    [krealloc_stale_hint]. *)
Theorem krealloc_keeps_contents s pre b post size :
  mem_ok s (pre ++ b :: post) -> bfr b = false -> 0 < size <= 4294967288 ->
  bpay b < heap_start (hv s) + HEAP_BYTES ->
  (forall c, hd_error post = Some c -> heap_search_hint (hv s) <> ba c) ->
  exists q s' bs', krealloc (bpay b) size s = Ret (q, s') /\ mem_ok s' bs' /\
    ((q = 0 /\ bs' = pre ++ b :: post /\ ram s' = ram s) \/
     exists k, live bs' q k /\ size <= k /\
       bytes (ram s') q (Z.min (bsz b) size) = bytes (ram s) (bpay b) (Z.min (bsz b) size)).
Proof.
  intros Hok Hb Hsz He Hh. destruct (n_bounds size Hsz) as (Hn & Hn8 & Hn0).
  pose proof (krealloc_found _ _ _ _ b (align_up size 8) (proj1 Hok) Hb) as Hk.
  pose proof (wf_block _ _ _ (proj1 Hok) b (elem_mid _ _ _)) as Hbb.
  match goal with |- ?G => set (goal := G) end.
  assert (forall m1 b1 post1, heap_wf (hv s) m1 (pre ++ b1 :: post1) -> ba b1 = ba b -> bfr b1 = false ->
    align_up size 8 <= bsz b1 -> agree (ram s) m1 (bpay b) (bpay b + Z.min (bsz b) size) ->
    krealloc_locked (bpay b) (align_up size 8) (hv s) (ram s) =
      Ret (ReallocInPlace, hv s, split_block_if_needed m1 (ba b) (align_up size 8)) -> goal) as Hplace.
  { intros m1 b1 post1 W1 W2 W3 W4 W5 W6.
    destruct (krealloc_in_place s pre post b size Hok Hsz m1 b1 post1 W1 W2 W3 W4 W5 W6)
      as (s' & bs' & k & H1 & H2 & H3 & H4 & H5). exists (bpay b), s', bs'. eauto 10. }
  destruct (Z.leb_spec (align_up size 8) (bsz b)) as [Hle|Hgt].
  { apply (Hplace (ram s) b post); try assumption; [apply Hok|reflexivity|apply agree_refl]. }
  assert (krealloc_locked (bpay b) (align_up size 8) (hv s) (ram s) =
            Ret (ReallocMove (bsz b), hv s, ram s) -> goal) as Hmove.
  { intros Hm. destruct (krealloc_move s pre post b size Hok Hb Hsz He Hh Hgt Hm) as (q & s' & bs' & H1 & H2 & H3).
    exists q, s', bs'. split_and!; try assumption. destruct H3 as [?|(k & K1 & K2 & K3)]; [by left|right].
    exists k. split_and!; try assumption. replace (Z.min (bsz b) size) with (bsz b) by word_lia. assumption. }
  destruct post as [|c post]; [by apply Hmove|].
  destruct (bfr c && (align_up size 8 <=? bsz b + 16 + bsz c)) eqn:Ec; [|by apply Hmove].
  apply andb_prop in Ec as [Ec1 Ec2%Z.leb_le].
  pose proof (absorb_wf _ _ _ _ _ _ (proj1 Hok) (Hh c eq_refl)) as W.
  apply (Hplace _ _ _ W); try assumption; try reflexivity.
  eapply frame_agree; [apply absorb_headers|]. unfold bpay. lia.
Qed.

Lemma krealloc_keeps_contents_witness :
  exists q s', krealloc (bpay blk1) 500 two_blocks = Ret (q, s').
Proof.
  destruct (krealloc_keeps_contents two_blocks [] blk1 [blk2; blk3] 500 (proj1 two_blocks_inv) eq_refl
    ltac:(lia) ltac:(vm_compute; reflexivity) ltac:(intros c [= <-]; vm_compute; discriminate))
    as (q & s' & bs' & H & _).
  exists q, s'. exact H.
Defined.

(** The pointers [kmalloc], [krealloc], [kmalloc] return in a row. *)
Definition grow_then_alloc (s : mstate) : outcome (Z * Z * Z) :=
  '((p, q, r), _) ← (p ← kmalloc 100; q ← krealloc p 1000; r ← kmalloc 64; mret (p, q, r)) s;
  Ret (p, q, r).

(** Defect: growing a block in place absorbs the free block behind it
    but leaves [heap_search_hint] on the absorbed header.  On the heap of a
    booted kernel the next [kmalloc] starts there, trusts the stale header
    inside the live allocation, and returns memory that allocation owns. *)
Theorem krealloc_stale_hint :
  exists p r, grow_then_alloc booted = Ret (p, p, r) /\ p < r /\ r + 64 <= p + 1000.
Proof. exists 1572880, 1573000. vm_compute. split_and!; congruence || reflexivity. Qed.

(** Defect: for the last seven sizes of [uint32_t], [align_up] wraps to
    0 and, when the search starts at a free block, [kmalloc] reports success
    with a block of no bytes at all. *)
Theorem kmalloc_wraps_to_empty :
  forall size, 4294967289 <= size < 4294967296 ->
  align_up size 8 = 0 /\ exists s', kmalloc size booted = Ret (bpay boot_block, s') /\ blk_size (ram s') (ba boot_block) = 0.
Proof.
  intros size H.
  assert (align_up size 8 = 0) as E by (rewrite align_up_8 by lia; zcases; lia).
  split; [exact E|]. unfold kmalloc.
  rewrite bind_gets. destruct (Z.eqb_spec size 0); [lia|]. unfold MIN_ALLOC_ALIGN. rewrite E.
  eexists. split; vm_compute; reflexivity.
Qed.

Lemma kmalloc_wraps_to_empty_witness : exists s', kmalloc 4294967295 booted = Ret (0x180010, s').
Proof.
  destruct (kmalloc_wraps_to_empty 4294967295 ltac:(lia)) as (_ & s' & H & _). exists s'. exact H.
Defined.
