(* ===== verification/Pages.v ===== *)
(** * Physical pages (Kernel/Memory/Memory_Main.c, lines 7-20, 134-184, 431-463)

    [page_bitmap] has one byte per 4 KiB page of the first GiB: 0 when the
    page is free, 1 when it is not.  [init_physical_memory] fills it from the
    UEFI memory map, [alloc_page] and [free_page] take pages out and put them
    back under [page_lock]. *)
From S2P Require Import Prelude Machine Serial Memory Heap.

Definition EFI_LOADER_CODE : Z := 1.
Definition EFI_LOADER_DATA : Z := 2.
Definition EFI_BOOT_SERVICES_CODE : Z := 3.
Definition EFI_BOOT_SERVICES_DATA : Z := 4.
Definition EFI_CONVENTIONAL_MEMORY : Z := 7.

(** Fields of an [EFI_MEMORY_DESCRIPTOR] at [d]. *)
Definition desc_Type (m : mem) (d : Z) : Z := ld32 m d.
Definition desc_PhysicalStart (m : mem) (d : Z) : Z := ld64 m (d + 8).
Definition desc_NumberOfPages (m : mem) (d : Z) : Z := ld64 m (d + 24).

(** [MAX_PAGES] as a count of loop iterations. *)
Definition max_pages : nat := Z.to_nat MAX_PAGES.
Lemma max_pages_val : Z.of_nat max_pages = MAX_PAGES.
Proof. unfold max_pages, MAX_PAGES. lia. Qed.
#[global] Opaque max_pages.

Definition set_bitmap (b : mem) (p : page_vars) : page_vars := PageVars b (page_alloc_hint p).

(** [for (i = start_page; i < end_page; i++) page_bitmap[i] = used;] *)
Definition mark_pages (start_page page_count used : Z) (b : mem) : mem :=
  if MAX_PAGES <=? start_page then b
  else
    let end_page := u64 (start_page + page_count) in
    let end_page := if MAX_PAGES <? end_page then MAX_PAGES else end_page in
    for_up (Z.to_nat (end_page - start_page)) start_page (fun i b => st8 b i used) b.

Definition is_usable_memory_type (type : Z) : bool :=
  (type =? EFI_LOADER_CODE) || (type =? EFI_LOADER_DATA) ||
  (type =? EFI_BOOT_SERVICES_CODE) || (type =? EFI_BOOT_SERVICES_DATA) ||
  (type =? EFI_CONVENTIONAL_MEMORY).

Definition mark_desc (m : mem) (d : Z) (b : mem) : mem :=
  if is_usable_memory_type (desc_Type m d)
  then mark_pages (desc_PhysicalStart m d / PAGE_SIZE) (desc_NumberOfPages m d) 0 b
  else b.

Fixpoint memory_map_loop (fuel : nat) (m : mem) (map map_size desc_size offset : Z) (b : mem)
    : outcome mem :=
  match fuel with
  | O => NoFuel
  | S f =>
      if u64 (offset + desc_size) <=? map_size
      then memory_map_loop f m map map_size desc_size (u64 (offset + desc_size))
             (mark_desc m (map + offset) b)
      else Ret b
  end.

Definition init_physical_memory (kernel_end memory_map map_size desc_size : Z) : M mstate unit :=
  say [line "[OS] [Memory] Start Initialize Physical Memory."];;
  modify (fun s => set_pages (set_bitmap
    (for_up (max_pages) 0 (fun i b => st8 b i 1) (page_bitmap (pv s))) (pv s)) s);;
  (if negb (memory_map =? 0) && negb (desc_size =? 0) then
     fun s =>
       b ← memory_map_loop (Z.to_nat (map_size / desc_size + 1)) (ram s) memory_map map_size
             desc_size 0 (page_bitmap (pv s));
       Ret (tt, set_pages (set_bitmap b (pv s)) s)
   else mret tt);;
  h ← gets hv;
  let '(start_page, h) := calc_heap_start_page kernel_end h in
  modify (fun s => set_heap h (ram s) s);;
  modify (fun s => set_pages (set_bitmap
    (mark_pages 0 (u64 (start_page + HEAP_PAGE_COUNT)) 1 (page_bitmap (pv s))) (pv s)) s);;
  say [line "[OS] [Memory] Physical memory initialized.";
       SStr "[OS] [Memory] Heap will start at page "; SU32 start_page; line ""].

(** The scan of [alloc_page]: [n] offsets are left, [offset] is the next. *)
Fixpoint alloc_page_loop (n : nat) (offset : Z) (p : page_vars) : Z * page_vars :=
  match n with
  | O => (0, p)
  | S n' =>
      let i := (page_alloc_hint p + offset) mod MAX_PAGES in
      if ld8 (page_bitmap p) i =? 0
      then (u64 (i * PAGE_SIZE), PageVars (st8 (page_bitmap p) i 1) (u32 ((i + 1) mod MAX_PAGES)))
      else alloc_page_loop n' (offset + 1) p
  end.

(** Runs a locked region that only touches the page variables. *)
Definition on_pages {A} (f : page_vars -> A * page_vars) : M mstate A :=
  fun s => let '(a, p) := f (pv s) in Ret (a, set_pages p s).

Definition alloc_page : M mstate Z :=
  locked PageLock (on_pages (alloc_page_loop (max_pages) 0)).

Definition free_page (addr : Z) : M mstate unit :=
  if addr =? 0 then mret tt
  else
    let page_num := addr / PAGE_SIZE in
    locked PageLock (on_pages (fun p =>
      if page_num <? MAX_PAGES then
        let b := st8 (page_bitmap p) page_num 0 in
        (tt, PageVars b (if page_num <? page_alloc_hint p then u32 page_num else page_alloc_hint p))
      else (tt, p))).

(** ** Lemmas *)

Lemma locked_on_pages {A} (f : page_vars -> A * page_vars) s :
  page_lock s = 0 ->
  locked PageLock (on_pages f) s = Ret (fst (f (pv s)), set_pages (snd (f (pv s))) s).
Proof.
  intros Hl. destruct s as [r fl ser hl pl hvs pvs]; cbn in Hl; subst pl.
  pose proof (rflags_restored fl) as Hfl.
  unfold locked, mbind, M_bind, irq_save_disable, spin_lock, on_pages, spin_unlock, modify,
    irq_restore, set_rflags; cbn [lock_word set_lock heap_lock page_lock ram rflags serial hv pv].
  cbn [Z.eqb]. cbn [pv]. destruct (f pvs) as [a p].
  cbn [set_pages set_lock heap_lock page_lock ram rflags serial hv pv fst snd].
  destruct (Z.testbit fl 9); unfold mret, M_ret, set_pages; cbn; rewrite Hfl; reflexivity.
Qed.

(** The byte at [x] after a loop that writes [v] to [[i, i + n)]. *)
Lemma ld8_fill n i v b x :
  ld8 (for_up n i (fun i b => st8 b i v) b) x =
  if (i <=? x) && (x <? i + Z.of_nat n) then u8 v else ld8 b x.
Proof.
  revert i b; induction n as [|n IH]; intros i b; cbn [for_up].
  - zcases; (reflexivity || lia).
  - rewrite IH, ld8_st8. zcases; (reflexivity || lia).
Qed.

Lemma ld8_mark_pages start count used b x :
  0 <= start -> 0 <= x < MAX_PAGES ->
  ld8 (mark_pages start count used b) x =
  if (start <=? x) && (x <? u64 (start + count)) then u8 used else ld8 b x.
Proof.
  intros Hs Hx. unfold mark_pages, MAX_PAGES in *. pose proof (u64_range (start + count)).
  destruct (Z.leb_spec 262144 start).
  - zcases; (reflexivity || lia).
  - rewrite ld8_fill. zcases; (reflexivity || lia).
Qed.

(** Page [x] is in the range of descriptor [d], whose type is usable. *)
Definition desc_frees (m : mem) (d x : Z) : bool :=
  is_usable_memory_type (desc_Type m d) &&
  (desc_PhysicalStart m d / PAGE_SIZE <=? x) &&
  (x <? u64 (desc_PhysicalStart m d / PAGE_SIZE + desc_NumberOfPages m d)).

Lemma ld8_mark_desc m d b x : 0 <= x < MAX_PAGES ->
  ld8 (mark_desc m d b) x = if desc_frees m d x then 0 else ld8 b x.
Proof.
  intros Hx. unfold mark_desc, desc_frees. destruct (is_usable_memory_type _); [|reflexivity].
  pose proof (ld64_range m (d + 8)). cbn [andb]. apply ld8_mark_pages; [|exact Hx].
  unfold desc_PhysicalStart. apply Z.div_pos; [lia|reflexivity].
Qed.

(** The descriptors of a map of [n] entries of [sz] bytes each. *)
Definition map_descs (map sz n : Z) : list Z := (fun k => map + sz * k) <$> seqZ 0 n.

Lemma map_descs_S map sz n : 0 <= n -> map_descs map sz (n + 1) = map :: map_descs (map + sz) sz n.
Proof.
  intros Hn. unfold map_descs. replace (n + 1) with (Z.succ n) by lia. rewrite seqZ_cons by lia.
  cbn [fmap list_fmap]. f_equal; [lia|]. rewrite Z.pred_succ.
  change (Z.succ 0) with (1 + 0). rewrite <- fmap_add_seqZ, <- list_fmap_compose.
  apply list_fmap_ext. intros i x _. cbn. lia.
Qed.

Lemma memory_map_loop_spec m map map_size sz n b offset fuel :
  0 < sz -> 0 <= n -> 0 <= offset -> map_size + sz < 18446744073709551616 ->
  offset + sz * n <= map_size < offset + sz * (n + 1) -> n < Z.of_nat fuel ->
  exists b', memory_map_loop fuel m map map_size sz offset b = Ret b' /\
    forall x, 0 <= x < MAX_PAGES ->
      ld8 b' x = if existsb (fun d => desc_frees m d x) (map_descs (map + offset) sz n) then 0 else ld8 b x.
Proof.
  intros Hsz Hn Ho Hms Hr Hf. revert n b offset Hn Ho Hr Hf.
  induction fuel as [|fuel IH]; intros n b offset Hn Ho Hr Hf; [lia|]. cbn [memory_map_loop].
  rewrite u64_small by nia. destruct (Z.leb_spec (offset + sz) map_size).
  - assert (0 < n) by nia. destruct (IH (n - 1) (mark_desc m (map + offset) b) (offset + sz)) as (b' & E & Hb');
      [lia..|]. exists b'. split; [exact E|]. intros x Hx. rewrite Hb', ld8_mark_desc by assumption.
    replace n with ((n - 1) + 1) at 2 by lia. rewrite map_descs_S by lia. cbn [existsb].
    rewrite Z.add_assoc. destruct (desc_frees m (map + offset) x), (existsb _ _); reflexivity.
  - assert (n = 0) as -> by nia. exists b. split; [reflexivity|]. intros x Hx. reflexivity.
Qed.

(** The pages in the order [alloc_page] looks at them. *)
Definition page_order (hint n : Z) : list Z := (fun k => (hint + k) mod MAX_PAGES) <$> seqZ 0 n.
Definition page_free (s : mstate) (i : Z) : bool := ld8 (page_bitmap (pv s)) i =? 0.

Lemma alloc_page_loop_spec n offset p :
  alloc_page_loop n offset p =
  match List.find (fun i => ld8 (page_bitmap p) i =? 0)
          ((fun k => (page_alloc_hint p + k) mod MAX_PAGES) <$> seqZ offset (Z.of_nat n)) with
  | Some i => (u64 (i * PAGE_SIZE), PageVars (st8 (page_bitmap p) i 1) (u32 ((i + 1) mod MAX_PAGES)))
  | None => (0, p)
  end.
Proof.
  revert offset; induction n as [|n IH]; intros offset; [reflexivity|].
  rewrite seqZ_cons by lia. cbn [alloc_page_loop fmap list_fmap List.find].
  destruct (_ =? 0); [reflexivity|]. rewrite IH, Nat2Z.inj_succ, Z.pred_succ. reflexivity.
Qed.

Lemma page_order_elem hint i : 0 <= i < MAX_PAGES -> i ∈ page_order hint MAX_PAGES.
Proof.
  intros Hi. unfold page_order. apply list_elem_of_fmap. exists ((i - hint) mod MAX_PAGES). split.
  - rewrite Zplus_mod_idemp_r, Z.mod_small; lia.
  - apply elem_of_seqZ. pose proof (Z.mod_pos_bound (i - hint) MAX_PAGES eq_refl). lia.
Qed.

Lemma page_order_range hint i : i ∈ page_order hint MAX_PAGES -> 0 <= i < MAX_PAGES.
Proof.
  unfold page_order. intros (k & -> & _)%list_elem_of_fmap. apply Z.mod_pos_bound. reflexivity.
Qed.

Lemma page_order_hd hint n : 0 < n -> exists l, page_order hint n = (hint mod MAX_PAGES) :: l.
Proof.
  intros Hn. unfold page_order. rewrite seqZ_cons by lia. eexists. cbn [fmap list_fmap].
  by rewrite Z.add_0_r.
Qed.

Lemma page_find s : forall hint,
  match List.find (page_free s) (page_order hint MAX_PAGES) with
  | Some i => 0 <= i < MAX_PAGES /\ page_free s i = true
  | None => forall i, 0 <= i < MAX_PAGES -> page_free s i = false
  end.
Proof.
  intros hint. destruct (List.find _ _) as [i|] eqn:E.
  - apply find_some in E as [Hi ?]. split; [|assumption].
    by apply (page_order_range hint), list_elem_of_In.
  - intros i Hi. eapply find_none in E; [exact E|]. by apply list_elem_of_In, page_order_elem.
Qed.

Lemma alloc_page_loop_order n p :
  alloc_page_loop n 0 p =
  match List.find (fun i => ld8 (page_bitmap p) i =? 0) (page_order (page_alloc_hint p) (Z.of_nat n)) with
  | Some i => (u64 (i * PAGE_SIZE), PageVars (st8 (page_bitmap p) i 1) (u32 ((i + 1) mod MAX_PAGES)))
  | None => (0, p)
  end.
Proof. apply alloc_page_loop_spec. Qed.

Lemma alloc_page_run s :
  page_lock s = 0 ->
  alloc_page s =
  match List.find (page_free s) (page_order (page_alloc_hint (pv s)) MAX_PAGES) with
  | Some i => Ret (i * PAGE_SIZE,
      set_pages (PageVars (st8 (page_bitmap (pv s)) i 1) ((i + 1) mod MAX_PAGES)) s)
  | None => Ret (0, s)
  end.
Proof.
  intros Hl. unfold alloc_page. rewrite locked_on_pages by assumption.
  rewrite alloc_page_loop_order, max_pages_val.
  pose proof (page_find s (page_alloc_hint (pv s))) as Hf. fold (page_free s).
  destruct (List.find (page_free s) _) as [i|]; cbn [fst snd].
  - destruct Hf as [Hi _]. unfold PAGE_SIZE. rewrite u64_small, u32_small; [reflexivity| |unfold MAX_PAGES in *; lia].
    pose proof (Z.mod_pos_bound (i + 1) MAX_PAGES eq_refl). unfold MAX_PAGES in *. lia.
  - by destruct s as [? ? ? ? ? ? []].
Qed.

(** Abstract page pool: the set of free pages. *)
Definition pages_rep (s : mstate) (F : gset Z) : Prop :=
  page_lock s = 0 /\ 0 <= page_alloc_hint (pv s) < MAX_PAGES /\
  forall i, i ∈ F <-> 0 <= i < MAX_PAGES /\ page_free s i = true.

Lemma pages_rep_set s s' F i used :
  pages_rep s F -> 0 <= i < MAX_PAGES -> page_lock s' = 0 ->
  0 <= page_alloc_hint (pv s') < MAX_PAGES -> page_bitmap (pv s') = st8 (page_bitmap (pv s)) i used ->
  pages_rep s' (if u8 used =? 0 then {[i]} ∪ F else F ∖ {[i]}).
Proof.
  intros (_ & _ & HF) Hi Hl Hh Hb. split_and!; try assumption; try lia. intros j. unfold page_free. rewrite Hb, ld8_st8.
  specialize (HF j). unfold page_free in HF.
  destruct (Z.eqb_spec i j) as [<-|Hij]; destruct (u8 used =? 0); set_solver.
Qed.

(** C20. Refinement: with page 0 reserved, [alloc_page] and [free_page]
    implement a pool of free pages.  [alloc_page] takes some free page out
    of the pool and returns its address, or returns NULL with nothing
    changed exactly when the pool is empty; [free_page] puts the page of its
    argument into the pool.  Both return, with the lock free. *)
Theorem pages_implement_pool s F :
  pages_rep s F -> 0 ∉ F ->
  (F = ∅ -> alloc_page s = Ret (0, s)) /\
  (F <> ∅ -> exists i s', i ∈ F /\ alloc_page s = Ret (i * PAGE_SIZE, s') /\
                pages_rep s' (F ∖ {[i]}) /\ ram s' = ram s) /\
  (forall p, PAGE_SIZE <= p -> p / PAGE_SIZE < MAX_PAGES -> exists s',
     free_page p s = Ret (tt, s') /\ pages_rep s' ({[p / PAGE_SIZE]} ∪ F) /\ ram s' = ram s).
Proof.
  intros HR H0. pose proof HR as (Hl & Hh & HF). split_and!.
  - intros ->. rewrite alloc_page_run by assumption.
    pose proof (page_find s (page_alloc_hint (pv s))) as Hf. destruct (List.find _ _) as [i|]; [|reflexivity].
    exfalso. apply (not_elem_of_empty (C := gset Z) i), HF. exact Hf.
  - intros Hne. apply set_choose_L in Hne as (x & Hx). rewrite alloc_page_run by assumption.
    pose proof (page_find s (page_alloc_hint (pv s))) as Hf. destruct (List.find _ _) as [i|].
    + exists i. eexists. split_and!; [by apply HF|reflexivity| |reflexivity].
      apply (pages_rep_set s _ F i 1); try done; [apply Hf|]. cbn. apply Z.mod_pos_bound. reflexivity.
    + exfalso. apply HF in Hx as [Hx1 Hx2]. rewrite Hf in Hx2 by assumption. discriminate.
  - intros p Hp1 Hp2. unfold free_page. destruct (Z.eqb_spec p 0); [unfold PAGE_SIZE in *; lia|].
    rewrite locked_on_pages by assumption. destruct (Z.ltb_spec (p / PAGE_SIZE) MAX_PAGES); [|lia].
    assert (0 <= p / PAGE_SIZE) by (apply Z.div_pos; unfold PAGE_SIZE in *; lia).
    eexists. split_and!; [reflexivity| |reflexivity].
    apply (pages_rep_set s _ F (p / PAGE_SIZE) 0); try done. cbn.
    zcases; [|assumption]. unfold MAX_PAGES in *. rewrite u32_small; lia.
Qed.

(** Pages 1 and 2 are free, all others (here: of the first four) in use. *)
Definition small_pool : mstate :=
  MState ∅ 0x202 [] 0 0 (HeapVars 0 0 0 0 0 0)
    (PageVars (for_up (max_pages) 0 (fun i b => st8 b i (if (i =? 1) || (i =? 2) then 0 else 1)) ∅) 2).

Lemma small_pool_rep : pages_rep small_pool {[1; 2]}.
Proof.
  split_and!; [reflexivity|vm_compute; congruence|reflexivity|].
  assert (forall n i b x,
    ld8 (for_up n i (fun i b => st8 b i (if (i =? 1) || (i =? 2) then 0 else 1)) b) x =
    if (i <=? x) && (x <? i + Z.of_nat n) then (if (x =? 1) || (x =? 2) then 0 else 1) else ld8 b x) as Hp.
  { induction n as [|n IH]; intros i b x; cbn [for_up]; [zcases; (reflexivity || lia)|].
    rewrite IH, ld8_st8. zcases; (subst; reflexivity || lia). }
  intros i. unfold page_free, small_pool. cbn [pv page_bitmap]. rewrite Hp.
  rewrite max_pages_val. unfold MAX_PAGES.
  rewrite elem_of_union, !elem_of_singleton. zcases; split; intros; destruct_and?; try lia; try discriminate; auto.
Qed.

Lemma small_pool_hint : page_alloc_hint (pv small_pool) = 2.
Proof. reflexivity. Qed.
#[local] Opaque small_pool.

Lemma pages_implement_pool_witness :
  exists i s', (i = 1 \/ i = 2) /\ alloc_page small_pool = Ret (i * PAGE_SIZE, s') /\ pages_rep s' ({[1; 2]} ∖ {[i]}).
Proof.
  assert ((0 ∉ ({[1; 2]} : gset Z)) /\ ({[1; 2]} : gset Z) <> ∅) as [H0 H1] by set_solver.
  destruct (pages_implement_pool small_pool {[1; 2]} small_pool_rep H0) as (_ & H & _).
  destruct (H H1) as (i & s' & Hi & Ha & Hr & _). exists i, s'.
  split; [|split; [exact Ha|exact Hr]]. by apply elem_of_union in Hi as [?%elem_of_singleton|?%elem_of_singleton]; auto.
Defined.

(** [alloc_page] takes the first free page in cyclic order from
    [page_alloc_hint], marks it, and moves the hint behind it. *)
Theorem alloc_page_first_free s :
  page_lock s = 0 ->
  alloc_page s =
  match List.find (page_free s) (page_order (page_alloc_hint (pv s)) MAX_PAGES) with
  | Some i => Ret (i * PAGE_SIZE,
      set_pages (PageVars (st8 (page_bitmap (pv s)) i 1) ((i + 1) mod MAX_PAGES)) s)
  | None => Ret (0, s)
  end.
Proof. apply alloc_page_run. Qed.

Lemma alloc_page_first_free_witness : exists s', alloc_page small_pool = Ret (8192, s').
Proof.
  assert (page_free small_pool 2 = true) as H2 by (apply small_pool_rep; set_solver).
  pose proof (alloc_page_first_free small_pool (proj1 small_pool_rep)) as E. rewrite small_pool_hint in E.
  destruct (page_order_hd 2 MAX_PAGES eq_refl) as [l Hl]. rewrite Hl in E. change (2 mod MAX_PAGES) with 2 in E.
  cbn [List.find] in E. rewrite H2 in E. eexists. exact E.
Defined.

(** Everything [init_physical_memory] does. *)
Lemma init_physical_memory_run kernel_end map map_size sz s :
  heap_start_page (hv s) = 0 -> 0 <= kernel_end < 17592169267200 -> 0 < map -> 0 < sz -> 0 <= map_size ->
  map_size + sz < 18446744073709551616 ->
  exists out v, let s' := MState (ram s) (rflags s) out (heap_lock s) (page_lock s) (set_start_page ((kernel_end + 4095) / 4096) (hv s)) v in
    init_physical_memory kernel_end map map_size sz s = Ret (tt, s') /\
    forall x, 0 <= x < MAX_PAGES ->
      page_free s' x =
      existsb (fun d => desc_frees (ram s) d x) (map_descs map sz (map_size / sz)) &&
      ((kernel_end + 4095) / 4096 + HEAP_PAGE_COUNT <=? x).
Proof.
  intros Hp Hk Hm Hsz Hms Hfit. unfold init_physical_memory.
  unfold say. rewrite !bind_modify.
  destruct (Z.eqb_spec map 0); [lia|]. destruct (Z.eqb_spec sz 0); [lia|]. cbn [negb andb].
  pose proof (Z.div_mod map_size sz ltac:(lia)) as Hd. pose proof (Z.mod_pos_bound map_size sz ltac:(lia)) as Hr.
  pose proof (Z.div_pos map_size sz Hms Hsz) as Hq.
  destruct (memory_map_loop_spec (ram s) map map_size sz (map_size / sz)
    (for_up max_pages 0 (fun i b => st8 b i 1) (page_bitmap (pv s))) 0 (Z.to_nat (map_size / sz + 1)))
    as (b' & E & Hb'); [lia..|].
  erewrite bind_run; [|cbn [ram add_serial set_pages set_bitmap page_bitmap pv]; rewrite E; reflexivity].
  rewrite bind_gets. unfold calc_heap_start_page. cbn [hv set_pages add_serial]. rewrite Hp. cbn [Z.eqb negb].
  rewrite !bind_modify. unfold PAGE_SIZE.
  assert (u32 (u64 (kernel_end + 4096 - 1) / 4096) = (kernel_end + 4095) / 4096) as -> by word_lia.
  eexists _, _. split; [reflexivity|]. intros x Hx. unfold page_free. cbn [pv page_bitmap set_pages set_heap set_bitmap add_serial].
  rewrite ld8_mark_pages, Hb', ld8_fill, max_pages_val by (assumption || lia). unfold MAX_PAGES, HEAP_PAGE_COUNT in *.
  rewrite Z.add_0_r. rewrite !u64_small by word_lia. change (u8 1) with 1.
  destruct (existsb _ _); zcases; (reflexivity || lia).
Qed.

(** C33. [init_physical_memory] leaves page [x] free exactly when some
    descriptor of the memory map with a usable type covers it and it lies
    above the kernel image and the heap; it returns for every map whose end
    fits the address space, and it does not write RAM. *)
Theorem init_physical_memory_spec kernel_end map map_size sz s :
  heap_start_page (hv s) = 0 -> 0 <= kernel_end < 17592169267200 -> 0 < map -> 0 < sz -> 0 <= map_size ->
  map_size + sz < 18446744073709551616 ->
  exists s', init_physical_memory kernel_end map map_size sz s = Ret (tt, s') /\ ram s' = ram s /\
    heap_start_page (hv s') = (kernel_end + 4095) / 4096 /\
    forall x, 0 <= x < MAX_PAGES ->
      page_free s' x =
      existsb (fun d => desc_frees (ram s) d x) (map_descs map sz (map_size / sz)) &&
      ((kernel_end + 4095) / 4096 + HEAP_PAGE_COUNT <=? x).
Proof.
  intros Hp Hk Hm Hsz Hms Hfit. destruct (init_physical_memory_run kernel_end map map_size sz s Hp Hk Hm Hsz Hms Hfit) as (out & v & E & Hx).
  eexists. split; [exact E|]. split_and!; [reflexivity..|exact Hx].
Qed.

(** A memory map of one 40-byte descriptor at 0x1000: conventional memory,
    64 MiB from address 0. *)
Definition sample_map : mstate :=
  MState (st64 (st64 (st32 ∅ 0x1000 7) 0x1008 0) 0x1018 16384) 0x202 [] 0 0
    (HeapVars 0 0 0 0 0 0) (PageVars ∅ 0).

Lemma init_physical_memory_spec_witness :
  exists s', init_physical_memory 0x180000 0x1000 40 40 sample_map = Ret (tt, s') /\
    page_free s' 4479 = false /\ page_free s' 4480 = true /\ page_free s' 16384 = false.
Proof.
  destruct (init_physical_memory_spec 0x180000 0x1000 40 40 sample_map eq_refl) as (s' & H & _ & _ & Hx); [lia..|].
  exists s'. split; [exact H|]. split; [|split]; (rewrite Hx by (unfold MAX_PAGES; lia); vm_compute; reflexivity).
Defined.

(** Defect: [free_page] accepts any address inside page 0 but
    [alloc_page] then hands page 0 out as the NULL pointer, so the caller
    sees a failure and the page is lost: it is marked used afterwards. *)
Theorem free_page_zero_lost s p :
  page_lock s = 0 -> 0 < p < PAGE_SIZE -> page_alloc_hint (pv s) = 0 ->
  exists s1 s2, free_page p s = Ret (tt, s1) /\ page_free s1 0 = true /\
    alloc_page s1 = Ret (0, s2) /\ page_free s2 0 = false.
Proof.
  intros Hl Hp Hh. unfold free_page, PAGE_SIZE in *. destruct (Z.eqb_spec p 0); [lia|].
  rewrite locked_on_pages by assumption. rewrite (Z.div_small p 4096), Hh by lia.
  cbn [Z.ltb Z.compare MAX_PAGES fst snd]. set (b := st8 (page_bitmap (pv s)) 0 0).
  assert (page_free (set_pages (PageVars b 0) s) 0 = true) as Hf
    by (unfold page_free, b; cbn [pv set_pages page_bitmap]; by rewrite ld8_st8).
  eexists _, _. split_and!; [reflexivity|exact Hf| |].
  - rewrite alloc_page_run by assumption. cbn [set_pages pv page_alloc_hint].
    destruct (page_order_hd 0 MAX_PAGES eq_refl) as [l ->]. change (0 mod MAX_PAGES) with 0.
    cbn [List.find]. by rewrite Hf.
  - unfold page_free. cbn [pv set_pages page_bitmap]. by rewrite ld8_st8.
Qed.

Lemma free_page_zero_lost_witness : exists s1 s2, free_page 16 sample_map = Ret (tt, s1) /\ alloc_page s1 = Ret (0, s2).
Proof.
  destruct (free_page_zero_lost sample_map 16 eq_refl ltac:(unfold PAGE_SIZE; lia) eq_refl) as (s1 & s2 & H1 & _ & H2 & _).
  exists s1, s2. split; [exact H1|exact H2].
Defined.
