(* ===== verification/Process.v ===== *)
(** * The process table and the scheduler
      (Kernel/ProcessManager/ProcessManager_Create.c)

    Sixteen slots, a current pid, and the cooperative switch made at the end
    of a system call.  [process_create_user] takes its stack from an
    allocator, a parameter here: the theorems use the [Allocator] interface,
    the kernel passes [kmalloc]. *)
From S2P Require Import Prelude Machine Utils Serial Memory Heap Alloc.

Definition PROCESS_MAX_COUNT : Z := 16.
Definition PROCESS_STACK_SIZE : Z := 16 * 1024.
Definition PROCESS_RFLAGS_DEFAULT : Z := 0x202.
Definition PROCESS_STATE_UNUSED : Z := 0.
Definition PROCESS_STATE_READY : Z := 1.
Definition PROCESS_STATE_RUNNING : Z := 2.
Definition PROCESS_STATE_DEAD : Z := 3.
Definition SYSCALL_FRAME_RCX : Z := 13.
Definition SYSCALL_FRAME_R11 : Z := 14.
Definition SYSCALL_FRAME_QWORDS : Z := 15.

Record process_t := Process {
  pstate : Z;
  entry : Z;
  saved_rsp : Z;
  saved_user_rsp : Z;
  stack_base : Z
}.
Definition unused_process : process_t := Process PROCESS_STATE_UNUSED 0 0 0 0.
Definition set_state (v : Z) (p : process_t) : process_t :=
  Process v (entry p) (saved_rsp p) (saved_user_rsp p) (stack_base p).
Definition set_context (rsp user_rsp : Z) (p : process_t) : process_t :=
  Process (pstate p) (entry p) rsp user_rsp (stack_base p).

(** The machine and heap, and the file's two static variables. *)
Record procs := Procs {
  kmem : mstate;
  g_processes : list process_t;
  g_current_pid : Z
}.
Definition put_mem (m : mstate) (s : procs) : procs := Procs m (g_processes s) (g_current_pid s).
Definition put_table (t : list process_t) (s : procs) : procs := Procs (kmem s) t (g_current_pid s).
Definition put_pid (i : Z) (s : procs) : procs := Procs (kmem s) (g_processes s) i.
Definition on_mem {A} (c : M mstate A) : M procs A := zoom kmem put_mem c.

(** [g_processes[i]] and its update; every index below is in the table. *)
Definition proc (t : list process_t) (i : Z) : process_t := default unused_process (t !! Z.to_nat i).
Definition set_proc (t : list process_t) (i : Z) (p : process_t) : list process_t := <[Z.to_nat i := p]> t.

Definition find_free_slot (t : list process_t) : Z :=
  first_from (Z.to_nat PROCESS_MAX_COUNT) 0 (fun i =>
    (pstate (proc t i) =? PROCESS_STATE_UNUSED) || (pstate (proc t i) =? PROCESS_STATE_DEAD)).

(** The scan over [step] in [1..PROCESS_MAX_COUNT]. *)
Fixpoint next_ready_from (n : nat) (step current_pid : Z) (t : list process_t) : Z :=
  match n with
  | O => -1
  | S n' =>
      let idx := (current_pid + step) mod PROCESS_MAX_COUNT in
      if pstate (proc t idx) =? PROCESS_STATE_READY then idx
      else next_ready_from n' (step + 1) current_pid t
  end.

Definition pick_next_ready (t : list process_t) (current_pid : Z) : Z :=
  if current_pid <? 0 then
    first_from (Z.to_nat PROCESS_MAX_COUNT) 0 (fun i =>
      (pstate (proc t i) =? PROCESS_STATE_READY) || (pstate (proc t i) =? PROCESS_STATE_RUNNING))
  else
    let idx := next_ready_from (Z.to_nat PROCESS_MAX_COUNT) 1 current_pid t in
    if 0 <=? idx then idx
    else if (pstate (proc t current_pid) =? PROCESS_STATE_RUNNING) ||
            (pstate (proc t current_pid) =? PROCESS_STATE_READY)
    then current_pid
    else -1.

Definition process_manager_init : M procs unit := modify (fun s =>
  put_pid (-1) (put_table
    (for_up (Z.to_nat PROCESS_MAX_COUNT) 0 (fun i t => set_proc t i unused_process) (g_processes s)) s)).

Definition process_register_boot_process (entry user_stack_top : Z) : M procs Z :=
  pid ← gets (fun s => find_free_slot (g_processes s));
  if pid <? 0 then
    on_mem (say [line "[OS] [PROC] No free slot for boot process"]);; mret (-1)
  else
    modify (fun s => put_table (set_proc (g_processes s) pid
      (Process PROCESS_STATE_RUNNING entry user_stack_top user_stack_top 0)) s);;
    modify (put_pid pid);;
    on_mem (say [line "[OS] [PROC] Boot process registered"]);;
    mret pid.

(** The frame a new process is resumed from: fifteen quadwords below the top
    of its stack, all 0 but the return address and the flags. *)
Definition build_frame (frame entry : Z) (m : mem) : mem :=
  let m := for_up (Z.to_nat SYSCALL_FRAME_QWORDS) 0 (fun i m => st64 m (frame + 8 * i) 0) m in
  let m := st64 m (frame + 8 * SYSCALL_FRAME_RCX) entry in
  st64 m (frame + 8 * SYSCALL_FRAME_R11) PROCESS_RFLAGS_DEFAULT.

Definition process_create_user (kmalloc : Z -> M mstate Z) (entry : Z) : M procs Z :=
  if entry =? 0 then mret (-1)
  else
    pid ← gets (fun s => find_free_slot (g_processes s));
    if pid <? 0 then
      on_mem (say [line "[OS] [PROC] No free slot for process create"]);; mret (-1)
    else
      stack ← on_mem (kmalloc PROCESS_STACK_SIZE);
      if stack =? 0 then
        on_mem (say [line "[OS] [PROC] Stack allocation failed"]);; mret (-1)
      else
        let stack_top := Z.land (u64 (stack + PROCESS_STACK_SIZE)) (u64 (Z.lnot 0xF)) in
        let frame := u64 (stack_top - SYSCALL_FRAME_QWORDS * 8) in
        on_mem (modify (fun s => set_ram (build_frame frame entry (ram s)) s));;
        modify (fun s => put_table (set_proc (g_processes s) pid
          (Process PROCESS_STATE_READY entry frame stack_top stack)) s);;
        mret pid.

Definition process_exit_current : M procs unit := modify (fun s =>
  let i := g_current_pid s in
  if (i <? 0) || (PROCESS_MAX_COUNT <=? i) then s
  else put_table (set_proc (g_processes s) i (set_state PROCESS_STATE_DEAD (proc (g_processes s) i))) s).

(** Returns the stack pointer to resume from and the user stack pointer
    stored through [next_user_rsp_out], which no caller passes as NULL. *)
Definition process_schedule_on_syscall (current_saved_rsp current_user_rsp request_switch : Z)
    : M procs (Z * Z) :=
  cur ← gets g_current_pid;
  if (cur <? 0) || (PROCESS_MAX_COUNT <=? cur) then
    on_mem (say [line "[OS] [PROC] Invalid current PID"]);;
    mret (current_saved_rsp, current_user_rsp)
  else
    modify (fun s =>
      let p := proc (g_processes s) cur in
      if (pstate p =? PROCESS_STATE_RUNNING) || (pstate p =? PROCESS_STATE_READY) then
        let p := set_context current_saved_rsp current_user_rsp p in
        let p := if negb (pstate p =? PROCESS_STATE_DEAD) then set_state PROCESS_STATE_READY p else p in
        put_table (set_proc (g_processes s) cur p) s
      else s);;
    current ← gets (fun s => proc (g_processes s) cur);
    if (request_switch =? 0) && negb (pstate current =? PROCESS_STATE_DEAD) then
      modify (fun s => put_table (set_proc (g_processes s) cur (set_state PROCESS_STATE_RUNNING current)) s);;
      mret (saved_rsp current, saved_user_rsp current)
    else
      next_pid ← gets (fun s => pick_next_ready (g_processes s) cur);
      if next_pid <? 0 then
        on_mem (say [line "[OS] [PROC] No runnable process. Halting."]);; liftO Hang
      else
        modify (put_pid next_pid);;
        next ← gets (fun s => proc (g_processes s) next_pid);
        modify (fun s => put_table (set_proc (g_processes s) next_pid (set_state PROCESS_STATE_RUNNING next)) s);;
        mret (saved_rsp next, saved_user_rsp next).
