(* ===== verification/ProcessTheorems.v ===== *)
(** * The properties of the scheduler and of process creation *)
From S2P Require Import Prelude Machine Utils Serial Memory Heap HeapSpec Alloc HeapTheorems Process.

Ltac states := unfold PROCESS_STATE_UNUSED, PROCESS_STATE_READY, PROCESS_STATE_RUNNING,
  PROCESS_STATE_DEAD, PROCESS_MAX_COUNT in *.

Lemma proc_set_proc t i j p :
  length t = 16%nat -> 0 <= i < 16 -> 0 <= j ->
  proc (set_proc t i p) j = if i =? j then p else proc t j.
Proof.
  intros Ht Hi Hj. unfold proc, set_proc. destruct (Z.eqb_spec i j) as [<-|Hij].
  - by rewrite list_lookup_insert_eq by lia.
  - by rewrite list_lookup_insert_ne by lia.
Qed.
Lemma length_set_proc t i p : length (set_proc t i p) = length t.
Proof. apply length_insert. Qed.
Create Rewrite HintDb procs.
#[export] Hint Rewrite length_set_proc : procs.

Definition slot_free (t : list process_t) (i : Z) : bool :=
  (pstate (proc t i) =? PROCESS_STATE_UNUSED) || (pstate (proc t i) =? PROCESS_STATE_DEAD).
Definition ready (t : list process_t) (i : Z) : bool := pstate (proc t i) =? PROCESS_STATE_READY.

Lemma find_free_slot_spec t :
  (find_free_slot t = -1 /\ forall i, 0 <= i < 16 -> slot_free t i = false) \/
  (0 <= find_free_slot t < 16 /\ slot_free t (find_free_slot t) = true /\
   forall i, 0 <= i < find_free_slot t -> slot_free t i = false).
Proof.
  unfold find_free_slot, PROCESS_MAX_COUNT. fold (slot_free t).
  apply (first_from_spec (Z.to_nat 16) 0 (slot_free t)). lia.
Qed.

(** The slots in the order the scheduler considers them. *)
Definition rr_order (cur : Z) : list Z := (fun k => (cur + k) mod 16) <$> seqZ 1 16.

Lemma next_ready_from_spec n step cur t :
  next_ready_from n step cur t =
  default (-1) (List.find (ready t) ((fun k => (cur + k) mod 16) <$> seqZ step (Z.of_nat n))).
Proof.
  revert step; induction n as [|n IH]; intros step; [reflexivity|].
  rewrite seqZ_cons by lia. cbn [next_ready_from fmap list_fmap List.find]. unfold PROCESS_MAX_COUNT.
  fold (ready t ((cur + step) mod 16)). destruct (ready t _); [reflexivity|].
  rewrite IH, Nat2Z.inj_succ, Z.pred_succ. reflexivity.
Qed.

Lemma rr_order_elem cur j : 0 <= j < 16 -> j ∈ rr_order cur.
Proof.
  intros Hj. apply list_elem_of_fmap. exists (1 + (j - cur - 1) mod 16).
  split; [|apply elem_of_seqZ]; Z.to_euclidean_division_equations; lia.
Qed.

(** The table after the caller's context has been saved. *)
Definition save_current (t : list process_t) (cur rsp ursp : Z) : list process_t :=
  let p := proc t cur in
  if (pstate p =? PROCESS_STATE_RUNNING) || (pstate p =? PROCESS_STATE_READY)
  then set_proc t cur (Process PROCESS_STATE_READY (entry p) rsp ursp (stack_base p))
  else t.

Lemma length_save_current t cur rsp ursp : length (save_current t cur rsp ursp) = length t.
Proof. unfold save_current. destruct (_ || _); [apply length_set_proc|reflexivity]. Qed.
#[export] Hint Rewrite length_save_current : procs.

Lemma proc_save_current t cur rsp ursp j :
  length t = 16%nat -> 0 <= cur < 16 -> 0 <= j -> j <> cur -> proc (save_current t cur rsp ursp) j = proc t j.
Proof.
  intros Ht Hc Hj Hn. unfold save_current. destruct (_ || _); [|reflexivity].
  rewrite proc_set_proc by lia. by destruct (Z.eqb_spec cur j); [lia|].
Qed.

(** A switch, on both branches that ask for one. *)
Definition switch_to (s : procs) (t : list process_t) (j : Z) : (Z * Z) * procs :=
  ((saved_rsp (proc t j), saved_user_rsp (proc t j)),
   Procs (kmem s) (set_proc t j (set_state PROCESS_STATE_RUNNING (proc t j))) j).

Lemma schedule_switch s rsp ursp sw :
  length (g_processes s) = 16%nat -> 0 <= g_current_pid s < 16 ->
  sw <> 0 \/ pstate (proc (g_processes s) (g_current_pid s)) = PROCESS_STATE_DEAD ->
  let t := save_current (g_processes s) (g_current_pid s) rsp ursp in
  process_schedule_on_syscall rsp ursp sw s =
  match List.find (ready t) (rr_order (g_current_pid s)) with
  | Some j => Ret (switch_to s t j)
  | None => Hang
  end.
Proof.
  intros Hlen Hcur Hsw t. destruct s as [mm tb cur]. cbn [kmem g_processes g_current_pid] in *.
  unfold process_schedule_on_syscall. rewrite bind_gets. cbn [g_current_pid]. states.
  destruct (Z.ltb_spec cur 0); [lia|]. destruct (Z.leb_spec 16 cur); [lia|]. cbn [orb].
  rewrite bind_modify, bind_gets.
  assert (((if (pstate (proc tb cur) =? 2) || (pstate (proc tb cur) =? 1)
     then put_table (set_proc tb cur
            (if negb (pstate (set_context rsp ursp (proc tb cur)) =? 3)
             then set_state 1 (set_context rsp ursp (proc tb cur)) else set_context rsp ursp (proc tb cur)))
            (Procs mm tb cur)
     else Procs mm tb cur)) = Procs mm t cur) as Hsave.
  { unfold t, save_current. states. destruct (_ || _) eqn:E; [|reflexivity].
    cbn [set_context pstate]. apply orb_prop in E as [->%Z.eqb_eq| ->%Z.eqb_eq]; reflexivity. }
  cbn zeta. cbn [g_processes]. rewrite Hsave. clear Hsave. cbn [g_processes].
  assert ((sw =? 0) && negb (pstate (proc t cur) =? 3) = false) as ->.
  { destruct Hsw as [Hsw|Hd]; [by destruct (Z.eqb_spec sw 0)|]. unfold t, save_current. states. rewrite Hd.
    change ((3 =? 2) || (3 =? 1)) with false. cbv iota. rewrite Hd. apply andb_false_r. }
  rewrite bind_gets. cbn [g_processes]. unfold pick_next_ready. destruct (Z.ltb_spec cur 0); [lia|].
  rewrite next_ready_from_spec. change (Z.of_nat (Z.to_nat PROCESS_MAX_COUNT)) with 16. fold (rr_order cur).
  destruct (List.find (ready t) (rr_order cur)) as [j|] eqn:Ef; unfold default, id.
  - apply find_some in Ef as [Hj _]. apply list_elem_of_In, list_elem_of_fmap in Hj as (k & -> & _).
    pose proof (Z.mod_pos_bound (cur + k) 16 eq_refl). destruct (Z.leb_spec 0 ((cur + k) mod 16)); [|lia].
    destruct (Z.ltb_spec ((cur + k) mod 16) 0); [lia|]. reflexivity.
  - cbn [Z.leb Z.compare]. pose proof (find_none _ _ Ef cur ltac:(apply list_elem_of_In, rr_order_elem; lia)) as Hn.
    unfold ready in Hn. states. rewrite Hn, orb_false_r.
    assert ((pstate (proc t cur) =? 2) = false) as ->; [|reflexivity].
    unfold t, save_current in *. states. destruct (_ || _) eqn:E.
    + rewrite proc_set_proc, Z.eqb_refl in Hn by lia. discriminate.
    + by apply orb_false_iff in E as [-> _].
Qed.

(** A system call that asks for no switch resumes its caller. *)
Lemma schedule_stay s rsp ursp :
  length (g_processes s) = 16%nat -> 0 <= g_current_pid s < 16 ->
  pstate (proc (g_processes s) (g_current_pid s)) = PROCESS_STATE_RUNNING ->
  let t := save_current (g_processes s) (g_current_pid s) rsp ursp in
  process_schedule_on_syscall rsp ursp 0 s = Ret (switch_to s t (g_current_pid s)).
Proof.
  intros Hlen Hcur Hrun t. destruct s as [mm tb cur]. cbn [kmem g_processes g_current_pid] in *.
  unfold process_schedule_on_syscall. rewrite bind_gets. cbn [g_current_pid].
  states. destruct (Z.ltb_spec cur 0); [lia|]. destruct (Z.leb_spec 16 cur); [lia|]. cbn [orb].
  rewrite bind_modify, bind_gets. cbn [g_processes]. unfold t, save_current, switch_to. states. rewrite Hrun.
  cbn [Z.eqb Pos.eqb orb set_context pstate negb set_state put_table g_processes].
  rewrite !proc_set_proc, !Z.eqb_refl by lia. rewrite !Hrun. reflexivity.
Qed.

(** ** The invariant of every reachable state *)

(** One process runs, and it is the current one. *)
Definition running_inv (s : procs) : Prop :=
  length (g_processes s) = 16%nat /\ 0 <= g_current_pid s < 16 /\
  forall i, 0 <= i < 16 -> pstate (proc (g_processes s) i) = PROCESS_STATE_RUNNING <-> i = g_current_pid s.

(** What the kernel does with the table: create a process, end a system
    call with or without a switch request, or end the current process.  The
    label is the context resumed. *)
Inductive proc_step (malloc : Z -> M mstate Z) : procs -> option (Z * Z) -> procs -> Prop :=
| step_create entry pid s s' :
    process_create_user malloc entry s = Ret (pid, s') -> proc_step malloc s None s'
| step_return rsp ursp r s s' :
    process_schedule_on_syscall rsp ursp 0 s = Ret (r, s') -> proc_step malloc s None s'
| step_yield rsp ursp r s s' :
    process_schedule_on_syscall rsp ursp 1 s = Ret (r, s') -> proc_step malloc s (Some r) s'
| step_exit rsp ursp r s s' :
    (process_exit_current;; process_schedule_on_syscall rsp ursp 1) s = Ret (r, s') ->
    proc_step malloc s (Some r) s'.

(** [process_create_user] leaves the pid, and changes one free slot at most. *)
Lemma create_table malloc entry s pid s' :
  process_create_user malloc entry s = Ret (pid, s') ->
  g_current_pid s' = g_current_pid s /\
  (g_processes s' = g_processes s \/
   exists i e f t b, 0 <= i < 16 /\ slot_free (g_processes s) i = true /\
     g_processes s' = set_proc (g_processes s) i (Process PROCESS_STATE_READY e f t b)).
Proof.
  unfold process_create_user. destruct (entry =? 0); [injection 1 as _ <-; auto|].
  rewrite bind_gets. destruct (find_free_slot_spec (g_processes s)) as [[-> _]|(Hi & Hf & _)].
  { cbn. injection 1 as _ <-. auto. }
  destruct (Z.ltb_spec (find_free_slot (g_processes s)) 0); [lia|].
  unfold mbind at 1, M_bind at 1, on_mem at 1, zoom at 1. destruct (malloc _ (kmem s)) as [[st m]| |]; try discriminate.
  destruct (st =? 0); cbn; injection 1 as _ <-; cbn; split; auto. right. eauto 10.
Qed.

Lemma exit_then_schedule s rsp ursp :
  running_inv s ->
  let s1 := put_table (set_proc (g_processes s) (g_current_pid s)
              (set_state PROCESS_STATE_DEAD (proc (g_processes s) (g_current_pid s)))) s in
  (process_exit_current;; process_schedule_on_syscall rsp ursp 1) s =
  match List.find (ready (g_processes s1)) (rr_order (g_current_pid s)) with
  | Some j => Ret (switch_to s (g_processes s1) j)
  | None => Hang
  end.
Proof.
  intros (Hlen & Hcur & _) s1. unfold process_exit_current. rewrite bind_modify.
  states. destruct (Z.ltb_spec (g_current_pid s) 0); [lia|]. destruct (Z.leb_spec 16 (g_current_pid s)); [lia|].
  cbn [orb]. fold s1. change (g_current_pid s) with (g_current_pid s1).
  assert (pstate (proc (g_processes s1) (g_current_pid s1)) = 3) as Hd.
  { unfold s1. cbn [g_processes g_current_pid put_table]. by rewrite proc_set_proc, Z.eqb_refl by lia. }
  rewrite schedule_switch; [|unfold s1; cbn; by rewrite length_set_proc|assumption|by left].
  assert (save_current (g_processes s1) (g_current_pid s1) rsp ursp = g_processes s1) as ->; [|reflexivity].
  unfold save_current. states. by rewrite Hd.
Qed.

(** Facts every switch shares. *)
Lemma switch_inv s t cur j :
  length t = 16%nat -> 0 <= cur < 16 ->
  (forall i, 0 <= i < 16 -> i <> cur -> pstate (proc t i) <> PROCESS_STATE_RUNNING) ->
  pstate (proc t cur) <> PROCESS_STATE_RUNNING -> 0 <= j < 16 ->
  running_inv (snd (switch_to s t j)).
Proof.
  intros Ht Hc Hn Hcn Hj. split_and!; cbn; [by rewrite length_set_proc|lia|lia|]. intros i Hi.
  rewrite proc_set_proc by lia. destruct (Z.eqb_spec j i) as [<-|]; [done|]. split; [|lia].
  intros Hr. destruct (Z.eq_dec i cur) as [->|]; [done|]. by apply Hn in Hr.
Qed.

Lemma find_rr t cur j : List.find (ready t) (rr_order cur) = Some j -> 0 <= j < 16 /\ ready t j = true.
Proof.
  intros [Hj Hr]%find_some. split; [|exact Hr].
  apply list_elem_of_In, list_elem_of_fmap in Hj as (k & -> & _). apply Z.mod_pos_bound. lia.
Qed.

(** The tables a switch is made from: the caller saved, or dead. *)
Definition left_behind (s : procs) (t : list process_t) : Prop :=
  length t = 16%nat /\ pstate (proc t (g_current_pid s)) <> PROCESS_STATE_RUNNING /\
  forall i, 0 <= i < 16 -> i <> g_current_pid s -> proc t i = proc (g_processes s) i.

Lemma saved_left_behind s rsp ursp :
  running_inv s -> left_behind s (save_current (g_processes s) (g_current_pid s) rsp ursp).
Proof.
  intros (Hlen & Hcur & Hr). split_and!; [by rewrite length_save_current| |].
  - unfold save_current. states. rewrite (proj2 (Hr _ Hcur) eq_refl). cbn [Z.eqb Pos.eqb orb].
    by rewrite proc_set_proc, Z.eqb_refl by lia.
  - intros i Hi Hn. apply proc_save_current; lia.
Qed.

Lemma dead_left_behind s :
  running_inv s -> left_behind s (set_proc (g_processes s) (g_current_pid s)
              (set_state PROCESS_STATE_DEAD (proc (g_processes s) (g_current_pid s)))).
Proof.
  intros (Hlen & Hcur & Hr). split_and!; [by rewrite length_set_proc| |].
  - by rewrite proc_set_proc, Z.eqb_refl by lia.
  - intros i Hi Hn. rewrite proc_set_proc by lia. by destruct (Z.eqb_spec (g_current_pid s) i); [lia|].
Qed.

(** Every step is a creation, a return to the caller, or a switch to the
    first ready slot. *)
Lemma proc_step_cases malloc s o s' :
  running_inv s -> proc_step malloc s o s' ->
  (o = None /\ g_current_pid s' = g_current_pid s /\ length (g_processes s') = 16%nat /\
   forall i, 0 <= i < 16 ->
     (proc (g_processes s') i = proc (g_processes s) i \/
      (i = g_current_pid s /\ pstate (proc (g_processes s') i) = PROCESS_STATE_RUNNING) \/
      (slot_free (g_processes s) i = true /\ pstate (proc (g_processes s') i) = PROCESS_STATE_READY))) \/
  (exists t j, left_behind s t /\ List.find (ready t) (rr_order (g_current_pid s)) = Some j /\
     o = Some (fst (switch_to s t j)) /\ s' = snd (switch_to s t j)).
Proof.
  intros Hinv Hs. pose proof Hinv as (Hlen & Hcur & Hr). destruct Hs as [e pid s s' H|rsp ursp r s s' H|rsp ursp r s s' H|rsp ursp r s s' H].
  - left. apply create_table in H as (Hp & Ht). split_and!; [done..| |].
    { destruct Ht as [->|(i & e' & f & t & b & _ & _ & ->)]; [done|]. by rewrite length_set_proc. }
    intros j Hj. destruct Ht as [->|(i & e' & f & t & b & Hi & Hf & ->)]; [by left|].
    rewrite proc_set_proc by lia. destruct (Z.eqb_spec i j) as [<-|]; [|by left]. right; right. done.
  - left. rewrite schedule_stay in H; try done; [|by apply Hr]. injection H as _ <-.
    split_and!; cbn; [done..| |]; [by rewrite length_set_proc, length_save_current|].
    intros j Hj. rewrite proc_set_proc by (rewrite ?length_save_current; lia).
    destruct (Z.eqb_spec (g_current_pid s) j) as [<-|]; [by right; left|left]. apply proc_save_current; lia.
  - right. rewrite schedule_switch in H; [|done..|by left]. destruct (List.find _ _) as [j|] eqn:Ef; [|done].
    eexists _, j. split_and!; [by apply saved_left_behind|exact Ef|by injection H as <- <-..].
  - right. rewrite exit_then_schedule in H by done. destruct (List.find _ _) as [j|] eqn:Ef; [|done].
    eexists _, j. split_and!; [by apply dead_left_behind|exact Ef|by injection H as <- <-..].
Qed.

Lemma proc_step_inv malloc s o s' : running_inv s -> proc_step malloc s o s' -> running_inv s'.
Proof.
  intros Hinv Hs. pose proof Hinv as (Hlen & Hcur & Hr).
  destruct (proc_step_cases malloc s o s' Hinv Hs) as [(_ & Hp & Hl & Ht)|(t & j & (L1 & L2 & L3) & Hf & _ & ->)].
  - split_and!; [done|lia|lia|]. intros i Hi. rewrite Hp. specialize (Hr i Hi).
    destruct (Ht i Hi) as [->|[[-> Hi2]|[Hf Hi2]]]; [done|by split|]. rewrite Hi2. split; [done|]. intros ->.
    unfold slot_free in Hf. by rewrite (proj2 Hr eq_refl) in Hf.
  - apply find_rr in Hf as [Hj _]. apply (switch_inv s t (g_current_pid s) j); try done.
    intros i Hi Hn. rewrite L3 by done. intros Hri. by apply Hr in Hri.
Qed.

(** The state the boot process is registered in. *)
Definition boot_table (mm : mstate) (entry top : Z) : procs :=
  Procs (add_serial [line "[OS] [PROC] Boot process registered"] mm)
    (Process PROCESS_STATE_RUNNING entry top top 0 :: replicate 15 unused_process) 0.

Lemma boot_table_inv mm entry top : running_inv (boot_table mm entry top).
Proof.
  split_and!; [reflexivity|cbn; lia|cbn; lia|]. intros i Hi. cbn [g_processes g_current_pid boot_table].
  assert (exists k, i = Z.of_nat k /\ (k < 16)%nat) as (k & -> & Hk) by (exists (Z.to_nat i); lia).
  unfold proc. rewrite Nat2Z.id. do 16 (destruct k as [|k]; [cbn; states; split; intros; lia|]). lia.
Qed.

(** ** The theorems *)

(** C24. Invariant: from the moment the boot process is registered, after
    any sequence of process creations, system calls and exits, exactly one
    slot of the table is RUNNING and it is the one [g_current_pid] names. *)
Theorem one_process_runs malloc entry top s :
  length (g_processes s) = 16%nat ->
  exists s1, (process_manager_init;; process_register_boot_process entry top) s = Ret (0, s1) /\
    forall s2, rtc (fun a b => exists o, proc_step malloc a o b) s1 s2 -> running_inv s2.
Proof.
  intros Hlen. destruct s as [mm tb cur]. cbn in Hlen. do 16 (destruct tb as [|? tb]; [discriminate|]).
  destruct tb; [|discriminate]. exists (boot_table mm entry top). split; [reflexivity|].
  intros s2 Hrun. pose proof (boot_table_inv mm entry top) as Hinv.
  induction Hrun as [|a b c [o Ho] _ IH]; [done|]. apply IH. by apply (proc_step_inv malloc a o).
Qed.

Definition no_malloc : Z -> M mstate Z := fun _ => mret 0.
Definition machine0 : mstate := MState ∅ 0x202 [] 0 0 (HeapVars 0 0 0 0 0 0) (PageVars ∅ 0).
Definition empty_table : procs := Procs machine0 (replicate 16 unused_process) (-1).

Lemma one_process_runs_witness :
  exists s1, (process_manager_init;; process_register_boot_process 0x400000 0x800000) empty_table = Ret (0, s1) /\ running_inv s1.
Proof.
  destruct (one_process_runs no_malloc 0x400000 0x800000 empty_table eq_refl) as (s1 & H & Hr).
  exists s1. split; [exact H|]. apply Hr. apply rtc_refl.
Defined.

(** C30. Round robin: a yield by the running process saves its context,
    walks the slots cyclically from the next one, resumes the first READY
    process with exactly the context saved for it - the caller itself only
    if no other is ready - and leaves every other slot alone. *)
Theorem yield_round_robin s rsp ursp sw :
  running_inv s -> sw <> 0 ->
  let cur := g_current_pid s in
  exists k s', 1 <= k <= 16 /\
    let j := (cur + k) mod 16 in
    (forall k', 1 <= k' < k -> ready (g_processes s) ((cur + k') mod 16) = false) /\
    (k < 16 -> ready (g_processes s) j = true) /\
    process_schedule_on_syscall rsp ursp sw s =
      Ret (if j =? cur then (rsp, ursp)
           else (saved_rsp (proc (g_processes s) j), saved_user_rsp (proc (g_processes s) j)), s') /\
    g_current_pid s' = j /\ kmem s' = kmem s /\ running_inv s' /\
    (j <> cur -> proc (g_processes s') cur =
       Process PROCESS_STATE_READY (entry (proc (g_processes s) cur)) rsp ursp (stack_base (proc (g_processes s) cur))) /\
    (forall i, 0 <= i < 16 -> i <> cur -> i <> j -> proc (g_processes s') i = proc (g_processes s) i).
Proof.
  intros Hinv Hsw cur. pose proof Hinv as (Hlen & Hcur & Hr). fold cur in Hcur, Hr.
  pose proof (schedule_switch s rsp ursp sw Hlen Hcur (or_introl Hsw)) as H. cbn zeta in H. fold cur in H.
  set (t := save_current (g_processes s) cur rsp ursp) in *.
  assert (proc t cur = Process PROCESS_STATE_READY (entry (proc (g_processes s) cur)) rsp ursp
                         (stack_base (proc (g_processes s) cur))) as Hc.
  { unfold t, save_current. rewrite (proj2 (Hr cur Hcur) eq_refl). states. cbn [Z.eqb Pos.eqb orb].
    by rewrite proc_set_proc, Z.eqb_refl by lia. }
  assert (forall i, 0 <= i -> i <> cur -> proc t i = proc (g_processes s) i) as Ho
    by (intros; apply proc_save_current; lia).
  destruct (List.find _ _) as [j|] eqn:Ef.
  2:{ pose proof (find_none _ _ Ef cur ltac:(apply list_elem_of_In, rr_order_elem; lia)) as Hn.
      unfold ready in Hn. rewrite Hc in Hn. discriminate. }
  apply find_seqZ in Ef as (k & Hk & Hj & Hjr & Hfirst). exists k, (snd (switch_to s t j)).
  cbn zeta. rewrite <- Hj. pose proof (Z.mod_pos_bound (cur + k) 16 eq_refl) as Hj16. rewrite <- Hj in Hj16.
  split_and!; [lia|lia| | | |done|done| | |].
  - intros k' Hk'. rewrite <- (Hfirst k') by lia. unfold ready. f_equal. f_equal. symmetry. apply Ho; word_lia.
  - intros Hk16. unfold ready in *. rewrite <- Hjr. f_equal. f_equal. symmetry. apply Ho; word_lia.
  - rewrite H. unfold switch_to. cbn [snd]. f_equal. f_equal. destruct (Z.eqb_spec j cur) as [->|]; [by rewrite Hc|].
    by rewrite Ho by lia.
  - apply (switch_inv s t cur j); try done; [by unfold t; rewrite length_save_current| |by rewrite Hc].
    intros i Hi Hn. rewrite Ho by lia. intros E. by apply Hr in E.
  - intros Hn. cbn. rewrite proc_set_proc by (unfold t; rewrite ?length_save_current; lia).
    by destruct (Z.eqb_spec j cur); [lia|].
  - intros i Hi H1 H2. cbn. rewrite proc_set_proc by (unfold t; rewrite ?length_save_current; lia).
    destruct (Z.eqb_spec j i); [lia|]. apply Ho; lia.
Qed.

(** Processes 0 (running), 1 and 2 (ready). *)
Definition three_procs : procs :=
  Procs machine0 (Process 2 0x400000 0x800000 0x800000 0 :: Process 1 0x401000 0x900000 0x900078 0x8FC000 ::
    Process 1 0x402000 0xA00000 0xA00078 0x9FC000 :: replicate 13 unused_process) 0.
Lemma three_procs_inv : running_inv three_procs.
Proof.
  split_and!; [reflexivity|cbn; lia|cbn; lia|]. intros i Hi. cbn [g_processes g_current_pid three_procs].
  assert (exists k, i = Z.of_nat k /\ (k < 16)%nat) as (k & -> & Hk) by (exists (Z.to_nat i); lia).
  unfold proc. rewrite Nat2Z.id. do 16 (destruct k as [|k]; [cbn; states; split; intros; lia|]). lia.
Qed.

Lemma yield_round_robin_witness :
  exists r s', process_schedule_on_syscall 0x1000 0x2000 1 three_procs = Ret (r, s') /\ running_inv s'.
Proof.
  destruct (yield_round_robin three_procs 0x1000 0x2000 1 three_procs_inv ltac:(lia)) as (k & s' & _ & _ & _ & H & _ & _ & Hi & _).
  eexists _, s'. split; [exact H|exact Hi].
Defined.

(** [away malloc i n s s']: steps from [s] to [s'], [n] of them switches, in
    which process [i] is never resumed. *)
Inductive away (malloc : Z -> M mstate Z) (i : Z) : nat -> procs -> procs -> Prop :=
| away_refl s : away malloc i 0 s s
| away_step s o s1 n s2 :
    proc_step malloc s o s1 -> g_current_pid s1 <> i -> away malloc i n s1 s2 ->
    away malloc i ((match o with Some _ => 1 | None => 0 end) + n) s s2.

(** Process [i] waits with the context [c]. *)
Definition waiting (s : procs) (i : Z) (c : Z * Z) : Prop :=
  running_inv s /\ 0 <= i < 16 /\ ready (g_processes s) i = true /\
  (saved_rsp (proc (g_processes s) i), saved_user_rsp (proc (g_processes s) i)) = c.

Lemma waiting_not_current s i c : waiting s i c -> i <> g_current_pid s.
Proof.
  intros ((_ & Hcur & Hr) & Hi & Hrd & _) ->. unfold ready in Hrd.
  rewrite (proj2 (Hr _ Hcur) eq_refl) in Hrd. discriminate.
Qed.

(** One step: [i] keeps waiting, a little nearer to its turn when the step
    was a switch, or it is resumed with its own context. *)
Lemma waiting_step malloc s o s' i c :
  waiting s i c -> proc_step malloc s o s' ->
  (g_current_pid s' = i /\ o = Some c) \/
  (waiting s' i c /\
   ((o = None /\ g_current_pid s' = g_current_pid s) \/
    (i - g_current_pid s') mod 16 < (i - g_current_pid s) mod 16)).
Proof.
  intros Hw Hs. pose proof (waiting_not_current _ _ _ Hw) as Hne. destruct Hw as (Hinv & Hi & Hrd & Hc).
  pose proof (proc_step_inv _ _ _ _ Hinv Hs) as Hinv'. pose proof Hinv as (_ & Hcur & _).
  destruct (proc_step_cases _ _ _ _ Hinv Hs) as [(-> & Hp & Hl & Ht)|(t & j & (L1 & L2 & L3) & Hf & -> & ->)].
  - right. split; [|by left]. split_and!; try done; try lia; unfold ready in *; destruct (Ht i Hi) as [->|[[? _]|[Hfr _]]]; try done;
      unfold slot_free in Hfr; states; zcases; lia || done.
  - pose proof (L3 i Hi Hne) as Hpi. assert (ready t i = true) as Hti by (unfold ready; by rewrite Hpi).
    apply find_seqZ in Hf as (k & Hk & -> & _ & Hfirst).
    assert (k <= (i - g_current_pid s) mod 16).
    { destruct (Z.le_gt_cases k ((i - g_current_pid s) mod 16)); [assumption|]. exfalso.
      specialize (Hfirst ((i - g_current_pid s) mod 16) ltac:(word_lia)).
      replace ((g_current_pid s + (i - g_current_pid s) mod 16) mod 16) with i in Hfirst by word_lia. congruence. }
    destruct (Z.eq_dec ((g_current_pid s + k) mod 16) i) as [->|Hni].
    + left. split; [done|]. cbn. by rewrite Hpi, Hc.
    + right. cbn [snd switch_to g_current_pid]. split; [|right; word_lia].
      split_and!; try done; try lia; unfold ready in *; cbn; rewrite proc_set_proc by word_lia;
        destruct (Z.eqb_spec ((g_current_pid s + k) mod 16) i); try done; by rewrite Hpi.
Qed.

Lemma waiting_away malloc i n s s' c :
  away malloc i n s s' -> waiting s i c ->
  waiting s' i c /\ (i - g_current_pid s') mod 16 + Z.of_nat n <= (i - g_current_pid s) mod 16.
Proof.
  induction 1 as [s|s o s1 n s2 Hs Hn _ IH]; intros Hw; [split; [done|lia]|].
  destruct (waiting_step _ _ _ _ _ _ Hw Hs) as [[? _]|[Hw1 Hd]]; [done|].
  destruct (IH Hw1) as [Hw2 Hd2]. split; [done|]. destruct Hd as [[-> E]|Hd]; [rewrite E in Hd2|destruct o]; lia.
Qed.

(** C11. Fairness: a READY process is resumed after fewer switches than its
    distance from the current slot, so in any run within fifteen switches,
    whatever other processes do (yield, exit, create processes), and while
    it waits no yield or exit can bring the machine to a halt. *)
Theorem ready_process_resumed malloc i n s s' c :
  waiting s i c -> away malloc i n s s' ->
  (Z.of_nat n < (i - g_current_pid s) mod 16) /\ (n < 15)%nat /\
  forall rsp ursp,
    (exists r s'', process_schedule_on_syscall rsp ursp 1 s' = Ret (r, s'')) /\
    (exists r s'', (process_exit_current;; process_schedule_on_syscall rsp ursp 1) s' = Ret (r, s'')).
Proof.
  intros Hw Ha. destruct (waiting_away _ _ _ _ _ _ Ha Hw) as [Hw' Hd].
  pose proof (waiting_not_current _ _ _ Hw') as Hne. destruct Hw' as (Hinv & Hi & Hrd & _).
  pose proof Hinv as (Hlen & Hcur & _).
  assert (1 <= (i - g_current_pid s') mod 16) by word_lia.
  pose proof (Z.mod_pos_bound (i - g_current_pid s) 16 eq_refl). split_and!; [lia|lia|].
  assert (forall t, left_behind s' t -> exists j, List.find (ready t) (rr_order (g_current_pid s')) = Some j) as Hgo.
  { intros t (_ & _ & L3). destruct (List.find _ _) as [j|] eqn:Ef; [by exists j|]. exfalso.
    pose proof (find_none _ _ Ef i ltac:(apply list_elem_of_In, rr_order_elem; lia)) as Hn.
    unfold ready in *. rewrite L3 in Hn by done. congruence. }
  intros rsp ursp. destruct (Hgo _ (saved_left_behind s' rsp ursp Hinv)) as [j Hj].
  destruct (Hgo _ (dead_left_behind s' Hinv)) as [j' Hj'].
  split; [eexists _, _; rewrite schedule_switch, Hj; [reflexivity|done|done|by left]|].
  eexists _, _. rewrite exit_then_schedule by done. cbn [g_processes put_table]. rewrite Hj'. reflexivity.
Qed.

Lemma ready_process_resumed_witness :
  exists r s'', process_schedule_on_syscall 0x1000 0x2000 1 three_procs = Ret (r, s'').
Proof.
  assert (waiting three_procs 2 (0xA00000, 0xA00078)) as Hw by (split_and!; [exact three_procs_inv|lia|lia|done|done]).
  destruct (ready_process_resumed no_malloc 2 0 three_procs three_procs _ Hw (away_refl _ _ _)) as (_ & _ & H).
  destruct (H 0x1000 0x2000) as [(r & s'' & Hs) _]. exists r, s''. exact Hs.
Defined.

(** C31. The saved stack pointers are kept: however long process [i] waits
    and whatever other processes do in the meantime, the step that resumes
    it returns the pair [saved_rsp], [saved_user_rsp] with which it was
    suspended or created.  This is what the process table holds of it; the
    registers themselves are in memory at [saved_rsp], of which the theorem
    says nothing (SyscallTheorems.v, [yield_returns_other_registers], shows
    that later calls overwrite them). *)
Theorem resumed_with_own_context malloc i n s s1 c o s2 :
  waiting s i c -> away malloc i n s s1 -> proc_step malloc s1 o s2 -> g_current_pid s2 = i ->
  o = Some c.
Proof.
  intros Hw Ha Hs Hc. destruct (waiting_away _ _ _ _ _ _ Ha Hw) as [Hw1 _].
  destruct (waiting_step _ _ _ _ _ _ Hw1 Hs) as [[_ ?]|[Hw2 _]]; [done|].
  by apply waiting_not_current in Hw2.
Qed.

Lemma resumed_with_own_context_witness : exists s2,
  proc_step no_malloc three_procs (Some (0x900000, 0x900078)) s2 /\ g_current_pid s2 = 1 /\
  Some (0x900000, 0x900078) = Some (0x900000, 0x900078).
Proof.
  assert (waiting three_procs 1 (0x900000, 0x900078)) as Hw by (split_and!; [exact three_procs_inv|lia|lia|done|done]).
  destruct (process_schedule_on_syscall 7 8 1 three_procs) as [[r s2]| |] eqn:E; [|discriminate E..].
  pose proof (step_yield no_malloc 7 8 r three_procs s2 E) as Hs. vm_compute in E. injection E as <- <-.
  eexists. split; [exact Hs|]. split; [reflexivity|].
  exact (resumed_with_own_context no_malloc 1 0 three_procs three_procs _ _ _ Hw (away_refl _ _ _) Hs eq_refl).
Defined.

(** ** Process creation, against the allocator interface *)

Lemma ld64_build_frame frame entry m k : 0 <= k < 15 ->
  ld64 (build_frame frame entry m) (frame + 8 * k) =
  if k =? 13 then u64 entry else if k =? 14 then 0x202 else 0.
Proof.
  intros Hk. unfold build_frame, SYSCALL_FRAME_RCX, SYSCALL_FRAME_R11, SYSCALL_FRAME_QWORDS, PROCESS_RFLAGS_DEFAULT.
  destruct (Z.eq_dec k 14) as [->|]; [by rewrite ld64_st64_eq|]. rewrite ld64_st64 by lia.
  destruct (Z.eqb_spec k 13) as [->|]; [by rewrite ld64_st64_eq|]. rewrite ld64_st64 by lia.
  destruct (Z.eqb_spec k 14); [lia|].
  pose (P := fun (j : Z) (m' : mem) => j <= 15 -> forall i, 0 <= i < j -> ld64 m' (frame + 8 * i) = 0).
  assert (P (0 + Z.of_nat (Z.to_nat 15)) (for_up (Z.to_nat 15) 0 (fun i m => st64 m (frame + 8 * i) 0) m)) as H.
  { apply for_up_ind; unfold P; [intros; lia|]. intros j b Hj IH _ i Hi.
    destruct (Z.eq_dec i j) as [->|]; [apply ld64_st64_eq|]. rewrite ld64_st64 by lia. apply IH; lia. }
  apply H; lia.
Qed.

Lemma agree_build_frame frame entry m lo hi :
  hi <= frame \/ frame + 120 <= lo -> agree m (build_frame frame entry m) lo hi.
Proof.
  intros Hd. unfold build_frame, SYSCALL_FRAME_RCX, SYSCALL_FRAME_R11, SYSCALL_FRAME_QWORDS.
  eapply agree_trans; [|apply agree_st64; lia]. eapply agree_trans; [|apply agree_st64; lia].
  apply (for_up_ind (fun _ m' => agree m m' lo hi)); [apply agree_refl|].
  intros j b Hj H. eapply agree_trans; [exact H|]. apply agree_st64. lia.
Qed.

Lemma stack_top_val stack :
  0 <= stack < 18446744073709551616 - PROCESS_STACK_SIZE -> stack mod 8 = 0 -> exists top,
  Z.land (u64 (stack + PROCESS_STACK_SIZE)) (u64 (Z.lnot 0xF)) = top /\
  stack + 16376 <= top <= stack + 16384 /\ top mod 16 = 0.
Proof.
  unfold PROCESS_STACK_SIZE. intros Hs H8. rewrite (u64_small (stack + _)) by lia.
  change (Z.lnot 0xF) with (Z.lnot (Z.ones 4)). rewrite land_u64_lnot_ones by lia. change (2 ^ 4) with 16.
  eexists. split; [reflexivity|]. word_lia.
Qed.

Section Create.
Context (malloc : Z -> M mstate Z) (free : Z -> M mstate unit) (lo hi : Z)
  (ok : mstate -> gmap Z Z -> Prop) {A : Allocator malloc free lo hi ok}.

(** C32. [process_create_user], with any allocator: it always returns.  With
    no entry point, no free slot or no memory it returns -1 and changes
    neither the table nor any live allocation.  Otherwise it takes the first
    slot that is UNUSED or DEAD, owns a fresh stack of at least 16 KiB, and
    the slot is READY with a frame of fifteen quadwords below the 16-byte
    aligned top of that stack: the entry point where [sysret] takes RIP
    from, 0x202 where it takes RFLAGS from, 0 in every other register. *)
Theorem process_create_ok s L entry :
  ok (kmem s) L -> length (g_processes s) = 16%nat -> 0 <= entry < 18446744073709551616 ->
  exists pid s', process_create_user malloc entry s = Ret (pid, s') /\
    kept lo hi L (kmem s) (kmem s') /\ g_current_pid s' = g_current_pid s /\
    ((pid = -1 /\ g_processes s' = g_processes s /\ ok (kmem s') L) \/
     exists stack n top,
       entry <> 0 /\ 0 <= pid < 16 /\ slot_free (g_processes s) pid = true /\
       (forall i, 0 <= i < pid -> slot_free (g_processes s) i = false) /\
       L !! stack = None /\ 16384 <= n /\ ok (kmem s') (<[stack := n]> L) /\
       stack + 16376 <= top <= stack + 16384 /\ top mod 16 = 0 /\
       g_processes s' = set_proc (g_processes s) pid (Process PROCESS_STATE_READY entry (top - 120) top stack) /\
       forall k, 0 <= k < 15 -> ld64 (ram (kmem s')) (top - 120 + 8 * k) =
                               if k =? 13 then entry else if k =? 14 then 0x202 else 0).
Proof using A.
  intros Hok Hlen He. unfold process_create_user.
  destruct (Z.eqb_spec entry 0) as [->|He0].
  { exists (-1), s. split_and!; try done. by left. }
  rewrite bind_gets. destruct (find_free_slot_spec (g_processes s)) as [[-> _]|(Hi & Hf & Hfirst)].
  { eexists (-1), _. split; [reflexivity|]. split_and!; try done. left. split_and!; [done..|].
    by apply (alloc_write (kmem s)). }
  destruct (Z.ltb_spec (find_free_slot (g_processes s)) 0); [lia|].
  destruct (alloc_malloc (kmem s) L PROCESS_STACK_SIZE Hok ltac:(unfold PROCESS_STACK_SIZE; lia))
    as (stack & m1 & Hm & Hk & Hc).
  rewrite (bind_run _ _ s stack (put_mem m1 s)) by (unfold on_mem, zoom; by rewrite Hm).
  destruct Hc as [[-> Hok1]|(Hs0 & HL & n & Hn & Hok1 & Hser)].
  { eexists (-1), _. split; [reflexivity|]. split_and!; [exact Hk|done|].
    left. split_and!; [done..|]. by apply (alloc_write m1). }
  destruct (Z.eqb_spec stack 0); [lia|].
  destruct (alloc_range m1 _ stack n Hok1 (lookup_insert_eq _ _ _)) as (R0 & R1 & R2 & R3 & R4 & R5).
  destruct (stack_top_val stack ltac:(unfold PROCESS_STACK_SIZE in *; lia) R4) as (top & -> & Ht & Ht16).
  unfold PROCESS_STACK_SIZE, SYSCALL_FRAME_QWORDS in *.
  rewrite u64_small by lia. change (top - 15 * 8) with (top - 120).
  assert (forall x, x < stack \/ stack + n <= x -> ld8 (build_frame (top - 120) entry (ram m1)) x = ld8 (ram m1) x) as Hfr.
  { intros x Hx. apply (agree_build_frame _ _ _ x (x + 1)); lia. }
  eexists _, _. split; [reflexivity|]. cbn [kmem put_table put_mem g_current_pid g_processes].
  split_and!; [|done|].
  - destruct Hk as (K1 & K2 & K3 & K4). split_and!; try done. intros x Hx. cbn [ram set_ram].
    rewrite <- K4 by done. apply Hfr. by apply (fresh_apart m1 L).
  - right. exists stack, n, top. split_and!; try done; try lia.
    + by apply (alloc_write_own m1 _ _ stack n); [|apply lookup_insert_eq|..].
    + intros k Hk15. cbn [ram set_ram]. rewrite ld64_build_frame by done. by rewrite u64_small by lia.
Qed.
End Create.

Lemma process_create_ok_witness : exists pid s',
  process_create_user kmalloc 0x400000 (Procs booted (replicate 16 unused_process) (-1)) = Ret (pid, s').
Proof.
  assert (heap_ok 0x180000 booted ∅) as Hok.
  { exists [boot_block]. split; [exact booted_inv|]. split; [vm_compute; reflexivity|reflexivity]. }
  destruct (process_create_ok kmalloc kfree 0x180000 _ (heap_ok 0x180000)
    (Procs booted (replicate 16 unused_process) (-1)) ∅ 0x400000 Hok eq_refl ltac:(lia)) as (pid & s' & H & _).
  exists pid, s'. exact H.
Defined.
