(* ===== verification/Disk.v ===== *)
(** * Port I/O and the ATA disk driver (Kernel/IO/IO_Main.c)

    The devices behind the I/O ports are not code of the kernel.  A bus is a
    parameter: a type of device states with the effect of each access
    ([Ports]).  [disk_read] and [disk_write] drive an ATA drive by polling;
    what they rely on is the class [AtaDrive] of BlockDev.v, the PIO protocol
    as the ATA documents describe it, and what they promise to the file
    system are the classes [BlockReader] and [BlockWriter] there. *)
From S2P Require Import Prelude Machine Serial Memory.

Class Ports (B : Type) := {
  bus_in8 : Z -> B -> Z * B;
  bus_out8 : Z -> Z -> B -> B;
  bus_in16 : Z -> B -> Z * B;
  bus_out16 : Z -> Z -> B -> B;
  bus_in32 : Z -> B -> Z * B;
  bus_out32 : Z -> Z -> B -> B
}.

(** The kernel's memory state and the devices. *)
Record dstate (B : Type) := DState { mach : mstate; bus : B }.
Arguments DState {B} _ _.
Arguments mach {B} _.
Arguments bus {B} _.

Definition ATA_DATA : Z := 0x1F0.
Definition ATA_SECCOUNT : Z := 0x1F2.
Definition ATA_LBA0 : Z := 0x1F3.
Definition ATA_LBA1 : Z := 0x1F4.
Definition ATA_LBA2 : Z := 0x1F5.
Definition ATA_HDDEVSEL : Z := 0x1F6.
Definition ATA_COMMAND : Z := 0x1F7.
Definition ATA_STATUS : Z := 0x1F7.
Definition FAT32_START_LBA : Z := 2048.
Definition ATA_CMD_READ : Z := 0x20.
Definition ATA_CMD_WRITE : Z := 0x30.
Definition ATA_SR_BSY : Z := 0x80.
Definition ATA_SR_DRQ : Z := 0x08.
Definition ATA_SR_ERR : Z := 0x01.

(** At most [p] rounds of a loop body that goes on with a state or stops
    with a result. *)
Fixpoint loop_pos {S R} (p : positive) (body : S -> S + R) (s : S) : S + R :=
  match p with
  | xH => body s
  | xO q => match loop_pos q body s with inl s => loop_pos q body s | r => r end
  | xI q =>
      match body s with
      | inl s => match loop_pos q body s with inl s => loop_pos q body s | r => r end
      | r => r
      end
  end.

Fixpoint loop_nat {S R} (n : nat) (body : S -> S + R) (s : S) : S + R :=
  match n with
  | O => inl s
  | Datatypes.S n' => match body s with inl s => loop_nat n' body s | r => r end
  end.

Section Driver.
Context {B : Type} `{Ports B}.

Definition on_mach {A} (c : M mstate A) : M (dstate B) A :=
  zoom mach (fun m d => DState m (bus d)) c.
Definition inb (port : Z) : M (dstate B) Z := fun d =>
  let '(v, b) := bus_in8 port (bus d) in Ret (u8 v, DState (mach d) b).
Definition inw (port : Z) : M (dstate B) Z := fun d =>
  let '(v, b) := bus_in16 port (bus d) in Ret (u16 v, DState (mach d) b).
Definition inl_port (port : Z) : M (dstate B) Z := fun d =>
  let '(v, b) := bus_in32 port (bus d) in Ret (u32 v, DState (mach d) b).
Definition outb (port val : Z) : M (dstate B) unit :=
  modify (fun d => DState (mach d) (bus_out8 port (u8 val) (bus d))).
Definition outl (port val : Z) : M (dstate B) unit :=
  modify (fun d => DState (mach d) (bus_out32 port (u32 val) (bus d))).

(** [rep outsw]: [count] words from [addr] up. *)
Definition outsw (port : Z) (buf : mem) (addr count : Z) : M (dstate B) unit :=
  modify (fun d => DState (mach d)
    (for_up (Z.to_nat count) 0 (fun i b => bus_out16 port (ld16 buf (addr + 2 * i)) b) (bus d))).

(** A polling loop: the body decrements [timeout] itself, so the rounds
    allowed here are never used up. *)
Definition poll (timeout : positive) (body : Z * B -> Z * B + Z * B) : M (dstate B) Z := fun d =>
  match loop_pos timeout body (Z.pos timeout, bus d) with
  | inl _ => NoFuel
  | inr (r, b) => Ret (r, DState (mach d) b)
  end.

(** [while (cond(inb(ATA_STATUS))) if (--timeout == 0) return false;]: 1 when
    the condition cleared, 0 on the timeout. *)
Definition wait_while (cond : Z -> bool) : M (dstate B) Z :=
  poll 10000000 (fun '(timeout, b) =>
    let '(v, b) := bus_in8 ATA_STATUS b in
    if cond (u8 v) then
      let timeout := timeout - 1 in
      if timeout =? 0 then inr (0, b) else inl (timeout, b)
    else inr (1, b)).

(** The [do ... while] of [disk_read]: 1 for DRQ, 2 for an error, 0 for the
    timeout. *)
Definition wait_drq : M (dstate B) Z :=
  poll 10000000 (fun '(timeout, b) =>
    let '(v, b) := bus_in8 ATA_STATUS b in
    let status := u8 v in
    if negb (Z.land status ATA_SR_ERR =? 0) then inr (2, b)
    else
      let timeout := timeout - 1 in
      if timeout =? 0 then inr (0, b)
      else if negb (Z.land status ATA_SR_DRQ =? 0) then inr (1, b) else inl (timeout, b)).

Definition ata_command (real_lba cmd : Z) : M (dstate B) unit :=
  outb ATA_HDDEVSEL (Z.lor 0xE0 (Z.land (Z.shiftr real_lba 24) 0x0F));;
  outb ATA_SECCOUNT 1;;
  outb ATA_LBA0 (Z.land real_lba 0xFF);;
  outb ATA_LBA1 (Z.land (Z.shiftr real_lba 8) 0xFF);;
  outb ATA_LBA2 (Z.land (Z.shiftr real_lba 16) 0xFF);;
  outb ATA_COMMAND cmd.

Definition busy (status : Z) : bool := negb (Z.land status ATA_SR_BSY =? 0).
Definition no_drq (status : Z) : bool := Z.land status ATA_SR_DRQ =? 0.

(** [for (i = 0; i < 256; i++) ((uint16_t* )buffer)[i] = inw(ATA_DATA);] *)
Fixpoint read_words (n : nat) (i : Z) (addr : Z) (buf : mem) : M (dstate B) mem :=
  match n with
  | O => mret buf
  | S n' => v ← inw ATA_DATA; read_words n' (i + 1) addr (st16 buf (addr + 2 * i) v)
  end.

(** The loop over [s]; [n] sectors are left. *)
Fixpoint disk_read_loop (n : nat) (s lba addr : Z) (buf : mem) : M (dstate B) (bool * mem) :=
  match n with
  | O => mret (true, buf)
  | S n' =>
      let real_lba := u32 (FAT32_START_LBA + lba + s) in
      ata_command real_lba ATA_CMD_READ;;
      r ← wait_while busy;
      if r =? 0 then
        on_mach (say [line "[OS] [IO] Timeout waiting for BSY clear"]);; mret (false, buf)
      else
        r ← wait_drq;
        if r =? 2 then on_mach (say [line "[OS] [IO] Disk error detected"]);; mret (false, buf)
        else if r =? 0 then on_mach (say [line "[OS] [IO] Timeout waiting for DRQ"]);; mret (false, buf)
        else
          buf ← read_words 256 0 addr buf;
          disk_read_loop n' (s + 1) lba (addr + 512) buf
  end.

(** [buf] is the memory [buffer] points into, [addr] the pointer. *)
Definition disk_read (lba addr sectors : Z) (buf : mem) : M (dstate B) (bool * mem) :=
  if sectors =? 0 then mret (false, buf)
  else disk_read_loop (Z.to_nat sectors) 0 lba addr buf.

Fixpoint disk_write_loop (n : nat) (s lba addr : Z) (buf : mem) : M (dstate B) bool :=
  match n with
  | O => mret true
  | S n' =>
      let real_lba := u32 (FAT32_START_LBA + lba + s) in
      ata_command real_lba ATA_CMD_WRITE;;
      r ← wait_while busy;
      if r =? 0 then mret false
      else
        r ← wait_while no_drq;
        if r =? 0 then mret false
        else
          outsw ATA_DATA buf addr 256;;
          disk_write_loop n' (s + 1) lba (addr + 512) buf
  end.

Definition disk_write (lba addr sectors : Z) (buf : mem) : M (dstate B) bool :=
  if sectors =? 0 then mret false
  else disk_write_loop (Z.to_nat sectors) 0 lba addr buf.
End Driver.
