(* ===== verification/BlockDev.v ===== *)
(** * Block device interface, and the ATA driver as an implementation

    [BlockReader] and [BlockWriter] are what the file system is verified
    against; [AtaDrive] is the documented behaviour of a drive in PIO mode,
    under which [disk_read] of IO_Main.c implements the first.  After the
    last word of a write the drive is busy with the sector; [disk_write]
    does not wait for that, so the second needs a drive that has finished
    before the driver's next access ([PromptDrive]).  A simulated drive at
    the end satisfies the assumptions. *)
From S2P Require Import Prelude Machine Serial Memory Disk.

(** Disk contents: the 512 bytes of each readable sector. *)
Abbreviation contents := (gmap Z (list Z)).
Definition sectors_ok (f : contents) : Prop :=
  forall lba l, f !! lba = Some l -> length l = 512%nat /\ byte_list l.

(** Sectors the driver can address: 28 bits, less the partition's start. *)
Definition LBA_LIMIT : Z := 268435456 - 2048.

Definition readable (f : contents) (lba n : Z) : Prop := forall i, 0 <= i < n -> is_Some (f !! (lba + i)).

Class BlockReader (B : Type) (rd : Z -> Z -> Z -> mem -> M (dstate B) (bool * mem)) (ok : B -> contents -> Prop) : Prop := {
  bd_sectors b f : ok b f -> sectors_ok f;
  (** A read succeeds when every sector is readable and then puts them into
      the buffer; it never touches another byte. *)
  bd_read m b f lba addr n buf :
    ok b f -> 0 <= lba -> 0 < n -> lba + n <= LBA_LIMIT ->
    exists r buf' es b', rd lba addr n buf (DState m b) = Ret ((r, buf'), DState (add_serial es m) b') /\
      ok b' f /\ (forall x, x < addr \/ addr + 512 * n <= x -> ld8 buf' x = ld8 buf x) /\
      (r = true <-> readable f lba n) /\
      (r = true -> es = [] /\ forall i, 0 <= i < n -> f !! (lba + i) = Some (bytes buf' (addr + 512 * i) 512))
}.

Class BlockWriter (B : Type) (wr : Z -> Z -> Z -> mem -> M (dstate B) bool) (ok : B -> contents -> Prop) : Prop := {
  (** A write of one sector succeeds when the sector exists and stores the
      buffer there. *)
  bd_write m b f lba addr buf :
    ok b f -> 0 <= lba < LBA_LIMIT ->
    exists r b', wr lba addr 1 buf (DState m b) = Ret (r, DState m b') /\
      ok b' (if r then <[lba := bytes buf addr 512]> f else f) /\ (r = true <-> is_Some (f !! lba))
}.

(** ** The PIO protocol of a drive *)

Definition issue {B} `{Ports B} (lba cmd : Z) (b : B) : B :=
  bus_out8 ATA_COMMAND cmd (bus_out8 ATA_LBA2 (lba / 65536 mod 256) (bus_out8 ATA_LBA1 (lba / 256 mod 256)
    (bus_out8 ATA_LBA0 (lba mod 256) (bus_out8 ATA_SECCOUNT 1 (bus_out8 ATA_HDDEVSEL (224 + lba / 16777216) b))))).

Class AtaDrive (B : Type) `{Ports B} := {
  (** Ready for a command. *)
  ata_idle : B -> contents -> Prop;
  (** A command is under way; [n] more polls will see BSY. *)
  ata_pending : B -> contents -> Z -> Z -> nat -> Prop;
  (** Bytes left to be read from, or taken so far by, the data port. *)
  ata_sending : B -> contents -> list Z -> Prop;
  ata_taking : B -> contents -> Z -> list Z -> Prop;
  (** The drive has a whole sector and is busy writing it; [n] more polls
      will see BSY. *)
  ata_writing : B -> contents -> nat -> Prop;
  ata_contents b f : ata_idle b f -> sectors_ok f;
  ata_issue b f lba cmd :
    ata_idle b f -> 0 <= lba < 268435456 -> cmd = ATA_CMD_READ \/ cmd = ATA_CMD_WRITE ->
    exists n, (Z.of_nat n < 9999999) /\ ata_pending (issue lba cmd b) f cmd lba n;
  ata_busy b f cmd lba n :
    ata_pending b f cmd lba (S n) ->
    exists v b', bus_in8 ATA_STATUS b = (v, b') /\ 0 <= v < 256 /\ Z.testbit v 7 = true /\ ata_pending b' f cmd lba n;
  (** Done waiting: DRQ when the sector exists, ERR when it does not. *)
  ata_ready b f cmd lba :
    ata_pending b f cmd lba 0 ->
    exists v b', bus_in8 ATA_STATUS b = (v, b') /\ 0 <= v < 256 /\ Z.testbit v 7 = false /\
      Z.testbit v 3 = bool_decide (is_Some (f !! lba)) /\ Z.testbit v 0 = bool_decide (f !! lba = None) /\
      ata_pending b' f cmd lba 0;
  ata_error b f cmd lba : ata_pending b f cmd lba 0 -> f !! lba = None -> ata_idle b f;
  ata_read_start b f lba l : ata_pending b f ATA_CMD_READ lba 0 -> f !! lba = Some l -> ata_sending b f l;
  ata_in16 b f x y l : ata_sending b f (x :: y :: l) ->
    exists b', bus_in16 ATA_DATA b = (x + 256 * y, b') /\ ata_sending b' f l;
  ata_read_end b f : ata_sending b f [] -> ata_idle b f;
  ata_write_start b f lba : ata_pending b f ATA_CMD_WRITE lba 0 -> is_Some (f !! lba) -> ata_taking b f lba [];
  ata_out16 b f lba l w : ata_taking b f lba l -> (length l < 512)%nat -> 0 <= w < 65536 ->
    ata_taking (bus_out16 ATA_DATA w b) f lba (l ++ [w mod 256; w / 256]);
  ata_write_end b f lba l : ata_taking b f lba l -> length l = 512%nat ->
    exists n, (Z.of_nat n < 9999999) /\ ata_writing b (<[lba := l]> f) n;
  ata_write_busy b f n : ata_writing b f (S n) ->
    exists v b', bus_in8 ATA_STATUS b = (v, b') /\ 0 <= v < 256 /\ Z.testbit v 7 = true /\ ata_writing b' f n;
  ata_write_done b f : ata_writing b f 0 -> ata_idle b f
}.

(** A drive that has taken a written sector, to its cache if need be, by the
    time of the next port access, so that BSY is never seen after it. *)
Class PromptDrive (B : Type) `{AtaDrive B} : Prop := { prompt_write b f n : ata_writing b f n -> n = O }.

(** ** Bounded polling *)

Lemma loop_nat_add {S R} n k (body : S -> S + R) s :
  loop_nat (n + k) body s = match loop_nat n body s with inl s => loop_nat k body s | r => r end.
Proof.
  revert s; induction n as [|n IH]; intros s; cbn [loop_nat Nat.add]; [reflexivity|].
  destruct (body s); [apply IH|reflexivity].
Qed.

Lemma loop_pos_nat {S R} p (body : S -> S + R) s : loop_pos p body s = loop_nat (Pos.to_nat p) body s.
Proof.
  revert s; induction p as [p IH|p IH|]; intros s; cbn [loop_pos].
  - rewrite Pos2Nat.inj_xI. cbn [loop_nat]. destruct (body s) as [s1|]; [|reflexivity].
    replace (2 * Pos.to_nat p)%nat with (Pos.to_nat p + Pos.to_nat p)%nat by lia.
    rewrite loop_nat_add, IH. destruct (loop_nat _ _ _); [apply IH|reflexivity].
  - rewrite Pos2Nat.inj_xO. replace (2 * Pos.to_nat p)%nat with (Pos.to_nat p + Pos.to_nat p)%nat by lia.
    rewrite loop_nat_add, IH. destruct (loop_nat _ _ _); [apply IH|reflexivity].
  - change (Pos.to_nat 1) with 1%nat. cbn [loop_nat]. destruct (body s); reflexivity.
Qed.

Section Driver.
Context {B : Type} {P : Ports B} {AD : AtaDrive B}.
Implicit Types (b : B) (f : contents) (m : mstate).

Lemma poll_val p body m b :
  poll p body (DState m b) =
  match loop_nat (Pos.to_nat p) body (Z.pos p, b) with
  | inl _ => NoFuel
  | inr (r, b) => Ret (r, DState m b)
  end.
Proof. unfold poll. by rewrite loop_pos_nat. Qed.

Lemma busy_bit v : busy v = Z.testbit v 7.
Proof. unfold busy, ATA_SR_BSY. change 0x80 with (2 ^ 7). rewrite land_pow2_bit by lia. apply negb_involutive. Qed.
Lemma no_drq_bit v : no_drq v = negb (Z.testbit v 3).
Proof. unfold no_drq, ATA_SR_DRQ. change 0x08 with (2 ^ 3). by rewrite land_pow2_bit by lia. Qed.

(** Waiting for BSY to clear. *)
Lemma wait_busy m b f cmd lba n :
  ata_pending b f cmd lba n -> Z.of_nat n < 9999999 ->
  exists b', wait_while busy (DState m b) = Ret (1, DState m b') /\ ata_pending b' f cmd lba 0.
Proof.
  intros Hp Hn. unfold wait_while. rewrite poll_val.
  assert (forall n t fuel b, ata_pending b f cmd lba n -> Z.of_nat n + 1 < t -> (n < fuel)%nat ->
    exists b', loop_nat fuel (fun '(timeout, b) => let '(v, b0) := bus_in8 ATA_STATUS b in
      if busy (u8 v) then if timeout - 1 =? 0 then inr (0, b0) else inl (timeout - 1, b0) else inr (1, b0)) (t, b)
    = inr (1, b') /\ ata_pending b' f cmd lba 0) as Hgo.
  { clear. induction n as [|n IH]; intros t fuel b Hp Ht Hf; (destruct fuel as [|fuel]; [lia|]); cbn [loop_nat].
    - destruct (ata_ready _ _ _ _ Hp) as (v & b' & -> & Hv & H7 & _ & _ & Hp'). rewrite u8_small, busy_bit, H7 by lia. eauto.
    - destruct (ata_busy _ _ _ _ _ Hp) as (v & b' & -> & Hv & H7 & Hp'). rewrite u8_small, busy_bit, H7 by lia.
      destruct (Z.eqb_spec (t - 1) 0); [lia|]. apply IH; [assumption|lia|lia]. }
  destruct (Hgo n (Z.pos 10000000) (Pos.to_nat 10000000) b Hp) as (b' & E & Hp'); [lia|lia|].
  cbn zeta. rewrite E. eauto.
Qed.

Lemma wait_data m b f cmd lba :
  ata_pending b f cmd lba 0 ->
  exists b', wait_drq (DState m b) = Ret (match f !! lba with Some _ => 1 | None => 2 end, DState m b') /\ ata_pending b' f cmd lba 0.
Proof.
  intros Hp. unfold wait_drq. rewrite poll_val. destruct (ata_ready _ _ _ _ Hp) as (v & b' & E & Hv & _ & H3 & H0 & Hp').
  exists b'. split; [|assumption]. replace (Pos.to_nat 10000000) with (S (Pos.to_nat 9999999)) by lia.
  cbn [loop_nat]. rewrite E, u8_small by lia. unfold ATA_SR_ERR, ATA_SR_DRQ.
  change 0x01 with (2 ^ 0). change 0x08 with (2 ^ 3). rewrite !land_pow2_bit, !negb_involutive, H0, H3 by lia.
  destruct (f !! lba); reflexivity.
Qed.

(** Waiting for DRQ on a write: at once, or never. *)
Lemma wait_take m b f cmd lba :
  ata_pending b f cmd lba 0 ->
  exists b', wait_while no_drq (DState m b) = Ret (match f !! lba with Some _ => 1 | None => 0 end, DState m b') /\ ata_pending b' f cmd lba 0.
Proof.
  intros Hp. unfold wait_while. rewrite poll_val.
  assert (forall fuel b, ata_pending b f cmd lba 0 -> (0 < fuel)%nat ->
    exists b', loop_nat fuel (fun '(timeout, b) => let '(v, b0) := bus_in8 ATA_STATUS b in
      if no_drq (u8 v) then if timeout - 1 =? 0 then inr (0, b0) else inl (timeout - 1, b0) else inr (1, b0)) (Z.of_nat fuel, b)
    = inr (match f !! lba with Some _ => 1 | None => 0 end, b') /\ ata_pending b' f cmd lba 0) as Hgo.
  { clear. induction fuel as [|fuel IH]; intros b Hp Hf; [lia|]. cbn [loop_nat].
    destruct (ata_ready _ _ _ _ Hp) as (v & b' & -> & Hv & _ & H3 & _ & Hp'). rewrite u8_small, no_drq_bit, H3 by lia.
    destruct (f !! lba) as [l|]; cbn; [eauto|]. destruct (Z.eqb_spec (Z.of_nat (S fuel) - 1) 0); [eauto|].
    replace (Z.of_nat (S fuel) - 1) with (Z.of_nat fuel) by lia. apply IH; [assumption|lia]. }
  destruct (Hgo (Pos.to_nat 10000000) b Hp ltac:(lia)) as (b' & E & Hp').
  rewrite positive_nat_Z in E. cbn zeta. rewrite E. eauto.
Qed.

Lemma lor_nibble x : 0 <= x < 16 -> Z.lor 0xE0 (Z.land x 0x0F) = 224 + x.
Proof.
  intros Hx. change 0x0F with (Z.ones 4). rewrite Z.land_ones, Z.mod_small by lia.
  assert (exists n, x = Z.of_nat n /\ (n < 16)%nat) as (n & -> & Hn) by (exists (Z.to_nat x); lia).
  do 16 (destruct n as [|n]; [reflexivity|]). lia.
Qed.

Lemma ata_command_run m b lba cmd :
  0 <= lba < 268435456 -> 0 <= cmd < 256 ->
  ata_command lba cmd (DState m b) = Ret (tt, DState m (issue lba cmd b)).
Proof.
  intros Hl Hc. unfold ata_command, outb, issue. rewrite !bind_modify. unfold modify. cbn [mach bus].
  change 0xFF with (Z.ones 8). rewrite !Z.land_ones, !Z.shiftr_div_pow2 by lia.
  change (2 ^ 24) with 16777216. change (2 ^ 16) with 65536. change (2 ^ 8) with 256.
  rewrite lor_nibble by word_lia. rewrite !u8_small by word_lia. reflexivity.
Qed.

Lemma ld8_st16 buf a v x :
  ld8 (st16 buf a v) x = if x =? a then u8 v else if x =? a + 1 then u8 (v / 256) else ld8 buf x.
Proof.
  unfold st16. cbn [stn]. rewrite !ld8_st8. zcases; try lia; reflexivity.
Qed.

Lemma read_words_run n i addr buf m b f l :
  ata_sending b f l -> length l = (2 * n)%nat -> byte_list l -> 
  exists buf' b', read_words n i addr buf (DState m b) = Ret (buf', DState m b') /\ ata_sending b' f [] /\
    bytes buf' (addr + 2 * i) (2 * Z.of_nat n) = l /\
    forall x, x < addr + 2 * i \/ addr + 2 * i + 2 * Z.of_nat n <= x -> ld8 buf' x = ld8 buf x.
Proof.
  revert i buf b l; induction n as [|n IH]; intros i buf b l Hs Hl Hb.
  { destruct l; [|discriminate]. exists buf, b. split_and!; [done..|reflexivity|done]. }
  destruct l as [|x [|y l]]; try (cbn in Hl; lia). cbn [read_words].
  destruct (ata_in16 _ _ _ _ _ Hs) as (b1 & E & Hs1). unfold inw. erewrite bind_run; [|cbn [bus]; rewrite E; reflexivity].
  inversion_clear Hb as [|? ? Hx Hb1]. inversion_clear Hb1 as [|? ? Hy Hb2]. cbn [mach].
  rewrite u16_small by lia.
  destruct (IH (i + 1) (st16 buf (addr + 2 * i) (x + 256 * y)) b1 l Hs1 ltac:(cbn in Hl; lia) Hb2) as (buf' & b' & Hr & Hs' & Hbs & Hout).
  exists buf', b'. split_and!; [exact Hr|exact Hs'| |].
  - replace (2 * Z.of_nat (S n)) with (1 + (1 + 2 * Z.of_nat n)) by lia. rewrite !bytes_app by lia.
    replace (addr + 2 * i + 1 + 1) with (addr + 2 * (i + 1)) by lia. rewrite Hbs.
    unfold bytes. change (seqZ 0 1) with [0]. cbn [fmap list_fmap app]. rewrite !Z.add_0_r.
    rewrite !Hout, !ld8_st16 by lia. zcases; try lia. unfold u8. f_equal; [|f_equal]; word_lia.
  - intros z Hz. rewrite Hout, ld8_st16 by lia. zcases; try lia; reflexivity.
Qed.

Lemma ld16_bytes buf a : bytes buf a 2 = [ld16 buf a mod 256; ld16 buf a / 256] /\ 0 <= ld16 buf a < 65536.
Proof.
  pose proof (ldn_range 2 buf a) as Hr. change (256 ^ Z.of_nat 2) with 65536 in Hr. split; [|exact Hr].
  unfold bytes. change (seqZ 0 2) with [0; 1]. cbn [fmap list_fmap]. unfold ld16. cbn [ldn]. rewrite Z.add_0_r.
  pose proof (ld8_range buf a). pose proof (ld8_range buf (a + 1)). f_equal; [|f_equal]; word_lia.
Qed.

Lemma outsw_run n i addr buf b f lba l :
  ata_taking b f lba l -> (length l + 2 * n <= 512)%nat ->
  ata_taking (for_up n i (fun i b => bus_out16 ATA_DATA (ld16 buf (addr + 2 * i)) b) b) f lba
    (l ++ bytes buf (addr + 2 * i) (2 * Z.of_nat n)).
Proof.
  revert i b l; induction n as [|n IH]; intros i b l Ht Hl; cbn [for_up].
  { change (bytes buf (addr + 2 * i) (2 * Z.of_nat 0)) with (@nil Z). by rewrite app_nil_r. }
  destruct (ld16_bytes buf (addr + 2 * i)) as [Hb Hr]. pose proof (ata_out16 _ _ _ _ _ Ht ltac:(lia) Hr) as Ht1.
  rewrite <- Hb in Ht1. specialize (IH (i + 1) _ _ Ht1). rewrite length_app, length_bytes in IH.
  replace (2 * Z.of_nat (S n)) with (2 + 2 * Z.of_nat n) by lia. rewrite bytes_app by lia.
  rewrite app_assoc. replace (addr + 2 * i + 2) with (addr + 2 * (i + 1)) by lia. apply IH. lia.
Qed.

(** One sector of [disk_read]: the command, the waits, the transfer. *)
Lemma read_sector m b g lba s addr buf n :
  ata_idle b g -> 0 <= lba + s < LBA_LIMIT ->
  match g !! (FAT32_START_LBA + lba + s) with
  | None => exists b', ata_idle b' g /\ disk_read_loop (S n) s lba addr buf (DState m b) =
      Ret ((false, buf), DState (add_serial [line "[OS] [IO] Disk error detected"] m) b')
  | Some l => exists buf' b', ata_idle b' g /\
      disk_read_loop (S n) s lba addr buf (DState m b) = disk_read_loop n (s + 1) lba (addr + 512) buf' (DState m b') /\
      bytes buf' addr 512 = l /\ forall x, x < addr \/ addr + 512 <= x -> ld8 buf' x = ld8 buf x
  end.
Proof.
  intros Hi Hr. unfold LBA_LIMIT, FAT32_START_LBA in *. cbn [disk_read_loop].
  rewrite u32_small by (unfold FAT32_START_LBA; lia). unfold FAT32_START_LBA.
  erewrite bind_run; [|apply ata_command_run; unfold ATA_CMD_READ; lia].
  destruct (ata_issue b g (2048 + lba + s) ATA_CMD_READ Hi ltac:(lia) (or_introl eq_refl)) as (k & Hk & Hp).
  destruct (wait_busy m _ _ _ _ _ Hp Hk) as (b1 & E1 & Hp1). erewrite bind_run; [|exact E1].
  destruct (wait_data m _ _ _ _ Hp1) as (b2 & E2 & Hp2). cbn [Z.eqb]. erewrite bind_run; [|exact E2].
  destruct (g !! (2048 + lba + s)) as [l|] eqn:El.
  - destruct (ata_contents _ _ Hi _ _ El) as [Hl Hb]. pose proof (ata_read_start _ _ _ _ Hp2 El) as Hs.
    destruct (read_words_run 256 0 addr buf m b2 g l Hs Hl Hb) as (buf' & b3 & E3 & Hs3 & Hbs & Hout).
    cbn [Z.eqb Pos.eqb]. erewrite bind_run; [|exact E3]. exists buf', b3. rewrite Z.mul_0_r, Z.add_0_r in *.
    split_and!; [by apply ata_read_end|reflexivity|exact Hbs|intros; apply Hout; lia].
  - exists b2. split; [by apply (ata_error b2 g _ _ Hp2)|]. reflexivity.
Qed.

Lemma disk_read_loop_run n m b g lba s addr buf :
  ata_idle b g -> 0 <= lba + s -> lba + s + Z.of_nat n <= LBA_LIMIT ->
  exists r buf' es b', disk_read_loop n s lba addr buf (DState m b) = Ret ((r, buf'), DState (add_serial es m) b') /\
    ata_idle b' g /\ (forall x, x < addr \/ addr + 512 * Z.of_nat n <= x -> ld8 buf' x = ld8 buf x) /\
    (r = true <-> forall i, 0 <= i < Z.of_nat n -> is_Some (g !! (FAT32_START_LBA + lba + (s + i)))) /\
    (r = true -> es = [] /\ forall i, 0 <= i < Z.of_nat n ->
       g !! (FAT32_START_LBA + lba + (s + i)) = Some (bytes buf' (addr + 512 * i) 512)).
Proof.
  revert b s addr buf; induction n as [|n IH]; intros b s addr buf Hi H0 Hlim.
  { exists true, buf, [], b. rewrite add_serial_nil. split_and!; try done; try (intros; lia).
    - split; [intros _ i ?; lia|done]. - intros _. split; [done|intros; lia]. }
  pose proof (read_sector m b g lba s addr buf n Hi ltac:(lia)) as Hs.
  destruct (g !! (FAT32_START_LBA + lba + s)) as [l|] eqn:El.
  - destruct Hs as (buf1 & b1 & Hi1 & -> & Hl & Hout).
    destruct (IH b1 (s + 1) (addr + 512) buf1 Hi1 ltac:(lia) ltac:(lia)) as (r & buf' & es & b' & -> & Hi' & Hout' & Hr & Hd).
    exists r, buf', es, b'. split_and!; [done|done| | |].
    + intros x Hx. rewrite Hout', Hout by lia. done.
    + rewrite Hr. split; intros Hall i Hir.
      * destruct (Z.eq_dec i 0) as [->|]; [rewrite Z.add_0_r, El; eauto|].
        replace (s + i) with (s + 1 + (i - 1)) by lia. apply Hall. lia.
      * replace (s + 1 + i) with (s + (1 + i)) by lia. apply Hall. lia.
    + intros Ht. destruct (Hd Ht) as [-> Hdata]. split; [done|]. intros i Hir.
      destruct (Z.eq_dec i 0) as [->|].
      * rewrite Z.add_0_r, El. f_equal. rewrite Z.mul_0_r, Z.add_0_r, <- Hl. symmetry.
        apply bytes_eq. intros j Hj. apply Hout'. lia.
      * replace (s + i) with (s + 1 + (i - 1)) by lia. rewrite Hdata by lia. f_equal. f_equal. lia.
  - destruct Hs as (b' & Hi' & ->). eexists false, buf, _, b'. split_and!; [done|done|done| |done].
    split; [done|]. intros Hall. specialize (Hall 0 ltac:(lia)). rewrite Z.add_0_r, El in Hall. by destruct Hall.
Qed.

(** The partition as the file system sees it, on a drive that is ready and
    on one that is busy with a sector. *)
Definition partition (f g : contents) : Prop :=
  forall lba, f !! lba = if (0 <=? lba) && (lba <? LBA_LIMIT) then g !! (lba + 2048) else None.
Definition ata_disk (b : B) (f : contents) : Prop := exists g, ata_idle b g /\ partition f g.
Definition ata_flushing (b : B) (f : contents) (n : nat) : Prop := exists g, ata_writing b g n /\ partition f g.

Lemma ata_disk_in f (g : contents) lba i n :
  partition f g -> 0 <= lba -> lba + n <= LBA_LIMIT -> 0 <= i < n -> f !! (lba + i) = g !! (FAT32_START_LBA + lba + (0 + i)).
Proof.
  intros Hf H0 Hlim Hi. rewrite Hf. replace (FAT32_START_LBA + lba + (0 + i)) with (lba + i + 2048) by (unfold FAT32_START_LBA; lia).
  zcases; (reflexivity || lia).
Qed.

Lemma ata_read_ok m b f lba addr n buf :
  ata_disk b f -> 0 <= lba -> 0 < n -> lba + n <= LBA_LIMIT ->
  exists r buf' es b', disk_read lba addr n buf (DState m b) = Ret ((r, buf'), DState (add_serial es m) b') /\
    ata_disk b' f /\ (forall x, x < addr \/ addr + 512 * n <= x -> ld8 buf' x = ld8 buf x) /\
    (r = true <-> readable f lba n) /\
    (r = true -> es = [] /\ forall i, 0 <= i < n -> f !! (lba + i) = Some (bytes buf' (addr + 512 * i) 512)).
Proof.
  intros (g & Hi & Hf) H0 Hn Hlim. unfold disk_read. destruct (Z.eqb_spec n 0); [lia|].
  destruct (disk_read_loop_run (Z.to_nat n) m b g lba 0 addr buf Hi ltac:(lia) ltac:(lia)) as (r & buf' & es & b' & -> & Hi' & Hout & Hr & Hd).
  rewrite Z2Nat.id in * by lia. exists r, buf', es, b'. split_and!; [done|by exists g|done| |].
  - rewrite Hr. unfold readable. split; intros Hall i Hir; specialize (Hall i Hir);
      by rewrite (ata_disk_in f g lba i n Hf) in * by lia.
  - intros Ht. destruct (Hd Ht) as [-> Hdata]. split; [done|]. intros i Hir.
    rewrite (ata_disk_in f g lba i n Hf) by lia. by apply Hdata.
Qed.

Lemma partition_insert f g lba l : partition f g -> 0 <= lba < LBA_LIMIT -> partition (<[lba := l]> f) (<[2048 + lba + 0 := l]> g).
Proof using Type.
  intros Hf Hr x. destruct (Z.eq_dec x lba) as [->|].
  - rewrite lookup_insert_eq. replace (lba + 2048) with (2048 + lba + 0) by lia. rewrite lookup_insert_eq. zcases; (reflexivity || lia).
  - rewrite lookup_insert_ne, Hf by done. zcases; try reflexivity. by rewrite lookup_insert_ne by lia.
Qed.

(** What [disk_write] leaves: a drive that is writing the sector. *)
Lemma ata_write_run m b f lba addr buf :
  ata_disk b f -> 0 <= lba < LBA_LIMIT ->
  exists r b', disk_write lba addr 1 buf (DState m b) = Ret (r, DState m b') /\ (r = true <-> is_Some (f !! lba)) /\
    if r then exists n, Z.of_nat n < 9999999 /\ ata_flushing b' (<[lba := bytes buf addr 512]> f) n else ata_disk b' f.
Proof using Type.
  intros (g & Hi & Hf) Hr. unfold disk_write. cbn [Z.eqb]. change (Z.to_nat 1) with 1%nat. cbn [disk_write_loop].
  unfold FAT32_START_LBA in *. pose proof Hr as Hr2. unfold LBA_LIMIT in Hr2. rewrite u32_small by lia.
  erewrite bind_run; [|apply ata_command_run; unfold ATA_CMD_WRITE; lia].
  destruct (ata_issue b g (2048 + lba + 0) ATA_CMD_WRITE Hi ltac:(lia) (or_intror eq_refl)) as (k & Hk & Hp).
  destruct (wait_busy m _ _ _ _ _ Hp Hk) as (b1 & E1 & Hp1). erewrite bind_run; [|exact E1]. cbn [Z.eqb].
  destruct (wait_take m _ _ _ _ Hp1) as (b2 & E2 & Hp2). erewrite bind_run; [|exact E2].
  assert (f !! lba = g !! (2048 + lba + 0)) as Hl.
  { rewrite Hf. replace (2048 + lba + 0) with (lba + 2048) by lia. zcases; (reflexivity || lia). }
  destruct (g !! (2048 + lba + 0)) as [l|] eqn:El; cbn [Z.eqb].
  - pose proof (ata_write_start _ _ _ Hp2 ltac:(rewrite El; eauto)) as Ht.
    apply (outsw_run 256 0 addr buf) in Ht; [|cbn; lia]. rewrite app_nil_l, Z.mul_0_r, (Z.add_0_r addr) in Ht.
    change (2 * Z.of_nat 256) with 512 in Ht. apply ata_write_end in Ht as (n & Hn & Ht); [|apply length_bytes].
    eexists true, _. split; [reflexivity|]. split; [split; [rewrite Hl; eauto|done]|]. exists n. split; [exact Hn|].
    eexists. split; [exact Ht|]. by apply partition_insert.
  - exists false, b2. split; [reflexivity|]. split; [split; [done|rewrite Hl; by intros [? ?]]|].
    exists g. split; [by apply (ata_error b2 g _ _ Hp2)|exact Hf].
Qed.

#[export] Instance ata_reader : BlockReader B disk_read ata_disk.
Proof using Type.
  split; [|exact ata_read_ok].
  intros b f (g & Hi & Hf) lba l Hl. rewrite Hf in Hl. destruct (_ && _); [|done]. exact (ata_contents b g Hi _ _ Hl).
Qed.

#[export] Instance ata_writer {PD : PromptDrive B} : BlockWriter B disk_write ata_disk.
Proof using Type.
  split. intros m b f lba addr buf Hd Hl. destruct (ata_write_run m b f lba addr buf Hd Hl) as (r & b' & E & Hr & Hb).
  exists r, b'. split; [exact E|]. split; [|exact Hr]. destruct r; [|exact Hb]. destruct Hb as (n & _ & g & Hw & Hf).
  rewrite (prompt_write _ _ _ Hw) in Hw. exists g. split; [by apply ata_write_done|exact Hf].
Qed.
End Driver.

(** ** A simulated drive

    The assumption [AtaDrive] can hold: a drive that is busy for one poll
    after each command, then transfers the sector word by word.  Nothing is
    on its PCI bus, which reads all ones. *)

Inductive sim_mode :=
| SimIdle
| SimBusy (cmd lba : Z)
| SimSend (l : list Z)
| SimTake (lba : Z) (l : list Z)
| SimError.

Record sim := Sim { sim_disk : contents; r_sel : Z; r_lba0 : Z; r_lba1 : Z; r_lba2 : Z; sim_state : sim_mode }.

Definition sim_mode_set (s : sim) (st : sim_mode) : sim :=
  Sim (sim_disk s) (r_sel s) (r_lba0 s) (r_lba1 s) (r_lba2 s) st.

Definition sim_start (s : sim) (cmd lba : Z) : sim_mode :=
  match sim_disk s !! lba with
  | None => SimError
  | Some l => if cmd =? ATA_CMD_READ then SimSend l else SimTake lba []
  end.

Definition sim_in8 (port : Z) (s : sim) : Z * sim :=
  if negb (port =? ATA_STATUS) then (0, s)
  else match sim_state s with
       | SimBusy cmd lba => (0x80, sim_mode_set s (sim_start s cmd lba))
       | SimSend _ | SimTake _ _ => (0x48, s)
       | SimError => (0x41, s)
       | SimIdle => (0x40, s)
       end.

Definition sim_out8 (port v : Z) (s : sim) : sim :=
  if port =? ATA_HDDEVSEL then Sim (sim_disk s) v (r_lba0 s) (r_lba1 s) (r_lba2 s) (sim_state s)
  else if port =? ATA_LBA0 then Sim (sim_disk s) (r_sel s) v (r_lba1 s) (r_lba2 s) (sim_state s)
  else if port =? ATA_LBA1 then Sim (sim_disk s) (r_sel s) (r_lba0 s) v (r_lba2 s) (sim_state s)
  else if port =? ATA_LBA2 then Sim (sim_disk s) (r_sel s) (r_lba0 s) (r_lba1 s) v (sim_state s)
  else if port =? ATA_COMMAND then
    sim_mode_set s (SimBusy v (r_lba0 s + 256 * r_lba1 s + 65536 * r_lba2 s + 16777216 * (r_sel s - 224)))
  else s.

Definition sim_in16 (port : Z) (s : sim) : Z * sim :=
  match sim_state s with
  | SimSend (x :: y :: l) => (x + 256 * y, sim_mode_set s (SimSend l))
  | _ => (0, s)
  end.

Definition sim_out16 (port w : Z) (s : sim) : sim :=
  match sim_state s with
  | SimTake lba l =>
      let l := l ++ [w mod 256; w / 256] in
      if Nat.ltb (length l) 512 then sim_mode_set s (SimTake lba l)
      else Sim (<[lba := l]> (sim_disk s)) (r_sel s) (r_lba0 s) (r_lba1 s) (r_lba2 s) SimIdle
  | _ => s
  end.

#[export] Instance sim_ports : Ports sim :=
  Build_Ports sim sim_in8 sim_out8 sim_in16 sim_out16 (fun _ s => (0xFFFFFFFF, s)) (fun _ _ s => s).

Definition sim_idle (s : sim) (f : contents) : Prop := sim_disk s = f /\ sectors_ok f.
Definition sim_pending (s : sim) (f : contents) (cmd lba : Z) (n : nat) : Prop :=
  sim_idle s f /\ (cmd = ATA_CMD_READ \/ cmd = ATA_CMD_WRITE) /\
  match n with
  | O => sim_state s = sim_start s cmd lba
  | S O => sim_state s = SimBusy cmd lba
  | _ => False
  end.
Definition sim_sending (s : sim) (f : contents) (l : list Z) : Prop := sim_idle s f /\ sim_state s = SimSend l.
Definition sim_taking (s : sim) (f : contents) (lba : Z) (l : list Z) : Prop :=
  byte_list l /\ Nat.Even (length l) /\ sectors_ok f /\
  (((length l < 512)%nat /\ sim_disk s = f /\ sim_state s = SimTake lba l) \/
   (length l = 512%nat /\ sim_disk s = <[lba := l]> f)).

Lemma sectors_ok_insert f lba l : sectors_ok f -> length l = 512%nat -> byte_list l -> sectors_ok (<[lba := l]> f).
Proof.
  intros Hf Hl Hb x y. destruct (decide (lba = x)) as [->|].
  - rewrite lookup_insert_eq. by intros [= <-].
  - rewrite lookup_insert_ne by done. apply Hf.
Qed.

Lemma sim_issue b f lba cmd :
  sim_idle b f -> 0 <= lba < 268435456 -> cmd = ATA_CMD_READ \/ cmd = ATA_CMD_WRITE ->
  exists n, Z.of_nat n < 9999999 /\ sim_pending (issue lba cmd b) f cmd lba n.
Proof.
  intros Hi Hl Hc. exists 1%nat. split; [lia|]. split_and!; [exact Hi|exact Hc|].
  change (SimBusy cmd (lba mod 256 + 256 * (lba / 256 mod 256) + 65536 * (lba / 65536 mod 256) +
    16777216 * (224 + lba / 16777216 - 224)) = SimBusy cmd lba). f_equal. word_lia.
Qed.

Lemma sim_ready b f cmd lba :
  sim_pending b f cmd lba 0 ->
  exists v b', bus_in8 ATA_STATUS b = (v, b') /\ 0 <= v < 256 /\ Z.testbit v 7 = false /\
    Z.testbit v 3 = bool_decide (is_Some (f !! lba)) /\ Z.testbit v 0 = bool_decide (f !! lba = None) /\
    sim_pending b' f cmd lba 0.
Proof.
  intros ((Hd & Hf) & Hc & Hs). cbn. unfold sim_in8. cbn [Z.eqb ATA_STATUS negb]. rewrite Hs. unfold sim_start. rewrite Hd.
  change (0x1F7 =? 0x1F7) with true. cbn [negb].
  destruct (f !! lba) as [l|] eqn:El; [destruct (cmd =? ATA_CMD_READ) eqn:Ec|]; eexists _, b;
    (split_and!; [reflexivity|lia|lia|reflexivity|reflexivity|reflexivity|]);
    (split; [done|split; [done|]]); rewrite Hs; unfold sim_start; rewrite Hd, El, ?Ec; reflexivity.
Qed.

Lemma sim_take b f lba l w :
  sim_taking b f lba l -> (length l < 512)%nat -> 0 <= w < 65536 ->
  sim_taking (bus_out16 ATA_DATA w b) f lba (l ++ [w mod 256; w / 256]).
Proof.
  intros (Hb & He & Hf & [(Hl & Hd & Hs)|[? _]]) Hlt Hw; [|lia].
  assert (length (l ++ [w mod 256; w / 256]) = (length l + 2)%nat) as Hlen by (rewrite length_app; reflexivity).
  split_and!; [|rewrite Hlen; destruct He as [k ->]; exists (k + 1)%nat; lia|exact Hf|].
  - apply Forall_app. split; [exact Hb|]. repeat constructor; word_lia.
  - cbn [bus_out16 sim_ports]. unfold sim_out16. rewrite Hs. destruct He as [k Hk].
    destruct (Nat.ltb_spec (length (l ++ [w mod 256; w / 256])) 512); [left|right]; split_and!; try done; [|cbn; by rewrite Hd].
    rewrite Hlen in *. lia.
Qed.

#[export] Instance sim_drive : AtaDrive sim.
Proof.
  refine {| ata_idle := sim_idle; ata_pending := sim_pending; ata_sending := sim_sending; ata_taking := sim_taking;
    ata_writing b f n := n = O /\ sim_idle b f |}.
  - by intros b f [_ ?].
  - exact sim_issue.
  - intros b f cmd lba n (Hi & Hc & Hs). destruct n as [|n]; [|done]. cbn. unfold sim_in8. rewrite Hs.
    eexists _, _. split_and!; [reflexivity|lia|lia|reflexivity|]. split; [exact Hi|split; [exact Hc|reflexivity]].
  - exact sim_ready.
  - by intros b f cmd lba (Hi & _) _.
  - intros b f lba l ((Hd & Hf) & _ & Hs) El. split; [done|]. rewrite Hs. unfold sim_start. by rewrite Hd, El.
  - intros b f x y l ((Hd & Hf) & Hs). cbn. unfold sim_in16. rewrite Hs. eexists. by split.
  - by intros b f [? _].
  - intros b f lba ((Hd & Hf) & _ & Hs) [l El]. split_and!; [constructor|by exists 0%nat|done|]. left.
    split_and!; [cbn; lia|done|]. rewrite Hs. unfold sim_start. by rewrite Hd, El.
  - exact sim_take.
  - intros b f lba l (Hb & _ & Hf & [[? _]|[? Hd]]) Hl; [lia|]. exists O. split; [lia|]. split; [done|]. split; [done|]. by apply sectors_ok_insert.
  - by intros b f n [? _].
  - by intros b f [_ ?].
Defined.
#[export] Instance sim_prompt : PromptDrive sim.
Proof. split. by intros b f n [? _]. Qed.

(** ** The theorems *)

(** C10. Refinement: on any drive that follows the PIO protocol [AtaDrive],
    [disk_read] implements the reading half of a block device: a read of
    consecutive sectors succeeds exactly when all of them are readable, and
    then the buffer holds their bytes; nothing outside the buffer changes
    and the disk contents stay.  [disk_write] of a sector succeeds exactly
    when the sector exists, has then transferred its 512 bytes, and returns
    while the drive may still be busy writing them.  On a drive that is
    never seen busy there ([PromptDrive]) it implements the writing half. *)
Theorem disk_implements_block_device (B : Type) (P : Ports B) (D : AtaDrive B) :
  BlockReader B disk_read ata_disk /\
  (forall m b f lba addr buf, ata_disk b f -> 0 <= lba < LBA_LIMIT ->
    exists r b', disk_write lba addr 1 buf (DState m b) = Ret (r, DState m b') /\ (r = true <-> is_Some (f !! lba)) /\
      if r then exists n, Z.of_nat n < 9999999 /\ ata_flushing b' (<[lba := bytes buf addr 512]> f) n else ata_disk b' f) /\
  (PromptDrive B -> BlockWriter B disk_write ata_disk).
Proof. split; [apply ata_reader|]. split; [exact ata_write_run|]. intros PD. apply ata_writer. Qed.

(** A disk of two sectors, and no others. *)
Definition two_sectors : contents := {[2048 := replicate 512 7; 2049 := replicate 512 9]}.
Definition sim0 : sim := Sim two_sectors 0 0 0 0 SimIdle.
Definition mach0 : mstate := MState ∅ 0x202 [] 0 0 (HeapVars 0 0 0 0 0 0) (PageVars ∅ 0).

Lemma sim0_idle : sim_idle sim0 two_sectors.
Proof.
  split; [reflexivity|]. unfold two_sectors. intros lba l [[<- <-]|[_ [<- <-]%lookup_singleton_Some]]%lookup_insert_Some;
    (split; [reflexivity|apply Forall_replicate; lia]).
Qed.

Lemma sim0_disk : ata_disk sim0 {[0 := replicate 512 7; 1 := replicate 512 9]}.
Proof.
  exists two_sectors. split; [exact sim0_idle|]. intros lba. unfold two_sectors. rewrite !lookup_insert, !lookup_singleton.
  repeat case_decide; unfold LBA_LIMIT; zcases; try lia; reflexivity.
Qed.

Lemma disk_implements_block_device_witness :
  (exists buf es b', disk_read 0 0x1000 2 ∅ (DState mach0 sim0) = Ret ((true, buf), DState (add_serial es mach0) b') /\
    bytes buf 0x1200 512 = replicate 512 9) /\
  exists b', disk_write 1 0x1000 1 ∅ (DState mach0 sim0) = Ret (true, DState mach0 b') /\
    ata_disk b' (<[1 := bytes ∅ 0x1000 512]> {[0 := replicate 512 7; 1 := replicate 512 9]}).
Proof.
  destruct (disk_implements_block_device sim sim_ports sim_drive) as (HR & _ & HW). split.
  - destruct (@bd_read _ _ _ HR mach0 sim0 _ 0 0x1000 2 ∅ sim0_disk
      ltac:(lia) ltac:(lia) ltac:(unfold LBA_LIMIT; lia)) as (r & buf & es & b' & E & _ & _ & Hr & Hd).
    assert (r = true) as ->.
    { apply Hr. intros i Hi. assert (i = 0 \/ i = 1) as [->| ->] by lia; eexists; reflexivity. }
    exists buf, es, b'. split; [exact E|]. destruct (Hd eq_refl) as [_ Hd1]. specialize (Hd1 1 ltac:(lia)).
    assert (forall l, Some l = Some (bytes buf 0x1200 512) -> bytes buf 0x1200 512 = l) as Hinj by congruence.
    apply Hinj. etransitivity; [|exact Hd1]. reflexivity.
  - destruct (@bd_write _ _ _ (HW sim_prompt) mach0 sim0 _ 1 0x1000 ∅ sim0_disk ltac:(unfold LBA_LIMIT; lia)) as (r & b' & E & Hok & Hr).
    assert (r = true) as -> by (apply Hr; eexists; reflexivity). exists b'. by split.
Defined.

Lemma poll_returns {B} (p : positive) body m (b : B) :
  (forall t b, match body (t, b) with inl (t', _) => t' = t - 1 /\ t' <> 0 | inr _ => True end) ->
  exists r b', poll p body (DState m b) = Ret (r, DState m b').
Proof.
  intros Hb. unfold poll. rewrite loop_pos_nat.
  assert (forall n t b, 0 < t <= Z.of_nat n -> exists r, loop_nat n body (t, b) = inr r) as Hgo.
  { induction n as [|n IH]; intros t b' Ht; [lia|]. cbn [loop_nat]. specialize (Hb t b').
    destruct (body (t, b')) as [[t' b'']|r]; [|eauto]. destruct Hb as [-> Hn]. apply IH. lia. }
  destruct (Hgo (Pos.to_nat p) (Z.pos p) b ltac:(lia)) as [[r b'] E]. cbn [mach bus]. rewrite E. eauto.
Qed.

Section Termination.
Context {B : Type} {P : Ports B}.

Lemma wait_while_returns cond (d : dstate B) : exists r d', wait_while cond d = Ret (r, d').
Proof.
  destruct d as [m b]. edestruct (@poll_returns B 10000000) as (r & b' & E); [|exists r, (DState m b'); exact E].
  intros t c. cbn beta iota zeta. destruct (bus_in8 ATA_STATUS c) as [v c']. destruct (cond (u8 v)); [|exact I].
  destruct (Z.eqb_spec (t - 1) 0); [exact I|auto].
Qed.

Lemma wait_drq_returns (d : dstate B) : exists r d', wait_drq d = Ret (r, d').
Proof.
  destruct d as [m b]. edestruct (@poll_returns B 10000000) as (r & b' & E); [|exists r, (DState m b'); exact E].
  intros t c. cbn beta iota zeta. destruct (bus_in8 ATA_STATUS c) as [v c']. destruct (negb _); [exact I|].
  destruct (Z.eqb_spec (t - 1) 0); [exact I|]. destruct (negb _); [exact I|auto].
Qed.

Lemma read_words_returns n i addr buf (d : dstate B) : exists r d', read_words n i addr buf d = Ret (r, d').
Proof.
  revert i buf d; induction n as [|n IH]; intros i buf d; cbn [read_words]; [eexists _, _; reflexivity|].
  unfold inw. unfold mbind, M_bind. destruct (bus_in16 ATA_DATA (bus d)). apply IH.
Qed.

Lemma disk_read_loop_returns n s lba addr buf (d : dstate B) : exists r d', disk_read_loop n s lba addr buf d = Ret (r, d').
Proof.
  revert s addr buf d; induction n as [|n IH]; intros s addr buf d; cbn [disk_read_loop]; [eexists _, _; reflexivity|].
  erewrite bind_run by reflexivity.
  match goal with |- exists r d', (_ ≫= _) ?d0 = _ => destruct (wait_while_returns busy d0) as (r1 & d1 & E1) end.
  rewrite (bind_run _ _ _ _ _ E1). destruct (r1 =? 0); [eexists _, _; reflexivity|].
  destruct (wait_drq_returns d1) as (r2 & d2 & E2). rewrite (bind_run _ _ _ _ _ E2).
  destruct (r2 =? 2); [eexists _, _; reflexivity|]. destruct (r2 =? 0); [eexists _, _; reflexivity|].
  destruct (read_words_returns 256 0 addr buf d2) as (r3 & d3 & E3). rewrite (bind_run _ _ _ _ _ E3). apply IH.
Qed.

Lemma disk_write_loop_returns n s lba addr buf (d : dstate B) : exists r d', disk_write_loop n s lba addr buf d = Ret (r, d').
Proof.
  revert s addr d; induction n as [|n IH]; intros s addr d; cbn [disk_write_loop]; [eexists _, _; reflexivity|].
  erewrite bind_run by reflexivity.
  match goal with |- exists r d', (_ ≫= _) ?d0 = _ => destruct (wait_while_returns busy d0) as (r1 & d1 & E1) end.
  rewrite (bind_run _ _ _ _ _ E1). destruct (r1 =? 0); [eexists _, _; reflexivity|].
  destruct (wait_while_returns no_drq d1) as (r2 & d2 & E2). rewrite (bind_run _ _ _ _ _ E2).
  destruct (r2 =? 0); [eexists _, _; reflexivity|]. erewrite bind_run by reflexivity. apply IH.
Qed.

Lemma disk_read_returns lba addr n buf (d : dstate B) : exists r d', disk_read lba addr n buf d = Ret (r, d').
Proof. unfold disk_read. destruct (n =? 0); [eexists _, _; reflexivity|apply disk_read_loop_returns]. Qed.

(** Termination: whatever is behind the ports - no drive, a drive that
    is busy for ever or never ready - [disk_read] and [disk_write] return
    after finitely many polls. *)
Theorem disk_always_returns lba addr n buf (d : dstate B) :
  (exists r d', disk_read lba addr n buf d = Ret (r, d')) /\
  (exists r d', disk_write lba addr n buf d = Ret (r, d')).
Proof.
  split; [apply disk_read_returns|]. unfold disk_write.
  destruct (n =? 0); [eexists _, _; reflexivity|apply disk_write_loop_returns].
Qed.
End Termination.
