(* ===== verification/Fat32.v ===== *)
(** * The FAT32 file system (Kernel/Drivers/FileSystem/FAT32/FAT32_Main.c)

    The functions take the two disk routines as parameters [rd] and [wr]:
    the kernel passes [disk_read] and [disk_write], the theorems use the
    interfaces [BlockReader] and [BlockWriter].  A local array of a
    function, also one whose length is the cluster size, is a memory of its
    own, indexed from 0, that holds the arbitrary bytes [junk] when the
    function is entered; file data goes to and comes from RAM. *)
From S2P Require Import Prelude Machine Utils Serial Memory Disk.

Record FAT32_BPB := Bpb {
  bytes_per_sector : Z;
  sectors_per_cluster : Z;
  reserved_sectors : Z;
  num_fats : Z;
  fat_size_sectors : Z;
  root_cluster : Z
}.

Record FAT32_FILE := File {
  name : list Z;
  first_cluster : Z;
  size : Z
}.

(** The machine, the disk, and the static [bpb]. *)
Record fs (B : Type) := Fs { fdev : dstate B; bpb : FAT32_BPB }.
Arguments Fs {B} _ _.
Arguments fdev {B} _.
Arguments bpb {B} _.

Fixpoint memcmp_local_from (ma : mem) (a : Z) (mb : mem) (b : Z) (i : Z) (n : nat) : Z :=
  match n with
  | O => 0
  | S n' =>
      if negb (ld8 ma (a + i) =? ld8 mb (b + i)) then ld8 ma (a + i) - ld8 mb (b + i)
      else memcmp_local_from ma a mb b (i + 1) n'
  end.
Definition memcmp_local (ma : mem) (a : Z) (mb : mem) (b n : Z) : Z :=
  memcmp_local_from ma a mb b 0 (Z.to_nat n).

(** [memcpy] from one memory to another. *)
Definition copy_between (dm : mem) (dst : Z) (sm : mem) (src n : Z) : mem :=
  for_up (Z.to_nat n) 0 (fun i dm => st8 dm (dst + i) (ld8 sm (src + i))) dm.

Definition fat_start_lba (p : FAT32_BPB) : Z := reserved_sectors p.
Definition data_start_lba (p : FAT32_BPB) : Z :=
  u32 (reserved_sectors p + u32 (num_fats p * fat_size_sectors p)).
Definition cluster_to_lba (p : FAT32_BPB) (cluster : Z) : Z :=
  if cluster <? 2 then 0
  else u32 (data_start_lba p + u32 (u32 (cluster - 2) * sectors_per_cluster p)).
Definition max_clusters (p : FAT32_BPB) : Z := u32 (fat_size_sectors p * bytes_per_sector p) / 4.

(** [next < 2 || next >= 0x0FFFFFF8] *)
Definition end_of_chain (next : Z) : bool := (next <? 2) || (0x0FFFFFF8 <=? next).

Definition fat32_get_file_size (file : option FAT32_FILE) : Z :=
  match file with None => 0 | Some f => size f end.

Section FAT32.
Context {B : Type} (rd : Z -> Z -> Z -> mem -> M (dstate B) (bool * mem))
  (wr : Z -> Z -> Z -> mem -> M (dstate B) bool) (junk : mem).

Definition on_dev {A} (c : M (dstate B) A) : M (fs B) A := zoom fdev (fun d s => Fs d (bpb s)) c.
Definition fs_ram (s : fs B) : mem := ram (mach (fdev s)).
Definition set_fs_ram (m : mem) (s : fs B) : fs B :=
  Fs (DState (set_ram m (mach (fdev s))) (bus (fdev s))) (bpb s).
Definition fs_say (es : list sev) : M (fs B) unit :=
  modify (fun s => Fs (DState (add_serial es (mach (fdev s))) (bus (fdev s))) (bpb s)).

Definition fat_get_next_cluster (cluster : Z) : M (fs B) Z :=
  if (cluster <? 2) || (0x0FFFFFF8 <=? cluster) then mret 0x0FFFFFFF
  else
    p ← gets bpb;
    let fat_offset := u32 (cluster * 4) in
    let sector := u32 (fat_start_lba p + fat_offset / bytes_per_sector p) in
    let offset := fat_offset mod bytes_per_sector p in
    if bytes_per_sector p <? offset + 4 then mret 0x0FFFFFFF
    else
      '(r, buf) ← on_dev (rd sector 0 1 junk);
      if negb r then mret 0x0FFFFFFF
      else
        let val := u32 (Z.lor (Z.lor (Z.lor (ld8 buf offset) (Z.shiftl (ld8 buf (offset + 1)) 8))
                                     (Z.shiftl (ld8 buf (offset + 2)) 16))
                              (Z.shiftl (ld8 buf (offset + 3)) 24)) in
        mret (Z.land val 0x0FFFFFFF).

(** The loop over the copies of the FAT; [n] are left. *)
Fixpoint fat_set_loop (n : nat) (fat fat_offset offset next : Z) : M (fs B) bool :=
  match n with
  | O => mret true
  | S n' =>
      p ← gets bpb;
      let sector := u32 (u32 (fat_start_lba p + u32 (fat * fat_size_sectors p)) +
                         fat_offset / bytes_per_sector p) in
      '(r, buf) ← on_dev (rd sector 0 1 junk);
      if negb r then mret false
      else
        let buf := st8 buf offset (Z.land next 0xFF) in
        let buf := st8 buf (offset + 1) (Z.land (Z.shiftr next 8) 0xFF) in
        let buf := st8 buf (offset + 2) (Z.land (Z.shiftr next 16) 0xFF) in
        let buf := st8 buf (offset + 3)
          (Z.lor (Z.land (ld8 buf (offset + 3)) 0xF0) (Z.land (Z.shiftr next 24) 0x0F)) in
        r ← on_dev (wr sector 0 1 buf);
        if negb r then mret false
        else fat_set_loop n' (fat + 1) fat_offset offset next
  end.

Definition fat_set_next_cluster (cluster next : Z) : M (fs B) bool :=
  if (cluster <? 2) || (0x0FFFFFF8 <=? cluster) then mret false
  else
    p ← gets bpb;
    let fat_offset := u32 (cluster * 4) in
    let offset := fat_offset mod bytes_per_sector p in
    if bytes_per_sector p <? offset + 4 then mret false
    else fat_set_loop (Z.to_nat (num_fats p)) 0 fat_offset offset next.

Definition fat32_init : M (fs B) bool :=
  '(r, sector) ← on_dev (rd 0 0 1 junk);
  if negb r then mret false
  else
    let p := Bpb (ld16 sector 11) (ld8 sector 13) (ld16 sector 14) (ld8 sector 16)
                 (ld32 sector 36) (ld32 sector 44) in
    modify (fun s => Fs (fdev s) p);;
    if (bytes_per_sector p =? 0) || (4096 <? bytes_per_sector p) then mret false
    else if (sectors_per_cluster p =? 0) || (128 <? sectors_per_cluster p) then mret false
    else if (num_fats p =? 0) || (2 <? num_fats p) then mret false
    else if root_cluster p <? 2 then mret false
    else fs_say [line "[OS] [FAT32] Init Success"];; mret true.

(** The outcome of scanning one sector of a directory. *)
Inductive dir_scan := DirEnd | DirFound (file : FAT32_FILE) | DirMore.

(** The loop over [i]; [n] entries are left. *)
Fixpoint find_in_sector (n : nat) (i : Z) (m : mem) (filename : Z) (buf : mem) : dir_scan :=
  match n with
  | O => DirMore
  | S n' =>
      if ld8 buf i =? 0x00 then DirEnd
      else if ld8 buf i =? 0xE5 then find_in_sector n' (i + 32) m filename buf
      else
        let attr := ld8 buf (i + 11) in
        if Z.land attr 0x0F =? 0x0F then find_in_sector n' (i + 32) m filename buf
        else if negb (Z.land attr 0x08 =? 0) then find_in_sector n' (i + 32) m filename buf
        else if memcmp_local m filename buf i 11 =? 0 then
          let high := ld16 buf (i + 20) in
          let low := ld16 buf (i + 26) in
          DirFound (File (bytes buf i 11 ++ [0]) (Z.lor (Z.shiftl high 16) low) (ld32 buf (i + 28)))
        else find_in_sector n' (i + 32) m filename buf
  end.

(** The loop over the sectors of a cluster; [n] are left.  [None] stops the
    search. *)
Fixpoint find_in_cluster (n : nat) (sec cluster : Z) (m : mem) (filename : Z) (buf : mem)
    : M (fs B) (option dir_scan * mem) :=
  match n with
  | O => mret (Some DirMore, buf)
  | S n' =>
      p ← gets bpb;
      let lba := cluster_to_lba p cluster in
      if lba =? 0 then mret (None, buf)
      else
        '(r, buf) ← on_dev (rd (u32 (lba + sec)) 0 1 buf);
        if negb r then mret (None, buf)
        else
          match find_in_sector (Z.to_nat ((bytes_per_sector p + 31) / 32)) 0 m filename buf with
          | DirEnd => mret (None, buf)
          | DirFound f => mret (Some (DirFound f), buf)
          | DirMore => find_in_cluster n' (sec + 1) cluster m filename buf
          end
  end.

(** The loop over [c]; [n] rounds are left. *)
Fixpoint find_in_chain (n : nat) (cluster : Z) (m : mem) (filename : Z) (buf : mem)
    : M (fs B) (option FAT32_FILE) :=
  match n with
  | O => mret None
  | S n' =>
      p ← gets bpb;
      '(r, buf) ← find_in_cluster (Z.to_nat (sectors_per_cluster p)) 0 cluster m filename buf;
      match r with
      | None | Some DirEnd => mret None
      | Some (DirFound f) => mret (Some f)
      | Some DirMore =>
          next ← fat_get_next_cluster cluster;
          if end_of_chain next then mret None
          else find_in_chain n' next m filename buf
      end
  end.

(** [filename] points into the memory [m]; [file] is a local of every
    caller, returned here instead of [true]. *)
Definition fat32_find_file (m : mem) (filename : Z) : M (fs B) (option FAT32_FILE) :=
  if filename =? 0 then mret None
  else
    p ← gets bpb;
    find_in_chain (Z.to_nat (max_clusters p)) (root_cluster p) m filename junk.

(** The loop of [fat32_read_file]. *)
Fixpoint read_file_loop (fuel : nat) (cluster bytes_left buffer : Z) (buf : mem) : M (fs B) bool :=
  match fuel with
  | O => liftO NoFuel
  | S f =>
      if bytes_left =? 0 then mret true
      else
        p ← gets bpb;
        let cluster_size := sectors_per_cluster p * bytes_per_sector p in
        let lba := cluster_to_lba p cluster in
        if lba =? 0 then mret false
        else
          let n_read := if cluster_size <? bytes_left then cluster_size else bytes_left in
          '(r, buf) ← on_dev (rd lba 0 (sectors_per_cluster p) buf);
          if negb r then fs_say [line "[OS] [FAT32] Disk read failed"];; mret false
          else
            modify (fun s => set_fs_ram (copy_between (fs_ram s) buffer buf 0 n_read) s);;
            let buffer := buffer + n_read in
            let bytes_left := bytes_left - n_read in
            next ← fat_get_next_cluster cluster;
            if end_of_chain next then mret (bytes_left =? 0)
            else read_file_loop f next bytes_left buffer buf
  end.

Definition fat32_read_file (file : option FAT32_FILE) (buffer : Z) : M (fs B) bool :=
  match file with
  | None => mret false
  | Some file =>
      if buffer =? 0 then mret false
      else
        p ← gets bpb;
        read_file_loop (Z.to_nat (size file / (sectors_per_cluster p * bytes_per_sector p) + 2))
          (first_cluster file) (size file) buffer junk
  end.

(** The two loops of [fat32_write_file]; the inner one returns [None] when
    the function returns false. *)
Fixpoint write_cluster_loop (n : nat) (sec cluster bytes_left buffer : Z) (buf : mem)
    : M (fs B) (option (Z * Z) * mem) :=
  match n with
  | O => mret (Some (bytes_left, buffer), buf)
  | S n' =>
      if bytes_left =? 0 then mret (Some (bytes_left, buffer), buf)
      else
        p ← gets bpb;
        let lba := cluster_to_lba p cluster in
        if lba =? 0 then mret (None, buf)
        else
          let n := if bytes_per_sector p <? bytes_left then bytes_per_sector p else bytes_left in
          '(r, buf) ←
            (if n =? bytes_per_sector p then
               m ← gets fs_ram;
               r ← on_dev (wr (u32 (lba + sec)) buffer 1 m);
               mret (r, buf)
             else
               '(r, buf) ← on_dev (rd (u32 (lba + sec)) 0 1 buf);
               if negb r then mret (false, buf)
               else
                 m ← gets fs_ram;
                 let buf := copy_between buf 0 m buffer n in
                 r ← on_dev (wr (u32 (lba + sec)) 0 1 buf);
                 mret (r, buf));
          if negb r then mret (None, buf)
          else write_cluster_loop n' (sec + 1) cluster (bytes_left - n) (buffer + n) buf
  end.

Fixpoint write_file_loop (n : nat) (cluster bytes_left buffer : Z) (buf : mem) : M (fs B) bool :=
  match n with
  | O => mret (bytes_left =? 0)
  | S n' =>
      if bytes_left =? 0 then mret true
      else
        p ← gets bpb;
        '(r, buf) ← write_cluster_loop (Z.to_nat (sectors_per_cluster p)) 0 cluster bytes_left buffer buf;
        match r with
        | None => mret false
        | Some (bytes_left, buffer) =>
            next ← fat_get_next_cluster cluster;
            if end_of_chain next then mret (bytes_left =? 0)
            else write_file_loop n' next bytes_left buffer buf
        end
  end.

Definition fat32_write_file (file : option FAT32_FILE) (buffer : Z) : M (fs B) bool :=
  match file with
  | None => mret false
  | Some file =>
      if buffer =? 0 then mret false
      else
        p ← gets bpb;
        write_file_loop (Z.to_nat (max_clusters p)) (first_cluster file) (size file) buffer junk
  end.
End FAT32.
