(* ===== verification/Fat32Spec.v ===== *)
(** * What the FAT32 structures on disk mean, and lemmas on the routines

    The abstract view of a volume: the FAT as a function from clusters to
    the next cluster, chains of clusters, the bytes of a chain.  The lemmas
    relate each routine of Fat32.v to it, for any [BlockReader]
    and, for those that write, [BlockWriter]. *)
From S2P Require Import Prelude Machine Utils Serial Memory Disk BlockDev Fat32.

(** Concatenated bytes of [n] sectors from [l]. *)
Definition sectors_data (f : contents) (l n : Z) : list Z :=
  concat ((fun i => default [] (f !! (l + i))) <$> seqZ 0 n).

(** A volume the driver can serve: 512-byte sectors (the only size
    [disk_read] transfers), the ranges [fat32_init] accepts, and a FAT that
    ends within reach of the drive. *)
Record geometry (p : FAT32_BPB) : Prop := {
  geo_bps : bytes_per_sector p = 512;
  geo_spc : 1 <= sectors_per_cluster p <= 128;
  geo_res : 1 <= reserved_sectors p < 65536;
  geo_fats : 1 <= num_fats p <= 2;
  geo_size : 0 < fat_size_sectors p;
  geo_end : reserved_sectors p + num_fats p * fat_size_sectors p <= LBA_LIMIT
}.

Definition data_start (p : FAT32_BPB) : Z := reserved_sectors p + num_fats p * fat_size_sectors p.
Definition cluster_lba (p : FAT32_BPB) (c : Z) : Z := data_start p + (c - 2) * sectors_per_cluster p.
Definition cluster_bytes (p : FAT32_BPB) : Z := 512 * sectors_per_cluster p.

(** Cluster [c] has an entry in the FAT and lies within reach. *)
Definition valid_cluster (p : FAT32_BPB) (c : Z) : Prop :=
  2 <= c < 128 * fat_size_sectors p /\ c < 0x0FFFFFF8 /\ cluster_lba p c + sectors_per_cluster p <= LBA_LIMIT.

Definition fat_sector (p : FAT32_BPB) (c : Z) : Z := reserved_sectors p + c / 128.
Definition fat_entry (p : FAT32_BPB) (f : contents) (c : Z) : option Z :=
  (fun l => word32_at l (c mod 128 * 4) mod 268435456) <$> f !! fat_sector p c.

(** [cs] is the chain that starts at [c]: readable FAT entries lead from
    each cluster to the next, and the last one marks the end. *)
Inductive fat_chain (p : FAT32_BPB) (f : contents) : Z -> list Z -> Prop :=
| chain_last c e :
    valid_cluster p c -> fat_entry p f c = Some e -> end_of_chain e = true -> fat_chain p f c [c]
| chain_next c e cs :
    valid_cluster p c -> fat_entry p f c = Some e -> end_of_chain e = false -> fat_chain p f e cs ->
    fat_chain p f c (c :: cs).

Definition cluster_readable (p : FAT32_BPB) (f : contents) (c : Z) : Prop :=
  readable f (cluster_lba p c) (sectors_per_cluster p).
Definition chain_data (p : FAT32_BPB) (f : contents) (cs : list Z) : list Z :=
  concat ((fun c => sectors_data f (cluster_lba p c) (sectors_per_cluster p)) <$> cs).

(** ** Arithmetic of the layout *)

Lemma data_start_lba_val p : geometry p -> data_start_lba p = data_start p.
Proof.
  intros []. unfold data_start_lba, data_start, LBA_LIMIT in *.
  assert (0 <= num_fats p * fat_size_sectors p) by nia. rewrite (u32_small (num_fats p * _)), u32_small by lia. reflexivity.
Qed.

Lemma cluster_to_lba_val p c : geometry p -> valid_cluster p c ->
  cluster_to_lba p c = cluster_lba p c /\ data_start p <= cluster_lba p c /\ 0 < cluster_lba p c.
Proof.
  intros Hg (Hc & _ & Hl). unfold cluster_to_lba. rewrite data_start_lba_val by assumption.
  destruct Hg. unfold cluster_lba, data_start, LBA_LIMIT in *.
  assert (0 <= (c - 2) * sectors_per_cluster p) by nia. assert (0 <= num_fats p * fat_size_sectors p) by nia.
  destruct (Z.ltb_spec c 2); [lia|]. rewrite (u32_small (c - 2)) by nia.
  rewrite (u32_small (_ * sectors_per_cluster p)), u32_small by lia. lia.
Qed.

Lemma fat_sector_range p c : geometry p -> 0 <= c < 128 * fat_size_sectors p ->
  0 <= fat_sector p c /\ fat_sector p c < reserved_sectors p + fat_size_sectors p /\
  reserved_sectors p + fat_size_sectors p <= data_start p <= LBA_LIMIT.
Proof.
  intros [] Hc. unfold fat_sector, data_start in *. assert (fat_size_sectors p <= num_fats p * fat_size_sectors p) by nia.
  Z.to_euclidean_division_equations. lia.
Qed.

Lemma cluster_disjoint p c d i j : geometry p -> 2 <= c -> 2 <= d -> c <> d ->
  0 <= i < sectors_per_cluster p -> 0 <= j < sectors_per_cluster p -> cluster_lba p c + i <> cluster_lba p d + j.
Proof.
  intros [] Hc Hd Hne Hi Hj. unfold cluster_lba. assert (c < d \/ d < c) as [|] by lia; nia.
Qed.

(** ** Sectors and bytes *)

Lemma sectors_data_0 f l : sectors_data f l 0 = [].
Proof. reflexivity. Qed.
Lemma sectors_data_S f l n : 0 <= n ->
  sectors_data f l (n + 1) = default [] (f !! l) ++ sectors_data f (l + 1) n.
Proof.
  intros Hn. unfold sectors_data. replace (n + 1) with (Z.succ n) by lia. rewrite seqZ_cons by lia.
  cbn [fmap list_fmap concat]. rewrite Z.add_0_r. f_equal. rewrite Z.pred_succ. change (Z.succ 0) with (1 + 0).
  rewrite <- fmap_add_seqZ, <- list_fmap_compose. f_equal. apply list_fmap_ext. intros ? x _. cbn. f_equal. f_equal. lia.
Qed.

Lemma sectors_data_ext f g l n :
  (forall i, 0 <= i < n -> g !! (l + i) = f !! (l + i)) -> sectors_data g l n = sectors_data f l n.
Proof.
  intros H. unfold sectors_data. f_equal. apply list_fmap_ext. intros i x Hx.
  apply list_elem_of_lookup_2, elem_of_seqZ in Hx. by rewrite H by lia.
Qed.

Lemma sectors_data_bytes f l n buf a :
  0 <= n -> (forall i, 0 <= i < n -> f !! (l + i) = Some (bytes buf (a + 512 * i) 512)) ->
  sectors_data f l n = bytes buf a (512 * n).
Proof.
  intros Hn. revert l a. pattern n. revert n Hn. apply natlike_ind.
  - reflexivity.
  - intros n Hn IH l a H. rewrite <- Z.add_1_r, sectors_data_S by lia. pose proof (H 0 ltac:(lia)) as H0.
    rewrite Z.add_0_r, Z.mul_0_r, Z.add_0_r in H0. rewrite H0. cbn [default].
    rewrite (IH (l + 1) (a + 512)).
    + replace (512 * (n + 1)) with (512 + 512 * n) by lia. by rewrite bytes_app by lia.
    + intros i Hi. replace (l + 1 + i) with (l + (1 + i)) by lia. rewrite H by lia. f_equal. f_equal. lia.
Qed.

Lemma length_sectors_data f l n : sectors_ok f -> readable f l n -> 0 <= n ->
  length (sectors_data f l n) = Z.to_nat (512 * n).
Proof.
  intros Hf Hr Hn. revert l Hr. pattern n. revert n Hn. apply natlike_ind; [reflexivity|].
  intros n Hn IH l Hr. rewrite <- Z.add_1_r, sectors_data_S, length_app by lia. rewrite IH.
  - destruct (Hr 0 ltac:(lia)) as [x Hx]. rewrite Z.add_0_r in Hx. rewrite Hx. cbn. rewrite (proj1 (Hf _ _ Hx)). lia.
  - intros i Hi. replace (l + 1 + i) with (l + (1 + i)) by lia. apply Hr. lia.
Qed.

Lemma ld8_copy_between dm d sm s n x :
  ld8 (copy_between dm d sm s n) x = if (d <=? x) && (x <? d + n) then ld8 sm (s + (x - d)) else ld8 dm x.
Proof.
  unfold copy_between. pose (P := fun j (m : mem) => forall x, 0 <= j -> 
    ld8 m x = if (d <=? x) && (x <? d + j) then ld8 sm (s + (x - d)) else ld8 dm x).
  assert (P (0 + Z.of_nat (Z.to_nat n)) (for_up (Z.to_nat n) 0 (fun i dm => st8 dm (d + i) (ld8 sm (s + i))) dm)) as H.
  { apply for_up_ind; unfold P; [intros; zcases; (reflexivity || lia)|].
    intros j b Hj IH y _. rewrite ld8_st8, IH by lia. destruct (Z.eqb_spec (d + j) y) as [<-|].
    - zcases; try lia. rewrite u8_small by apply ld8_range. f_equal. lia.
    - zcases; try lia; reflexivity. }
  rewrite (H x) by lia. zcases; try lia; reflexivity.
Qed.

Lemma bytes_copy_between dm d sm s n : bytes (copy_between dm d sm s n) d n = bytes sm s n.
Proof. apply bytes_eq. intros i Hi. rewrite ld8_copy_between. zcases; try lia. f_equal. lia. Qed.

(** The four bytes of a FAT entry as the code assembles them. *)
Lemma lor_bytes buf o :
  Z.land (u32 (Z.lor (Z.lor (Z.lor (ld8 buf o) (Z.shiftl (ld8 buf (o + 1)) 8))
      (Z.shiftl (ld8 buf (o + 2)) 16)) (Z.shiftl (ld8 buf (o + 3)) 24))) 0x0FFFFFFF = ld32 buf o mod 268435456.
Proof.
  pose proof (ld8_range buf o). pose proof (ld8_range buf (o + 1)).
  pose proof (ld8_range buf (o + 2)). pose proof (ld8_range buf (o + 3)).
  rewrite (lor_shiftl (ld8 buf o) _ 8) by lia. rewrite (lor_shiftl _ _ 16) by lia. rewrite (lor_shiftl _ _ 24) by lia.
  change 0x0FFFFFFF with (Z.ones 28). rewrite Z.land_ones by lia. change (2 ^ 28) with 268435456.
  rewrite u32_small by lia. f_equal. unfold ld32. cbn [ldn].
  replace (o + 1 + 1) with (o + 2) by lia. replace (o + 2 + 1) with (o + 3) by lia. lia.
Qed.

Section Routines.
Context {B : Type} (rd : Z -> Z -> Z -> mem -> M (dstate B) (bool * mem))
  (wr : Z -> Z -> Z -> mem -> M (dstate B) bool) (ok : B -> contents -> Prop)
  {BR : BlockReader B rd ok} {BW : BlockWriter B wr ok} (junk : mem).
Implicit Types (m : mstate) (b : B) (f : contents) (p : FAT32_BPB).

Lemma on_dev_run {A} (c : M (dstate B) A) m b p a m' b' :
  c (DState m b) = Ret (a, DState m' b') -> on_dev c (Fs (DState m b) p) = Ret (a, Fs (DState m' b') p).
Proof. intros E. unfold on_dev, zoom. cbn [fdev]. by rewrite E. Qed.

(** One readable sector into a local array, and one sector written. *)
Lemma read_one m b f p lba buf l :
  ok b f -> 0 <= lba < LBA_LIMIT -> f !! lba = Some l ->
  exists buf' b', on_dev (rd lba 0 1 buf) (Fs (DState m b) p) = Ret ((true, buf'), Fs (DState m b') p) /\
    ok b' f /\ l = bytes buf' 0 512.
Proof using BR.
  intros Hok Hl Hf.
  destruct (bd_read m b f lba 0 1 buf Hok ltac:(lia) ltac:(lia) ltac:(lia)) as (r & buf' & es & b' & E & Hok' & _ & Hr & Hd).
  assert (r = true) as -> by (apply Hr; intros i Hi; replace i with 0 by lia; rewrite Z.add_0_r, Hf; eauto).
  destruct (Hd eq_refl) as [-> Hdata]. specialize (Hdata 0 ltac:(lia)). rewrite Z.add_0_r, Hf in Hdata. injection Hdata as ->.
  rewrite add_serial_nil in E. exists buf', b'. split_and!; [by apply on_dev_run|done|done].
Qed.

Lemma write_one m b f p lba a buf :
  ok b f -> 0 <= lba < LBA_LIMIT -> is_Some (f !! lba) ->
  exists b', on_dev (wr lba a 1 buf) (Fs (DState m b) p) = Ret (true, Fs (DState m b') p) /\
    ok b' (<[lba := bytes buf a 512]> f).
Proof using BR BW.
  intros Hok Hl Hf. destruct (bd_write m b f lba a buf Hok Hl) as (r & b' & E & Hok' & Hr).
  assert (r = true) as -> by (by apply Hr). exists b'. split; [by apply on_dev_run|done].
Qed.

(** [fat_get_next_cluster] reads the entry of the first FAT. *)
Lemma get_next_run m b f p c e :
  ok b f -> geometry p -> 2 <= c < 128 * fat_size_sectors p -> c < 0x0FFFFFF8 -> fat_entry p f c = Some e ->
  exists b', fat_get_next_cluster rd junk c (Fs (DState m b) p) = Ret (e, Fs (DState m b') p) /\ ok b' f.
Proof using BR.
  intros Hok Hg Hc Hc2 He. unfold fat_get_next_cluster.
  destruct (Z.ltb_spec c 2); [lia|]. destruct (Z.leb_spec 0x0FFFFFF8 c); [lia|]. cbn [orb].
  rewrite bind_gets. cbn [bpb]. rewrite (geo_bps p Hg). rewrite (u32_small (c * 4)) by lia.
  destruct (fat_sector_range p c Hg ltac:(lia)) as (S1 & S2 & S3). unfold fat_start_lba.
  replace (c * 4 / 512) with (c / 128) by word_lia. fold (fat_sector p c). rewrite u32_small by (unfold LBA_LIMIT in *; lia).
  replace (c * 4 mod 512) with (c mod 128 * 4) by word_lia.
  destruct (Z.ltb_spec 512 (c mod 128 * 4 + 4)); [word_lia|].
  unfold fat_entry in He. destruct (f !! fat_sector p c) as [l|] eqn:El; [|discriminate]. injection He as <-.
  destruct (read_one m b f p (fat_sector p c) junk l Hok ltac:(lia) El) as (buf & b' & E & Hok' & ->).
  rewrite (bind_run _ _ _ _ _ E). cbn [negb].
  exists b'. split; [|exact Hok']. rewrite lor_bytes. cbn. rewrite word32_at_bytes by word_lia. reflexivity.
Qed.

Lemma chain_valid p f c cs : fat_chain p f c cs -> valid_cluster p c.
Proof. by destruct 1. Qed.

(** One round of reading: a readable cluster into the local array. *)
Lemma read_cluster_run m b f p c buf :
  ok b f -> geometry p -> valid_cluster p c -> cluster_readable p f c ->
  exists buf' b', rd (cluster_to_lba p c) 0 (sectors_per_cluster p) buf (DState m b) = Ret ((true, buf'), DState m b') /\
    ok b' f /\ sectors_data f (cluster_lba p c) (sectors_per_cluster p) = bytes buf' 0 (cluster_bytes p).
Proof using BR.
  intros Hok Hg Hv Hrd. destruct (cluster_to_lba_val p c Hg Hv) as (-> & Hl & Hl0).
  pose proof (geo_spc p Hg). destruct Hv as (_ & _ & Hend).
  destruct (bd_read m b f (cluster_lba p c) 0 (sectors_per_cluster p) buf Hok ltac:(lia) ltac:(lia) Hend)
    as (r & buf' & es & b' & E & Hok' & _ & Hr & Hd).
  assert (r = true) as -> by (apply Hr; exact Hrd). destruct (Hd eq_refl) as [-> Hdata]. rewrite add_serial_nil in E.
  exists buf', b'. split_and!; [exact E|exact Hok'|]. unfold cluster_bytes. apply sectors_data_bytes; [lia|exact Hdata].
Qed.

Lemma chain_data_cons p f c cs :
  chain_data p f (c :: cs) = sectors_data f (cluster_lba p c) (sectors_per_cluster p) ++ chain_data p f cs.
Proof. reflexivity. Qed.

Lemma length_chain_data p f cs : geometry p -> sectors_ok f -> Forall (cluster_readable p f) cs ->
  length (chain_data p f cs) = Z.to_nat (cluster_bytes p * Z.of_nat (length cs)).
Proof.
  intros Hg Hf. pose proof (geo_spc p Hg). induction 1 as [|c cs Hc _ IH]; [cbn; lia|].
  rewrite chain_data_cons, length_app, IH, length_sectors_data by (assumption || lia). unfold cluster_bytes.
  cbn [length]. nia.
Qed.

(** ** Reading a file *)

(** One round of the loop: [Z.min left (cluster_bytes p)] bytes go to RAM. *)
Lemma read_round m b f p c e fuel left buffer buf :
  ok b f -> geometry p -> valid_cluster p c -> cluster_readable p f c -> fat_entry p f c = Some e -> 0 < left ->
  let nr := Z.min left (cluster_bytes p) in
  exists buf' b', ok b' f /\
    sectors_data f (cluster_lba p c) (sectors_per_cluster p) = bytes buf' 0 (cluster_bytes p) /\
    read_file_loop rd junk (S fuel) c left buffer buf (Fs (DState m b) p) =
    (if end_of_chain e then mret (left - nr =? 0) else read_file_loop rd junk fuel e (left - nr) (buffer + nr) buf')
      (Fs (DState (set_ram (copy_between (ram m) buffer buf' 0 nr) m) b') p).
Proof using BR.
  intros Hok Hg Hv Hrc He Hleft nr. cbn [read_file_loop]. destruct (Z.eqb_spec left 0); [lia|].
  rewrite bind_gets. cbn [bpb]. rewrite (geo_bps p Hg), (Z.mul_comm (sectors_per_cluster p) 512). fold (cluster_bytes p).
  destruct (cluster_to_lba_val p c Hg Hv) as (Hlba & _ & Hl0). destruct (Z.eqb_spec (cluster_to_lba p c) 0); [lia|].
  destruct (read_cluster_run m b f p c buf Hok Hg Hv Hrc) as (buf' & b1 & E1 & Hok1 & Hdata).
  rewrite (bind_run _ _ _ _ _ (on_dev_run _ _ _ p _ _ _ E1)). cbn [negb]. rewrite bind_modify.
  replace (if cluster_bytes p <? left then cluster_bytes p else left) with nr by (unfold nr; zcases; lia).
  unfold set_fs_ram, fs_ram. cbn [fdev mach bus bpb]. destruct Hv as (Hv1 & Hv2 & _).
  destruct (get_next_run (set_ram (copy_between (ram m) buffer buf' 0 nr) m) b1 f p c e Hok1 Hg Hv1 Hv2 He) as (b2 & E2 & Hok2).
  exists buf', b2. split_and!; [done|done|]. by rewrite (bind_run _ _ _ _ _ E2).
Qed.

(** The fuel left after a round. *)
Lemma round_fuel left n : 0 < n -> 0 < left ->
  (left - Z.min left n + n - 1) / n + 1 <= (left + n - 1) / n.
Proof.
  intros Hn Hl. destruct (Z.le_gt_cases left n).
  - rewrite Z.min_l, Z.sub_diag, (Z.div_small (0 + n - 1)) by lia. apply Z.div_le_lower_bound; lia.
  - rewrite Z.min_r by lia. replace (left - n + n - 1) with (left + n - 1 + (-1) * n) by lia. rewrite Z.div_add by lia. lia.
Qed.

Lemma set_ram_id m : set_ram (ram m) m = m.
Proof. by destruct m. Qed.

Lemma read_file_loop_run f p c cs :
  geometry p -> fat_chain p f c cs -> Forall (cluster_readable p f) cs ->
  forall fuel m b left buffer buf, ok b f -> 0 <= left ->
  (left + cluster_bytes p - 1) / cluster_bytes p < Z.of_nat fuel ->
  exists r mm b', read_file_loop rd junk fuel c left buffer buf (Fs (DState m b) p) = Ret (r, Fs (DState (set_ram mm m) b') p) /\
    ok b' f /\ r = (left <=? cluster_bytes p * Z.of_nat (length cs)) /\
    (forall x, x < buffer \/ buffer + left <= x -> ld8 mm x = ld8 (ram m) x) /\
    (r = true -> bytes mm buffer left = take (Z.to_nat left) (chain_data p f cs)).
Proof using BR.
  intros Hg. pose proof (geo_spc p Hg). assert (0 < cluster_bytes p) as Hcb by (unfold cluster_bytes; lia).
  intros Hch. induction Hch as [c e Hv He Hend|c e cs Hv He Hend Hch IH]; intros Hrd fuel m b left buffer buf Hok Hleft Hfuel;
    pose proof (Z.div_pos (left + cluster_bytes p - 1) (cluster_bytes p) ltac:(lia) Hcb); (destruct fuel as [|fuel]; [lia|]);
    (destruct (Z.eq_dec left 0) as [->|Hne];
     [exists true, (ram m), b; rewrite set_ram_id; (split_and!; [done|done|zcases; [done|lia]|done|done])|]);
    inversion_clear Hrd as [|? ? Hrc Hrcs];
    destruct (read_round m b f p c e fuel left buffer buf Hok Hg Hv Hrc He ltac:(lia)) as (buf' & b2 & Hok2 & Hdata & ->);
    rewrite Hend; set (nr := Z.min left (cluster_bytes p)); set (m1 := copy_between (ram m) buffer buf' 0 nr);
    pose proof (length_bytes buf' 0 (cluster_bytes p)) as Hlen; rewrite chain_data_cons, Hdata; cbn [length].
  - exists (left - nr =? 0), m1, b2.
    split_and!; [done|done|zcases; (reflexivity || lia)| |].
    + intros x Hx. unfold m1. rewrite ld8_copy_between. zcases; (reflexivity || lia).
    + intros Ht%Z.eqb_eq. replace left with nr by lia. unfold m1. rewrite bytes_copy_between, take_app_le by lia.
      symmetry. apply bytes_take. lia.
  - pose proof (round_fuel left (cluster_bytes p) Hcb ltac:(lia)) as Hrf. fold nr in Hrf.
    destruct (IH Hrcs fuel (set_ram m1 m) b2 (left - nr) (buffer + nr) buf' Hok2 ltac:(lia) ltac:(lia))
      as (r & mm & b3 & E3 & Hok3 & Hr & Hout & Hd).
    rewrite E3. exists r, mm, b3. cbn [ram set_ram] in *. split_and!; [done|done| | |].
    + rewrite Hr. zcases; (reflexivity || nia).
    + intros x Hx. rewrite Hout by lia. unfold m1. rewrite ld8_copy_between. zcases; (reflexivity || lia).
    + intros Ht. replace left with (nr + (left - nr)) at 1 by lia. rewrite bytes_app, (Hd Ht) by lia.
      assert (bytes mm buffer nr = bytes buf' 0 nr) as ->.
      { rewrite <- (bytes_copy_between (ram m) buffer buf' 0 nr). apply bytes_agree. intros x Hx. apply Hout. lia. }
      destruct (Z.le_gt_cases left (cluster_bytes p)).
      * rewrite take_app_le by lia. replace (left - nr) with 0 by lia. rewrite take_0, app_nil_r. symmetry.
        replace left with nr by lia. apply bytes_take. lia.
      * rewrite take_app_ge by lia. replace nr with (cluster_bytes p) by lia. f_equal. f_equal. lia.
Qed.

(** ** Writing a file *)

(** [f'] has the same sectors as [f], and differs at most in those of [P]. *)
Definition same_but (P : Z -> Prop) (f f' : contents) : Prop :=
  (forall l, is_Some (f' !! l) <-> is_Some (f !! l)) /\ forall l, ~ P l -> f' !! l = f !! l.

Lemma same_but_trans P f g h : same_but P f g -> same_but P g h -> same_but P f h.
Proof. intros [A1 A2] [B1 B2]. split; intros l; [rewrite B1; apply A1|]. intros Hl. by rewrite B2, A2. Qed.
Lemma same_but_weaken (P Q : Z -> Prop) f g : (forall l, P l -> Q l) -> same_but P f g -> same_but Q f g.
Proof. intros H [A1 A2]. split; [exact A1|]. intros l Hl. apply A2. auto. Qed.
Lemma same_but_insert f l x : is_Some (f !! l) -> same_but (eq l) f (<[l := x]> f).
Proof.
  intros Hl. split; intros k.
  - destruct (decide (l = k)) as [<-|]; [rewrite lookup_insert_eq; split; eauto|by rewrite lookup_insert_ne].
  - intros Hk. by rewrite lookup_insert_ne.
Qed.

(** The write of one sector's share of the buffer, whole or in part. *)
Lemma write_sector_run m b f p lba left buffer buf old n :
  ok b f -> geometry p -> 0 < lba < LBA_LIMIT -> f !! lba = Some old -> 0 < left -> n = Z.min 512 left ->
  exists buf' b', ok b' (<[lba := bytes (ram m) buffer n ++ drop (Z.to_nat n) old]> f) /\
    (if n =? 512 then
       m ← gets fs_ram; r ← on_dev (wr lba buffer 1 m); mret (r, buf)
     else
       '(r, buf) ← on_dev (rd lba 0 1 buf);
       if negb r then mret (false, buf)
       else
         m ← gets fs_ram;
         let buf := copy_between buf 0 m buffer n in
         r ← on_dev (wr lba 0 1 buf);
         mret (r, buf)) (Fs (DState m b) p) = Ret ((true, buf'), Fs (DState m b') p).
Proof using BR BW.
  intros Hok Hg Hl Hf Hleft ->. destruct (bd_sectors b f Hok _ _ Hf) as [Hlen _].
  destruct (Z.eqb_spec (Z.min 512 left) 512) as [->|Hn].
  - rewrite bind_gets. unfold fs_ram. cbn [fdev mach].
    destruct (write_one m b f p lba buffer (ram m) Hok ltac:(lia) ltac:(rewrite Hf; eauto)) as (b' & E & Hok').
    exists buf, b'. rewrite (bind_run _ _ _ _ _ E). split; [|done]. rewrite drop_ge, app_nil_r by lia. exact Hok'.
  - destruct (read_one m b f p lba buf old Hok ltac:(lia) Hf) as (buf1 & b1 & E1 & Hok1 & ->).
    rewrite (bind_run _ _ _ _ _ E1). cbn [negb]. rewrite bind_gets.
    unfold fs_ram. cbn [fdev mach]. set (buf2 := copy_between _ _ _ _ _).
    destruct (write_one m b1 f p lba 0 buf2 Hok1 ltac:(lia) ltac:(rewrite Hf; eauto)) as (b' & E & Hok').
    exists buf2, b'. rewrite (bind_run _ _ _ _ _ E). split; [|done].
    rewrite bytes_drop by lia. pose proof (bytes_app buf2 0 (Z.min 512 left) (512 - Z.min 512 left) ltac:(lia) ltac:(lia)) as Hb.
    replace (Z.min 512 left + (512 - Z.min 512 left)) with 512 in Hb by lia. rewrite Hb in Hok'.
    replace (bytes (ram m) buffer _) with (bytes buf2 0 (Z.min 512 left)) by (unfold buf2; by rewrite bytes_copy_between).
    replace (bytes buf1 _ _) with (bytes buf2 (0 + Z.min 512 left) (512 - Z.min 512 left)); [exact Hok'|].
    apply bytes_eq. intros i Hi. unfold buf2. rewrite ld8_copy_between. zcases; try lia; f_equal; lia.
Qed.

(** The loop over the sectors of a cluster. *)
Lemma write_cluster_run n m p c :
  geometry p -> valid_cluster p c ->
  forall b f sec left buffer buf, ok b f -> 0 <= sec -> sec + Z.of_nat n <= sectors_per_cluster p -> 0 <= left ->
  readable f (cluster_lba p c + sec) (Z.of_nat n) ->
  let k := Z.min left (512 * Z.of_nat n) in
  exists buf' b' f', ok b' f' /\
    write_cluster_loop rd wr n sec c left buffer buf (Fs (DState m b) p) =
      Ret ((Some (left - k, buffer + k), buf'), Fs (DState m b') p) /\
    same_but (fun l => cluster_lba p c + sec <= l < cluster_lba p c + sec + Z.of_nat n) f f' /\
    sectors_data f' (cluster_lba p c + sec) (Z.of_nat n) =
      bytes (ram m) buffer k ++ drop (Z.to_nat k) (sectors_data f (cluster_lba p c + sec) (Z.of_nat n)).
Proof using BR BW.
  intros Hg Hv. destruct (cluster_to_lba_val p c Hg Hv) as (Hlba & _ & Hl0). pose proof (geo_spc p Hg).
  destruct Hv as (_ & _ & Hend). unfold LBA_LIMIT in Hend.
  induction n as [|n IH]; intros b f sec left buffer buf Hok Hsec Hn Hleft Hrd k.
  { exists buf, b, f. replace k with 0 by lia. cbn [write_cluster_loop]. rewrite Z.sub_0_r, Z.add_0_r.
    split_and!; [done|done|by split|reflexivity]. }
  cbn [write_cluster_loop]. destruct (Z.eqb_spec left 0) as [->|Hne].
  { exists buf, b, f. replace k with 0 by lia. rewrite Z.add_0_r. split_and!; [done|done|by split|reflexivity]. }
  rewrite bind_gets. cbn [bpb]. rewrite (geo_bps p Hg), Hlba. destruct (Z.eqb_spec (cluster_lba p c) 0); [lia|].
  rewrite u32_small by lia. set (lba := cluster_lba p c + sec) in *.
  destruct (Hrd 0 ltac:(lia)) as [old Hold]. rewrite Z.add_0_r in Hold.
  set (q := Z.min 512 left). replace (if 512 <? left then 512 else left) with q by (unfold q; zcases; lia).
  destruct (write_sector_run m b f p lba left buffer buf old q Hok Hg ltac:(unfold LBA_LIMIT; lia) Hold ltac:(lia) eq_refl) as (buf1 & b1 & Hok1 & E1).
  rewrite (bind_run _ _ _ _ _ E1). cbn [negb]. set (f1 := <[lba := _]> f) in *.
  pose proof (same_but_insert f lba (bytes (ram m) buffer q ++ drop (Z.to_nat q) old) ltac:(rewrite Hold; eauto)) as Hs1. fold f1 in Hs1.
  destruct (IH b1 f1 (sec + 1) (left - q) (buffer + q) buf1 Hok1 ltac:(lia) ltac:(lia) ltac:(lia)) as (buf2 & b2 & f2 & Hok2 & E2 & Hs2 & Hd2).
  { intros i Hi. apply (proj1 Hs1). replace (cluster_lba p c + (sec + 1) + i) with (lba + (1 + i)) by (unfold lba; lia). apply Hrd. lia. }
  replace (cluster_lba p c + (sec + 1)) with (lba + 1) in * by (unfold lba; lia).
  set (k2 := Z.min (left - q) (512 * Z.of_nat n)) in *. assert (k = q + k2) as Hk by lia.
  exists buf2, b2, f2. rewrite E2. replace (left - k) with (left - q - k2) by lia.
  replace (buffer + k) with (buffer + q + k2) by lia. split_and!; [done|done| |].
  - apply (same_but_trans _ f f1); [|eapply same_but_weaken; [|exact Hs2]; intros; cbn in *; lia].
    eapply same_but_weaken; [|exact Hs1]. intros l <-. lia.
  - replace (Z.of_nat (S n)) with (Z.of_nat n + 1) by lia. rewrite !sectors_data_S, Hd2, Hold by lia.
    rewrite (proj2 Hs2) by lia. unfold f1 at 1. rewrite lookup_insert_eq. unfold default, id.
    rewrite (sectors_data_ext f f1) by (intros i Hi; apply (proj2 Hs1); lia).
    destruct (bd_sectors b f Hok _ _ Hold) as [Hlen _]. rewrite Hk, bytes_app, <- !app_assoc by lia. f_equal.
    destruct (Z.le_gt_cases left 512).
    + replace k2 with 0 by lia. rewrite Z.add_0_r, drop_app_le by lia. reflexivity.
    + assert (q = 512) as -> by lia. rewrite (drop_ge old) by lia. rewrite (drop_app_ge old) by lia. cbn [app]. f_equal. f_equal. lia.
Qed.

(** Sectors of the data area that belong to one of the clusters [cs]. *)
Definition in_clusters (p : FAT32_BPB) (cs : list Z) (l : Z) : Prop :=
  exists c, c ∈ cs /\ cluster_lba p c <= l < cluster_lba p c + sectors_per_cluster p.

Lemma fat_chain_all p f c cs : fat_chain p f c cs -> Forall (valid_cluster p) cs.
Proof. induction 1 as [c e Hv|c e cs Hv]; constructor; try assumption. constructor. Qed.

Lemma in_clusters_data p cs l : geometry p -> Forall (valid_cluster p) cs -> in_clusters p cs l -> data_start p <= l.
Proof.
  intros Hg Hv (c & Hc & Hl). rewrite Forall_forall in Hv. destruct (cluster_to_lba_val p c Hg (Hv c Hc)). lia.
Qed.

(** Writing data sectors leaves the FAT, and so every chain, alone. *)
Lemma fat_entry_kept p f f' P c : geometry p -> same_but P f f' -> (forall l, P l -> data_start p <= l) ->
  0 <= c < 128 * fat_size_sectors p -> fat_entry p f' c = fat_entry p f c.
Proof.
  intros Hg [_ Hs] HP Hc. unfold fat_entry. destruct (fat_sector_range p c Hg Hc) as (? & ? & ?).
  rewrite Hs; [done|]. intros Hl. apply HP in Hl. lia.
Qed.

Lemma fat_chain_kept p f f' P c cs : geometry p -> same_but P f f' -> (forall l, P l -> data_start p <= l) ->
  fat_chain p f c cs -> fat_chain p f' c cs.
Proof.
  intros Hg Hs HP. induction 1 as [c e Hv He Hend|c e cs Hv He Hend _ IH]; pose proof Hv as ([? ?] & _);
    rewrite <- (fat_entry_kept p f f' P) in He by (assumption || lia); [by eapply chain_last|by eapply chain_next].
Qed.

Lemma chain_data_ext p f f' cs :
  (forall l, in_clusters p cs l -> f' !! l = f !! l) -> chain_data p f' cs = chain_data p f cs.
Proof.
  intros H. unfold chain_data. f_equal. apply list_fmap_ext. intros i c Hc. apply sectors_data_ext. intros j Hj.
  apply H. exists c. split; [by eapply list_elem_of_lookup_2|lia].
Qed.

Lemma in_clusters_apart p c cs l : geometry p -> Forall (valid_cluster p) (c :: cs) -> c ∉ cs ->
  cluster_lba p c <= l < cluster_lba p c + sectors_per_cluster p -> ~ in_clusters p cs l.
Proof.
  intros Hg Hv Hn Hl (d & Hd & Hl2). inversion_clear Hv as [|? ? Hc Hcs]. rewrite Forall_forall in Hcs. specialize (Hcs d Hd).
  destruct Hc as ([? _] & _), Hcs as ([? _] & _). assert (c <> d) by (intros ->; done).
  apply (cluster_disjoint p c d (l - cluster_lba p c) (l - cluster_lba p d)); try assumption; lia.
Qed.

(** Splicing a prefix over two pieces. *)
Lemma splice mm a n k (l1 l2 : list Z) :
  0 <= n -> length l1 = Z.to_nat k -> 0 <= k ->
  (bytes mm a (Z.min n k) ++ drop (Z.to_nat (Z.min n k)) l1) ++
  bytes mm (a + Z.min n k) (n - Z.min n k) ++ drop (Z.to_nat (n - Z.min n k)) l2 =
  bytes mm a n ++ drop (Z.to_nat n) (l1 ++ l2).
Proof.
  intros Hn Hl Hk. destruct (Z.le_gt_cases n k).
  - rewrite Z.min_l, Z.sub_diag, drop_app_le by lia. cbn [Z.to_nat]. rewrite drop_0. change (bytes mm (a + n) 0) with (@nil Z).
    by rewrite app_nil_l, <- app_assoc.
  - rewrite Z.min_r, (drop_ge l1), drop_app_ge, app_nil_r by lia. replace n with (k + (n - k)) at 3 by lia.
    rewrite bytes_app, <- app_assoc by lia. do 3 f_equal. lia.
Qed.

Lemma readable_kept P f f' l n : same_but P f f' -> readable f l n -> readable f' l n.
Proof. intros [Hs _] Hr i Hi. apply Hs, Hr, Hi. Qed.

Lemma write_file_loop_run p cs :
  geometry p ->
  forall c f n m b left buffer buf, fat_chain p f c cs -> NoDup cs -> Forall (cluster_readable p f) cs ->
  ok b f -> (length cs <= n)%nat -> 0 <= left <= cluster_bytes p * Z.of_nat (length cs) ->
  exists b' f', ok b' f' /\ write_file_loop rd wr junk n c left buffer buf (Fs (DState m b) p) = Ret (true, Fs (DState m b') p) /\
    same_but (in_clusters p cs) f f' /\
    chain_data p f' cs = bytes (ram m) buffer left ++ drop (Z.to_nat left) (chain_data p f cs).
Proof using BR BW.
  intros Hg. pose proof (geo_spc p Hg). assert (0 < cluster_bytes p) as Hcb by (unfold cluster_bytes; lia).
  induction cs as [|c0 cs IH]; intros c f n m b left buffer buf Hch Hnd Hrd Hok Hn Hleft; [inversion Hch|].
  assert (c0 = c) as -> by (by inversion Hch). destruct n as [|n]; [cbn in Hn; lia|]. cbn [write_file_loop].
  destruct (Z.eqb_spec left 0) as [->|Hne]; [exists b, f; by split_and!|].
  pose proof (fat_chain_all _ _ _ _ Hch) as Hvs. pose proof (chain_valid _ _ _ _ Hch) as Hv.
  inversion_clear Hrd as [|? ? Hrc Hrcs]. apply NoDup_cons in Hnd as [Hcn Hnd].
  rewrite bind_gets. cbn [bpb].
  destruct (write_cluster_run (Z.to_nat (sectors_per_cluster p)) m p c Hg Hv b f 0 left buffer buf Hok) as (buf1 & b1 & f1 & Hok1 & E1 & Hs1 & Hd1);
    [lia|lia|lia|rewrite Z.add_0_r, Z2Nat.id by lia; exact Hrc|].
  rewrite Z2Nat.id, Z.add_0_r in * by lia. fold (cluster_bytes p) in *. set (k := Z.min left (cluster_bytes p)) in *.
  rewrite (bind_run _ _ _ _ _ E1).
  assert (forall l, (cluster_lba p c <= l < cluster_lba p c + sectors_per_cluster p) -> data_start p <= l) as Hds
    by (intros l Hl; destruct (cluster_to_lba_val p c Hg Hv); lia).
  apply (fat_chain_kept p f f1 _ _ _ Hg Hs1 Hds) in Hch.
  assert (same_but (in_clusters p (c :: cs)) f f1) as Hs1'.
  { eapply same_but_weaken; [|exact Hs1]. intros l Hl. exists c. split; [apply elem_hd|exact Hl]. }
  pose proof (length_sectors_data f (cluster_lba p c) _ (bd_sectors b f Hok) Hrc ltac:(lia)) as Hlen.
  destruct Hv as (Hv1 & Hv2 & _).
  inversion Hch as [? e _ He Hend|? e ? _ He Hend Hch']; subst.
  - destruct (get_next_run m b1 f1 p c e Hok1 Hg Hv1 Hv2 He) as (b2 & E2 & Hok2). rewrite (bind_run _ _ _ _ _ E2), Hend.
    exists b2, f1. cbn [length] in *. assert (k = left) as Hk by lia. split_and!; [done| |done|].
    + destruct (Z.eqb_spec (left - k) 0); [done|lia].
    + rewrite !chain_data_cons, Hd1, Hk. change (chain_data p _ []) with (@nil Z). by rewrite !app_nil_r.
  - destruct (get_next_run m b1 f1 p c e Hok1 Hg Hv1 Hv2 He) as (b2 & E2 & Hok2). rewrite (bind_run _ _ _ _ _ E2), Hend.
    destruct (IH e f1 n m b2 (left - k) (buffer + k) buf1 Hch' Hnd) as (b3 & f3 & Hok3 & E3 & Hs3 & Hd3); try done.
    { eapply Forall_impl; [exact Hrcs|]. intros d. by apply readable_kept with (1 := Hs1). }
    { cbn in Hn. lia. } { cbn [length] in Hleft. lia. }
    exists b3, f3. rewrite E3. split_and!; [done|done| |].
    + eapply same_but_trans; [exact Hs1'|]. eapply same_but_weaken; [|exact Hs3].
      intros l (d & Hd & Hl). exists d. split; [by apply elem_tl|exact Hl].
    + rewrite !chain_data_cons, Hd3, (sectors_data_ext f1 f3), Hd1, (chain_data_ext p f f1).
      * by apply splice; [lia|exact Hlen|lia].
      * intros l Hl. apply (proj2 Hs1). intros Hin. by apply (in_clusters_apart p c cs l Hg Hvs Hcn Hin).
      * intros i Hi. apply (proj2 Hs3). by apply (in_clusters_apart p c cs _ Hg Hvs Hcn); lia.
Qed.
End Routines.
