(* ===== verification/Fat32Dir.v ===== *)
(** * FAT entries and directories

    Updating a FAT entry ([fat_set_next_cluster]) and looking a name up in
    the root directory ([fat32_find_file]), for any [BlockReader]
    and [BlockWriter]. *)
From S2P Require Import Prelude Machine Utils Serial Memory Disk BlockDev Fat32 Fat32Spec.

(** ** Updating the FAT *)

(** A sector after the entry at offset [o] was set: the low 28 bits are
    those of [next], the top four bits stay. *)
Definition patched (l : list Z) (o next : Z) : list Z :=
  (fun i => if i =? o then next mod 256
            else if i =? o + 1 then next / 256 mod 256
            else if i =? o + 2 then next / 65536 mod 256
            else if i =? o + 3 then byte_at l i / 16 * 16 + next / 16777216 mod 16
            else byte_at l i) <$> seqZ 0 512.

Lemma nibbles a b : 0 <= a < 256 -> 0 <= b -> Z.lor (Z.land a 0xF0) (Z.land b 0x0F) = a / 16 * 16 + b mod 16.
Proof.
  intros Ha Hb. change 0x0F with (Z.ones 4). rewrite Z.land_ones, Z.lor_comm by lia.
  assert (Z.land a 0xF0 = Z.shiftl (a / 16) 4) as ->.
  { apply Z.bits_inj'. intros i Hi. rewrite Z.land_spec. change 0xF0 with (Z.shiftl (Z.ones 4) 4).
    rewrite !Z.shiftl_spec by lia.
    destruct (Z.lt_ge_cases i 4); [rewrite !(Z.testbit_neg_r _ (i - 4)) by lia; apply andb_false_r|].
    change 16 with (2 ^ 4). rewrite <- Z.shiftr_div_pow2, Z.shiftr_spec by lia. replace (i - 4 + 4) with i by lia.
    destruct (Z.lt_ge_cases i 8).
    - rewrite Z.ones_spec_low by lia. apply andb_true_r.
    - rewrite Z.ones_spec_high by lia. rewrite andb_false_r. symmetry.
      rewrite <- (Z.mod_small a (2 ^ 8)) by lia. apply Z.mod_pow2_bits_high. lia. }
  rewrite lor_shiftl by (change (2 ^ 4) with 16; word_lia). change (2 ^ 4) with 16. lia.
Qed.

Lemma byte_at_fmap (g : Z -> Z) n i : 0 <= i < n -> byte_at (g <$> seqZ 0 n) i = g i.
Proof.
  intros Hi. unfold byte_at. rewrite list_lookup_fmap, lookup_seqZ_lt by lia. cbn. f_equal. lia.
Qed.

Lemma patched_bytes buf o next :
  0 <= o -> o + 4 <= 512 -> 0 <= next < 4294967296 ->
  let buf1 := st8 buf o (Z.land next 0xFF) in
  let buf2 := st8 buf1 (o + 1) (Z.land (Z.shiftr next 8) 0xFF) in
  let buf3 := st8 buf2 (o + 2) (Z.land (Z.shiftr next 16) 0xFF) in
  bytes (st8 buf3 (o + 3) (Z.lor (Z.land (ld8 buf3 (o + 3)) 0xF0) (Z.land (Z.shiftr next 24) 0x0F))) 0 512 =
  patched (bytes buf 0 512) o next.
Proof.
  intros Ho Ho2 Hn. cbn zeta. change 0xFF with (Z.ones 8). rewrite !Z.land_ones, !Z.shiftr_div_pow2 by lia.
  change (2 ^ 8) with 256. change (2 ^ 16) with 65536. change (2 ^ 24) with 16777216.
  rewrite nibbles by (try apply ld8_range; apply Z.div_pos; lia).
  unfold bytes at 1, patched. apply list_fmap_ext. intros k i Hi. apply list_elem_of_lookup_2, elem_of_seqZ in Hi.
  rewrite byte_at_bytes, !ld8_st8 by lia. rewrite Z.add_0_l. pose proof (ld8_range buf i).
  zcases; subst; try lia; try reflexivity; try (apply u8_small; word_lia).
Qed.

Lemma word32_patched_same l o next : 0 <= o -> o + 4 <= 512 -> 0 <= next < 4294967296 -> byte_list l ->
  word32_at (patched l o next) o = word32_at l o / 268435456 * 268435456 + next mod 268435456.
Proof.
  intros Ho Ho2 Hn Hb. unfold word32_at, word16_at, patched. rewrite !byte_at_fmap by lia.
  assert (forall i, 0 <= byte_at l i < 256) as Hr.
  { intros i. unfold byte_at. destruct (l !! Z.to_nat i) eqn:E; [|cbn; lia]. by apply (Forall_lookup_1 _ _ _ _ Hb E). }
  pose proof (Hr o). pose proof (Hr (o + 1)). pose proof (Hr (o + 2)). pose proof (Hr (o + 3)).
  replace (o + 2 + 1) with (o + 3) by lia. zcases; try lia. word_lia.
Qed.

Lemma word32_patched_other l o next k : length l = 512%nat -> 0 <= k -> k + 4 <= 512 -> k + 4 <= o \/ o + 4 <= k ->
  word32_at (patched l o next) k = word32_at l k.
Proof.
  intros Hl Hk Hk2 Hd. unfold word32_at, word16_at, patched. rewrite !byte_at_fmap by lia. zcases; try lia; reflexivity.
Qed.

Lemma length_patched l o next : length (patched l o next) = 512%nat.
Proof. unfold patched. by rewrite length_fmap, length_seqZ. Qed.

(** The sector of cluster [c]'s entry in copy [k] of the FAT. *)
Definition fat_copy (p : FAT32_BPB) (k c : Z) : Z := reserved_sectors p + k * fat_size_sectors p + c / 128.

(** ** Directories as lists of 32-byte entries *)

Fixpoint chunks (n : nat) (l : list Z) : list (list Z) :=
  match n with
  | O => []
  | S n' => take 32 l :: chunks n' (drop 32 l)
  end.
Definition entries (l : list Z) : list (list Z) := chunks (length l / 32) l.

(** Deleted, long-name and volume-label entries are passed over. *)
Definition entry_skipped (e : list Z) : bool :=
  (byte_at e 0 =? 0xE5) || (Z.land (byte_at e 11) 0x0F =? 0x0F) || negb (Z.land (byte_at e 11) 0x08 =? 0).
Definition entry_file (e : list Z) : FAT32_FILE :=
  File (take 11 e ++ [0]) (65536 * word16_at e 20 + word16_at e 26) (word32_at e 28).

(** The first entry called [nm] before the end marker. *)
Fixpoint scan_entries (nm : list Z) (es : list (list Z)) : dir_scan :=
  match es with
  | [] => DirMore
  | e :: es =>
      if byte_at e 0 =? 0 then DirEnd
      else if entry_skipped e then scan_entries nm es
      else if bool_decide (take 11 e = nm) then DirFound (entry_file e)
      else scan_entries nm es
  end.
Definition dir_lookup (nm : list Z) (es : list (list Z)) : option FAT32_FILE :=
  match scan_entries nm es with DirFound f => Some f | _ => None end.

Lemma scan_entries_app nm es1 es2 :
  scan_entries nm (es1 ++ es2) = match scan_entries nm es1 with DirMore => scan_entries nm es2 | r => r end.
Proof.
  induction es1 as [|e es1 IH]; [reflexivity|]. cbn [app scan_entries].
  destruct (byte_at e 0 =? 0); [reflexivity|]. destruct (entry_skipped e); [exact IH|].
  destruct (bool_decide _); [reflexivity|exact IH].
Qed.

Lemma chunks_app n k l1 l2 : length l1 = (32 * n)%nat -> chunks (n + k) (l1 ++ l2) = chunks n l1 ++ chunks k l2.
Proof.
  revert l1; induction n as [|n IH]; intros l1 Hl; cbn [chunks Nat.add app].
  - by destruct l1; [|discriminate].
  - rewrite take_app_le, drop_app_le by lia. f_equal. apply IH. rewrite length_drop. lia.
Qed.

Lemma entries_app l1 l2 : (length l1 mod 32 = 0)%nat -> entries (l1 ++ l2) = entries l1 ++ entries l2.
Proof.
  intros H. unfold entries. rewrite length_app.
  assert (length l1 = 32 * (length l1 / 32))%nat as Hl by (pose proof (Nat.div_mod_eq (length l1) 32); lia).
  rewrite <- chunks_app by exact Hl. f_equal. rewrite Hl at 1. rewrite (Nat.mul_comm 32), Nat.div_add_l by lia. reflexivity.
Qed.

Lemma memcmp_local_zero ma a mb b n : 0 <= n ->
  (memcmp_local ma a mb b n =? 0) = bool_decide (bytes mb b n = bytes ma a n).
Proof.
  intros Hn. unfold memcmp_local.
  assert (forall k i, (memcmp_local_from ma a mb b i k =? 0) =
    bool_decide (bytes mb (b + i) (Z.of_nat k) = bytes ma (a + i) (Z.of_nat k))) as H.
  { induction k as [|k IH]; intros i; [reflexivity|]. cbn [memcmp_local_from].
    replace (Z.of_nat (S k)) with (Z.of_nat k + 1) by lia. rewrite !bytes_cons by lia.
    destruct (Z.eqb_spec (ld8 ma (a + i)) (ld8 mb (b + i))) as [E|E]; cbn [negb].
    - rewrite IH, <- E, !Z.add_assoc. apply bool_decide_ext. split; [by intros ->|by intros [= ->]].
    - rewrite bool_decide_eq_false_2 by congruence. apply Z.eqb_neq. lia. }
  rewrite H, Z2Nat.id, !Z.add_0_r by lia. reflexivity.
Qed.

(** The scan of a sector in memory. *)
Lemma find_in_sector_run n i m filename buf :
  find_in_sector n i m filename buf = scan_entries (bytes m filename 11) (chunks n (bytes buf i (32 * Z.of_nat n))).
Proof.
  revert i; induction n as [|n IH]; intros i; [reflexivity|]. cbn [find_in_sector chunks scan_entries].
  replace (32 * Z.of_nat (S n)) with (32 + 32 * Z.of_nat n) by lia. rewrite bytes_app by lia.
  rewrite take_app_length', drop_app_length' by (by rewrite length_bytes). rewrite <- IH.
  unfold entry_skipped. rewrite !byte_at_bytes, Z.add_0_r by lia.
  destruct (ld8 buf i =? 0x00); [reflexivity|]. destruct (ld8 buf i =? 0xE5); [reflexivity|]. cbn [orb].
  destruct (Z.land _ 0x0F =? 0x0F); [reflexivity|]. cbn [orb]. destruct (negb _); [reflexivity|].
  change 11%nat with (Z.to_nat 11). rewrite bytes_take, memcmp_local_zero by lia. destruct (bool_decide _); [|reflexivity].
  f_equal. unfold entry_file. change 11%nat with (Z.to_nat 11). rewrite bytes_take, !word16_at_bytes, word32_at_bytes by lia.
  f_equal. rewrite Z.lor_comm, lor_shiftl; [lia|lia|]. apply (ldn_range 2).
Qed.

Section Routines.
Context {B : Type} (rd : Z -> Z -> Z -> mem -> M (dstate B) (bool * mem))
  (wr : Z -> Z -> Z -> mem -> M (dstate B) bool) (ok : B -> contents -> Prop)
  {BR : BlockReader B rd ok} {BW : BlockWriter B wr ok} (junk : mem).
Implicit Types (m : mstate) (b : B) (f : contents) (p : FAT32_BPB).

Lemma fat_copy_range p k c : geometry p -> 0 <= k < num_fats p -> 0 <= c < 128 * fat_size_sectors p ->
  0 <= fat_copy p k c < data_start p.
Proof.
  intros [] Hk Hc. unfold fat_copy, data_start. assert (0 <= k * fat_size_sectors p) by nia.
  assert ((k + 1) * fat_size_sectors p <= num_fats p * fat_size_sectors p) by nia. split; [word_lia|].
  assert (c / 128 < fat_size_sectors p) by word_lia. lia.
Qed.

Lemma fat_copy_inj p k c k' d : geometry p -> 0 <= c < 128 * fat_size_sectors p -> 0 <= d < 128 * fat_size_sectors p ->
  fat_copy p k c = fat_copy p k' d -> k = k' /\ c / 128 = d / 128.
Proof.
  intros [] Hc Hd H. unfold fat_copy in H. assert (0 <= c / 128 < fat_size_sectors p) by word_lia.
  assert (0 <= d / 128 < fat_size_sectors p) by word_lia. assert (k < k' \/ k = k' \/ k' < k) as [|[|]] by lia; nia.
Qed.

(** One copy of the FAT. *)
Lemma fat_set_one n p c next m b f fat old :
  geometry p -> 2 <= c < 128 * fat_size_sectors p -> c < 0x0FFFFFF8 -> 0 <= next < 4294967296 ->
  ok b f -> 0 <= fat < num_fats p -> f !! fat_copy p fat c = Some old ->
  exists b', ok b' (<[fat_copy p fat c := patched old (c mod 128 * 4) next]> f) /\
    fat_set_loop rd wr junk (S n) fat (c * 4) (c mod 128 * 4) next (Fs (DState m b) p) =
    fat_set_loop rd wr junk n (fat + 1) (c * 4) (c mod 128 * 4) next (Fs (DState m b') p).
Proof using BR BW.
  intros Hg Hc Hc2 Hn Hok Hfat Hold. cbn [fat_set_loop]. rewrite bind_gets. cbn [bpb]. rewrite (geo_bps p Hg).
  pose proof (fat_copy_range p fat c Hg ltac:(lia) ltac:(lia)) as Hr. pose proof (geo_end p Hg) as He.
  unfold fat_start_lba, data_start, LBA_LIMIT in *.
  assert (u32 (u32 (reserved_sectors p + u32 (fat * fat_size_sectors p)) + c * 4 / 512) = fat_copy p fat c) as ->.
  { unfold fat_copy in *. pose proof (geo_size p Hg). pose proof (geo_res p Hg). assert (0 <= fat * fat_size_sectors p) by nia.
    replace (c * 4 / 512) with (c / 128) by word_lia. assert (0 <= c / 128) by word_lia.
    rewrite (u32_small (fat * _)), (u32_small (_ + fat * _)), u32_small by lia. reflexivity. }
  destruct (read_one rd ok m b f p (fat_copy p fat c) junk old Hok ltac:(unfold LBA_LIMIT; lia) Hold) as (buf & b1 & E1 & Hok1 & ->).
  rewrite (bind_run _ _ _ _ _ E1). cbn [negb].
  pose proof (patched_bytes buf (c mod 128 * 4) next ltac:(word_lia) ltac:(word_lia) Hn) as Hpb. cbn zeta in Hpb.
  set (buf4 := st8 _ (_ + 3) _) in *.
  destruct (write_one rd wr ok m b1 f p (fat_copy p fat c) 0 buf4 Hok1 ltac:(unfold LBA_LIMIT; lia) ltac:(rewrite Hold; eauto)) as (b2 & E2 & Hok2).
  rewrite (bind_run _ _ _ _ _ E2). cbn [negb]. exists b2. rewrite Hpb in Hok2. split; [exact Hok2|done].
Qed.

Lemma fat_set_loop_run n p c next m :
  geometry p -> 2 <= c < 128 * fat_size_sectors p -> c < 0x0FFFFFF8 -> 0 <= next < 4294967296 ->
  forall b f fat, ok b f -> 0 <= fat -> fat + Z.of_nat n <= num_fats p ->
  (forall k, fat <= k < fat + Z.of_nat n -> is_Some (f !! fat_copy p k c)) ->
  exists b' f', ok b' f' /\
    fat_set_loop rd wr junk n fat (c * 4) (c mod 128 * 4) next (Fs (DState m b) p) = Ret (true, Fs (DState m b') p) /\
    same_but (fun l => exists k, fat <= k < fat + Z.of_nat n /\ l = fat_copy p k c) f f' /\
    forall k l, fat <= k < fat + Z.of_nat n -> f !! fat_copy p k c = Some l ->
      f' !! fat_copy p k c = Some (patched l (c mod 128 * 4) next).
Proof using BR BW.
  intros Hg Hc Hc2 Hn. induction n as [|n IH]; intros b f fat Hok Hf0 Hfn Hrd.
  { exists b, f. split_and!; [done|done|by split|intros; lia]. }
  destruct (Hrd fat ltac:(lia)) as [old Hold].
  destruct (fat_set_one n p c next m b f fat old Hg Hc Hc2 Hn Hok ltac:(lia) Hold) as (b1 & Hok1 & ->).
  pose proof (same_but_insert f (fat_copy p fat c) (patched old (c mod 128 * 4) next) ltac:(rewrite Hold; eauto)) as Hs1.
  set (f1 := <[_ := _]> f) in *. assert (f1 !! fat_copy p fat c = Some (patched old (c mod 128 * 4) next)) as Hf1 by apply lookup_insert_eq.
  assert (forall k, fat < k -> ~ fat_copy p fat c = fat_copy p k c) as Hne.
  { intros k Hk E. apply (fat_copy_inj p fat c k c Hg) in E as [? _]; lia. }
  destruct (IH b1 f1 (fat + 1) Hok1 ltac:(lia) ltac:(lia)) as (b3 & f3 & Hok3 & E3 & Hs3 & Hd3).
  { intros k Hk. apply (proj1 Hs1), Hrd. lia. }
  exists b3, f3. split_and!; [done|done| |].
  - apply (same_but_trans _ f f1); (eapply same_but_weaken; [|eassumption]); [intros l <-; exists fat; lia|].
    intros l (k & Hk & ->). exists k. lia.
  - intros k l Hk Hl. destruct (Z.eq_dec k fat) as [->|].
    + rewrite (proj2 Hs3); [congruence|]. intros (k & Hk' & E). by apply (Hne k) in E; [|lia].
    + apply Hd3; [lia|]. rewrite (proj2 Hs1); [done|]. apply Hne. lia.
Qed.

Lemma find_in_cluster_run n p c (nm : mem) filename m :
  geometry p -> valid_cluster p c ->
  forall b f sec buf, ok b f -> 0 <= sec -> sec + Z.of_nat n <= sectors_per_cluster p ->
  readable f (cluster_lba p c + sec) (Z.of_nat n) ->
  exists r buf' b', find_in_cluster rd n sec c nm filename buf (Fs (DState m b) p) = Ret ((r, buf'), Fs (DState m b') p) /\
    ok b' f /\
    let sc := scan_entries (bytes nm filename 11) (entries (sectors_data f (cluster_lba p c + sec) (Z.of_nat n))) in
    r = match sc with DirEnd => None | _ => Some sc end.
Proof using BR.
  intros Hg Hv. destruct (cluster_to_lba_val p c Hg Hv) as (Hlba & _ & Hl0). pose proof (geo_spc p Hg).
  destruct Hv as (_ & _ & Hend). unfold LBA_LIMIT in Hend.
  induction n as [|n IH]; intros b f sec buf Hok Hsec Hn Hrd; cbn [find_in_cluster].
  { eexists _, buf, b. by split_and!. }
  rewrite bind_gets. cbn [bpb]. rewrite (geo_bps p Hg), Hlba. destruct (Z.eqb_spec (cluster_lba p c) 0); [lia|].
  rewrite u32_small by lia. destruct (Hrd 0 ltac:(lia)) as [l Hl]. rewrite Z.add_0_r in Hl.
  destruct (read_one rd ok m b f p (cluster_lba p c + sec) buf l Hok ltac:(unfold LBA_LIMIT; lia) Hl) as (buf1 & b1 & E1 & Hok1 & Hb).
  rewrite (bind_run _ _ _ _ _ E1). cbn [negb]. change (Z.to_nat ((512 + 31) / 32)) with 16%nat. rewrite find_in_sector_run.
  change (32 * Z.of_nat 16) with 512. rewrite <- Hb.
  replace (Z.of_nat (S n)) with (Z.of_nat n + 1) by lia. rewrite sectors_data_S, Hl by lia. unfold default, id.
  assert (length l = 512%nat) as Hlen by (rewrite Hb; apply length_bytes).
  rewrite entries_app by (by rewrite Hlen). cbn zeta. rewrite scan_entries_app.
  assert (entries l = chunks 16 l) as -> by (unfold entries; by rewrite Hlen).
  destruct (scan_entries _ (chunks 16 l)); [by eexists _, buf1, b1|by eexists _, buf1, b1|].
  destruct (IH b1 f (sec + 1) buf1 Hok1 ltac:(lia) ltac:(lia)) as (r & buf2 & b2 & E2 & Hok2 & Hr).
  { intros i Hi. replace (cluster_lba p c + (sec + 1) + i) with (cluster_lba p c + sec + (1 + i)) by lia. apply Hrd. lia. }
  replace (cluster_lba p c + (sec + 1)) with (cluster_lba p c + sec + 1) in Hr by lia. exists r, buf2, b2. split_and!; done.
Qed.

Lemma find_in_chain_run f p c cs (nm : mem) filename m :
  geometry p -> fat_chain p f c cs -> Forall (cluster_readable p f) cs ->
  forall n b buf, ok b f -> (length cs <= n)%nat ->
  exists b', find_in_chain rd junk n c nm filename buf (Fs (DState m b) p) =
      Ret (dir_lookup (bytes nm filename 11) (entries (chain_data p f cs)), Fs (DState m b') p) /\ ok b' f.
Proof using BR.
  intros Hg Hch. pose proof (geo_spc p Hg).
  induction Hch as [c e Hv He Hend|c e cs Hv He Hend Hch IH]; intros Hrd n b buf Hok Hn;
    (destruct n as [|n]; [cbn in Hn; lia|]); inversion_clear Hrd as [|? ? Hrc Hrcs]; cbn [find_in_chain];
    rewrite bind_gets; cbn [bpb]; unfold cluster_readable in Hrc;
    (destruct (find_in_cluster_run (Z.to_nat (sectors_per_cluster p)) p c nm filename m Hg Hv b f 0 buf Hok)
       as (r & buf1 & b1 & E1 & Hok1 & Hr); [lia|lia|rewrite Z.add_0_r, Z2Nat.id by lia; exact Hrc|]);
    rewrite Z.add_0_r, Z2Nat.id in Hr by lia; cbn zeta in Hr; rewrite (bind_run _ _ _ _ _ E1);
    pose proof (length_sectors_data f _ _ (bd_sectors b f Hok) Hrc ltac:(lia)) as Hlen;
    rewrite chain_data_cons; unfold dir_lookup; rewrite entries_app, scan_entries_app;
    try (rewrite Hlen; apply Nat2Z.inj; rewrite Nat2Z.inj_mod, Z2Nat.id by lia; change (Z.of_nat 32) with 32; word_lia);
    destruct Hv as (Hv1 & Hv2 & _); destruct (get_next_run rd ok junk m b1 f p c e Hok1 Hg Hv1 Hv2 He) as (b2 & E2 & Hok2);
    destruct (scan_entries _ (entries (sectors_data _ _ _))); subst r;
    try (eexists; split; [reflexivity|assumption]); rewrite (bind_run _ _ _ _ _ E2), Hend.
  - exists b2. by split.
  - apply IH; [done|done|cbn in Hn; lia].
Qed.
End Routines.
