(* ===== verification/Fat32Theorems.v ===== *)
(** * The properties of the FAT32 file system

    Each holds for any block device; the witnesses run on a small volume on
    the simulated drive of BlockDev.v, through the ATA driver. *)
From S2P Require Import Prelude Machine Utils Serial Memory Disk BlockDev Fat32 Fat32Spec Fat32Dir.

(** ** A small volume: one FAT of one sector, one sector per cluster; root
    directory in cluster 2, one file of 600 bytes in clusters 3 and 4. *)

Definition sector_of (g : Z -> Z) : list Z := g <$> seqZ 0 512.
Definition boot_sector : list Z := sector_of (fun i =>
  if i =? 12 then 2 else if i =? 13 then 1 else if i =? 14 then 1 else if i =? 16 then 1
  else if i =? 36 then 1 else if i =? 44 then 2 else 0).
Definition fat_table : list Z := sector_of (fun i =>
  if (8 <=? i) && (i <? 11) then 255 else if i =? 11 then 15
  else if i =? 12 then 4 else if (16 <=? i) && (i <? 19) then 255 else if i =? 19 then 15 else 0).
Definition readme : list Z := [82; 69; 65; 68; 77; 69; 32; 32; 84; 88; 84].
Definition root_dir : list Z := sector_of (fun i =>
  if i <? 11 then byte_at readme i else if i =? 26 then 3 else if i =? 28 then 88 else if i =? 29 then 2 else 0).
Definition data3 : list Z := sector_of (fun i => i mod 251).
Definition data4 : list Z := sector_of (fun i => (i + 512) mod 251).

Definition volume : contents := {[0 := boot_sector; 1 := fat_table; 2 := root_dir; 3 := data3; 4 := data4]}.
Definition volume_drive : sim := Sim {[2048 := boot_sector; 2049 := fat_table; 2050 := root_dir;
  2051 := data3; 2052 := data4]} 0 0 0 0 SimIdle.
Definition volume_bpb : FAT32_BPB := Bpb 512 1 1 1 1 2.
Definition readme_file : FAT32_FILE := File (readme ++ [0]) 3 600.
Definition volume_fs : fs sim := Fs (DState mach0 volume_drive) volume_bpb.

Lemma sector_of_ok g : (forall i, 0 <= i < 512 -> 0 <= g i < 256) -> length (sector_of g) = 512%nat /\ byte_list (sector_of g).
Proof.
  intros Hg. unfold sector_of. split; [by rewrite length_fmap, length_seqZ|].
  apply Forall_fmap, Forall_forall. intros i Hi%elem_of_seqZ. cbn. apply Hg. lia.
Qed.

Lemma readme_byte i : 0 <= byte_at readme i < 256.
Proof.
  unfold byte_at. destruct (readme !! Z.to_nat i) eqn:E; [|cbn; lia].
  assert (byte_list readme) as Hb by (unfold readme; repeat constructor; lia). exact (Forall_lookup_1 _ _ _ _ Hb E).
Qed.

Lemma volume_ok : ata_disk volume_drive volume.
Proof.
  exists (sim_disk volume_drive). split; [split; [reflexivity|]|].
  - unfold volume_drive. cbn [sim_disk]. intros lba l.
    repeat (rewrite lookup_insert_Some; intros [[<- <-]|[_ Hl]]; [|revert Hl]);
      try (intros [<- <-]%lookup_singleton_Some); try (intros _);
      apply sector_of_ok; intros i Hi; try apply readme_byte; try word_lia; zcases; try lia; try apply readme_byte; word_lia.
  - intros lba. unfold volume, volume_drive. cbn [sim_disk]. rewrite !lookup_insert, !lookup_singleton.
    repeat case_decide; unfold LBA_LIMIT; zcases; try lia; reflexivity.
Qed.

Lemma volume_geometry : geometry volume_bpb.
Proof. split; cbn; unfold LBA_LIMIT; lia. Qed.

Lemma volume_chain : fat_chain volume_bpb volume 3 [3; 4].
Proof.
  apply (chain_next _ _ 3 4); [| |reflexivity|apply (chain_last _ _ 4 0x0FFFFFFF)];
    try (vm_compute; reflexivity); (split; [cbn; lia|split; [lia|vm_compute; congruence]]).
Qed.
Lemma volume_root : fat_chain volume_bpb volume 2 [2].
Proof.
  apply (chain_last _ _ 2 0x0FFFFFFF); try (vm_compute; reflexivity). split; [cbn; lia|split; [lia|vm_compute; congruence]].
Qed.

Lemma volume_readable c : 2 <= c <= 4 -> cluster_readable volume_bpb volume c.
Proof.
  intros Hc i Hi. cbn in Hi. assert (i = 0) as -> by lia. assert (c = 2 \/ c = 3 \/ c = 4) as [->|[->| ->]] by lia;
    vm_compute; eauto.
Qed.

Section Theorems.
Context {B : Type} (rd : Z -> Z -> Z -> mem -> M (dstate B) (bool * mem))
  (wr : Z -> Z -> Z -> mem -> M (dstate B) bool) (ok : B -> contents -> Prop)
  {BR : BlockReader B rd ok} {BW : BlockWriter B wr ok} (junk : mem).
Implicit Types (m : mstate) (b : B) (f : contents) (p : FAT32_BPB).

Lemma read_file_fuel n c : 0 <= n -> 0 < c -> (n + c - 1) / c < Z.of_nat (Z.to_nat (n / c + 2)).
Proof.
  intros Hn Hc. rewrite Z2Nat.id by (pose proof (Z.div_pos n c Hn Hc); lia).
  assert ((n + c - 1) / c <= n / c + 1); [|lia].
  rewrite <- (Z.div_add n 1 c) by lia. apply Z.div_le_mono; lia.
Qed.

Lemma read_file_run m b f p file cs buffer :
  ok b f -> geometry p -> fat_chain p f (first_cluster file) cs -> Forall (cluster_readable p f) cs ->
  0 <= size file < 4294967296 -> 0 < buffer ->
  exists mm b', fat32_read_file rd junk (Some file) buffer (Fs (DState m b) p) =
      Ret (size file <=? cluster_bytes p * Z.of_nat (length cs), Fs (DState (set_ram mm m) b') p) /\ ok b' f /\
    (forall x, x < buffer \/ buffer + size file <= x -> ld8 mm x = ld8 (ram m) x) /\
    (size file <= cluster_bytes p * Z.of_nat (length cs) ->
     bytes mm buffer (size file) = take (Z.to_nat (size file)) (chain_data p f cs)).
Proof using BR.
  intros Hok Hg Hch Hrd Hs Hb. pose proof (geo_spc p Hg). assert (0 < cluster_bytes p) by (unfold cluster_bytes; lia).
  unfold fat32_read_file. destruct (Z.eqb_spec buffer 0); [lia|]. rewrite bind_gets. cbn [bpb].
  rewrite (geo_bps p Hg), (Z.mul_comm (sectors_per_cluster p)). fold (cluster_bytes p).
  destruct (read_file_loop_run rd ok junk f p _ cs Hg Hch Hrd (Z.to_nat (size file / cluster_bytes p + 2)) m b
    (size file) buffer junk Hok ltac:(lia)) as (r & mm & b' & E & Hok' & -> & Hout & Hd).
  { apply read_file_fuel; lia. }
  exists mm, b'. split_and!; [exact E|done|done|]. intros Hle. apply Hd. by apply Z.leb_le.
Qed.

Lemma write_file_run m b f p file cs buffer :
  ok b f -> geometry p -> fat_chain p f (first_cluster file) cs -> Forall (cluster_readable p f) cs -> NoDup cs ->
  Z.of_nat (length cs) <= max_clusters p ->
  0 <= size file < 4294967296 -> size file <= cluster_bytes p * Z.of_nat (length cs) -> 0 < buffer ->
  exists b1 f1, ok b1 f1 /\
    fat32_write_file rd wr junk (Some file) buffer (Fs (DState m b) p) = Ret (true, Fs (DState m b1) p) /\
    same_but (in_clusters p cs) f f1 /\
    chain_data p f1 cs = bytes (ram m) buffer (size file) ++ drop (Z.to_nat (size file)) (chain_data p f cs).
Proof using BR BW.
  intros Hok Hg Hch Hrd Hnd Hmax Hs Hle Hb. unfold fat32_write_file.
  destruct (Z.eqb_spec buffer 0); [lia|]. rewrite bind_gets. cbn [bpb].
  apply (write_file_loop_run rd wr ok junk p cs Hg (first_cluster file) f (Z.to_nat (max_clusters p)) m b (size file)
    buffer junk Hch Hnd Hrd Hok ltac:(lia) ltac:(lia)).
Qed.

(** C27. [fat32_read_file] on a file whose cluster chain is readable: it
    returns; it returns true exactly when the chain is long enough for the
    file's size, and then the buffer holds the first [size] bytes of the
    chain's clusters in order; no RAM outside the buffer changes, and the
    disk does not change. *)
Theorem fat32_read_file_correct m b f p file cs buffer :
  ok b f -> geometry p -> fat_chain p f (first_cluster file) cs -> Forall (cluster_readable p f) cs ->
  0 <= size file < 4294967296 -> 0 < buffer ->
  exists mm b', fat32_read_file rd junk (Some file) buffer (Fs (DState m b) p) =
      Ret (size file <=? cluster_bytes p * Z.of_nat (length cs), Fs (DState (set_ram mm m) b') p) /\ ok b' f /\
    (forall x, x < buffer \/ buffer + size file <= x -> ld8 mm x = ld8 (ram m) x) /\
    (size file <= cluster_bytes p * Z.of_nat (length cs) ->
     bytes mm buffer (size file) = take (Z.to_nat (size file)) (chain_data p f cs)).
Proof using BR. apply read_file_run. Qed.

(** C7. Round trip: writing a file from a buffer and reading it back, in any
    later state of RAM, gives the bytes that were in the buffer.  The write
    returns true, changes only sectors of the file's clusters, and keeps the
    bytes of the last cluster behind the end of the file. *)
Theorem fat32_write_read_roundtrip m b f p file cs buffer m2 buffer2 :
  ok b f -> geometry p -> fat_chain p f (first_cluster file) cs -> Forall (cluster_readable p f) cs -> NoDup cs ->
  Z.of_nat (length cs) <= max_clusters p ->
  0 <= size file < 4294967296 -> size file <= cluster_bytes p * Z.of_nat (length cs) -> 0 < buffer -> 0 < buffer2 ->
  exists b1 f1, fat32_write_file rd wr junk (Some file) buffer (Fs (DState m b) p) = Ret (true, Fs (DState m b1) p) /\
    same_but (in_clusters p cs) f f1 /\
    chain_data p f1 cs = bytes (ram m) buffer (size file) ++ drop (Z.to_nat (size file)) (chain_data p f cs) /\
    exists mm b2, fat32_read_file rd junk (Some file) buffer2 (Fs (DState m2 b1) p) =
        Ret (true, Fs (DState (set_ram mm m2) b2) p) /\
      bytes mm buffer2 (size file) = bytes (ram m) buffer (size file).
Proof using BR BW.
  intros Hok Hg Hch Hrd Hnd Hmax Hs Hle Hb Hb2.
  destruct (write_file_run m b f p file cs buffer Hok Hg Hch Hrd Hnd Hmax Hs Hle Hb) as (b1 & f1 & Hok1 & E1 & Hs1 & Hd1).
  exists b1, f1. split_and!; [exact E1|exact Hs1|exact Hd1|].
  assert (fat_chain p f1 (first_cluster file) cs) as Hch1.
  { eapply fat_chain_kept; [exact Hg|exact Hs1| |exact Hch]. intros l. apply in_clusters_data; [done|by eapply fat_chain_all]. }
  assert (Forall (cluster_readable p f1) cs) as Hrd1.
  { eapply Forall_impl; [exact Hrd|]. intros c. by apply readable_kept with (1 := Hs1). }
  destruct (read_file_run m2 b1 f1 p file cs buffer2 Hok1 Hg Hch1 Hrd1 Hs Hb2) as (mm & b2 & E2 & _ & _ & Hd2).
  exists mm, b2. rewrite E2, (Hd2 Hle), Hd1, take_app_length' by (by rewrite length_bytes).
  split; [|done]. do 2 f_equal. by apply Z.leb_le.
Qed.

(** C29. [fat32_find_file] looks the 11-byte name up in the flat list of
    32-byte entries of the root directory's chain: it returns the first
    entry with that name that is not deleted, a long-name part or a volume
    label and stands before the end marker - cluster, size and name decoded
    from the entry - or fails if there is none. *)
Theorem fat32_find_file_correct m b f p cs (nm : mem) filename :
  ok b f -> geometry p -> fat_chain p f (root_cluster p) cs -> Forall (cluster_readable p f) cs ->
  Z.of_nat (length cs) <= max_clusters p -> 0 < filename ->
  exists b', fat32_find_file rd junk nm filename (Fs (DState m b) p) =
      Ret (dir_lookup (bytes nm filename 11) (entries (chain_data p f cs)), Fs (DState m b') p) /\ ok b' f.
Proof using BR.
  intros Hok Hg Hch Hrd Hmax Hf. unfold fat32_find_file. destruct (Z.eqb_spec filename 0); [lia|].
  rewrite bind_gets. cbn [bpb]. apply (find_in_chain_run rd ok); try done. lia.
Qed.


(** The ranges [fat32_init] accepts. *)
Definition bpb_accepted (q : FAT32_BPB) : bool :=
  (1 <=? bytes_per_sector q) && (bytes_per_sector q <=? 4096) && (1 <=? sectors_per_cluster q) &&
  (sectors_per_cluster q <=? 128) && (1 <=? num_fats q) && (num_fats q <=? 2) && (2 <=? root_cluster q).

Lemma bpb_checks q :
  0 <= bytes_per_sector q -> 0 <= sectors_per_cluster q -> 0 <= num_fats q ->
  ((bytes_per_sector q =? 0) || (4096 <? bytes_per_sector q) || (sectors_per_cluster q =? 0) ||
   (128 <? sectors_per_cluster q) || (num_fats q =? 0) || (2 <? num_fats q) || (root_cluster q <? 2)) = negb (bpb_accepted q).
Proof. intros H1 H2 H3. unfold bpb_accepted. zcases; (reflexivity || lia). Qed.

(** [fat32_init] reads sector 0.  If it cannot, it returns false and
    keeps the old parameters; otherwise it stores the six fields from their
    offsets, and returns true exactly when they are in the ranges checked. *)
Theorem fat32_init_correct m b f p :
  ok b f ->
  match f !! 0 with
  | None => exists es b', fat32_init rd junk (Fs (DState m b) p) = Ret (false, Fs (DState (add_serial es m) b') p) /\ ok b' f
  | Some l => exists es b',
      let q := Bpb (word16_at l 11) (byte_at l 13) (word16_at l 14) (byte_at l 16) (word32_at l 36) (word32_at l 44) in
      fat32_init rd junk (Fs (DState m b) p) = Ret (bpb_accepted q, Fs (DState (add_serial es m) b') q) /\ ok b' f
  end.
Proof using BR.
  intros Hok. unfold fat32_init. destruct (f !! 0) as [l|] eqn:El.
  - destruct (read_one rd ok m b f p 0 junk l Hok ltac:(unfold LBA_LIMIT; lia) El) as (buf & b' & E & Hok' & ->).
    rewrite (bind_run _ _ _ _ _ E). cbn [negb]. rewrite bind_modify. cbn [fdev].
    rewrite !word16_at_bytes, !byte_at_bytes, !word32_at_bytes, !Z.add_0_l by lia.
    set (q := Bpb _ _ _ _ _ _). pose proof (ldn_range 2 buf 11 : 0 <= bytes_per_sector q < _) as Q1.
    pose proof (ld8_range buf 13 : 0 <= sectors_per_cluster q < _) as Q2. pose proof (ld8_range buf 16 : 0 <= num_fats q < _) as Q3.
    clearbody q. pose proof (bpb_checks q ltac:(lia) ltac:(lia) ltac:(lia)) as Hc.
    exists (if bpb_accepted q then [line "[OS] [FAT32] Init Success"] else []), b'. split; [|done].
    destruct (bpb_accepted q); cbn [negb] in Hc; rewrite ?add_serial_nil.
    + repeat match goal with H : _ || _ = false |- _ => apply orb_false_iff in H as [? ?] end.
      repeat match goal with H : _ = false |- _ => rewrite H; clear H end. reflexivity.
    + repeat match goal with |- context [if ?c then _ else _] => destruct c eqn:?; [reflexivity|] end.
      repeat match goal with H : _ || _ = false |- _ => apply orb_false_iff in H as [? ?] end.
      repeat match goal with H : _ = false |- _ => rewrite H in Hc; clear H end. discriminate.
  - destruct (bd_read m b f 0 0 1 junk Hok ltac:(lia) ltac:(lia) ltac:(unfold LBA_LIMIT; lia)) as (r & buf & es & b' & E & Hok' & _ & Hr & _).
    assert (r = false) as ->.
    { destruct r; [|done]. destruct (proj1 Hr eq_refl 0 ltac:(lia)) as [x Hx]. by rewrite Z.add_0_r, El in Hx. }
    exists es, b'. split; [|done]. by rewrite (bind_run _ _ _ _ _ (on_dev_run _ _ _ p _ _ _ E)).
Qed.
End Theorems.

Section Termination.
Context {B : Type} (rd : Z -> Z -> Z -> mem -> M (dstate B) (bool * mem)) (junk : mem).
Hypothesis rd_returns : forall lba a n buf d, exists r d', rd lba a n buf d = Ret (r, d').

Lemma on_dev_rd lba a n buf (s : fs B) : exists r s', on_dev (rd lba a n buf) s = Ret (r, s') /\ bpb s' = bpb s.
Proof using rd_returns.
  unfold on_dev, zoom. destruct (rd_returns lba a n buf (fdev s)) as (r & d' & ->). eexists _, _. by split.
Qed.

Lemma get_next_returns c (s : fs B) : exists r s', fat_get_next_cluster rd junk c s = Ret (r, s') /\ bpb s' = bpb s.
Proof using rd_returns.
  unfold fat_get_next_cluster. destruct (_ || _); [eexists _, s; by split|]. rewrite bind_gets.
  destruct (_ <? _); [eexists _, s; by split|].
  match goal with |- context [on_dev (rd ?a ?b ?c ?d)] => destruct (on_dev_rd a b c d s) as ([r buf] & s' & E & Hp) end.
  rewrite (bind_run _ _ _ _ _ E). destruct r; eexists _, s'; by split.
Qed.

Lemma read_file_loop_returns fuel c left buffer buf (s : fs B) :
  let cs := sectors_per_cluster (bpb s) * bytes_per_sector (bpb s) in
  0 < cs -> 0 <= left -> (left + cs - 1) / cs < Z.of_nat fuel ->
  exists r s', read_file_loop rd junk fuel c left buffer buf s = Ret (r, s').
Proof using rd_returns.
  revert c left buffer buf s. induction fuel as [|fuel IH]; intros c left buffer buf s cs Hcs Hl Hf;
    pose proof (Z.div_pos (left + cs - 1) cs ltac:(lia) Hcs); [lia|]. cbn [read_file_loop].
  destruct (Z.eqb_spec left 0); [by eexists _, _|]. rewrite bind_gets. destruct (_ =? 0); [by eexists _, _|].
  match goal with |- context [on_dev (rd ?a ?b ?c ?d)] => destruct (on_dev_rd a b c d s) as ([r buf1] & s1 & E1 & Hp1) end.
  rewrite (bind_run _ _ _ _ _ E1). destruct r; cbn [negb]; [|by eexists _, _]. rewrite bind_modify. fold cs.
  set (nr := if cs <? left then cs else left). assert (nr = Z.min left cs) as Hnr by (unfold nr; zcases; lia).
  match goal with |- context [fat_get_next_cluster rd junk ?c ≫= _] =>
    match goal with |- exists r s', _ ?s2 = _ => destruct (get_next_returns c s2) as (e & s3 & E3 & Hp3) end end.
  rewrite (bind_run _ _ _ _ _ E3). cbn [bpb set_fs_ram] in Hp3. destruct (end_of_chain e); [by eexists _, _|].
  pose proof (round_fuel left cs Hcs ltac:(lia)) as Hrf. rewrite <- Hnr in Hrf.
  apply IH; rewrite ?Hp3, ?Hp1; fold cs; lia.
Qed.

(** Termination of [fat32_read_file] on any disk: with a disk routine
    that returns and a non-empty cluster it returns whatever the FAT says,
    also when the chain runs in a circle, since every round consumes part of
    the file's size. *)
Theorem fat32_read_file_returns file buffer (s : fs B) :
  0 < sectors_per_cluster (bpb s) * bytes_per_sector (bpb s) -> 0 <= fat32_get_file_size file ->
  exists r s', fat32_read_file rd junk file buffer s = Ret (r, s').
Proof using rd_returns.
  intros Hcs Hs. unfold fat32_read_file. destruct file as [file|]; [|by eexists _, _].
  destruct (buffer =? 0); [by eexists _, _|]. rewrite bind_gets. cbn in Hs.
  apply read_file_loop_returns; [exact Hcs|exact Hs|by apply read_file_fuel].
Qed.
End Termination.

(** ** Witnesses *)

(** Cluster 3 leads back to itself. *)
Definition circular_drive : sim := Sim {[2048 := boot_sector; 2049 := patched fat_table 12 3; 2051 := data3]} 0 0 0 0 SimIdle.

Lemma fat32_read_file_returns_witness : exists r s',
  fat32_read_file disk_read ∅ (Some readme_file) 0x10000 (Fs (DState mach0 circular_drive) volume_bpb) = Ret (r, s').
Proof.
  exact (fat32_read_file_returns disk_read ∅ disk_read_returns (Some readme_file) 0x10000
    (Fs (DState mach0 circular_drive) volume_bpb) ltac:(cbn; lia) ltac:(cbn; lia)).
Defined.

Lemma fat32_read_file_correct_witness : exists mm b',
  fat32_read_file disk_read ∅ (Some readme_file) 0x10000 volume_fs = Ret (true, Fs (DState (set_ram mm mach0) b') volume_bpb) /\
  ld8 mm (0x10000 + 513) = 11.
Proof.
  destruct (fat32_read_file_correct disk_read ata_disk ∅ mach0 volume_drive volume volume_bpb readme_file [3; 4] 0x10000
    volume_ok volume_geometry volume_chain) as (mm & b' & E & _ & _ & Hd); try (cbn; lia).
  { repeat constructor; apply volume_readable; lia. }
  exists mm, b'. split; [exact E|]. specialize (Hd ltac:(vm_compute; congruence)).
  assert (byte_at (bytes mm 0x10000 600) 513 = 11) as H by (cbn [size readme_file] in Hd; rewrite Hd; vm_compute; reflexivity).
  by rewrite byte_at_bytes in H by lia.
Defined.

Lemma fat32_write_read_roundtrip_witness : exists b1,
  fat32_write_file disk_read disk_write ∅ (Some readme_file) 0x10000 volume_fs = Ret (true, Fs (DState mach0 b1) volume_bpb).
Proof.
  destruct (fat32_write_read_roundtrip disk_read disk_write ata_disk ∅ mach0 volume_drive volume volume_bpb readme_file [3; 4] 0x10000
    mach0 0x20000 volume_ok volume_geometry volume_chain) as (b1 & f1 & E & _); try (cbn; lia).
  { repeat constructor; apply volume_readable; lia. }
  { apply NoDup_ListNoDup. repeat constructor; cbn; lia. }
  { vm_compute. congruence. }
  { vm_compute. congruence. }
  exists b1. exact E.
Defined.

(** A memory that holds a file name. *)
Definition name_mem : mem := for_up 11 0 (fun i m => st8 m (0x100 + i) (byte_at readme i)) ∅.

Lemma fat32_find_file_correct_witness : exists b',
  fat32_find_file disk_read ∅ name_mem 0x100 volume_fs = Ret (Some readme_file, Fs (DState mach0 b') volume_bpb).
Proof.
  destruct (fat32_find_file_correct disk_read ata_disk ∅ mach0 volume_drive volume volume_bpb [2] name_mem 0x100
    volume_ok volume_geometry volume_root) as (b' & E & _); try (cbn; lia).
  { repeat constructor; apply volume_readable; lia. }
  { vm_compute. congruence. }
  exists b'. etransitivity; [exact E|]. vm_compute. reflexivity.
Defined.


Lemma fat32_init_correct_witness : exists s, fat32_init disk_read ∅ volume_fs = Ret (true, s) /\ bpb s = volume_bpb.
Proof.
  pose proof (fat32_init_correct disk_read ata_disk ∅ mach0 volume_drive volume volume_bpb volume_ok) as H.
  assert (volume !! 0 = Some boot_sector) as E by reflexivity. rewrite E in H. destruct H as (es & b' & H & _).
  eexists. split; [exact H|]. vm_compute. reflexivity.
Defined.
