(* ===== verification/SysFile.v ===== *)
(** * File system calls (Kernel/Syscall/Syscall_File.c)

    The table of sixteen open files over the FAT32 driver and the kernel
    heap.  The path is read from RAM; [fat_name] is a local array, kept in a
    memory of its own at a non-null address. *)
From S2P Require Import Prelude Machine Utils Serial Memory Disk Fat32.

Definition FILE_MAX_FD : Z := 16.

Record kernel_file_t := KFile {
  used : Z;
  writable : Z;
  kfile : FAT32_FILE;
  offset : Z
}.
Definition zero_file : kernel_file_t := KFile 0 0 (File (replicate 12 0) 0 0) 0.

Definition to_upper_ascii (c : Z) : Z := if (97 <=? c) && (c <=? 122) then c - (97 - 65) else c.

(** The loop of [path_to_fat83] over the characters at [p]. *)
Fixpoint path_loop (fuel : nat) (m : mem) (p name_len ext_len : Z) (in_ext : bool) (out_name : Z) (om : mem)
    : outcome (bool * mem) :=
  match fuel with
  | O => NoFuel
  | S f =>
      let c := ld8 m p in
      if c =? 0 then Ret (0 <? name_len, om)
      else if c =? 46 then
        if in_ext then Ret (false, om)
        else path_loop f m (p + 1) name_len ext_len true out_name om
      else
        let c := to_upper_ascii c in
        if negb in_ext then
          if 8 <=? name_len then Ret (false, om)
          else path_loop f m (p + 1) (name_len + 1) ext_len in_ext out_name (st8 om (out_name + name_len) c)
        else
          if 3 <=? ext_len then Ret (false, om)
          else path_loop f m (p + 1) name_len (ext_len + 1) in_ext out_name (st8 om (out_name + 8 + ext_len) c)
  end.

(** The characters of [path] are in [m], the array [out_name] in [om].  The
    loop cannot go round more than thirteen times. *)
Definition path_to_fat83 (m : mem) (path out_name : Z) (om : mem) : outcome (bool * mem) :=
  if (path =? 0) || (out_name =? 0) then Ret (false, om)
  else
    let om := for_up 11 0 (fun i om => st8 om (out_name + i) 32) om in
    let om := st8 om (out_name + 11) 0 in
    path_loop 14 m path 0 0 false out_name om.

Record files (B : Type) := Files { ffs : fs B; g_files : list kernel_file_t }.
Arguments Files {B} _ _.
Arguments ffs {B} _.
Arguments g_files {B} _.

(** [g_files[fd]] and its update; every index below is in the table. *)
Definition file_at (t : list kernel_file_t) (fd : Z) : kernel_file_t := default zero_file (t !! Z.to_nat fd).
Definition set_file (t : list kernel_file_t) (fd : Z) (f : kernel_file_t) : list kernel_file_t := <[Z.to_nat fd := f]> t.

Section FileCalls.
Context {B : Type} (rd : Z -> Z -> Z -> mem -> M (dstate B) (bool * mem))
  (wr : Z -> Z -> Z -> mem -> M (dstate B) bool)
  (kmalloc : Z -> M mstate Z) (kfree : Z -> M mstate unit) (junk : mem).

Definition on_fs {A} (c : M (fs B) A) : M (files B) A := zoom ffs (fun s t => Files s (g_files t)) c.
Definition on_kmem {A} (c : M mstate A) : M (files B) A := on_fs (on_dev (on_mach c)).
Definition file_ram (s : files B) : mem := fs_ram (ffs s).
Definition put_files (t : list kernel_file_t) (s : files B) : files B := Files (ffs s) t.
Definition put_ram (m : mem) (s : files B) : files B := Files (set_fs_ram m (ffs s)) (g_files s).

Definition syscall_file_init : M (files B) unit :=
  modify (put_files (replicate (Z.to_nat FILE_MAX_FD) zero_file)).

(** The address of the local [fat_name]. *)
Definition fat_name_at : Z := 16.

Definition syscall_file_open (path flags : Z) : M (files B) Z :=
  m ← gets file_ram;
  '(r, fat_name) ← liftO (path_to_fat83 m path fat_name_at junk);
  if negb r then mret (-1)
  else
    found ← on_fs (fat32_find_file rd junk fat_name fat_name_at);
    match found with
    | None => mret (-1)
    | Some file =>
        fd ← gets (fun s => first_from (Z.to_nat FILE_MAX_FD) 0 (fun fd => used (file_at (g_files s) fd) =? 0));
        if fd <? 0 then mret (-1)
        else
          modify (fun s => put_files (set_file (g_files s) fd
            (KFile 1 (if negb (Z.land flags 1 =? 0) then 1 else 0) file 0)) s);;
          mret fd
    end.

(** [fd < 0 || fd >= FILE_MAX_FD || !buffer || !g_files[fd].used] *)
Definition bad_handle (t : list kernel_file_t) (fd buffer : Z) : bool :=
  (fd <? 0) || (FILE_MAX_FD <=? fd) || (buffer =? 0) || (used (file_at t fd) =? 0).

Definition advance (fd n : Z) : M (files B) unit := modify (fun s =>
  let f := file_at (g_files s) fd in
  put_files (set_file (g_files s) fd (KFile (used f) (writable f) (kfile f) (u32 (offset f + u32 n)))) s).

Definition syscall_file_read (fd buffer len : Z) : M (files B) Z :=
  t ← gets g_files;
  if bad_handle t fd buffer then mret (-1)
  else if len =? 0 then mret 0
  else
    let f := file_at t fd in
    let file_size := size (kfile f) in
    if file_size <=? offset f then mret 0
    else
      let remaining := u64 (file_size - offset f) in
      let to_read := if len <? remaining then len else remaining in
      all_data ← on_kmem (kmalloc file_size);
      if all_data =? 0 then mret (-1)
      else
        r ← on_fs (fat32_read_file rd junk (Some (kfile f)) all_data);
        if negb r then on_kmem (kfree all_data);; mret (-1)
        else
          modify (fun s => put_ram (memcpy (file_ram s) buffer (all_data + offset f) to_read) s);;
          advance fd to_read;;
          on_kmem (kfree all_data);;
          mret to_read.

Definition syscall_file_write (fd buffer len : Z) : M (files B) Z :=
  t ← gets g_files;
  if bad_handle t fd buffer then mret (-1)
  else if writable (file_at t fd) =? 0 then mret (-1)
  else if len =? 0 then mret 0
  else
    let f := file_at t fd in
    let file_size := size (kfile f) in
    if file_size <=? offset f then mret 0
    else
      let remaining := u64 (file_size - offset f) in
      let to_write := if len <? remaining then len else remaining in
      all_data ← on_kmem (kmalloc file_size);
      if all_data =? 0 then mret (-1)
      else
        r ← on_fs (fat32_read_file rd junk (Some (kfile f)) all_data);
        if negb r then on_kmem (kfree all_data);; mret (-1)
        else
          modify (fun s => put_ram (memcpy (file_ram s) (all_data + offset f) buffer to_write) s);;
          r ← on_fs (fat32_write_file rd wr junk (Some (kfile f)) all_data);
          if negb r then on_kmem (kfree all_data);; mret (-1)
          else
            advance fd to_write;;
            on_kmem (kfree all_data);;
            mret to_write.

Definition syscall_file_close (fd : Z) : M (files B) Z :=
  t ← gets g_files;
  if (fd <? 0) || (FILE_MAX_FD <=? fd) || (used (file_at t fd) =? 0) then mret (-1)
  else
    modify (fun s => put_files (set_file (g_files s) fd zero_file) s);;
    mret 0.
End FileCalls.
