(* ===== verification/SysFileSpec.v ===== *)
(** * Lemmas on the file system calls

    The 8.3 name a path stands for, and the steps [syscall_file_read] and
    [syscall_file_write] share, over the interfaces [Allocator],
    [BlockReader] and [BlockWriter]. *)
From S2P Require Import Prelude Machine Utils Serial Memory Alloc Disk BlockDev.
From S2P Require Import Fat32 Fat32Spec Fat32Dir Fat32Theorems SysFile.

(** ** 8.3 names *)

Fixpoint before_dot (cs : list Z) : list Z :=
  match cs with
  | [] => []
  | c :: cs => if c =? 46 then [] else c :: before_dot cs
  end.
Fixpoint after_dot (cs : list Z) : list Z :=
  match cs with
  | [] => []
  | c :: cs => if c =? 46 then cs else after_dot cs
  end.
Definition pad (n : nat) (l : list Z) : list Z := l ++ replicate (n - length l) 32.

(** The directory name of the path [cs], if it has one: at most one dot,
    one to eight characters before it and at most three behind it, in upper
    case and padded with blanks. *)
Definition fat83 (cs : list Z) : option (list Z) :=
  let nm := before_dot cs in
  let ext := after_dot cs in
  if bool_decide (46 ∉ ext) && (1 <=? length nm)%nat && (length nm <=? 8)%nat && (length ext <=? 3)%nat
  then Some (pad 8 (to_upper_ascii <$> nm) ++ pad 3 (to_upper_ascii <$> ext))
  else None.

Lemma upper_range c : 0 <= c < 256 -> 0 <= to_upper_ascii c < 256.
Proof. intros H. unfold to_upper_ascii. zcases; lia. Qed.

(** Writing [l] at [a], as the loop does character by character. *)
Definition put_bytes (om : mem) (a : Z) (l : list Z) : mem := fst (fold_left (fun '(m, i) c => (st8 m i c, i + 1)) l (om, a)).
Lemma put_bytes_cons om a c l : put_bytes om a (c :: l) = put_bytes (st8 om a c) (a + 1) l.
Proof. reflexivity. Qed.
Lemma ld8_put_bytes om a l x : byte_list l ->
  ld8 (put_bytes om a l) x = if (a <=? x) && (x <? a + Z.of_nat (length l)) then byte_at l (x - a) else ld8 om x.
Proof.
  revert om a; induction l as [|c l IH]; intros om a Hl; [cbn; zcases; (reflexivity || lia)|].
  inversion_clear Hl as [|? ? Hc Hl']. rewrite put_bytes_cons, IH, ld8_st8 by assumption. cbn [length].
  destruct (Z.eq_dec x a) as [->|].
  - zcases; try lia. rewrite Z.sub_diag, u8_small by lia. reflexivity.
  - zcases; try lia; try reflexivity. unfold byte_at. replace (Z.to_nat (x - a)) with (S (Z.to_nat (x - (a + 1)))) by lia. reflexivity.
Qed.

Lemma path_ext_loop cs m p nl el out om fuel :
  cstring_at m p cs -> 0 <= el <= 3 -> 4 - el <= Z.of_nat fuel ->
  exists om', path_loop fuel m p nl el true out om =
    Ret (bool_decide (46 ∉ cs) && (el + Z.of_nat (length cs) <=? 3) && (0 <? nl), om') /\
    (46 ∉ cs -> el + Z.of_nat (length cs) <= 3 -> om' = put_bytes om (out + 8 + el) (to_upper_ascii <$> cs)).
Proof.
  revert p el om fuel; induction cs as [|c cs IH]; intros p el om fuel Hcs Hel Hf;
    (destruct fuel as [|fuel]; [lia|]); cbn [path_loop].
  - apply cstring_at_nil in Hcs. rewrite Hcs. exists om. split; [|done]. cbn [Z.eqb].
    rewrite bool_decide_eq_true_2 by apply not_elem_of_nil. cbn [length]. zcases; try lia; reflexivity.
  - apply cstring_at_cons in Hcs as (Hc & -> & Hcs). destruct (Z.eqb_spec c 0); [done|].
    destruct (Z.eqb_spec c 46) as [->|H46].
    { exists om. rewrite bool_decide_eq_false_2 by (intros H; apply H, elem_hd). split; [done|]. intros H. exfalso. apply H, elem_hd. }
    cbn [negb]. assert (46 ∉ c :: cs <-> 46 ∉ cs) as Hiff by (rewrite not_elem_of_cons; naive_solver).
    destruct (Z.leb_spec 3 el).
    { exists om. cbn [length]. destruct (Z.leb_spec (el + Z.of_nat (S (length cs))) 3); [lia|]. rewrite andb_false_r. split; [done|lia]. }
    destruct (IH (p + 1) (el + 1) (st8 om (out + 8 + el) (to_upper_ascii c)) fuel Hcs ltac:(lia) ltac:(lia)) as (om' & E & Hom).
    exists om'. rewrite E. cbn [length fmap list_fmap]. split.
    + do 2 f_equal. f_equal. f_equal; [by apply bool_decide_ext; rewrite Hiff|]. zcases; lia || reflexivity.
    + intros H1 H2. rewrite put_bytes_cons, Hom by (try apply Hiff; assumption || lia). f_equal. lia.
Qed.

Lemma path_name_loop cs m p nl out om fuel :
  cstring_at m p cs -> 0 <= nl <= 8 -> 14 - nl <= Z.of_nat fuel ->
  exists om', path_loop fuel m p nl 0 false out om =
    Ret (bool_decide (46 ∉ after_dot cs) && (Z.of_nat (length (after_dot cs)) <=? 3) &&
         (0 <? nl + Z.of_nat (length (before_dot cs))) && (nl + Z.of_nat (length (before_dot cs)) <=? 8), om') /\
    (46 ∉ after_dot cs -> Z.of_nat (length (after_dot cs)) <= 3 -> nl + Z.of_nat (length (before_dot cs)) <= 8 ->
     om' = put_bytes (put_bytes om (out + nl) (to_upper_ascii <$> before_dot cs)) (out + 8) (to_upper_ascii <$> after_dot cs)).
Proof.
  revert p nl om fuel; induction cs as [|c cs IH]; intros p nl om fuel Hcs Hnl Hf;
    (destruct fuel as [|fuel]; [lia|]); cbn [path_loop before_dot after_dot].
  - apply cstring_at_nil in Hcs. rewrite Hcs. exists om. split; [|done]. cbn [Z.eqb].
    rewrite bool_decide_eq_true_2 by apply not_elem_of_nil. cbn [length]. rewrite Z.add_0_r. zcases; try lia; reflexivity.
  - apply cstring_at_cons in Hcs as (Hc & -> & Hcs). destruct (Z.eqb_spec c 0); [done|].
    destruct (Z.eqb_spec c 46) as [->|H46].
    + destruct (path_ext_loop cs m (p + 1) nl 0 out om fuel Hcs ltac:(lia) ltac:(lia)) as (om' & E & Hom).
      exists om'. rewrite E. cbn [length fmap list_fmap]. rewrite Z.add_0_l, Z.add_0_r. split.
      * destruct (Z.leb_spec nl 8); [|lia]. by rewrite andb_true_r.
      * intros H1 H2 _. rewrite Hom by (assumption || lia). f_equal. lia.
    + cbn [negb]. destruct (Z.leb_spec 8 nl).
      { exists om. cbn [length]. split; [|lia]. destruct (Z.leb_spec (nl + Z.of_nat (S (length (before_dot cs)))) 8); [lia|]. by rewrite andb_false_r. }
      destruct (IH (p + 1) (nl + 1) (st8 om (out + nl) (to_upper_ascii c)) fuel Hcs ltac:(lia) ltac:(lia)) as (om' & E & Hom).
      exists om'. rewrite E. cbn [length fmap list_fmap].
      replace (nl + Z.of_nat (S (length (before_dot cs)))) with (nl + 1 + Z.of_nat (length (before_dot cs))) by lia. split; [done|].
      intros H1 H2 H3. rewrite put_bytes_cons, Hom by assumption. f_equal. f_equal. lia.
Qed.

Lemma before_after_bytes cs : byte_list cs ->
  byte_list (to_upper_ascii <$> before_dot cs) /\ byte_list (to_upper_ascii <$> after_dot cs).
Proof.
  induction 1 as [|c cs Hc Hcs [IH1 IH2]]; [by split; constructor|]. cbn [before_dot after_dot].
  destruct (c =? 46); [split; [constructor|]|split; [constructor; [by apply upper_range|done]|done]].
  apply Forall_fmap. eapply Forall_impl; [exact Hcs|]. intros x Hx. by apply upper_range.
Qed.

Lemma byte_at_pad n l i : 0 <= i < Z.of_nat n -> (length l <= n)%nat ->
  byte_at (pad n l) i = if i <? Z.of_nat (length l) then byte_at l i else 32.
Proof.
  intros Hi Hl. unfold byte_at, pad. zcases.
  - by rewrite lookup_app_l by lia.
  - rewrite lookup_app_r, lookup_replicate_2 by lia. reflexivity.
Qed.

Lemma path_to_fat83_run m path out om cs :
  path <> 0 -> out <> 0 -> cstring_at m path cs -> byte_list cs ->
  exists om', path_to_fat83 m path out om = Ret (match fat83 cs with Some _ => true | None => false end, om') /\
    (forall nm, fat83 cs = Some nm -> bytes om' out 11 = nm).
Proof.
  intros Hp Ho Hcs Hb. unfold path_to_fat83. destruct (Z.eqb_spec path 0); [done|]. destruct (Z.eqb_spec out 0); [done|].
  cbn [orb]. set (om0 := st8 _ (out + 11) 0).
  destruct (path_name_loop cs m path 0 out om0 14 Hcs ltac:(lia) ltac:(lia)) as (om' & E & Hom).
  exists om'. rewrite E. clear E. unfold fat83. destruct (before_after_bytes cs Hb) as [B1 B2].
  set (nm := before_dot cs) in *. set (ext := after_dot cs) in *.
  destruct (bool_decide (46 ∉ ext)) eqn:E46; [apply bool_decide_eq_true in E46|by split].
  destruct (Nat.leb_spec 1 (length nm)), (Nat.leb_spec (length nm) 8), (Nat.leb_spec (length ext) 3); cbn [andb];
    zcases; try lia; (split; [done|]); try done.
  intros ? [= <-]. rewrite (Hom E46) by lia.
  assert (length (pad 8 (to_upper_ascii <$> nm)) = 8%nat) as Hl8 by (unfold pad; rewrite length_app, length_replicate, length_fmap; lia).
  assert (length (pad 3 (to_upper_ascii <$> ext)) = 3%nat) as Hl3 by (unfold pad; rewrite length_app, length_replicate, length_fmap; lia).
  apply (list_eq_same_length _ _ 11); [by rewrite length_app, Hl8, Hl3|apply length_bytes|].
  intros i x y Hi Hx Hy. rewrite lookup_bytes in Hx. destruct (Z.ltb_spec (Z.of_nat i) 11); [|lia]. injection Hx as <-.
  rewrite !ld8_put_bytes by assumption. rewrite !length_fmap.
  assert (byte_at (pad 8 (to_upper_ascii <$> nm) ++ pad 3 (to_upper_ascii <$> ext)) (Z.of_nat i) = y) as <-.
  { unfold byte_at. by rewrite Nat2Z.id, Hy. }
  assert (ld8 om0 (out + Z.of_nat i) = 32) as ->.
  { unfold om0. rewrite ld8_st8. pose proof (ld8_memset om out 32 11 (out + Z.of_nat i)) as Hm. unfold memset in Hm.
    change (Z.to_nat 11) with 11%nat in Hm. change (u8 32) with 32 in Hm. zcases; lia. }
  destruct (Z.lt_ge_cases (Z.of_nat i) 8).
  - unfold byte_at at 3. rewrite lookup_app_l by lia. fold (byte_at (pad 8 (to_upper_ascii <$> nm)) (Z.of_nat i)).
    rewrite byte_at_pad, length_fmap by (rewrite ?length_fmap; lia). zcases; try lia; f_equal; lia.
  - unfold byte_at at 3. rewrite lookup_app_r, Hl8 by lia.
    replace (Z.to_nat (Z.of_nat i) - 8)%nat with (Z.to_nat (Z.of_nat i - 8)) by lia.
    fold (byte_at (pad 3 (to_upper_ascii <$> ext)) (Z.of_nat i - 8)).
    rewrite byte_at_pad, length_fmap by (rewrite ?length_fmap; lia). zcases; try lia; f_equal; lia.
Qed.

(** ** Slices *)

Lemma take_drop_take {A} (l : list A) n o k :
  0 <= o -> 0 <= k -> o + k <= n ->
  take (Z.to_nat k) (drop (Z.to_nat o) (take (Z.to_nat n) l)) = take (Z.to_nat k) (drop (Z.to_nat o) l).
Proof. intros. rewrite skipn_firstn_comm, take_take. f_equal. lia. Qed.

(** The buffer after [n] bytes from elsewhere were copied into its middle. *)
Lemma bytes_spliced mm q sz off buffer n :
  0 <= off -> 0 <= n -> off + n <= sz -> buffer + n <= q \/ q + sz <= buffer ->
  bytes (memcpy mm (q + off) buffer n) q sz =
  take (Z.to_nat off) (bytes mm q sz) ++ bytes mm buffer n ++ drop (Z.to_nat (off + n)) (bytes mm q sz).
Proof.
  intros Ho Hn Hs Hap. rewrite bytes_take, bytes_drop by lia.
  replace sz with (off + (n + (sz - (off + n)))) at 1 by lia. rewrite !bytes_app by lia. f_equal; [|f_equal].
  - apply bytes_agree. intros x Hx. rewrite ld8_memcpy by lia. zcases; try lia; reflexivity.
  - apply bytes_memcpy. lia.
  - rewrite <- Z.add_assoc. apply bytes_agree. intros x Hx. rewrite ld8_memcpy by lia. zcases; try lia; reflexivity.
Qed.

Lemma splice_list {A} (D u : list A) off n sz :
  0 <= off /\ 0 <= n /\ off + n <= sz ->
  (take (Z.to_nat off) (take (Z.to_nat sz) D) ++ u ++ drop (Z.to_nat (off + n)) (take (Z.to_nat sz) D)) ++ drop (Z.to_nat sz) D =
  take (Z.to_nat off) D ++ u ++ drop (Z.to_nat (off + n)) D.
Proof.
  intros (Ho & Hn & Hs). rewrite take_take, <- !app_assoc. f_equal; [f_equal; lia|]. f_equal.
  apply drop_take_drop. lia.
Qed.

(** ** The calls, over an allocator and a block device *)

Section Calls.
Context {B : Type} (rd : Z -> Z -> Z -> mem -> M (dstate B) (bool * mem))
  (wr : Z -> Z -> Z -> mem -> M (dstate B) bool) (dok : B -> contents -> Prop)
  {BR : BlockReader B rd dok} {BW : BlockWriter B wr dok} (junk : mem)
  (malloc : Z -> M mstate Z) (free : Z -> M mstate unit) (lo hi : Z)
  (aok : mstate -> gmap Z Z -> Prop) {AL : Allocator malloc free lo hi aok}.
Implicit Types (m : mstate) (b : B) (f : contents) (p : FAT32_BPB) (t : list kernel_file_t) (L : gmap Z Z).

(** The state of the file layer. *)
Definition fstate m b p t : files B := Files (Fs (DState m b) p) t.

Lemma on_kmem_run {A} (c : M mstate A) m b p t a m' :
  c m = Ret (a, m') -> on_kmem c (fstate m b p t) = Ret (a, fstate m' b p t).
Proof. intros E. unfold on_kmem, on_fs, on_dev, on_mach, zoom, fstate. cbn. by rewrite E. Qed.
Lemma on_fs_run {A} (c : M (fs B) A) m b p t a m' b' :
  c (Fs (DState m b) p) = Ret (a, Fs (DState m' b') p) -> on_fs c (fstate m b p t) = Ret (a, fstate m' b' p t).
Proof. intros E. unfold on_fs, zoom, fstate. cbn. by rewrite E. Qed.

(** An open file: its chain, readable and long enough. *)
Record open_file (f : contents) (p : FAT32_BPB) (t : list kernel_file_t) (fd : Z) (cs : list Z) : Prop := {
  of_fd : 0 <= fd < 16;
  of_table : length t = 16%nat;
  of_used : used (file_at t fd) <> 0;
  of_offset : 0 <= offset (file_at t fd) < size (kfile (file_at t fd));
  of_size : size (kfile (file_at t fd)) <= 4294967288;
  of_chain : fat_chain p f (first_cluster (kfile (file_at t fd))) cs;
  of_read : Forall (cluster_readable p f) cs;
  of_long : size (kfile (file_at t fd)) <= cluster_bytes p * Z.of_nat (length cs)
}.

(** The common start of read and write: a fresh buffer holds the file. *)
Lemma load_data m b f p F cs L :
  aok m L -> dok b f -> geometry p -> 0 < size F <= 4294967288 -> fat_chain p f (first_cluster F) cs ->
  Forall (cluster_readable p f) cs -> size F <= cluster_bytes p * Z.of_nat (length cs) ->
  exists q m1, malloc (size F) m = Ret (q, m1) /\
    ((q = 0 /\ aok m1 L /\ forall x, owned lo hi L x -> ld8 (ram m1) x = ld8 (ram m) x) \/
     exists k mm b2, 0 < q /\ L !! q = None /\ size F <= k /\ aok (set_ram mm m1) (<[q := k]> L) /\ dok b2 f /\
       fat32_read_file rd junk (Some F) q (Fs (DState m1 b) p) = Ret (true, Fs (DState (set_ram mm m1) b2) p) /\
       bytes mm q (size F) = take (Z.to_nat (size F)) (chain_data p f cs) /\
       forall x, owned lo hi L x -> (x < q \/ q + k <= x) /\ ld8 mm x = ld8 (ram m) x).
Proof using BR AL.
  intros Hok Hd Hg Hs Hch Hrd Hlong.
  destruct (alloc_malloc m L (size F) Hok ltac:(lia)) as (q & m1 & E1 & (_ & _ & _ & Hk) & Hc). exists q, m1. split; [exact E1|].
  destruct Hc as [[-> Hok1]|(Hq0 & HL & k & Hk2 & Hok1 & _)]; [by left|right].
  destruct (alloc_range m1 _ q k Hok1 (lookup_insert_eq _ _ _)) as (R0 & R1 & R2 & R3 & _).
  destruct (read_file_run rd dok junk m1 b f p F cs q Hd Hg Hch Hrd ltac:(lia) ltac:(lia)) as (mm & b2 & E2 & Hd2 & Hout & Hdata).
  rewrite (proj2 (Z.leb_le _ _) Hlong) in E2. exists k, mm, b2. split_and!; [lia|done|done| |done|done|by apply Hdata|].
  - apply (alloc_write_own m1 _ _ q k); try done; [apply lookup_insert_eq|]. intros x Hx. cbn. apply Hout. lia.
  - intros x Hx. pose proof (fresh_apart m1 L q k x Hok1 HL Hx). split; [done|]. rewrite Hout, Hk by (assumption || lia). done.
Qed.

Lemma load_file m b f p t fd cs L :
  aok m L -> dok b f -> geometry p -> open_file f p t fd cs ->
  let F := kfile (file_at t fd) in
  exists q m1, malloc (size F) m = Ret (q, m1) /\
    ((q = 0 /\ aok m1 L /\ forall x, owned lo hi L x -> ld8 (ram m1) x = ld8 (ram m) x) \/
     exists k mm b2, 0 < q /\ L !! q = None /\ size F <= k /\ aok (set_ram mm m1) (<[q := k]> L) /\ dok b2 f /\
       fat32_read_file rd junk (Some F) q (Fs (DState m1 b) p) = Ret (true, Fs (DState (set_ram mm m1) b2) p) /\
       bytes mm q (size F) = take (Z.to_nat (size F)) (chain_data p f cs) /\
       forall x, owned lo hi L x -> (x < q \/ q + k <= x) /\ ld8 mm x = ld8 (ram m) x).
Proof using BR AL. intros Hok Hd Hg [Hfd Ht Hu Ho Hs Hch Hrd Hlong] F. apply load_data; try done. unfold F. lia. Qed.

Lemma bad_handle_open f p t fd cs buffer : open_file f p t fd cs -> 0 < buffer -> bad_handle t fd buffer = false.
Proof.
  intros [Hfd _ Hu _ _ _ _ _] Hb. unfold bad_handle, FILE_MAX_FD.
  destruct (Z.ltb_spec fd 0); [lia|]. destruct (Z.leb_spec 16 fd); [lia|]. destruct (Z.eqb_spec buffer 0); [lia|].
  by destruct (Z.eqb_spec (used (file_at t fd)) 0).
Qed.

(** The calls on an open file, past their checks. *)
Lemma read_past_checks m b f p t fd cs buffer len :
  open_file f p t fd cs -> 0 < len < 18446744073709551616 -> 0 < buffer ->
  let off := offset (file_at t fd) in
  let F := kfile (file_at t fd) in
  let n := Z.min len (size F - off) in
  syscall_file_read rd malloc free junk fd buffer len (fstate m b p t) =
  (all_data ← on_kmem (malloc (size F));
   if all_data =? 0 then mret (-1)
   else
     r ← on_fs (fat32_read_file rd junk (Some F) all_data);
     if negb r then on_kmem (free all_data);; mret (-1)
     else
       modify (fun s => put_ram (memcpy (file_ram s) buffer (all_data + off) n) s);;
       advance fd n;; on_kmem (free all_data);; mret n) (fstate m b p t).
Proof.
  intros Hof Hlen Hb off F n. unfold syscall_file_read. rewrite bind_gets. cbn [g_files fstate].
  rewrite (bad_handle_open f p t fd cs buffer Hof Hb). destruct Hof as [_ _ _ Ho Hs _ _ _]. fold off F in Ho, Hs.
  destruct (Z.eqb_spec len 0); [lia|]. fold F off. destruct (Z.leb_spec (size F) off); [lia|].
  rewrite u64_small by lia. by replace (if len <? size F - off then len else size F - off) with n by (unfold n; zcases; lia).
Qed.

Lemma write_past_checks m b f p t fd cs buffer len :
  open_file f p t fd cs -> 0 < len < 18446744073709551616 -> 0 < buffer -> writable (file_at t fd) <> 0 ->
  let off := offset (file_at t fd) in
  let F := kfile (file_at t fd) in
  let n := Z.min len (size F - off) in
  syscall_file_write rd wr malloc free junk fd buffer len (fstate m b p t) =
  (all_data ← on_kmem (malloc (size F));
   if all_data =? 0 then mret (-1)
   else
     r ← on_fs (fat32_read_file rd junk (Some F) all_data);
     if negb r then on_kmem (free all_data);; mret (-1)
     else
       modify (fun s => put_ram (memcpy (file_ram s) (all_data + off) buffer n) s);;
       r ← on_fs (fat32_write_file rd wr junk (Some F) all_data);
       if negb r then on_kmem (free all_data);; mret (-1)
       else advance fd n;; on_kmem (free all_data);; mret n) (fstate m b p t).
Proof.
  intros Hof Hlen Hb Hw off F n. unfold syscall_file_write. rewrite bind_gets. cbn [g_files fstate].
  rewrite (bad_handle_open f p t fd cs buffer Hof Hb). destruct Hof as [_ _ _ Ho Hs _ _ _]. fold off F in Ho, Hs.
  destruct (Z.eqb_spec (writable (file_at t fd)) 0); [done|].
  destruct (Z.eqb_spec len 0); [lia|]. fold F off. destruct (Z.leb_spec (size F) off); [lia|].
  rewrite u64_small by lia. by replace (if len <? size F - off then len else size F - off) with n by (unfold n; zcases; lia).
Qed.

(** The table after [n] bytes were transferred. *)
Definition moved t fd n : list kernel_file_t :=
  let F := file_at t fd in set_file t fd (KFile (used F) (writable F) (kfile F) (offset F + n)).

Lemma advance_run m b p t fd n F :
  F = file_at t fd -> 0 <= offset F -> 0 <= n -> offset F + n < 4294967296 ->
  advance fd n (fstate m b p t) = Ret (tt, fstate m b p (moved t fd n)).
Proof.
  intros -> H1 H2 H3. unfold advance, modify, fstate, put_files, moved. cbn. rewrite (u32_small n), u32_small by lia. reflexivity.
Qed.
End Calls.
