(* ===== verification/SysFileTheorems.v ===== *)
(** * The properties of the file system calls

    Proved against the allocator and block device interfaces; the witnesses
    run with the kernel heap, the ATA driver and the small volume of
    Fat32Theorems.v. *)
From S2P Require Import Prelude Machine Utils Serial Memory Heap HeapSpec Alloc HeapTheorems.
From S2P Require Import Disk BlockDev Fat32 Fat32Spec Fat32Dir Fat32Theorems SysFile SysFileSpec.

(** [path_to_fat83] accepts exactly the paths with at most one dot, one
    to eight characters before it and at most three behind it, and gives the
    upper-case, blank-padded 11-byte directory name. *)
Theorem path_to_fat83_correct m path out om cs :
  path <> 0 -> out <> 0 -> cstring_at m path cs -> byte_list cs ->
  exists om', path_to_fat83 m path out om = Ret (match fat83 cs with Some _ => true | None => false end, om') /\
    (forall nm, fat83 cs = Some nm -> bytes om' out 11 = nm).
Proof. apply path_to_fat83_run. Qed.

(** "readme.txt" at 0x200. *)
Definition readme_path : list Z := [114; 101; 97; 100; 109; 101; 46; 116; 120; 116].
Definition path_mem : mem := put_bytes ∅ 0x200 (readme_path ++ [0]).

Lemma path_mem_string : cstring_at path_mem 0x200 readme_path.
Proof. split; [repeat constructor; lia|vm_compute; reflexivity]. Qed.

Lemma path_to_fat83_correct_witness :
  exists om', path_to_fat83 path_mem 0x200 fat_name_at ∅ = Ret (true, om') /\ bytes om' fat_name_at 11 = readme.
Proof.
  destruct (path_to_fat83_correct path_mem 0x200 fat_name_at ∅ readme_path) as (om' & E & Hn);
    [lia|unfold fat_name_at; lia|exact path_mem_string|repeat constructor; lia|].
  exists om'. split; [exact E|]. apply Hn. vm_compute. reflexivity.
Defined.

Section Theorems.
Context {B : Type} (rd : Z -> Z -> Z -> mem -> M (dstate B) (bool * mem))
  (wr : Z -> Z -> Z -> mem -> M (dstate B) bool) (dok : B -> contents -> Prop)
  {BR : BlockReader B rd dok} {BW : BlockWriter B wr dok} (junk : mem)
  (malloc : Z -> M mstate Z) (free : Z -> M mstate unit) (lo hi : Z)
  (aok : mstate -> gmap Z Z -> Prop) {AL : Allocator malloc free lo hi aok}.
Implicit Types (m : mstate) (b : B) (f : contents) (p : FAT32_BPB) (t : list kernel_file_t) (L : gmap Z Z).

Lemma syscall_file_read_run m b f p t fd cs L buffer len :
  aok m L -> dok b f -> geometry p -> open_file f p t fd cs -> 0 < len < 18446744073709551616 -> 0 < buffer ->
  let off := offset (file_at t fd) in
  let n := Z.min len (size (kfile (file_at t fd)) - off) in
  (forall x, buffer <= x < buffer + n -> owned lo hi L x) ->
  exists r m' b', dok b' f /\ aok m' L /\
    ((r = -1 /\ malloc (size (kfile (file_at t fd))) m = Ret (0, m') /\
      syscall_file_read rd malloc free junk fd buffer len (fstate m b p t) = Ret (r, fstate m' b' p t) /\
      forall x, owned lo hi L x -> ld8 (ram m') x = ld8 (ram m) x) \/
     (r = n /\ syscall_file_read rd malloc free junk fd buffer len (fstate m b p t) = Ret (r, fstate m' b' p (moved t fd n)) /\
      bytes (ram m') buffer n = take (Z.to_nat n) (drop (Z.to_nat off) (chain_data p f cs)) /\
      forall x, owned lo hi L x -> x < buffer \/ buffer + n <= x -> ld8 (ram m') x = ld8 (ram m) x)).
Proof using BR AL.
  intros Hok Hd Hg Hof Hlen Hb off n Hown. pose proof Hof as [Hfd Ht Hu Ho Hs _ _ Hlong]. fold off in Ho.
  rewrite (read_past_checks rd junk malloc free m b f p t fd cs buffer len Hof Hlen Hb). fold off n.
  set (F := kfile (file_at t fd)) in *.
  destruct (load_file rd dok junk malloc free lo hi aok m b f p t fd cs L Hok Hd Hg Hof) as (q & m1 & E1 & Hc).
  fold F in E1, Hc. rewrite (bind_run _ _ _ _ _ (on_kmem_run _ _ b p t _ _ E1)).
  destruct Hc as [(-> & Hok1 & Hk1)|(k & mm & b2 & Hq & HL & Hk & Hok2 & Hd2 & E2 & Hdata & Hk2)].
  { exists (-1), m1, b. split_and!; [done|done|]. left. by split_and!. }
  destruct (Z.eqb_spec q 0); [lia|]. rewrite (bind_run _ _ _ _ _ (on_fs_run _ _ _ p t _ _ _ E2)). cbn [negb].
  rewrite bind_modify. unfold put_ram, fstate, file_ram, set_fs_ram, fs_ram. cbn [ffs g_files fdev mach bus bpb ram set_ram].
  set (m3 := set_ram (memcpy mm buffer (q + off) n) (set_ram mm m1)). change (Files (Fs (DState m3 b2) p) t) with (fstate m3 b2 p t).
  pose proof (range_apart lo hi L q k buffer n ltac:(lia) (fun x Hx => proj1 (Hk2 x Hx)) Hown ltac:(lia)) as Hsep.
  rewrite (bind_run _ _ _ _ _ (advance_run m3 b2 p t fd n _ eq_refl ltac:(fold off; lia) ltac:(lia) ltac:(fold off; lia))).
  assert (aok m3 (<[q := k]> L)) as Hok3.
  { apply (alloc_write (set_ram mm m1)); try done. intros x Hx. unfold m3. cbn [ram set_ram]. rewrite ld8_memcpy by lia.
    zcases; try done. exfalso. apply Hx, owned_mono; [done|]. apply Hown. lia. }
  destruct (drop_buffer malloc free lo hi aok m3 L q k Hok3 HL) as (m4 & E4 & Hok4 & Hk4).
  rewrite (bind_run _ _ _ _ _ (on_kmem_run _ _ b2 p (moved t fd n) _ _ E4)). exists n, m4, b2. split_and!; [done|done|].
  right. split_and!; [done|done| |].
  - transitivity (bytes (memcpy mm buffer (q + off) n) buffer n).
    { apply bytes_agree. intros x Hx. apply Hk4, Hown. exact Hx. }
    rewrite bytes_memcpy by lia. rewrite <- (take_drop_bytes mm q (size F) off n) by lia. rewrite Hdata, take_drop_take by lia. done.
  - intros x Hx Hout. rewrite Hk4 by done. unfold m3. cbn [ram set_ram]. rewrite ld8_memcpy by lia.
    rewrite <- (proj2 (Hk2 x Hx)). zcases; try lia; reflexivity.
Qed.

(** [syscall_file_read] on an open file: the call returns the number of
    bytes left in the file or asked for, whichever is less; the user's
    buffer holds the file's bytes from the old offset on; the offset moves
    by that number; no other owned byte of RAM changes, every allocation is
    given back, and the disk stays as it was.  Only when the allocator
    refuses a buffer of the file's size it returns -1 and changes nothing of
    that. *)
Theorem syscall_file_read_correct m b f p t fd cs L buffer len :
  aok m L -> dok b f -> geometry p -> open_file f p t fd cs -> 0 < len < 18446744073709551616 -> 0 < buffer ->
  let off := offset (file_at t fd) in
  let n := Z.min len (size (kfile (file_at t fd)) - off) in
  (forall x, buffer <= x < buffer + n -> owned lo hi L x) ->
  exists r m' b', dok b' f /\ aok m' L /\
    ((r = -1 /\ malloc (size (kfile (file_at t fd))) m = Ret (0, m') /\
      syscall_file_read rd malloc free junk fd buffer len (fstate m b p t) = Ret (r, fstate m' b' p t) /\
      forall x, owned lo hi L x -> ld8 (ram m') x = ld8 (ram m) x) \/
     (r = n /\ syscall_file_read rd malloc free junk fd buffer len (fstate m b p t) = Ret (r, fstate m' b' p (moved t fd n)) /\
      bytes (ram m') buffer n = take (Z.to_nat n) (drop (Z.to_nat off) (chain_data p f cs)) /\
      forall x, owned lo hi L x -> x < buffer \/ buffer + n <= x -> ld8 (ram m') x = ld8 (ram m) x)).
Proof using BR AL. apply syscall_file_read_run. Qed.

(** C25. [syscall_file_write] on a file opened for writing: it returns the
    number of bytes that fit or were given, whichever is less; on disk those
    bytes of the file are replaced by the user's, every other byte of the
    file's clusters and every other sector stays, and so do all owned bytes
    of RAM.  Only when the allocator refuses a buffer of the file's size it
    returns -1 and changes nothing of that. *)
Theorem syscall_file_write_correct m b f p t fd cs L buffer len :
  aok m L -> dok b f -> geometry p -> open_file f p t fd cs -> NoDup cs -> Z.of_nat (length cs) <= max_clusters p ->
  writable (file_at t fd) <> 0 -> 0 < len < 18446744073709551616 -> 0 < buffer ->
  let off := offset (file_at t fd) in
  let n := Z.min len (size (kfile (file_at t fd)) - off) in
  (forall x, buffer <= x < buffer + n -> owned lo hi L x) ->
  exists r m' b' f', dok b' f' /\ aok m' L /\ (forall x, owned lo hi L x -> ld8 (ram m') x = ld8 (ram m) x) /\
    ((r = -1 /\ f' = f /\ malloc (size (kfile (file_at t fd))) m = Ret (0, m') /\
      syscall_file_write rd wr malloc free junk fd buffer len (fstate m b p t) = Ret (r, fstate m' b' p t)) \/
     (r = n /\ syscall_file_write rd wr malloc free junk fd buffer len (fstate m b p t) = Ret (r, fstate m' b' p (moved t fd n)) /\
      same_but (in_clusters p cs) f f' /\
      chain_data p f' cs = take (Z.to_nat off) (chain_data p f cs) ++ bytes (ram m) buffer n ++
                           drop (Z.to_nat (off + n)) (chain_data p f cs))).
Proof using BR BW AL.
  intros Hok Hd Hg Hof Hnd Hmax Hw Hlen Hb off n Hown. pose proof Hof as [Hfd Ht Hu Ho Hs Hch Hrd Hlong]. fold off in Ho.
  rewrite (write_past_checks rd wr junk malloc free m b f p t fd cs buffer len Hof Hlen Hb Hw). fold off n.
  set (F := kfile (file_at t fd)) in *.
  destruct (load_file rd dok junk malloc free lo hi aok m b f p t fd cs L Hok Hd Hg Hof) as (q & m1 & E1 & Hc).
  fold F in E1, Hc. rewrite (bind_run _ _ _ _ _ (on_kmem_run _ _ b p t _ _ E1)).
  destruct Hc as [(-> & Hok1 & Hk1)|(k & mm & b2 & Hq & HL & Hk & Hok2 & Hd2 & E2 & Hdata & Hk2)].
  { exists (-1), m1, b, f. split_and!; [done|done|done|]. left. by split_and!. }
  destruct (Z.eqb_spec q 0); [lia|]. rewrite (bind_run _ _ _ _ _ (on_fs_run _ _ _ p t _ _ _ E2)). cbn [negb].
  rewrite bind_modify. unfold put_ram, fstate, file_ram, set_fs_ram, fs_ram. cbn [ffs g_files fdev mach bus bpb ram set_ram].
  set (m3 := set_ram (memcpy mm (q + off) buffer n) (set_ram mm m1)). change (Files (Fs (DState m3 b2) p) t) with (fstate m3 b2 p t).
  pose proof (range_apart lo hi L q k buffer n ltac:(lia) (fun x Hx => proj1 (Hk2 x Hx)) Hown ltac:(lia)) as Hsep.
  assert (aok m3 (<[q := k]> L)) as Hok3.
  { apply (alloc_write_own (set_ram mm m1) _ _ q k); try done; [apply lookup_insert_eq|]. intros x Hx. unfold m3. cbn [ram set_ram].
    rewrite ld8_memcpy by lia. zcases; try lia; reflexivity. }
  destruct (write_file_run rd wr dok junk m3 b2 f p F cs q Hd2 Hg Hch Hrd Hnd Hmax ltac:(lia) Hlong Hq) as (b4 & f4 & Hd4 & E4 & Hs4 & Hf4).
  rewrite (bind_run _ _ _ _ _ (on_fs_run _ _ _ p t _ _ _ E4)). cbn [negb].
  rewrite (bind_run _ _ _ _ _ (advance_run m3 b4 p t fd n _ eq_refl ltac:(fold off; lia) ltac:(lia) ltac:(fold off; lia))).
  destruct (drop_buffer malloc free lo hi aok m3 L q k Hok3 HL) as (m5 & E5 & Hok5 & Hk5).
  rewrite (bind_run _ _ _ _ _ (on_kmem_run _ _ b4 p (moved t fd n) _ _ E5)). exists n, m5, b4, f4. split_and!; [done|done| |].
  - intros x Hx. rewrite Hk5 by done. unfold m3. cbn [ram set_ram]. destruct (Hk2 x Hx) as [Hap <-].
    rewrite ld8_memcpy by lia. zcases; try lia; reflexivity.
  - right. split_and!; [done|done|done|]. rewrite Hf4. unfold m3. cbn [ram set_ram].
    rewrite (bytes_spliced mm q (size F) off buffer n) by lia. rewrite Hdata.
    assert (bytes mm buffer n = bytes (ram m) buffer n) as -> by (apply bytes_agree; intros x Hx; apply Hk2, Hown, Hx).
    apply splice_list. lia.
Qed.

(** C28. [syscall_file_open]: a path without an 8.3 name, or whose name is
    not in the root directory, gives -1, as does a full table; otherwise the
    lowest unused handle now refers to the file found, at offset 0, writable
    when bit 0 of [flags] is set.  No other handle changes. *)
Theorem syscall_file_open_correct m b f p t root path flags cs :
  dok b f -> geometry p -> fat_chain p f (root_cluster p) root -> Forall (cluster_readable p f) root ->
  Z.of_nat (length root) <= max_clusters p ->
  path <> 0 -> cstring_at (ram m) path cs -> byte_list cs -> length t = 16%nat ->
  exists r t' b', syscall_file_open rd junk path flags (fstate m b p t) = Ret (r, fstate m b' p t') /\ dok b' f /\
    match fat83 cs with
    | None => r = -1 /\ t' = t
    | Some nm =>
        match dir_lookup nm (entries (chain_data p f root)) with
        | None => r = -1 /\ t' = t
        | Some file =>
            (r = -1 /\ t' = t /\ forall fd, 0 <= fd < 16 -> used (file_at t fd) <> 0) \/
            (0 <= r < 16 /\ used (file_at t r) = 0 /\ (forall fd, 0 <= fd < r -> used (file_at t fd) <> 0) /\
             t' = set_file t r (KFile 1 (if Z.testbit flags 0 then 1 else 0) file 0))
        end
    end.
Proof using BR.
  intros Hd Hg Hch Hrd Hmax Hp Hcs Hb Ht. unfold syscall_file_open. rewrite bind_gets. unfold file_ram, fstate, fs_ram. cbn [ffs fdev mach].
  destruct (path_to_fat83_run (ram m) path fat_name_at junk cs Hp ltac:(unfold fat_name_at; lia) Hcs Hb) as (om & E & Hnm).
  erewrite bind_run; [|unfold liftO; rewrite E; reflexivity]. destruct (fat83 cs) as [nm|]; cbn [negb]; [|by exists (-1), t, b].
  destruct (find_in_chain_run rd dok junk f p (root_cluster p) root om fat_name_at m Hg Hch Hrd (Z.to_nat (max_clusters p)) b junk Hd ltac:(lia))
    as (b1 & E1 & Hd1). rewrite (Hnm nm eq_refl) in E1.
  erewrite (bind_run _ _ _ (dir_lookup nm (entries (chain_data p f root))) (fstate m b1 p t));
    [|apply on_fs_run; unfold fat32_find_file; cbn [Z.eqb fat_name_at]; rewrite bind_gets; exact E1].
  destruct (dir_lookup _ _) as [file|]; [|by exists (-1), t, b1]. rewrite bind_gets. cbn [g_files fstate].
  change (Z.land flags 1) with (Z.land flags (2 ^ 0)). rewrite land_pow2_bit, negb_involutive by lia.
  destruct (first_from_spec (Z.to_nat FILE_MAX_FD) 0 (fun fd => used (file_at t fd) =? 0) ltac:(lia)) as [[-> Hall]|(Hr & Hu & Hfirst)].
  - exists (-1), t, b1. split_and!; [done|done|]. left. split_and!; [done|done|]. intros fd Hfd. by apply Z.eqb_neq, Hall.
  - destruct (Z.ltb_spec (first_from (Z.to_nat FILE_MAX_FD) 0 (fun fd => used (file_at t fd) =? 0)) 0); [lia|].
    eexists _, _, b1. split_and!; [reflexivity|done|]. right. change (0 + Z.of_nat (Z.to_nat FILE_MAX_FD)) with 16 in Hr.
    split_and!; [lia|lia|by apply Z.eqb_eq|intros fd Hfd; by apply Z.eqb_neq, Hfirst|done].
Qed.
End Theorems.

(** ** Witnesses *)

Definition open_table : list kernel_file_t := KFile 1 1 readme_file 100 :: replicate 15 zero_file.
Lemma open_table_ok : open_file volume volume_bpb open_table 0 [3; 4].
Proof.
  assert (file_at open_table 0 = KFile 1 1 readme_file 100) as E by reflexivity.
  split; rewrite ?E; try (vm_compute; congruence); try (cbn; lia); [exact volume_chain|].
  repeat constructor; apply volume_readable; lia.
Qed.
Lemma booted_heap : heap_ok 0x180000 booted ∅.
Proof. exists [boot_block]. split; [exact booted_inv|]. split; [vm_compute; reflexivity|reflexivity]. Qed.

(** The booted kernel's heap has room for the sample file. *)
Lemma booted_serves m' : kmalloc (size (kfile (file_at open_table 0))) booted <> Ret (0, m').
Proof.
  destruct (empty_heap_serves 0x180000 booted (size (kfile (file_at open_table 0))) booted_heap) as (s' & -> & _);
    [split; vm_compute; congruence|discriminate].
Qed.

Lemma syscall_file_read_correct_witness : exists s,
  syscall_file_read disk_read kmalloc kfree ∅ 0 0x1000 450 (fstate booted volume_drive volume_bpb open_table) = Ret (450, s).
Proof.
  destruct (syscall_file_read_correct disk_read ata_disk ∅ kmalloc kfree 0x180000 _ (heap_ok 0x180000)
    booted volume_drive volume volume_bpb open_table 0 [3; 4] ∅ 0x1000 450 booted_heap volume_ok volume_geometry open_table_ok
    ltac:(lia) ltac:(lia) ltac:(intros x Hx; left; cbn in Hx; lia))
    as (r & m' & b' & _ & _ & [(_ & Hno & _)|(-> & E & _)]); [by destruct (booted_serves m')|]. eexists. exact E.
Defined.

Lemma syscall_file_write_correct_witness : exists s,
  syscall_file_write disk_read disk_write kmalloc kfree ∅ 0 0x1000 450 (fstate booted volume_drive volume_bpb open_table) = Ret (450, s).
Proof.
  assert (NoDup [3; 4]) as Hnd by (apply NoDup_ListNoDup; repeat constructor; cbn; lia).
  destruct (syscall_file_write_correct disk_read disk_write ata_disk ∅ kmalloc kfree 0x180000 _ (heap_ok 0x180000)
    booted volume_drive volume volume_bpb open_table 0 [3; 4] ∅ 0x1000 450 booted_heap volume_ok volume_geometry open_table_ok
    Hnd ltac:(vm_compute; congruence) ltac:(vm_compute; congruence) ltac:(lia) ltac:(lia) ltac:(intros x Hx; left; cbn in Hx; lia))
    as (r & m' & b' & f' & _ & _ & _ & [(_ & _ & Hno & _)|(-> & E & _)]); [by destruct (booted_serves m')|]. eexists. exact E.
Defined.

Lemma syscall_file_open_correct_witness : exists b',
  syscall_file_open disk_read ∅ 0x200 0 (fstate (set_ram path_mem mach0) volume_drive volume_bpb open_table) =
  Ret (1, fstate (set_ram path_mem mach0) b' volume_bpb (set_file open_table 1 (KFile 1 0 readme_file 0))).
Proof.
  assert (Forall (cluster_readable volume_bpb volume) [2]) as Hr by (repeat constructor; apply volume_readable; lia).
  destruct (syscall_file_open_correct disk_read ata_disk ∅ (set_ram path_mem mach0) volume_drive volume volume_bpb
    open_table [2] 0x200 0 readme_path volume_ok volume_geometry volume_root Hr ltac:(vm_compute; congruence) ltac:(lia)
    path_mem_string ltac:(repeat constructor; lia) eq_refl) as (r & t' & b' & E & _ & H).
  change (fat83 readme_path) with (Some readme) in H.
  assert (dir_lookup readme (entries (chain_data volume_bpb volume [2])) = Some readme_file) as Hl by (vm_compute; reflexivity).
  cbv beta iota in H. rewrite Hl in H. destruct H as [(_ & _ & H)|(H1 & H2 & H3 & ->)].
  - exfalso. exact (H 1 ltac:(lia) eq_refl).
  - assert (r = 1) as ->.
    { destruct (Z.eq_dec r 0) as [->|]; [discriminate H2|]. destruct (Z.eq_dec r 1) as [->|]; [done|].
      exfalso. apply (H3 1); [lia|reflexivity]. }
    exists b'. exact E.
Defined.
