(* ===== verification/Display.v ===== *)
(** * Drawing (Kernel/Drivers/Display/Display_Main.c and the drawing and
      command part of Kernel/Drivers/Display/VirtIO/VirtIO.c)

    The GPU reads and writes RAM on its own: it is the class [GpuDevice],
    which says what happens to the device and to RAM when the driver rings
    the doorbell and while it polls.  The two command structures of
    [virtio_gpu_present] are locals of a function whose addresses go to the
    device; they are the parameters [cmd_at] and [resp_at]. *)
From S2P Require Import Prelude Machine Utils Serial Memory Disk.

Class GpuDevice (B : Type) := {
  gpu_notify : Z -> Z -> B -> mem -> B * mem;
  gpu_poll : B -> mem -> B * mem
}.

Definition VIRTQ_DESC_F_NEXT : Z := 1.
Definition VIRTQ_DESC_F_WRITE : Z := 2.
Definition VIRTIO_GPU_CMD_RESOURCE_FLUSH : Z := 0x0104.
Definition VIRTIO_GPU_CMD_TRANSFER_TO_HOST_2D : Z := 0x0105.
Definition VIRTIO_GPU_RESP_OK_NODATA : Z := 0x1100.
Definition GPU_RESOURCE_ID : Z := 1.

Record virtqueue_t := Virtqueue {
  queue_index : Z;
  queue_size : Z;
  vq_desc : Z;
  vq_avail : Z;
  vq_used : Z;
  avail_idx : Z;
  used_idx_seen : Z;
  notify_addr : Z
}.

Record gpu_vars := GpuVars {
  g_gpu_ready : Z;
  g_gpu_width : Z;
  g_gpu_height : Z;
  g_gpu_fb : Z;
  g_gpu_controlq : virtqueue_t
}.

(** The machine, the devices and the static variables of VirtIO.c. *)
Record screen (B : Type) := Screen { sdev : dstate B; gpu : gpu_vars }.
Arguments Screen {B} _ _.
Arguments sdev {B} _.
Arguments gpu {B} _.

Section Display.
Context {B : Type} `{GpuDevice B} (cmd_at resp_at : Z).

Definition dev_ram (d : dstate B) : mem := ram (mach d).
Definition set_dev_ram (m : mem) (d : dstate B) : dstate B := DState (set_ram m (mach d)) (bus d).
Definition on_dev_ram (f : mem -> mem) : M (dstate B) unit := modify (fun d => set_dev_ram (f (dev_ram d)) d).

Definition virtio_gpu_is_ready : M (screen B) bool := gets (fun s => negb (g_gpu_ready (gpu s) =? 0)).
Definition virtio_gpu_width : M (screen B) Z := gets (fun s => g_gpu_width (gpu s)).
Definition virtio_gpu_height : M (screen B) Z := gets (fun s => g_gpu_height (gpu s)).

(** [g_gpu_fb[i] = color] *)
Definition put_pixel (i color : Z) (s : screen B) : screen B :=
  Screen (set_dev_ram (st32 (dev_ram (sdev s)) (g_gpu_fb (gpu s) + 4 * i) color) (sdev s)) (gpu s).

Definition virtio_gpu_draw_pixel (x y color : Z) : M (screen B) unit := fun s =>
  let g := gpu s in
  if (g_gpu_ready g =? 0) || (g_gpu_fb g =? 0) || (g_gpu_width g <=? x) || (g_gpu_height g <=? y)
  then Ret (tt, s)
  else Ret (tt, put_pixel (u64 (y * g_gpu_width g + x)) color s).

Definition virtio_gpu_fill_rect (x y w h color : Z) : M (screen B) unit := fun s =>
  let g := gpu s in
  if (g_gpu_ready g =? 0) || (g_gpu_fb g =? 0) || (w =? 0) || (h =? 0) then Ret (tt, s)
  else if (g_gpu_width g <=? x) || (g_gpu_height g <=? y) then Ret (tt, s)
  else
    let x_end := u32 (x + w) in
    let y_end := u32 (y + h) in
    let x_end := if (g_gpu_width g <? x_end) || (x_end <? x) then g_gpu_width g else x_end in
    let y_end := if (g_gpu_height g <? y_end) || (y_end <? y) then g_gpu_height g else y_end in
    Ret (tt, for_up (Z.to_nat (y_end - y)) y (fun py s =>
      let row := u64 (py * g_gpu_width g) in
      for_up (Z.to_nat (x_end - x)) x (fun px s => put_pixel (u64 (row + px)) color s) s) s).

(** The wait for the device: a step of the device before each look at
    [used->idx]; the rounds allowed are the timeout and never used up. *)
Definition wait_used (vq : virtqueue_t) : M (dstate B) Z := fun d =>
  match loop_pos 10000000 (fun '(timeout, b, m) =>
          let '(b, m) := gpu_poll b m in
          if u16 (ld16 m (vq_used vq + 2) - used_idx_seen vq) =? 0 then
            let timeout := timeout - 1 in
            if timeout =? 0 then inr (0, b, m) else inl (timeout, b, m)
          else inr (1, b, m)) (10000000, bus d, dev_ram d) with
  | inl _ => NoFuel
  | inr (r, b, m) => Ret (r, DState (set_ram m (mach d)) b)
  end.

Definition virtqueue_submit_sync (vq : virtqueue_t) (cmd cmd_len resp resp_len : Z)
    : M (dstate B) (Z * virtqueue_t) :=
  if queue_size vq <? 2 then mret (0, vq)
  else
    let desc := vq_desc vq in
    on_dev_ram (fun m =>
      let m := st64 m desc cmd in
      let m := st32 m (desc + 8) cmd_len in
      let m := st16 m (desc + 12) VIRTQ_DESC_F_NEXT in
      let m := st16 m (desc + 14) 1 in
      let m := st64 m (desc + 16) resp in
      let m := st32 m (desc + 24) resp_len in
      let m := st16 m (desc + 28) VIRTQ_DESC_F_WRITE in
      let m := st16 m (desc + 30) 0 in
      st16 m (vq_avail vq + 4 + 2 * (avail_idx vq mod queue_size vq)) 0);;
    let vq := Virtqueue (queue_index vq) (queue_size vq) desc (vq_avail vq) (vq_used vq)
                (u16 (avail_idx vq + 1)) (used_idx_seen vq) (notify_addr vq) in
    on_dev_ram (fun m => st16 m (vq_avail vq + 2) (avail_idx vq));;
    modify (fun d => let '(b, m) := gpu_notify (notify_addr vq) (queue_index vq) (bus d) (dev_ram d) in
                     DState (set_ram m (mach d)) b);;
    r ← wait_used vq;
    if r =? 0 then mret (0, vq)
    else
      modify (fun d => let '(b, m) := gpu_poll (bus d) (dev_ram d) in DState (set_ram m (mach d)) b);;
      idx ← gets (fun d => ld16 (dev_ram d) (vq_used vq + 2));
      mret (1, Virtqueue (queue_index vq) (queue_size vq) (vq_desc vq) (vq_avail vq) (vq_used vq)
                 (avail_idx vq) idx (notify_addr vq)).

(** A command over the whole screen: header of 24 bytes, rectangle of 16,
    then [rest] up to [len] bytes; the response is a header. *)
Definition gpu_rect_cmd (type width height len : Z) (rest : mem -> mem) (vq : virtqueue_t)
    : M (dstate B) (bool * virtqueue_t) :=
  on_dev_ram (fun m =>
    let m := memset m cmd_at 0 len in
    let m := memset m resp_at 0 24 in
    let m := st32 m cmd_at type in
    let m := st32 m (cmd_at + 24) 0 in
    let m := st32 m (cmd_at + 28) 0 in
    let m := st32 m (cmd_at + 32) width in
    let m := st32 m (cmd_at + 36) height in
    rest m);;
  '(r, vq) ← virtqueue_submit_sync vq cmd_at len resp_at 24;
  if r =? 0 then mret (false, vq)
  else
    ty ← gets (fun d => ld32 (dev_ram d) resp_at);
    mret (ty =? VIRTIO_GPU_RESP_OK_NODATA, vq).

Definition gpu_cmd_transfer_to_host_2d (vq : virtqueue_t) (width height : Z) : M (dstate B) (bool * virtqueue_t) :=
  gpu_rect_cmd VIRTIO_GPU_CMD_TRANSFER_TO_HOST_2D width height 56
    (fun m => st32 (st64 m (cmd_at + 40) 0) (cmd_at + 48) GPU_RESOURCE_ID) vq.

Definition gpu_cmd_resource_flush (vq : virtqueue_t) (width height : Z) : M (dstate B) (bool * virtqueue_t) :=
  gpu_rect_cmd VIRTIO_GPU_CMD_RESOURCE_FLUSH width height 48
    (fun m => st32 m (cmd_at + 40) GPU_RESOURCE_ID) vq.

(** Runs a command on [g_gpu_controlq]. *)
Definition on_controlq (c : virtqueue_t -> Z -> Z -> M (dstate B) (bool * virtqueue_t)) : M (screen B) bool := fun s =>
  let g := gpu s in
  '((r, vq), d) ← c (g_gpu_controlq g) (g_gpu_width g) (g_gpu_height g) (sdev s);
  Ret (r, Screen d (GpuVars (g_gpu_ready g) (g_gpu_width g) (g_gpu_height g) (g_gpu_fb g) vq)).

Definition virtio_gpu_present : M (screen B) unit :=
  ready ← virtio_gpu_is_ready;
  if negb ready then mret tt
  else
    r ← on_controlq gpu_cmd_transfer_to_host_2d;
    if negb r then mret tt
    else on_controlq gpu_cmd_resource_flush;; mret tt.

(** Display_Main.c *)
Definition display_is_ready : M (screen B) bool := virtio_gpu_is_ready.
Definition display_width : M (screen B) Z := virtio_gpu_width.
Definition display_height : M (screen B) Z := virtio_gpu_height.
Definition display_draw_pixel (x y color : Z) : M (screen B) unit := virtio_gpu_draw_pixel x y color.
Definition display_fill_rect (x y w h color : Z) : M (screen B) unit := virtio_gpu_fill_rect x y w h color.
Definition display_present : M (screen B) unit := virtio_gpu_present.
End Display.
