(* ===== verification/DisplayTheorems.v ===== *)
(** * The properties of the drawing routines *)
From S2P Require Import Prelude Machine Utils Serial Memory Disk BlockDev Display.

Section Drawing.
Context {B : Type}.
Implicit Types (s : screen B).

Definition screen_ram s : mem := dev_ram (sdev s).
(** Pixel [k] of the frame buffer, counted row by row. *)
Definition pixel s (k : Z) : Z := ld32 (screen_ram s) (g_gpu_fb (gpu s) + 4 * k).

(** A display that was set up: its frame buffer ends within the address
    space. *)
Record ready_screen s : Prop := {
  rs_ready : g_gpu_ready (gpu s) <> 0;
  rs_fb : 0 < g_gpu_fb (gpu s);
  rs_w : 0 < g_gpu_width (gpu s) < 4294967296;
  rs_h : 0 < g_gpu_height (gpu s) < 4294967296;
  rs_end : g_gpu_fb (gpu s) + 4 * (g_gpu_width (gpu s) * g_gpu_height (gpu s)) < 18446744073709551616
}.

(** What drawing keeps: everything but the pixels in [P]. *)
Definition drawn (P : Z -> bool) (color : Z) s s' : Prop :=
  gpu s' = gpu s /\ bus (sdev s') = bus (sdev s) /\ mach (sdev s') = set_ram (screen_ram s') (mach (sdev s)) /\
  (forall k, 0 <= k < g_gpu_width (gpu s) * g_gpu_height (gpu s) -> pixel s' k = if P k then u32 color else pixel s k) /\
  (forall a, a < g_gpu_fb (gpu s) \/ g_gpu_fb (gpu s) + 4 * (g_gpu_width (gpu s) * g_gpu_height (gpu s)) <= a -> ld8 (screen_ram s') a = ld8 (screen_ram s) a).

Lemma drawn_ext P Q color s s' :
  (forall k, 0 <= k < g_gpu_width (gpu s) * g_gpu_height (gpu s) -> P k = Q k) -> drawn P color s s' -> drawn Q color s s'.
Proof. intros HPQ (H1 & H2 & H3 & H4 & H5). split_and!; try done. intros k Hk. rewrite H4, HPQ by done. done. Qed.

Lemma drawn_none color s : drawn (fun _ => false) color s s.
Proof. split_and!; try done. unfold screen_ram, dev_ram. destruct s as [[[] ?] ?]. reflexivity. Qed.

Lemma drawn_trans P Q color s1 s2 s3 :
  drawn P color s1 s2 -> drawn Q color s2 s3 -> drawn (fun k => P k || Q k) color s1 s3.
Proof.
  intros (A1 & A2 & A3 & A4 & A5) (B1 & B2 & B3 & B4 & B5). rewrite A1 in *. split_and!; try congruence.
  - rewrite B3, A3. reflexivity.
  - intros k Hk. rewrite B4, A4 by done. destruct (P k), (Q k); reflexivity.
  - intros a Ha. rewrite B5, A5 by done. done.
Qed.

Lemma drawn_put s k color :
  0 <= k < g_gpu_width (gpu s) * g_gpu_height (gpu s) -> drawn (fun i => i =? k) color s (put_pixel k color s).
Proof.
  intros Hk. split_and!; [done..| |].
  - intros i Hi. unfold pixel, screen_ram, put_pixel, dev_ram. cbn. destruct (Z.eqb_spec i k) as [->|].
    + by rewrite ld32_st32_eq.
    + by rewrite ld32_st32 by lia.
  - intros a Ha. unfold screen_ram, put_pixel, dev_ram. cbn. apply (agree_st32 _ _ _ a (a + 1)); lia.
Qed.

(** A row, and a rectangle, of pixels. *)
Lemma drawn_row n s x row color :
  0 <= row + x -> row + x + Z.of_nat n <= g_gpu_width (gpu s) * g_gpu_height (gpu s) ->
  g_gpu_width (gpu s) * g_gpu_height (gpu s) < 18446744073709551616 ->
  drawn (fun k => (row + x <=? k) && (k <? row + x + Z.of_nat n)) color s
    (for_up n x (fun px s => put_pixel (u64 (row + px)) color s) s).
Proof.
  intros H0 H1 H2. pose (P := fun (j : Z) s' => drawn (fun k => (row + x <=? k) && (k <? row + j)) color s s').
  replace (row + x + Z.of_nat n) with (row + (x + Z.of_nat n)) by lia. apply (for_up_ind P); unfold P.
  - eapply drawn_ext; [|apply drawn_none]. intros k _. cbn. zcases; (reflexivity || lia).
  - intros j s' Hj IH. rewrite u64_small by lia. pose proof IH as (Hg & _). eapply drawn_ext.
    2:{ eapply drawn_trans; [exact IH|]. apply drawn_put. rewrite Hg. lia. }
    intros k _. cbn. zcases; (reflexivity || lia).
Qed.

Definition in_rect (w x x_end y y_end k : Z) : bool :=
  (x <=? k mod w) && (k mod w <? x_end) && (y <=? k / w) && (k / w <? y_end).

Lemma in_row w x x_end py k : 0 < w -> 0 <= x -> x_end <= w ->
  ((py * w + x <=? k) && (k <? py * w + x + (x_end - x))) = in_rect w x x_end py (py + 1) k.
Proof.
  intros Hw Hx He. unfold in_rect. pose proof (Z.div_mod k w ltac:(lia)) as Hd. pose proof (Z.mod_pos_bound k w Hw).
  assert (k / w < py \/ k / w = py \/ py < k / w) as [?|[E|?]] by lia.
  - assert ((k / w + 1) * w <= py * w) by nia. zcases; (reflexivity || nia).
  - rewrite E in Hd. zcases; (reflexivity || nia).
  - assert ((py + 1) * w <= (k / w) * w) by nia. zcases; (reflexivity || nia).
Qed.

Lemma drawn_rect n s x x_end y color :
  let w := g_gpu_width (gpu s) in let h := g_gpu_height (gpu s) in
  0 < w -> 0 <= x <= x_end -> x_end <= w -> 0 <= y -> y + Z.of_nat n <= h -> w * h < 18446744073709551616 ->
  drawn (in_rect w x x_end y (y + Z.of_nat n)) color s
    (for_up n y (fun py s => for_up (Z.to_nat (x_end - x)) x (fun px s => put_pixel (u64 (u64 (py * w) + px)) color s) s) s).
Proof.
  intros w h Hw Hx He Hy Hn Hwh.
  pose (P := fun (j : Z) s' => drawn (in_rect w x x_end y j) color s s').
  apply (for_up_ind P); unfold P.
  - eapply drawn_ext; [|apply drawn_none]. intros k _. unfold in_rect. zcases; (reflexivity || lia).
  - intros j s' Hj IH. assert (j * w + w <= w * h) by nia. rewrite (u64_small (j * w)) by nia.
    pose proof IH as (Hg & _). eapply drawn_ext.
    2:{ eapply drawn_trans; [exact IH|]. apply drawn_row; rewrite ?Hg; fold w h; nia. }
    intros k _. cbn. rewrite Z2Nat.id, in_row by lia. unfold in_rect. zcases; (reflexivity || lia).
Qed.

(** [virtio_gpu_fill_rect] paints exactly the part of the rectangle that
    lies on the screen, also when [x + w] or [y + h] overflows 32 bits:
    pixel [(k mod width, k / width)] gets the colour if and only if it is in
    [[x, x + w) * [y, y + h)], computed without overflow, and every other
    byte of memory stays. *)
Theorem fill_rect_clipped s x y w h color :
  ready_screen s -> 0 <= x < 4294967296 -> 0 <= y < 4294967296 -> 0 <= w < 4294967296 -> 0 <= h < 4294967296 ->
  exists s', virtio_gpu_fill_rect x y w h color s = Ret (tt, s') /\
    drawn (in_rect (g_gpu_width (gpu s)) x (x + w) y (y + h)) color s s'.
Proof.
  intros [Hr Hf HW HH He] Hx Hy Hw Hh. unfold virtio_gpu_fill_rect. set (g := gpu s) in *.
  assert (forall k, 0 <= k < g_gpu_width g * g_gpu_height g -> 0 <= k mod g_gpu_width g < g_gpu_width g /\ 0 <= k / g_gpu_width g < g_gpu_height g) as Hk.
  { intros k Hk. split; [apply Z.mod_pos_bound; lia|]. split; [apply Z.div_pos; lia|]. apply Z.div_lt_upper_bound; lia. }
  destruct (Z.eqb_spec (g_gpu_ready g) 0); [done|]. destruct (Z.eqb_spec (g_gpu_fb g) 0); [lia|]. cbn [orb].
  destruct ((w =? 0) || (h =? 0)) eqn:E0.
  { exists s. split; [done|]. eapply drawn_ext; [|apply drawn_none]. intros k _. unfold in_rect. zcases; (reflexivity || lia). }
  destruct ((g_gpu_width g <=? x) || (g_gpu_height g <=? y)) eqn:E1.
  { exists s. split; [done|]. eapply drawn_ext; [|apply drawn_none]. intros k H. specialize (Hk k H). unfold in_rect. fold g. zcases; (reflexivity || lia). }
  apply orb_false_iff in E0 as [E0a%Z.eqb_neq E0b%Z.eqb_neq]. apply orb_false_iff in E1 as [E1a%Z.leb_gt E1b%Z.leb_gt].
  set (xe := if _ || _ then g_gpu_width g else _). set (ye := if _ || _ then g_gpu_height g else _).
  assert (xe = Z.min (x + w) (g_gpu_width g)) as -> by (unfold xe; clear - Hx Hw HW E1a; zcases; word_lia).
  assert (ye = Z.min (y + h) (g_gpu_height g)) as -> by (unfold ye; clear - Hy Hh HH E1b; zcases; word_lia).
  eexists. split; [reflexivity|]. eapply drawn_ext; [|apply drawn_rect; fold g; lia].
  intros k H. specialize (Hk k H). fold g. unfold in_rect. zcases; (reflexivity || lia).
Qed.

(** [virtio_gpu_draw_pixel] is the one-by-one rectangle. *)
Theorem draw_pixel_is_unit_rect s x y color :
  0 <= g_gpu_width (gpu s) < 4294967296 -> 0 <= g_gpu_height (gpu s) < 4294967296 -> 0 <= x -> 0 <= y ->
  virtio_gpu_draw_pixel x y color s = virtio_gpu_fill_rect x y 1 1 color s.
Proof.
  intros HW HH Hx Hy. unfold virtio_gpu_draw_pixel, virtio_gpu_fill_rect. set (g := gpu s) in *.
  destruct (g_gpu_ready g =? 0); [done|]. destruct (g_gpu_fb g =? 0); [done|]. cbn [orb Z.eqb].
  destruct (Z.leb_spec (g_gpu_width g) x); [done|]. destruct (Z.leb_spec (g_gpu_height g) y); [done|]. cbn [orb].
  rewrite (u32_small (x + 1)), (u32_small (y + 1)) by lia.
  destruct (Z.ltb_spec (g_gpu_width g) (x + 1)); [lia|]. destruct (Z.ltb_spec (x + 1) x); [lia|].
  destruct (Z.ltb_spec (g_gpu_height g) (y + 1)); [lia|]. destruct (Z.ltb_spec (y + 1) y); [lia|]. cbn [orb].
  replace (y + 1 - y) with 1 by lia. replace (x + 1 - x) with 1 by lia. change (Z.to_nat 1) with 1%nat. cbn [for_up].
  do 3 f_equal. unfold u64. by rewrite Zplus_mod_idemp_l.
Qed.
End Drawing.

(** A screen of 640 by 480 with its frame buffer at 0x200000. *)
Definition sample_screen : screen unit :=
  Screen (DState mach0 tt) (GpuVars 1 640 480 0x200000 (Virtqueue 0 64 0 0 0 0 0 0)).

Lemma sample_screen_ready : ready_screen sample_screen.
Proof. split; cbn; lia. Qed.

Lemma fill_rect_clipped_witness : exists s',
  virtio_gpu_fill_rect 638 479 4294967295 10 0xFF0000 sample_screen = Ret (tt, s') /\
  pixel s' (479 * 640 + 639) = 0xFF0000 /\ pixel s' (479 * 640 + 637) = 0.
Proof.
  destruct (fill_rect_clipped sample_screen 638 479 4294967295 10 0xFF0000 sample_screen_ready) as (s' & E & _ & _ & _ & Hp & _); [lia..|].
  exists s'. split; [exact E|]. split; (rewrite Hp by (cbn; lia); reflexivity).
Defined.

Lemma draw_pixel_is_unit_rect_witness :
  virtio_gpu_draw_pixel 5 7 0xFF sample_screen = virtio_gpu_fill_rect 5 7 1 1 0xFF sample_screen.
Proof. apply draw_pixel_is_unit_rect; cbn; lia. Defined.
