(* ===== verification/Syscall.v ===== *)
(** * System calls (Kernel/Syscall/Syscall_Dispatch.c, Syscall_Init.c and
      Syscall_Entry.asm)

    [kernel] is the state of the whole kernel after boot; the components run
    on their parts of it.  [syscall_entry] is the assembly stub: it saves the
    user's registers in a frame on the one system call stack, calls
    [syscall_dispatch], and restores the registers from the frame whose
    address comes back.  The stack that the C code itself uses below the
    frame is not part of the model. *)
From S2P Require Import Prelude Machine Utils Serial Memory Heap Process Disk Fat32 SysFile Display.

Definition SYSCALL_SERIAL_PUTCHAR : Z := 1.
Definition SYSCALL_SERIAL_PUTS : Z := 2.
Definition SYSCALL_PROCESS_CREATE : Z := 3.
Definition SYSCALL_PROCESS_YIELD : Z := 4.
Definition SYSCALL_PROCESS_EXIT : Z := 5.
Definition SYSCALL_THREAD_CREATE : Z := 6.
Definition SYSCALL_DRAW_PIXEL : Z := 10.
Definition SYSCALL_DRAW_FILL_RECT : Z := 11.
Definition SYSCALL_DRAW_PRESENT : Z := 12.
Definition SYSCALL_FILE_OPEN : Z := 20.
Definition SYSCALL_FILE_READ : Z := 21.
Definition SYSCALL_FILE_WRITE : Z := 22.
Definition SYSCALL_FILE_CLOSE : Z := 23.
Definition SYSCALL_USER_KMALLOC : Z := 24.
Definition SYSCALL_USER_KFREE : Z := 25.
Definition SYSCALL_USER_MEMCPY : Z := 26.
Definition SYSCALL_USER_MEMCMP : Z := 27.
Definition SYSCALL_FRAME_RAX : Z := 0.
Definition SYSCALL_KERNEL_STACK_SIZE : Z := 4096.

(** [g_syscall_cpu_state] *)
Record syscall_cpu_state_t := CpuState { user_rsp : Z; kernel_rsp : Z }.

Record kernel (B : Type) := Kernel {
  kprocs : procs;
  kbus : B;
  kbpb : FAT32_BPB;
  kfiles : list kernel_file_t;
  kgpu : gpu_vars;
  g_syscall_cpu_state : syscall_cpu_state_t
}.
Arguments Kernel {B} _ _ _ _ _ _.
Arguments kprocs {B} _.
Arguments kbus {B} _.
Arguments kbpb {B} _.
Arguments kfiles {B} _.
Arguments kgpu {B} _.
Arguments g_syscall_cpu_state {B} _.

(** The NUL-terminated string at [p]. *)
Fixpoint read_cstring (fuel : nat) (m : mem) (p : Z) : outcome (list Z) :=
  match fuel with
  | O => NoFuel
  | S f => if ld8 m p =? 0 then Ret [] else l ← read_cstring f m (p + 1); Ret (ld8 m p :: l)
  end.

Section Kernel.
Context {B : Type} `{Ports B} `{GpuDevice B} (junk : mem) (cmd_at resp_at : Z).
Abbreviation K := (kernel B).

Definition kram (k : K) : mem := ram (kmem (kprocs k)).
Definition on_procs {A} (c : M procs A) : M K A :=
  zoom kprocs (fun p k => Kernel p (kbus k) (kbpb k) (kfiles k) (kgpu k) (g_syscall_cpu_state k)) c.
Definition on_memory {A} (c : M mstate A) : M K A := on_procs (on_mem c).
Definition on_files {A} (c : M (files B) A) : M K A :=
  zoom (fun k => Files (Fs (DState (kmem (kprocs k)) (kbus k)) (kbpb k)) (kfiles k))
    (fun s k => Kernel (put_mem (mach (fdev (ffs s))) (kprocs k)) (bus (fdev (ffs s))) (bpb (ffs s)) (g_files s)
                  (kgpu k) (g_syscall_cpu_state k)) c.
Definition on_screen {A} (c : M (screen B) A) : M K A :=
  zoom (fun k => Screen (DState (kmem (kprocs k)) (kbus k)) (kgpu k))
    (fun s k => Kernel (put_mem (mach (sdev s)) (kprocs k)) (bus (sdev s)) (kbpb k) (kfiles k)
                  (gpu s) (g_syscall_cpu_state k)) c.

Definition syscall_get_user_rsp : M K Z := gets (fun k => user_rsp (g_syscall_cpu_state k)).
Definition syscall_set_user_rsp (v : Z) : M K unit := modify (fun k =>
  Kernel (kprocs k) (kbus k) (kbpb k) (kfiles k) (kgpu k) (CpuState v (kernel_rsp (g_syscall_cpu_state k)))).

Definition set_syscall_result (saved_rsp value : Z) : M K unit :=
  on_memory (modify (fun s => set_ram (st64 (ram s) (saved_rsp + 8 * SYSCALL_FRAME_RAX) value) s)).

(** A case of the switch: the function returns at once with [Some], or goes
    on to the scheduler with [request_switch]. *)
Definition case_done (saved_rsp value : Z) : M K (Z + Z) := set_syscall_result saved_rsp (u64 value);; mret (inr 0).

Definition syscall_switch (saved_rsp num arg1 arg2 arg3 arg4 : Z) : M K (Z + Z) :=
  if num =? SYSCALL_SERIAL_PUTCHAR then
    on_memory (say [SChar (u8 arg1)]);; case_done saved_rsp 0
  else if num =? SYSCALL_SERIAL_PUTS then
    m ← gets kram;
    l ← liftO (read_cstring (S (stdpp.base.size m)) m arg1);
    on_memory (say [SBytes l]);; case_done saved_rsp 0
  else if num =? SYSCALL_PROCESS_CREATE then
    pid ← on_procs (process_create_user kmalloc arg1); case_done saved_rsp pid
  else if num =? SYSCALL_PROCESS_YIELD then
    set_syscall_result saved_rsp 0;; mret (inr 1)
  else if num =? SYSCALL_PROCESS_EXIT then
    on_procs process_exit_current;; mret (inr 1)
  else if num =? SYSCALL_THREAD_CREATE then
    tid ← on_procs (process_create_user kmalloc arg1);
    set_syscall_result saved_rsp (u64 tid);;
    mret (inr (if 0 <=? tid then 1 else 0))
  else if num =? SYSCALL_DRAW_PIXEL then
    on_screen (display_draw_pixel (u32 arg1) (u32 arg2) (u32 arg3));; case_done saved_rsp 0
  else if num =? SYSCALL_DRAW_FILL_RECT then
    on_screen (display_fill_rect (u32 arg1) (u32 arg2) (u32 (Z.shiftr arg3 32))
                 (u32 (Z.land arg3 0xFFFFFFFF)) (u32 arg4));; case_done saved_rsp 0
  else if num =? SYSCALL_DRAW_PRESENT then
    on_screen (display_present cmd_at resp_at);; case_done saved_rsp 0
  else if num =? SYSCALL_FILE_OPEN then
    fd ← on_files (syscall_file_open disk_read junk arg1 arg2); case_done saved_rsp fd
  else if num =? SYSCALL_FILE_READ then
    n ← on_files (syscall_file_read disk_read kmalloc kfree junk (s32 arg1) arg2 arg3); case_done saved_rsp n
  else if num =? SYSCALL_FILE_WRITE then
    n ← on_files (syscall_file_write disk_read disk_write kmalloc kfree junk (s32 arg1) arg2 arg3);
    case_done saved_rsp n
  else if num =? SYSCALL_FILE_CLOSE then
    rc ← on_files (syscall_file_close (s32 arg1)); case_done saved_rsp rc
  else if num =? SYSCALL_USER_KMALLOC then
    ptr ← on_memory (kmalloc (u32 arg1)); mret (inl ptr)
  else if num =? SYSCALL_USER_KFREE then
    on_memory (kfree arg1);; mret (inl 0)
  else if num =? SYSCALL_USER_MEMCPY then
    on_memory (modify (fun s => set_ram (memcpy (ram s) arg1 arg2 arg3) s));; case_done saved_rsp arg1
  else if num =? SYSCALL_USER_MEMCMP then
    m ← gets kram; case_done saved_rsp (memcmp m arg1 arg2 arg3)
  else
    on_memory (say [line "[SYSCALL] Unknown syscall"]);; case_done saved_rsp (-1).

Definition syscall_dispatch (saved_rsp num arg1 arg2 arg3 arg4 : Z) : M K Z :=
  r ← syscall_switch saved_rsp num arg1 arg2 arg3 arg4;
  match r with
  | inl v => mret v
  | inr request_switch =>
      current_user_rsp ← syscall_get_user_rsp;
      '(next_saved_rsp, next_user_rsp) ←
        on_procs (process_schedule_on_syscall saved_rsp current_user_rsp request_switch);
      syscall_set_user_rsp next_user_rsp;;
      mret next_saved_rsp
  end.

(** [syscall_init]: the part that is not model-specific registers.  [stack]
    is the address of [g_syscall_kernel_stack]. *)
Definition syscall_init_state (stack : Z) : M K unit := modify (fun k =>
  Kernel (kprocs k) (kbus k) (kbpb k) (kfiles k) (kgpu k)
    (CpuState 0 (Z.land (u64 (stack + SYSCALL_KERNEL_STACK_SIZE)) (u64 (Z.lnot 0xF))))).

(** ** The assembly stub *)

(** The fifteen registers of the frame, in its order: rax, rdx, rsi, rdi,
    r8, r9, r10, r12, r13, r14, r15, rbx, rbp, rcx, r11. *)
Abbreviation regs := (list Z).
Definition reg (g : regs) (i : nat) : Z := default 0 (g !! i).

Fixpoint push_frame (g : regs) (a : Z) (m : mem) : mem :=
  match g with
  | [] => m
  | v :: g => push_frame g (a + 8) (st64 m a v)
  end.
Definition pop_frame (m : mem) (a : Z) : regs := (fun i => ld64 m (a + 8 * i)) <$> seqZ 0 15.

(** The user's registers and stack pointer at [syscall], and after
    [sysret]. *)
Definition syscall_entry (g : regs) (rsp : Z) : M K (regs * Z) :=
  syscall_set_user_rsp rsp;;
  kernel_rsp ← gets (fun k => kernel_rsp (g_syscall_cpu_state k));
  let frame := u64 (u64 (Z.land kernel_rsp (u64 (Z.lnot 0xF)) - 8) - 120) in
  on_memory (modify (fun s => set_ram (push_frame g frame (ram s)) s));;
  m ← gets kram;
  next ← syscall_dispatch frame (reg g 0) (ld64 m (frame + 24)) (ld64 m (frame + 16)) (ld64 m (frame + 8))
           (ld64 m (frame + 48));
  m ← gets kram;
  user_rsp ← syscall_get_user_rsp;
  mret (pop_frame m next, user_rsp).
End Kernel.
