(* ===== verification/SyscallTheorems.v ===== *)
(** * The properties of the system call path

    What a user program sees of [syscall_entry]: which registers come back,
    with which stack pointer, and what the call did.  The first part runs
    the stub around any call of the switch; the theorems then run the calls
    themselves. *)
From S2P Require Import Prelude Machine Utils Serial Memory Heap HeapChain HeapInv HeapOps HeapSpec Alloc HeapTheorems.
From S2P Require Import Process ProcessTheorems Disk BlockDev Fat32 Fat32Spec Fat32Theorems.
From S2P Require Import SysFile SysFileSpec SysFileTheorems Display Syscall.

(** ** The frame *)

Lemma agree_push_frame g a m lo hi :
  hi <= a \/ a + 8 * Z.of_nat (length g) <= lo -> agree m (push_frame g a m) lo hi.
Proof.
  revert a m; induction g as [|v g IH]; intros a m H; cbn [push_frame]; [apply agree_refl|]. cbn [length] in H.
  eapply agree_trans; [|apply IH; lia]. apply agree_st64. lia.
Qed.

Lemma ld64_push_frame g a m i v :
  g !! i = Some v -> ld64 (push_frame g a m) (a + 8 * Z.of_nat i) = u64 v.
Proof.
  revert a m i; induction g as [|w g IH]; intros a m [|i] H; try discriminate; cbn [push_frame].
  - injection H as ->. rewrite Z.add_0_r. rewrite <- ld64_st64_eq with (m := m) (a := a).
    apply ld64_ext, agree_push_frame. lia.
  - cbn in H. rewrite <- (IH (a + 8) (st64 m a w) i H). f_equal. lia.
Qed.

(** The registers of a user program. *)
Definition user_regs (g : list Z) : Prop :=
  length g = 15%nat /\ Forall (fun v => 0 <= v < 18446744073709551616) g.

Lemma user_reg g i : user_regs g -> (i < 15)%nat -> g !! i = Some (reg g i) /\ 0 <= reg g i < 18446744073709551616.
Proof.
  intros [Hl Hr] Hi. unfold reg. destruct (lookup_lt_is_Some_2 g i) as [v Hv]; [lia|].
  rewrite Hv. split; [done|]. exact (proj1 (Forall_lookup _ _) Hr i v Hv).
Qed.

Lemma ld64_frame g a m i : user_regs g -> (i < 15)%nat -> ld64 (push_frame g a m) (a + 8 * Z.of_nat i) = reg g i.
Proof. intros Hg Hi. destruct (user_reg g i Hg Hi). erewrite ld64_push_frame by done. by apply u64_small. Qed.

(** Popping what was pushed, when only the first word has changed. *)
Lemma pop_pushed g a m m' v :
  user_regs g -> agree (push_frame g a m) m' (a + 8) (a + 120) -> ld64 m' a = v -> pop_frame m' a = <[0%nat := v]> g.
Proof.
  intros Hg Ha Hv. pose proof Hg as [Hl _]. apply list_eq. intros i. unfold pop_frame. rewrite list_lookup_fmap.
  destruct (Nat.lt_ge_cases i 15) as [Hi|Hi].
  - rewrite lookup_seqZ_lt by lia. cbn [fmap option_fmap option_map]. destruct i as [|i].
    + rewrite list_lookup_insert_eq by lia. f_equal. rewrite <- Hv. f_equal. lia.
    + rewrite list_lookup_insert_ne by lia. destruct (user_reg g (S i) Hg Hi) as [-> _]. f_equal.
      rewrite <- (ld64_frame g a m (S i) Hg Hi). replace (0 + Z.of_nat (S i)) with (Z.of_nat (S i)) by lia.
      apply ld64_ext. eapply agree_sub; [..|exact Ha]; lia.
  - rewrite lookup_seqZ_ge by lia. symmetry. apply lookup_ge_None. rewrite length_insert. lia.
Qed.

Section Stub.
Context {B : Type} {P : Ports B} {G : GpuDevice B} (junk : mem) (cmd_at resp_at : Z).
Abbreviation K := (kernel B).
Implicit Types (k : K) (g : list Z).

(** The system call stack, as [syscall_init] leaves it. *)
Definition stack_ok k : Prop :=
  128 <= kernel_rsp (g_syscall_cpu_state k) < 18446744073709551616 /\ kernel_rsp (g_syscall_cpu_state k) mod 16 = 0.
Definition frame_at k : Z := kernel_rsp (g_syscall_cpu_state k) - 128.

Lemma frame_val k : stack_ok k ->
  u64 (u64 (Z.land (kernel_rsp (g_syscall_cpu_state k)) (u64 (Z.lnot 0xF)) - 8) - 120) = frame_at k.
Proof.
  intros [H1 H2]. change (Z.lnot 0xF) with (Z.lnot (Z.ones 4)). rewrite land_u64_lnot_ones by lia.
  change (2 ^ 4) with 16. rewrite H2. unfold frame_at. rewrite !u64_small by (rewrite ?u64_small; lia). lia.
Qed.

Definition with_ram (f : mem -> mem) k : K :=
  Kernel (put_mem (set_ram (f (kram k)) (kmem (kprocs k))) (kprocs k)) (kbus k) (kbpb k) (kfiles k) (kgpu k)
    (g_syscall_cpu_state k).
Definition with_rsp (v : Z) k : K :=
  Kernel (kprocs k) (kbus k) (kbpb k) (kfiles k) (kgpu k) (CpuState v (kernel_rsp (g_syscall_cpu_state k))).

(** The kernel when [syscall_dispatch] is called. *)
Definition entered g (rsp : Z) k : K := with_ram (push_frame g (frame_at k)) (with_rsp rsp k).

(** [syscall_dispatch] called with the registers' arguments. *)
Definition dispatched g (rsp : Z) k : outcome (Z * K) :=
  syscall_dispatch junk cmd_at resp_at (frame_at k) (reg g 0) (reg g 3) (reg g 2) (reg g 1) (reg g 6) (entered g rsp k).
Definition switched g (rsp : Z) k : outcome ((Z + Z) * K) :=
  syscall_switch junk cmd_at resp_at (frame_at k) (reg g 0) (reg g 3) (reg g 2) (reg g 1) (reg g 6) (entered g rsp k).

Lemma syscall_entry_run g rsp k next k' :
  stack_ok k -> user_regs g -> dispatched g rsp k = Ret (next, k') ->
  syscall_entry junk cmd_at resp_at g rsp k =
  Ret ((pop_frame (kram k') next, user_rsp (g_syscall_cpu_state k')), k').
Proof.
  intros Hs Hg E. unfold syscall_entry, syscall_set_user_rsp. rewrite bind_modify, bind_gets.
  cbn [g_syscall_cpu_state kernel_rsp]. rewrite frame_val by done.
  rewrite (bind_run _ _ _ tt (entered g rsp k)) by reflexivity. rewrite bind_gets.
  change (kram (entered g rsp k)) with (push_frame g (frame_at k) (kram k)).
  change 24 with (8 * Z.of_nat 3). change 16 with (8 * Z.of_nat 2). change (frame_at k + 8) with (frame_at k + 8 * Z.of_nat 1).
  change 48 with (8 * Z.of_nat 6). rewrite !ld64_frame by (done || lia).
  rewrite (bind_run _ _ _ next k') by exact E. reflexivity.
Qed.

(** A call that asks for no switch, once the switch statement is done. *)
Definition stayed (rsp : Z) k k1 : K :=
  let s := kprocs k1 in
  let t := save_current (g_processes s) (g_current_pid s) (frame_at k) rsp in
  Kernel (Procs (kmem s) (set_proc t (g_current_pid s) (set_state PROCESS_STATE_RUNNING (proc t (g_current_pid s)))) (g_current_pid s))
    (kbus k1) (kbpb k1) (kfiles k1) (kgpu k1) (CpuState rsp (kernel_rsp (g_syscall_cpu_state k1))).

Lemma running_current s : running_inv s -> pstate (proc (g_processes s) (g_current_pid s)) = PROCESS_STATE_RUNNING.
Proof. intros (_ & H & Hi). by apply Hi. Qed.

Lemma saved_current s rsp ursp : running_inv s ->
  proc (save_current (g_processes s) (g_current_pid s) rsp ursp) (g_current_pid s) =
  Process PROCESS_STATE_READY (entry (proc (g_processes s) (g_current_pid s))) rsp ursp
    (stack_base (proc (g_processes s) (g_current_pid s))).
Proof.
  intros Hi. pose proof (running_current s Hi) as Hr. destruct Hi as (Hl & Hc & _). unfold save_current. states. rewrite Hr.
  cbn [Z.eqb Pos.eqb orb]. rewrite proc_set_proc by lia. by rewrite Z.eqb_refl.
Qed.

Lemma stay_run g rsp k k1 v :
  stack_ok k -> user_regs g -> switched g rsp k = Ret (inr 0, k1) -> running_inv (kprocs k1) ->
  user_rsp (g_syscall_cpu_state k1) = rsp ->
  agree (kram (entered g rsp k)) (kram k1) (frame_at k + 8) (frame_at k + 120) -> ld64 (kram k1) (frame_at k) = v ->
  syscall_entry junk cmd_at resp_at g rsp k = Ret ((<[0%nat := v]> g, rsp), stayed rsp k k1).
Proof.
  intros Hs Hg E Hi Hu Ha Hv. pose proof (saved_current (kprocs k1) (frame_at k) rsp Hi) as Hsv.
  rewrite (syscall_entry_run g rsp k (frame_at k) (stayed rsp k k1)); [|done..|].
  - cbn [stayed g_syscall_cpu_state user_rsp]. repeat f_equal.
    by apply (pop_pushed g (frame_at k) (kram k)).
  - unfold switched in E. unfold dispatched, syscall_dispatch. rewrite (bind_run _ _ _ _ _ E).
    unfold syscall_get_user_rsp. rewrite bind_gets, Hu. unfold on_procs, zoom.
    erewrite bind_run; [|rewrite (schedule_stay (kprocs k1)) by first [by apply running_current|apply Hi]; reflexivity].
    unfold stayed. rewrite Hsv. reflexivity.
Qed.

(** What a call that stays leaves behind, when the switch statement ended in
    [k1] with the result [v]. *)
Record returned (frame v : Z) k1 k' : Prop := {
  ret_mem : kmem (kprocs k') = set_ram (st64 (kram k1) frame v) (kmem (kprocs k1));
  ret_inv : running_inv (kprocs k');
  ret_pid : g_current_pid (kprocs k') = g_current_pid (kprocs k1);
  ret_bus : kbus k' = kbus k1;
  ret_bpb : kbpb k' = kbpb k1;
  ret_files : kfiles k' = kfiles k1;
  ret_gpu : kgpu k' = kgpu k1;
  ret_stack : kernel_rsp (g_syscall_cpu_state k') = kernel_rsp (g_syscall_cpu_state k1)
}.

Lemma returned_inv (rsp : Z) k k1 : running_inv (kprocs k1) -> running_inv (kprocs (stayed rsp k k1)).
Proof.
  intros Hi. eapply (proc_step_inv kmalloc); [exact Hi|]. eapply (step_return _ (frame_at k) rsp).
  rewrite schedule_stay by first [by apply running_current|apply Hi]. reflexivity.
Qed.

Lemma call_returns g rsp k k1 v :
  stack_ok k -> user_regs g -> switched g rsp k = case_done (frame_at k) v k1 -> running_inv (kprocs k1) ->
  user_rsp (g_syscall_cpu_state k1) = rsp ->
  agree (kram (entered g rsp k)) (kram k1) (frame_at k + 8) (frame_at k + 120) ->
  exists k', syscall_entry junk cmd_at resp_at g rsp k = Ret ((<[0%nat := u64 v]> g, rsp), k') /\
    returned (frame_at k) (u64 v) k1 k'.
Proof.
  intros Hs Hg E Hi Hu Ha.
  set (k2 := with_ram (fun m => st64 m (frame_at k) (u64 v)) k1).
  assert (switched g rsp k = Ret (inr 0, k2)) as E2.
  { rewrite E. unfold case_done, set_syscall_result, SYSCALL_FRAME_RAX. rewrite Z.mul_0_r, Z.add_0_r. reflexivity. }
  exists (stayed rsp k k2). split.
  - apply (stay_run g rsp k k2); try done.
    + eapply agree_trans; [exact Ha|]. apply agree_st64. lia.
    + change (kram k2) with (st64 (kram k1) (frame_at k) (u64 v)). rewrite ld64_st64_eq. apply u64_small, u64_range.
  - split; try reflexivity. by apply returned_inv.
Qed.

Lemma entered_ram g rsp k x : user_regs g -> x < frame_at k \/ frame_at k + 120 <= x ->
  ld8 (kram (entered g rsp k)) x = ld8 (kram k) x.
Proof. intros [Hl _] Hx. apply (agree_push_frame g (frame_at k) (kram k) x (x + 1)); lia. Qed.
End Stub.

(** ** Calls that only print, compare or copy *)

(** A string in RAM is no longer than RAM. *)
Lemma cstring_fits m p cs : cstring_at m p cs -> (length cs <= stdpp.base.size m)%nat.
Proof.
  intros [Hz Hb]. set (keys := seqZ p (Z.of_nat (length cs))).
  assert (list_to_set keys ⊆ (dom m : gset Z)) as Hsub.
  { intros x Hx%elem_of_list_to_set%elem_of_seqZ. apply elem_of_dom.
    destruct (m !! x) as [v|] eqn:E; [by eexists|exfalso].
    destruct (lookup_lt_is_Some_2 cs (Z.to_nat (x - p))) as [c Hc]; [lia|].
    apply (f_equal (lookup (Z.to_nat (x - p)))) in Hb.
    rewrite lookup_bytes, lookup_app_l in Hb by (apply lookup_lt_is_Some; by eexists).
    destruct (Z.ltb_spec (Z.of_nat (Z.to_nat (x - p))) (Z.of_nat (length cs) + 1)); [|lia].
    rewrite Hc in Hb. injection Hb as Hb. replace (p + Z.of_nat (Z.to_nat (x - p))) with x in Hb by lia.
    unfold ld8 in Hb. rewrite E in Hb. apply (proj1 (Forall_lookup _ _) Hz _ _ Hc). by rewrite <- Hb. }
  apply subseteq_size in Hsub. rewrite size_list_to_set, size_dom in Hsub by apply NoDup_seqZ.
  unfold keys in Hsub. rewrite length_seqZ in Hsub. lia.
Qed.

Lemma read_cstring_run m p cs fuel :
  cstring_at m p cs -> (length cs < fuel)%nat -> read_cstring fuel m p = Ret cs.
Proof.
  revert p fuel; induction cs as [|c cs IH]; intros p [|fuel] Hc Hf; cbn [length] in Hf; try lia; cbn [read_cstring].
  - apply cstring_at_nil in Hc. by rewrite Hc.
  - apply cstring_at_cons in Hc as (Hc & -> & Hcs). destruct (Z.eqb_spec c 0); [done|].
    by rewrite (IH (p + 1) fuel Hcs ltac:(lia)).
Qed.

Lemma cstring_agree m m' p cs :
  agree m m' p (p + Z.of_nat (length cs) + 1) -> cstring_at m p cs -> cstring_at m' p cs.
Proof. intros Ha [H1 H2]. split; [done|]. rewrite <- H2. apply bytes_agree. eapply agree_sub; [..|exact Ha]; lia. Qed.

(** The numbers Syscall_Main.h defines. *)
Definition syscall_numbers : list Z := [1; 2; 3; 4; 5; 6; 10; 11; 12; 20; 21; 22; 23; 24; 25; 26; 27].

Section Calls.
Context {B : Type} {P : Ports B} {G : GpuDevice B} (junk : mem) (cmd_at resp_at : Z).
Abbreviation K := (kernel B).
Implicit Types (k : K) (g : list Z).

(** A range of memory apart from the frame of the call. *)
Definition off_frame k (a n : Z) : Prop := a + n <= frame_at k \/ frame_at k + 120 <= a.

(** The calls that change nothing but the serial line: number, three
    arguments, result and output. *)
Inductive quiet_call k : Z -> Z -> Z -> Z -> Z -> list sev -> Prop :=
| quiet_putchar c a2 a3 : quiet_call k SYSCALL_SERIAL_PUTCHAR c a2 a3 0 [SChar (u8 c)]
| quiet_puts p a2 a3 cs : cstring_at (kram k) p cs -> off_frame k p (Z.of_nat (length cs) + 1) ->
    quiet_call k SYSCALL_SERIAL_PUTS p a2 a3 0 [SBytes cs]
| quiet_same p q n : off_frame k p n -> off_frame k q n -> bytes (kram k) p n = bytes (kram k) q n ->
    quiet_call k SYSCALL_USER_MEMCMP p q n 0 []
| quiet_differ p q n i : off_frame k p n -> off_frame k q n -> 0 <= i < n ->
    bytes (kram k) p i = bytes (kram k) q i -> ld8 (kram k) (p + i) <> ld8 (kram k) (q + i) ->
    quiet_call k SYSCALL_USER_MEMCMP p q n (ld8 (kram k) (p + i) - ld8 (kram k) (q + i)) []
| quiet_unknown num a1 a2 a3 : num ∉ syscall_numbers ->
    quiet_call k num a1 a2 a3 (-1) [line "[SYSCALL] Unknown syscall"].

Definition printed (es : list sev) k : K :=
  Kernel (put_mem (add_serial es (kmem (kprocs k))) (kprocs k)) (kbus k) (kbpb k) (kfiles k) (kgpu k) (g_syscall_cpu_state k).

Lemma unknown_switch num a1 a2 a3 a4 frame k : num ∉ syscall_numbers ->
  syscall_switch junk cmd_at resp_at frame num a1 a2 a3 a4 k = case_done frame (-1) (printed [line "[SYSCALL] Unknown syscall"] k).
Proof.
  intros H. unfold syscall_numbers in H. rewrite !not_elem_of_cons in H. unfold syscall_switch.
  repeat match goal with |- context [num =? ?c] =>
    let E := fresh in assert ((num =? c) = false) as E by (apply Z.eqb_neq; tauto); rewrite E; clear E end.
  reflexivity.
Qed.

Lemma printed_nil k : printed [] k = k.
Proof.
  unfold printed. rewrite add_serial_nil. by destruct k as [[? ? ?] ? ? ? ? ?].
Qed.

Lemma entered_bytes g rsp k p n : user_regs g -> off_frame k p n -> agree (kram k) (kram (entered g rsp k)) p (p + n).
Proof. intros Hg Ho x Hx. apply entered_ram; [done|]. unfold off_frame in Ho. lia. Qed.

Lemma quiet_switch g rsp k num a1 a2 a3 a4 v es :
  user_regs g -> quiet_call k num a1 a2 a3 v es ->
  syscall_switch junk cmd_at resp_at (frame_at k) num a1 a2 a3 a4 (entered g rsp k) =
  case_done (frame_at k) v (printed es (entered g rsp k)).
Proof.
  intros Hg [c b2 b3|p b2 b3 cs Hcs Ho|p q n Hp Hq E|p q n i Hp Hq Hi E Hne|n b1 b2 b3 Hn]; try reflexivity.
  - change (syscall_switch junk cmd_at resp_at (frame_at k) SYSCALL_SERIAL_PUTS p b2 b3 a4 (entered g rsp k)) with
      ((l ← liftO (read_cstring (S (stdpp.base.size (kram (entered g rsp k)))) (kram (entered g rsp k)) p);
        on_memory (say [SBytes l]);; case_done (frame_at k) 0) (entered g rsp k)).
    assert (cstring_at (kram (entered g rsp k)) p cs) as Hcs'.
    { eapply cstring_agree; [|exact Hcs]. rewrite <- Z.add_assoc. by apply entered_bytes. }
    rewrite (bind_run _ _ _ cs (entered g rsp k)); [reflexivity|].
    unfold liftO. rewrite (read_cstring_run _ p cs) by (done || apply le_n_S, (cstring_fits _ p), Hcs'). reflexivity.
  - rewrite printed_nil. change (case_done (frame_at k) (memcmp (kram (entered g rsp k)) p q n) (entered g rsp k) =
      case_done (frame_at k) 0 (entered g rsp k)). f_equal. apply memcmp_zero.
    rewrite (bytes_agree (kram k) _ p n), (bytes_agree (kram k) _ q n) by by apply entered_bytes. exact E.
  - rewrite printed_nil. change (case_done (frame_at k) (memcmp (kram (entered g rsp k)) p q n) (entered g rsp k) =
      case_done (frame_at k) (ld8 (kram k) (p + i) - ld8 (kram k) (q + i)) (entered g rsp k)). f_equal.
    rewrite <- (entered_bytes g rsp k p n Hg Hp (p + i)), <- (entered_bytes g rsp k q n Hg Hq (q + i)) in Hne |- * by lia.
    apply memcmp_first_diff; try done. intros j Hj. rewrite (entered_bytes g rsp k p n), (entered_bytes g rsp k q n) by (done || lia).
    apply (f_equal (lookup (Z.to_nat j))) in E. rewrite !lookup_bytes, Z2Nat.id in E by lia.
    destruct (Z.ltb_spec j i); [by injection E|lia].
  - by apply unknown_switch.
Qed.

(** C39. A system call that prints a character or a string, compares memory,
    or has an unknown number returns to its caller: every register but RAX
    and the stack pointer are those of the caller, RAX is the result (the
    byte difference for a comparison, -1 for an unknown number), the output
    is what was asked for, and no byte of memory outside the call's own
    frame changes; the same process goes on running. *)
Theorem quiet_call_returns g rsp k v es :
  stack_ok k -> running_inv (kprocs k) -> user_regs g ->
  quiet_call k (reg g 0) (reg g 3) (reg g 2) (reg g 1) v es ->
  exists k', syscall_entry junk cmd_at resp_at g rsp k = Ret ((<[0%nat := u64 v]> g, rsp), k') /\
    running_inv (kprocs k') /\ g_current_pid (kprocs k') = g_current_pid (kprocs k) /\
    serial (kmem (kprocs k')) = serial (kmem (kprocs k)) ++ es /\
    kbus k' = kbus k /\ kbpb k' = kbpb k /\ kfiles k' = kfiles k /\ kgpu k' = kgpu k /\
    forall x, x < frame_at k \/ frame_at k + 120 <= x -> ld8 (kram k') x = ld8 (kram k) x.
Proof.
  intros Hs Hi Hg Hq.
  destruct (call_returns junk cmd_at resp_at g rsp k (printed es (entered g rsp k)) v) as (k' & E & [R1 R2 R3 R4 R5 R6 R7 R8]); try done.
  { by apply quiet_switch. }
  exists k'. split_and!; try done.
  - by rewrite R1.
  - intros x Hx. unfold kram at 1. rewrite R1. cbn [ram set_ram].
    rewrite (agree_st64 _ (frame_at k) (u64 v) x (x + 1)) by lia. by apply entered_ram.
Qed.

Lemma user_copy_switch g rsp k dst src n a4 :
  syscall_switch junk cmd_at resp_at (frame_at k) SYSCALL_USER_MEMCPY dst src n a4 (entered g rsp k) =
  case_done (frame_at k) dst (with_ram (fun m => memcpy m dst src n) (entered g rsp k)).
Proof. reflexivity. Qed.

(** The copy call, for ranges that do not overlap the wrong way: the
    caller comes back with the destination in RAX and all other registers
    its own, the destination holds the source's bytes, and no other byte
    outside the call's frame changes. *)
Theorem user_memcpy_call g rsp k :
  stack_ok k -> running_inv (kprocs k) -> user_regs g -> reg g 0 = SYSCALL_USER_MEMCPY ->
  let dst := reg g 3 in let src := reg g 2 in let n := reg g 1 in
  off_frame k dst n -> off_frame k src n -> dst <= src \/ src + n <= dst ->
  exists k', syscall_entry junk cmd_at resp_at g rsp k = Ret ((<[0%nat := dst]> g, rsp), k') /\
    running_inv (kprocs k') /\ g_current_pid (kprocs k') = g_current_pid (kprocs k) /\
    bytes (kram k') dst n = bytes (kram k) src n /\
    forall x, x < frame_at k \/ frame_at k + 120 <= x -> x < dst \/ dst + n <= x -> ld8 (kram k') x = ld8 (kram k) x.
Proof.
  intros Hs Hi Hg Hnum dst src n Hd Hsrc Hds. destruct (user_reg g 3 Hg ltac:(lia)) as [_ Hdr]. fold dst in Hdr.
  destruct (call_returns junk cmd_at resp_at g rsp k (with_ram (fun m => memcpy m dst src n) (entered g rsp k)) dst)
    as (k' & E & [R1 R2 R3 _ _ _ _ _]); try done.
  { unfold switched. rewrite Hnum. apply user_copy_switch. }
  { apply agree_memcpy; [done|]. unfold off_frame in Hd. lia. }
  rewrite u64_small in E by done.
  assert (forall x, x < frame_at k \/ frame_at k + 120 <= x ->
    ld8 (kram k') x = ld8 (memcpy (kram (entered g rsp k)) dst src n) x) as Hx.
  { intros x Hx. unfold kram at 1. rewrite R1. apply (agree_st64 _ (frame_at k) (u64 dst) x (x + 1)); lia. }
  exists k'. split_and!; try done.
  - transitivity (bytes (memcpy (kram (entered g rsp k)) dst src n) dst n).
    + apply bytes_agree. intros x Hr. apply Hx. unfold off_frame in Hd. lia.
    + rewrite bytes_memcpy by done. by apply bytes_agree, entered_bytes.
  - intros x Hf Ho. rewrite Hx, ld8_memcpy by done. rewrite <- (entered_ram g rsp k x Hg Hf). zcases; try lia; reflexivity.
Qed.

(** ** Reading a file *)

Section Read.
Context {AD : AtaDrive B} (lo : Z).
Abbreviation hi := (lo + HEAP_BYTES).

(** The frame of a call is no memory of the heap's. *)
Definition frame_owned k (L : gmap Z Z) : Prop := forall x, frame_at k <= x < frame_at k + 120 -> owned lo hi L x.

Lemma heap_ok_entered g rsp k L : user_regs g -> frame_owned k L ->
  heap_ok lo (kmem (kprocs k)) L -> heap_ok lo (kmem (kprocs (entered g rsp k))) L.
Proof.
  intros Hg Hf Hok. apply (alloc_write (kmem (kprocs k))); try done.
  intros x Hx. apply (entered_ram g rsp); [done|]. destruct (Z.lt_ge_cases x (frame_at k)); [by left|right].
  destruct (Z.le_gt_cases (frame_at k + 120) x); [done|]. exfalso. apply Hx, Hf. lia.
Qed.

(** The kernel after a file system call. *)
Definition with_files (m : mstate) (b : B) (t : list kernel_file_t) k : K :=
  Kernel (put_mem m (kprocs k)) b (kbpb k) t (kgpu k) (g_syscall_cpu_state k).

Lemma read_switch g rsp k fd buffer len a4 r m b t :
  0 <= fd < 16 ->
  syscall_file_read disk_read kmalloc kfree junk fd buffer len
    (fstate (kmem (kprocs (entered g rsp k))) (kbus k) (kbpb k) (kfiles k)) = Ret (r, fstate m b (kbpb k) t) ->
  syscall_switch junk cmd_at resp_at (frame_at k) SYSCALL_FILE_READ fd buffer len a4 (entered g rsp k) =
  case_done (frame_at k) r (with_files m b t (entered g rsp k)).
Proof.
  intros Hfd E. change (syscall_switch junk cmd_at resp_at (frame_at k) SYSCALL_FILE_READ fd buffer len a4 (entered g rsp k)) with
    ((n ← on_files (syscall_file_read disk_read kmalloc kfree junk (s32 fd) buffer len); case_done (frame_at k) n) (entered g rsp k)).
  rewrite s32_small by lia. rewrite (bind_run _ _ _ r (with_files m b t (entered g rsp k))); [done|].
  unfold on_files, zoom. change (Files _ _) with (fstate (kmem (kprocs (entered g rsp k))) (kbus k) (kbpb k) (kfiles k)).
  by rewrite E.
Qed.

(** The 4 KiB stack of the system calls: the frame is at its top, and the
    frames and local arrays of the functions called are below it.  Of these
    the cluster buffer of [fat32_read_file] is the largest; with clusters of
    up to 2048 bytes it leaves room for the sector buffer of
    [fat_get_next_cluster] and the rest. *)
Definition on_call_stack k (x : Z) : Prop :=
  kernel_rsp (g_syscall_cpu_state k) - SYSCALL_KERNEL_STACK_SIZE <= x < kernel_rsp (g_syscall_cpu_state k).
Definition stack_room k : Prop := cluster_bytes (kbpb k) <= 2048.
Definition stack_owned k (L : gmap Z Z) : Prop := forall x, on_call_stack k x -> owned lo hi L x.

Lemma stack_frame k L : stack_owned k L -> frame_owned k L.
Proof using Type. intros H x Hx. apply H. unfold on_call_stack, frame_at, SYSCALL_KERNEL_STACK_SIZE in *. lia. Qed.

(** C8. The read call, down to the ATA driver: on an open file with bytes
    left, on a volume whose clusters fit the system call stack, the caller
    comes back with all registers its own but RAX.  RAX is the number of
    bytes read, the least of the length asked for and the bytes left, and
    the buffer holds the file's bytes at the handle's old offset, which
    moves on by that number; only when [kmalloc] refuses a buffer of the
    file's size RAX is -1, and the handle is as before.  Memory outside the
    buffer, the heap and the system call stack is untouched, and the heap,
    the disk and the process table stay in order. *)
Theorem file_read_call g rsp k f cs L :
  stack_ok k -> running_inv (kprocs k) -> user_regs g -> reg g 0 = SYSCALL_FILE_READ ->
  heap_ok lo (kmem (kprocs k)) L -> stack_owned k L -> ata_disk (kbus k) f -> geometry (kbpb k) -> stack_room k ->
  let fd := reg g 3 in let buffer := reg g 2 in let len := reg g 1 in
  open_file f (kbpb k) (kfiles k) fd cs -> 0 < len -> 0 < buffer ->
  let off := offset (file_at (kfiles k) fd) in
  let n := Z.min len (size (kfile (file_at (kfiles k) fd)) - off) in
  (forall x, buffer <= x < buffer + n -> owned lo hi L x /\ ~ on_call_stack k x) ->
  exists r k', syscall_entry junk cmd_at resp_at g rsp k = Ret ((<[0%nat := u64 r]> g, rsp), k') /\
    running_inv (kprocs k') /\ g_current_pid (kprocs k') = g_current_pid (kprocs k) /\
    heap_ok lo (kmem (kprocs k')) L /\ ata_disk (kbus k') f /\
    (forall x, owned lo hi L x -> ~ on_call_stack k x -> x < buffer \/ buffer + n <= x ->
       ld8 (kram k') x = ld8 (kram k) x) /\
    ((r = -1 /\ kfiles k' = kfiles k /\
      exists m', kmalloc (size (kfile (file_at (kfiles k) fd))) (kmem (kprocs (entered g rsp k))) = Ret (0, m')) \/
     (r = n /\ kfiles k' = moved (kfiles k) fd n /\
      bytes (kram k') buffer n = take (Z.to_nat n) (drop (Z.to_nat off) (chain_data (kbpb k) f cs)))).
Proof.
  intros Hs Hi Hg Hnum Hok Hso Hd Hgeo _ fd buffer len Hof Hlen Hb off n Hbuf. pose proof (stack_frame k L Hso) as Hfo.
  pose proof (fun x Hx => proj1 (Hbuf x Hx)) as Hown.
  assert (forall x, buffer <= x < buffer + n -> x < frame_at k \/ frame_at k + 120 <= x) as Hoff.
  { intros x Hx. destruct (Hbuf x Hx) as [_ Hno]. unfold on_call_stack, frame_at, SYSCALL_KERNEL_STACK_SIZE in *. lia. }
  destruct (user_reg g 1 Hg ltac:(lia)) as [_ Hlr]. fold len in Hlr.
  destruct (syscall_file_read_run disk_read ata_disk junk kmalloc kfree lo hi (heap_ok lo)
    (kmem (kprocs (entered g rsp k))) (kbus k) f (kbpb k) (kfiles k) fd cs L buffer len
    (heap_ok_entered g rsp k L Hg Hfo Hok) Hd Hgeo Hof ltac:(lia) Hb Hown) as (r & m' & b' & Hd' & Hok' & Hc).
  fold off n in Hc.
  assert (exists t, syscall_file_read disk_read kmalloc kfree junk fd buffer len
      (fstate (kmem (kprocs (entered g rsp k))) (kbus k) (kbpb k) (kfiles k)) = Ret (r, fstate m' b' (kbpb k) t) /\
    (forall x, owned lo hi L x -> x < buffer \/ buffer + n <= x -> ld8 (ram m') x = ld8 (kram (entered g rsp k)) x) /\
    ((r = -1 /\ t = kfiles k /\ exists m', kmalloc (size (kfile (file_at (kfiles k) fd))) (kmem (kprocs (entered g rsp k))) = Ret (0, m')) \/ (r = n /\ t = moved (kfiles k) fd n /\
      bytes (ram m') buffer n = take (Z.to_nat n) (drop (Z.to_nat off) (chain_data (kbpb k) f cs))))) as (t & E & Hk & Hr).
  { destruct Hc as [(-> & Hno & E & Hk)|(-> & E & Hdat & Hk)]; eexists; (split; [exact E|]); (split; [|by eauto]); intros; by apply Hk. }
  clear Hc. destruct (call_returns junk cmd_at resp_at g rsp k (with_files m' b' t (entered g rsp k)) r)
    as (k' & Ek & [R1 R2 R3 R4 R5 R6 _ _]); try done.
  { unfold switched. rewrite Hnum. apply read_switch; [apply Hof|exact E]. }
  { intros x Hx. apply Hk; [apply Hfo; lia|]. destruct (Z.lt_ge_cases x buffer); [by left|right].
    destruct (Z.le_gt_cases (buffer + n) x); [done|]. destruct (Hoff x); lia. }
  assert (forall x, x < frame_at k \/ frame_at k + 120 <= x -> ld8 (kram k') x = ld8 (ram m') x) as Hx.
  { intros x Hx. unfold kram. rewrite R1. apply (agree_st64 _ (frame_at k) (u64 r) x (x + 1)); lia. }
  exists r, k'. split_and!; try done.
  - rewrite R1. apply (alloc_write m'); try done. intros x Hno. cbn [ram set_ram].
    destruct (Z.lt_ge_cases x (frame_at k)); [apply (agree_st64 _ (frame_at k) (u64 r) x (x + 1)); lia|].
    destruct (Z.le_gt_cases (frame_at k + 120) x); [apply (agree_st64 _ (frame_at k) (u64 r) x (x + 1)); lia|].
    exfalso. apply Hno, Hfo. lia.
  - by rewrite R4.
  - intros x Ho Hf Hbx. assert (x < frame_at k \/ frame_at k + 120 <= x) as Hf'
      by (unfold on_call_stack, frame_at, SYSCALL_KERNEL_STACK_SIZE in *; lia).
    rewrite Hx, Hk by done. by apply entered_ram.
  - rewrite R6. cbn [with_files kfiles]. destruct Hr as [(-> & -> & Hno)|(-> & -> & Hdat)]; [by left|right].
    split_and!; try done. rewrite <- Hdat. apply bytes_agree. intros x Hin. by apply Hx, Hoff.
Qed.

(** ** Two calls that do not return properly *)

(** C37. The allocation call does not give its caller the block: the stub
    takes the address [syscall_dispatch] returns for the frame to resume
    from, so the caller goes on with its registers, return address and flags
    read from the first 120 bytes of the fresh block (from address 0 when
    the heap is exhausted). *)
Theorem user_kmalloc_call g rsp k L :
  stack_ok k -> user_regs g -> reg g 0 = SYSCALL_USER_KMALLOC ->
  heap_ok lo (kmem (kprocs k)) L -> frame_owned k L -> 0 < u32 (reg g 3) <= 4294967288 ->
  exists p k', syscall_entry junk cmd_at resp_at g rsp k = Ret ((pop_frame (kram k') p, rsp), k') /\
    ((p = 0 /\ heap_ok lo (kmem (kprocs k')) L) \/
     (p <> 0 /\ L !! p = None /\ exists n, u32 (reg g 3) <= n /\ heap_ok lo (kmem (kprocs k')) (<[p := n]> L))).
Proof using P G.
  intros Hs Hg Hnum Hok Hfo Hsz.
  destruct (alloc_malloc _ L (u32 (reg g 3)) (heap_ok_entered g rsp k L Hg Hfo Hok) Hsz) as (p & m' & E & _ & Hc).
  set (k' := with_files m' (kbus k) (kfiles k) (entered g rsp k)).
  exists p, k'. split.
  - apply (syscall_entry_run junk cmd_at resp_at g rsp k p k' Hs Hg). unfold dispatched. rewrite Hnum.
    unfold syscall_dispatch. rewrite (bind_run _ _ _ (inl p) k'); [done|].
    transitivity ((ptr ← on_memory (kmalloc (u32 (reg g 3))); mret (@inl Z Z ptr)) (entered g rsp k)); [reflexivity|].
    rewrite (bind_run _ _ _ p k'); [done|]. unfold on_memory, on_procs, on_mem, zoom. by rewrite E.
  - destruct Hc as [[-> H]|(Hp & HL & n & Hn & H & _)]; [by left|right]. split_and!; [done|done|]. by exists n.
Qed.
End Read.

(** The table after a yield: the current process is saved with the call's
    frame, and the next ready one runs. *)
Lemma yield_run g rsp k r k' :
  stack_ok k -> running_inv (kprocs k) -> user_regs g -> reg g 0 = SYSCALL_PROCESS_YIELD ->
  syscall_entry junk cmd_at resp_at g rsp k = Ret (r, k') ->
  let s := kprocs k in
  let t := save_current (g_processes s) (g_current_pid s) (frame_at k) rsp in
  let j := g_current_pid (kprocs k') in
  0 <= j < 16 /\ g_processes (kprocs k') = set_proc t j (set_state PROCESS_STATE_RUNNING (proc t j)) /\
  frame_at k' = frame_at k /\ stack_ok k' /\ running_inv (kprocs k') /\
  kram k' = st64 (kram (entered g rsp k)) (frame_at k) 0 /\
  r = (pop_frame (kram k') (saved_rsp (proc t j)), saved_user_rsp (proc t j)).
Proof.
  intros Hs Hi Hg Hnum E s t.
  set (k1 := with_ram (fun m => st64 m (frame_at k) 0) (entered g rsp k)).
  pose proof (schedule_switch (kprocs k1) (frame_at k) rsp 1 ltac:(apply Hi) ltac:(apply Hi) ltac:(left; lia)) as Esw.
  change (g_processes (kprocs k1)) with (g_processes s) in Esw. change (g_current_pid (kprocs k1)) with (g_current_pid s) in Esw.
  cbv zeta in Esw. fold t in Esw.
  assert (dispatched junk cmd_at resp_at g rsp k =
    ('(a, b) ← on_procs (process_schedule_on_syscall (frame_at k) rsp 1); syscall_set_user_rsp b;; mret a) k1) as Ed.
  { unfold dispatched. rewrite Hnum. unfold syscall_dispatch. rewrite (bind_run _ _ _ (inr 1) k1); [reflexivity|].
    transitivity ((set_syscall_result (frame_at k) 0;; mret (@inr Z Z 1)) (entered g rsp k)); [reflexivity|].
    unfold set_syscall_result, SYSCALL_FRAME_RAX. rewrite Z.mul_0_r, Z.add_0_r. reflexivity. }
  destruct (List.find (ready t) (rr_order (g_current_pid s))) as [i|] eqn:Ef.
  2:{ exfalso. assert (ready t (g_current_pid s) = true) as Hr.
      { unfold t, ready. by rewrite saved_current. }
      pose proof (find_none _ _ Ef (g_current_pid s)) as Hn. rewrite Hr in Hn. discriminate Hn.
      apply list_elem_of_In, rr_order_elem. apply Hi. }
  apply find_rr in Ef as Hi16. destruct Hi16 as [Hi16 _].
  erewrite (bind_run (on_procs _)) in Ed; [|unfold on_procs, zoom; rewrite Esw; reflexivity].
  cbv beta iota in Ed. unfold syscall_set_user_rsp in Ed. rewrite bind_modify in Ed.
  rewrite (syscall_entry_run junk cmd_at resp_at g rsp k _ _ Hs Hg Ed) in E. injection E as <- <-.
  split_and!; try done; try apply Hi16. eapply (proc_step_inv kmalloc (kprocs k1)); [exact Hi|]. by eapply (step_yield _ (frame_at k) rsp).
Qed.

(** C40. All processes share one system call stack, so a frame does not
    survive a switch: when a process yields to another and that one's yield
    comes back to the first, the first goes on with its own stack pointer
    but with the registers, return address and flags of the other. *)
Theorem yield_returns_other_registers g1 rsp1 k r1 k1 g2 rsp2 r2 k2 :
  stack_ok k -> running_inv (kprocs k) -> user_regs g1 -> reg g1 0 = SYSCALL_PROCESS_YIELD ->
  syscall_entry junk cmd_at resp_at g1 rsp1 k = Ret (r1, k1) ->
  g_current_pid (kprocs k1) <> g_current_pid (kprocs k) ->
  user_regs g2 -> reg g2 0 = SYSCALL_PROCESS_YIELD ->
  syscall_entry junk cmd_at resp_at g2 rsp2 k1 = Ret (r2, k2) ->
  g_current_pid (kprocs k2) = g_current_pid (kprocs k) ->
  r2 = (<[0%nat := 0]> g2, rsp1).
Proof.
  intros Hs Hi Hg1 Hn1 E1 Hne Hg2 Hn2 E2 Hback. pose proof Hi as (Hl & Hc & _).
  destruct (yield_run g1 rsp1 k r1 k1 Hs Hi Hg1 Hn1 E1) as (Hj & Ht1 & Hf1 & Hs1 & Hi1 & _ & _).
  destruct (yield_run g2 rsp2 k1 r2 k2 Hs1 Hi1 Hg2 Hn2 E2) as (_ & _ & _ & _ & _ & Hm2 & ->).
  assert (proc (save_current (g_processes (kprocs k1)) (g_current_pid (kprocs k1)) (frame_at k1) rsp2) (g_current_pid (kprocs k2)) =
    proc (save_current (g_processes (kprocs k)) (g_current_pid (kprocs k)) (frame_at k) rsp1) (g_current_pid (kprocs k))) as ->.
  { rewrite Hback, proc_save_current, Ht1, proc_set_proc by (try apply Hi1; rewrite ?length_save_current; lia).
    by destruct (Z.eqb_spec (g_current_pid (kprocs k1)) (g_current_pid (kprocs k))). }
  rewrite saved_current by done. cbn [saved_rsp saved_user_rsp]. f_equal. rewrite <- Hf1, Hm2.
  apply (pop_pushed g2 (frame_at k1) (kram k1)); [done| |by rewrite ld64_st64_eq].
  apply agree_st64. lia.
Qed.
End Calls.

(** ** Witnesses

    A kernel after boot with the volume of Fat32Theorems.v, one open file
    and a system call stack that ends at 0x9000. *)

#[local] Instance no_gpu : GpuDevice sim := {| gpu_notify := fun _ _ b m => (b, m); gpu_poll := fun b m => (b, m) |}.
Definition idle_gpu : gpu_vars := GpuVars 0 0 0 0 (Virtqueue 0 0 0 0 0 0 0 0).
Definition sample_kernel (t : list process_t) : kernel sim :=
  Kernel (Procs booted t 0) volume_drive volume_bpb open_table idle_gpu (CpuState 0 0x9000).
Definition one_proc : list process_t := Process PROCESS_STATE_RUNNING 0x400000 0 0 0 :: replicate 15 unused_process.
Definition two_procs : list process_t :=
  Process PROCESS_STATE_RUNNING 0x400000 0 0 0 :: Process PROCESS_STATE_READY 0x401000 0x6000 0x6078 0x5000 :: replicate 14 unused_process.

(** Registers: RAX, RDX, RSI, RDI, and [v] in the others. *)
Definition sample_regs (rax rdx rsi rdi v : Z) : list Z := rax :: rdx :: rsi :: rdi :: replicate 11 v.

Lemma sample_regs_ok rax rdx rsi rdi v :
  Forall (fun v => 0 <= v < 18446744073709551616) [rax; rdx; rsi; rdi; v] -> user_regs (sample_regs rax rdx rsi rdi v).
Proof.
  rewrite !Forall_cons. intros (H1 & H2 & H3 & H4 & H5 & _). split; [reflexivity|].
  repeat (constructor; [done|]). constructor.
Qed.

Lemma sample_stack t : stack_ok (sample_kernel t).
Proof. split; [cbn; lia|reflexivity]. Qed.
Lemma sample_frame t L : frame_owned 0x180000 (sample_kernel t) L.
Proof. intros x Hx. left. change (frame_at (sample_kernel t)) with 0x8F80 in Hx. lia. Qed.

Lemma sample_call_stack t L : stack_owned 0x180000 (sample_kernel t) L.
Proof. intros x Hx. left. unfold on_call_stack, SYSCALL_KERNEL_STACK_SIZE in Hx. cbn in Hx. lia. Qed.

Lemma table_inv t : length t = 16%nat -> pstate (proc t 0) = PROCESS_STATE_RUNNING ->
  forallb (fun i => negb (pstate (proc t i) =? PROCESS_STATE_RUNNING)) (seqZ 1 15) = true -> running_inv (Procs booted t 0).
Proof.
  intros Hl H0 H. split; [exact Hl|]. cbn [g_current_pid g_processes]. split; [lia|]. intros i Hi. split; [|by intros ->].
  intros Hr. destruct (Z.eq_dec i 0) as [|Hne]; [done|]. rewrite forallb_forall in H.
  specialize (H i ltac:(apply list_elem_of_In, elem_of_seqZ; lia)). rewrite Hr in H. discriminate.
Qed.
Lemma one_proc_inv : running_inv (kprocs (sample_kernel one_proc)).
Proof. by apply table_inv. Qed.
Lemma two_procs_inv : running_inv (kprocs (sample_kernel two_procs)).
Proof. by apply table_inv. Qed.

Ltac sample_regs_tac := apply sample_regs_ok; repeat constructor; lia.

Lemma quiet_call_returns_witness : exists k',
  syscall_entry ∅ 0 0 (sample_regs 99 1 2 3 4) 0x7000 (sample_kernel one_proc) =
  Ret ((18446744073709551615 :: 1 :: 2 :: 3 :: replicate 11 4, 0x7000), k').
Proof.
  destruct (quiet_call_returns ∅ 0 0 (sample_regs 99 1 2 3 4) 0x7000 (sample_kernel one_proc) (-1)
    [line "[SYSCALL] Unknown syscall"] (sample_stack _) one_proc_inv ltac:(sample_regs_tac)) as (k' & E & _).
  { apply quiet_unknown. unfold syscall_numbers. rewrite !not_elem_of_cons. cbn. split_and!; try lia. apply not_elem_of_nil. }
  exists k'. exact E.
Defined.

Lemma user_memcpy_call_witness : exists k',
  syscall_entry ∅ 0 0 (sample_regs 26 16 0x2000 0x1000 4) 0x7000 (sample_kernel one_proc) =
  Ret ((0x1000 :: 16 :: 0x2000 :: 0x1000 :: replicate 11 4, 0x7000), k').
Proof.
  destruct (user_memcpy_call ∅ 0 0 (sample_regs 26 16 0x2000 0x1000 4) 0x7000 (sample_kernel one_proc)
    (sample_stack _) one_proc_inv ltac:(sample_regs_tac) eq_refl) as (k' & E & _); [left; vm_compute; congruence..|].
  exists k'. exact E.
Defined.

Lemma file_read_call_witness : exists k',
  syscall_entry ∅ 0 0 (sample_regs 21 450 0x1000 0 4) 0x7000 (sample_kernel one_proc) =
  Ret ((450 :: 450 :: 0x1000 :: 0 :: replicate 11 4, 0x7000), k').
Proof.
  destruct (file_read_call ∅ 0 0 0x180000 (sample_regs 21 450 0x1000 0 4) 0x7000 (sample_kernel one_proc) volume [3; 4] ∅
    (sample_stack _) one_proc_inv ltac:(sample_regs_tac) eq_refl booted_heap (sample_call_stack _ _) volume_ok volume_geometry
    ltac:(vm_compute; congruence) open_table_ok) as (r & k' & E & _ & _ & _ & _ & _ & Hr);
    [cbn; lia|cbn; lia|intros x Hx; cbn in Hx; split; [left; lia|unfold on_call_stack, SYSCALL_KERNEL_STACK_SIZE; cbn; lia]|].
  destruct Hr as [(_ & _ & m' & Hno)|[-> _]]; [|exists k'; exact E]. exfalso.
  destruct (empty_heap_serves 0x180000 (kmem (kprocs (entered (sample_regs 21 450 0x1000 0 4) 0x7000 (sample_kernel one_proc)))) 600) as (s' & E' & _).
  - apply (heap_ok_entered 0x180000 _ 0x7000 (sample_kernel one_proc)); [sample_regs_tac|apply sample_frame|exact booted_heap].
  - split; vm_compute; congruence.
  - change (size (kfile (file_at (kfiles (sample_kernel one_proc)) (reg (sample_regs 21 450 0x1000 0 4) 3)))) with 600 in Hno.
    rewrite E' in Hno. discriminate Hno.
Defined.

Lemma user_kmalloc_call_witness : exists p k',
  syscall_entry ∅ 0 0 (sample_regs 24 1 2 64 4) 0x7000 (sample_kernel one_proc) = Ret ((pop_frame (kram k') p, 0x7000), k').
Proof.
  destruct (user_kmalloc_call ∅ 0 0 0x180000 (sample_regs 24 1 2 64 4) 0x7000 (sample_kernel one_proc) ∅
    (sample_stack _) ltac:(sample_regs_tac) eq_refl booted_heap (sample_frame _ _) ltac:(vm_compute; split; congruence))
    as (p & k' & E & _).
  exists p, k'. exact E.
Defined.

Lemma yield_returns_other_registers_witness : exists r1 k1 k2,
  syscall_entry ∅ 0 0 (sample_regs 4 1 2 3 5) 0x7000 (sample_kernel two_procs) = Ret (r1, k1) /\
  syscall_entry ∅ 0 0 (sample_regs 4 6 7 8 9) 0x6078 k1 = Ret ((0 :: 6 :: 7 :: 8 :: replicate 11 9, 0x7000), k2).
Proof.
  destruct (syscall_entry ∅ 0 0 (sample_regs 4 1 2 3 5) 0x7000 (sample_kernel two_procs)) as [[r1 k1]| |] eqn:E1;
    [|vm_compute in E1; discriminate E1..].
  assert (match syscall_entry ∅ 0 0 (sample_regs 4 1 2 3 5) 0x7000 (sample_kernel two_procs) with
    | Ret (_, k) => g_current_pid (kprocs k) = 1 /\
        match syscall_entry ∅ 0 0 (sample_regs 4 6 7 8 9) 0x6078 k with
        | Ret (_, k2) => g_current_pid (kprocs k2) = 0 | _ => False end
    | _ => False end) as H by (vm_compute; split; reflexivity).
  rewrite E1 in H. destruct H as [Hp1 H].
  destruct (syscall_entry ∅ 0 0 (sample_regs 4 6 7 8 9) 0x6078 k1) as [[r2 k2]| |] eqn:E2; [|done..].
  exists r1, k1, k2. split; [done|]. rewrite E2. repeat f_equal.
  exact (yield_returns_other_registers ∅ 0 0 (sample_regs 4 1 2 3 5) 0x7000 (sample_kernel two_procs) r1 k1
    (sample_regs 4 6 7 8 9) 0x6078 r2 k2 (sample_stack _) two_procs_inv ltac:(sample_regs_tac) eq_refl E1
    ltac:(rewrite Hp1; discriminate) ltac:(sample_regs_tac) eq_refl E2 H).
Defined.
