(* ===== verification/Paging.v ===== *)
(** * Page tables (Kernel/Paging/Paging_Main.c)

    The three static tables are in RAM, at the addresses [pml4], [pdpt] and
    [pd] the linker gives them; the model writes their entries there, where
    the processor looks for them.  [walk] is that look-up as the processor
    manual describes it, without a cache: [invlpg] has no effect.  The
    properties relate the two routines of the file to [walk]. *)
From S2P Require Import Prelude Machine Utils Serial Memory.

Definition GB : Z := 1024 * 1024 * 1024.
Definition MB2 : Z := 2 * 1024 * 1024.
Definition MAX_PDPT_ENTRIES : Z := 64.
Definition MMIO_WINDOW_BASE : Z := 0xF0000000.
Definition MMIO_WINDOW_SLOTS : Z := 16.
Definition PAGE_PRESENT : Z := 1.
Definition PAGE_RW : Z := 2.
Definition PAGE_USER : Z := 4.
Definition PAGE_PS : Z := 128.

(** The machine, the control registers and the static variables. *)
Record paging := Paging {
  pmach : mstate;
  cr0 : Z;
  cr3 : Z;
  cr4 : Z;
  mmio_phys_base : list Z;
  mmio_slots_used : Z
}.
Definition page_ram (s : paging) : mem := ram (pmach s).
Definition put_pmach (m : mstate) (s : paging) : paging :=
  Paging m (cr0 s) (cr3 s) (cr4 s) (mmio_phys_base s) (mmio_slots_used s).
Definition put_slots (l : list Z) (n : Z) (s : paging) : paging := Paging (pmach s) (cr0 s) (cr3 s) (cr4 s) l n.
Definition on_pmach {A} (c : M mstate A) : M paging A := zoom pmach put_pmach c.
Definition on_tables (f : mem -> mem) : M paging unit := on_pmach (modify (fun s => set_ram (f (ram s)) s)).

Definition write_cr3 (value : Z) : M paging unit := modify (fun s =>
  Paging (pmach s) (cr0 s) value (cr4 s) (mmio_phys_base s) (mmio_slots_used s)).
Definition enable_paging : M paging unit := modify (fun s =>
  Paging (pmach s) (Z.lor (cr0 s) (Z.shiftl 1 31)) (cr3 s) (Z.lor (cr4 s) (Z.shiftl 1 5)) (mmio_phys_base s) (mmio_slots_used s)).

Section Tables.
Context (pml4 pdpt pd : Z).

(** [mmio_phys_base[i]]; every index below is in the array. *)
Definition slot_base (s : paging) (i : Z) : Z := default 0 (mmio_phys_base s !! Z.to_nat i).

Definition map_mmio_virt (phys_addr : Z) : M paging Z :=
  if phys_addr <? 4 * GB then mret phys_addr
  else
    let phys_base := Z.land phys_addr (u64 (Z.lnot (MB2 - 1))) in
    let offset := u64 (phys_addr - phys_base) in
    used ← gets mmio_slots_used;
    i ← gets (fun s => first_from (Z.to_nat used) 0 (fun i => slot_base s i =? phys_base));
    if 0 <=? i then mret (u64 (u64 (MMIO_WINDOW_BASE + i * MB2) + offset))
    else if MMIO_WINDOW_SLOTS <=? used then
      on_pmach (say [line "[OS] [Memory] MMIO window exhausted"]);; mret 0
    else
      let virt_base := u64 (MMIO_WINDOW_BASE + used * MB2) in
      let pdpt_index := Z.land (Z.shiftr virt_base 30) 0x1FF in
      let pd_index := Z.land (Z.shiftr virt_base 21) 0x1FF in
      if MAX_PDPT_ENTRIES <=? pdpt_index then
        on_pmach (say [line "[OS] [Memory] MMIO window index out of range"]);; mret 0
      else
        on_tables (fun m =>
          let m := st64 m (pdpt + 8 * pdpt_index)
                     (Z.lor (Z.lor (Z.lor (pd + 4096 * pdpt_index) PAGE_PRESENT) PAGE_RW) PAGE_USER) in
          st64 m (pd + 4096 * pdpt_index + 8 * pd_index)
            (Z.lor (Z.lor (Z.lor (Z.lor phys_base PAGE_PRESENT) PAGE_RW) PAGE_PS) PAGE_USER));;
        modify (fun s => put_slots (<[Z.to_nat used := phys_base]> (mmio_phys_base s)) (u32 (used + 1)) s);;
        mret (u64 (virt_base + offset)).

(** The loop over the gigabytes. *)
Definition map_gigabyte (i : Z) (m : mem) : mem :=
  let m := st64 m (pdpt + 8 * i) (Z.lor (Z.lor (Z.lor (pd + 4096 * i) PAGE_PRESENT) PAGE_RW) PAGE_USER) in
  let base := u64 (i * GB) in
  for_up 512 0 (fun j m =>
    st64 m (pd + 4096 * i + 8 * j)
      (Z.lor (Z.lor (Z.lor (Z.lor (u64 (base + j * MB2)) PAGE_PRESENT) PAGE_RW) PAGE_PS) PAGE_USER)) m.

(** The rest of [init_paging], from the report of the size on. *)
Definition map_memory (required_entries : Z) : M paging unit :=
  on_pmach (say [SStr "[OS] [Memory] Mapping "; SU64 required_entries; line " GB of memory."]);;
  on_tables (fun m => st64 m pml4 (Z.lor (Z.lor (Z.lor pdpt PAGE_PRESENT) PAGE_RW) PAGE_USER));;
  on_tables (for_up (Z.to_nat required_entries) 0 map_gigabyte);;
  write_cr3 pml4;;
  enable_paging;;
  on_pmach (say [line "[OS] [Memory] Success Initialize Paging."]).

Definition init_paging (framebuffer_base framebuffer_size : Z) : M paging unit :=
  on_pmach (say [line "[OS] [Memory] Start Initialize Paging."]);;
  on_tables (fun m => memset (memset (memset m pml4 0 4096) pdpt 0 4096) pd 0 (MAX_PDPT_ENTRIES * 4096));;
  modify (put_slots (replicate (Z.to_nat MMIO_WINDOW_SLOTS) 0) 0);;
  let fb_end := u64 (framebuffer_base + framebuffer_size) in
  let min_required := 4 * GB in
  let max_addr := if min_required <? fb_end then fb_end else min_required in
  let required_entries := u64 (max_addr + GB - 1) / GB in
  required_entries ←
    (if MAX_PDPT_ENTRIES <? required_entries then
       on_pmach (say [line "[OS] [Memory] Warning: mapping limited to MAX_PDPT_ENTRIES."]);; mret MAX_PDPT_ENTRIES
     else mret required_entries);
  map_memory required_entries.
End Tables.

(** ** The processor's page walk

    Four levels of 512 entries; bit 0 of an entry says that it is present,
    bit 7 that it maps a page itself (1 GiB at level 3, 2 MiB at level 2);
    the address is in bits 12 to 51. *)

Definition ENTRY_ADDR : Z := 0xFFFFFFFFFF000.
Definition table_index (va shift : Z) : Z := Z.land (Z.shiftr va shift) 0x1FF.
Definition walk_entry (m : mem) (table va shift : Z) : option Z :=
  let e := ld64 m (Z.land table ENTRY_ADDR + 8 * table_index va shift) in
  if Z.testbit e 0 then Some e else None.

Definition walk (m : mem) (cr3 va : Z) : option Z :=
  e4 ← walk_entry m cr3 va 39;
  e3 ← walk_entry m e4 va 30;
  if Z.testbit e3 7 then Some (Z.land e3 ENTRY_ADDR / 2 ^ 30 * 2 ^ 30 + va mod 2 ^ 30)
  else
    e2 ← walk_entry m e3 va 21;
    if Z.testbit e2 7 then Some (Z.land e2 ENTRY_ADDR / 2 ^ 21 * 2 ^ 21 + va mod 2 ^ 21)
    else
      e1 ← walk_entry m e2 va 12;
      Some (Z.land e1 ENTRY_ADDR + va mod 2 ^ 12).
