(* ===== verification/PagingTheorems.v ===== *)
(** * The properties of the page tables

    [mapped m n page]: the tables in [m] map the first [n] GiB in pages of
    2 MiB, page [k] to the physical address [page k].  The processor's walk
    then has a closed form, and the two routines are updates of [page]. *)
From S2P Require Import Prelude Machine Utils Serial Memory Paging.

(** ** Entries *)

Lemma lor_add a b k : 0 <= k -> a mod 2 ^ k = 0 -> 0 <= b < 2 ^ k -> Z.lor a b = a + b.
Proof.
  intros Hk Ha Hb. rewrite Z.lor_comm, Z.add_comm. pose proof (Z.div_mod a (2 ^ k) ltac:(lia)) as E.
  rewrite Ha, Z.add_0_r, Z.mul_comm in E. rewrite E at 1. rewrite <- Z.shiftl_mul_pow2 by lia.
  rewrite lor_shiftl by lia. lia.
Qed.

Lemma table_entry a : a mod 4096 = 0 -> Z.lor (Z.lor (Z.lor a PAGE_PRESENT) PAGE_RW) PAGE_USER = a + 7.
Proof. intros Ha. rewrite <- !Z.lor_assoc. change (Z.lor _ (Z.lor _ _)) with (Z.lor a 7). by apply (lor_add a 7 12). Qed.

Lemma page_entry a : a mod MB2 = 0 ->
  Z.lor (Z.lor (Z.lor (Z.lor a PAGE_PRESENT) PAGE_RW) PAGE_PS) PAGE_USER = a + 135.
Proof. intros Ha. rewrite <- !Z.lor_assoc. change (Z.lor _ (Z.lor _ _)) with (Z.lor a 135). by apply (lor_add a 135 21). Qed.

Lemma entry_addr a f : 0 <= a < 2 ^ 52 -> a mod 4096 = 0 -> 0 <= f < 4096 -> Z.land (a + f) ENTRY_ADDR = a.
Proof.
  intros Ha H Hf. change ENTRY_ADDR with (Z.land (Z.ones 52) (Z.lnot (Z.ones 12))).
  rewrite Z.land_assoc, Z.land_ones, land_lnot_ones by lia. change (2 ^ 12) with 4096. change (2 ^ 52) with 4503599627370496 in *.
  rewrite (Z.mod_small (a + f)) by word_lia. word_lia.
Qed.

Lemma table_index_val va s : 0 <= s -> table_index va s = va / 2 ^ s mod 512.
Proof.
  intros Hs. unfold table_index. rewrite Z.shiftr_div_pow2 by lia. change 0x1FF with (Z.ones 9). by rewrite Z.land_ones by lia.
Qed.

Lemma testbit_val a n : 0 <= n -> Z.testbit a n = (a / 2 ^ n mod 2 =? 1).
Proof.
  intros Hn. destruct (Z.eqb_spec (a / 2 ^ n mod 2) 1) as [E|E]; [by apply Z.testbit_true|].
  apply Z.testbit_false; [done|]. pose proof (Z.mod_pos_bound (a / 2 ^ n) 2). lia.
Qed.

Lemma table_entry_bits a : a mod 4096 = 0 -> Z.testbit (a + 7) 0 = true /\ Z.testbit (a + 7) 7 = false.
Proof.
  intros Ha. rewrite !testbit_val by lia. change (2 ^ 0) with 1. change (2 ^ 7) with 128.
  split; [apply Z.eqb_eq|apply Z.eqb_neq]; word_lia.
Qed.
Lemma page_entry_bits a : a mod MB2 = 0 -> Z.testbit (a + 135) 0 = true /\ Z.testbit (a + 135) 7 = true.
Proof.
  unfold MB2. intros Ha. rewrite !testbit_val by lia. change (2 ^ 0) with 1. change (2 ^ 7) with 128.
  split; apply Z.eqb_eq; word_lia.
Qed.

Section Tables.
Context (pml4 pdpt pd : Z).

(** Where the linker puts the tables: page aligned, apart, addressable. *)
Record tables_ok : Prop := {
  to_pml4 : 0 <= pml4 < 2 ^ 52 /\ pml4 mod 4096 = 0;
  to_pdpt : 0 <= pdpt < 2 ^ 52 /\ pdpt mod 4096 = 0;
  to_pd : 0 <= pd /\ pd + 262144 < 2 ^ 52 /\ pd mod 4096 = 0;
  to_apart1 : pml4 <> pdpt;
  to_apart2 : pml4 + 4096 <= pd \/ pd + 262144 <= pml4;
  to_apart3 : pdpt + 4096 <= pd \/ pd + 262144 <= pdpt
}.
Context (T : tables_ok).

Lemma pml4_pdpt_apart : pml4 + 4096 <= pdpt \/ pdpt + 4096 <= pml4.
Proof. destruct T as [[? ?] [? ?] _ ? _ _]. word_lia. Qed.

Record mapped (m : mem) (n : Z) (page : Z -> Z) : Prop := {
  map_n : 0 <= n <= 64;
  map_pml4 i : 0 <= i < 512 -> ld64 m (pml4 + 8 * i) = if i =? 0 then pdpt + 7 else 0;
  map_pdpt i : 0 <= i < 512 -> ld64 m (pdpt + 8 * i) = if i <? n then pd + 4096 * i + 7 else 0;
  map_pd k : 0 <= k < 512 * n -> ld64 m (pd + 8 * k) = page k + 135;
  map_page k : 0 <= k < 512 * n -> 0 <= page k < 2 ^ 52 /\ page k mod MB2 = 0
}.

(** The walk through mapped tables: the page of the address, or a fault. *)
Lemma walk_mapped m n page va : mapped m n page -> 0 <= va < 2 ^ 48 ->
  walk m pml4 va = if va <? n * GB then Some (page (va / MB2) + va mod MB2) else None.
Proof.
  intros [Hn H4 H3 H2 Hp] Hva. unfold walk, walk_entry. rewrite !table_index_val by lia.
  destruct T as [[A1 A2] [B1 B2] (C1 & C2 & C3) _ _ _].
  pose proof (entry_addr pml4 0 A1 A2 ltac:(lia)) as E0. rewrite Z.add_0_r in E0. rewrite E0.
  assert (0 <= va / 2 ^ 39 < 512) as Hi4 by (split; [apply Z.div_pos; lia|apply Z.div_lt_upper_bound; lia]).
  rewrite (Z.mod_small (va / 2 ^ 39)), H4 by lia.
  assert (0 <= va / 2 ^ 30) as Hi3 by (apply Z.div_pos; lia).
  destruct (Z.eqb_spec (va / 2 ^ 39) 0) as [E4|E4].
  2:{ cbn [Z.testbit]. cbn [mbind option_bind]. destruct (Z.ltb_spec va (n * GB)) as [Hlt|]; [|done].
      exfalso. apply E4. apply Z.div_small. unfold GB in Hlt. lia. }
  destruct (table_entry_bits pdpt B2) as [-> _]. cbn [mbind option_bind]. rewrite entry_addr by (done || lia).
  assert (0 <= va < 2 ^ 39) as Hva39 by word_lia.
  assert (0 <= va / 2 ^ 30 < 512) as Hi3' by (split; [done|apply Z.div_lt_upper_bound; lia]).
  rewrite (Z.mod_small (va / 2 ^ 30)), H3 by lia.
  destruct (Z.ltb_spec (va / 2 ^ 30) n) as [L3|L3]; destruct (Z.ltb_spec va (n * GB)) as [Lv|Lv];
    unfold GB in Lv; try (exfalso; word_lia); [|done].
  set (i := va / 2 ^ 30) in *. assert ((pd + 4096 * i) mod 4096 = 0) as Hal by word_lia.
  destruct (table_entry_bits _ Hal) as [Ea Eb]. rewrite Ea. cbn [mbind option_bind]. rewrite Eb, entry_addr by (done || lia).
  replace (pd + 4096 * i + 8 * (va / 2 ^ 21 mod 512)) with (pd + 8 * (va / MB2)) by (unfold i, MB2; word_lia).
  assert (0 <= va / MB2 < 512 * n) as Hk by (unfold MB2; word_lia).
  rewrite H2 by done. destruct (Hp _ Hk) as [P1 P2]. destruct (page_entry_bits _ P2) as [Ec Ed]. rewrite Ec. cbn [mbind option_bind].
  rewrite Ed, entry_addr by (try done; unfold MB2 in *; word_lia). f_equal. f_equal.
  unfold MB2 in *. change (2 ^ 21) with 2097152. change (2 * 1024 * 1024) with 2097152 in *. word_lia.
Qed.

(** ** Building the identity map *)

Definition identity (k : Z) : Z := k * MB2.

Lemma fill_directory i m : 0 <= i < 64 ->
  let m' := map_gigabyte pdpt pd i m in
  ld64 m' (pdpt + 8 * i) = pd + 4096 * i + 7 /\
  (forall j, 0 <= j < 512 -> ld64 m' (pd + 4096 * i + 8 * j) = identity (512 * i + j) + 135) /\
  (forall lo hi, hi <= pd + 4096 * i \/ pd + 4096 * i + 4096 <= lo -> hi <= pdpt + 8 * i \/ pdpt + 8 * i + 8 <= lo ->
     agree m m' lo hi).
Proof.
  intros Hi. cbv zeta. destruct T as [_ [B1 B2] (C1 & C2 & C3) _ _ D3]. unfold map_gigabyte. rewrite table_entry by word_lia.
  set (m0 := st64 m (pdpt + 8 * i) (pd + 4096 * i + 7)). set (m' := for_up _ _ _ _).
  assert ((forall j, 0 <= j < 512 -> ld64 m' (pd + 4096 * i + 8 * j) = identity (512 * i + j) + 135) /\
    (forall lo hi, hi <= pd + 4096 * i \/ pd + 4096 * i + 8 * 512 <= lo -> agree m0 m' lo hi)) as [H1 H2].
  { pose (Q := fun n m' => (forall j, 0 <= j < n -> ld64 m' (pd + 4096 * i + 8 * j) = identity (512 * i + j) + 135) /\
      (forall lo hi, hi <= pd + 4096 * i \/ pd + 4096 * i + 8 * n <= lo -> agree m0 m' lo hi)).
    change (Q (0 + Z.of_nat 512) m'). apply for_up_ind; subst Q; cbn beta.
    - split; [lia|]. intros. apply agree_refl.
    - intros j b Hj [IH1 IH2]. unfold identity, GB, MB2 in *.
      rewrite page_entry by (unfold MB2; rewrite !u64_small by (rewrite ?u64_small; lia); word_lia).
      rewrite !u64_small by (rewrite ?u64_small; lia). split.
      + intros k Hk. destruct (Z.eq_dec k j) as [->|].
        * rewrite ld64_st64_eq, u64_small by lia. lia.
        * rewrite ld64_st64 by lia. apply IH1. lia.
      + intros lo hi Hd. eapply agree_trans; [apply IH2; lia|]. apply agree_st64. lia. }
  split_and!; [|exact H1|].
  - rewrite (ld64_ext m0) by (apply H2; lia). unfold m0. rewrite ld64_st64_eq. apply u64_small. lia.
  - intros lo hi Hd1 Hd2. eapply agree_trans; [|apply H2; lia]. apply agree_st64. lia.
Qed.

Lemma map_gigabyte_step i m : 0 <= i < 64 -> mapped m i identity -> mapped (map_gigabyte pdpt pd i m) (i + 1) identity.
Proof.
  intros Hi [Hn H4 H3 H2 Hp]. destruct (fill_directory i m Hi) as (F1 & F2 & F3). pose proof pml4_pdpt_apart.
  destruct T as [[A1 A2] [B1 B2] (C1 & C2 & C3) D1 D2 D3]. split; [lia|..].
  - intros j Hj. rewrite (ld64_ext m) by (apply F3; lia). by apply H4.
  - intros j Hj. destruct (Z.eq_dec j i) as [->|].
    + rewrite F1. by destruct (Z.ltb_spec i (i + 1)); [|lia].
    + rewrite (ld64_ext m) by (apply F3; lia). rewrite H3 by done. zcases; (reflexivity || lia).
  - intros k Hk. destruct (Z.lt_ge_cases k (512 * i)).
    + rewrite (ld64_ext m) by (apply F3; lia). apply H2. lia.
    + replace (pd + 8 * k) with (pd + 4096 * i + 8 * (k - 512 * i)) by lia. rewrite F2 by lia. do 2 f_equal. lia.
  - intros k Hk. unfold identity, MB2. split; [lia|]. apply Z.mod_mul. lia.
Qed.

Lemma ldn_zero n m a : (forall x, a <= x < a + Z.of_nat n -> ld8 m x = 0) -> ldn n m a = 0.
Proof.
  revert a; induction n as [|n IH]; intros a H; cbn [ldn]; [done|]. rewrite H, IH by (intros; apply H; lia) || lia. done.
Qed.

Lemma ld8_st64 m a v x : x < a \/ a + 8 <= x -> ld8 (st64 m a v) x = ld8 m x.
Proof. apply (ld8_stn 8). Qed.

(** The tables just before the loop: nothing mapped. *)
Lemma mapped_empty m :
  mapped (st64 (memset (memset (memset m pml4 0 4096) pdpt 0 4096) pd 0 262144) pml4 (pdpt + 7)) 0 identity.
Proof.
  pose proof pml4_pdpt_apart. destruct T as [[A1 A2] [B1 B2] (C1 & C2 & C3) D1 D2 D3]. split; try lia.
  - intros i Hi. destruct (Z.eqb_spec i 0) as [->|].
    + rewrite Z.mul_0_r, Z.add_0_r, ld64_st64_eq. apply u64_small. lia.
    + rewrite ld64_st64 by lia. apply (ldn_zero 8). intros x Hx. rewrite !ld8_memset. zcases; (reflexivity || lia).
  - intros i Hi. destruct (Z.ltb_spec i 0); [lia|]. rewrite ld64_st64 by lia.
    apply (ldn_zero 8). intros x Hx. rewrite !ld8_memset. zcases; (reflexivity || lia).
Qed.

(** A byte that is in none of the tables. *)
Definition off_tables (x : Z) : Prop :=
  (x < pml4 \/ pml4 + 4096 <= x) /\ (x < pdpt \/ pdpt + 4096 <= x) /\ (x < pd \/ pd + 262144 <= x).

(** The loop over the gigabytes. *)
Lemma map_gigabytes_run n m : 0 <= n <= 64 -> mapped m 0 identity ->
  let m' := for_up (Z.to_nat n) 0 (map_gigabyte pdpt pd) m in
  mapped m' n identity /\ forall x, off_tables x -> ld8 m' x = ld8 m x.
Proof.
  intros Hn Hm m'. pose (Q := fun i m' => mapped m' i identity /\ forall x, off_tables x -> ld8 m' x = ld8 m x).
  assert (Q (0 + Z.of_nat (Z.to_nat n)) m') as H.
  { apply for_up_ind; subst Q; cbn beta; [done|]. intros i b Hi [IH1 IH2]. split; [apply map_gigabyte_step; [lia|done]|].
    intros x Hx. rewrite <- IH2 by done. destruct (fill_directory i b ltac:(lia)) as (_ & _ & F).
    destruct Hx as (_ & X2 & X3). apply (F x (x + 1)); lia. }
  unfold Q in H. by rewrite Z.add_0_l, Z2Nat.id in H by lia.
Qed.

(** ** The state the kernel keeps *)

(** Page [k] of the address space: a slot of the MMIO window in use, or
    mapped to itself. *)
Definition page_of (s : paging) (k : Z) : Z :=
  if (1920 <=? k) && (k <? 1920 + mmio_slots_used s) then slot_base s (k - 1920) else identity k.

Record paging_ok (n : Z) (s : paging) : Prop := {
  pk_cr3 : cr3 s = pml4;
  pk_n : 4 <= n;
  pk_mapped : mapped (page_ram s) n (page_of s);
  pk_length : length (mmio_phys_base s) = 16%nat;
  pk_used : 0 <= mmio_slots_used s <= 16;
  pk_high i : 0 <= i < mmio_slots_used s -> 4 * GB <= slot_base s i
}.

Lemma walk_page n s va : paging_ok n s -> 0 <= va < 2 ^ 48 ->
  walk (page_ram s) (cr3 s) va = if va <? n * GB then Some (page_of s (va / MB2) + va mod MB2) else None.
Proof. intros [-> _ Hm _ _ _] Hva. by apply walk_mapped. Qed.

Lemma mapped_identity m n s : mmio_slots_used s = 0 -> mapped m n identity -> mapped m n (page_of s).
Proof.
  intros Hu. assert (forall k, page_of s k = identity k) as E.
  { clear T. intros k. unfold page_of. rewrite Hu. zcases; try lia; done. }
  intros [H1 H2 H3 H4 H5].
  split; try done; intros k Hk; rewrite E; auto.
Qed.

(** The tables cleared. *)
Definition cleared (m : mem) : mem :=
  memset (memset (memset m pml4 0 4096) pdpt 0 4096) pd 0 (MAX_PDPT_ENTRIES * 4096).

(** All the table writes of [init_paging]. *)
Lemma built n m : 0 <= n <= 64 ->
  let m' := for_up (Z.to_nat n) 0 (map_gigabyte pdpt pd)
    (st64 (cleared m) pml4 (Z.lor (Z.lor (Z.lor pdpt PAGE_PRESENT) PAGE_RW) PAGE_USER)) in
  mapped m' n identity /\ forall x, off_tables x -> ld8 m' x = ld8 m x.
Proof.
  intros Hn. cbv zeta. unfold cleared. change (MAX_PDPT_ENTRIES * 4096) with 262144. rewrite table_entry by apply T.
  destruct (map_gigabytes_run n _ Hn (mapped_empty m)) as [H1 H2]. split; [done|]. intros x Hx. rewrite H2 by done.
  destruct Hx as (X1 & X2 & X3). rewrite ld8_st64 by lia.
  rewrite !ld8_memset. zcases; (reflexivity || lia).
Qed.

(** The gigabytes [init_paging] maps. *)
Definition gigabytes (framebuffer_base framebuffer_size : Z) : Z :=
  Z.min 64 (Z.max 4 ((framebuffer_base + framebuffer_size + GB - 1) / GB)).


(** Only RAM and the output change. *)
Definition same_machine (m m' : mstate) : Prop := exists es r, m' = add_serial es (set_ram r m).
Lemma same_machine_trans m1 m2 m3 : same_machine m1 m2 -> same_machine m2 m3 -> same_machine m1 m3.
Proof.
  clear T. intros (es1 & r1 & ->) (es2 & r2 & ->). exists (es1 ++ es2), r2. unfold add_serial, set_ram. cbn. by rewrite app_assoc.
Qed.

Lemma map_memory_run n s m : 0 <= n <= 64 -> page_ram s = cleared m -> mmio_slots_used s = 0 ->
  exists s', map_memory pml4 pdpt pd n s = Ret (tt, s') /\
    cr3 s' = pml4 /\ mapped (page_ram s') n (page_of s') /\ mmio_phys_base s' = mmio_phys_base s /\ mmio_slots_used s' = 0 /\
    cr0 s' = Z.lor (cr0 s) (Z.shiftl 1 31) /\ cr4 s' = Z.lor (cr4 s) (Z.shiftl 1 5) /\ same_machine (pmach s) (pmach s') /\
    forall x, off_tables x -> ld8 (page_ram s') x = ld8 m x.
Proof.
  intros Hn Hr Hu. destruct (built n m Hn) as [Hmap Hoff]. rewrite <- Hr in Hmap, Hoff. clear Hr.
  eexists. split; [reflexivity|]. split_and!; try done; [by apply mapped_identity|].
  eexists ([_; _; _] ++ [_]), _. rewrite <- add_serial_app. reflexivity.
Qed.

#[local] Opaque memset map_memory.
Lemma init_paging_run s fb size :
  0 <= fb -> 0 <= size -> fb + size <= 18446744073709551616 - GB ->
  exists s', init_paging pml4 pdpt pd fb size s = Ret (tt, s') /\ paging_ok (gigabytes fb size) s' /\
    mmio_slots_used s' = 0 /\ cr0 s' = Z.lor (cr0 s) (Z.shiftl 1 31) /\ cr4 s' = Z.lor (cr4 s) (Z.shiftl 1 5) /\ same_machine (pmach s) (pmach s') /\
    forall x, off_tables x -> ld8 (page_ram s') x = ld8 (page_ram s) x.
Proof.
  intros Hfb Hsz Hend. unfold init_paging. set (fe := u64 (fb + size)). set (mx := if _ <? fe then fe else _).
  assert (u64 (mx + GB - 1) / GB = Z.max 4 ((fb + size + GB - 1) / GB)) as ->.
  { unfold mx, fe, GB in *. rewrite (u64_small (fb + size)) by lia. destruct (Z.ltb_spec (4 * (1024 * 1024 * 1024)) (fb + size));
      rewrite u64_small by lia; word_lia. }
  clear fe mx. rewrite (bind_run _ _ s tt _ eq_refl), (bind_run _ _ _ tt _ eq_refl), (bind_run _ _ _ tt _ eq_refl).
  set (s1 := put_slots _ _ _).
  assert (exists s2, (if MAX_PDPT_ENTRIES <? Z.max 4 ((fb + size + GB - 1) / GB)
    then on_pmach (say [line "[OS] [Memory] Warning: mapping limited to MAX_PDPT_ENTRIES."]);; mret MAX_PDPT_ENTRIES
    else mret (Z.max 4 ((fb + size + GB - 1) / GB))) s1 = Ret (gigabytes fb size, s2) /\ page_ram s2 = cleared (page_ram s) /\
    mmio_slots_used s2 = 0 /\ mmio_phys_base s2 = replicate 16 0 /\ cr0 s2 = cr0 s /\ cr4 s2 = cr4 s /\ same_machine (pmach s) (pmach s2))
    as (s2 & E & R1 & R2 & R3 & R4 & R5 & R6).
  { unfold gigabytes, MAX_PDPT_ENTRIES. destruct (Z.ltb_spec 64 (Z.max 4 ((fb + size + GB - 1) / GB))).
    - rewrite Z.min_l by lia. eexists. split; [reflexivity|]. split_and!; try reflexivity. eexists ([_] ++ [_]), _. rewrite <- add_serial_app. reflexivity.
    - rewrite Z.min_r by lia. eexists. split; [reflexivity|]. split_and!; try reflexivity. eexists [_], _. reflexivity. }
  rewrite (bind_run _ _ _ _ _ E).
  destruct (map_memory_run (gigabytes fb size) s2 (page_ram s)) as (s' & E' & Q1 & Q2 & Q3 & Q4 & Q5 & Q6 & Qm & Q7); [|exact R1|exact R2|]; clear R1.
  { unfold gigabytes. lia. }
  exists s'. split; [exact E'|]. split_and!; [|done|congruence|congruence|by eapply same_machine_trans|done].
  split; [done|unfold gigabytes; lia|done|by rewrite Q3, R3|lia|lia].
Qed.
#[local] Transparent memset map_memory.

(** ** The MMIO window *)

Lemma phys_split phys : 0 <= phys < 2 ^ 52 ->
  let base := Z.land phys (u64 (Z.lnot (MB2 - 1))) in
  base = phys - phys mod MB2 /\ u64 (phys - base) = phys mod MB2 /\ base mod MB2 = 0 /\ 0 <= base <= phys.
Proof.
  intros Hp. change (Z.lnot (MB2 - 1)) with (Z.lnot (Z.ones 21)). rewrite land_u64_lnot_ones by lia.
  change (2 ^ 21) with 2097152. unfold MB2. change (2 * 1024 * 1024) with 2097152. cbv zeta.
  split_and!; try done; word_lia.
Qed.

(** The address of a slot of the window. *)
Lemma window_addr i off : 0 <= i < 16 -> 0 <= off < MB2 ->
  let v := u64 (u64 (MMIO_WINDOW_BASE + i * MB2) + off) in
  v = MMIO_WINDOW_BASE + i * MB2 + off /\ v / MB2 = 1920 + i /\ v mod MB2 = off /\ 0 < v < 4 * GB.
Proof.
  unfold MMIO_WINDOW_BASE, MB2, GB. intros Hi Ho. rewrite !u64_small by (rewrite ?u64_small; lia). cbv zeta.
  split_and!; word_lia.
Qed.

Lemma walk_window n s i off : paging_ok n s -> 0 <= i < mmio_slots_used s -> 0 <= off < MB2 ->
  walk (page_ram s) (cr3 s) (u64 (u64 (MMIO_WINDOW_BASE + i * MB2) + off)) = Some (slot_base s i + off).
Proof.
  intros Hok Hi Ho. pose proof Hok as [_ Hn _ _ Hu _].
  destruct (window_addr i off ltac:(lia) Ho) as (_ & H2 & H3 & H4). set (v := u64 _) in *.
  rewrite (walk_page n) by (done || (unfold GB in *; lia)). rewrite H2, H3. unfold GB in *. destruct (Z.ltb_spec v (n * (1024 * 1024 * 1024))); [|lia].
  unfold page_of. replace (1920 + i - 1920) with i by lia. by destruct (Z.leb_spec 1920 (1920 + i)), (Z.ltb_spec (1920 + i) (1920 + mmio_slots_used s)); try lia.
Qed.

(** Taking the next slot of the window. *)
Definition add_slot (base : Z) (s : paging) : paging :=
  let u := mmio_slots_used s in
  put_slots (<[Z.to_nat u := base]> (mmio_phys_base s)) (u32 (u + 1))
    (put_pmach (set_ram (st64 (st64 (page_ram s) (pdpt + 24) (pd + 12288 + 7)) (pd + 8 * (1920 + u)) (base + 135)) (pmach s)) s).

Lemma slot_base_add s base i : length (mmio_phys_base s) = 16%nat -> 0 <= mmio_slots_used s < 16 -> 0 <= i ->
  slot_base (add_slot base s) i = if i =? mmio_slots_used s then base else slot_base s i.
Proof.
  intros Hl Hu Hi. unfold slot_base, add_slot. cbn [mmio_phys_base put_slots]. destruct (Z.eqb_spec i (mmio_slots_used s)) as [->|].
  - by rewrite list_lookup_insert_eq by lia.
  - by rewrite list_lookup_insert_ne by lia.
Qed.

Lemma page_of_add s base k : length (mmio_phys_base s) = 16%nat -> 0 <= mmio_slots_used s < 16 ->
  page_of (add_slot base s) k = if k =? 1920 + mmio_slots_used s then base else page_of s k.
Proof.
  intros Hl Hu. unfold page_of. change (mmio_slots_used (add_slot base s)) with (u32 (mmio_slots_used s + 1)).
  rewrite u32_small by lia.
  destruct (Z.eqb_spec k (1920 + mmio_slots_used s)) as [->|Hk].
  - replace (1920 + mmio_slots_used s - 1920) with (mmio_slots_used s) by lia. rewrite slot_base_add, Z.eqb_refl by lia.
    clear T. zcases; (lia || done).
  - destruct (Z.leb_spec 1920 k); [|done]. cbn [andb]. rewrite slot_base_add by lia.
    destruct (Z.eqb_spec (k - 1920) (mmio_slots_used s)); [lia|]. clear T. zcases; (lia || done).
Qed.

Lemma add_slot_ok n s base : paging_ok n s -> mmio_slots_used s < 16 -> 4 * GB <= base < 2 ^ 52 -> base mod MB2 = 0 ->
  paging_ok n (add_slot base s) /\ forall x, off_tables x -> ld8 (page_ram (add_slot base s)) x = ld8 (page_ram s) x.
Proof.
  intros [K1 K2 [Hn H4 H3 H2 Hp] K4 K5 K6] Hu Hb Hal. unfold GB in Hb. pose proof pml4_pdpt_apart. destruct T as [[A1 A2] [B1 B2] (C1 & C2 & C3) D1 D2 D3].
  change (page_ram (add_slot base s)) with
    (st64 (st64 (page_ram s) (pdpt + 24) (pd + 12288 + 7)) (pd + 8 * (1920 + mmio_slots_used s)) (base + 135)). split.
  - split; [done|done| |by cbn; rewrite length_insert|cbn; rewrite u32_small; lia|].
    2:{ intros i Hi. change (mmio_slots_used (add_slot base s)) with (u32 (mmio_slots_used s + 1)) in Hi.
        rewrite u32_small in Hi by lia. rewrite slot_base_add by lia. destruct (Z.eqb_spec i (mmio_slots_used s)); [unfold GB; lia|]. apply K6. lia. }
    change (page_ram (add_slot base s)) with
      (st64 (st64 (page_ram s) (pdpt + 24) (pd + 12288 + 7)) (pd + 8 * (1920 + mmio_slots_used s)) (base + 135)).
    split; [done|..].
    + intros i Hi. rewrite !ld64_st64 by lia. by apply H4.
    + intros i Hi. rewrite ld64_st64 by lia. destruct (Z.eq_dec i 3) as [->|].
      * change (pdpt + 8 * 3) with (pdpt + 24). rewrite ld64_st64_eq, u64_small by lia. by destruct (Z.ltb_spec 3 n); [|lia].
      * rewrite ld64_st64 by lia. by apply H3.
    + intros k Hk. rewrite page_of_add by lia. destruct (Z.eqb_spec k (1920 + mmio_slots_used s)) as [->|].
      * rewrite ld64_st64_eq. apply u64_small. lia.
      * rewrite !ld64_st64 by lia. by apply H2.
    + intros k Hk. rewrite page_of_add by lia. destruct (Z.eqb_spec k (1920 + mmio_slots_used s)); [split; [lia|done]|by apply Hp].
  - intros x (X1 & X2 & X3). rewrite !ld8_st64 by lia. done.
Qed.

Lemma window_index u : 0 <= u < 16 ->
  let virt_base := u64 (MMIO_WINDOW_BASE + u * MB2) in
  Z.land (Z.shiftr virt_base 30) 0x1FF = 3 /\ Z.land (Z.shiftr virt_base 21) 0x1FF = 384 + u.
Proof.
  unfold MMIO_WINDOW_BASE, MB2. intros Hu. rewrite u64_small by lia. cbv zeta. change 0x1FF with (Z.ones 9).
  rewrite !Z.land_ones, !Z.shiftr_div_pow2 by lia. change (2 ^ 9) with 512. change (2 ^ 30) with 1073741824. change (2 ^ 21) with 2097152.
  split; word_lia.
Qed.

Lemma map_mmio_new s phys : 4 * GB <= phys < 2 ^ 52 -> 0 <= mmio_slots_used s < 16 ->
  (forall i, 0 <= i < mmio_slots_used s -> slot_base s i <> phys - phys mod MB2) ->
  map_mmio_virt pdpt pd phys s =
  Ret (u64 (u64 (MMIO_WINDOW_BASE + mmio_slots_used s * MB2) + phys mod MB2), add_slot (phys - phys mod MB2) s).
Proof.
  intros Hp Hu Hnew. unfold map_mmio_virt. destruct (Z.ltb_spec phys (4 * GB)); [lia|].
  destruct (phys_split phys ltac:(unfold GB in Hp; lia)) as (P1 & P2 & P3 & P4). cbv zeta in P2. rewrite P1, P2 in *.
  rewrite !bind_gets.
  destruct (first_from_spec (Z.to_nat (mmio_slots_used s)) 0 (fun i => slot_base s i =? phys - phys mod MB2) ltac:(lia)) as [[-> _]|(H1 & H2 & _)].
  2:{ exfalso. apply Z.eqb_eq in H2. revert H2. apply Hnew. lia. }
  destruct (Z.leb_spec 0 (-1)); [lia|]. destruct (Z.leb_spec MMIO_WINDOW_SLOTS (mmio_slots_used s)) as [Hc|_]; [unfold MMIO_WINDOW_SLOTS in Hc; lia|].
  destruct (window_index (mmio_slots_used s) Hu) as [I1 I2]. rewrite I1, I2. cbn [Z.leb Z.compare MAX_PDPT_ENTRIES Pos.compare Pos.compare_cont].
  destruct T as [_ [B1 B2] (C1 & C2 & C3) _ _ _]. rewrite table_entry, page_entry by (done || word_lia).
  change (8 * 3) with 24. change (4096 * 3) with 12288.
  replace (pd + 12288 + 8 * (384 + mmio_slots_used s)) with (pd + 8 * (1920 + mmio_slots_used s)) by lia. reflexivity.
Qed.

(** C23. [map_mmio_virt] for a device above 4 GiB: it gives NULL only when
    all sixteen slots are taken, and otherwise an address that the
    processor translates to the one asked for.  Every translation but that
    of one fresh slot stays, so addresses given out before remain valid, and
    nothing but the tables is written. *)
Theorem map_mmio_virt_correct n s phys :
  paging_ok n s -> 4 * GB <= phys < 2 ^ 52 ->
  exists v s', map_mmio_virt pdpt pd phys s = Ret (v, s') /\ paging_ok n s' /\
    (forall x, off_tables x -> ld8 (page_ram s') x = ld8 (page_ram s) x) /\
    ((v = 0 /\ mmio_slots_used s = 16 /\
      forall va, walk (page_ram s') (cr3 s') va = walk (page_ram s) (cr3 s) va) \/
     (v <> 0 /\ walk (page_ram s') (cr3 s') v = Some phys /\ mmio_slots_used s <= mmio_slots_used s' <= mmio_slots_used s + 1 /\
      forall va, 0 <= va < 2 ^ 48 -> va / MB2 <> 1920 + mmio_slots_used s ->
        walk (page_ram s') (cr3 s') va = walk (page_ram s) (cr3 s) va)).
Proof.
  intros Hok Hp. pose proof Hok as [K1 K2 K3 K4 K5 K6].
  destruct (phys_split phys ltac:(unfold GB in Hp; lia)) as (P1 & P2 & P3 & P4). cbv zeta in P2.
  assert (0 <= phys mod MB2 < MB2) as Ho by (apply Z.mod_pos_bound; unfold MB2; lia).
  destruct (first_from_spec (Z.to_nat (mmio_slots_used s)) 0 (fun i => slot_base s i =? phys - phys mod MB2) ltac:(lia)) as [[Ef Hall]|(H1 & H2 & _)].
  - destruct (Z.lt_ge_cases (mmio_slots_used s) 16) as [Hu|Hu].
    + rewrite map_mmio_new; [|done|lia|intros i Hi; apply Z.eqb_neq, Hall; lia].
      destruct (add_slot_ok n s (phys - phys mod MB2) Hok Hu ltac:(unfold GB, MB2 in *; word_lia) ltac:(by rewrite <- P1)) as [Hok' Hoff].
      eexists _, _. split; [reflexivity|]. split_and!; [done|done|]. right.
      assert (mmio_slots_used (add_slot (phys - phys mod MB2) s) = mmio_slots_used s + 1) as Hu' by (cbn; rewrite u32_small; lia).
      split_and!; [destruct (window_addr (mmio_slots_used s) (phys mod MB2) ltac:(lia) Ho) as (_ & _ & _ & Hw); cbv zeta in Hw; lia| |lia|lia|].
      * rewrite (walk_window n) by (done || lia). rewrite slot_base_add, Z.eqb_refl by lia. f_equal. lia.
      * intros va Hva Hk. rewrite !(walk_page n) by done. rewrite page_of_add by lia. by destruct (Z.eqb_spec (va / MB2) (1920 + mmio_slots_used s)).
    + exists 0, (put_pmach (add_serial [line "[OS] [Memory] MMIO window exhausted"] (pmach s)) s). split_and!; [|done|done|left; split_and!; [done|lia|done]].
      unfold map_mmio_virt. destruct (Z.ltb_spec phys (4 * GB)); [lia|]. rewrite P1, !bind_gets, Ef.
      by destruct (Z.leb_spec MMIO_WINDOW_SLOTS (mmio_slots_used s)) as [_|Hc]; [|unfold MMIO_WINDOW_SLOTS in Hc; lia].
  - set (i := first_from _ _ _) in *. exists (u64 (u64 (MMIO_WINDOW_BASE + i * MB2) + phys mod MB2)), s. split_and!; [|done|done|right].
    + unfold map_mmio_virt. destruct (Z.ltb_spec phys (4 * GB)); [lia|]. rewrite P2, P1, !bind_gets. fold i.
      by destruct (Z.leb_spec 0 i); [|lia].
    + split_and!; [destruct (window_addr i (phys mod MB2) ltac:(lia) Ho) as (_ & _ & _ & Hw); cbv zeta in Hw; lia| |lia|lia|done].
      rewrite (walk_window n) by (done || lia). apply Z.eqb_eq in H2. rewrite H2. f_equal. lia.
Qed.

(** Without slots in use the walk is the identity. *)
Lemma identity_walk n s va : paging_ok n s -> mmio_slots_used s = 0 -> 0 <= va < 2 ^ 48 ->
  walk (page_ram s) (cr3 s) va = if va <? n * GB then Some va else None.
Proof.
  intros Hok Hu Hva. rewrite (walk_page _ _ _ Hok Hva). destruct (va <? _); [|done]. f_equal.
  unfold page_of, identity. rewrite Hu. rewrite (andb_comm _ (_ <? _)).
  destruct (Z.ltb_spec (va / MB2) (1920 + 0)), (Z.leb_spec 1920 (va / MB2)); try lia; cbn [andb]; unfold MB2; word_lia.
Qed.

(** Only the bytes of the tables matter. *)
Lemma mapped_ext m m' n page : mapped m n page -> (forall x, ~ off_tables x -> ld8 m' x = ld8 m x) -> mapped m' n page.
Proof.
  intros [H1 H2 H3 H4 H5] Hx.
  assert (forall a, (pml4 <= a /\ a + 8 <= pml4 + 4096) \/ (pdpt <= a /\ a + 8 <= pdpt + 4096) \/ (pd <= a /\ a + 8 <= pd + 262144) -> ld64 m' a = ld64 m a) as E.
  { intros a Ha. apply ld64_ext. intros x Hxa. apply Hx. unfold off_tables. lia. }
  split; [done|..|done]; intros i Hi; rewrite E by lia; auto.
Qed.

(** C19. [init_paging] maps the first gigabytes to themselves (as many as
    reach the end of the frame buffer, at least 4 and at most 64), and
    nothing else: above them the processor faults.  Paging is switched on,
    no window slot is in use, and only the three tables are written. *)
Theorem init_paging_identity s fb size :
  0 <= fb -> 0 <= size -> fb + size <= 18446744073709551616 - GB ->
  exists s', init_paging pml4 pdpt pd fb size s = Ret (tt, s') /\
    paging_ok (gigabytes fb size) s' /\ mmio_slots_used s' = 0 /\
    Z.testbit (cr0 s') 31 = true /\ Z.testbit (cr4 s') 5 = true /\
    (forall va, 0 <= va < 2 ^ 48 ->
       walk (page_ram s') (cr3 s') va = if va <? gigabytes fb size * GB then Some va else None) /\
    forall x, off_tables x -> ld8 (page_ram s') x = ld8 (page_ram s) x.
Proof.
  intros H1 H2 H3. destruct (init_paging_run s fb size H1 H2 H3) as (s' & E & Hok & Hu & R0 & R4 & _ & Hoff).
  exists s'. split; [done|]. split_and!; [done|done|..|done].
  - rewrite R0, Z.lor_spec, Z.shiftl_spec by lia. apply orb_true_r.
  - rewrite R4, Z.lor_spec, Z.shiftl_spec by lia. apply orb_true_r.
  - intros va Hva. by apply identity_walk.
Qed.

(** A device below 4 GiB whose registers lie in a window slot that is
    in use cannot be reached: [map_mmio_virt] returns the physical address
    unchanged, but the processor translates it to the device of the slot. *)
Theorem mmio_window_shadows n s i off :
  paging_ok n s -> 0 <= i < mmio_slots_used s -> 0 <= off < MB2 ->
  let phys := MMIO_WINDOW_BASE + i * MB2 + off in
  map_mmio_virt pdpt pd phys s = Ret (phys, s) /\
  exists p, walk (page_ram s) (cr3 s) phys = Some p /\ p <> phys /\ 4 * GB <= p.
Proof.
  intros Hok Hi Ho phys. pose proof Hok as [_ _ _ _ K5 K6].
  destruct (window_addr i off ltac:(lia) Ho) as (W1 & _ & _ & W4). rewrite W1 in W4. split.
  - unfold map_mmio_virt. fold phys in W4. by destruct (Z.ltb_spec phys (4 * GB)); [|lia].
  - exists (slot_base s i + off). specialize (K6 i Hi). split_and!; [|fold phys in W4; lia|lia].
    rewrite <- (walk_window n) by done. by rewrite W1.
Qed.
End Tables.

(** ** Witnesses: tables at 0x100000, a frame buffer of 16 MiB below 4 GiB. *)

Lemma sample_tables : tables_ok 0x100000 0x101000 0x102000.
Proof. split; try (split_and!; vm_compute; congruence); lia. Qed.

Definition paging0 : paging :=
  Paging (MState ∅ 0x202 [] 0 0 (HeapVars 0 0 0 0 0 0) (PageVars ∅ 0)) 0x11 0 0x20 (replicate 16 0) 0.

Lemma init_paging_identity_witness : exists s',
  init_paging 0x100000 0x101000 0x102000 0xE0000000 0x1000000 paging0 = Ret (tt, s') /\
  walk (page_ram s') (cr3 s') 0xB8000 = Some 0xB8000 /\ walk (page_ram s') (cr3 s') 0x100000000 = None.
Proof.
  destruct (init_paging_identity 0x100000 0x101000 0x102000 sample_tables paging0 0xE0000000 0x1000000
    ltac:(lia) ltac:(lia) ltac:(vm_compute; congruence)) as (s' & E & _ & _ & _ & _ & Hw & _).
  exists s'. split; [exact E|]. split; rewrite Hw by lia; reflexivity.
Defined.

(** The state after [init_paging], and after mapping a device at 32 GiB. *)
Lemma paging_started : exists s, init_paging 0x100000 0x101000 0x102000 0xE0000000 0x1000000 paging0 = Ret (tt, s) /\
  paging_ok 0x100000 0x101000 0x102000 4 s /\ mmio_slots_used s = 0.
Proof.
  destruct (init_paging_run 0x100000 0x101000 0x102000 sample_tables paging0 0xE0000000 0x1000000
    ltac:(lia) ltac:(lia) ltac:(vm_compute; congruence)) as (s & E & Hok & Hu & _). by exists s.
Qed.
Lemma paging_one_slot : exists s, paging_ok 0x100000 0x101000 0x102000 4 s /\ mmio_slots_used s = 1.
Proof.
  destruct paging_started as (s & _ & Hok & Hu). exists (add_slot 0x101000 0x102000 0x800000000 s). split.
  - apply add_slot_ok; [exact sample_tables|done|lia|vm_compute; split; congruence|reflexivity].
  - cbn. by rewrite Hu.
Qed.

Lemma map_mmio_virt_correct_witness : exists s v s',
  map_mmio_virt 0x101000 0x102000 0x800000123 s = Ret (v, s') /\ walk (page_ram s') (cr3 s') v = Some 0x800000123.
Proof.
  destruct paging_started as (s & _ & Hok & Hu).
  destruct (map_mmio_virt_correct 0x100000 0x101000 0x102000 sample_tables 4 s 0x800000123 Hok ltac:(vm_compute; split; congruence))
    as (v & s' & E & _ & _ & [(_ & H & _)|(_ & H & _)]); [lia|]. by exists s, v, s'.
Defined.

Lemma mmio_window_shadows_witness : exists s p,
  map_mmio_virt 0x101000 0x102000 0xF0000010 s = Ret (0xF0000010, s) /\
  walk (page_ram s) (cr3 s) 0xF0000010 = Some p /\ p <> 0xF0000010.
Proof.
  destruct paging_one_slot as (s & Hok & Hu).
  destruct (mmio_window_shadows 0x100000 0x101000 0x102000 sample_tables 4 s 0 0x10 Hok ltac:(lia) ltac:(vm_compute; split; congruence))
    as (E & p & Hp & Hne & _). exists s, p. split_and!; assumption.
Defined.
