(* ===== verification/Uart.v ===== *)
(** * The serial port (Kernel/Kernel_Main.c, lines 15 and 60-97)

    The other components record their output as events ([sev]).  This file
    has the routines behind those calls, over the I/O ports, and shows that
    on a UART a sequence of events puts exactly its text on the line.

    The wait for the transmitter has no timeout in the code; [fuel] bounds
    it in the model, and [Uart] says that the device gets ready within a
    known number of polls. *)
From S2P Require Import Prelude Machine Serial Memory Disk.

Definition COM1_PORT : Z := 0x3F8.

(** The characters of a literal. *)
Definition chars (s : string) : list Z := Z.of_N ∘ Ascii.N_of_ascii <$> String.list_ascii_of_string s.

Section Driver.
Context {B : Type} `{Ports B} (fuel : nat).

Definition serial_init : M (dstate B) unit :=
  outb (COM1_PORT + 1) 0x00;;
  outb (COM1_PORT + 3) 0x80;;
  outb (COM1_PORT + 0) 0x03;;
  outb (COM1_PORT + 1) 0x00;;
  outb (COM1_PORT + 3) 0x03;;
  outb (COM1_PORT + 2) 0xC7;;
  outb (COM1_PORT + 4) 0x0B.

Fixpoint wait_transmitter (n : nat) : M (dstate B) unit :=
  match n with
  | O => liftO NoFuel
  | S n =>
      v ← inb (COM1_PORT + 5);
      if Z.land v 0x20 =? 0 then wait_transmitter n else mret tt
  end.

Definition serial_write_char (c : Z) : M (dstate B) unit :=
  wait_transmitter fuel;; outb COM1_PORT c.

Fixpoint serial_write_string (str : list Z) : M (dstate B) unit :=
  match str with
  | [] => mret tt
  | c :: str =>
      if c =? 0 then mret tt
      else
        (if c =? 10 then serial_write_char 13 else mret tt);;
        serial_write_char c;;
        serial_write_string str
  end.

Definition hex : list Z := chars "0123456789ABCDEF".

(** [n] more digits, the highest first. *)
Fixpoint write_digits (n : nat) (value : Z) : M (dstate B) unit :=
  match n with
  | O => mret tt
  | S k =>
      serial_write_char (byte_at hex (Z.land (Z.shiftr value (4 * Z.of_nat k)) 0xF));;
      write_digits k value
  end.

Definition serial_write_uint64 (value : Z) : M (dstate B) unit :=
  serial_write_string (chars "0x");; write_digits 16 value.
Definition serial_write_uint32 (value : Z) : M (dstate B) unit := serial_write_uint64 value.
Definition serial_write_uint16 (value : Z) : M (dstate B) unit := serial_write_uint64 value.

(** The call an event stands for. *)
Definition serial_write (e : sev) : M (dstate B) unit :=
  match e with
  | SChar c => serial_write_char c
  | SStr s => serial_write_string (chars s)
  | SBytes l => serial_write_string l
  | SU64 v => serial_write_uint64 v
  | SU32 v => serial_write_uint32 v
  | SU16 v => serial_write_uint16 v
  end.
Fixpoint serial_write_all (es : list sev) : M (dstate B) unit :=
  match es with
  | [] => mret tt
  | e :: es => serial_write e;; serial_write_all es
  end.
End Driver.

(** ** The text of an event *)

Definition newline (c : Z) : list Z := if c =? 10 then [13; 10] else [c].
(** Up to a NUL byte. *)
Fixpoint cut (l : list Z) : list Z :=
  match l with
  | [] => []
  | c :: l => if c =? 0 then [] else c :: cut l
  end.
Definition hex_digits (v : Z) : list Z := (fun k => byte_at hex (v / 16 ^ k mod 16)) <$> reverse (seqZ 0 16).
Definition text (e : sev) : list Z :=
  match e with
  | SChar c => [u8 c]
  | SStr s => cut (chars s) ≫= newline
  | SBytes l => cut l ≫= newline
  | SU64 v | SU32 v | SU16 v => chars "0x" ++ hex_digits v
  end.

(** ** The device: what was sent so far, and the polls until it is ready. *)
Class Uart (B : Type) `{Ports B} (limit : nat) := {
  uart : B -> list Z -> nat -> Prop;
  uart_busy b l n : uart b l (S n) ->
    exists v b', bus_in8 (COM1_PORT + 5) b = (v, b') /\ Z.testbit v 5 = false /\ uart b' l n;
  uart_ready b l : uart b l 0 ->
    exists v b', bus_in8 (COM1_PORT + 5) b = (v, b') /\ Z.testbit v 5 = true /\ uart b' l 0;
  uart_send b l c : uart b l 0 -> 0 <= c < 256 ->
    exists n, (n < limit)%nat /\ uart (bus_out8 COM1_PORT c b) (l ++ [c]) n
}.

Section Lemmas.
Context {B : Type} {P : Ports B} {limit : nat} {U : Uart B limit}.

(** The UART has sent [l] and will accept a character in time. *)
Definition sent (b : B) (l : list Z) : Prop := exists n, (n < limit)%nat /\ uart b l n.

Lemma wait_run n m b l : uart b l n -> forall f, (n < f)%nat ->
  exists b', wait_transmitter f (DState m b) = Ret (tt, DState m b') /\ uart b' l 0.
Proof.
  revert b; induction n as [|n IH]; intros b Hu [|f] Hf; try lia; cbn [wait_transmitter].
  - destruct (uart_ready b l Hu) as (v & b' & E & Hv & Hu').
    erewrite bind_run by (unfold inb; cbn [bus]; rewrite E; reflexivity). exists b'.
    change 0x20 with (2 ^ 5). rewrite land_pow2_bit by lia. unfold u8. change 256 with (2 ^ 8).
    rewrite Z.mod_pow2_bits_low, Hv by lia. by split.
  - destruct (uart_busy b l n Hu) as (v & b' & E & Hv & Hu').
    erewrite bind_run by (unfold inb; cbn [bus]; rewrite E; reflexivity).
    change 0x20 with (2 ^ 5). rewrite land_pow2_bit by lia. unfold u8. change 256 with (2 ^ 8).
    rewrite Z.mod_pow2_bits_low, Hv by lia. by apply IH; [|lia].
Qed.

Lemma write_char_run m b l c : sent b l ->
  exists b', serial_write_char limit c (DState m b) = Ret (tt, DState m b') /\ sent b' (l ++ [u8 c]).
Proof.
  intros (n & Hn & Hu). destruct (wait_run n m b l Hu limit Hn) as (b1 & E & Hu1). unfold serial_write_char.
  rewrite (bind_run _ _ _ _ _ E). eexists. split; [reflexivity|]. apply (uart_send b1 l (u8 c) Hu1), u8_range.
Qed.

Lemma write_string_run m str : Forall (fun c => 0 <= c < 256) str -> forall b l, sent b l ->
  exists b', serial_write_string limit str (DState m b) = Ret (tt, DState m b') /\ sent b' (l ++ (cut str ≫= newline)).
Proof.
  intros Hr. induction Hr as [|c str Hc _ IH]; intros b l Hs; cbn [serial_write_string cut].
  { exists b. by rewrite app_nil_r. }
  destruct (Z.eqb_spec c 0) as [->|Hc0]. { exists b. by rewrite app_nil_r. }
  cbn [mbind list_bind]. unfold newline at 1. destruct (Z.eqb_spec c 10) as [->|Hc10].
  - destruct (write_char_run m b l 13 Hs) as (b1 & E1 & Hs1). rewrite (bind_run _ _ _ _ _ E1).
    destruct (write_char_run m b1 _ 10 Hs1) as (b2 & E2 & Hs2). rewrite (bind_run _ _ _ _ _ E2).
    destruct (IH b2 _ Hs2) as (b3 & E3 & Hs3). exists b3. split; [done|].
    rewrite <- !app_assoc in Hs3. exact Hs3.
  - rewrite (bind_run _ _ _ tt (DState m b) eq_refl).
    destruct (write_char_run m b l c Hs) as (b2 & E2 & Hs2). rewrite (bind_run _ _ _ _ _ E2).
    destruct (IH b2 _ Hs2) as (b3 & E3 & Hs3). exists b3. split; [done|].
    rewrite <- !app_assoc, u8_small in Hs3 by done. exact Hs3.
Qed.

Lemma hex_digit_range i : 0 <= i < 16 -> 0 <= byte_at hex i < 256.
Proof.
  intros Hi. assert (forallb (fun i => (0 <=? byte_at hex i) && (byte_at hex i <? 256)) (seqZ 0 16) = true) as H by reflexivity.
  rewrite forallb_forall in H. specialize (H i ltac:(apply list_elem_of_In, elem_of_seqZ; lia)).
  apply andb_true_iff in H as [H1%Z.leb_le H2%Z.ltb_lt]. lia.
Qed.

Lemma digits_S (f : Z -> Z) n : f <$> reverse (seqZ 0 (Z.of_nat (S n))) = f (Z.of_nat n) :: (f <$> reverse (seqZ 0 (Z.of_nat n))).
Proof.
  rewrite Nat2Z.inj_succ, <- Z.add_1_r, seqZ_app, reverse_app, fmap_app by lia. by rewrite Z.add_0_l.
Qed.

Lemma write_digits_run m v n : forall b l, sent b l ->
  exists b', write_digits limit n v (DState m b) = Ret (tt, DState m b') /\
    sent b' (l ++ ((fun k => byte_at hex (v / 16 ^ k mod 16)) <$> reverse (seqZ 0 (Z.of_nat n)))).
Proof.
  induction n as [|n IH]; intros b l Hs; cbn [write_digits].
  { exists b. by rewrite app_nil_r. }
  destruct (write_char_run m b l (byte_at hex (Z.land (Z.shiftr v (4 * Z.of_nat n)) 0xF)) Hs) as (b1 & E1 & Hs1).
  rewrite (bind_run _ _ _ _ _ E1). destruct (IH b1 _ Hs1) as (b2 & E2 & Hs2). exists b2. split; [done|].
  change 0xF with (Z.ones 4) in Hs2. rewrite Z.land_ones, Z.shiftr_div_pow2, Z.pow_mul_r in Hs2 by lia.
  change (2 ^ 4) with 16 in Hs2. rewrite u8_small in Hs2 by (apply hex_digit_range, Z.mod_pos_bound; lia).
  rewrite digits_S, <- app_assoc in *. exact Hs2.
Qed.

Lemma chars_range s : Forall (fun c => 0 <= c < 256) (chars s).
Proof.
  unfold chars. apply Forall_fmap, Forall_forall. intros c _. cbn. pose proof (Ascii.N_ascii_bounded c). lia.
Qed.

Definition event_ok (e : sev) : Prop :=
  match e with SBytes l => Forall (fun c => 0 <= c < 256) l | _ => True end.

Lemma write_number_run m b l v : sent b l ->
  exists b', serial_write_uint64 limit v (DState m b) = Ret (tt, DState m b') /\ sent b' (l ++ chars "0x" ++ hex_digits v).
Proof.
  intros Hs. unfold serial_write_uint64. destruct (write_string_run m (chars "0x") (chars_range _) b l Hs) as (b1 & E1 & Hs1).
  rewrite (bind_run _ _ _ _ _ E1). destruct (write_digits_run m v 16 b1 _ Hs1) as (b2 & E2 & Hs2).
  exists b2. split; [done|]. rewrite <- app_assoc in Hs2. exact Hs2.
Qed.

Lemma write_event_run m b l e : event_ok e -> sent b l ->
  exists b', serial_write limit e (DState m b) = Ret (tt, DState m b') /\ sent b' (l ++ text e).
Proof.
  intros He Hs. destruct e; cbn [serial_write text]; try by apply write_number_run.
  - by apply write_char_run.
  - apply write_string_run; [apply chars_range|done].
  - by apply write_string_run.
Qed.

(** C26. On a UART that gets ready within [limit] polls of each character,
    the calls behind a sequence of output events all return, and put on the
    line the text of the events and nothing else: strings up to their NUL
    with CR LF for each newline, numbers as 0x and sixteen digits. *)
Theorem serial_transmits_events es m b l : Forall event_ok es -> sent b l ->
  exists b', serial_write_all limit es (DState m b) = Ret (tt, DState m b') /\ sent b' (l ++ (es ≫= text)).
Proof.
  intros He. revert b l. induction He as [|e es He _ IH]; intros b l Hs; cbn [serial_write_all].
  { exists b. by rewrite app_nil_r. }
  destruct (write_event_run m b l e He Hs) as (b1 & E1 & Hs1). rewrite (bind_run _ _ _ _ _ E1).
  destruct (IH b1 _ Hs1) as (b2 & E2 & Hs2). exists b2. split; [done|]. rewrite <- app_assoc in Hs2. exact Hs2.
Qed.
End Lemmas.

(** ** The number format *)

Definition hex_value (c : Z) : Z := if c <=? 57 then c - 48 else c - 55.
Definition parse_hex (l : list Z) : Z := fold_left (fun a c => a * 16 + hex_value c) l 0.

Lemma hex_value_digit i : 0 <= i < 16 -> hex_value (byte_at hex i) = i.
Proof.
  intros Hi. assert (forallb (fun i => hex_value (byte_at hex i) =? i) (seqZ 0 16) = true) as H by reflexivity.
  rewrite forallb_forall in H. apply Z.eqb_eq, H, list_elem_of_In, elem_of_seqZ. lia.
Qed.

Lemma parse_digits v n : 0 <= v -> forall a,
  fold_left (fun a c => a * 16 + hex_value c) ((fun k => byte_at hex (v / 16 ^ k mod 16)) <$> reverse (seqZ 0 (Z.of_nat n))) a =
  a * 16 ^ Z.of_nat n + v mod 16 ^ Z.of_nat n.
Proof.
  intros Hv. induction n as [|n IH]; intros a; [change (16 ^ Z.of_nat 0) with 1; rewrite Z.mod_1_r, Z.mul_1_r, Z.add_0_r; reflexivity|].
  rewrite digits_S. cbn [fold_left]. rewrite IH, hex_value_digit by (apply Z.mod_pos_bound; lia).
  rewrite Nat2Z.inj_succ, Z.pow_succ_r, (Z.mul_comm 16) by lia.
  rewrite (Z.rem_mul_r v (16 ^ Z.of_nat n) 16) by (try apply Z.pow_nonzero; lia). lia.
Qed.

(** Numbers are printed faithfully: [serial_write_uint64] returns and
    sends 0x and sixteen characters of the table 0-9A-F, and reading those
    as a hexadecimal number gives the value back. *)
Theorem serial_hex_roundtrip {B : Type} {P : Ports B} {limit : nat} {U : Uart B limit} m (b : B) l v :
  0 <= v < 18446744073709551616 -> sent b l ->
  exists b' ds, serial_write_uint64 limit v (DState m b) = Ret (tt, DState m b') /\ sent b' (l ++ chars "0x" ++ ds) /\
    length ds = 16%nat /\ Forall (fun c => c ∈ hex) ds /\ parse_hex ds = v.
Proof.
  intros Hv Hs. destruct (write_number_run m b l v Hs) as (b' & E & Hs'). exists b', (hex_digits v).
  split_and!; [done|done|reflexivity| |].
  - unfold hex_digits. apply Forall_fmap, Forall_forall. intros k _. unfold compose, byte_at.
    pose proof (Z.mod_pos_bound (v / 16 ^ k) 16 ltac:(lia)).
    destruct (lookup_lt_is_Some_2 hex (Z.to_nat (v / 16 ^ k mod 16))) as [c Hc]; [cbn; lia|].
    rewrite Hc. by eapply list_elem_of_lookup_2.
  - unfold parse_hex, hex_digits. rewrite (parse_digits v 16) by lia. rewrite Z.mul_0_l. apply Z.mod_small. exact Hv.
Qed.

(** ** A simulated UART: busy for one poll after each character. *)

Abbreviation line_dev := (list Z * bool)%type.
#[export] Instance line_ports : Ports line_dev := {|
  bus_in8 := fun port (s : line_dev) => if port =? COM1_PORT + 5 then (if s.2 then 0 else 0x20, (s.1, false)) else (0, s);
  bus_out8 := fun port c (s : line_dev) => if port =? COM1_PORT then (s.1 ++ [c], true) else s;
  bus_in16 := fun _ s => (0, s);
  bus_out16 := fun _ _ s => s;
  bus_in32 := fun _ s => (0, s);
  bus_out32 := fun _ _ s => s
|}.
#[export] Instance line_uart : Uart line_dev 2.
Proof.
  refine {| uart := fun (s : line_dev) l n => s.1 = l /\ n = (if s.2 then 1%nat else 0%nat) |}.
  - intros [l0 [|]] l n [Hl Hn]; [|discriminate]. exists 0, (l0, false). split_and!; try done. cbn in Hn. cbn. lia.
  - intros [l0 [|]] l [Hl Hn]; [discriminate|]. exists 0x20, (l0, false). by split_and!.
  - intros [l0 f] l c [Hl _] _. exists 1%nat. split; [lia|]. cbn in *. by subst.
Defined.

Definition greeting : list sev := [line "CR2: "; SU64 0xDEADBEEF].

Lemma serial_transmits_events_witness : exists b',
  serial_write_all 2 greeting (DState (MState ∅ 0 [] 0 0 (HeapVars 0 0 0 0 0 0) (PageVars ∅ 0)) (([], false) : line_dev)) = Ret (tt, b') /\
  sent (bus b') (chars "CR2: " ++ [13; 10] ++ chars "0x00000000DEADBEEF").
Proof.
  destruct (serial_transmits_events (B := line_dev) (limit := 2) greeting (MState ∅ 0 [] 0 0 (HeapVars 0 0 0 0 0 0) (PageVars ∅ 0)) ([], false) [])
    as (b' & E & Hs); [by repeat constructor|exists 0%nat; split; [lia|done]|].
  eexists. split; [exact E|]. exact Hs.
Defined.

Lemma serial_hex_roundtrip_witness : exists b' ds,
  serial_write_uint64 2 0xCAFE (DState (MState ∅ 0 [] 0 0 (HeapVars 0 0 0 0 0 0) (PageVars ∅ 0)) (([], false) : line_dev)) = Ret (tt, b') /\
  parse_hex ds = 0xCAFE.
Proof.
  destruct (serial_hex_roundtrip (B := line_dev) (limit := 2) (MState ∅ 0 [] 0 0 (HeapVars 0 0 0 0 0 0) (PageVars ∅ 0)) ([], false) [] 0xCAFE)
    as (b' & ds & E & _ & _ & _ & Hp); [lia|exists 0%nat; split; [lia|done]|].
  eexists _, ds. split; [exact E|exact Hp].
Defined.
