(* ===== verification/Cpu.v ===== *)
(** * Descriptor tables and system registers (Kernel/GDT, Kernel/IDT and the
      register set-up of Kernel/Syscall/Syscall_Init.c)

    The tables are in RAM, at the addresses the linker gives them, and are
    written there field by field.  [cpu] holds the registers the code loads:
    GDTR, IDTR, TR, the segment selectors and the model-specific registers;
    the interrupt flag is in the RFLAGS of [mstate].  [segment] and [gate] read a table the way the
    processor manual describes it. *)
From S2P Require Import Prelude Machine Utils Serial Memory Disk.

Definition GDT_KERNEL_CODE : Z := 0x08.
Definition GDT_KERNEL_DATA : Z := 0x10.
Definition GDT_USER_COMPAT_CODE : Z := 0x18.
Definition GDT_USER_DATA : Z := 0x20.
Definition GDT_USER_CODE : Z := 0x28.
Definition GDT_TSS : Z := 0x30.
Definition TSS_SIZE : Z := 104.
Definition GDT_SIZE : Z := 64.

Record cpu := Cpu {
  cmach : mstate;
  gdtr : Z * Z;       (** limit, base *)
  idtr : Z * Z;
  tr : Z;
  cs : Z;
  data_selectors : list Z;    (** ds, es, fs, gs, ss *)
  msr : gmap Z Z
}.
Definition cpu_ram (s : cpu) : mem := ram (cmach s).
Definition on_cmach {A} (c : M mstate A) : M cpu A :=
  zoom cmach (fun m s => Cpu m (gdtr s) (idtr s) (tr s) (cs s) (data_selectors s) (msr s)) c.
Definition on_table (f : mem -> mem) : M cpu unit := on_cmach (modify (fun s => set_ram (f (ram s)) s)).

(** ** GDT_Main.c *)

Record GDTEntry := GdtEntry {
  limit_low : Z;
  base_low : Z;
  base_mid : Z;
  access : Z;
  gran : Z;
  base_high : Z
}.

Definition make_gdt_entry (limit access flags : Z) : GDTEntry :=
  GdtEntry (u16 (Z.land limit 0xFFFF)) 0 0 access (u8 (Z.lor (Z.land (Z.shiftr limit 16) 0x0F) (Z.land flags 0xF0))) 0.

(** The packed structure at [a]. *)
Definition put_entry (a : Z) (e : GDTEntry) (m : mem) : mem :=
  let m := st16 m a (limit_low e) in
  let m := st16 m (a + 2) (base_low e) in
  let m := st8 m (a + 4) (base_mid e) in
  let m := st8 m (a + 5) (access e) in
  let m := st8 m (a + 6) (gran e) in
  st8 m (a + 7) (base_high e).

(** [lgdt], the data selectors and the far return to the code selector. *)
Definition gdt_flush (ptr : Z) : M cpu unit := modify (fun s =>
  let m := cpu_ram s in
  Cpu (cmach s) (ld16 m ptr, ld64 m (ptr + 2)) (idtr s) (tr s) GDT_KERNEL_CODE (replicate 5 GDT_KERNEL_DATA) (msr s)).

(** [ltr], which marks the descriptor busy. *)
Definition tss_flush (sel : Z) : M cpu unit :=
  modify (fun s => Cpu (cmach s) (gdtr s) (idtr s) sel (cs s) (data_selectors s) (msr s));;
  base ← gets (fun s => snd (gdtr s));
  on_table (fun m => st8 m (base + sel + 5) (Z.lor (ld8 m (base + sel + 5)) 2)).

Section Gdt.
(** The static variables of the file. *)
Context (gdt gdtr_at tss kernel_stack : Z).

Definition put_tss_descriptor (a tss_base tss_limit : Z) (m : mem) : mem :=
  let m := st16 m a (Z.land tss_limit 0xFFFF) in
  let m := st16 m (a + 2) (Z.land tss_base 0xFFFF) in
  let m := st8 m (a + 4) (Z.land (Z.shiftr tss_base 16) 0xFF) in
  let m := st8 m (a + 5) 0x89 in
  let m := st8 m (a + 6) (Z.land (Z.shiftr tss_limit 16) 0x0F) in
  let m := st8 m (a + 7) (Z.land (Z.shiftr tss_base 24) 0xFF) in
  let m := st32 m (a + 8) (Z.shiftr tss_base 32) in
  st32 m (a + 12) 0.

Definition init_gdt : M cpu unit :=
  on_cmach (say [line "[OS] [GDT] Start Initialize GDT."]);;
  on_table (put_entry gdt (make_gdt_entry 0 0 0));;
  on_table (put_entry (gdt + 0x08) (make_gdt_entry 0xFFFFF 0x9A 0xA0));;
  on_table (put_entry (gdt + 0x10) (make_gdt_entry 0xFFFFF 0x92 0x80));;
  on_table (put_entry (gdt + 0x18) (make_gdt_entry 0xFFFFF 0xFA 0xC0));;
  on_table (put_entry (gdt + 0x20) (make_gdt_entry 0xFFFFF 0xF2 0x80));;
  on_table (put_entry (gdt + 0x28) (make_gdt_entry 0xFFFFF 0xFA 0xA0));;
  on_table (put_tss_descriptor (gdt + 0x30) tss (TSS_SIZE - 1));;
  on_table (for_up 7 0 (fun i m => st64 m (tss + 36 + 8 * i) 0));;
  on_table (fun m => st64 m (tss + 4) (kernel_stack + 4096 * 4));;
  on_table (fun m => st16 m (tss + 102) TSS_SIZE);;
  on_table (fun m => st16 m gdtr_at (GDT_SIZE - 1));;
  on_table (fun m => st64 m (gdtr_at + 2) gdt);;
  gdt_flush gdtr_at;;
  tss_flush GDT_TSS;;
  on_cmach (say [line "[OS] [GDT] Successfully Initialize GDT."]).
End Gdt.

(** ** IDT_Main.c *)

Definition IDT_ENTRIES : Z := 256.
Definition MAX_IRQS : Z := 256.

(** [lidt], then [sti]. *)
Definition load_idt (ptr : Z) : M cpu unit := modify (fun s =>
  let m := cpu_ram s in
  Cpu (set_rflags (Z.lor (rflags (cmach s)) 0x200) (cmach s)) (gdtr s) (ld16 m ptr, ld64 m (ptr + 2)) (tr s) (cs s) (data_selectors s) (msr s)).

Section Idt.
Context (idt idt_ptr isr_default isr_page_fault : Z).

Definition put_gate (n addr : Z) (m : mem) : mem :=
  let a := idt + 16 * n in
  let m := st16 m a (Z.land addr 0xFFFF) in
  let m := st16 m (a + 2) 0x08 in
  let m := st8 m (a + 4) 0 in
  let m := st8 m (a + 5) 0x8E in
  let m := st16 m (a + 6) (Z.land (Z.shiftr addr 16) 0xFFFF) in
  let m := st32 m (a + 8) (Z.land (Z.shiftr addr 32) 0xFFFFFFFF) in
  st32 m (a + 12) 0.
Definition set_interrupt_handler (n handler : Z) : M cpu unit := on_table (put_gate n handler).

Definition init_idt : M cpu unit :=
  on_cmach (say [line "[OS] [IDT] Start Initialize IDT."]);;
  on_table (for_up (Z.to_nat IDT_ENTRIES) 0 (fun i m => put_gate i isr_default m));;
  set_interrupt_handler 14 isr_page_fault;;
  on_table (fun m => st16 m idt_ptr (16 * IDT_ENTRIES - 1));;
  on_table (fun m => st64 m (idt_ptr + 2) idt);;
  load_idt idt_ptr;;
  on_cmach (say [line "[OS] [IDT] Successfully Initialize IDT."]).

Definition set_exception_handler (exception_num handler : Z) : M cpu unit :=
  if exception_num <? 32 then set_interrupt_handler exception_num handler else mret tt.
Definition set_irq_handler (irq handler : Z) : M cpu unit :=
  if irq <? 16 then set_interrupt_handler (32 + irq) handler else mret tt.
End Idt.

Definition page_fault_handler (error_code rip rsp cr2 : Z) : M mstate unit :=
  say [line "[OS] [PF] Page fault";
       SStr "[OS] [PF] CR2: "; SU64 cr2; line "";
       SStr "[OS] [PF] RIP: "; SU64 rip; line "";
       SStr "[OS] [PF] RSP: "; SU64 rsp; line "";
       SStr "[OS] [PF] Error: "; SU64 error_code; line ""];;
  liftO Hang.

(** [irq_routines]: the handlers' addresses, 0 for none.  [call] runs the
    handler at an address. *)
Definition register_interrupt_handler (irq handler : Z) (t : list Z) : list Z :=
  if irq <? MAX_IRQS then <[Z.to_nat irq := handler]> t else t.
Definition unregister_interrupt_handler (irq : Z) (t : list Z) : list Z :=
  if irq <? MAX_IRQS then <[Z.to_nat irq := 0]> t else t.

Section Irq.
Context {B : Type} `{Ports B} (call : Z -> M (dstate B) unit) (irq_routines : list Z).

Definition irq_handler (irq_num : Z) : M (dstate B) unit :=
  (if (irq_num <? MAX_IRQS) && negb (byte_at irq_routines irq_num =? 0)
   then call (byte_at irq_routines irq_num) else mret tt);;
  if (32 <=? irq_num) && (irq_num <? 48) then
    outb 0x20 0x20;;
    if 40 <=? irq_num then outb 0xA0 0x20 else mret tt
  else mret tt.
End Irq.

(** ** syscall_init *)

Definition IA32_EFER : Z := 0xC0000080.
Definition IA32_STAR : Z := 0xC0000081.
Definition IA32_LSTAR : Z := 0xC0000082.
Definition IA32_FMASK : Z := 0xC0000084.
Definition IA32_GS_BASE : Z := 0xC0000101.
Definition IA32_KERNEL_GS_BASE : Z := 0xC0000102.
Definition EFER_SCE : Z := Z.shiftl 1 0.
Definition RFLAGS_IF : Z := Z.shiftl 1 9.

(** The two halves in EDX:EAX. *)
Definition wrmsr (r value : Z) : M cpu unit := modify (fun s =>
  let low := Z.land value 0xFFFFFFFF in
  let high := u32 (Z.shiftr value 32) in
  Cpu (cmach s) (gdtr s) (idtr s) (tr s) (cs s) (data_selectors s)
    (<[r := Z.lor (Z.shiftl high 32) low]> (msr s))).
Definition rdmsr (s : cpu) (r : Z) : Z := default 0 (msr s !! r).

Definition syscall_init (syscall_entry cpu_state : Z) : M cpu unit :=
  efer ← gets (fun s => Z.lor (u64 (Z.shiftl (u32 (Z.shiftr (rdmsr s IA32_EFER) 32)) 32)) (u32 (rdmsr s IA32_EFER)));
  wrmsr IA32_EFER (Z.lor efer EFER_SCE);;
  wrmsr IA32_LSTAR syscall_entry;;
  wrmsr IA32_STAR (Z.lor (u64 (Z.shiftl GDT_KERNEL_CODE 32)) (u64 (Z.shiftl GDT_USER_COMPAT_CODE 48)));;
  wrmsr IA32_GS_BASE 0;;
  wrmsr IA32_KERNEL_GS_BASE cpu_state;;
  wrmsr IA32_FMASK RFLAGS_IF.

(** ** The processor's view *)

(** A segment descriptor: base, limit, access byte and flags. *)
Record descriptor := Descriptor { d_base : Z; d_limit : Z; d_access : Z; d_flags : Z }.
Definition read_descriptor (m : mem) (a : Z) : descriptor :=
  Descriptor (ld16 m (a + 2) + 2 ^ 16 * ld8 m (a + 4) + 2 ^ 24 * ld8 m (a + 7))
    (ld16 m a + 2 ^ 16 * (ld8 m (a + 6) mod 16)) (ld8 m (a + 5)) (ld8 m (a + 6) / 16).
(** The descriptor of a selector, when it is inside the table. *)
Definition segment (s : cpu) (sel : Z) : option descriptor :=
  let o := 8 * (sel / 8) in
  if o + 7 <=? fst (gdtr s) then Some (read_descriptor (cpu_ram s) (snd (gdtr s) + o)) else None.
(** A system descriptor is 16 bytes; its base has 64 bits. *)
Definition system_base (s : cpu) (sel : Z) : Z :=
  let a := snd (gdtr s) + 8 * (sel / 8) in
  d_base (read_descriptor (cpu_ram s) a) + 2 ^ 32 * ld32 (cpu_ram s) (a + 8).

Definition present (d : descriptor) : bool := Z.testbit (d_access d) 7.
Definition dpl (d : descriptor) : Z := d_access d / 32 mod 4.
Definition is_code (d : descriptor) : bool := Z.testbit (d_access d) 4 && Z.testbit (d_access d) 3.
Definition is_writable_data (d : descriptor) : bool :=
  Z.testbit (d_access d) 4 && negb (Z.testbit (d_access d) 3) && Z.testbit (d_access d) 1.
Definition long_mode (d : descriptor) : bool := Z.testbit (d_flags d) 1 && negb (Z.testbit (d_flags d) 2).

(** A gate of the IDT: target, selector, stack index, type byte. *)
Record gate := Gate { g_offset : Z; g_selector : Z; g_ist : Z; g_type : Z }.
Definition read_gate (s : cpu) (v : Z) : option gate :=
  let a := snd (idtr s) + 16 * v in
  let m := cpu_ram s in
  if 16 * v + 15 <=? fst (idtr s) then
    Some (Gate (ld16 m a + 2 ^ 16 * ld16 m (a + 6) + 2 ^ 32 * ld32 m (a + 8)) (ld16 m (a + 2)) (ld8 m (a + 4)) (ld8 m (a + 5)))
  else None.
