(* ===== verification/CpuTheorems.v ===== *)
(** * The properties of the descriptor tables *)
From S2P Require Import Prelude Machine Utils Serial Memory Disk Cpu.

(** ** Loads after stores of other widths *)

Lemma ldn_st8 k m a v b : b + Z.of_nat k <= a \/ a < b -> ldn k (st8 m a v) b = ldn k m b.
Proof. intros H. apply ldn_ext, agree_st8. lia. Qed.
Lemma ld8_st8_eq m a v : ld8 (st8 m a v) a = u8 v.
Proof. by rewrite ld8_st8, Z.eqb_refl. Qed.
Lemma ld8_st8_ne m a v b : a <> b -> ld8 (st8 m a v) b = ld8 m b.
Proof. intros H. rewrite ld8_st8. by destruct (Z.eqb_spec a b). Qed.

(** Reads a location back through a sequence of stores to known offsets. *)
Ltac mem_read :=
  unfold ld16, ld32, ld64, st16, st32, st64;
  repeat first
    [ rewrite ld8_st8_eq | rewrite ldn_stn_eq | rewrite ld8_st8_ne by lia | rewrite ldn_st8 by lia
    | rewrite ld8_stn by lia | rewrite ldn_stn_disj by lia ].
Ltac mem_agree := repeat first
  [ apply agree_refl
  | eapply agree_trans; [|first [apply agree_st8; lia | apply (agree_stn 2); lia | apply agree_st32; lia | apply agree_st64; lia]] ].

Lemma land_mod v k : 0 <= k -> Z.land v (Z.ones k) = v mod 2 ^ k.
Proof. intros. by apply Z.land_ones. Qed.

(** ** Segment descriptors *)

Lemma agree_put_entry a e m lo hi : hi <= a \/ a + 8 <= lo -> agree m (put_entry a e m) lo hi.
Proof. intros H. unfold put_entry. mem_agree. Qed.
Lemma agree_put_tss a b l m lo hi : hi <= a \/ a + 16 <= lo -> agree m (put_tss_descriptor a b l m) lo hi.
Proof. intros H. unfold put_tss_descriptor. mem_agree. Qed.

Lemma read_descriptor_ext m m' a : agree m m' a (a + 8) -> read_descriptor m' a = read_descriptor m a.
Proof.
  intros H. unfold read_descriptor. rewrite (H (a + 4)), (H (a + 5)), (H (a + 6)), (H (a + 7)) by lia. unfold ld16.
  by rewrite (ldn_ext 2 m m' (a + 2)), (ldn_ext 2 m m' a) by (eapply agree_sub; [..|exact H]; lia).
Qed.

Lemma read_put_entry a limit acc flags m : 0 <= limit < 2 ^ 20 -> 0 <= acc < 256 -> 0 <= flags < 256 ->
  read_descriptor (put_entry a (make_gdt_entry limit acc flags) m) a = Descriptor 0 limit acc (flags / 16).
Proof.
  intros Hl Ha Hf. unfold read_descriptor, put_entry, make_gdt_entry. cbn [limit_low base_low base_mid access gran base_high].
  change 0xFFFF with (Z.ones 16). change 0x0F with (Z.ones 4). rewrite !land_mod, Z.shiftr_div_pow2 by lia.
  assert (Z.land flags 0xF0 = 16 * (flags / 16)) as Hfl.
  { change 0xF0 with (Z.land (Z.ones 8) (Z.lnot (Z.ones 4))). rewrite Z.land_assoc, land_mod, land_lnot_ones by lia.
    rewrite (Z.mod_small flags) by lia. word_lia. }
  rewrite Hfl. assert (Z.lor (limit / 2 ^ 16 mod 2 ^ 4) (16 * (flags / 16)) = limit / 2 ^ 16 + 16 * (flags / 16)) as Hg.
  { rewrite Z.mod_small by word_lia. replace (16 * (flags / 16)) with (Z.shiftl (flags / 16) 4) at 1 by (rewrite Z.shiftl_mul_pow2; lia).
    rewrite lor_shiftl by word_lia. lia. }
  rewrite Hg. mem_read. change (256 ^ Z.of_nat 2) with (2 ^ 16). unfold u8, u16. f_equal; word_lia.
Qed.

Lemma read_put_tss a b l m : 0 <= b < 2 ^ 64 -> 0 <= l < 2 ^ 20 ->
  let m' := put_tss_descriptor a b l m in
  d_limit (read_descriptor m' a) = l /\ d_access (read_descriptor m' a) = 0x89 /\
  d_base (read_descriptor m' a) + 2 ^ 32 * ld32 m' (a + 8) = b.
Proof.
  intros Hb Hl. unfold read_descriptor, put_tss_descriptor. cbn [d_limit d_access d_base].
  change 0xFFFF with (Z.ones 16). change 0x0F with (Z.ones 4). change 0xFF with (Z.ones 8).
  rewrite !land_mod, !Z.shiftr_div_pow2 by lia. mem_read.
  change (256 ^ Z.of_nat 2) with (2 ^ 16). change (256 ^ Z.of_nat 4) with (2 ^ 32). unfold u8. split_and!; [word_lia|done|word_lia].
Qed.

(** Steps on RAM and on the output, as state updates. *)
Definition with_table (f : mem -> mem) (s : cpu) : cpu :=
  Cpu (set_ram (f (cpu_ram s)) (cmach s)) (gdtr s) (idtr s) (tr s) (cs s) (data_selectors s) (msr s).
Definition with_output (es : list sev) (s : cpu) : cpu :=
  Cpu (add_serial es (cmach s)) (gdtr s) (idtr s) (tr s) (cs s) (data_selectors s) (msr s).
Lemma bind_on_table {A} f (k : unit -> M cpu A) s : (x ← on_table f; k x) s = k tt (with_table f s).
Proof. reflexivity. Qed.
Lemma bind_output {A} es (k : unit -> M cpu A) s : (x ← on_cmach (say es); k x) s = k tt (with_output es s).
Proof. reflexivity. Qed.

Definition set_msr (r v : Z) (s : cpu) : cpu :=
  Cpu (cmach s) (gdtr s) (idtr s) (tr s) (cs s) (data_selectors s) (<[r := v mod 2 ^ 64]> (msr s)).

(** The halves in EDX:EAX make the low 64 bits. *)
Lemma join_halves v : Z.lor (Z.shiftl (u32 (Z.shiftr v 32)) 32) (Z.land v 0xFFFFFFFF) = v mod 2 ^ 64.
Proof.
  rewrite Z.lor_comm. change 0xFFFFFFFF with (Z.ones 32). rewrite Z.land_ones, Z.shiftr_div_pow2 by lia.
  rewrite lor_shiftl by (try apply Z.mod_pos_bound; lia). unfold u32. change 4294967296 with (2 ^ 32).
  change (2 ^ 64) with (2 ^ 32 * 2 ^ 32). rewrite Z.rem_mul_r by lia. lia.
Qed.
Lemma split_value v : Z.lor (u64 (Z.shiftl (u32 (Z.shiftr v 32)) 32)) (u32 v) = v mod 2 ^ 64.
Proof.
  rewrite <- join_halves. change 0xFFFFFFFF with (Z.ones 32). rewrite Z.land_ones by lia. f_equal.
  rewrite Z.shiftl_mul_pow2 by lia. apply u64_small. pose proof (u32_range (Z.shiftr v 32)). lia.
Qed.
Lemma wrmsr_run r v s : wrmsr r v s = Ret (tt, set_msr r v s).
Proof. unfold wrmsr, modify, set_msr. by rewrite join_halves. Qed.
Lemma bind_wrmsr {A} r v (k : unit -> M cpu A) s : (x ← wrmsr r v; k x) s = k tt (set_msr r v s).
Proof. by rewrite (bind_run _ _ _ _ _ (wrmsr_run r v s)). Qed.

Lemma rdmsr_set_eq r v s : rdmsr (set_msr r v s) r = v mod 2 ^ 64.
Proof. unfold rdmsr, set_msr. cbn [msr]. by rewrite lookup_insert_eq. Qed.
Lemma rdmsr_set_ne r q v s : r <> q -> rdmsr (set_msr r v s) q = rdmsr s q.
Proof. intros H. unfold rdmsr, set_msr. cbn [msr]. by rewrite lookup_insert_ne. Qed.
Ltac msr_read := repeat first [rewrite rdmsr_set_eq | rewrite rdmsr_set_ne by discriminate].

Section Gdt.
Context (gdt gdtr_at tss kernel_stack : Z).

(** Where the linker puts the file's variables. *)
Record gdt_layout : Prop := {
  gl_gdt : 0 <= gdt /\ gdt + 64 < 2 ^ 64;
  gl_tss : 0 <= tss < 2 ^ 64;
  gl_stack : 0 <= kernel_stack /\ kernel_stack + 16384 < 2 ^ 64;
  gl_apart1 : gdt + 64 <= tss \/ tss + 104 <= gdt;
  gl_apart2 : gdt + 64 <= gdtr_at \/ gdtr_at + 10 <= gdt;
  gl_apart3 : tss + 104 <= gdtr_at \/ gdtr_at + 10 <= tss
}.

(** The memory [init_gdt] leaves: the six segment descriptors, then the
    rest. *)
Definition segments_written (m : mem) : mem :=
  put_entry (gdt + 0x28) (make_gdt_entry 0xFFFFF 0xFA 0xA0) (put_entry (gdt + 0x20) (make_gdt_entry 0xFFFFF 0xF2 0x80)
  (put_entry (gdt + 0x18) (make_gdt_entry 0xFFFFF 0xFA 0xC0) (put_entry (gdt + 0x10) (make_gdt_entry 0xFFFFF 0x92 0x80)
  (put_entry (gdt + 0x08) (make_gdt_entry 0xFFFFF 0x9A 0xA0) (put_entry gdt (make_gdt_entry 0 0 0) m))))).
Definition tss_written (m : mem) : mem :=
  let m := put_tss_descriptor (gdt + 0x30) tss (TSS_SIZE - 1) m in
  let m := for_up 7 0 (fun i m => st64 m (tss + 36 + 8 * i) 0) m in
  let m := st64 m (tss + 4) (kernel_stack + 4096 * 4) in
  let m := st16 m (tss + 102) TSS_SIZE in
  let m := st16 m gdtr_at (GDT_SIZE - 1) in
  st64 m (gdtr_at + 2) gdt.
Definition busy_written (m : mem) : mem := st8 m (gdt + GDT_TSS + 5) (Z.lor (ld8 m (gdt + GDT_TSS + 5)) 2).

Context (L : gdt_layout).

Lemma agree_tss_written m lo hi : hi <= gdt + 0x30 \/ gdt + 64 <= lo -> hi <= tss \/ tss + 104 <= lo ->
  hi <= gdtr_at \/ gdtr_at + 10 <= lo -> agree m (tss_written m) lo hi.
Proof using Type.
  intros H1 H2 H3. unfold tss_written. mem_agree.
Qed.

(** Everything [init_gdt] does. *)
Definition gdt_memory (m : mem) : mem := busy_written (tss_written (segments_written m)).
Lemma init_gdt_result s : exists es, init_gdt gdt gdtr_at tss kernel_stack s =
  Ret (tt, Cpu (add_serial es (set_ram (gdt_memory (cpu_ram s)) (cmach s))) (GDT_SIZE - 1, gdt) (idtr s) GDT_TSS GDT_KERNEL_CODE
             (replicate 5 GDT_KERNEL_DATA) (msr s)).
Proof using L.
  destruct L as [[L1 L1'] L2 L3 A1 A2 A3]. unfold gdt_memory. set (m := tss_written (segments_written (cpu_ram s))).
  assert (ld16 m gdtr_at = 63) as H16.
  { unfold m, tss_written. mem_read. reflexivity. }
  assert (ld64 m (gdtr_at + 2) = gdt) as H64.
  { unfold m, tss_written. rewrite ld64_st64_eq. apply u64_small. lia. }
  unfold init_gdt. rewrite bind_output, !bind_on_table. unfold gdt_flush. rewrite bind_modify.
  match goal with |- context [ld16 (cpu_ram ?s1) gdtr_at] => set (s1' := s1) end.
  assert (s1' = Cpu (set_ram m (add_serial [line "[OS] [GDT] Start Initialize GDT."] (cmach s))) (gdtr s) (idtr s) (tr s) (cs s) (data_selectors s) (msr s)) as E by reflexivity.
  clearbody s1' m. subst s1'. cbn [cpu_ram cmach ram set_ram add_serial]. rewrite H16, H64.
  exists ([line "[OS] [GDT] Start Initialize GDT."] ++ [line "[OS] [GDT] Successfully Initialize GDT."]).
  rewrite <- add_serial_app. reflexivity.
Qed.

Lemma init_gdt_run s : exists s', init_gdt gdt gdtr_at tss kernel_stack s = Ret (tt, s') /\
  gdtr s' = (GDT_SIZE - 1, gdt) /\ tr s' = GDT_TSS /\ cs s' = GDT_KERNEL_CODE /\ data_selectors s' = replicate 5 GDT_KERNEL_DATA /\
  idtr s' = idtr s /\ msr s' = msr s /\ cpu_ram s' = busy_written (tss_written (segments_written (cpu_ram s))).
Proof using L. destruct (init_gdt_result s) as [es E]. eexists. split; [exact E|]. by split_and!. Qed.

Lemma gdt_memory_frame m x : ~ (gdt <= x < gdt + 64) -> ~ (tss <= x < tss + 104) -> ~ (gdtr_at <= x < gdtr_at + 10) ->
  ld8 (gdt_memory m) x = ld8 m x.
Proof using Type.
  intros H1 H2 H3. assert (agree m (gdt_memory m) x (x + 1)) as Ha; [|apply Ha; lia]. unfold gdt_memory, busy_written, GDT_TSS.
  eapply agree_trans; [|apply agree_st8; lia]. eapply agree_trans; [|apply agree_tss_written; lia].
  unfold segments_written. repeat (eapply agree_trans; [|apply agree_put_entry; lia]). apply agree_refl.
Qed.

Lemma read_segment m o : 0 <= o <= 0x28 ->
  read_descriptor (busy_written (tss_written m)) (gdt + o) = read_descriptor m (gdt + o).
Proof using L.
  intros Ho. destruct L as [_ _ _ A1 A2 A3]. apply read_descriptor_ext. unfold busy_written, GDT_TSS.
  eapply agree_trans; [apply agree_tss_written|apply agree_st8]; lia.
Qed.

(** The five segment descriptors in place. *)
Definition gdt_built (s : cpu) : Prop :=
  gdtr s = (GDT_SIZE - 1, gdt) /\
  segment s GDT_KERNEL_CODE = Some (Descriptor 0 0xFFFFF 0x9A 0xA) /\ segment s GDT_KERNEL_DATA = Some (Descriptor 0 0xFFFFF 0x92 0x8) /\
  segment s GDT_USER_COMPAT_CODE = Some (Descriptor 0 0xFFFFF 0xFA 0xC) /\ segment s GDT_USER_DATA = Some (Descriptor 0 0xFFFFF 0xF2 0x8) /\
  segment s GDT_USER_CODE = Some (Descriptor 0 0xFFFFF 0xFA 0xA).

Lemma init_gdt_built s m : gdtr s = (GDT_SIZE - 1, gdt) ->
  cpu_ram s = busy_written (tss_written (segments_written m)) -> gdt_built s.
Proof using L.
  intros Hg Hm. split; [done|]. unfold segment. rewrite Hg, Hm. cbn [fst snd].
  repeat match goal with |- context [8 * (?sel / 8)] => let v := eval vm_compute in (8 * (sel / 8)) in change (8 * (sel / 8)) with v end.
  cbn [Z.leb Z.compare Pos.compare Pos.compare_cont Z.add Pos.add GDT_SIZE Z.sub Z.opp Pos.succ Pos.add_carry Z.pos_sub].
  rewrite !read_segment by lia. unfold segments_written.
  split_and!; f_equal;
    repeat match goal with
    | |- read_descriptor (put_entry ?a _ _) ?a = _ => rewrite read_put_entry by lia; reflexivity
    | |- read_descriptor (put_entry _ _ ?x) _ = _ => rewrite (read_descriptor_ext x) by (apply agree_put_entry; lia)
    end.
Qed.

Lemma tss_in_place m : let m' := busy_written (tss_written m) in
  d_base (read_descriptor m' (gdt + 0x30)) + 2 ^ 32 * ld32 m' (gdt + 0x30 + 8) = tss /\
  d_limit (read_descriptor m' (gdt + 0x30)) = 103 /\ d_access (read_descriptor m' (gdt + 0x30)) = 0x8B /\
  ld64 m' (tss + 4) = kernel_stack + 16384.
Proof using L.
  destruct L as [[L1 L1'] L2 L3 A1 A2 A3]. cbv zeta. set (m1 := put_tss_descriptor (gdt + 0x30) tss (TSS_SIZE - 1) m).
  destruct (read_put_tss (gdt + 0x30) tss (TSS_SIZE - 1) m L2 ltac:(vm_compute; split; congruence)) as (R1 & R2 & R3). fold m1 in R1, R2, R3.
  assert (agree m1 (tss_written m) (gdt + 0x30) (gdt + 64)) as Ha.
  { unfold tss_written. fold m1. clearbody m1. cbn [for_up]. mem_agree. }
  assert (ld8 (tss_written m) (gdt + GDT_TSS + 5) = 0x89) as H89.
  { rewrite <- R2. unfold GDT_TSS. cbn [d_access read_descriptor]. apply Ha. lia. }
  unfold busy_written. rewrite H89. change (Z.lor 0x89 2) with 0x8B. unfold GDT_TSS, read_descriptor in *. cbn [d_base d_limit d_access] in *.
  split_and!.
  - rewrite <- R3. mem_read. rewrite !(Ha (gdt + 0x30 + _)) by lia.
    by rewrite (ldn_ext 2 m1 (tss_written m)), (ldn_ext 4 m1 (tss_written m)) by (eapply agree_sub; [..|exact Ha]; lia).
  - change 103 with (TSS_SIZE - 1). rewrite <- R1. mem_read. rewrite !(Ha (gdt + 0x30 + _)) by lia.
    by rewrite (ldn_ext 2 m1 (tss_written m)) by (eapply agree_sub; [..|exact Ha]; lia).
  - by rewrite ld8_st8_eq.
  - unfold tss_written. mem_read. apply Z.mod_small. lia.
Qed.

(** What kernel and user segments have to be. *)
Definition code64 (ring : Z) (d : descriptor) : Prop :=
  present d = true /\ is_code d = true /\ long_mode d = true /\ dpl d = ring.
Definition data_rw (ring : Z) (d : descriptor) : Prop :=
  present d = true /\ is_writable_data d = true /\ dpl d = ring.

(** After [init_gdt] the selectors the processor has loaded denote
    ring 0 segments: 64-bit code in CS, writable data in the five others.
    The task register denotes a 64-bit TSS at the address of [tss] with its
    full length, whose ring 0 stack pointer is the end of [kernel_stack]. *)
Theorem init_gdt_segments s : exists s', init_gdt gdt gdtr_at tss kernel_stack s = Ret (tt, s') /\
  (exists d, segment s' (cs s') = Some d /\ code64 0 d) /\
  (forall sel, sel ∈ data_selectors s' -> exists d, segment s' sel = Some d /\ data_rw 0 d) /\
  (exists d, segment s' (tr s') = Some d /\ d_access d = 0x8B /\ d_limit d = 103) /\
  system_base s' (tr s') = tss /\ ld64 (cpu_ram s') (tss + 4) = kernel_stack + 16384.
Proof using L.
  destruct (init_gdt_run s) as (s' & E & R1 & R2 & R3 & R4 & _ & _ & R7). exists s'. split; [done|].
  destruct (init_gdt_built s' (cpu_ram s) R1 R7) as (_ & G1 & G2 & _). destruct (tss_in_place (segments_written (cpu_ram s))) as (T1 & T2 & T3 & T4).
  rewrite R2, R3, R4. split_and!.
  - eexists. split; [exact G1|]. by split_and!.
  - intros sel Hsel. apply elem_of_replicate in Hsel as [-> _]. eexists. split; [exact G2|]. by split_and!.
  - unfold segment. rewrite R1, R7. eexists. split; [reflexivity|]. by split.
  - unfold system_base. rewrite R1, R7. exact T1.
  - rewrite R7. exact T4.
Qed.

(** The selectors [syscall] and [sysret] (to 64-bit code) take from STAR. *)
Definition syscall_cs (star : Z) : Z := star / 2 ^ 32 mod 2 ^ 16.
Definition syscall_ss (star : Z) : Z := star / 2 ^ 32 mod 2 ^ 16 + 8.
Definition sysret_cs (star : Z) : Z := star / 2 ^ 48 mod 2 ^ 16 + 16 + 3.
Definition sysret_ss (star : Z) : Z := star / 2 ^ 48 mod 2 ^ 16 + 8 + 3.

(** C22. The GDT and the STAR register fit: after [init_gdt] and
    [syscall_init] the [syscall] instruction goes to the entry stub with
    ring 0 64-bit code and data segments and interrupts masked, and [sysret]
    returns with ring 3 64-bit code and data segments.  GS is set up to
    reach the saved stack pointers, and EFER only gains its SCE bit. *)
Theorem syscall_init_segments s syscall_entry cpu_state :
  0 <= syscall_entry < 2 ^ 64 -> 0 <= cpu_state < 2 ^ 64 -> 0 <= rdmsr s IA32_EFER < 2 ^ 64 ->
  exists s', (init_gdt gdt gdtr_at tss kernel_stack;; syscall_init syscall_entry cpu_state) s = Ret (tt, s') /\
    let star := rdmsr s' IA32_STAR in
    (exists d, segment s' (syscall_cs star) = Some d /\ code64 0 d) /\
    (exists d, segment s' (syscall_ss star) = Some d /\ data_rw 0 d) /\
    (exists d, segment s' (sysret_cs star) = Some d /\ code64 3 d) /\
    (exists d, segment s' (sysret_ss star) = Some d /\ data_rw 3 d) /\
    rdmsr s' IA32_LSTAR = syscall_entry /\ rdmsr s' IA32_KERNEL_GS_BASE = cpu_state /\
    rdmsr s' IA32_FMASK = 0x200 /\ rdmsr s' IA32_EFER = Z.lor (rdmsr s IA32_EFER) 1.
Proof using L.
  intros He Hc Hf. destruct (init_gdt_run s) as (s1 & E & R1 & _ & _ & _ & _ & R6 & R7).
  destruct (init_gdt_built s1 (cpu_ram s) R1 R7) as (_ & G1 & G2 & _ & G4 & G5).
  rewrite (bind_run _ _ _ _ _ E). unfold syscall_init. rewrite bind_gets, !bind_wrmsr, wrmsr_run.
  replace (rdmsr s1 IA32_EFER) with (rdmsr s IA32_EFER) by (unfold rdmsr; by rewrite R6). rewrite split_value.
  eexists. split; [reflexivity|]. cbv zeta.
  msr_read. change (Z.lor (u64 (Z.shiftl GDT_KERNEL_CODE 32)) (u64 (Z.shiftl GDT_USER_COMPAT_CODE 48)) mod 2 ^ 64) with 0x18000800000000.
  split_and!; try (eexists; split; [eassumption|by split_and!]).
  - by apply Z.mod_small.
  - by apply Z.mod_small.
  - reflexivity.
  - change EFER_SCE with 1. rewrite (Z.mod_small (rdmsr s _)) by done. rewrite <- Z.land_ones, Z.land_lor_distr_l, Z.land_ones by lia.
    by rewrite Z.mod_small.
Qed.
End Gdt.

(** ** Interrupt gates *)

Section Idt.
Context (idt idt_ptr : Z).

(** The four fields of gate [v] in [m]. *)
Definition gate_at (m : mem) (v : Z) : gate :=
  let a := idt + 16 * v in
  Gate (ld16 m a + 2 ^ 16 * ld16 m (a + 6) + 2 ^ 32 * ld32 m (a + 8)) (ld16 m (a + 2)) (ld8 m (a + 4)) (ld8 m (a + 5)).

Lemma gate_ext m m' v : agree m m' (idt + 16 * v) (idt + 16 * v + 16) -> gate_at m' v = gate_at m v.
Proof.
  intros H. unfold gate_at. rewrite (H (idt + 16 * v + 4)), (H (idt + 16 * v + 5)) by lia. unfold ld16, ld32.
  by rewrite (ldn_ext 2 m m' (idt + 16 * v)), (ldn_ext 2 m m' (idt + 16 * v + 6)), (ldn_ext 2 m m' (idt + 16 * v + 2)),
    (ldn_ext 4 m m' (idt + 16 * v + 8)) by (eapply agree_sub; [..|exact H]; lia).
Qed.

Lemma agree_put_gate n h m lo hi : hi <= idt + 16 * n \/ idt + 16 * n + 16 <= lo -> agree m (put_gate idt n h m) lo hi.
Proof. intros H. unfold put_gate. mem_agree. Qed.

(** Splitting an address over the three fields loses nothing. *)
Lemma gate_put n h m : 0 <= h < 2 ^ 64 -> gate_at (put_gate idt n h m) n = Gate h 8 0 0x8E.
Proof.
  intros Hh. unfold gate_at, put_gate. change 0xFFFFFFFF with (Z.ones 32). change 0xFFFF with (Z.ones 16).
  rewrite !land_mod, !Z.shiftr_div_pow2 by lia. mem_read.
  change (256 ^ Z.of_nat 2) with (2 ^ 16). change (256 ^ Z.of_nat 4) with (2 ^ 32). f_equal. word_lia.
Qed.

Lemma gate_put_ne n v h m : n <> v -> gate_at (put_gate idt n h m) v = gate_at m v.
Proof. intros H. apply gate_ext, agree_put_gate. lia. Qed.

Lemma gates_filled h m : 0 <= h < 2 ^ 64 ->
  let m' := for_up (Z.to_nat IDT_ENTRIES) 0 (fun i m => put_gate idt i h m) m in
  forall v, 0 <= v < 256 -> gate_at m' v = Gate h 8 0 0x8E.
Proof.
  intros Hh. cbv zeta. pose (Q := fun n m' => forall v, 0 <= v < n -> gate_at m' v = Gate h 8 0 0x8E).
  change (Q (0 + Z.of_nat (Z.to_nat IDT_ENTRIES)) (for_up (Z.to_nat IDT_ENTRIES) 0 (fun i m => put_gate idt i h m) m)).
  apply for_up_ind; subst Q; cbn beta; [lia|]. intros i b Hi IH v Hv. destruct (Z.eq_dec i v) as [->|]; [by apply gate_put|].
  rewrite gate_put_ne by done. apply IH. lia.
Qed.

Lemma agree_gates h n lo hi m : hi <= idt \/ idt + 16 * Z.of_nat n <= lo ->
  agree m (for_up n 0 (fun i m => put_gate idt i h m) m) lo hi.
Proof.
  intros Hd. pose (Q := fun k m' => k <= Z.of_nat n -> agree m m' lo hi).
  assert (Q (0 + Z.of_nat n) (for_up n 0 (fun i m => put_gate idt i h m) m)) as HQ; [|apply HQ; lia].
  apply for_up_ind; subst Q; cbn beta; [intros _; apply agree_refl|].
  intros i b Hi IH Hle. eapply agree_trans; [apply IH; lia|]. apply agree_put_gate. lia.
Qed.

(** Everything [init_idt] does. *)
Lemma init_idt_run isr_default isr_page_fault s :
  0 <= idt -> idt + 4096 < 2 ^ 64 -> (idt + 4096 <= idt_ptr \/ idt_ptr + 10 <= idt) ->
  0 <= isr_default < 2 ^ 64 -> 0 <= isr_page_fault < 2 ^ 64 ->
  exists es m', init_idt idt idt_ptr isr_default isr_page_fault s =
      Ret (tt, Cpu (add_serial es (set_rflags (Z.lor (rflags (cmach s)) 0x200) (set_ram m' (cmach s)))) (gdtr s) (4095, idt) (tr s) (cs s) (data_selectors s) (msr s)) /\
    (forall v, 0 <= v < 256 -> gate_at m' v = Gate (if v =? 14 then isr_page_fault else isr_default) GDT_KERNEL_CODE 0 0x8E) /\
    forall x, ~ (idt <= x < idt + 4096) -> ~ (idt_ptr <= x < idt_ptr + 10) -> ld8 m' x = ld8 (cpu_ram s) x.
Proof.
  intros H0 H1 Hap Hd Hp. unfold init_idt, set_interrupt_handler. rewrite bind_output, !bind_on_table.
  set (m1 := for_up (Z.to_nat IDT_ENTRIES) 0 (fun i m => put_gate idt i isr_default m) (cpu_ram s)).
  assert (forall v, 0 <= v < 256 -> gate_at m1 v = Gate isr_default 8 0 0x8E) as Hm1 by (apply gates_filled; done).
  set (m4 := st64 (st16 (put_gate idt 14 isr_page_fault m1) idt_ptr 4095) (idt_ptr + 2) idt).
  assert (ld16 m4 idt_ptr = 4095) as H16. { unfold m4. mem_read. reflexivity. }
  assert (ld64 m4 (idt_ptr + 2) = idt) as H64. { unfold m4. rewrite ld64_st64_eq. apply u64_small. lia. }
  assert (forall v, 0 <= v < 256 -> gate_at m4 v = Gate (if v =? 14 then isr_page_fault else isr_default) 8 0 0x8E) as Hm4.
  { intros v Hv. unfold m4. rewrite (gate_ext (put_gate idt 14 isr_page_fault m1)).
    2:{ eapply agree_trans; [apply (agree_stn 2)|apply agree_st64]; lia. }
    destruct (Z.eqb_spec v 14) as [->|]; [by apply gate_put|]. rewrite gate_put_ne by done. by apply Hm1. }
  assert (forall x, ~ (idt <= x < idt + 4096) -> ~ (idt_ptr <= x < idt_ptr + 10) -> ld8 m4 x = ld8 (cpu_ram s) x) as Hf.
  { intros x Hx1 Hx2. assert (agree (cpu_ram s) m4 x (x + 1)) as Ha; [|apply Ha; lia]. unfold m4.
    eapply agree_trans; [|apply agree_st64; lia]. eapply agree_trans; [|apply (agree_stn 2); lia].
    eapply agree_trans; [|apply agree_put_gate; lia]. apply agree_gates. change (Z.of_nat (Z.to_nat IDT_ENTRIES)) with 256. lia. }
  match goal with |- context [with_table (fun m => st64 m (idt_ptr + 2) idt) ?x] => set (s4 := with_table (fun m => st64 m (idt_ptr + 2) idt) x) end.
  assert (s4 = Cpu (set_ram m4 (add_serial [line "[OS] [IDT] Start Initialize IDT."] (cmach s))) (gdtr s) (idtr s) (tr s) (cs s) (data_selectors s) (msr s)) as E4 by reflexivity.
  clearbody m4 s4. subst s4. unfold load_idt. rewrite bind_modify. cbn [cpu_ram cmach ram set_ram add_serial]. rewrite H16, H64.
  exists ([line "[OS] [IDT] Start Initialize IDT."] ++ [line "[OS] [IDT] Successfully Initialize IDT."]), m4. split; [|done].
  rewrite <- add_serial_app. reflexivity.
Qed.

(** C15. After [init_idt] every one of the 256 vectors has a present ring 0
    interrupt gate into the kernel's code segment: vector 14 to
    [isr_page_fault], all others to [isr_default], for any addresses of the
    two.  Interrupts are enabled. *)
Theorem init_idt_gates isr_default isr_page_fault s :
  0 <= idt -> idt + 4096 < 2 ^ 64 -> (idt + 4096 <= idt_ptr \/ idt_ptr + 10 <= idt) ->
  0 <= isr_default < 2 ^ 64 -> 0 <= isr_page_fault < 2 ^ 64 ->
  exists s', init_idt idt idt_ptr isr_default isr_page_fault s = Ret (tt, s') /\
    (forall v, 0 <= v < 256 ->
       read_gate s' v = Some (Gate (if v =? 14 then isr_page_fault else isr_default) GDT_KERNEL_CODE 0 0x8E)) /\
    (forall v, 256 <= v -> read_gate s' v = None) /\ Z.testbit (rflags (cmach s')) 9 = true.
Proof.
  intros H0 H1 Hap Hd Hp. destruct (init_idt_run isr_default isr_page_fault s H0 H1 Hap Hd Hp) as (es & m & E & Hg & _).
  eexists. split; [exact E|]. split_and!.
  - intros v Hv. unfold read_gate. cbn [idtr fst snd]. destruct (Z.leb_spec (16 * v + 15) 4095); [|lia]. by rewrite <- Hg.
  - intros v Hv. unfold read_gate. cbn [idtr fst snd]. by destruct (Z.leb_spec (16 * v + 15) 4095); [lia|].
  - change (Z.testbit (Z.lor (rflags (cmach s)) 0x200) 9 = true). rewrite Z.lor_spec. apply orb_true_r.
Qed.
End Idt.

(** ** Witnesses *)

Definition cpu0 : cpu := Cpu (MState ∅ 2 [] 0 0 (HeapVars 0 0 0 0 0 0) (PageVars ∅ 0)) (0, 0) (0, 0) 0 0 [] {[IA32_EFER := 0x500]}.

Lemma sample_gdt_layout : gdt_layout 0x120000 0x120800 0x121000 0x122000.
Proof. split; lia. Qed.

Lemma init_gdt_segments_witness : exists s', init_gdt 0x120000 0x120800 0x121000 0x122000 cpu0 = Ret (tt, s') /\
  system_base s' (tr s') = 0x121000.
Proof.
  destruct (init_gdt_segments 0x120000 0x120800 0x121000 0x122000 sample_gdt_layout cpu0) as (s' & E & _ & _ & _ & Hb & _).
  exists s'. split; assumption.
Defined.

Lemma syscall_init_segments_witness : exists s' d,
  (init_gdt 0x120000 0x120800 0x121000 0x122000;; syscall_init 0x104000 0x123000) cpu0 = Ret (tt, s') /\
  segment s' (sysret_cs (rdmsr s' IA32_STAR)) = Some d /\ code64 3 d.
Proof.
  destruct (syscall_init_segments 0x120000 0x120800 0x121000 0x122000 sample_gdt_layout cpu0 0x104000 0x123000
    ltac:(lia) ltac:(lia) ltac:(vm_compute; split; congruence)) as (s' & E & _ & _ & (d & Hd & H3) & _).
  exists s', d. split_and!; assumption.
Defined.

Lemma init_idt_gates_witness : exists s', init_idt 0x124000 0x125000 0x105000 0x105040 cpu0 = Ret (tt, s') /\
  read_gate s' 14 = Some (Gate 0x105040 8 0 0x8E) /\ read_gate s' 3 = Some (Gate 0x105000 8 0 0x8E).
Proof.
  destruct (init_idt_gates 0x124000 0x125000 0x105000 0x105040 cpu0 ltac:(lia) ltac:(lia) ltac:(lia) ltac:(lia) ltac:(lia))
    as (s' & E & Hg & _ & _).
  exists s'. split; [exact E|]. split; [apply (Hg 14)|apply (Hg 3)]; lia.
Defined.
