(* ===== verification/Interrupt.v ===== *)
(** * Interrupts (Kernel/IDT/IDT.asm)

    The two stubs, on the processor they run on: [core] adds the
    general-purpose registers, the instruction and stack pointers and CR2 to
    the tables and system registers of Cpu.v.  [deliver] is what the processor
    does with an interrupt, [iretq] the return, both for 64-bit mode as the
    processor manual has them.  A fault while delivering or returning is not
    followed further; it is the outcome [Hang], like a halted processor. *)
From S2P Require Import Prelude Machine Serial Memory Disk Cpu.

(** The general-purpose registers are in the order the stubs push them: rax,
    rbx, rcx, rdx, rsi, rdi, rbp, r8 to r15. *)
Record core (B : Type) := Core { ccpu : cpu; cbus : B; gpr : list Z; rip : Z; rsp : Z; cr2 : Z }.
Arguments Core {B} _ _ _ _ _ _.
Arguments ccpu {B} _.
Arguments cbus {B} _.
Arguments gpr {B} _.
Arguments rip {B} _.
Arguments rsp {B} _.
Arguments cr2 {B} _.

(** Register or word [i] of a list. *)
Definition nth_reg (l : list Z) (i : nat) : Z := default 0 (l !! i).

Section Core.
Context {B : Type} `{Ports B}.

Definition core_ram (s : core B) : mem := cpu_ram (ccpu s).
Definition set_rsp (v : Z) (s : core B) : core B := Core (ccpu s) (cbus s) (gpr s) (rip s) v (cr2 s).
Definition set_gpr (l : list Z) (s : core B) : core B := Core (ccpu s) (cbus s) l (rip s) (rsp s) (cr2 s).
Definition on_ccpu {A} (c : M cpu A) : M (core B) A :=
  zoom ccpu (fun c s => Core c (cbus s) (gpr s) (rip s) (rsp s) (cr2 s)) c.
Definition put_cmach (m : mstate) (c : cpu) : cpu := Cpu m (gdtr c) (idtr c) (tr c) (cs c) (data_selectors c) (msr c).
Definition on_core_dev {A} (c : M (dstate B) A) : M (core B) A :=
  zoom (fun s => DState (cmach (ccpu s)) (cbus s))
    (fun d s => Core (put_cmach (mach d) (ccpu s)) (bus d) (gpr s) (rip s) (rsp s) (cr2 s)) c.

(** The stack segment's selector is the last of the five. *)
Definition ss (c : cpu) : Z := default 0 (data_selectors c !! 4%nat).

Definition push (v : Z) : M (core B) unit :=
  modify (fun s => set_rsp (u64 (rsp s - 8)) s);;
  a ← gets rsp;
  on_ccpu (on_table (fun m => st64 m a v)).
Definition pop : M (core B) Z :=
  v ← gets (fun s => ld64 (core_ram s) (rsp s));
  modify (fun s => set_rsp (u64 (rsp s + 8)) s);;
  mret v.
Fixpoint push_all (l : list Z) : M (core B) unit :=
  match l with [] => mret tt | v :: l => push v;; push_all l end.
(** The values in the order they are popped. *)
Fixpoint pop_all (n : nat) : M (core B) (list Z) :=
  match n with O => mret [] | S n => v ← pop; l ← pop_all n; mret (v :: l) end.

(** ** The processor *)

(** TF, IF, NT, RF and VM are cleared on the way in through an interrupt
    gate. *)
Definition FLAGS_CLEARED : Z := 0x34300.

(** The stack for a handler in [ring]: the gate's, the task's, or the current
    one. *)
Definition handler_stack (s : core B) (g : gate) (ring : Z) : Z :=
  let task := system_base (ccpu s) (tr (ccpu s)) in
  if negb (g_ist g =? 0) then ld64 (core_ram s) (task + 36 + 8 * (g_ist g - 1))
  else if ring <? cs (ccpu s) mod 4 then ld64 (core_ram s) (task + 4 + 8 * ring)
  else rsp s.

(** Through a present interrupt gate to code in the same or an inner ring. *)
Definition enter_handler (g : gate) (ring : Z) (error : option Z) : M (core B) unit :=
  s ← gets id;
  let c := ccpu s in
  modify (set_rsp (Z.land (handler_stack s g ring) (u64 (Z.lnot 0xF))));;
  push_all ([ss c; rsp s; rflags (cmach c); cs c; rip s] ++ match error with Some e => [e] | None => [] end);;
  modify (fun s =>
    Core (Cpu (set_rflags (Z.ldiff (rflags (cmach c)) FLAGS_CLEARED) (cmach (ccpu s))) (gdtr c) (idtr c) (tr c)
           (g_selector g - g_selector g mod 4 + ring)
           (if ring <? cs c mod 4 then <[4%nat := ring]> (data_selectors c) else data_selectors c) (msr c))
      (cbus s) (gpr s) (g_offset g) (rsp s) (cr2 s)).

(** Vector [v], with the exception's error code if it has one. *)
Definition deliver (v : Z) (error : option Z) : M (core B) unit :=
  c ← gets ccpu;
  match read_gate c v with
  | Some g =>
      match segment c (g_selector g) with
      | Some d =>
          if Z.testbit (g_type g) 7 && (g_type g mod 16 =? 0xE) && present d && is_code d && (dpl d <=? cs c mod 4)
          then enter_handler g (dpl d) error else liftO Hang
      | None => liftO Hang
      end
  | None => liftO Hang
  end.

(** On the way to an outer ring a data selector for inner rings becomes 0. *)
Definition outer_selector (c : cpu) (ring sel : Z) : Z :=
  match segment c sel with Some d => if dpl d <? ring then 0 else sel | None => sel end.

Definition iretq : M (core B) unit :=
  l ← pop_all 5;
  s ← gets id;
  let c := ccpu s in
  let new_cs := u16 (nth_reg l 1) in
  match segment c new_cs with
  | Some d =>
      if present d && is_code d then
        let ring := new_cs mod 4 in
        let data := if cs c mod 4 <? ring then outer_selector c ring <$> data_selectors c else data_selectors c in
        modify (fun s => Core (Cpu (set_rflags (nth_reg l 2) (cmach c)) (gdtr c) (idtr c) (tr c) new_cs (<[4%nat := u16 (nth_reg l 4)]> data) (msr c))
          (cbus s) (gpr s) (nth_reg l 0) (nth_reg l 3) (cr2 s))
      else liftO Hang
  | None => liftO Hang
  end.

(** ** The stubs *)

Definition push_registers : M (core B) unit := l ← gets gpr; push_all l.
Definition pop_registers : M (core B) unit := l ← pop_all 15; modify (set_gpr (rev l)).

Definition isr_default_stub : M (core B) unit :=
  push_registers;;
  modify (fun s => set_gpr (<[0%nat := Z.lor (Z.ldiff (nth_reg (gpr s) 0) 0xFF) 0x20]> (gpr s)) s);;
  al ← gets (fun s => u8 (nth_reg (gpr s) 0));
  on_core_dev (outb 0x20 al);;
  pop_registers;;
  iretq.

(** [call] and [ret]; a routine that returns elsewhere is not followed. *)
Definition call_routine (after_call : Z) (routine : M (core B) unit) : M (core B) unit :=
  push after_call;;
  routine;;
  a ← pop;
  if a =? after_call then mret tt else liftO Hang.

(** [handler error_code rip rsp cr2] is [page_fault_handler]; [after_call] is
    the address of the instruction after the call. *)
Definition isr_page_fault_stub (after_call : Z) (handler : Z -> Z -> Z -> Z -> M mstate unit) : M (core B) unit :=
  modify (fun s => set_gpr (<[1%nat := rsp s]> (gpr s)) s);;
  push_registers;;
  m ← gets core_ram;
  modify (fun s => set_gpr (<[5%nat := ld64 m (nth_reg (gpr s) 1)]> (gpr s)) s);;
  modify (fun s => set_gpr (<[4%nat := ld64 m (nth_reg (gpr s) 1 + 8)]> (gpr s)) s);;
  modify (fun s => set_gpr (<[3%nat := ld64 m (nth_reg (gpr s) 1 + 32)]> (gpr s)) s);;
  modify (fun s => set_gpr (<[0%nat := cr2 s]> (gpr s)) s);;
  modify (fun s => set_gpr (<[2%nat := nth_reg (gpr s) 0]> (gpr s)) s);;
  modify (fun s => set_rsp (u64 (rsp s - 8)) s);;
  l ← gets gpr;
  call_routine after_call (on_ccpu (on_cmach (handler (nth_reg l 5) (nth_reg l 4) (nth_reg l 3) (nth_reg l 2))));;
  modify (fun s => set_rsp (u64 (rsp s + 8)) s);;
  pop_registers;;
  iretq.

(** An interrupt, with the stubs at these addresses. *)
Definition interrupt (isr_default isr_page_fault after_call v : Z) (error : option Z) : M (core B) unit :=
  deliver v error;;
  a ← gets rip;
  if a =? isr_default then isr_default_stub
  else if a =? isr_page_fault then isr_page_fault_stub after_call page_fault_handler
  else liftO Hang.
End Core.
