(* ===== verification/InterruptTheorems.v ===== *)
(** * The properties of interrupts

    An interrupt is transparent: the interrupted code goes on as if nothing
    had happened.  That does not hold for exceptions with an error code,
    which [isr_default] takes for the return address; page faults have a stub
    of their own, which hands the right values to its handler. *)
From S2P Require Import Prelude Machine Utils Serial Memory Disk Cpu CpuTheorems Interrupt.

(** ** Values on the stack *)

Fixpoint pushed (l : list Z) (sp : Z) (m : mem) : mem :=
  match l with [] => m | v :: l => pushed l (sp - 8) (st64 m (sp - 8) v) end.
Definition words (m : mem) (a : Z) (n : nat) : list Z := (fun i => ld64 m (a + 8 * i)) <$> seqZ 0 (Z.of_nat n).

Lemma pushed_snoc l v sp m : pushed (l ++ [v]) sp m = let a := sp - 8 * Z.of_nat (length l) - 8 in st64 (pushed l sp m) a v.
Proof.
  revert sp m; induction l as [|w l IH]; intros sp m; cbn [app pushed length]; [f_equal; lia|].
  rewrite IH. cbv zeta. f_equal. lia.
Qed.

Lemma agree_pushed l sp m lo hi : hi <= sp - 8 * Z.of_nat (length l) \/ sp <= lo -> agree m (pushed l sp m) lo hi.
Proof.
  revert sp m; induction l as [|w l IH]; intros sp m H; cbn [pushed length] in *; [apply agree_refl|].
  eapply agree_trans; [apply (agree_stn 8)|apply IH]; lia.
Qed.

Lemma words_S m a n : words m a (S n) = ld64 m a :: words m (a + 8) n.
Proof.
  unfold words. rewrite seqZ_cons, fmap_cons by lia. f_equal; [f_equal; lia|].
  replace (Z.pred (Z.of_nat (S n))) with (Z.of_nat n) by lia. rewrite <- (fmap_add_seqZ 1 0), <- list_fmap_compose.
  apply list_fmap_ext. intros i x _. cbn. f_equal. lia.
Qed.

Lemma words_app m a n1 n2 : words m a (n1 + n2) = words m a n1 ++ words m (a + 8 * Z.of_nat n1) n2.
Proof.
  revert a; induction n1 as [|n1 IH]; intros a; cbn [Nat.add]; [by rewrite Z.mul_0_r, Z.add_0_r|].
  rewrite !words_S, IH. cbn [app]. do 3 f_equal. lia.
Qed.

Lemma length_words m a n : length (words m a n) = n.
Proof. unfold words. by rewrite length_fmap, length_seqZ, Nat2Z.id. Qed.

Lemma words_ext m m' a n : agree m m' a (a + 8 * Z.of_nat n) -> words m' a n = words m a n.
Proof.
  revert a; induction n as [|n IH]; intros a H; [done|]. rewrite !words_S, IH, (ld64_ext m m') by (eapply agree_sub; [..|exact H]; lia). done.
Qed.

Definition word64 (v : Z) : Prop := 0 <= v < 18446744073709551616.

Lemma words_pushed l sp m : Forall word64 l -> words (pushed l sp m) (sp - 8 * Z.of_nat (length l)) (length l) = rev l.
Proof.
  induction l as [|v l IH] using rev_ind; intros Hl; [done|]. apply Forall_app in Hl as [Hl [Hv _]%Forall_cons].
  rewrite length_app, Nat.add_comm, pushed_snoc, rev_app_distr. cbn [length Nat.add app rev]. cbv zeta.
  replace (sp - 8 * Z.of_nat (S (length l))) with (sp - 8 * Z.of_nat (length l) - 8) by lia. rewrite words_S, ld64_st64_eq, u64_small by done.
  f_equal. rewrite <- IH by done. replace (_ - 8 + 8) with (sp - 8 * Z.of_nat (length l)) by lia. apply words_ext, (agree_stn 8). lia.
Qed.

Section Core.
Context {B : Type} `{Ports B}.
Implicit Types s : core B.

Definition with_stack (m : mem) (sp : Z) s : core B :=
  Core (with_table (fun _ => m) (ccpu s)) (cbus s) (gpr s) (rip s) sp (cr2 s).

Lemma push_run v s : 8 <= rsp s < 18446744073709551616 ->
  push v s = Ret (tt, with_stack (st64 (core_ram s) (rsp s - 8) v) (rsp s - 8) s).
Proof using Type. intros Hs. unfold push. rewrite bind_modify, bind_gets. cbn [rsp set_rsp]. by rewrite u64_small by lia. Qed.

Lemma push_all_run l : forall s, 8 * Z.of_nat (length l) <= rsp s < 18446744073709551616 ->
  exists s', push_all l s = Ret (tt, s') /\ s' = with_stack (pushed l (rsp s) (core_ram s)) (rsp s - 8 * Z.of_nat (length l)) s.
Proof using Type.
  induction l as [|v l IH]; intros s Hs; cbn [push_all pushed length] in *.
  { eexists. split; [reflexivity|]. rewrite Z.sub_0_r. destruct s as [[[] ? ? ? ? ? ?] ? ? ? ? ?]. reflexivity. }
  rewrite (bind_run _ _ _ _ _ (push_run v s ltac:(lia))).
  destruct (IH (with_stack (st64 (core_ram s) (rsp s - 8) v) (rsp s - 8) s) ltac:(cbn [rsp with_stack]; lia)) as (s' & E & ->).
  eexists. split; [exact E|]. unfold with_stack, with_table, core_ram, cpu_ram. cbn [ccpu cbus gpr rip rsp cr2 cmach gdtr idtr tr cs data_selectors msr].
  f_equal. lia.
Qed.

Lemma pop_all_run n : forall s, 0 <= rsp s -> rsp s + 8 * Z.of_nat n < 18446744073709551616 ->
  pop_all n s = Ret (words (core_ram s) (rsp s) n, set_rsp (rsp s + 8 * Z.of_nat n) s).
Proof using Type.
  induction n as [|n IH]; intros s H0 Hs; cbn [pop_all].
  { rewrite Z.add_0_r. by destruct s. }
  unfold pop at 1. rewrite (bind_run _ _ s (ld64 (core_ram s) (rsp s)) (set_rsp (rsp s + 8) s)).
  2:{ rewrite bind_gets, bind_modify. by rewrite u64_small by lia. }
  rewrite (bind_run _ _ _ _ _ (IH (set_rsp (rsp s + 8) s) ltac:(cbn; lia) ltac:(cbn [rsp set_rsp]; lia))).
  rewrite words_S. replace (rsp s + 8 * Z.of_nat (S n)) with (rsp s + 8 + 8 * Z.of_nat n) by lia. reflexivity.
Qed.

(** ** The processor's part *)

Definition frame s (error : option Z) : list Z :=
  [ss (ccpu s); rsp s; rflags (cmach (ccpu s)); cs (ccpu s); rip s] ++ match error with Some e => [e] | None => [] end.
(** Where the frame begins, for a ring 0 handler with this stack in the TSS. *)
Definition frame_top (stack : Z) s : Z := let t := if 0 <? cs (ccpu s) mod 4 then stack else rsp s in t - t mod 16.
Definition entered (offset : Z) (stack : Z) (error : option Z) s : core B :=
  let c := ccpu s in let l := frame s error in let top := frame_top stack s in
  Core (Cpu (set_rflags (Z.ldiff (rflags (cmach c)) FLAGS_CLEARED) (set_ram (pushed l top (core_ram s)) (cmach c))) (gdtr c) (idtr c) (tr c) GDT_KERNEL_CODE
         (if 0 <? cs c mod 4 then <[4%nat := 0]> (data_selectors c) else data_selectors c) (msr c))
    (cbus s) (gpr s) offset (top - 8 * Z.of_nat (length l)) (cr2 s).

(** The tables of [init_gdt] and [init_idt]. *)
Record tables_ready (gdt stack isr_default isr_page_fault : Z) (c : cpu) : Prop := {
  tb_gdt : gdt_built gdt c;
  tb_stack : ld64 (cpu_ram c) (system_base c (tr c) + 4) = stack;
  tb_idt v : 0 <= v < 256 -> read_gate c v = Some (Gate (if v =? 14 then isr_page_fault else isr_default) GDT_KERNEL_CODE 0 0x8E)
}.

Context (gdt stack isr_default isr_page_fault after_call : Z).

Lemma deliver_run s v error : tables_ready gdt stack isr_default isr_page_fault (ccpu s) -> 0 <= v < 256 ->
  word64 (rsp s) -> word64 stack -> 8 * Z.of_nat (length (frame s error)) <= frame_top stack s ->
  deliver v error s = Ret (tt, entered (if v =? 14 then isr_page_fault else isr_default) stack error s).
Proof using Type.
  intros [(_ & G1 & _) Hs Hg] Hv Hr Hst Htop. unfold deliver. rewrite bind_gets, (Hg v Hv). cbn [g_selector g_type]. rewrite G1.
  change (Z.testbit 0x8E 7 && (0x8E mod 16 =? 0xE) && present _ && is_code _ && _) with (0 <=? cs (ccpu s) mod 4).
  destruct (Z.leb_spec 0 (cs (ccpu s) mod 4)); [|word_lia]. change (dpl _) with 0.
  unfold enter_handler. rewrite bind_gets. cbn [id]. unfold handler_stack. cbn [g_ist Z.eqb negb]. cbv zeta.
  rewrite Z.mul_0_r, !Z.add_0_r. change (core_ram s) with (cpu_ram (ccpu s)). rewrite Hs, bind_modify.
  change (Z.lnot 0xF) with (Z.lnot (Z.ones 4)).
  rewrite land_u64_lnot_ones by (first [lia|destruct (_ <? _); assumption]). change (2 ^ 4) with 16. fold (frame_top stack s).
  assert (frame_top stack s < 18446744073709551616) as Hlt.
  { unfold frame_top. unfold word64 in *. destruct (0 <? _); word_lia. }
  destruct (push_all_run (frame s error) (set_rsp (frame_top stack s) s)) as (s1 & E & ->); [cbn [rsp set_rsp]; lia|].
  rewrite (bind_run _ _ _ _ _ E). unfold modify, entered. cbn [g_selector g_offset]. reflexivity.
Qed.

(** [iretq] takes five words. *)
Definition returned (l : list Z) s : core B :=
  let c := ccpu s in let new_cs := u16 (nth_reg l 1) in
  let data := if cs c mod 4 <? new_cs mod 4 then outer_selector c (new_cs mod 4) <$> data_selectors c else data_selectors c in
  Core (Cpu (set_rflags (nth_reg l 2) (cmach c)) (gdtr c) (idtr c) (tr c) new_cs (<[4%nat := u16 (nth_reg l 4)]> data) (msr c))
    (cbus s) (gpr s) (nth_reg l 0) (nth_reg l 3) (cr2 s).

Lemma iretq_run s : 0 <= rsp s -> rsp s + 40 < 18446744073709551616 -> let l := words (core_ram s) (rsp s) 5 in
  iretq s = match segment (ccpu s) (u16 (nth_reg l 1)) with
            | Some d => if present d && is_code d then Ret (tt, returned l s) else Hang
            | None => Hang
            end.
Proof using Type.
  intros H0 H1 l. unfold iretq. rewrite (bind_run _ _ _ _ _ (pop_all_run 5 s H0 ltac:(lia))). fold l. rewrite bind_gets. cbn [id ccpu set_rsp].
  destruct (segment _ _) as [d|]; [|done]. by destruct (_ && _).
Qed.

(** ** The stub *)

Lemma default_stub_run s : length (gpr s) = 15%nat -> Forall word64 (gpr s) -> 120 <= rsp s < 18446744073709551616 ->
  isr_default_stub s = iretq (Core (with_table (fun _ => pushed (gpr s) (rsp s) (core_ram s)) (ccpu s)) (bus_out8 0x20 0x20 (cbus s))
                                (gpr s) (rip s) (rsp s) (cr2 s)).
Proof using Type.
  intros Hlen Hw Hr. unfold isr_default_stub, push_registers.
  destruct (push_all_run (gpr s) s ltac:(rewrite Hlen; lia)) as (s1 & E & ->). rewrite (bind_run _ _ s tt _ (eq_trans (bind_gets _ _ _) E)).
  rewrite bind_modify, bind_gets. cbn [gpr set_gpr with_stack].
  assert (u8 (nth_reg (<[0%nat:=Z.lor (Z.ldiff (nth_reg (gpr s) 0) 0xFF) 0x20]> (gpr s)) 0) = 0x20) as ->.
  { unfold nth_reg at 1. rewrite list_lookup_insert_eq by (rewrite Hlen; lia). cbn [default from_option id]. unfold u8. change 256 with (2 ^ 8).
    rewrite <- Z.land_ones, Z.land_lor_distr_l, Z.ldiff_land, <- Z.land_assoc, (Z.land_comm (Z.lnot _)) by lia. change 0xFF with (Z.ones 8).
    by rewrite Z.land_lnot_diag, Z.land_0_r. }
  rewrite (bind_run _ _ _ tt (Core (with_table (fun _ => pushed (gpr s) (rsp s) (core_ram s)) (ccpu s)) (bus_out8 0x20 0x20 (cbus s))
     (<[0%nat:=Z.lor (Z.ldiff (nth_reg (gpr s) 0) 0xFF) 0x20]> (gpr s)) (rip s) (rsp s - 120) (cr2 s))).
  2:{ unfold on_core_dev, zoom, outb, modify. cbn. rewrite Hlen. reflexivity. }
  unfold pop_registers. set (s2 := Core _ _ _ _ (rsp s - 120) _).
  rewrite (bind_run _ _ s2 tt (set_gpr (gpr s) (set_rsp (rsp s) s2))); [reflexivity|].
  rewrite (bind_run _ _ _ _ _ (pop_all_run 15 s2 ltac:(cbn; lia) ltac:(cbn [rsp s2]; lia))). unfold modify.
  assert (words (core_ram s2) (rsp s2) 15 = rev (gpr s)) as ->.
  { rewrite <- (words_pushed (gpr s) (rsp s) (core_ram s) Hw), Hlen. reflexivity. }
  rewrite rev_involutive. unfold set_gpr, set_rsp. cbn [ccpu cbus gpr rip rsp cr2 s2]. do 3 f_equal. lia.
Qed.

(** ** Interrupts and exceptions *)

Lemma nth_reg_ne i j x (l : list Z) : i <> j -> nth_reg (<[i := x]> l) j = nth_reg l j.
Proof using Type. intros Hi. unfold nth_reg. by rewrite list_lookup_insert_ne. Qed.
Lemma nth_reg_eq i x (l : list Z) : (i < length l)%nat -> nth_reg (<[i := x]> l) i = x.
Proof using Type. intros Hi. unfold nth_reg. by rewrite list_lookup_insert_eq. Qed.

Lemma gdt_built_ext c c' : gdt_built gdt c -> gdtr c' = gdtr c -> agree (cpu_ram c) (cpu_ram c') gdt (gdt + 64) -> gdt_built gdt c'.
Proof using Type.
  intros (Hg & G) Hr Ha. split; [by rewrite Hr|].
  assert (forall sel, 8 * (sel / 8) + 8 <= 64 -> 0 <= 8 * (sel / 8) -> segment c' sel = segment c sel) as E.
  { intros sel H1 H2. unfold segment. rewrite Hr, Hg. cbn [fst snd]. destruct (_ <=? _); [|done]. f_equal.
    apply read_descriptor_ext. eapply agree_sub; [..|exact Ha]; lia. }
  rewrite !E by (vm_compute; congruence). exact G.
Qed.

(** Kernel code, or a user program with the selectors of [entry_user_mode]. *)
Record interruptible s : Prop := {
  in_gpr : length (gpr s) = 15%nat /\ Forall word64 (gpr s);
  in_words : word64 (rip s) /\ word64 (rsp s) /\ word64 (rflags (cmach (ccpu s)));
  in_data : length (data_selectors (ccpu s)) = 5%nat /\ 0 <= ss (ccpu s) < 65536;
  in_ring : cs (ccpu s) = GDT_KERNEL_CODE \/
    (cs (ccpu s) = Z.lor GDT_USER_CODE 3 /\ data_selectors (ccpu s) = replicate 5 (Z.lor GDT_USER_DATA 3))
}.

Lemma frame_words s error : interruptible s -> match error with Some e => word64 e | None => True end -> Forall word64 (frame s error).
Proof using Type.
  intros [_ (W1 & W2 & W3) [_ W4] Hring] He. unfold frame.
  assert (word64 (cs (ccpu s))) as Hcs by (destruct Hring as [->|[-> _]]; by vm_compute).
  apply Forall_app. split; [|destruct error as [e|]; [by apply Forall_singleton|by apply Forall_nil]].
  repeat (apply Forall_cons; split; [first [assumption|unfold word64 in *; lia]|]). constructor.
Qed.

(** Delivery and stub together, up to the [iretq]: the frame is on the stack
    and the registers are the interrupted ones. *)
Definition before_return (error : option Z) s s' : Prop :=
  let c := ccpu s in let top := frame_top stack s in let l := frame s error in
  exists m, s' = Core (Cpu (set_rflags (Z.ldiff (rflags (cmach c)) FLAGS_CLEARED) (set_ram m (cmach c))) (gdtr c) (idtr c) (tr c) GDT_KERNEL_CODE
      (if 0 <? cs c mod 4 then <[4%nat := 0]> (data_selectors c) else data_selectors c) (msr c))
    (bus_out8 0x20 0x20 (cbus s)) (gpr s) isr_default (top - 8 * Z.of_nat (length l)) (cr2 s) /\
    words m (top - 8 * Z.of_nat (length l)) (length l) = rev l /\
    (forall x, ~ (top - 168 <= x < top) -> ld8 m x = ld8 (core_ram s) x) /\ gdt_built gdt (ccpu s').

Lemma default_interrupt_run s v error : tables_ready gdt stack isr_default isr_page_fault (ccpu s) -> interruptible s ->
  match error with Some e => word64 e | None => True end -> 0 <= v < 256 -> v <> 14 -> word64 stack ->
  let top := frame_top stack s in 168 <= top -> gdt + 64 <= top - 168 \/ top <= gdt ->
  exists s', before_return error s s' /\ interrupt isr_default isr_page_fault after_call v error s = iretq s'.
Proof using Type.
  intros T I He Hv Hne Hst top Htop Hgap. pose proof (frame_words s error I He) as Hw. pose proof I as [[Hlen Hg] (_ & Hr & _) _ _].
  assert (length (frame s error) = match error with Some _ => 6 | None => 5 end)%nat as Hl by (by destruct error).
  assert (top < 18446744073709551616) as Hlt.
  { unfold top, frame_top, word64 in *. destruct (0 <? _); word_lia. }
  unfold interrupt. rewrite (bind_run _ _ _ _ _ (deliver_run s v error T Hv Hr Hst ltac:(fold top; rewrite Hl; destruct error; lia))).
  rewrite (proj2 (Z.eqb_neq v 14) Hne), bind_gets. cbn [rip entered]. rewrite Z.eqb_refl. set (s1 := entered _ _ _ _).
  rewrite (default_stub_run s1) by (first [exact Hlen|exact Hg|unfold s1; cbn [rsp entered]; fold top; rewrite Hl; destruct error; lia]).
  set (m1 := pushed (frame s error) top (core_ram s)). set (sp := top - 8 * Z.of_nat (length (frame s error))).
  set (m2 := pushed (gpr s) sp m1).
  assert (forall x, ~ (top - 168 <= x < top) -> ld8 m2 x = ld8 (core_ram s) x) as Hf.
  { intros x Hx. assert (agree (core_ram s) m2 x (x + 1)) as Ha; [|apply Ha; lia].
    unfold m2, m1. eapply agree_trans; apply agree_pushed; unfold sp; rewrite ?Hlen, Hl; destruct error; lia. }
  eexists. split; [|reflexivity]. exists m2. split; [reflexivity|]. split_and!; [|exact Hf|].
  - change (words m2 sp (length (frame s error)) = rev (frame s error)).
    rewrite <- (words_pushed (frame s error) top (core_ram s) Hw). fold m1. apply words_ext, agree_pushed. lia.
  - apply (gdt_built_ext (ccpu s)); [exact (tb_gdt _ _ _ _ _ T)|reflexivity|]. intros x Hx. apply Hf. lia.
Qed.

(** C16. An interrupt without an error code, on any vector but 14, is
    transparent to kernel code and to user programs: the interrupted code
    goes on with all its registers, flags and selectors, and memory has
    changed only in the 168 bytes below the top of the handler's stack.  The
    one access to a device is the end of interrupt to the first interrupt
    controller; the second one never gets any. *)
Theorem interrupt_transparent s v : tables_ready gdt stack isr_default isr_page_fault (ccpu s) -> interruptible s ->
  0 <= v < 256 -> v <> 14 -> word64 stack ->
  let top := frame_top stack s in 168 <= top -> gdt + 64 <= top - 168 \/ top <= gdt ->
  exists m, interrupt isr_default isr_page_fault after_call v None s =
      Ret (tt, Core (with_table (fun _ => m) (ccpu s)) (bus_out8 0x20 0x20 (cbus s)) (gpr s) (rip s) (rsp s) (cr2 s)) /\
    forall x, ~ (top - 168 <= x < top) -> ld8 m x = ld8 (core_ram s) x.
Proof using Type.
  intros T I Hv Hne Hst top Htop Hgap.
  destruct (default_interrupt_run s v None T I Logic.I Hv Hne Hst Htop Hgap) as (s' & (m & -> & Hw & Hf & Hg) & ->).
  cbn [frame app length] in *. change (8 * Z.of_nat 5) with 40 in *. exists m. split; [|exact Hf].
  assert (top < 18446744073709551616) as Hlt.
  { destruct I as [_ (_ & Hr & _) _ _]. unfold top, frame_top, word64 in *. destruct (0 <? _); word_lia. }
  rewrite iretq_run by (cbn [rsp]; lia). cbn [rsp]. change (core_ram _) with m. rewrite Hw. cbn [frame app rev nth_reg lookup list_lookup default from_option id].
  destruct Hg as (_ & G1 & _ & _ & G4 & G5). destruct I as [_ _ [Hd Hss] Hring].
  destruct s as [[cm gd it t c ds ms] b g ip sp c2]. cbn [ccpu cs data_selectors cbus gpr rip rsp cr2] in *.
  destruct Hring as [->|[-> ->]].
  - change (u16 GDT_KERNEL_CODE) with GDT_KERNEL_CODE. rewrite G1. destruct cm. unfold returned, with_table. cbn. do 4 f_equal.
    rewrite u16_small by exact Hss. apply list_insert_id. unfold ss. cbn [data_selectors].
    destruct (ds !! 4%nat) eqn:E; [done|]. apply lookup_ge_None in E. lia.
  - change (u16 (Z.lor GDT_USER_CODE 3)) with 0x2B. change (segment ?c 0x2B) with (segment c GDT_USER_CODE). rewrite G5. destruct cm.
    unfold returned, with_table. cbn. do 4 f_equal. unfold outer_selector.
    match goal with |- context [segment ?c] => set (c' := c) end. assert (segment c' 0x23 = Some (Descriptor 0 0xFFFFF 0xF2 0x8)) as E by exact G4.
    change (GDT_KERNEL_CODE mod 4 <? _) with true. change (0 <? Z.lor GDT_USER_CODE 3 mod 4) with true. change (Z.lor GDT_USER_DATA 3) with 0x23.
    clearbody c'. cbn [fmap list_fmap]. rewrite E. reflexivity.
Qed.

(** An exception with an error code on a vector but 14 (a general
    protection fault, say) never comes back to the interrupted instruction:
    [isr_default] leaves the error code on the stack, so [iretq] faults in
    its turn, or continues at the error code as an address. *)
Theorem error_code_is_return_address s v e : tables_ready gdt stack isr_default isr_page_fault (ccpu s) -> interruptible s ->
  word64 e -> 0 <= v < 256 -> v <> 14 -> word64 stack ->
  let top := frame_top stack s in 168 <= top -> gdt + 64 <= top - 168 \/ top <= gdt ->
  interrupt isr_default isr_page_fault after_call v (Some e) s = Hang \/
  exists s', interrupt isr_default isr_page_fault after_call v (Some e) s = Ret (tt, s') /\ rip s' = e /\ cs (ccpu s') = rip s mod 65536.
Proof using Type.
  intros T I He Hv Hne Hst top Htop Hgap.
  destruct (default_interrupt_run s v (Some e) T I He Hv Hne Hst Htop Hgap) as (s' & (m & -> & Hw & _ & _) & ->).
  cbn [frame app length] in *. change (8 * Z.of_nat 6) with 48 in *.
  assert (top < 18446744073709551616) as Hlt.
  { destruct I as [_ (_ & Hr & _) _ _]. unfold top, frame_top, word64 in *. destruct (0 <? _); word_lia. }
  rewrite iretq_run by (cbn [rsp]; lia). cbn [rsp]. change (core_ram _) with m.
  change 6%nat with (5 + 1)%nat in Hw. rewrite words_app in Hw. apply (f_equal (take 5)) in Hw.
  rewrite take_app_length' in Hw by (symmetry; apply length_words). rewrite Hw.
  destruct (segment _ _) as [d|]; [|by left]. destruct (_ && _); [|by left].
  right. eexists. split; [reflexivity|]. by split.
Qed.

(** A call puts the return address on the stack and runs the routine. *)
Lemma call_run {A} ret (routine : M (core B) unit) (k : unit -> M (core B) A) s : 8 <= rsp s < 18446744073709551616 ->
  (x ← call_routine ret routine; k x) s =
  (x ← routine; y ← (a ← pop; if a =? ret then mret tt else liftO Hang); k y) (set_rsp (rsp s - 8) (Core (with_table (fun m => st64 m (rsp s - 8) ret) (ccpu s)) (cbus s) (gpr s) (rip s) (rsp s) (cr2 s))).
Proof using Type.
  intros Hs. unfold call_routine. rewrite bind_assoc. unfold push. rewrite bind_assoc, bind_modify, bind_assoc, bind_gets. cbn [rsp set_rsp].
  rewrite u64_small by lia. rewrite (bind_run _ _ _ tt _ eq_refl). apply bind_assoc.
Qed.

(** C17. A page fault reaches its handler with the error code, the faulting
    instruction's address, the interrupted stack pointer and CR2 as its four
    arguments, whatever the handler does, and with nothing changed in memory
    but the 184 bytes below the top of the handler's stack, where the last
    word is the handler's return address. *)
Theorem page_fault_arguments s e : tables_ready gdt stack isr_default isr_page_fault (ccpu s) -> interruptible s ->
  word64 e -> word64 stack ->
  let top := frame_top stack s in 184 <= top -> gdt + 64 <= top - 184 \/ top <= gdt ->
  exists s1 k, (forall x, ~ (top - 184 <= x < top) -> ld8 (core_ram s1) x = ld8 (core_ram s) x) /\
    rsp s1 = top - 184 /\ ld64 (core_ram s1) (rsp s1) = u64 after_call /\
    forall handler, (deliver 14 (Some e);; isr_page_fault_stub after_call handler) s =
      (x ← on_ccpu (on_cmach (handler e (rip s) (rsp s) (cr2 s))); k x) s1.
Proof using Type.
  intros T I He Hst top Htop Hgap. pose proof (frame_words s (Some e) I He) as Hw. pose proof I as [[Hlen Hg] (_ & Hr & _) _ _].
  assert (top < 18446744073709551616) as Hlt.
  { unfold top, frame_top, word64 in *. destruct (0 <? _); word_lia. }
  set (s1 := entered isr_page_fault stack (Some e) s). set (g1 := <[1%nat := rsp s1]> (gpr s)).
  assert (length g1 = 15%nat) as Hlen1 by (unfold g1; by rewrite length_insert).
  set (m1 := pushed (frame s (Some e)) top (core_ram s)). assert (rsp s1 = top - 48) as Hsp by reflexivity.
  set (m2 := pushed g1 (top - 48) m1).
  assert (forall x, ~ (top - 176 <= x < top) -> ld8 m2 x = ld8 (core_ram s) x) as Hf.
  { intros x Hx. assert (agree (core_ram s) m2 x (x + 1)) as Ha; [|apply Ha; lia].
    unfold m2, m1. eapply agree_trans; apply agree_pushed; rewrite ?Hlen1; cbn [frame app length]; lia. }
  assert (words m2 (top - 48) 6 = rev (frame s (Some e))) as Hws.
  { rewrite <- (words_pushed _ top (core_ram s) Hw). fold m1. change (top - 8 * Z.of_nat (length (frame s (Some e)))) with (top - 48).
    apply words_ext, agree_pushed. lia. }
  cbn [frame app rev] in Hws. rewrite !words_S in Hws. injection Hws as W0 W1 _ _ W4 _.
  replace (top - 48 + 8 + 8 + 8 + 8) with (top - 48 + 32) in W4 by lia.
  set (m3 := st64 m2 (top - 184) after_call).
  eexists (Core (with_table (fun _ => m3) (ccpu s1)) (cbus s) _ (rip s1) (top - 184) (cr2 s)), _. split; [|split; [reflexivity|split; [apply ld64_st64_eq|]]].
  { intros x Hx. change (ld8 m3 x = ld8 (core_ram s) x). unfold m3. rewrite (agree_st64 m2 (top - 184) after_call x (x + 1)) by lia. apply Hf. lia. }
  intros handler. rewrite (bind_run _ _ _ _ _ (deliver_run s 14 (Some e) T ltac:(lia) Hr Hst ltac:(cbn [frame app length]; fold top; lia))).
  change (if 14 =? 14 then isr_page_fault else isr_default) with isr_page_fault. fold s1.
  unfold isr_page_fault_stub, push_registers. rewrite bind_modify.
  destruct (push_all_run g1 (set_gpr g1 s1)) as (s2 & E & ->); [rewrite Hlen1; cbn [rsp set_gpr]; rewrite Hsp; lia|].
  rewrite (bind_run _ _ _ tt _ (eq_trans (bind_gets _ _ _) E)). rewrite bind_gets, !bind_modify, bind_gets.
  cbn [gpr rsp set_gpr set_rsp with_stack cr2]. change (core_ram (with_stack _ _ _)) with m2.
  assert (nth_reg g1 1 = top - 48) as Hg1 by (apply nth_reg_eq; rewrite Hlen; lia).
  rewrite !(nth_reg_ne _ 1), Hg1, Hsp, W0, W1, W4 by done. set (l := <[2%nat := _]> _).
  assert (nth_reg l 5 = e /\ nth_reg l 4 = rip s /\ nth_reg l 3 = rsp s /\ nth_reg l 2 = cr2 s) as (-> & -> & -> & ->).
  { unfold l. split_and!; repeat (rewrite nth_reg_ne by done); rewrite nth_reg_eq by (rewrite ?length_insert, Hlen1; lia);
      rewrite ?nth_reg_eq by (rewrite ?length_insert, Hlen1; lia); reflexivity. }
  rewrite Hlen1. replace (u64 (top - 48 - 8 * Z.of_nat 15 - 8)) with (top - 176) by (rewrite u64_small; lia).
  rewrite (call_run after_call) by (cbn [rsp set_rsp]; lia). cbn [rsp set_rsp]. replace (top - 176 - 8) with (top - 184) by lia. reflexivity.
Qed.
End Core.

(** ** The tables as they are set up *)

(** With the memory of [init_gdt] and the gates of [init_idt] in place. *)
Lemma tables_ready_memory gdt gdtr_at tss kernel_stack idt isr_default isr_page_fault m c :
  gdt_layout gdt gdtr_at tss kernel_stack -> gdtr c = (GDT_SIZE - 1, gdt) -> idtr c = (4095, idt) -> tr c = GDT_TSS ->
  agree (gdt_memory gdt gdtr_at tss kernel_stack m) (cpu_ram c) gdt (gdt + 64) ->
  agree (gdt_memory gdt gdtr_at tss kernel_stack m) (cpu_ram c) tss (tss + 104) ->
  (forall v, 0 <= v < 256 -> gate_at idt (cpu_ram c) v = Gate (if v =? 14 then isr_page_fault else isr_default) GDT_KERNEL_CODE 0 0x8E) ->
  tables_ready gdt (kernel_stack + 16384) isr_default isr_page_fault c.
Proof.
  intros L Hg Hi Ht Ha Hb Hgates. set (m0 := segments_written gdt m).
  destruct (tss_in_place gdt gdtr_at tss kernel_stack L m0) as (T1 & _ & _ & T4). unfold gdt_memory in Ha, Hb. fold m0 in Ha, Hb.
  set (mg := busy_written gdt (tss_written gdt gdtr_at tss kernel_stack m0)) in *.
  assert (system_base c (tr c) = tss) as Hbase.
  { unfold system_base. rewrite Hg, Ht. cbn [snd]. change (8 * (GDT_TSS / 8)) with 0x30. rewrite <- T1.
    rewrite (read_descriptor_ext mg) by (eapply agree_sub; [..|exact Ha]; lia).
    by rewrite (ld32_ext mg) by (eapply agree_sub; [..|exact Ha]; lia). }
  split.
  - apply (gdt_built_ext gdt (with_table (fun _ => mg) c)); [|reflexivity|exact Ha].
    apply (init_gdt_built gdt gdtr_at tss kernel_stack L _ m); [exact Hg|reflexivity].
  - rewrite Hbase, (ld64_ext mg) by (eapply agree_sub; [..|exact Hb]; lia). exact T4.
  - intros v Hv. unfold read_gate. rewrite Hi. cbn [fst snd]. destruct (Z.leb_spec (16 * v + 15) 4095); [|lia]. by rewrite <- Hgates.
Qed.

(** ** Witnesses

    A bus that records what is sent to it, tables set up by the code, and a
    user program that is interrupted. *)
#[local] Instance log_ports : Ports (list (Z * Z)) := {
  bus_in8 _ l := (0, l); bus_out8 p v l := l ++ [(p, v)]; bus_in16 _ l := (0, l); bus_out16 _ _ l := l; bus_in32 _ l := (0, l); bus_out32 _ _ l := l
}.
Definition user_cpu : cpu :=
  match (init_idt 0x124000 0x125000 0x105000 0x105040;; init_gdt 0x120000 0x120800 0x121000 0x126000) cpu0 with
  | Ret (_, c) => Cpu (cmach c) (gdtr c) (idtr c) (tr c) 0x2B (replicate 5 0x23) (msr c)
  | _ => cpu0
  end.
Definition user_core : core (list (Z * Z)) := Core user_cpu [] (seqZ 1 15) 0x400123 0x700000 0.

Lemma user_cpu_ready : tables_ready 0x120000 0x12A000 0x105000 0x105040 user_cpu.
Proof.
  destruct (init_idt_run 0x124000 0x125000 0x105000 0x105040 cpu0 ltac:(lia) ltac:(lia) ltac:(lia) ltac:(lia) ltac:(lia)) as (es & m & E & Hg & _).
  assert (gdt_layout 0x120000 0x120800 0x121000 0x126000) as L by (split; lia).
  unfold user_cpu. rewrite (bind_run _ _ _ _ _ E). set (c1 := Cpu (add_serial _ _) _ _ _ _ _ _).
  destruct (init_gdt_result _ _ _ _ L c1) as (es2 & ->).
  apply (tables_ready_memory 0x120000 0x120800 0x121000 0x126000 0x124000 _ _ m); [exact L|reflexivity..|apply agree_refl|apply agree_refl|].
  intros v Hv. rewrite <- Hg by exact Hv. apply gate_ext. intros x Hx. change (cpu_ram _) with (gdt_memory 0x120000 0x120800 0x121000 0x126000 m).
  apply gdt_memory_frame; lia.
Qed.

#[local] Opaque user_cpu.

Lemma user_core_interruptible : interruptible user_core.
Proof.
  split; [split; [reflexivity|apply (bool_decide_unpack _); vm_compute; exact I]|by vm_compute|by vm_compute|right; split; vm_compute; reflexivity].
Qed.

Lemma interrupt_transparent_witness : exists m,
  interrupt 0x105000 0x105040 0x105098 32 None user_core = Ret (tt, Core (with_table (fun _ => m) user_cpu) [(0x20, 0x20)] (seqZ 1 15) 0x400123 0x700000 0).
Proof.
  destruct (interrupt_transparent 0x120000 0x12A000 0x105000 0x105040 0x105098 user_core 32 user_cpu_ready user_core_interruptible
    ltac:(lia) ltac:(lia) ltac:(by vm_compute) ltac:(by vm_compute) ltac:(left; by vm_compute)) as (m & E & _).
  exists m. exact E.
Defined.

Lemma error_code_is_return_address_witness :
  interrupt 0x105000 0x105040 0x105098 13 (Some 0) user_core = Hang \/
  exists s', interrupt 0x105000 0x105040 0x105098 13 (Some 0) user_core = Ret (tt, s') /\ rip s' = 0.
Proof.
  destruct (error_code_is_return_address 0x120000 0x12A000 0x105000 0x105040 0x105098 user_core 13 0 user_cpu_ready user_core_interruptible
    ltac:(by vm_compute) ltac:(lia) ltac:(lia) ltac:(by vm_compute) ltac:(by vm_compute) ltac:(left; by vm_compute)) as [E|(s' & E & H1 & _)]; [by left|].
  right. exists s'. split; [exact E|exact H1].
Defined.

Lemma page_fault_arguments_witness : exists s1 k, forall handler,
  (deliver 14 (Some 6);; isr_page_fault_stub 0x105098 handler) user_core = (x ← on_ccpu (on_cmach (handler 6 0x400123 0x700000 0)); k x) s1.
Proof.
  destruct (page_fault_arguments 0x120000 0x12A000 0x105000 0x105040 0x105098 user_core 6 user_cpu_ready user_core_interruptible
    ltac:(by vm_compute) ltac:(by vm_compute) ltac:(by vm_compute) ltac:(left; by vm_compute)) as (s1 & k & _ & _ & _ & E).
  exists s1, k. exact E.
Defined.
