(* ===== verification/Elf.v ===== *)
(** * ELF images: the user program's loader (Kernel/Kernel_Main.c, lines
      28-56 and 103-189)

    [load_userland_elf] finds the file in the root directory, reads it into
    a heap buffer, and copies its loadable segments to the addresses they
    name.  Headers are read from the buffer each time, as the code does. *)
From S2P Require Import Prelude Machine Utils Serial Memory Disk Fat32 Uart.

Definition PT_LOAD : Z := 1.

(** Fields of [Elf64_Ehdr] at [e] and [Elf64_Phdr] at [p]. *)
Definition e_entry (m : mem) (e : Z) : Z := ld64 m (e + 24).
Definition e_phoff (m : mem) (e : Z) : Z := ld64 m (e + 32).
Definition e_phnum (m : mem) (e : Z) : Z := ld16 m (e + 56).
Definition p_type (m : mem) (p : Z) : Z := ld32 m p.
Definition p_offset (m : mem) (p : Z) : Z := ld64 m (p + 8).
Definition p_vaddr (m : mem) (p : Z) : Z := ld64 m (p + 16).
Definition p_paddr (m : mem) (p : Z) : Z := ld64 m (p + 24).
Definition p_filesz (m : mem) (p : Z) : Z := ld64 m (p + 32).
Definition p_memsz (m : mem) (p : Z) : Z := ld64 m (p + 40).
Definition PHDR_SIZE : Z := 56.

Definition elf_magic (m : mem) (e : Z) : bool :=
  (ld8 m e =? 0x7F) && (ld8 m (e + 1) =? 69) && (ld8 m (e + 2) =? 76) && (ld8 m (e + 3) =? 70).

(** "URLD    ELF" at 16. *)
Definition urld_name : mem := list_to_map (zip (seqZ 16 12) (chars "URLD    ELF" ++ [0])).

Section Loader.
Context {B : Type} (rd : Z -> Z -> Z -> mem -> M (dstate B) (bool * mem)) (junk : mem)
  (kmalloc : Z -> M mstate Z) (kfree : Z -> M mstate unit).

Definition fs_mem {A} (c : M mstate A) : M (fs B) A := on_dev (on_mach c).
Definition fail_load (es : list sev) (buffer : Z) : M (fs B) bool :=
  fs_say es;; fs_mem (kfree buffer);; mret false.

(** The loop over the program headers; false when the function returns
    false from inside it.  [i] is 16 bits wide, like [e_phnum]. *)
Fixpoint load_segments (fuel : nat) (i buffer : Z) : M (fs B) bool :=
  match fuel with
  | O => liftO NoFuel
  | S f =>
      m ← gets fs_ram;
      if negb (i <? e_phnum m buffer) then mret true
      else
        let ph := u64 (u64 (buffer + e_phoff m buffer) + PHDR_SIZE * i) in
        if negb (p_type m ph =? PT_LOAD) then load_segments f (u16 (i + 1)) buffer
        else
          fs_say [SStr "[OS] [USER] Loading segment "; SU16 i; SStr " to vaddr "; SU64 (p_vaddr m ph);
                  SStr ", size "; SU64 (p_memsz m ph); line ""];;
          if p_memsz m ph <? p_filesz m ph then
            fail_load [line "[OS] [USER] Invalid segment: memsz < filesz"] buffer
          else if (p_vaddr m ph <? 0x400000) || (0x80000000 <=? p_vaddr m ph) then
            fail_load [line "[OS] [USER] Invalid virtual address"] buffer
          else
            let dst := p_vaddr m ph in
            let src := u64 (buffer + p_offset m ph) in
            modify (fun s => set_fs_ram (memcpy (fs_ram s) dst src (p_filesz m ph)) s);;
            m ← gets fs_ram;
            (if p_filesz m ph <? p_memsz m ph then
               modify (fun s => set_fs_ram (memset (fs_ram s) (u64 (dst + p_filesz m ph)) 0 (u64 (p_memsz m ph - p_filesz m ph))) s)
             else mret tt);;
            load_segments f (u16 (i + 1)) buffer
  end.

(** [Some entry] when it returns true with [entry] stored through its
    argument. *)
Definition load_userland_elf : M (fs B) (option Z) :=
  found ← fat32_find_file rd junk urld_name 16;
  match found with
  | None => fs_say [line "[OS] [USER] File URLD.ELF not found"];; mret None
  | Some file =>
      fs_say [SStr "[OS] [USER] File found, size: "; SU32 (size file); line ""];;
      if (size file =? 0) || (1024 * 1024 <? size file) then
        fs_say [line "[OS] [USER] Invalid file size"];; mret None
      else
        buffer ← fs_mem (kmalloc (size file));
        if buffer =? 0 then fs_say [line "[OS] [USER] Out of memory"];; mret None
        else
          r ← fat32_read_file rd junk (Some file) buffer;
          if negb r then
            fs_say [line "[OS] [USER] File read failed"];; fs_mem (kfree buffer);; mret None
          else
            fs_say [line "[OS] [USER] File read successfully"];;
            m ← gets fs_ram;
            if negb (elf_magic m buffer) then
              fs_say [line "[OS] [USER] Invalid ELF magic"];; fs_mem (kfree buffer);; mret None
            else
              fs_say [line "[OS] [USER] Valid ELF header"; SStr "[OS] [USER] Entry point: "; SU64 (e_entry m buffer); line ""];;
              ok ← load_segments (Z.to_nat 65537) 0 buffer;
              if negb ok then mret None
              else
                m ← gets fs_ram;
                let entry := e_entry m buffer in
                fs_mem (kfree buffer);;
                fs_say [line "[OS] [USER] ELF loaded successfully"];;
                mret (Some entry)
  end.
End Loader.
