(* ===== verification/ElfTheorems.v ===== *)
(** * The properties of the ELF loader

    An ELF file is a list of bytes; [segs_from] reads its loadable segments
    and [loaded] says which byte each address holds after loading them in
    order.  The loader does that for every valid image, over any allocator
    and block device, when no segment lies in the kernel heap, and also when
    one lies in an allocation of somebody else.  On the kernel's own heap,
    while it has no allocation, a segment may lie in its unused part. *)
From S2P Require Import Prelude Machine Utils Serial Memory Heap HeapChain HeapInv HeapOps HeapSpec Alloc HeapTheorems.
From S2P Require Import Disk BlockDev Fat32 Fat32Spec Fat32Dir Fat32Theorems SysFile SysFileSpec SysFileTheorems Uart Elf.

Record seg := Seg { s_off : Z; s_addr : Z; s_filesz : Z; s_memsz : Z }.

Definition phdr_at (data : list Z) (i : Z) : Z := word64_at data 32 + 56 * i.
Definition seg_of (data : list Z) (i : Z) : option seg :=
  let o := phdr_at data i in
  if word32_at data o =? 1 then
    Some (Seg (word64_at data (o + 8)) (word64_at data (o + 16)) (word64_at data (o + 32)) (word64_at data (o + 40)))
  else None.
Definition segs_from (data : list Z) (i n : Z) : list seg := omap (seg_of data) (seqZ i n).
Definition elf_phnum (data : list Z) : Z := word16_at data 56.
Definition elf_entry (data : list Z) : Z := word64_at data 24.
Definition segments (data : list Z) : list seg := segs_from data 0 (elf_phnum data).

(** The byte at [x] after loading a segment, and after loading several. *)
Definition seg_byte (data : list Z) (x old : Z) (s : seg) : Z :=
  if (s_addr s <=? x) && (x <? s_addr s + s_filesz s) then byte_at data (s_off s + (x - s_addr s))
  else if (s_addr s <=? x) && (x <? s_addr s + s_memsz s) then 0 else old.
Definition loaded (data : list Z) (ss : list seg) (m : mem) (x : Z) : Z := fold_left (seg_byte data x) ss (ld8 m x).

Section Elf.
Context (lo hi : Z).

Record seg_ok (data : list Z) (s : seg) : Prop := {
  sk_file : s_off s + s_filesz s <= Z.of_nat (length data);
  sk_size : s_filesz s <= s_memsz s;
  sk_addr : 0x400000 <= s_addr s < 0x80000000;
  sk_end : s_addr s + s_memsz s < 2 ^ 63;
  sk_heap : s_addr s + s_memsz s <= lo \/ hi <= s_addr s
}.

(** The same with the bytes a segment may occupy given as a set. *)
Record seg_in (zone : Z -> Prop) (data : list Z) (s : seg) : Prop := {
  si_file : s_off s + s_filesz s <= Z.of_nat (length data);
  si_size : s_filesz s <= s_memsz s;
  si_addr : 0x400000 <= s_addr s < 0x80000000;
  si_end : s_addr s + s_memsz s < 2 ^ 63;
  si_zone x : s_addr s <= x < s_addr s + s_memsz s -> zone x
}.
Lemma seg_ok_in (zone : Z -> Prop) data s : (forall x, x < lo \/ hi <= x -> zone x) -> seg_ok data s -> seg_in zone data s.
Proof. intros Hz [K1 K2 K3 K4 K5]. split; try done. intros x Hx. apply Hz. lia. Qed.

(** The header and the table of segments are inside the file. *)
Record elf_head (data : list Z) : Prop := {
  eh_bytes : byte_list data;
  eh_head : 64 <= Z.of_nat (length data);
  eh_table : phdr_at data (elf_phnum data) <= Z.of_nat (length data)
}.
Record elf_ok (data : list Z) : Prop := {
  ek_head : elf_head data;
  ek_magic : take 4 data = [0x7F; 69; 76; 70];
  ek_segs : Forall (seg_ok data) (segments data)
}.
End Elf.

Section Zone.
Context (zone : Z -> Prop).
Abbreviation seg_in := (seg_in zone).

(** What the loader tests for each segment. *)
Definition seg_refused (s : seg) : Prop := s_memsz s < s_filesz s \/ s_addr s < 0x400000 \/ 0x80000000 <= s_addr s.

(** Copying and clearing one segment. *)
Definition load_one (m : mem) (q : Z) (s : seg) : mem :=
  let m := memcpy m (s_addr s) (q + s_off s) (s_filesz s) in
  if s_filesz s <? s_memsz s then memset m (s_addr s + s_filesz s) 0 (s_memsz s - s_filesz s) else m.

(** A buffer that is not in the zone is apart from the segments. *)
Lemma seg_apart data s q n : seg_in data s -> 0 < s_memsz s -> 0 < n -> (forall x, zone x -> x < q \/ q + n <= x) ->
  s_addr s + s_memsz s <= q \/ q + n <= s_addr s.
Proof.
  intros [K1 K2 K3 K4 K5] Hs Hn Hz. destruct (Z.le_gt_cases (s_addr s + s_memsz s) q); [by left|right].
  destruct (Z.le_gt_cases (s_addr s) q); [|destruct (Hz _ (K5 (s_addr s) ltac:(lia))); lia].
  destruct (Hz _ (K5 q ltac:(lia))); lia.
Qed.

Lemma load_one_byte m q data s x : holds m q data -> 0 < Z.of_nat (length data) -> (forall x, zone x -> x < q \/ q + Z.of_nat (length data) <= x) ->
  seg_in data s -> 0 <= s_off s -> 0 <= s_filesz s ->
  ld8 (load_one m q s) x = seg_byte data x (ld8 m x) s.
Proof.
  intros Hd Hn Hz Hs Ho Hf. pose proof (seg_apart data s q (Z.of_nat (length data)) Hs) as Hap. destruct Hs as [K1 K2 K3 K4 K5]. unfold load_one, seg_byte.
  destruct (Z.eq_dec (s_memsz s) 0) as [E|E].
  { assert (s_filesz s = 0) as Ef by lia. rewrite E, Ef. cbn [Z.ltb Z.compare]. change (memcpy m _ _ 0) with m. zcases; (lia || done). }
  specialize (Hap ltac:(lia) Hn Hz).
  assert (s_addr s <= q + s_off s \/ q + s_off s + s_filesz s <= s_addr s) as Hds by lia.
  assert (ld8 (memcpy m (s_addr s) (q + s_off s) (s_filesz s)) x =
    if (s_addr s <=? x) && (x <? s_addr s + s_filesz s) then byte_at data (s_off s + (x - s_addr s)) else ld8 m x) as Hc.
  { rewrite ld8_memcpy by done. destruct (Z.leb_spec (s_addr s) x), (Z.ltb_spec x (s_addr s + s_filesz s)); cbn [andb]; try done.
    rewrite <- (holds8 m q) by (done || lia). f_equal. lia. }
  destruct (Z.ltb_spec (s_filesz s) (s_memsz s)); rewrite ?ld8_memset, Hc; zcases; (lia || done).
Qed.

Lemma seg_byte_outside data s x old : seg_in data s -> ~ zone x -> seg_byte data x old s = old.
Proof.
  intros [K1 K2 K3 K4 K5] Hx. unfold seg_byte. specialize (K5 x).
  destruct (Z.leb_spec (s_addr s) x); [|done]. cbn [andb].
  destruct (Z.ltb_spec x (s_addr s + s_filesz s)); [destruct Hx; apply K5; lia|].
  destruct (Z.ltb_spec x (s_addr s + s_memsz s)); [destruct Hx; apply K5; lia|done].
Qed.

Lemma loaded_outside data ss m x : Forall (seg_in data) ss -> ~ zone x -> loaded data ss m x = ld8 m x.
Proof.
  intros Hs Hx. unfold loaded. generalize (ld8 m x) as old. induction Hs as [|s ss Hs _ IH]; intros old; [done|].
  cbn [fold_left]. by rewrite (seg_byte_outside data s).
Qed.

Lemma word16_at_range data o : byte_list data -> 0 <= word16_at data o < 65536.
Proof.
  intros H. unfold word16_at. pose proof (byte_at_range data o H). pose proof (byte_at_range data (o + 1) H). lia.
Qed.
Lemma word32_at_range data o : byte_list data -> 0 <= word32_at data o < 4294967296.
Proof.
  intros H. unfold word32_at. pose proof (word16_at_range data o H). pose proof (word16_at_range data (o + 2) H). lia.
Qed.
Lemma word64_at_range data o : byte_list data -> 0 <= word64_at data o < 18446744073709551616.
Proof.
  intros H. unfold word64_at. pose proof (word32_at_range data o H). pose proof (word32_at_range data (o + 4) H). lia.
Qed.

Lemma segs_cons data i n : 0 < n ->
  segs_from data i n = match seg_of data i with Some s => [s] | None => [] end ++ segs_from data (i + 1) (n - 1).
Proof.
  intros Hn. unfold segs_from. rewrite seqZ_cons by lia. cbn [omap list_omap]. rewrite <- Z.add_1_r, <- Z.sub_1_r.
  by destruct (seg_of data i).
Qed.

Section Loop.
Context {B : Type} (kfree : Z -> M mstate unit).

Lemma add_serial_step es1 es2 m0 mm m :
  add_serial es2 (set_ram mm (set_ram m0 (add_serial es1 m))) = add_serial (es1 ++ es2) (set_ram mm m).
Proof. unfold add_serial, set_ram. cbn [ram rflags serial heap_lock page_lock hv pv]. by rewrite app_assoc. Qed.

Lemma bind_fs_say {A} es (k : unit -> M (fs B) A) m b p :
  (x ← fs_say es; k x) (Fs (DState m b) p) = k tt (Fs (DState (add_serial es m) b) p).
Proof. reflexivity. Qed.

(** The loop on an image whose segments from [i] on are [good], up to one
    that is refused if there is one: it loads [good] and leaves the heap
    alone, then it ends, or gives the buffer back and reports failure. *)
Lemma load_segments_prefix data q b p : elf_head data -> (forall x, zone x -> x < q \/ q + Z.of_nat (length data) <= x) ->
  q + Z.of_nat (length data) < 18446744073709551616 -> 0 <= q ->
  forall n i m fuel good rest, 0 <= i -> i + Z.of_nat n = elf_phnum data -> (n < fuel)%nat -> holds (ram m) q data ->
  segs_from data i (Z.of_nat n) = good ++ rest -> Forall (seg_in data) good -> match rest with [] => True | s :: _ => seg_refused s end ->
  exists es mm, let s' := Fs (DState (add_serial es (set_ram mm m)) b) p : fs B in
    load_segments kfree fuel i q (Fs (DState m b) p) = match rest with [] => Ret (true, s') | _ => (fs_mem (kfree q);; mret false) s' end /\
    forall x, ld8 mm x = loaded data good (ram m) x.
Proof.
  intros [E1 E2 E4] Hz Hmax Hq0. pose proof (word64_at_range data 32 E1) as R32. pose proof (word16_at_range data 56 E1) as R16. unfold phdr_at in E4.
  change (word16_at data 56) with (elf_phnum data) in R16.
  induction n as [|n IH]; intros i m [|fuel] good rest Hi Hn Hf Hh Hss Hs Hrest; try lia; cbn [load_segments]; rewrite bind_gets;
    change (fs_ram (Fs (DState m b) p)) with (ram m); unfold e_phnum; rewrite (holds16 _ q data) by (done || lia); fold (elf_phnum data).
  { symmetry in Hss. apply app_eq_nil in Hss as [-> ->].
    destruct (Z.ltb_spec i (elf_phnum data)); [lia|]. exists [], (ram m). split; [|done]. rewrite add_serial_nil. by destruct m. }
  destruct (Z.ltb_spec i (elf_phnum data)); [|lia]. cbn [negb].
  rewrite segs_cons in Hss by lia. replace (Z.of_nat (S n) - 1) with (Z.of_nat n) in * by lia.
  unfold e_phoff. rewrite (holds64 _ q data) by (done || lia).
  replace (u64 (u64 (q + word64_at data 32) + PHDR_SIZE * i)) with (q + phdr_at data i)
    by (unfold PHDR_SIZE, phdr_at; rewrite !u64_small by (rewrite ?u64_small; lia); lia).
  assert (0 <= phdr_at data i) as Ho by (unfold phdr_at; lia).
  assert (phdr_at data i + 56 <= Z.of_nat (length data)) as Ho2 by (unfold phdr_at in *; lia).
  unfold p_type. rewrite (holds32 _ q data) by (done || lia). rewrite (u16_small (i + 1)) by lia.
  unfold seg_of in Hss. cbv zeta in Hss |- *. unfold PT_LOAD.
  destruct (Z.eqb_spec (word32_at data (phdr_at data i)) 1) as [_|_]; cbn [negb app] in Hss |- *; [|by apply IH; try done; lia].
  set (o := phdr_at data i) in *. set (s := Seg _ _ _ _) in *.
  assert (forall m', holds m' q data -> p_offset m' (q + o) = s_off s /\ p_vaddr m' (q + o) = s_addr s /\
    p_filesz m' (q + o) = s_filesz s /\ p_memsz m' (q + o) = s_memsz s) as Hfields.
  { intros m' Hm'. unfold p_offset, p_vaddr, p_filesz, p_memsz. rewrite <- !Z.add_assoc.
    by rewrite !(holds64 m' q data) by (done || lia). }
  assert (0 <= s_off s < 18446744073709551616 /\ 0 <= s_filesz s < 18446744073709551616 /\ 0 <= s_memsz s < 18446744073709551616) as (P1 & P2 & P3)
    by (split_and!; apply word64_at_range; done).
  destruct (Hfields (ram m) Hh) as (F1 & F2 & F3 & F4). rewrite F1, F2, F3, F4.
  destruct good as [|s0 good].
  { destruct rest as [|s0 rest]; [done|]. injection Hss as <- _. rewrite bind_fs_say. unfold seg_refused in Hrest. set (es1 := [_; _; _; _; _; _; _]).
    destruct (Z.ltb_spec (s_memsz s) (s_filesz s)); [|destruct (_ || _) eqn:E; [|exfalso; lia]];
      (unfold fail_load; rewrite bind_fs_say, add_serial_app; eexists _, (ram m); split; [|done]; by destruct m). }
  injection Hss as <- Hss. inversion_clear Hs as [|? ? Hseg Hgood]. pose proof Hseg as [K1 K2 K3 K4 K5].
  assert (forall es0, holds (memcpy (ram (add_serial es0 m)) (s_addr s) (q + s_off s) (s_filesz s)) q data) as Hh'.
  { intros es0. eapply holds_agree; [|exact Hh]. destruct (Z.eq_dec (s_memsz s) 0) as [Em|Em].
    - assert (s_filesz s = 0) as -> by lia. intros x _. reflexivity.
    - pose proof (seg_apart data s q (Z.of_nat (length data)) Hseg ltac:(lia) ltac:(lia) Hz). apply agree_memcpy; lia. }
  rewrite bind_fs_say.
  destruct (Z.ltb_spec (s_memsz s) (s_filesz s)); [lia|]. destruct (Z.ltb_spec (s_addr s) 0x400000); [lia|].
  destruct (Z.leb_spec 0x80000000 (s_addr s)); [lia|]. cbn [orb]. rewrite (u64_small (q + s_off s)) by lia.
  set (es1 := [_; _; _; _; _; _; _]) in *. set (m1 := add_serial es1 m) in *.
  rewrite bind_modify. change (fs_ram (Fs (DState m1 b) p)) with (ram m1).
  set (mc := memcpy (ram m1) (s_addr s) (q + s_off s) (s_filesz s)) in *.
  change (set_fs_ram mc (Fs (DState m1 b) p)) with (Fs (DState (set_ram mc m1) b) p). rewrite bind_gets.
  change (fs_ram (Fs (DState (set_ram mc m1) b) p)) with mc.
  destruct (Hfields mc (Hh' es1)) as (_ & _ & F3' & F4'). rewrite F3', F4'.
  assert (exists f, (if s_filesz s <? s_memsz s then modify (fun s0 => set_fs_ram (memset (fs_ram s0) (u64 (s_addr s + s_filesz s)) 0
      (u64 (s_memsz s - s_filesz s))) s0) else mret tt) (Fs (DState (set_ram mc m1) b) p) = Ret (f, Fs (DState (set_ram (load_one (ram m) q s) m1) b) p)) as [f Ef].
  { unfold load_one. change (memcpy (ram m) (s_addr s) (q + s_off s) (s_filesz s)) with mc.
    destruct (Z.ltb_spec (s_filesz s) (s_memsz s)); [|by exists tt]. rewrite !u64_small by lia. by exists tt. }
  rewrite (bind_run _ _ _ _ _ Ef).
  assert (forall x, ld8 (load_one (ram m) q s) x = seg_byte data x (ld8 (ram m) x) s) as Hb by (intros x; apply load_one_byte; (done || lia)).
  destruct (IH (i + 1) (set_ram (load_one (ram m) q s) m1) fuel good rest ltac:(lia) ltac:(lia) ltac:(lia)) as (es2 & mm & E & Hmm); [|done..|].
  { eapply holds_agree; [|exact Hh]. intros x Hx. cbn [ram set_ram]. rewrite Hb. apply (seg_byte_outside data); [done|]. intros Hzx. destruct (Hz x Hzx); lia. }
  exists (es1 ++ es2), mm. split.
  - rewrite E. unfold m1. by rewrite add_serial_step.
  - intros x. rewrite Hmm. unfold loaded. cbn [fold_left ram set_ram]. by rewrite Hb.
Qed.

End Loop.
End Zone.

Section Theorems.
Context {B : Type} (rd : Z -> Z -> Z -> mem -> M (dstate B) (bool * mem))
  (dok : B -> contents -> Prop)
  {BR : BlockReader B rd dok} (junk : mem)
  (malloc : Z -> M mstate Z) (free : Z -> M mstate unit) (lo hi : Z)
  (aok : mstate -> gmap Z Z -> Prop) {AL : Allocator malloc free lo hi aok}.

Lemma aok_say m L es : aok m L -> aok (add_serial es m) L.
Proof using AL. intros H. by apply (alloc_write m). Qed.

Lemma fs_mem_run {A} (c : M mstate A) m (b : B) p a m' :
  c m = Ret (a, m') -> fs_mem c (Fs (DState m b) p) = Ret (a, Fs (DState m' b) p).
Proof using Type. intros E. unfold fs_mem, on_dev, on_mach, zoom. cbn. by rewrite E. Qed.

(** The file as the directory has it, with its contents. *)
Record user_file (f : contents) (p : FAT32_BPB) (root cs : list Z) (file : FAT32_FILE) : Prop := {
  uf_root : fat_chain p f (root_cluster p) root;
  uf_root_read : Forall (cluster_readable p f) root;
  uf_root_len : Z.of_nat (length root) <= max_clusters p;
  uf_entry : dir_lookup (chars "URLD    ELF") (entries (chain_data p f root)) = Some file;
  uf_size : 0 < size file <= 1048576;
  uf_chain : fat_chain p f (first_cluster file) cs;
  uf_read : Forall (cluster_readable p f) cs;
  uf_long : size file <= cluster_bytes p * Z.of_nat (length cs)
}.
Definition file_data (f : contents) (p : FAT32_BPB) (cs : list Z) (file : FAT32_FILE) : list Z :=
  take (Z.to_nat (size file)) (chain_data p f cs).

(** Up to the test of the magic number: the file is in a buffer, or the heap
    was full. *)
Definition with_image (k : Z -> M (fs B) (option Z)) : M (fs B) (option Z) :=
  found ← fat32_find_file rd junk urld_name 16;
  match found with
  | None => fs_say [line "[OS] [USER] File URLD.ELF not found"];; mret None
  | Some file =>
      fs_say [SStr "[OS] [USER] File found, size: "; SU32 (size file); line ""];;
      if (size file =? 0) || (1024 * 1024 <? size file) then
        fs_say [line "[OS] [USER] Invalid file size"];; mret None
      else
        buffer ← fs_mem (malloc (size file));
        if buffer =? 0 then fs_say [line "[OS] [USER] Out of memory"];; mret None
        else
          r ← fat32_read_file rd junk (Some file) buffer;
          if negb r then
            fs_say [line "[OS] [USER] File read failed"];; fs_mem (free buffer);; mret None
          else fs_say [line "[OS] [USER] File read successfully"];; k buffer
  end.

(** The allocator has nothing of size [n], possibly after some output. *)
Definition refuses (m : mstate) (n : Z) : Prop := exists es m', malloc n (add_serial es m) = Ret (0, m').

Lemma with_image_run k m b f p root cs file L :
  aok m L -> dok b f -> geometry p -> user_file f p root cs file ->
  (exists m' b', with_image k (Fs (DState m b) p) = Ret (None, Fs (DState m' b') p) /\ dok b' f /\ aok m' L /\ refuses m (size file) /\
     forall x, owned lo hi L x -> ld8 (ram m') x = ld8 (ram m) x) \/
  (exists q n m' b', with_image k (Fs (DState m b) p) = k q (Fs (DState m' b') p) /\ dok b' f /\ L !! q = None /\
     0 < q /\ size file <= n /\ aok m' (<[q := n]> L) /\ bytes (ram m') q (size file) = file_data f p cs file /\
     forall x, owned lo hi L x -> ld8 (ram m') x = ld8 (ram m) x).
Proof using BR AL.
  intros Hok Hd Hg [U1 U2 U3 U4 U5 U6 U7 U8]. unfold with_image.
  destruct (find_in_chain_run rd dok junk f p (root_cluster p) root urld_name 16 m Hg U1 U2 (Z.to_nat (max_clusters p)) b junk Hd ltac:(lia))
    as (b1 & E1 & Hd1).
  rewrite (bind_run _ _ _ (Some file) (Fs (DState m b1) p)).
  2:{ unfold fat32_find_file. cbn [Z.eqb]. rewrite bind_gets. cbn [bpb]. rewrite E1. by rewrite <- U4. }
  rewrite bind_fs_say. destruct (Z.eqb_spec (size file) 0); [lia|]. destruct (Z.ltb_spec (1024 * 1024) (size file)); [lia|]. cbn [orb].
  set (m0 := add_serial _ m). pose proof (aok_say m L _ Hok : aok m0 L) as Hok0.
  destruct (load_data rd dok junk malloc free lo hi aok m0 b1 f p file cs L Hok0 Hd1 Hg ltac:(lia) U6 U7 U8) as (q & m1 & E2 & Hc).
  rewrite (bind_run _ _ _ _ _ (fs_mem_run _ _ b1 p _ _ E2)).
  destruct Hc as [(-> & Hok1 & Hk)|(kk & mm & b2 & Hq & HL & Hn & Hok2 & Hd2 & E3 & Hdat & Hk)].
  - left. eexists _, b1. split; [reflexivity|]. split_and!; [done|by apply aok_say|by eexists _, _|done].
  - right. exists q, kk. destruct (Z.eqb_spec q 0); [lia|]. rewrite (bind_run _ _ _ _ _ E3). cbn [negb]. rewrite bind_fs_say.
    eexists _, b2. split; [reflexivity|]. split_and!; try done; [by apply aok_say|]. intros x Hx. cbn. by apply Hk.
Qed.

Lemma load_is_with_image : load_userland_elf rd junk malloc free = with_image (fun buffer =>
  m ← gets fs_ram;
  if negb (elf_magic m buffer) then
    fs_say [line "[OS] [USER] Invalid ELF magic"];; fs_mem (free buffer);; mret None
  else
    fs_say [line "[OS] [USER] Valid ELF header"; SStr "[OS] [USER] Entry point: "; SU64 (e_entry m buffer); line ""];;
    ok ← load_segments free (Z.to_nat 65537) 0 buffer;
    if negb ok then mret None
    else
      m ← gets fs_ram;
      let entry := e_entry m buffer in
      fs_mem (free buffer);;
      fs_say [line "[OS] [USER] ELF loaded successfully"];;
      mret (Some entry)).
Proof using Type. reflexivity. Qed.

Lemma elf_magic_data m q data : holds m q data -> 4 <= Z.of_nat (length data) ->
  elf_magic m q = bool_decide (take 4 data = [0x7F; 69; 76; 70]).
Proof using Type.
  intros Hh Hl. unfold elf_magic. rewrite <- (Z.add_0_r q) at 1. rewrite !(holds8 m q data) by (done || lia).
  destruct data as [|c0 [|c1 [|c2 [|c3 data]]]]; cbn in Hl; try lia. unfold byte_at.
  change (Z.to_nat 0) with 0%nat. change (Z.to_nat 1) with 1%nat. change (Z.to_nat 2) with 2%nat. change (Z.to_nat 3) with 3%nat.
  cbn [lookup list_lookup default from_option id take]. apply eq_bool_prop_intro. rewrite !andb_True, bool_decide_spec.
  rewrite !Is_true_true, !Z.eqb_eq. split; [intros [[[-> ->] ->] ->]; done|by intros [= -> -> -> ->]].
Qed.

(** The whole loader on an image with the magic number whose segments are
    [good], up to one that is refused if there is one. *)
Lemma load_userland_elf_prefix m b f p root cs file L good rest :
  aok m L -> dok b f -> geometry p -> user_file f p root cs file ->
  let data := file_data f p cs file in
  elf_head data -> take 4 data = [0x7F; 69; 76; 70] ->
  segments data = good ++ rest -> Forall (seg_in (owned lo hi L) data) good -> match rest with [] => True | s :: _ => seg_refused s end ->
  exists r m' b', load_userland_elf rd junk malloc free (Fs (DState m b) p) = Ret (r, Fs (DState m' b') p) /\
    dok b' f /\ aok m' L /\
    ((r = None /\ refuses m (size file) /\ forall x, owned lo hi L x -> ld8 (ram m') x = ld8 (ram m) x) \/
     (r = match rest with [] => Some (elf_entry data) | _ => None end /\ forall x, owned lo hi L x -> ld8 (ram m') x = loaded data good (ram m) x)).
Proof using BR AL.
  intros Hok Hd Hg Hu data He K3 Hss K5 Hrest. rewrite load_is_with_image. set (kont := fun buffer : Z => _).
  destruct (with_image_run kont m b f p root cs file L Hok Hd Hg Hu) as [(m' & b' & E & Hd' & Hok' & Hno & Hk)|(q & n & m1 & b1 & -> & Hd1 & HL & Hq & Hn & Hok1 & Hdat & Hk)].
  { exists None, m', b'. split_and!; try done. by left. }
  unfold kont. fold data in Hdat. pose proof He as [K1 K2 K4].
  assert (Z.of_nat (length data) = size file) as Hlen.
  { rewrite <- Hdat. rewrite length_bytes. destruct Hu. lia. }
  rewrite <- Hlen in Hdat. change (holds (ram m1) q data) in Hdat.
  destruct (alloc_range m1 _ q n Hok1 (lookup_insert_eq _ _ _)) as (R0 & R1 & R2 & R3 & R4 & R5).
  rewrite bind_gets. change (fs_ram (Fs (DState m1 b1) p)) with (ram m1). rewrite (elf_magic_data _ q data) by (done || lia).
  rewrite bool_decide_eq_true_2 by done. cbn [negb]. rewrite bind_fs_say. set (es := [_; _; _; _]).
  pose proof (word16_at_range data 56 K1). unfold elf_phnum in K4.
  assert (forall x, owned lo hi L x -> x < q \/ q + n <= x) as Hz by (intros x; by apply (fresh_apart m1)).
  destruct (load_segments_prefix (owned lo hi L) free data q b1 p He ltac:(intros x Hx; specialize (Hz x Hx); lia) ltac:(lia) ltac:(lia) (Z.to_nat (elf_phnum data)) 0
    (add_serial es m1) (Z.to_nat 65537) good rest ltac:(lia)) as (es2 & mm & E & Hmm); [unfold elf_phnum; lia|unfold elf_phnum; lia|done| |done..|].
  { rewrite Z2Nat.id by (unfold elf_phnum; lia). exact Hss. }
  cbn [ram add_serial] in Hmm. set (m2 := add_serial es2 (set_ram mm (add_serial es m1))) in *.
  assert (forall x, ~ owned lo hi L x -> ld8 mm x = ld8 (ram m1) x) as Hin.
  { intros x Hx. rewrite Hmm. by apply (loaded_outside (owned lo hi L)). }
  assert (aok m2 (<[q := n]> L)) as Hok2.
  { apply (alloc_write m1); try done. intros x Hx. apply Hin. intros Ho. apply Hx. by apply owned_mono. }
  destruct (drop_buffer malloc free lo hi aok m2 L q n Hok2 HL) as (m3 & E3 & Hok3 & Hk3).
  assert (forall x, owned lo hi L x -> ld8 (ram m3) x = loaded data good (ram m) x) as Hx.
  { intros x Hx. rewrite Hk3 by done. unfold m2. cbn [ram add_serial set_ram]. rewrite Hmm. unfold loaded. by rewrite Hk. }
  cbv zeta in E. destruct rest as [|s rest].
  - rewrite (bind_run _ _ _ _ _ E). cbn [negb]. rewrite bind_gets. change (fs_ram (Fs (DState m2 b1) p)) with mm. cbv zeta.
    rewrite (bind_run _ _ _ _ _ (fs_mem_run _ _ b1 p _ _ E3)). rewrite bind_fs_say.
    eexists _, _, b1. split; [reflexivity|]. split_and!; [done|by apply aok_say|]. right. split; [|done].
    unfold e_entry. rewrite (holds64 mm q data); [done| |lia|lia]. eapply holds_agree; [|exact Hdat]. intros x Hx'. apply Hin. intros Ho. destruct (Hz x Ho); lia.
  - rewrite (bind_run _ _ (Fs (DState (add_serial es m1) b1) p) false (Fs (DState m3 b1) p)).
    2:{ rewrite E. by rewrite (bind_run _ _ _ _ _ (fs_mem_run _ _ b1 p _ _ E3)). }
    eexists _, _, b1. split; [reflexivity|]. split_and!; try done. by right.
Qed.

Lemma seg_ok_owned L data ss : Forall (seg_ok lo hi data) ss -> Forall (seg_in (owned lo hi L) data) ss.
Proof using Type. intros H. eapply Forall_impl; [exact H|]. intros s. apply seg_ok_in. unfold owned. tauto. Qed.

Lemma load_userland_elf_run m b f p root cs file L :
  aok m L -> dok b f -> geometry p -> user_file f p root cs file ->
  let data := file_data f p cs file in
  elf_ok lo hi data ->
  exists r m' b', load_userland_elf rd junk malloc free (Fs (DState m b) p) = Ret (r, Fs (DState m' b') p) /\
    dok b' f /\ aok m' L /\
    ((r = None /\ refuses m (size file) /\ forall x, owned lo hi L x -> ld8 (ram m') x = ld8 (ram m) x) \/
     (r = Some (elf_entry data) /\ forall x, owned lo hi L x -> ld8 (ram m') x = loaded data (segments data) (ram m) x)).
Proof using BR AL.
  intros Hok Hd Hg Hu data [He Hmag Hs].
  exact (load_userland_elf_prefix m b f p root cs file L (segments data) [] Hok Hd Hg Hu He Hmag (eq_sym (app_nil_r _)) (seg_ok_owned _ _ _ Hs) I).
Qed.

(** C3. [load_userland_elf] on a volume whose root directory has a valid
    image under the name URLD.ELF, none of whose segments reaches into the
    kernel heap: it returns the image's entry point, and each address holds
    the byte the image says (file bytes, zeros up to the memory size) or
    what it held before.  The heap buffer is given back and no allocation
    and no sector changes.  Only when the heap has no room for the file it
    returns false and writes nothing. *)
Theorem load_userland_elf_correct m b f p root cs file L :
  aok m L -> dok b f -> geometry p -> user_file f p root cs file ->
  let data := file_data f p cs file in
  elf_ok lo hi data ->
  exists r m' b', load_userland_elf rd junk malloc free (Fs (DState m b) p) = Ret (r, Fs (DState m' b') p) /\
    dok b' f /\ aok m' L /\
    ((r = None /\ refuses m (size file) /\ forall x, owned lo hi L x -> ld8 (ram m') x = ld8 (ram m) x) \/
     (r = Some (elf_entry data) /\ forall x, owned lo hi L x -> ld8 (ram m') x = loaded data (segments data) (ram m) x)).
Proof using BR AL. apply load_userland_elf_run. Qed.

Lemma magic_refused m b f p root cs file L :
  aok m L -> dok b f -> geometry p -> user_file f p root cs file -> 4 <= Z.of_nat (length (file_data f p cs file)) ->
  take 4 (file_data f p cs file) <> [0x7F; 69; 76; 70] ->
  exists m' b', load_userland_elf rd junk malloc free (Fs (DState m b) p) = Ret (None, Fs (DState m' b') p) /\
    dok b' f /\ aok m' L /\ forall x, owned lo hi L x -> ld8 (ram m') x = ld8 (ram m) x.
Proof using BR AL.
  intros Hok Hd Hg Hu Hs Hm. rewrite load_is_with_image. set (kont := fun buffer : Z => _).
  destruct (with_image_run kont m b f p root cs file L Hok Hd Hg Hu) as [(m' & b' & E & Hd' & Hok' & Hno & Hk)|(q & n & m1 & b1 & -> & Hd1 & HL & Hq & Hn & Hok1 & Hdat & Hk)].
  { by exists m', b'. }
  unfold kont. set (data := file_data f p cs file) in *.
  assert (Z.of_nat (length data) = size file) as Hlen by (rewrite <- Hdat, length_bytes; destruct Hu; lia).
  rewrite <- Hlen in Hdat. change (holds (ram m1) q data) in Hdat.
  rewrite bind_gets. change (fs_ram (Fs (DState m1 b1) p)) with (ram m1). rewrite (elf_magic_data _ q data) by (done || lia).
  rewrite bool_decide_eq_false_2 by done. cbn [negb]. rewrite bind_fs_say. set (es := [_]).
  destruct (drop_buffer malloc free lo hi aok (add_serial es m1) L q n (aok_say _ _ _ Hok1) HL) as (m3 & E3 & Hok3 & Hk3).
  rewrite (bind_run _ _ _ _ _ (fs_mem_run _ _ b1 p _ _ E3)).
  exists m3, b1. split_and!; try done. intros x Hx. rewrite Hk3 by done. by apply Hk.
Qed.

(** The images the loader refuses, with the segments before the refusal. *)
Inductive refused (data : list Z) : list seg -> Prop :=
| refused_magic : 4 <= Z.of_nat (length data) -> take 4 data <> [0x7F; 69; 76; 70] -> refused data []
| refused_segment good s rest : elf_head data -> take 4 data = [0x7F; 69; 76; 70] ->
    segments data = good ++ s :: rest -> Forall (seg_ok lo hi data) good -> seg_refused s -> refused data good.

(** C34. An image without the ELF magic number, or with a segment that is
    smaller in memory than in the file or not between 4 MiB and 2 GiB, the
    segments before it being valid and outside the kernel heap, is refused:
    [load_userland_elf] returns false and gives its buffer back, and no
    allocation and no sector changes.  The segments before the bad one have
    been loaded and stay, unless the heap had no room for the file. *)
Theorem bad_image_refused m b f p root cs file L good :
  aok m L -> dok b f -> geometry p -> user_file f p root cs file ->
  let data := file_data f p cs file in
  refused data good ->
  exists m' b', load_userland_elf rd junk malloc free (Fs (DState m b) p) = Ret (None, Fs (DState m' b') p) /\
    dok b' f /\ aok m' L /\
    ((refuses m (size file) /\ forall x, owned lo hi L x -> ld8 (ram m') x = ld8 (ram m) x) \/
     (forall x, owned lo hi L x -> ld8 (ram m') x = loaded data good (ram m) x)).
Proof using BR AL.
  intros Hok Hd Hg Hu data [Hl Hm|good' s rest He Hm Hss Hgood Hs].
  - destruct (magic_refused m b f p root cs file L Hok Hd Hg Hu) as (m' & b' & E & Hd' & Hok' & Hx); [exact Hl|exact Hm|].
    exists m', b'. split_and!; try done. right. exact Hx.
  - destruct (load_userland_elf_prefix m b f p root cs file L good' (s :: rest) Hok Hd Hg Hu He Hm Hss (seg_ok_owned _ _ _ Hgood) Hs)
      as (r & m' & b' & E & Hd' & Hok' & [(-> & Hno & Hx)|[-> Hx]]);
      exists m', b'; (split; [exact E|]); split_and!; try done; [left|right]; auto.
Qed.

(** C38. The loader's range check lets a segment lie in the kernel heap.
    When the last segment lies in a live allocation of somebody else (and
    the other segments where allocations or no heap are), the loader reports
    success and the allocation's bytes have been replaced by the segment's:
    the file bytes, then zeros.  The linker script puts the user program at
    0x400000, which the 16 MiB heap covers when the kernel's image ends
    below that address. *)
Theorem loader_overwrites_heap m b f p root cs file L pre s a n :
  aok m L -> dok b f -> geometry p -> user_file f p root cs file ->
  let data := file_data f p cs file in
  elf_head data -> take 4 data = [0x7F; 69; 76; 70] ->
  segments data = pre ++ [s] -> Forall (seg_in (owned lo hi L) data) (pre ++ [s]) ->
  L !! a = Some n -> a <= s_addr s -> s_addr s + s_memsz s <= a + n ->
  exists r m' b', load_userland_elf rd junk malloc free (Fs (DState m b) p) = Ret (r, Fs (DState m' b') p) /\ aok m' L /\
    ((r = None /\ refuses m (size file)) \/
     (r = Some (elf_entry data) /\
      forall x, s_addr s <= x < s_addr s + s_memsz s ->
        ld8 (ram m') x = if x <? s_addr s + s_filesz s then byte_at data (s_off s + (x - s_addr s)) else 0)).
Proof using BR AL.
  intros Hok Hd Hg Hu data He Hm Hss Hs HL Ha Hn.
  destruct (load_userland_elf_prefix m b f p root cs file L (pre ++ [s]) [] Hok Hd Hg Hu He Hm) as (r & m' & b' & E & _ & Hok' & Hc);
    [by rewrite app_nil_r|exact Hs|done|].
  exists r, m', b'. split; [exact E|]. split; [exact Hok'|]. destruct Hc as [(-> & Hno & _)|[-> Hx]]; [by left|right]. split; [done|].
  intros x Hr. rewrite Hx by (right; right; exists a, n; split; [done|lia]).
  unfold loaded. rewrite fold_left_app. cbn [fold_left]. unfold seg_byte. zcases; (lia || done).
Qed.
End Theorems.

(** ** On the empty kernel heap

    The loader's only allocation is the file buffer.  While the kernel heap
    has no other, an image may also lie in its unused part, from some
    distance above the buffer on. *)
Section KernelHeap.
Context {B : Type} (rd : Z -> Z -> Z -> mem -> M (dstate B) (bool * mem)) (dok : B -> contents -> Prop)
  {BR : BlockReader B rd dok} (junk : mem).

Lemma load_same_malloc malloc malloc' free m b f p root cs file :
  dok b f -> geometry p -> user_file f p root cs file ->
  (forall es, malloc (size file) (add_serial es m) = malloc' (size file) (add_serial es m)) ->
  load_userland_elf rd junk malloc free (Fs (DState m b) p) = load_userland_elf rd junk malloc' free (Fs (DState m b) p).
Proof using BR.
  intros Hd Hg [U1 U2 U3 U4 U5 _ _ _] Heq. rewrite !load_is_with_image. unfold with_image.
  destruct (find_in_chain_run rd dok junk f p (root_cluster p) root urld_name 16 m Hg U1 U2 (Z.to_nat (max_clusters p)) b junk Hd ltac:(lia))
    as (b1 & E1 & _).
  assert (fat32_find_file rd junk urld_name 16 (Fs (DState m b) p) = Ret (Some file, Fs (DState m b1) p)) as E.
  { unfold fat32_find_file. cbn [Z.eqb]. rewrite bind_gets. cbn [bpb]. rewrite E1. by rewrite <- U4. }
  rewrite !(bind_run _ _ _ _ _ E), !bind_fs_say. destruct (Z.eqb_spec (size file) 0); [lia|]. destruct (Z.ltb_spec (1024 * 1024) (size file)); [lia|].
  cbn [orb]. unfold mbind at 1 3, M_bind. unfold fs_mem, on_dev, on_mach, zoom. cbn [fdev mach bus bpb]. by rewrite Heq.
Qed.

Lemma load_below lo top m b f p root cs file :
  heap_ok lo m ∅ -> dok b f -> geometry p -> user_file f p root cs file -> lo + size file + 103 <= top <= lo + HEAP_BYTES ->
  let data := file_data f p cs file in
  elf_ok lo top data ->
  exists m' b', load_userland_elf rd junk kmalloc kfree (Fs (DState m b) p) = Ret (Some (elf_entry data), Fs (DState m' b') p) /\
    dok b' f /\ heap_ok lo m' ∅ /\ forall x, x < lo \/ top <= x -> ld8 (ram m') x = loaded data (segments data) (ram m) x.
Proof using BR.
  intros Hok Hd Hg Hu Htop data He. pose proof (uf_size _ _ _ _ _ Hu) as Hsz.
  assert (forall es, kmalloc_below top (size file) (add_serial es m) = kmalloc (size file) (add_serial es m) /\
    exists s', kmalloc (size file) (add_serial es m) = Ret (lo + 16, s') /\ lo + 16 <> 0) as Hserve.
  { intros es. apply (empty_part_serves lo top); [|lia|lia]. by apply (aok_say kmalloc kfree lo (lo + HEAP_BYTES) (heap_ok lo)). }
  rewrite (load_same_malloc kmalloc (kmalloc_below top) kfree m b f p root cs file Hd Hg Hu) by (intros es; symmetry; apply Hserve).
  destruct (load_userland_elf_run rd dok junk (kmalloc_below top) kfree lo top (part_ok lo top) m b f p root cs file ∅
    (empty_heap_part lo top m Hok ltac:(lia)) Hd Hg Hu He) as (r & m' & b' & E & Hd' & Hok' & Hc).
  destruct Hc as [(_ & (es & s' & Hno) & _)|[-> Hx]].
  - exfalso. destruct (Hserve es) as (Hsame & s'' & E' & Hne). rewrite Hsame, E' in Hno. injection Hno as H0 _. exact (Hne H0).
  - exists m', b'. split_and!; [exact E|exact Hd'|by apply (part_heap lo top)|]. intros x Hx'. apply Hx. unfold owned. tauto.
Qed.

(** Where an image may lie that is loaded with allocations [L] live: outside
    the heap, or, when there are none, also in the heap above [top]. *)
Definition image_placed (lo top : Z) (L : gmap Z Z) (n : Z) (data : list Z) : Prop :=
  elf_ok lo top data /\ (top = lo + HEAP_BYTES \/ (L = ∅ /\ lo + n + 103 <= top <= lo + HEAP_BYTES)).

Lemma kernel_load_run lo top m b f p root cs file L :
  heap_ok lo m L -> dok b f -> geometry p -> user_file f p root cs file ->
  let data := file_data f p cs file in
  image_placed lo top L (size file) data ->
  exists r m' b', load_userland_elf rd junk kmalloc kfree (Fs (DState m b) p) = Ret (r, Fs (DState m' b') p) /\
    dok b' f /\ heap_ok lo m' L /\
    ((r = None /\ refuses kmalloc m (size file) /\ forall x, owned lo top L x -> ld8 (ram m') x = ld8 (ram m) x) \/
     (r = Some (elf_entry data) /\ forall x, owned lo top L x -> ld8 (ram m') x = loaded data (segments data) (ram m) x)).
Proof using BR.
  intros Hok Hd Hg Hu data [He [->|[-> Htop]]].
  - exact (load_userland_elf_run rd dok junk kmalloc kfree lo _ (heap_ok lo) m b f p root cs file L Hok Hd Hg Hu He).
  - destruct (load_below lo top m b f p root cs file Hok Hd Hg Hu Htop He) as (m' & b' & E & Hd' & Hok' & Hx).
    eexists _, m', b'. split; [exact E|]. split_and!; [done|done|]. right. split; [done|].
    intros x Hx'. apply Hx. destruct Hx' as [?|[?|(q & n & Hq & _)]]; [by left|by right|]. by rewrite lookup_empty in Hq.
Qed.
End KernelHeap.

(** ** A volume with a small image

    One segment of four file bytes and eight bytes of memory at [addr]. *)

Definition le64 (v : Z) : list Z := (fun k => v / 256 ^ k mod 256) <$> seqZ 0 8.
Definition elf_bytes (addr : Z) : list Z :=
  [0x7F; 69; 76; 70] ++ replicate 20 0 ++ le64 addr ++ le64 64 ++ replicate 16 0 ++ [1; 0] ++ replicate 6 0 ++
  [1; 0; 0; 0] ++ replicate 4 0 ++ le64 120 ++ le64 addr ++ le64 addr ++ le64 4 ++ le64 8 ++ le64 1 ++ [0xEB; 0xFE; 0x90; 0x90].
Definition elf_sector (image : list Z) : list Z := sector_of (fun i => byte_at image i).
Definition elf_root : list Z := sector_of (fun i =>
  if i <? 11 then byte_at (chars "URLD    ELF") i else if i =? 26 then 3 else if i =? 28 then 124 else 0).
Definition elf_fat : list Z := sector_of (fun i =>
  if (8 <=? i) && (i <? 16) then (if (i =? 11) || (i =? 15) then 15 else 255) else 0).
(** A volume with this root directory and file. *)
Definition volume_with (root image : list Z) : contents := {[0 := boot_sector; 1 := elf_fat; 2 := root; 3 := elf_sector image]}.
Definition drive_with (root image : list Z) : sim :=
  Sim {[2048 := boot_sector; 2049 := elf_fat; 2050 := root; 2051 := elf_sector image]} 0 0 0 0 SimIdle.
Definition elf_volume (image : list Z) : contents := volume_with elf_root image.
Definition elf_drive (image : list Z) : sim := drive_with elf_root image.
Definition elf_file : FAT32_FILE := File (chars "URLD    ELF" ++ [0]) 3 124.

(** ** Witnesses *)

Lemma elf_bytes_list addr : byte_list (elf_bytes addr).
Proof.
  unfold byte_list, elf_bytes, le64. rewrite !Forall_app. split_and!; try (repeat constructor; lia);
    apply Forall_fmap, Forall_forall; intros k _; cbn; word_lia.
Qed.

Lemma volume_with_ok root image : byte_list image -> length root = 512%nat /\ byte_list root -> ata_disk (drive_with root image) (volume_with root image).
Proof.
  intros Hb Hroot. exists (sim_disk (drive_with root image)). split; [split; [reflexivity|]|].
  - unfold drive_with. cbn [sim_disk]. intros lba l.
    repeat (rewrite lookup_insert_Some; intros [[<- <-]|[_ Hl]]; [|revert Hl]);
      try (intros [<- <-]%lookup_singleton_Some); try (intros _);
      first [exact Hroot|apply sector_of_ok; intros i Hi; try (by apply byte_at_range); zcases; try lia;
      apply byte_at_range; vm_compute; repeat constructor; congruence].
  - intros lba. unfold volume_with, drive_with. cbn [sim_disk]. rewrite !lookup_insert, !lookup_singleton.
    repeat case_decide; unfold LBA_LIMIT; zcases; try lia; reflexivity.
Qed.

Lemma elf_volume_ok image : byte_list image -> ata_disk (elf_drive image) (elf_volume image).
Proof.
  intros Hb. apply volume_with_ok; [done|]. apply sector_of_ok. intros i Hi. zcases; try lia.
  apply byte_at_range. vm_compute. repeat constructor; congruence.
Qed.

Lemma elf_user_file image : user_file (elf_volume image) volume_bpb [2] [3] elf_file.
Proof.
  split; try (vm_compute; reflexivity); try (cbn; lia); try (vm_compute; congruence).
  - apply (chain_last _ _ 2 0x0FFFFFFF); try (vm_compute; reflexivity). split; [cbn; lia|split; [lia|vm_compute; congruence]].
  - repeat constructor. intros i Hi. cbn in Hi. assert (i = 0) as -> by lia. vm_compute. eauto.
  - apply (chain_last _ _ 3 0x0FFFFFFF); try (vm_compute; reflexivity). split; [cbn; lia|split; [lia|vm_compute; congruence]].
  - repeat constructor. intros i Hi. cbn in Hi. assert (i = 0) as -> by lia. vm_compute. eauto.
Qed.

Lemma elf_image_data : file_data (elf_volume (elf_bytes 0x2000000)) volume_bpb [3] elf_file = elf_bytes 0x2000000.
Proof. vm_compute. reflexivity. Qed.

Lemma elf_image_ok : elf_ok 0x180000 0x1180000 (elf_bytes 0x2000000).
Proof.
  split; [split; [apply elf_bytes_list|vm_compute; congruence..]|reflexivity|].
  assert (segments (elf_bytes 0x2000000) = [Seg 120 0x2000000 4 8]) as -> by (vm_compute; reflexivity).
  constructor; [|constructor]. split; cbn; try lia. vm_compute; congruence.
Qed.

(** The booted kernel's heap has room for the file. *)
Lemma booted_room : ~ refuses kmalloc booted (size elf_file).
Proof.
  intros (es & m' & Hno). destruct (empty_heap_serves 0x180000 (add_serial es booted) (size elf_file) booted_heap) as (s' & E & _);
    [split; vm_compute; congruence|]. rewrite E in Hno. discriminate Hno.
Qed.

Lemma load_userland_elf_correct_witness : exists s,
  load_userland_elf disk_read ∅ kmalloc kfree (Fs (DState booted (elf_drive (elf_bytes 0x2000000))) volume_bpb) = Ret (Some 0x2000000, s) /\
  ld8 (fs_ram s) 0x2000000 = 0xEB.
Proof.
  destruct (load_userland_elf_correct disk_read ata_disk ∅ kmalloc kfree 0x180000 _ (heap_ok 0x180000)
    booted (elf_drive (elf_bytes 0x2000000)) (elf_volume (elf_bytes 0x2000000)) volume_bpb [2] [3] elf_file ∅ booted_heap (elf_volume_ok _ (elf_bytes_list _)) volume_geometry (elf_user_file _)
    ltac:(rewrite elf_image_data; exact elf_image_ok)) as (r & m' & b' & E & _ & _ & Hr).
  destruct Hr as [(_ & Hno & _)|[-> Hx]]; [by destruct booted_room|]. exists (Fs (DState m' b') volume_bpb). rewrite elf_image_data in Hx, E. split; [exact E|].
  change (fs_ram _) with (ram m'). rewrite (Hx 0x2000000); [vm_compute; reflexivity|]. right; left; unfold HEAP_BYTES; vm_compute; congruence.
Defined.

(** An image with two segments, the second below 4 MiB.  To save space its
    segment table begins at 8, inside the header. *)
Definition bad_bytes : list Z :=
  [0x7F; 69; 76; 70] ++ replicate 4 0 ++ [1; 0; 0; 0] ++ replicate 4 0 ++ le64 120 ++ le64 0x2000000 ++ le64 8 ++ le64 4 ++ le64 8 ++ le64 2 ++
  [1; 0; 0; 0] ++ replicate 4 0 ++ le64 120 ++ le64 0x1000 ++ le64 0x1000 ++ le64 4 ++ le64 8 ++ le64 1 ++ [0xEB; 0xFE; 0x90; 0x90].

Lemma bad_bytes_refused : byte_list bad_bytes /\ refused 0x180000 0x1180000 bad_bytes [Seg 120 0x2000000 4 8].
Proof.
  assert (byte_list bad_bytes) as Hb by (apply (bool_decide_unpack _); vm_compute; exact I). split; [done|].
  apply (refused_segment _ _ _ _ (Seg 120 0x1000 4 8) []).
  - split; [done|vm_compute; congruence..].
  - reflexivity.
  - vm_compute. reflexivity.
  - constructor; [|constructor]. split; cbn; try lia. vm_compute; congruence.
  - right. left. cbn. lia.
Qed.

Lemma bad_image_refused_witness : exists s,
  load_userland_elf disk_read ∅ kmalloc kfree (Fs (DState booted (elf_drive bad_bytes)) volume_bpb) = Ret (None, s) /\ ld8 (fs_ram s) 0x2000000 = 0xEB.
Proof.
  destruct (bad_image_refused disk_read ata_disk ∅ kmalloc kfree 0x180000 _ (heap_ok 0x180000)
    booted (elf_drive bad_bytes) (elf_volume bad_bytes) volume_bpb [2] [3] elf_file ∅ _ booted_heap (elf_volume_ok _ (proj1 bad_bytes_refused)) volume_geometry
    (elf_user_file _) (eq_ind _ (fun d => refused _ _ d _) (proj2 bad_bytes_refused) _ ltac:(vm_compute; reflexivity))) as (m' & b' & E & _ & _ & Hr).
  destruct Hr as [[Hno _]|Hx]; [by destruct booted_room|]. eexists. split; [exact E|].
  change (fs_ram _) with (ram m'). rewrite (Hx 0x2000000); [vm_compute; reflexivity|]. right; left; unfold HEAP_BYTES; vm_compute; congruence.
Defined.

(** The kernel with a live allocation of 3 MiB, as big as a frame buffer,
    and the image where the linker script puts it. *)
Definition big_blocks : list blk := alloc_abs boot_block 0x300000.
Lemma big_allocation : exists m1, kmalloc 0x300000 booted = Ret (0x180010, m1) /\ mem_ok m1 big_blocks /\ heap_ok 0x180000 m1 {[0x180010 := 0x300000]}.
Proof.
  destruct (heap_inv_malloc booted [boot_block] 0x300000 booted_inv ltac:(lia)) as (p & m1 & bs & E & Hinv & (_ & _ & _ & U4 & _) & Hc).
  destruct (empty_heap_serves 0x180000 booted 0x300000 booted_heap ltac:(vm_compute; split; congruence)) as (m2 & E2 & _).
  rewrite E2 in E. injection E as <- <-. exists m2. split; [exact E2|].
  destruct Hc as [[Hz _]|(pre & b & post & Hb & _ & _ & _ & -> & _)]; [discriminate Hz|].
  destruct pre as [|? [|? ?]]; injection Hb as <- Hb; try discriminate Hb. subst post. rewrite app_nil_l, app_nil_r in Hinv.
  change (alloc_abs boot_block (align_up 0x300000 8)) with big_blocks in Hinv. split; [exact (proj1 Hinv)|].
  exists big_blocks. split; [exact Hinv|]. split; [rewrite U4; vm_compute; reflexivity|vm_compute; reflexivity].
Qed.

Lemma big_room m1 : mem_ok m1 big_blocks -> ~ refuses kmalloc m1 (size elf_file).
Proof.
  intros Hok (es & m' & Hno).
  destruct (heap_serves (add_serial es m1) big_blocks (Blk 0x480010 13631456 true) (size elf_file) Hok) as (c & pre & post & s' & _ & E & Hne).
  - vm_compute. right. left.
  - vm_compute. reflexivity.
  - split; vm_compute; congruence.
  - rewrite E in Hno. injection Hno as H0 _. exact (Hne H0).
Qed.

Lemma loader_overwrites_heap_witness : exists m1 s, kmalloc 0x300000 booted = Ret (0x180010, m1) /\
  load_userland_elf disk_read ∅ kmalloc kfree (Fs (DState m1 (elf_drive (elf_bytes 0x400000))) volume_bpb) = Ret (Some 0x400000, s) /\
  ld8 (fs_ram s) 0x400000 = 0xEB.
Proof.
  destruct big_allocation as (m1 & E1 & Hmok & Hok).
  assert (file_data (elf_volume (elf_bytes 0x400000)) volume_bpb [3] elf_file = elf_bytes 0x400000) as Hdata by (vm_compute; reflexivity).
  destruct (loader_overwrites_heap disk_read ata_disk ∅ kmalloc kfree 0x180000 _ (heap_ok 0x180000)
    m1 (elf_drive (elf_bytes 0x400000)) (elf_volume (elf_bytes 0x400000)) volume_bpb [2] [3] elf_file {[0x180010 := 0x300000]} [] (Seg 120 0x400000 4 8) 0x180010 0x300000
    Hok (elf_volume_ok _ (elf_bytes_list _)) volume_geometry (elf_user_file _)) as (r & m' & b' & E & _ & Hr).
  - rewrite Hdata. split; [apply elf_bytes_list|vm_compute; congruence..].
  - rewrite Hdata. reflexivity.
  - rewrite Hdata. vm_compute. reflexivity.
  - rewrite Hdata. constructor; [|constructor]. split; cbn; try lia; [vm_compute; congruence|].
    intros x Hx. right; right. exists 0x180010, 0x300000. split; [reflexivity|lia].
  - apply lookup_singleton_eq.
  - cbn. lia.
  - cbn. lia.
  - destruct Hr as [[_ Hno]|[-> Hx]]; [by destruct (big_room m1 Hmok)|]. rewrite Hdata in E, Hx.
    exists m1, (Fs (DState m' b') volume_bpb). split; [exact E1|]. split; [exact E|]. exact (Hx 0x400000 ltac:(cbn; lia)).
Defined.
