(* ===== verification/UserHeap.v ===== *)
(** * Memory and allocation as a user program sees them

    [HasRam] gives a state's memory, [UserHeap] states what [kmalloc] and
    [kfree] promise a program over such a state.  The kernel's own allocator
    interface is one instance ([kernel_user_heap]). *)
From S2P Require Import Prelude Machine Utils Serial Memory Heap HeapChain HeapInv Alloc.

Class HasRam (S : Type) := { ram_of : S -> mem; set_ram_of : mem -> S -> S }.
#[export] Instance mstate_has_ram : HasRam mstate := {| ram_of := ram; set_ram_of := set_ram |}.
Definition upd_ram {S} `{HasRam S} (f : mem -> mem) : M S unit := modify (fun s => set_ram_of (f (ram_of s)) s).

(** The bytes an operation leaves alone. *)
Definition same_owned {S} `{HasRam S} (lo hi : Z) (L : gmap Z Z) (s s' : S) : Prop :=
  forall x, owned lo hi L x -> ld8 (ram_of s') x = ld8 (ram_of s) x.

Class UserHeap {S : Type} `{HasRam S} (malloc : Z -> M S Z) (free : Z -> M S unit) (lo hi : Z)
    (ok : S -> gmap Z Z -> Prop) : Prop := {
  uh_put s m : ram_of (set_ram_of m s) = m;
  uh_put_put s m m' : set_ram_of m (set_ram_of m' s) = set_ram_of m s;
  uh_malloc s L size : ok s L -> 0 < size <= 4294967288 ->
    exists p s', malloc size s = Ret (p, s') /\ same_owned lo hi L s s' /\
      ((p = 0 /\ ok s' L) \/ (p <> 0 /\ L !! p = None /\ exists n, size <= n /\ ok s' (<[p := n]> L)));
  uh_free s L p n : ok s L -> L !! p = Some n ->
    exists s', free p s = Ret (tt, s') /\ same_owned lo hi L s s' /\ ok s' (delete p L);
  uh_range s L p n : ok s L -> L !! p = Some n -> 0 < lo /\ lo <= p /\ 0 < n < 4294967296 /\ p + n <= hi /\ hi < 2 ^ 63;
  uh_disjoint s L p n q k : ok s L -> L !! p = Some n -> L !! q = Some k -> p = q \/ p + n <= q \/ q + k <= p;
  uh_write s L m : ok s L -> (forall x, ~ owned lo hi L x -> ld8 m x = ld8 (ram_of s) x) -> ok (set_ram_of m s) L
}.

(** ** What programs use *)

Section Programs.
Context {S : Type} `{HasRam S} (malloc : Z -> M S Z) (free : Z -> M S unit) (lo hi : Z)
  (ok : S -> gmap Z Z -> Prop) {UH : UserHeap malloc free lo hi ok}.
Implicit Types (s : S) (L : gmap Z Z).

Lemma same_owned_refl L s : same_owned lo hi L s s.
Proof using Type. intros x _. reflexivity. Qed.
Lemma same_owned_trans L s1 s2 s3 : same_owned lo hi L s1 s2 -> same_owned lo hi L s2 s3 -> same_owned lo hi L s1 s3.
Proof using Type. intros H1 H2 x Hx. by rewrite H2, H1. Qed.
Lemma same_owned_insert L p n s s' : L !! p = None -> same_owned lo hi (<[p := n]> L) s s' -> same_owned lo hi L s s'.
Proof using Type. intros HL Hs x Hx. apply Hs. by apply owned_mono. Qed.

Lemma user_fresh s L p n x : ok s (<[p := n]> L) -> L !! p = None -> owned lo hi L x -> x < p \/ p + n <= x.
Proof using UH.
  intros Hok HL Hx. destruct (uh_range s _ p n Hok (lookup_insert_eq _ _ _)) as (_ & R1 & R2 & R3 & _).
  destruct Hx as [?|[?|(q & k & Hq & Hx)]]; [lia|lia|].
  destruct (uh_disjoint s (<[p := n]> L) q k p n Hok) as [->|[?|?]]; try lia; [|apply lookup_insert_eq|congruence].
  rewrite lookup_insert_ne by congruence. exact Hq.
Qed.

(** The owner of an allocation may write to it. *)
Lemma user_write s m L p n : ok s L -> L !! p = Some n -> (forall x, x < p \/ p + n <= x -> ld8 m x = ld8 (ram_of s) x) ->
  ok (set_ram_of m s) L.
Proof using UH.
  intros Hok HL Hx. apply uh_write; [done|]. intros x Hno. apply Hx.
  destruct (Z.lt_ge_cases x p); [lia|]. destruct (Z.le_gt_cases (p + n) x); [lia|].
  exfalso. apply Hno. right; right. exists p, n. split; [done|lia].
Qed.

(** A write to a fresh allocation, seen by the others. *)
Lemma user_write_fresh s m L p n : ok s (<[p := n]> L) -> L !! p = None ->
  (forall x, x < p \/ p + n <= x -> ld8 m x = ld8 (ram_of s) x) -> same_owned lo hi L s (set_ram_of m s).
Proof using UH. intros Hok HL Hx x Ho. rewrite uh_put. apply Hx. by apply (user_fresh s L). Qed.

Lemma user_drop s L q k : ok s (<[q := k]> L) -> L !! q = None ->
  exists s', free q s = Ret (tt, s') /\ ok s' L /\ same_owned lo hi (<[q := k]> L) s s'.
Proof using UH.
  intros Hok HL. destruct (uh_free s _ q k Hok (lookup_insert_eq _ _ _)) as (s' & E & Hk & Hok').
  rewrite delete_insert_id in Hok' by done. by exists s'.
Qed.
End Programs.

(** ** The kernel's allocator *)

Lemma allocator_user_heap malloc free lo hi aok : Allocator malloc free lo hi aok -> hi < 2 ^ 63 -> UserHeap malloc free lo hi aok.
Proof.
  intros AL Hhi. split.
  - reflexivity.
  - reflexivity.
  - intros s L size Hok Hs. destruct (alloc_malloc s L size Hok Hs) as (p & s' & E & (_ & _ & _ & Hk) & Hr).
    exists p, s'. split_and!; [done|exact Hk|]. destruct Hr as [?|(? & ? & n & ? & ? & _)]; [by left|right]. split_and!; [done..|]. by exists n.
  - intros s L p n Hok HL. destruct (alloc_free s L p n Hok HL) as (s' & E & (_ & _ & _ & Hk) & Hok' & _). exists s'. by split_and!.
  - intros s L p n Hok HL. destruct (alloc_range s L p n Hok HL) as (? & ? & ? & ? & _ & _). split_and!; lia.
  - intros s L p n q k. apply alloc_disjoint.
  - intros s L m Hok Hx. by apply (alloc_write s).
Qed.

Lemma kernel_user_heap lo : lo < 2 ^ 62 -> UserHeap kmalloc kfree lo (lo + HEAP_BYTES) (heap_ok lo).
Proof. intros Hlo. apply allocator_user_heap; [apply _|]. change HEAP_BYTES with 16777216. lia. Qed.
