(* ===== verification/Png.v ===== *)
(** * The PNG decoder (Userland/Application/PNG_Decoder/PNG_Decoder.c)

    The decoder runs in the user program.  Its [kmalloc], [kfree], [memcpy]
    and [memcmp] are system calls (Userland.c); [kmalloc] and [kfree] are
    parameters here, the other two are the routines the calls run.  The
    signature it compares with is a static array at [sig].  In [read_be32] a
    first byte above 127 is shifted into the sign bit, undefined in C; the
    model gives it the 32-bit wrap-around. *)
From S2P Require Import Prelude Machine Utils Serial Memory Alloc UserHeap.

Definition read_be32 (m : mem) (p : Z) : Z :=
  u32 (Z.lor (Z.lor (Z.lor (Z.shiftl (ld8 m p) 24) (Z.shiftl (ld8 m (p + 1)) 16)) (Z.shiftl (ld8 m (p + 2)) 8)) (ld8 m (p + 3))).

(** ** png_unfilter *)

(** [row[x] += v] *)
Definition add_byte (m : mem) (a v : Z) : mem := st8 m a (ld8 m a + v).

(** Filter 4's choice among the left, upper and upper left neighbour. *)
Definition paeth_choice (a b c : Z) : Z :=
  let p := a + b - c in
  let pa := if a <? p then p - a else a - p in
  let pb := if b <? p then p - b else b - p in
  let pc := if c <? p then p - c else c - p in
  if (pa <=? pb) && (pa <=? pc) then a else if pb <=? pc then b else c.

(** The switch over the filter of one row; [prev] is NULL in the first. *)
Definition unfilter_row (filter prev row stride : Z) (m : mem) : mem :=
  if filter =? 1 then
    for_up (Z.to_nat (stride - 4)) 4 (fun x m => add_byte m (row + x) (ld8 m (row + (x - 4)))) m
  else if filter =? 2 then
    if negb (prev =? 0) then
      for_up (Z.to_nat stride) 0 (fun x m => add_byte m (row + x) (ld8 m (prev + x))) m
    else m
  else if filter =? 3 then
    for_up (Z.to_nat stride) 0 (fun x m =>
      let left := if 4 <=? x then ld8 m (row + (x - 4)) else 0 in
      let up := if negb (prev =? 0) then ld8 m (prev + x) else 0 in
      add_byte m (row + x) ((left + up) / 2)) m
  else if filter =? 4 then
    for_up (Z.to_nat stride) 0 (fun x m =>
      let a := if 4 <=? x then ld8 m (row + (x - 4)) else 0 in
      let b := if negb (prev =? 0) then ld8 m (prev + x) else 0 in
      let c := if (4 <=? x) && negb (prev =? 0) then ld8 m (prev + (x - 4)) else 0 in
      add_byte m (row + x) (paeth_choice a b c)) m
  else m.

Definition png_unfilter (data width height : Z) (m : mem) : mem :=
  let stride := u32 (width * 4) in
  snd (for_up (Z.to_nat height) 0 (fun _ '(prev, cur, m) =>
    let filter := ld8 m cur in
    let row := cur + 1 in
    let m := unfilter_row filter prev row stride m in
    (row, cur + u32 (stride + 1), m)) (0, data, m)).

(** ** The chunks *)

Record png_info := PngInfo { width : Z; height : Z; idat : Z; idat_size : Z }.

(** The loop over the chunks from [p]; [None] when the function returns
    NULL from inside it. *)
Fixpoint scan_chunks (fuel : nat) (m : mem) (p stop : Z) (c : png_info) : outcome (option png_info) :=
  match fuel with
  | O => NoFuel
  | S f =>
      if negb (p <? stop) then Ret (Some c)
      else
        let len := read_be32 m p in
        let p := u64 (p + 4) in
        let type := read_be32 m p in
        let p := u64 (p + 4) in
        let next := u64 (p + u32 (len + 4)) in
        if type =? 0x49484452 then
          if negb (ld8 m (p + 8) =? 8) || negb (ld8 m (p + 9) =? 6) || negb (ld8 m (p + 12) =? 0) then Ret None
          else scan_chunks f m next stop (PngInfo (read_be32 m p) (read_be32 m (p + 4)) (idat c) (idat_size c))
        else if type =? 0x49444154 then scan_chunks f m next stop (PngInfo (width c) (height c) p len)
        else if type =? 0x49454E44 then Ret (Some c)
        else scan_chunks f m next stop c
  end.

Section Decoder.
Context {S : Type} `{HasRam S} (sig : Z) (kmalloc : Z -> M S Z) (kfree : Z -> M S unit).

(** The one stored block; the result and [*out_size]. *)
Definition zlib_decompress_uncompressed (data size : Z) : M S (option (Z * Z)) :=
  if size <? 6 then mret None
  else
    m ← gets ram_of;
    let p := data + 2 in
    let btype := Z.land (Z.shiftr (ld8 m p) 1) 0x3 in
    if negb (btype =? 0) then mret None
    else
      let p := p + 1 in
      let len := u16 (Z.lor (ld8 m p) (Z.shiftl (ld8 m (p + 1)) 8)) in
      let p := p + 4 in
      out ← kmalloc len;
      if out =? 0 then mret None
      else
        upd_ram (fun m => memcpy m out p len);;
        mret (Some (out, len)).

(** The copy of the pixels without the filter bytes. *)
Definition copy_rows (out src width height : Z) (m : mem) : mem :=
  let stride := u32 (width * 4) in
  snd (for_up (Z.to_nat height) 0 (fun y '(src, m) =>
    (src + u32 (stride + 1), memcpy m (out + 4 * u32 (y * width)) (src + 1) stride)) (src, m)).

(** From the unfiltering to the end. *)
Definition make_pixels (decomp width height : Z) : M S (option (Z * Z * Z)) :=
  upd_ram (fun m => png_unfilter decomp width height m);;
  out ← kmalloc (u32 (width * height * 4));
  if out =? 0 then kfree decomp;; mret None
  else
    upd_ram (fun m => copy_rows out decomp width height m);;
    kfree decomp;;
    mret (Some (out, width, height)).

(** The image, [*out_w] and [*out_h]. *)
Definition png_decode_buffer (buffer size : Z) : M S (option (Z * Z * Z)) :=
  m ← gets ram_of;
  if (size <? 8) || negb (memcmp m buffer sig 8 =? 0) then mret None
  else
    c ← liftO (scan_chunks (Z.to_nat (size / 8 + 1)) m (u64 (buffer + 8)) (u64 (buffer + size)) (PngInfo 0 0 0 0));
    match c with
    | None => mret None
    | Some c =>
        if idat c =? 0 then mret None
        else
          d ← zlib_decompress_uncompressed (idat c) (idat_size c);
          match d with
          | None => mret None
          | Some (decomp, _) => make_pixels decomp (width c) (height c)
          end
    end.
End Decoder.
