(* ===== verification/PngTheorems.v ===== *)
(** * The properties of the PNG decoder

    The reference is the PNG specification, restricted to what the decoder
    supports: 8-bit RGBA, not interlaced, one stored block.  [png_encode]
    writes such files, with any choice of filters and any further chunks;
    the decoder gives the pixels back. *)
From S2P Require Import Prelude Machine Utils Serial Memory Heap HeapChain HeapInv HeapOps HeapSpec Alloc HeapTheorems SysFileTheorems UserHeap Png.

(** ** The format *)

Definition be32 (v : Z) : list Z := [v / 16777216 mod 256; v / 65536 mod 256; v / 256 mod 256; v mod 256].
(** The predictor of the specification (section 9.4). *)
Definition paeth (a b c : Z) : Z :=
  let p := a + b - c in
  if (Z.abs (p - a) <=? Z.abs (p - b)) && (Z.abs (p - a) <=? Z.abs (p - c)) then a
  else if Z.abs (p - b) <=? Z.abs (p - c) then b else c.
Definition predict (f a b c : Z) : Z :=
  if f =? 1 then a else if f =? 2 then b else if f =? 3 then (a + b) / 2 else if f =? 4 then paeth a b c else 0.

(** An image of [w] by [h] pixels, four bytes each, and a filter per row. *)
Record image := Image { im_w : Z; im_h : Z; im_px : list Z; im_filters : list Z }.
Definition stride (im : image) : Z := 4 * im_w im.
Definition filter_of (im : image) (y : Z) : Z := byte_at (im_filters im) y.
(** The byte at [x] of row [y]; zero left of and above the image. *)
Definition orig (im : image) (y x : Z) : Z :=
  if (0 <=? y) && (0 <=? x) then byte_at (im_px im) (y * stride im + x) else 0.
Definition filtered (im : image) (y x : Z) : Z :=
  u8 (orig im y x - predict (filter_of im y) (orig im y (x - 4)) (orig im (y - 1) x) (orig im (y - 1) (x - 4))).
Definition scanline (im : image) (y : Z) : list Z := filter_of im y :: (filtered im y <$> seqZ 0 (stride im)).
Definition raw_data (im : image) : list Z := seqZ 0 (im_h im) ≫= scanline im.

Record image_ok (im : image) : Prop := {
  io_w : 0 < im_w im;
  io_h : 0 < im_h im;
  io_px : byte_list (im_px im) /\ Z.of_nat (length (im_px im)) = stride im * im_h im;
  io_filters : forall y, 0 <= y < im_h im -> 0 <= filter_of im y <= 4;
  io_size : (stride im + 1) * im_h im < 65536
}.

Lemma paeth_choice_spec a b c : paeth_choice a b c = paeth a b c.
Proof.
  unfold paeth_choice, paeth. cbv zeta.
  assert (forall x y, (if x <? y then y - x else x - y) = Z.abs (y - x)) as H by (intros x y; zcases; lia).
  by rewrite !H.
Qed.

Lemma paeth_range a b c : 0 <= a < 256 -> 0 <= b < 256 -> 0 <= c < 256 -> 0 <= paeth a b c < 256.
Proof. intros. unfold paeth. cbv zeta. zcases; lia. Qed.

(** ** Undoing the filters *)

Section Unfilter.
Context (im : image) (Hok : image_ok im).

Lemma orig_range y x : 0 <= orig im y x < 256.
Proof using Hok. unfold orig. destruct (_ && _); [apply byte_at_range, Hok|lia]. Qed.

(** Adding the prediction to the filtered byte gives the byte. *)
Lemma unfilter_byte y x p : p = predict (filter_of im y) (orig im y (x - 4)) (orig im (y - 1) x) (orig im (y - 1) (x - 4)) ->
  u8 (filtered im y x + p) = orig im y x.
Proof using Hok.
  intros ->. unfold filtered. pose proof (orig_range y x). set (v := orig im y x) in *. set (p := predict _ _ _ _).
  unfold u8. rewrite Zplus_mod_idemp_l. rewrite Z.mod_small; lia.
Qed.
Lemma filtered_same y x : predict (filter_of im y) (orig im y (x - 4)) (orig im (y - 1) x) (orig im (y - 1) (x - 4)) = 0 ->
  filtered im y x = orig im y x.
Proof using Hok. intros E. unfold filtered. rewrite E, Z.sub_0_r. apply u8_small, orig_range. Qed.

Lemma orig_left y x : x < 0 -> orig im y x = 0.
Proof. intros. unfold orig. zcases; (lia || done). Qed.
Lemma orig_above y x : y < 0 -> orig im y x = 0.
Proof. intros. unfold orig. zcases; (lia || done). Qed.

(** Row [y] at [row] up to [k] undone. *)
Definition undone (y row k : Z) (m m' : mem) : Prop :=
  forall b, ld8 m' b = if (row <=? b) && (b <? row + k) then orig im y (b - row) else ld8 m b.

(** What [unfilter_row] finds: the filtered row, and the row above undone. *)
Record row_ready (y prev row : Z) (m : mem) : Prop := {
  rr_row : forall x, 0 <= x < stride im -> ld8 m (row + x) = filtered im y x;
  rr_prev : if prev =? 0 then y = 0 else 0 < y /\ prev + stride im <= row /\ forall x, 0 <= x < stride im -> ld8 m (prev + x) = orig im (y - 1) x
}.

Lemma undone_step y prev row m m' x v :
  row_ready y prev row m -> 0 <= x < stride im -> undone y row x m m' ->
  v = predict (filter_of im y) (orig im y (x - 4)) (orig im (y - 1) x) (orig im (y - 1) (x - 4)) ->
  undone y row (x + 1) m (add_byte m' (row + x) v).
Proof using Hok.
  intros [R1 _] Hx H Hv b. unfold add_byte. rewrite ld8_st8, !H.
  destruct (Z.eqb_spec (row + x) b) as [<-|].
  - zcases; try lia. rewrite R1 by lia. rewrite (unfilter_byte y x v Hv). f_equal. lia.
  - zcases; (lia || done).
Qed.

Lemma undone_same y row k m : 
  (forall x, 0 <= x < k -> ld8 m (row + x) = orig im y x) -> undone y row k m m.
Proof.
  intros H b. destruct (Z.leb_spec row b), (Z.ltb_spec b (row + k)); cbn [andb]; try done.
  rewrite <- (H (b - row)) by lia. f_equal. lia.
Qed.

(** The neighbours as the loops read them. *)
Lemma read_left y prev row m m' x : row_ready y prev row m -> 0 <= x < stride im -> undone y row x m m' ->
  (if 4 <=? x then ld8 m' (row + (x - 4)) else 0) = orig im y (x - 4).
Proof.
  intros _ Hx H. destruct (Z.leb_spec 4 x); [|by rewrite orig_left by lia]. rewrite H. zcases; try lia. f_equal. lia.
Qed.
Lemma read_up y prev row m m' x d : row_ready y prev row m -> 0 <= x - d < stride im -> undone y row x m m' ->
  (if negb (prev =? 0) then ld8 m' (prev + (x - d)) else 0) = orig im (y - 1) (x - d).
Proof.
  intros [_ R] Hx H. destruct (prev =? 0); cbn [negb]; [by rewrite orig_above by lia|]. destruct R as (R1 & R2 & R3).
  rewrite H. zcases; try lia; apply R3; lia.
Qed.

Lemma unfilter_row_undone y prev row m : 0 <= filter_of im y <= 4 -> row_ready y prev row m ->
  undone y row (stride im) m (unfilter_row (filter_of im y) prev row (stride im) m).
Proof using Hok.
  intros Hf Hr. assert (0 < im_w im) as Hw by apply Hok. assert (stride im = 4 * im_w im) as Es by done.
  assert (forall n i f, 0 <= i -> i + Z.of_nat n = stride im -> undone y row i m m ->
    (forall x m', i <= x < stride im -> undone y row x m m' -> undone y row (x + 1) m (f x m')) -> undone y row (stride im) m (for_up n i f m)) as Hloop.
  { intros n i f Hi Hn H0 Hstep. rewrite <- Hn. apply (for_up_ind (fun x m' => undone y row x m m')); [done|]. intros x m' Hx. apply Hstep. lia. }
  assert (undone y row 0 m m) as H0 by (apply undone_same; lia).
  unfold unfilter_row. set (f := filter_of im y) in *.
  destruct (Z.eqb_spec f 1) as [E1|N1]; [|destruct (Z.eqb_spec f 2) as [E2|N2]; [|destruct (Z.eqb_spec f 3) as [E3|N3]; [|destruct (Z.eqb_spec f 4) as [E4|N4]]]].
  - apply Hloop; [lia|lia| |].
    + apply undone_same. intros x Hx. rewrite (rr_row _ _ _ _ Hr) by lia. apply filtered_same. fold f. rewrite E1. apply orig_left. lia.
    + intros x m' Hx H. eapply undone_step; [exact Hr|lia|done|]. fold f. rewrite E1. unfold predict. cbn [Z.eqb].
      rewrite <- (read_left y prev row m m' x) by (done || lia). by destruct (Z.leb_spec 4 x); [|lia].
  - destruct (prev =? 0) eqn:Ep; cbn [negb].
    + apply undone_same. intros x Hx. rewrite (rr_row _ _ _ _ Hr) by lia. apply filtered_same. fold f. rewrite E2. apply orig_above.
      pose proof (rr_prev _ _ _ _ Hr) as R. rewrite Ep in R. lia.
    + apply Hloop; [lia|lia|done|]. intros x m' Hx H. eapply undone_step; [exact Hr|lia|done|]. fold f. rewrite E2. unfold predict. cbn [Z.eqb].
      pose proof (read_up y prev row m m' x 0 Hr ltac:(lia) H) as Hu. rewrite Ep, Z.sub_0_r in Hu. exact Hu.
  - apply Hloop; [lia|lia|done|]. intros x m' Hx H. eapply undone_step; [exact Hr|lia|done|]. fold f. rewrite E3. unfold predict. cbn [Z.eqb].
    rewrite (read_left y prev row m m' x) by (done || lia).
    pose proof (read_up y prev row m m' x 0 Hr ltac:(lia) H) as Hu. rewrite Z.sub_0_r in Hu. by rewrite Hu.
  - apply Hloop; [lia|lia|done|]. intros x m' Hx H. eapply undone_step; [exact Hr|lia|done|]. fold f. rewrite E4. unfold predict. cbn [Z.eqb].
    rewrite paeth_choice_spec, (read_left y prev row m m' x) by (done || lia).
    pose proof (read_up y prev row m m' x 0 Hr ltac:(lia) H) as Hu. rewrite Z.sub_0_r in Hu. rewrite Hu. f_equal.
    destruct (Z.leb_spec 4 x); cbn [andb]; [|by rewrite orig_left by lia]. by rewrite (read_up y prev row m m' x 4) by (done || lia).
  - apply undone_same. intros x Hx. rewrite (rr_row _ _ _ _ Hr) by lia. apply filtered_same. unfold predict. fold f. zcases; (lia || done).
Qed.

(** Scanline [y] of data at [q]. *)
Definition line_at (q y : Z) : Z := q + y * (stride im + 1).
Definition total : Z := (stride im + 1) * im_h im.

Lemma length_scanline y : 0 <= stride im -> Z.of_nat (length (scanline im y)) = stride im + 1.
Proof. intros. unfold scanline. cbn [length]. rewrite length_fmap, length_seqZ. lia. Qed.

Lemma scanlines_at m n : forall i q, holds m q (seqZ i (Z.of_nat n) ≫= scanline im) -> forall y, i <= y < i + Z.of_nat n ->
  holds m (line_at q (y - i)) (scanline im y).
Proof using Hok.
  assert (0 < stride im) as Hs by (unfold stride; pose proof (io_w im Hok); lia).
  induction n as [|n IH]; intros i q H y Hy; [lia|]. rewrite seqZ_cons in H by lia.
  rewrite bind_cons, holds_app, length_scanline in H by lia. destruct H as [H1 H2]. destruct (decide (y = i)) as [->|].
  - unfold line_at. by rewrite Z.sub_diag, Z.mul_0_l, Z.add_0_r.
  - replace (Z.pred (Z.of_nat (S n))) with (Z.of_nat n) in H2 by lia. rewrite <- Z.add_1_r in H2. specialize (IH _ _ H2 y ltac:(lia)).
    unfold line_at in *. replace (q + (y - i) * (stride im + 1)) with (q + (stride im + 1) + (y - (i + 1)) * (stride im + 1)) by lia. exact IH.
Qed.

Lemma raw_at m q y : holds m q (raw_data im) -> 0 <= y < im_h im ->
  ld8 m (line_at q y) = filter_of im y /\ forall x, 0 <= x < stride im -> ld8 m (line_at q y + 1 + x) = filtered im y x.
Proof using Hok.
  intros H Hy. unfold raw_data in H. replace (im_h im) with (Z.of_nat (Z.to_nat (im_h im))) in H by lia.
  pose proof (scanlines_at m _ 0 q H y ltac:(lia)) as Hl. rewrite Z.sub_0_r in Hl. unfold scanline in Hl. apply holds_cons in Hl as [E Hl].
  split; [done|]. intros x Hx. rewrite (holds8 _ _ _ _ Hl) by (rewrite length_fmap, length_seqZ; lia).
  unfold byte_at. rewrite list_lookup_fmap, lookup_seqZ_lt by lia. cbn. f_equal. lia.
Qed.

Lemma length_raw : Z.of_nat (length (raw_data im)) = total.
Proof using Hok.
  unfold raw_data, total. assert (0 < im_h im) as Hh by apply Hok. assert (0 < stride im) as Hs by (unfold stride; pose proof (io_w im Hok); lia).
  replace (im_h im) with (Z.of_nat (Z.to_nat (im_h im))) by lia. generalize (Z.to_nat (im_h im)). generalize 0.
  intros i n. revert i. induction n as [|n IH]; intros i; [by rewrite Z.mul_0_r|]. rewrite seqZ_cons, bind_cons, length_app, Nat2Z.inj_add by lia.
  replace (Z.pred (Z.of_nat (S n))) with (Z.of_nat n) by lia. rewrite IH, length_scanline by lia. lia.
Qed.

(** [png_unfilter] restores every row and writes nothing outside the data. *)
Lemma unfilter_run m q : 0 < q -> holds m q (raw_data im) ->
  let m' := png_unfilter q (im_w im) (im_h im) m in
  (forall y x, 0 <= y < im_h im -> 0 <= x < stride im -> ld8 m' (line_at q y + 1 + x) = orig im y x) /\
  forall b, b < q \/ q + total <= b -> ld8 m' b = ld8 m b.
Proof using Hok.
  intros Hq H. pose proof Hok as [Hw Hh _ Hf Hsz]. cbv zeta. unfold png_unfilter. rewrite (Z.mul_comm (im_w im) 4). fold (stride im).
  assert (0 < stride im) as Hs by (unfold stride; lia). rewrite (u32_small (stride im)), (u32_small (stride im + 1)) by nia.
  set (body := fun _ _ => _).
  pose (P := fun y (a : Z * Z * mem) => let '(prev, cur, m') := a in
    cur = line_at q y /\ prev = (if y =? 0 then 0 else line_at q (y - 1) + 1) /\
    (forall i x, 0 <= i < y -> 0 <= x < stride im -> ld8 m' (line_at q i + 1 + x) = orig im i x) /\
    forall b, b < q \/ cur <= b -> ld8 m' b = ld8 m b).
  assert (P (0 + Z.of_nat (Z.to_nat (im_h im))) (for_up (Z.to_nat (im_h im)) 0 body (0, q, m))) as HP.
  { apply for_up_ind; [unfold P, line_at; split_and!; [lia|done|lia|done]|]. clear - Hok Hq H Hs Hf Hh. intros y [[prev cur] m'] Hy (-> & -> & H1 & H2).
    rewrite Z2Nat.id in Hy by lia. unfold body, P. cbn beta iota. destruct (raw_at m q y H ltac:(lia)) as [Rf Rx].
    rewrite H2, Rf by lia. set (prev := if y =? 0 then 0 else line_at q (y - 1) + 1).
    assert (row_ready y prev (line_at q y + 1) m') as Hr.
    { split; [intros x Hx; rewrite H2 by lia; by apply Rx|]. unfold prev. destruct (Z.eqb_spec y 0); [done|].
      assert (0 < line_at q (y - 1) + 1) by (unfold line_at; nia). destruct (Z.eqb_spec (line_at q (y - 1) + 1) 0); [lia|].
      split_and!; [lia|unfold line_at; lia|]. intros x Hx. apply H1; lia. }
    pose proof (unfilter_row_undone y prev (line_at q y + 1) m' (Hf y ltac:(lia)) Hr) as Hu.
    split_and!.
    - unfold line_at. lia.
    - destruct (Z.eqb_spec (y + 1) 0); [lia|]. do 2 f_equal. lia.
    - intros i x Hi Hx. rewrite Hu. destruct (decide (i = y)) as [->|].
      + zcases; try lia. f_equal. lia.
      + assert (line_at q i + stride im + 1 <= line_at q y) by (unfold line_at; nia). zcases; try lia; apply H1; lia.
    - intros b Hb. rewrite Hu. assert (q <= line_at q y) by (unfold line_at; nia). zcases; try lia; apply H2; lia. }
  destruct (for_up _ 0 body _) as [[prev cur] m']. cbn [snd]. destruct HP as (-> & _ & H1 & H2). rewrite Z2Nat.id, Z.add_0_l in * by lia.
  split; [done|]. intros b Hb. apply H2. unfold line_at, total in *. lia.
Qed.

(** [copy_rows] collects the rows. *)
Lemma copy_rows_run m q out : 0 < q -> 0 < out -> out + stride im * im_h im <= q \/ q + total <= out ->
  (forall y x, 0 <= y < im_h im -> 0 <= x < stride im -> ld8 m (line_at q y + 1 + x) = orig im y x) ->
  let m' := copy_rows out q (im_w im) (im_h im) m in
  bytes m' out (stride im * im_h im) = im_px im /\
  forall b, b < out \/ out + stride im * im_h im <= b -> ld8 m' b = ld8 m b.
Proof using Hok.
  intros Hq Ho Hap H. pose proof Hok as [Hw Hh [_ Hlen] Hf Hsz]. cbv zeta. unfold copy_rows. rewrite (Z.mul_comm (im_w im) 4). fold (stride im).
  assert (0 < stride im) as Hs by (unfold stride; lia). rewrite (u32_small (stride im)), (u32_small (stride im + 1)) by nia.
  set (body := fun _ _ => _).
  pose (P := fun y (a : Z * mem) => let '(src, m') := a in src = line_at q y /\
    forall b, ld8 m' b = if (out <=? b) && (b <? out + stride im * y) then byte_at (im_px im) (b - out) else ld8 m b).
  assert (P (0 + Z.of_nat (Z.to_nat (im_h im))) (for_up (Z.to_nat (im_h im)) 0 body (q, m))) as HP.
  { apply for_up_ind; [unfold P, line_at; split; [lia|intros b; zcases; (lia || done)]|]. intros y [src m'] Hy (-> & HP).
    rewrite Z2Nat.id in Hy by lia. unfold body, P. cbn beta iota. split; [unfold line_at; lia|].
    assert (stride im * y + stride im <= stride im * im_h im) as Hfit by nia. assert (0 <= y * im_w im < 65536) as Hsm by (unfold total, stride in *; nia).
    rewrite (u32_small (y * im_w im)) by lia. replace (4 * (y * im_w im)) with (stride im * y) by (unfold stride; lia).
    assert (q <= line_at q y /\ line_at q y + 1 + stride im <= q + total) as Hin by (unfold line_at, total; nia).
    assert (0 <= stride im * y) as Hpos by nia.
    intros b. rewrite ld8_memcpy by lia. rewrite !HP. clear HP P body.
    destruct (Z.leb_spec (out + stride im * y) b); [destruct (Z.ltb_spec b (out + stride im * y + stride im))|]; cbn [andb].
    - replace (line_at q y + 1 + (b - (out + stride im * y))) with (line_at q y + 1 + (b - out - stride im * y)) by lia.
      zcases; try lia; rewrite H by lia; unfold orig; zcases; try lia; f_equal; lia.
    - zcases; (lia || done).
    - zcases; (lia || done). }
  destruct (for_up _ 0 body _) as [src m']. cbn [snd]. destruct HP as (_ & HP). rewrite Z2Nat.id, Z.add_0_l in * by lia. clear P body.
  split.
  - apply list_eq. intros i. rewrite lookup_bytes, HP. destruct (Z.ltb_spec (Z.of_nat i) (stride im * im_h im)).
    + destruct (lookup_lt_is_Some_2 (im_px im) i ltac:(lia)) as [v Hv]. zcases; try lia. unfold byte_at.
      replace (Z.to_nat (out + Z.of_nat i - out)) with i by lia. by rewrite Hv.
    + symmetry. apply lookup_ge_None. lia.
  - intros b Hb. rewrite HP. zcases; (lia || done).
Qed.
End Unfilter.

(** ** The file *)

Definition png_signature : list Z := [137; 80; 78; 71; 13; 10; 26; 10].
Definition IHDR : Z := 0x49484452.
Definition IDAT : Z := 0x49444154.
Definition IEND : Z := 0x49454E44.
Record chunk := Chunk { ck_type : Z; ck_data : list Z; ck_crc : list Z }.
Definition chunk_bytes (c : chunk) : list Z :=
  be32 (Z.of_nat (length (ck_data c))) ++ be32 (ck_type c) ++ ck_data c ++ ck_crc c.
Record ancillary (c : chunk) : Prop := {
  an_type : 0 <= ck_type c < 4294967296 /\ ck_type c <> IHDR /\ ck_type c <> IDAT /\ ck_type c <> IEND;
  an_data : Z.of_nat (length (ck_data c)) < 2147483648;
  an_crc : length (ck_crc c) = 4%nat
}.

(** The check values, which the decoder skips. *)
Record checks := Checks { crc1 : list Z; crc2 : list Z; crc3 : list Z; adler : list Z }.
Definition checks_ok (k : checks) : Prop :=
  length (crc1 k) = 4%nat /\ length (crc2 k) = 4%nat /\ length (crc3 k) = 4%nat /\ length (adler k) = 4%nat.

Definition ihdr_data (im : image) : list Z := be32 (im_w im) ++ be32 (im_h im) ++ [8; 6; 0; 0; 0].
Definition le16 (v : Z) : list Z := [v mod 256; v / 256 mod 256].
(** A zlib stream of one final stored block. *)
Definition zlib_data (raw adler : list Z) : list Z :=
  let n := Z.of_nat (length raw) in [0x78; 0x01; 1] ++ le16 n ++ le16 (65535 - n) ++ raw ++ adler.
Definition png_encode (im : image) (before after : list chunk) (k : checks) : list Z :=
  png_signature ++ chunk_bytes (Chunk IHDR (ihdr_data im) (crc1 k)) ++ (before ≫= chunk_bytes) ++
  chunk_bytes (Chunk IDAT (zlib_data (raw_data im) (adler k)) (crc2 k)) ++ (after ≫= chunk_bytes) ++
  chunk_bytes (Chunk IEND [] (crc3 k)).

Lemma be_step hi lo k : 0 <= k -> 0 <= lo < 256 -> Z.lor (Z.shiftl hi (8 + k)) (Z.shiftl lo k) = Z.shiftl (hi * 256 + lo) k.
Proof.
  intros Hk Hl. rewrite <- Z.shiftl_shiftl, <- Z.shiftl_lor by lia. f_equal. rewrite Z.lor_comm, lor_shiftl by lia. lia.
Qed.
Lemma read_be32_value m p : read_be32 m p =
  ld8 m p * 16777216 + ld8 m (p + 1) * 65536 + ld8 m (p + 2) * 256 + ld8 m (p + 3).
Proof.
  unfold read_be32. pose proof (ld8_range m p). pose proof (ld8_range m (p + 1)). pose proof (ld8_range m (p + 2)). pose proof (ld8_range m (p + 3)).
  set (a := ld8 m p) in *. set (b := ld8 m (p + 1)) in *. set (c := ld8 m (p + 2)) in *. set (d := ld8 m (p + 3)) in *.
  pose proof (be_step a b 16 ltac:(lia) ltac:(lia)) as E1. pose proof (be_step (a * 256 + b) c 8 ltac:(lia) ltac:(lia)) as E2.
  pose proof (be_step ((a * 256 + b) * 256 + c) d 0 ltac:(lia) ltac:(lia)) as E3. change (8 + 16) with 24 in E1. change (8 + 8) with 16 in E2. change (8 + 0) with 8 in E3.
  rewrite !Z.shiftl_0_r in E3. rewrite E1, E2, E3, u32_small; lia.
Qed.
Lemma read_be32_holds m p v l : holds m p (be32 v ++ l) -> 0 <= v < 4294967296 -> read_be32 m p = v /\ holds m (p + 4) l.
Proof.
  rewrite holds_app. unfold be32. rewrite !holds_cons, <- !Z.add_assoc. intros [(E1 & E2 & E3 & E4 & _) H] Hv. split; [|exact H].
  change (1 + 1) with 2 in E3. change (1 + (1 + 1)) with 3 in E4. rewrite read_be32_value, E1, E2, E3, E4. word_lia.
Qed.

Section Scan.
Context (m : mem) (stop : Z) (Hstop : stop < 2 ^ 63).

Lemma length_chunk c : length (ck_crc c) = 4%nat -> Z.of_nat (length (chunk_bytes c)) = 12 + Z.of_nat (length (ck_data c)).
Proof using Type. intros E. unfold chunk_bytes. rewrite !length_app. cbn. lia. Qed.

(** The head of the loop at a chunk. *)
Lemma scan_head f p c info : 0 < p -> holds m p (chunk_bytes c) -> p + Z.of_nat (length (chunk_bytes c)) <= stop ->
  0 <= ck_type c < 4294967296 -> Z.of_nat (length (ck_data c)) < 2147483648 -> length (ck_crc c) = 4%nat ->
  holds m (p + 8) (ck_data c) /\
  scan_chunks (S f) m p stop info =
    let next := p + Z.of_nat (length (chunk_bytes c)) in
    if ck_type c =? IHDR then
      if negb (ld8 m (p + 8 + 8) =? 8) || negb (ld8 m (p + 8 + 9) =? 6) || negb (ld8 m (p + 8 + 12) =? 0) then Ret None
      else scan_chunks f m next stop (PngInfo (read_be32 m (p + 8)) (read_be32 m (p + 8 + 4)) (idat info) (idat_size info))
    else if ck_type c =? IDAT then scan_chunks f m next stop (PngInfo (width info) (height info) (p + 8) (Z.of_nat (length (ck_data c))))
    else if ck_type c =? IEND then Ret (Some info)
    else scan_chunks f m next stop info.
Proof using Hstop.
  intros Hp H Hs Ht Hd Hc. rewrite length_chunk in Hs |- * by done. unfold chunk_bytes in H.
  apply read_be32_holds in H as [E1 H]; [|lia]. apply read_be32_holds in H as [E2 H]; [|done]. apply holds_app in H as [H _].
  rewrite <- Z.add_assoc in H. split; [exact H|]. cbn [scan_chunks]. destruct (Z.ltb_spec p stop); [|lia]. cbn [negb].
  rewrite (u64_small (p + 4)) by lia. rewrite <- Z.add_assoc. change (4 + 4) with 8. rewrite (u64_small (p + 8)) by lia. rewrite E1, E2.
  rewrite (u32_small (Z.of_nat (length (ck_data c)) + 4)) by lia. rewrite u64_small by lia.
  replace (p + 8 + (Z.of_nat (length (ck_data c)) + 4)) with (p + (12 + Z.of_nat (length (ck_data c)))) by lia. reflexivity.
Qed.

Lemma scan_ancillary cs : Forall ancillary cs -> forall f p info, 0 < p -> holds m p (cs ≫= chunk_bytes) ->
  p + Z.of_nat (length (cs ≫= chunk_bytes)) <= stop ->
  scan_chunks (length cs + f) m p stop info = scan_chunks f m (p + Z.of_nat (length (cs ≫= chunk_bytes))) stop info.
Proof using Hstop.
  induction 1 as [|c cs Hc _ IH]; intros f p info Hp H Hs; [by rewrite Z.add_0_r|]. destruct Hc as [(T0 & T1 & T2 & T3) D C].
  rewrite bind_cons in H, Hs |- *. rewrite length_app, Nat2Z.inj_add in Hs |- *. apply holds_app in H as [H1 H2].
  cbn [length Nat.add]. destruct (scan_head (length cs + f) p c info) as [_ ->]; try (done || lia). cbv zeta.
  rewrite (proj2 (Z.eqb_neq _ _) T1), (proj2 (Z.eqb_neq _ _) T2), (proj2 (Z.eqb_neq _ _) T3).
  rewrite IH by (done || lia). f_equal. lia.
Qed.
End Scan.

Lemma length_chunks cs : Forall ancillary cs -> 12 * Z.of_nat (length cs) <= Z.of_nat (length (cs ≫= chunk_bytes)).
Proof.
  induction 1 as [|c cs Hc _ IH]; [done|]. rewrite bind_cons, length_app, Nat2Z.inj_add, length_chunk by apply Hc. cbn [length]. lia.
Qed.

Section File.
Context (im : image) (before after : list chunk) (k : checks).
Context (Hok : image_ok im) (Hb : Forall ancillary before) (Ha : Forall ancillary after) (Hk : checks_ok k).
Let file := png_encode im before after k.
Let zdata := zlib_data (raw_data im) (adler k).

Lemma length_zdata : Z.of_nat (length zdata) = total im + 11.
Proof using Hok Hk. unfold zdata, zlib_data. rewrite !length_app, !Nat2Z.inj_add, (length_raw im Hok). destruct Hk as (_ & _ & _ & ->). cbn. lia. Qed.

(** The loop over the chunks of an encoded image finds its size and data. *)
Lemma scan_file m buffer : 0 < buffer -> buffer + Z.of_nat (length file) < 2 ^ 63 -> holds m buffer file ->
  let stop := buffer + Z.of_nat (length file) in
  8 <= Z.of_nat (length file) /\ bytes m buffer 8 = png_signature /\
  exists d, scan_chunks (Z.to_nat (Z.of_nat (length file) / 8 + 1)) m (buffer + 8) stop (PngInfo 0 0 0 0) =
    Ret (Some (PngInfo (im_w im) (im_h im) d (total im + 11))) /\
    holds m d zdata /\ buffer <= d /\ d + Z.of_nat (length zdata) <= stop.
Proof using Hok Hb Ha Hk.
  intros Hp Hl H stop. pose proof length_zdata as Hz. pose proof (io_size im Hok) as Hsz. fold (total im) in Hsz.
  pose proof (length_chunks before Hb) as Lb. pose proof (length_chunks after Ha) as La.
  destruct Hk as (K1 & K2 & K3 & _). unfold stop in *. unfold file, png_encode in *. fold zdata in H, Hl |- *.
  set (c1 := Chunk IHDR (ihdr_data im) (crc1 k)) in *. set (c2 := Chunk IDAT zdata (crc2 k)) in *. set (c3 := Chunk IEND [] (crc3 k)) in *.
  assert (Z.of_nat (length (chunk_bytes c1)) = 25) as L1 by (by rewrite length_chunk).
  assert (Z.of_nat (length (chunk_bytes c2)) = total im + 23) as L2 by (rewrite length_chunk by done; unfold c2; cbn [ck_data]; lia).
  assert (Z.of_nat (length (chunk_bytes c3)) = 12) as L3 by (by rewrite length_chunk).
  rewrite !length_app, !Nat2Z.inj_add, L1, L2, L3 in *. change (Z.of_nat (length png_signature)) with 8 in *.
  set (nb := Z.of_nat (length (before ≫= chunk_bytes))) in *. set (na := Z.of_nat (length (after ≫= chunk_bytes))) in *.
  assert (0 <= nb /\ 0 <= na) as Hn by (unfold nb, na; lia). set (stop' := buffer + _) in *. set (size := 8 + _) in *.
  apply holds_app in H as [H0 H]. apply holds_app in H as [H1 H]. apply holds_app in H as [Hbf H]. apply holds_app in H as [H2 H]. apply holds_app in H as [Haf H3].
  rewrite L1 in *. fold nb in H2, Haf, H3. rewrite L2 in Haf, H3. fold na in H3. change (Z.of_nat (length png_signature)) with 8 in *.
  assert (0 <= total im) as Ht by (rewrite <- (length_raw im Hok); lia).
  split; [unfold size; lia|]. split; [exact H0|].
  assert (exists e, Z.to_nat (size / 8 + 1) = S (length before + S (length after + S e))) as [e ->].
  { exists (Z.to_nat (size / 8 + 1) - S (length before + S (length after + 1)))%nat. unfold size. clearbody nb na. clear - Lb La Ht. set (x := 8 + _).
    assert (8 + Z.of_nat (length before) + Z.of_nat (length after) <= x / 8) by (apply Z.div_le_lower_bound; unfold x; lia). lia. }
  exists (buffer + 8 + 25 + nb + 8).
  destruct (scan_head m stop' ltac:(unfold stop', size in *; lia) (length before + S (length after + S e)) (buffer + 8) c1 (PngInfo 0 0 0 0))
    as [D1 ->]; [lia|done|rewrite L1; unfold stop', size; lia|cbn; unfold IHDR; lia|cbn; lia|done|]. cbv zeta.
  change (ck_type c1 =? IHDR) with true. cbv iota. change (ck_data c1) with (ihdr_data im) in D1. unfold ihdr_data in D1.
  assert (0 <= im_w im < 4294967296 /\ 0 <= im_h im < 4294967296) as [W H'].
  { destruct Hok as [O1 O2 _ _ O5]. unfold stride in O5. nia. }
  apply read_be32_holds in D1 as [-> D1]; [|done]. apply read_be32_holds in D1 as [-> D1]; [|done].
  rewrite !holds_cons in D1. destruct D1 as (D8 & D9 & _ & _ & D12 & _).
  assert (ld8 m (buffer + 8 + 8 + 8) = 8) as -> by (rewrite <- D8; f_equal; lia).
  assert (ld8 m (buffer + 8 + 8 + 9) = 6) as -> by (rewrite <- D9; f_equal; lia).
  assert (ld8 m (buffer + 8 + 8 + 12) = 0) as -> by (rewrite <- D12; f_equal; lia).
  cbn [Z.eqb Pos.eqb negb orb]. rewrite L1. cbn [idat idat_size].
  rewrite scan_ancillary by (done || (fold nb; unfold stop', size in *; lia)). fold nb.
  destruct (scan_head m stop' ltac:(unfold stop', size in *; lia) (length after + S e) (buffer + 8 + 25 + nb) c2 (PngInfo (im_w im) (im_h im) 0 0))
    as [D2 ->]; [lia|done|rewrite L2; unfold stop', size; lia|cbn; unfold IDAT; lia|unfold c2; cbn [ck_data]; lia|done|]. cbv zeta.
  change (ck_type c2 =? IHDR) with false. change (ck_type c2 =? IDAT) with true. cbv iota. cbn [width height]. change (ck_data c2) with zdata. rewrite L2.
  rewrite scan_ancillary by (done || (fold na; unfold stop', size in *; lia)). fold na.
  destruct (scan_head m stop' ltac:(unfold stop', size in *; lia) e (buffer + 8 + 25 + nb + (total im + 23) + na) c3 (PngInfo (im_w im) (im_h im) (buffer + 8 + 25 + nb + 8) (Z.of_nat (length zdata))))
    as [_ ->]; [lia|done|rewrite L3; unfold stop', size; lia|cbn; unfold IEND; lia|cbn; lia|done|]. cbv zeta.
  change (ck_type c3 =? IHDR) with false. change (ck_type c3 =? IDAT) with false. change (ck_type c3 =? IEND) with true. cbv iota.
  rewrite Hz. split_and!; [done|exact D2|unfold nb; lia|unfold stop', size; lia].
Qed.
End File.

Section Decode.
Context {S : Type} `{HR : HasRam S} (sig : Z) (malloc : Z -> M S Z) (free : Z -> M S unit) (lo hi : Z)
  (aok : S -> gmap Z Z -> Prop) {UH : UserHeap malloc free lo hi aok}.

(** The allocator refuses the buffer of [n] bytes for the data, or, when it
    has given that out at [q] and only it has been written, the [k] bytes
    for the pixels. *)
Definition out_of_memory (s : S) (n k : Z) : Prop :=
  (exists s1, malloc n s = Ret (0, s1)) \/
  exists q s1 m s2, malloc n s = Ret (q, s1) /\ (forall x, x < q \/ q + n <= x -> ld8 m x = ld8 (ram_of s1) x) /\ malloc k (set_ram_of m s1) = Ret (0, s2).

(** Decompressing a stored block: a fresh buffer holds the data. *)
Lemma decompress_run s L d raw ad :
  aok s L -> 0 < Z.of_nat (length raw) < 65536 -> length ad = 4%nat -> holds (ram_of s) d (zlib_data raw ad) ->
  (forall x, d <= x < d + Z.of_nat (length (zlib_data raw ad)) -> owned lo hi L x) ->
  exists r s', zlib_decompress_uncompressed malloc d (Z.of_nat (length raw) + 11) s = Ret (r, s') /\ same_owned lo hi L s s' /\
    ((r = None /\ aok s' L /\ malloc (Z.of_nat (length raw)) s = Ret (0, s')) \/
     exists q n, r = Some (q, Z.of_nat (length raw)) /\ L !! q = None /\ Z.of_nat (length raw) <= n /\ aok s' (<[q := n]> L) /\
       holds (ram_of s') q raw /\ exists s1 m, malloc (Z.of_nat (length raw)) s = Ret (q, s1) /\ s' = set_ram_of m s1 /\
         forall x, x < q \/ q + Z.of_nat (length raw) <= x -> ld8 m x = ld8 (ram_of s1) x).
Proof using UH.
  intros Hok Hl Had H Hown. unfold zlib_decompress_uncompressed. destruct (Z.ltb_spec (Z.of_nat (length raw) + 11) 6); [lia|].
  rewrite bind_gets. unfold zlib_data in H, Hown. cbv zeta in H, Hown. set (n := Z.of_nat (length raw)) in *.
  rewrite !length_app in Hown. unfold le16 in H, Hown. cbn [app length] in H, Hown.
  rewrite !holds_cons, holds_app in H. destruct H as (_ & _ & E2 & E3 & E4 & _ & _ & Hr & _).
  assert (ld8 (ram_of s) (d + 2) = 1) as -> by (rewrite <- E2; f_equal; lia). change (negb (Z.land (Z.shiftr 1 1) 3 =? 0)) with false. cbv iota.
  assert (ld8 (ram_of s) (d + 2 + 1) = n mod 256) as -> by (rewrite <- E3; f_equal; lia).
  assert (ld8 (ram_of s) (d + 2 + 1 + 1) = n / 256 mod 256) as -> by (rewrite <- E4; f_equal; lia).
  assert (u16 (Z.lor (n mod 256) (Z.shiftl (n / 256 mod 256) 8)) = n) as -> by (rewrite lor_shiftl, u16_small by word_lia; word_lia).
  replace (d + 2 + 1 + 4) with (d + 7) by lia. replace (d + 1 + 1 + 1 + 1 + 1 + 1 + 1) with (d + 7) in Hr by lia.
  destruct (uh_malloc s L n Hok ltac:(lia)) as (q & s1 & E & Hk & Hc). rewrite (bind_run _ _ _ _ _ E).
  destruct Hc as [[-> Hok1]|(Hq0 & HL & k & Hk2 & Hok1)]; [by exists None, s1; split_and!; [| |left]|].
  destruct (Z.eqb_spec q 0); [done|]. unfold upd_ram. rewrite bind_modify.
  assert (forall x, d + 7 <= x < d + 7 + n -> owned lo hi L x) as Hown' by (intros x Hx; apply Hown; fold n; lia).
  destruct (uh_range s1 _ q k Hok1 (lookup_insert_eq _ _ _)) as (R0 & R1 & R2 & R3 & _).
  pose proof (range_apart lo hi L q k (d + 7) n ltac:(lia) (fun x => user_fresh malloc free lo hi aok s1 L q k x Hok1 HL) Hown' ltac:(lia)) as Hap.
  set (m := memcpy _ _ _ _).
  assert (forall x, x < q \/ q + k <= x -> ld8 m x = ld8 (ram_of s1) x) as Hm by (intros x Hx; unfold m; rewrite ld8_memcpy by lia; zcases; (lia || done)).
  eexists _, _. split; [reflexivity|]. split.
  { eapply same_owned_trans; [exact Hk|]. by apply (user_write_fresh malloc free lo hi aok s1 m L q k). }
  right. exists q, k. split_and!; try done.
  - by apply (user_write malloc free lo hi aok s1 m _ q k); [|apply lookup_insert_eq|].
  - unfold holds. rewrite uh_put. fold n. unfold m. rewrite bytes_memcpy by lia. rewrite (bytes_agree (ram_of s)); [exact Hr|].
    intros x Hx. apply Hk, Hown'. lia.
  - exists s1, m. split_and!; [done|done|]. intros x Hx. unfold m. rewrite ld8_memcpy by lia. zcases; (lia || done).
Qed.

(** From the decompressed data to the pixels. *)
Lemma make_pixels_run s1 L im q n :
  aok s1 (<[q := n]> L) -> L !! q = None -> image_ok im -> total im <= n -> holds (ram_of s1) q (raw_data im) ->
  exists r s', make_pixels malloc free q (im_w im) (im_h im) s1 = Ret (r, s') /\ same_owned lo hi L s1 s' /\
    ((r = None /\ aok s' L /\ exists m s3, malloc (4 * im_w im * im_h im) (set_ram_of m s1) = Ret (0, s3) /\
        forall x, x < q \/ q + total im <= x -> ld8 m x = ld8 (ram_of s1) x) \/
     exists out n, r = Some (out, im_w im, im_h im) /\ L !! out = None /\ aok s' (<[out := n]> L) /\
       4 * im_w im * im_h im <= n /\ bytes (ram_of s') out (4 * im_w im * im_h im) = im_px im).
Proof using UH.
  intros Hok1 HL Hi Hn Hraw.
  unfold make_pixels, upd_ram. rewrite bind_modify. destruct (uh_range s1 _ q n Hok1 (lookup_insert_eq _ _ _)) as (R0 & R1 & R2 & R3 & _).
  destruct (unfilter_run im Hi (ram_of s1) q ltac:(lia) Hraw) as [U1 U2]. set (m2 := png_unfilter _ _ _ _) in *.
  assert (forall x, x < q \/ q + n <= x -> ld8 m2 x = ld8 (ram_of s1) x) as U3 by (intros x Hx; apply U2; lia).
  pose proof (user_write malloc free lo hi aok s1 m2 _ q n Hok1 (lookup_insert_eq _ _ _) U3) as Hok2.
  pose proof (user_write_fresh malloc free lo hi aok s1 m2 L q n Hok1 HL U3) as Hs2. set (s2 := set_ram_of m2 s1) in *.
  assert (ram_of s2 = m2) as Em2 by apply uh_put.
  assert (stride im * im_h im = 4 * im_w im * im_h im /\ 0 < stride im * im_h im < 65536) as [Es Hpx].
  { pose proof Hi as [O1 O2 _ _ O5]. unfold stride in *. nia. }
  replace (u32 (im_w im * im_h im * 4)) with (stride im * im_h im) by (rewrite u32_small; lia).
  destruct (uh_malloc s2 (<[q := n]> L) (stride im * im_h im) Hok2 ltac:(lia)) as (out & s3 & E & Hk3 & Hc3).
  rewrite (bind_run _ _ _ _ _ E).
  pose proof (same_owned_trans lo hi L s1 s2 s3 Hs2 (same_owned_insert lo hi L q n s2 s3 HL Hk3)) as Hs3.
  destruct Hc3 as [[-> Hok3]|(Hout & HL3 & n3 & Hn3 & Hok3)].
  { destruct (user_drop malloc free lo hi aok s3 L q n Hok3 HL) as (s4 & E4 & Hok4 & Hk4). cbn [Z.eqb]. rewrite (bind_run _ _ _ _ _ E4).
    exists None, s4. split_and!; [done| |left; split_and!; [done|done|exists m2, s3; rewrite <- Es; by split]]. eapply same_owned_trans; [exact Hs3|]. by apply (same_owned_insert lo hi L q n). }
  destruct (Z.eqb_spec out 0); [done|]. rewrite bind_modify.
  destruct (uh_range s3 _ out n3 Hok3 (lookup_insert_eq _ _ _)) as (T0 & T1 & T2 & T3 & _).
  assert (out <> q) as Hne by (intros ->; by rewrite lookup_insert_eq in HL3).
  assert (out + n3 <= q \/ q + n <= out) as Hap.
  { destruct (uh_disjoint s3 _ out n3 q n Hok3 (lookup_insert_eq _ _ _)) as [?|?]; [|done|done]. by rewrite lookup_insert_ne, lookup_insert_eq. }
  assert (forall x, q <= x < q + n -> owned lo hi (<[q := n]> L) x) as Hq_owned.
  { intros x Hx. right; right. exists q, n. by rewrite lookup_insert_eq. }
  destruct (copy_rows_run im Hi (ram_of s3) q out ltac:(lia) ltac:(lia) ltac:(lia)) as [C1 C2].
  { intros y x Hy Hx. rewrite <- (U1 y x Hy Hx), <- Em2. apply Hk3, Hq_owned. unfold line_at, total in *. nia. }
  set (m4 := copy_rows _ _ _ _ _) in *.
  assert (forall x, x < out \/ out + n3 <= x -> ld8 m4 x = ld8 (ram_of s3) x) as C3 by (intros x Hx; apply C2; lia).
  pose proof (user_write malloc free lo hi aok s3 m4 _ out n3 Hok3 (lookup_insert_eq _ _ _) C3) as Hok4.
  pose proof (user_write_fresh malloc free lo hi aok s3 m4 _ out n3 Hok3 HL3 C3) as Hs4. set (s4 := set_ram_of m4 s3) in *.
  rewrite insert_insert_ne in Hok4 by done.
  assert (<[out := n3]> L !! q = None) as HLq by (by rewrite lookup_insert_ne).
  destruct (user_drop malloc free lo hi aok s4 _ q n Hok4 HLq) as (s5 & E5 & Hok5 & Hk5).
  rewrite (bind_run _ _ _ _ _ E5).
  assert (L !! out = None) as HLo by (by rewrite lookup_insert_ne in HL3).
  exists (Some (out, im_w im, im_h im)), s5. split_and!; [done| |right; exists out, n3; split_and!; try done; try lia].
  - apply (same_owned_trans lo hi L s1 s3 s5 Hs3), (same_owned_trans lo hi L s3 s4 s5); [by apply (same_owned_insert lo hi L q n)|].
    apply (same_owned_insert lo hi L out n3); [done|]. by apply (same_owned_insert lo hi _ q n).
  - rewrite <- Es, <- C1. replace m4 with (ram_of s4) by apply uh_put. apply bytes_agree. intros x Hx. apply Hk5.
    right; right. exists out, n3. rewrite lookup_insert_ne, lookup_insert_eq by done. split; [done|lia].
Qed.

(** Decoding any file that encodes an image. *)
Lemma png_decode_run s L im before after k buffer :
  aok s L -> image_ok im -> Forall ancillary before -> Forall ancillary after -> checks_ok k ->
  let file := png_encode im before after k in
  let size := Z.of_nat (length file) in
  holds (ram_of s) buffer file -> 0 < buffer -> buffer + size < 2 ^ 63 -> bytes (ram_of s) sig 8 = png_signature ->
  (forall x, buffer <= x < buffer + size -> owned lo hi L x) ->
  exists r s', png_decode_buffer sig malloc free buffer size s = Ret (r, s') /\ same_owned lo hi L s s' /\
    ((r = None /\ aok s' L /\ out_of_memory s (total im) (4 * im_w im * im_h im)) \/
     exists out n, r = Some (out, im_w im, im_h im) /\ L !! out = None /\ aok s' (<[out := n]> L) /\
       4 * im_w im * im_h im <= n /\ bytes (ram_of s') out (4 * im_w im * im_h im) = im_px im).
Proof using UH.
  intros Hok Hi Hb Ha Hc file size Hf Hp Hs Hsig Hown.
  destruct (scan_file im before after k Hi Hb Ha Hc (ram_of s) buffer Hp Hs Hf) as (S1 & S2 & d & E & Hd & D1 & D2).
  unfold png_decode_buffer. rewrite bind_gets. fold file size in S1, E, D2. destruct (Z.ltb_spec size 8); [lia|].
  rewrite (proj2 (memcmp_zero (ram_of s) buffer sig 8)) by congruence. cbn [Z.eqb negb orb]. rewrite !u64_small by lia.
  rewrite (bind_run _ _ _ (Some (PngInfo (im_w im) (im_h im) d (total im + 11))) s) by (unfold liftO; by rewrite E). clear E.
  cbn [idat idat_size width height]. destruct (Z.eqb_spec d 0) as [?|_]; [lia|].
  assert (forall x, d <= x < d + Z.of_nat (length (zlib_data (raw_data im) (adler k))) -> owned lo hi L x) as Hown' by (intros x Hx; apply Hown; lia).
  pose proof (length_raw im Hi) as Hlr. assert (0 < total im < 65536) as Ht.
  { pose proof Hi as [O1 O2 _ _ O5]. unfold total. unfold stride in *. nia. }
  destruct (decompress_run s L d (raw_data im) (adler k) Hok ltac:(lia) (proj2 (proj2 (proj2 Hc))) Hd Hown') as (r & s1 & E & Hk1 & Hr).
  rewrite Hlr in E, Hr. rewrite (bind_run _ _ _ _ _ E). clear E Hd Hown'.
  destruct Hr as [(-> & Hok1 & Hno)|(q & n & -> & HL & Hn & Hok1 & Hraw & s0 & m1 & E0 & Es1 & Hm1)].
  { exists None, s1. split_and!; [done|done|]. left. split_and!; [done|done|]. left. by exists s1. }
  destruct (make_pixels_run s1 L im q n Hok1 HL Hi Hn Hraw) as (r & s2 & E & Hk2 & Hr). rewrite E. exists r, s2. split_and!; [done| |].
  - by apply (same_owned_trans lo hi L s s1 s2).
  - destruct Hr as [(-> & Hok2 & m2 & s3 & E3 & Hm2)|Hr]; [left|by right]. split_and!; [done|done|]. right. exists q, s0, m2, s3.
    rewrite Es1, uh_put_put in E3. rewrite Es1, uh_put in Hm2. split_and!; [done| |done]. intros x Hx. by rewrite Hm2, Hm1.
Qed.

(** C9. Round trip: [png_decode_buffer] on a file that the encoder above
    writes (8-bit RGBA, the rows filtered by any of the five rules, in one
    stored block of less than 64 KiB, with any further chunks before and
    after), over any allocator that keeps [UserHeap], returns the image's
    size and a fresh allocation that holds its pixels.  All that was
    allocated or outside the heap before is unchanged, and the intermediate
    buffer is given back.  Only when the allocator refuses one of the two
    buffers it asks for does it return NULL, with the heap as before. *)
Theorem png_roundtrip s L im before after k buffer :
  aok s L -> image_ok im -> Forall ancillary before -> Forall ancillary after -> checks_ok k ->
  let file := png_encode im before after k in
  let size := Z.of_nat (length file) in
  holds (ram_of s) buffer file -> 0 < buffer -> buffer + size < 2 ^ 63 -> bytes (ram_of s) sig 8 = png_signature ->
  (forall x, buffer <= x < buffer + size -> owned lo hi L x) ->
  exists r s', png_decode_buffer sig malloc free buffer size s = Ret (r, s') /\ same_owned lo hi L s s' /\
    ((r = None /\ aok s' L /\ out_of_memory s (total im) (4 * im_w im * im_h im)) \/
     exists out n, r = Some (out, im_w im, im_h im) /\ L !! out = None /\ aok s' (<[out := n]> L) /\
       4 * im_w im * im_h im <= n /\ bytes (ram_of s') out (4 * im_w im * im_h im) = im_px im).
Proof using UH. apply png_decode_run. Qed.
End Decode.

(** ** Termination *)

(** The loop over the chunks ends on any file, whatever lengths its
    chunks claim: the fuel of [png_decode_buffer] is enough, since each
    round skips at least the eight bytes of a chunk's head. *)
Theorem scan_chunks_returns m buffer size info :
  0 < buffer -> 8 <= size -> buffer + size < 2 ^ 63 ->
  exists c, scan_chunks (Z.to_nat (size / 8 + 1)) m (u64 (buffer + 8)) (u64 (buffer + size)) info = Ret c.
Proof.
  intros Hb Hs Hl. rewrite !u64_small by lia.
  assert (forall fuel info p, 0 <= p -> buffer + size - p <= 8 * (Z.of_nat fuel - 1) -> (0 < fuel)%nat ->
    exists c, scan_chunks fuel m p (buffer + size) info = Ret c) as H.
  { induction fuel as [|fuel IH]; intros info' p Hp Hf H0; [lia|]. cbn [scan_chunks].
    destruct (Z.ltb_spec p (buffer + size)); cbn [negb]; [|by eexists].
    rewrite !(u64_small (p + 4)), (u64_small (p + 4 + 4)) by lia. set (len := read_be32 m p). set (type := read_be32 m (p + 4)).
    pose proof (u32_range (len + 4)). rewrite (u64_small (p + 4 + 4 + _)) by lia.
    repeat (case_match; try (by eexists); try (apply IH; lia)). }
  pose proof (Z.div_mod size 8 ltac:(lia)). pose proof (Z.mod_pos_bound size 8 ltac:(lia)). apply H; lia.
Qed.

(** ** Examples *)

(** Two rows of one pixel, filtered by rules 4 and 2, and an extra chunk. *)
Definition sample_image : image := Image 1 2 [10; 20; 30; 255; 11; 200; 30; 255] [4; 2].
Definition sample_checks : checks := Checks [1; 2; 3; 4] [5; 6; 7; 8] [9; 10; 11; 12] [0; 0; 0; 0].
Definition gamma : chunk := Chunk 0x67414D41 [0; 0; 177; 143] [11; 252; 97; 5].
Definition sample_file : list Z := png_encode sample_image [gamma] [] sample_checks.
Definition png_state (file : list Z) : mstate := set_ram (store_bytes (store_bytes (ram booted) 0x3000 png_signature) 0x1000 file) booted.

Lemma sample_image_ok : image_ok sample_image.
Proof.
  split; [done|done| | |done].
  - split; [|reflexivity]. unfold byte_list. cbn [im_px sample_image]. rewrite !Forall_cons. split_and!; try lia. apply Forall_nil_2.
  - intros y Hy. cbn in Hy. assert (y = 0 \/ y = 1) as [->| ->] by lia; vm_compute; split; congruence.
Qed.

Lemma sample_checks_ok : checks_ok sample_checks.
Proof. repeat split. Qed.

Lemma png_state_heap file : Z.of_nat (length file) < 0x1000 -> heap_ok 0x180000 (png_state file) ∅.
Proof.
  intros Hl. apply (alloc_write (Allocator := kernel_heap 0x180000) booted); [exact booted_heap| |done|done].
  intros x Hx. assert (0x180000 <= x) by (destruct (Z.lt_ge_cases x 0x180000); [exfalso; apply Hx; by left|done]).
  unfold png_state. cbn [ram set_ram]. rewrite !ld8_store_bytes; [done|right; cbn; lia|right; lia].
Qed.

(** The empty heap has room for both buffers. *)
Lemma png_state_room file : Z.of_nat (length file) < 0x1000 -> ~ out_of_memory kmalloc (png_state file) 10 8.
Proof.
  intros Hl Hno. pose proof (png_state_heap file Hl) as Hok.
  destruct (empty_heap_serves 0x180000 (png_state file) 10 Hok ltac:(vm_compute; split; congruence)) as (s1 & E1 & _).
  destruct Hno as [(s2 & E)|(q & s2 & m & s3 & E & Hm & E3)]; rewrite E1 in E; [discriminate E|]. injection E as <- <-.
  assert (heap_inv (png_state file) [boot_block]) as Hinv.
  { destruct booted_inv as (H1 & H2). split; [|exact H2]. apply (mem_ok_write booted); [exact H1| |done|done].
    intros b y ->%list_elem_of_singleton Hy. unfold png_state. cbn [ram set_ram ba boot_block] in *. rewrite !ld8_store_bytes; [done|right; cbn; lia|right; lia]. }
  destruct (heap_inv_malloc (png_state file) [boot_block] 10 Hinv ltac:(lia)) as (p & s1' & bs & E & Hinv1 & _ & Hc).
  rewrite E1 in E. injection E as <- <-. destruct Hc as [[Hz _]|(pre & b & post & Hb & _ & _ & _ & -> & _)]; [discriminate Hz|].
  destruct pre as [|? [|? ?]]; injection Hb as <- Hb; try discriminate Hb. subst post. rewrite app_nil_l, app_nil_r in Hinv1.
  change (alloc_abs boot_block (align_up 10 8)) with [Blk 0x180000 16 false; Blk 0x180020 16777168 true] in Hinv1.
  destruct (heap_serves (set_ram m s1) [Blk 0x180000 16 false; Blk 0x180020 16777168 true] (Blk 0x180020 16777168 true) 8) as (c & ? & ? & s' & _ & E & Hne).
  - apply (mem_ok_write s1); [exact (proj1 Hinv1)| |done|done]. intros b y Hb Hy. apply Hm.
    apply elem_of_cons in Hb as [->|Hb]; [cbn in Hy; lia|]. apply list_elem_of_singleton in Hb as ->. cbn in Hy. lia.
  - right. left.
  - vm_compute. reflexivity.
  - lia.
  - change (set_ram_of m s1) with (set_ram m s1) in E3. rewrite E in E3. injection E3 as H0 _. exact (Hne H0).
Qed.

Lemma png_roundtrip_witness : exists out s,
  png_decode_buffer 0x3000 kmalloc kfree 0x1000 (Z.of_nat (length sample_file)) (png_state sample_file) = Ret (Some (out, 1, 2), s) /\
  bytes (ram s) out 8 = [10; 20; 30; 255; 11; 200; 30; 255].
Proof.
  assert (Forall ancillary [gamma]) as Hg.
  { constructor; [|constructor]. split; [|cbn; lia|done]. split_and!; cbn; try lia; vm_compute; congruence. }
  assert (Z.of_nat (length sample_file) < 0x1000) as Hl by (vm_compute; reflexivity).
  destruct (png_roundtrip (UH := kernel_user_heap 0x180000 ltac:(lia)) 0x3000 kmalloc kfree 0x180000 _ (heap_ok 0x180000) (png_state sample_file) ∅ sample_image [gamma] [] sample_checks 0x1000
    (png_state_heap sample_file Hl) sample_image_ok Hg (Forall_nil_2 _) sample_checks_ok
    ltac:(vm_compute; reflexivity) ltac:(lia) ltac:(vm_compute; reflexivity) ltac:(vm_compute; reflexivity))
    as (r & s & E & _ & Hr).
  { intros x Hx. left. fold sample_file in Hx. lia. }
  destruct Hr as [(_ & _ & Hno)|(out & n & -> & _ & _ & _ & Hb)]; [by destruct (png_state_room sample_file Hl)|].
  exists out, s. split; [exact E|exact Hb].
Defined.

Lemma scan_chunks_returns_witness : exists c,
  scan_chunks (Z.to_nat (64 / 8 + 1)) (ram (png_state (replicate 64 255))) (u64 (0x1000 + 8)) (u64 (0x1000 + 64)) (PngInfo 0 0 0 0) = Ret c.
Proof. apply scan_chunks_returns; lia. Defined.
