(* ===== verification/Pci.v ===== *)
(** * PCI configuration space (Kernel/Drivers/PCI/PCI_Main.c, and lines
      200-287 of Kernel/Drivers/Display/VirtIO/VirtIO.c)

    Access to the configuration registers through the two ports, the scans
    over buses, devices and functions, and the decoding of the base address
    registers.  The loops over the functions of a device leave early with
    [break] or [return]; [flow] says how a round of the loop ended. *)
From S2P Require Import Prelude Machine Utils Serial Memory Disk.

Definition PCI_CONFIG_ADDRESS : Z := 0xCF8.
Definition PCI_CONFIG_DATA : Z := 0xCFC.
Definition VIRTIO_VENDOR_ID : Z := 0x1AF4.
Definition VIRTIO_GPU_DEVICE_ID : Z := 0x1050.

Inductive flow (R : Type) : Type :=
| Next
| Break
| Return (r : R).
Arguments Next {R}.
Arguments Break {R}.
Arguments Return {R} _.

(** [for (i = start; i < start + n; i++) body(i)]: the value of a [return]. *)
Fixpoint c_for {S R} (n : nat) (i : Z) (body : Z -> M S (flow R)) : M S (option R) :=
  match n with
  | O => mret None
  | Datatypes.S n' =>
      r ← body i;
      match r with
      | Next => c_for n' (i + 1) body
      | Break => mret None
      | Return v => mret (Some v)
      end
  end.
(** A loop as the body of another one. *)
Definition nested {S R} (c : M S (option R)) : M S (flow R) :=
  r ← c; mret match r with Some v => Return v | None => Next end.

Record pci_device_t := PciDevice {
  pd_bus : Z;
  pd_device : Z;
  pd_func : Z;
  vendor_id : Z;
  device_id : Z;
  class_code : Z;
  subclass : Z;
  prog_if : Z;
  pd_bar : list Z
}.

Record virtio_gpu_pci_t := GpuPci {
  gp_bus : Z;
  gp_device : Z;
  gp_func : Z;
  bar_addr : list Z;
  bar_is_mem : list Z;
  irq : Z
}.

Section Pci.
Context {B : Type} `{Ports B}.

(** The word written to the address port. *)
Definition config_address (bus device func offset : Z) : Z :=
  Z.lor (Z.lor (Z.lor (Z.lor 0x80000000 (Z.shiftl bus 16)) (Z.shiftl device 11)) (Z.shiftl func 8)) (Z.land offset 0xFC).

Definition pci_read_config (bus device func offset : Z) : M (dstate B) Z :=
  outl PCI_CONFIG_ADDRESS (config_address bus device func offset);;
  inl_port PCI_CONFIG_DATA.
Definition pci_write_config (bus device func offset value : Z) : M (dstate B) unit :=
  outl PCI_CONFIG_ADDRESS (config_address bus device func offset);;
  outl PCI_CONFIG_DATA value.

(** One round of the loop over the functions, the same in
    [pci_scan_bus_serial] and [find_virtio_gpu]; [found] is what each does
    with a function that is there. *)
Definition probe {R} (found : Z -> Z -> Z -> Z -> Z -> M (dstate B) (option R)) (bus device func : Z) : M (dstate B) (flow R) :=
  vd ← pci_read_config bus device func 0x00;
  let vendor := Z.land vd 0xFFFF in
  let dev_id := Z.land (Z.shiftr vd 16) 0xFFFF in
  if vendor =? 0xFFFF then mret (if func =? 0 then Break else Next)
  else
    r ← found bus device func vendor dev_id;
    match r with
    | Some v => mret (Return v)
    | None =>
        if func =? 0 then
          header_type ← pci_read_config bus device func 0x0C;
          mret (if Z.land (Z.shiftr header_type 16) 0x80 =? 0 then Break else Next)
        else mret Next
    end.
Definition scan_all {R} (found : Z -> Z -> Z -> Z -> Z -> M (dstate B) (option R)) : M (dstate B) (option R) :=
  c_for 256 0 (fun bus => nested (c_for 32 0 (fun device => nested (c_for 8 0 (probe found bus device))))).

(** ** PCI_Main.c *)

Fixpoint read_bars_from (n : nat) (i bus device func : Z) : M (dstate B) (list Z) :=
  match n with
  | O => mret []
  | S n' =>
      v ← pci_read_config bus device func (u8 (0x10 + i * 4));
      l ← read_bars_from n' (i + 1) bus device func;
      mret (v :: l)
  end.
(** Reads the six registers into [dev->bar]. *)
Definition pci_read_bars (dev : pci_device_t) : M (dstate B) pci_device_t :=
  l ← read_bars_from 6 0 (pd_bus dev) (pd_device dev) (pd_func dev);
  mret (PciDevice (pd_bus dev) (pd_device dev) (pd_func dev) (vendor_id dev) (device_id dev) (class_code dev) (subclass dev) (prog_if dev) l).

(** What is printed for a device. *)
Definition device_report (d : pci_device_t) : list sev :=
  [SStr "Bus "; SU32 (pd_bus d); SStr " Device "; SU32 (pd_device d); SStr " Func "; SU32 (pd_func d); SChar 10;
   SStr "  VendorID: 0x"; SU16 (vendor_id d); SStr " DeviceID: 0x"; SU16 (device_id d); SChar 10;
   SStr "  Class: 0x"; SU32 (class_code d); SStr " Subclass: 0x"; SU32 (subclass d); SStr " ProgIF: 0x"; SU32 (prog_if d); SChar 10] ++
  concat (imap (fun i v => [SStr "  BAR"; SU32 (Z.of_nat i); SStr ": 0x"; SU32 v; SChar 10]) (pd_bar d)).

Definition report_function (bus device func vendor dev_id : Z) : M (dstate B) (option unit) :=
  class_reg ← pci_read_config bus device func 0x08;
  dev ← pci_read_bars (PciDevice bus device func vendor dev_id (Z.land (Z.shiftr class_reg 24) 0xFF)
          (Z.land (Z.shiftr class_reg 16) 0xFF) (Z.land (Z.shiftr class_reg 8) 0xFF) []);
  on_mach (say (device_report dev));;
  mret None.
Definition pci_scan_bus_serial : M (dstate B) unit := scan_all report_function;; mret tt.

(** ** VirtIO.c *)

Definition pci_cfg_read8 (bus device func offset : Z) : M (dstate B) Z :=
  v ← pci_read_config bus device func (Z.land offset 0xFC);
  mret (Z.land (Z.shiftr v (Z.land offset 0x3 * 8)) 0xFF).
Definition pci_cfg_read16 (bus device func offset : Z) : M (dstate B) Z :=
  v ← pci_read_config bus device func (Z.land offset 0xFC);
  mret (Z.land (Z.shiftr v (Z.land offset 0x2 * 8)) 0xFFFF).
Definition pci_cfg_read32 (bus device func offset : Z) : M (dstate B) Z :=
  pci_read_config bus device func (Z.land offset 0xFC).
Definition pci_cfg_write16 (bus device func offset value : Z) : M (dstate B) unit :=
  let aligned := Z.land offset 0xFC in
  old ← pci_read_config bus device func aligned;
  let shift := Z.land offset 0x2 * 8 in
  let mask := u32 (Z.shiftl 0xFFFF shift) in
  let merged := Z.lor (Z.land old (u32 (Z.lnot mask))) (u32 (Z.shiftl value shift)) in
  pci_write_config bus device func aligned merged.

(** The loop of [pci_read_bar_addrs]; [i] grows each round, so six rounds
    and the last look at the condition suffice. *)
Fixpoint read_bar_loop (fuel : nat) (i bus device func : Z) (out_bar out_is_mem : list Z) : M (dstate B) (list Z * list Z) :=
  match fuel with
  | O => liftO NoFuel
  | S f =>
      if negb (i <? 6) then mret (out_bar, out_is_mem)
      else
        bar ← pci_cfg_read32 bus device func (u8 (0x10 + i * 4));
        let out_bar := <[Z.to_nat i := 0]> out_bar in
        let out_is_mem := <[Z.to_nat i := 0]> out_is_mem in
        if (bar =? 0) || (bar =? 0xFFFFFFFF) then read_bar_loop f (u8 (i + 1)) bus device func out_bar out_is_mem
        else if negb (Z.land bar 0x1 =? 0) then read_bar_loop f (u8 (i + 1)) bus device func out_bar out_is_mem
        else
          let out_is_mem := <[Z.to_nat i := 1]> out_is_mem in
          if (Z.land (Z.shiftr bar 1) 0x3 =? 0x2) && (i <? 5) then
            bar_hi ← pci_cfg_read32 bus device func (u8 (0x10 + (i + 1) * 4));
            let v := Z.lor (u64 (Z.shiftl bar_hi 32)) (Z.land bar (u32 (Z.lnot 0xF))) in
            read_bar_loop f (u8 (i + 2)) bus device func (<[Z.to_nat i := v]> out_bar) out_is_mem
          else
            read_bar_loop f (u8 (i + 1)) bus device func (<[Z.to_nat i := Z.land bar (u32 (Z.lnot 0xF))]> out_bar) out_is_mem
  end.
(** The arrays of the caller are not initialised. *)
Definition pci_read_bar_addrs (bus device func : Z) (out_bar out_is_mem : list Z) : M (dstate B) (list Z * list Z) :=
  read_bar_loop 7 0 bus device func out_bar out_is_mem.

Section Find.
(** What [gpu], a local of [virtio_gpu_init], holds before. *)
Context (gpu0 : virtio_gpu_pci_t).

Definition take_gpu (bus device func vendor dev_id : Z) : M (dstate B) (option virtio_gpu_pci_t) :=
  if (vendor =? VIRTIO_VENDOR_ID) && (dev_id =? VIRTIO_GPU_DEVICE_ID) then
    n ← pci_cfg_read8 bus device func 0x3C;
    '(addrs, mems) ← pci_read_bar_addrs bus device func (bar_addr gpu0) (bar_is_mem gpu0);
    mret (Some (GpuPci bus device func addrs mems n))
  else mret None.
Definition find_virtio_gpu : M (dstate B) (option virtio_gpu_pci_t) := scan_all take_gpu.
End Find.
End Pci.
