(* ===== verification/PciTheorems.v ===== *)
(** * The properties of the PCI code

    What the code relies on is the class [PciHost]: the first port latches
    an address, the second reads the register it names.  [all_functions] is
    the list of the functions that are present, in the order of their
    numbers; both scans visit exactly these. *)
From S2P Require Import Prelude Machine Utils Serial Memory Disk BlockDev Pci.

Class PciHost (B : Type) `{Ports B} := {
  (** The registers by address word, and the latched address. *)
  pci_at : B -> (Z -> Z) -> Z -> Prop;
  pci_values b f a x : pci_at b f a -> 0 <= f x < 4294967296;
  pci_latch b f a a' : pci_at b f a -> 0x80000000 <= a' < 4294967296 -> pci_at (bus_out32 PCI_CONFIG_ADDRESS a' b) f a';
  pci_in b f a : pci_at b f a -> exists b', bus_in32 PCI_CONFIG_DATA b = (f a, b') /\ pci_at b' f a
}.

Definition reg (f : Z -> Z) (bus device func offset : Z) : Z :=
  f (0x80000000 + 65536 * bus + 2048 * device + 256 * func + offset).

(** ** The functions that are present *)

Definition vendor_of (f : Z -> Z) (bus device func : Z) : Z := reg f bus device func 0 mod 65536.
Definition device_of (f : Z -> Z) (bus device func : Z) : Z := reg f bus device func 0 / 65536.
Definition multi_function (f : Z -> Z) (bus device : Z) : bool := Z.testbit (reg f bus device 0 0x0C) 23.
Definition is_present (f : Z -> Z) (bus device func : Z) : bool := negb (vendor_of f bus device func =? 0xFFFF).
Definition functions (f : Z -> Z) (bus device : Z) : list Z :=
  if is_present f bus device 0
  then 0 :: (if multi_function f bus device then List.filter (is_present f bus device) (seqZ 1 7) else [])
  else [].
Definition place : Type := Z * Z * Z.
Definition all_functions (f : Z -> Z) : list place :=
  seqZ 0 256 ≫= fun bus => seqZ 0 32 ≫= fun device => pair (bus, device) <$> functions f bus device.

(** What a scan does with the functions of a list: it stops at the first
    result, and prints on the way. *)
Fixpoint visit {R} (act : place -> option R * list sev) (l : list place) : option R * list sev :=
  match l with
  | [] => (None, [])
  | x :: l =>
      match act x with
      | (Some r, es) => (Some r, es)
      | (None, es) => let '(r, es') := visit act l in (r, es ++ es')
      end
  end.

Lemma visit_app {R} (act : place -> option R * list sev) l1 l2 : visit act (l1 ++ l2) =
  match visit act l1 with
  | (Some r, es) => (Some r, es)
  | (None, es) => let '(r, es') := visit act l2 in (r, es ++ es')
  end.
Proof.
  induction l1 as [|x l1 IH]; cbn [app visit]; [by destruct (visit act l2)|].
  destruct (act x) as [[r|] es]; [done|]. rewrite IH. destruct (visit act l1) as [[r|] es1]; [done|]. destruct (visit act l2). by rewrite app_assoc.
Qed.

(** ** Base address registers

    A register that is neither zero nor all ones and has bit 0 clear maps
    memory; type 2 in bits 1 and 2 makes it 64 bits wide, with the upper half
    in the next register.  [r i] is register [i] of the six. *)
Section Bars.
Context (r : nat -> Z).
Definition mem_bar (i : nat) : bool := negb (r i =? 0) && negb (r i =? 0xFFFFFFFF) && Z.even (r i).
Definition wide_bar (i : nat) : bool := mem_bar i && (r i / 2 mod 4 =? 2) && (i <? 5)%nat.
Fixpoint upper_half (i : nat) : bool :=
  match i with O => false | S i => negb (upper_half i) && wide_bar i end.
Definition bar_base (i : nat) : Z :=
  if mem_bar i then (if wide_bar i then r (S i) * 4294967296 else 0) + (r i - r i mod 16) else 0.
(** The entry of an upper half keeps its old value. *)
Definition addr_entry (i : nat) (old : Z) : Z := if upper_half i then old else bar_base i.
Definition mem_entry (i : nat) (old : Z) : Z := if upper_half i then old else b2z (mem_bar i).
End Bars.

(** An array whose first [n] entries are done. *)
Definition partial (g : nat -> Z -> Z) (n : nat) (old : list Z) : list Z :=
  imap (fun i o => if (i <? n)%nat then g i o else o) old.
Lemma partial_insert g n old v : (forall o, g n o = v) -> <[n := v]> (partial g n old) = partial g (S n) old.
Proof.
  intros Hv. apply list_eq. intros i. unfold partial. rewrite list_lookup_insert, length_imap, !list_lookup_imap.
  destruct (old !! i) as [o|] eqn:E; cbn [fmap option_fmap option_map].
  - apply lookup_lt_Some in E. destruct (decide (i = n)) as [->|Hne].
    + rewrite decide_True by lia. destruct (Nat.ltb_spec n (S n)); [by rewrite Hv|lia].
    + rewrite decide_False by lia. destruct (Nat.ltb_spec i (S n)), (Nat.ltb_spec i n); (lia || done).
  - apply lookup_ge_None in E. case_decide; [lia|done].
Qed.
Lemma partial_skip g n old : (forall o, g n o = o) -> partial g n old = partial g (S n) old.
Proof.
  intros Hv. apply imap_ext. intros i o _. destruct (Nat.ltb_spec i n), (Nat.ltb_spec i (S n)); try (lia || done).
  assert (i = n) as -> by lia. by rewrite Hv.
Qed.
Lemma partial_0 g old : partial g 0 old = old.
Proof. unfold partial. rewrite <- (list_fmap_id old) at 2. rewrite <- imap_const. by apply imap_ext. Qed.
Lemma partial_again g n old v w : <[n := w]> (<[n := v]> (partial g n old)) = <[n := w]> (partial g n old).
Proof. apply list_insert_insert_eq. Qed.

Section Host.
Context {B : Type} {P : Ports B} {PH : PciHost B}.
Implicit Types (m : mstate) (b : B) (f : Z -> Z).

Definition host b f : Prop := exists a, pci_at b f a.

Definition place_ok (bus device func : Z) : Prop := 0 <= bus < 256 /\ 0 <= device < 32 /\ 0 <= func < 8.

Lemma lor_reverse v w x y z : Z.lor (Z.lor (Z.lor (Z.lor v w) x) y) z = Z.lor (Z.lor (Z.lor (Z.lor z y) x) w) v.
Proof using Type.
  apply Z.bits_inj'. intros n _. rewrite !Z.lor_spec.
  by destruct (Z.testbit v n), (Z.testbit w n), (Z.testbit x n), (Z.testbit y n), (Z.testbit z n).
Qed.

Lemma land_fc o : 0 <= o < 64 -> Z.land (4 * o) 0xFC = 4 * o.
Proof using Type.
  intros Ho. change 0xFC with (Z.ldiff (Z.ones 8) (Z.ones 2)). rewrite Z.ldiff_land, Z.land_assoc, Z.land_ones, Z.mod_small, land_lnot_ones by lia.
  change (2 ^ 2) with 4. rewrite Z.mul_comm, Z_mod_mult. lia.
Qed.

Lemma config_address_value bus device func o : place_ok bus device func -> 0 <= o < 64 ->
  config_address bus device func (4 * o) = 0x80000000 + 65536 * bus + 2048 * device + 256 * func + 4 * o.
Proof using Type.
  intros (Hb & Hd & Hf) Ho. unfold config_address.
  rewrite land_fc by lia.
  change 0x80000000 with (Z.shiftl 1 31). rewrite lor_reverse. rewrite (lor_shiftl (4 * o)) by lia. rewrite (lor_shiftl _ device) by lia.
  rewrite (lor_shiftl _ bus) by lia. rewrite (lor_shiftl _ 1) by lia. change (Z.shiftl 1 31) with 0x80000000. lia.
Qed.

Lemma read_config_run bus device func o f m b : place_ok bus device func -> 0 <= o < 64 -> host b f ->
  exists b', pci_read_config bus device func (4 * o) (DState m b) = Ret (reg f bus device func (4 * o), DState m b') /\ host b' f.
Proof using PH.
  intros Hp Ho [a Ha]. unfold pci_read_config. rewrite config_address_value by done. destruct Hp as (Hb & Hd & Hf).
  set (x := 0x80000000 + _ + _ + _ + _). unfold outl. rewrite bind_modify. cbn [mach Disk.bus]. rewrite u32_small by lia.
  destruct (pci_in _ _ _ (pci_latch b f a x Ha ltac:(lia))) as (b' & E & Hb'). exists b'. split; [|by exists x].
  unfold inl_port. cbn [Disk.bus mach]. rewrite E. rewrite u32_small by (by eapply pci_values). reflexivity.
Qed.

Lemma read0_run bus device func f m b : place_ok bus device func -> host b f ->
  exists b', pci_read_config bus device func 0 (DState m b) = Ret (reg f bus device func 0, DState m b') /\ host b' f.
Proof using PH. intros Hp. apply (read_config_run bus device func 0 f m b Hp). lia. Qed.

Lemma cfg_read32_run bus device func o f m b : place_ok bus device func -> 0 <= o < 64 -> host b f ->
  exists b', pci_cfg_read32 bus device func (4 * o) (DState m b) = Ret (reg f bus device func (4 * o), DState m b') /\ host b' f.
Proof using PH.
  intros Hp Ho Hb. unfold pci_cfg_read32. rewrite land_fc by lia. by apply read_config_run.
Qed.

(** The decoding of the base address registers. *)
Section BarLoop.
Context (f : Z -> Z) (bus device func : Z) (Hp : place_ok bus device func).
Let r (i : nat) : Z := reg f bus device func (16 + 4 * Z.of_nat i).

Lemma bar_bits v : 0 <= v < 4294967296 ->
  negb (Z.land v 0x1 =? 0) = negb (Z.even v) /\ Z.land (Z.shiftr v 1) 0x3 = v / 2 mod 4 /\ Z.land v (u32 (Z.lnot 0xF)) = v - v mod 16.
Proof using Type.
  intros Hv. split_and!.
  - change 1 with (2 ^ 0). rewrite land_pow2_bit, Z.bit0_odd, <- Z.negb_even by lia. by destruct (Z.even v).
  - change 3 with (Z.ones 2). rewrite Z.land_ones, Z.shiftr_div_pow2 by lia. done.
  - change (u32 (Z.lnot 0xF)) with (Z.ldiff (Z.ones 32) (Z.ones 4)). rewrite Z.ldiff_land, Z.land_assoc, Z.land_ones, Z.mod_small, land_lnot_ones by lia. done.
Qed.

Lemma read_bar_loop_run addrs mems n : forall i m b, host b f -> (7 <= n + i)%nat -> (i <= 6)%nat -> upper_half r i = false ->
  exists b', read_bar_loop n (Z.of_nat i) bus device func (partial (addr_entry r) i addrs) (partial (mem_entry r) i mems) (DState m b) =
    Ret ((partial (addr_entry r) 6 addrs, partial (mem_entry r) 6 mems), DState m b') /\ host b' f.
Proof using PH Hp.
  induction n as [n IH] using lt_wf_ind. intros i m b Hb Hn Hi Hup. destruct n as [|n]; [lia|]. cbn [read_bar_loop].
  destruct (Z.ltb_spec (Z.of_nat i) 6); cbn [negb]; [|assert (i = 6%nat) as -> by lia; by exists b].
  assert (forall j m b, host b f -> (j < 6)%nat -> exists b',
    pci_cfg_read32 bus device func (u8 (0x10 + Z.of_nat j * 4)) (DState m b) = Ret (r j, DState m b') /\ host b' f) as Hrd.
  { intros j m0 b0 Hb0 Hj. rewrite u8_small by lia. unfold r. replace (16 + Z.of_nat j * 4) with (4 * (4 + Z.of_nat j)) by lia.
    replace (16 + 4 * Z.of_nat j) with (4 * (4 + Z.of_nat j)) by lia. apply cfg_read32_run; (done || lia). }
  destruct (Hrd i m b Hb ltac:(lia)) as (b1 & E1 & Hb1). rewrite (bind_run _ _ _ _ _ E1). clear E1.
  assert (0 <= r i < 4294967296) as Hv by (destruct Hb1 as [a Ha]; exact (pci_values _ _ _ _ Ha)).
  destruct (bar_bits (r i) Hv) as (-> & -> & ->). rewrite Nat2Z.id, !list_insert_insert_eq.
  assert (upper_half r (S i) = wide_bar r i) as Hup1 by (cbn [upper_half]; by rewrite Hup).
  assert (forall v k, (forall o, addr_entry r i o = v) -> (forall o, mem_entry r i o = k) -> wide_bar r i = false -> exists b',
    read_bar_loop n (u8 (Z.of_nat i + 1)) bus device func (<[i := v]> (partial (addr_entry r) i addrs)) (<[i := k]> (partial (mem_entry r) i mems)) (DState m b1) =
    Ret ((partial (addr_entry r) 6 addrs, partial (mem_entry r) 6 mems), DState m b') /\ host b' f) as Hnext.
  { intros v k Ha Hm Hw. rewrite !partial_insert by done. rewrite u8_small by lia. replace (Z.of_nat i + 1) with (Z.of_nat (S i)) by lia.
    apply IH; try lia; try assumption. by rewrite Hup1. }
  assert (forall o, addr_entry r i o = bar_base r i) as Ha by (intros o; unfold addr_entry; by rewrite Hup).
  assert (forall o, mem_entry r i o = b2z (mem_bar r i)) as Hm by (intros o; unfold mem_entry; by rewrite Hup).
  unfold bar_base in Ha. destruct (mem_bar r i) eqn:Em.
  2:{ assert (wide_bar r i = false) as Hw by (unfold wide_bar; by rewrite Em). unfold mem_bar in Em.
      destruct (r i =? 0), (r i =? 4294967295), (Z.even (r i)); cbn [negb andb orb] in Em |- *; try discriminate Em; by apply Hnext. }
  assert ((r i =? 0) || (r i =? 0xFFFFFFFF) = false /\ Z.even (r i) = true) as [-> ->].
  { unfold mem_bar in Em. by destruct (r i =? 0), (r i =? 4294967295), (Z.even (r i)). }
  cbn [negb]. destruct (wide_bar r i) eqn:Ew.
  2:{ unfold wide_bar in Ew. rewrite Em in Ew. cbn [andb] in Ew.
      replace (Z.of_nat i <? 5) with (i <? 5)%nat by (destruct (Nat.ltb_spec i 5), (Z.ltb_spec (Z.of_nat i) 5); (lia || done)). rewrite Ew. by apply Hnext. }
  assert ((r i / 2 mod 4 =? 2) && (Z.of_nat i <? 5) = true /\ (i < 5)%nat) as [-> Hi5].
  { unfold wide_bar in Ew. rewrite Em in Ew. destruct (r i / 2 mod 4 =? 2); [|discriminate Ew]. cbn [andb] in Ew |- *.
    destruct (Nat.ltb_spec i 5); [|discriminate Ew]. split; [|done]. apply Z.ltb_lt. lia. }
  replace (Z.of_nat i + 1) with (Z.of_nat (S i)) by lia. destruct (Hrd (S i) m b1 Hb1 ltac:(lia)) as (b2 & E2 & Hb2). rewrite (bind_run _ _ _ _ _ E2), ?list_insert_insert_eq.
  assert (0 <= r (S i) < 4294967296) as Hv2 by (destruct Hb1 as [a Ha']; exact (pci_values _ _ _ _ Ha')).
  replace (Z.lor (u64 (Z.shiftl (r (S i)) 32)) (r i - r i mod 16)) with (r (S i) * 4294967296 + (r i - r i mod 16)).
  2:{ rewrite u64_small by (rewrite Z.shiftl_mul_pow2 by lia; lia). rewrite Z.lor_comm, lor_shiftl by word_lia. lia. }
  rewrite (partial_insert _ i addrs _ Ha), (partial_insert _ i mems 1 Hm). rewrite !(partial_skip _ (S i)) by (intros o; unfold addr_entry, mem_entry; by rewrite Hup1).
  rewrite u8_small by lia. replace (Z.of_nat i + 2) with (Z.of_nat (S (S i))) by lia.
  apply IH; try (done || lia). cbn [upper_half]. by rewrite Hup, Ew.
Qed.
End BarLoop.

Section Scan.
Context {R : Type} (f : Z -> Z) (found : Z -> Z -> Z -> Z -> Z -> M (dstate B) (option R)) (act : place -> option R * list sev).

(** [c] does what [visit] does on [l]. *)
Definition visits (c : M (dstate B) (option R)) (l : list place) : Prop := forall m b, host b f ->
  exists b', c (DState m b) = Ret (fst (visit act l), DState (add_serial (snd (visit act l)) m) b') /\ host b' f.

Hypothesis found_ok : forall bus device func, place_ok bus device func ->
  visits (found bus device func (vendor_of f bus device func) (device_of f bus device func)) [((bus, device), func)].

Lemma visit_one x : visit act [x] = (fst (act x), snd (act x)).
Proof using Type. cbn [visit]. destruct (act x) as [[r|] es]; cbn; [done|]. by rewrite app_nil_r. Qed.

Lemma visits_ret l : visit act l = (None, []) -> visits (mret None) l.
Proof using Type. intros E m b Hb. exists b. rewrite E. cbn [fst snd]. rewrite add_serial_nil. by split. Qed.

(** A loop whose rounds visit the parts of a list visits the list. *)
Lemma visits_for (body : Z -> M (dstate B) (option R)) (L : Z -> list place) n : forall i,
  (forall j, i <= j < i + Z.of_nat n -> visits (body j) (L j)) ->
  visits (c_for n i (fun j => nested (body j))) (seqZ i (Z.of_nat n) ≫= L).
Proof using Type.
  induction n as [|n IH]; intros i Hb; [by apply visits_ret|].
  intros m b Hh. rewrite seqZ_cons, bind_cons, visit_app by lia. cbn [c_for]. destruct (Hb i ltac:(lia) m b Hh) as (b1 & E1 & Hh1).
  destruct (visit act (L i)) as [[r|] es] eqn:Ev; cbn [fst snd] in *.
  - rewrite (bind_run _ _ _ (Return r) (DState (add_serial es m) b1)); [by exists b1|]. unfold nested. by rewrite (bind_run _ _ _ _ _ E1).
  - rewrite (bind_run _ _ _ Next (DState (add_serial es m) b1)) by (unfold nested; by rewrite (bind_run _ _ _ _ _ E1)).
    replace (Z.pred (Z.of_nat (S n))) with (Z.of_nat n) by lia. rewrite <- Z.add_1_r.
    destruct (IH (i + 1) ltac:(intros j Hj; apply Hb; lia) (add_serial es m) b1 Hh1) as (b2 & E2 & Hh2). exists b2. rewrite E2.
    destruct (visit act (seqZ (i + 1) (Z.of_nat n) ≫= L)) as [r' es']. cbn [fst snd]. by rewrite add_serial_app.
Qed.

Lemma ids_of vd : 0 <= vd < 4294967296 -> Z.land vd 0xFFFF = vd mod 65536 /\ Z.land (Z.shiftr vd 16) 0xFFFF = vd / 65536.
Proof using Type.
  intros Hv. change 0xFFFF with (Z.ones 16). rewrite !Z.land_ones, Z.shiftr_div_pow2 by lia. split; [done|]. apply Z.mod_small. word_lia.
Qed.

(** A round on a function that is there. *)
Lemma probe_run bus device func m b : place_ok bus device func -> host b f ->
  let p := ((bus, device), func) in
  exists b', probe found bus device func (DState m b) = Ret
    (if is_present f bus device func then
       match fst (act p) with Some r => Return r | None => if (func =? 0) && negb (multi_function f bus device) then Break else Next end
     else if func =? 0 then Break else Next,
     DState (if is_present f bus device func then add_serial (snd (act p)) m else m) b') /\ host b' f.
Proof using PH found_ok.
  intros Hp Hb p. unfold probe. destruct (read0_run bus device func f m b Hp Hb) as (b1 & E1 & Hb1). rewrite (bind_run _ _ _ _ _ E1).
  assert (0 <= reg f bus device func 0 < 4294967296) as Hv by (destruct Hb1 as [a Ha]; exact (pci_values _ _ _ _ Ha)).
  destruct (ids_of _ Hv) as [-> ->]. fold (vendor_of f bus device func) (device_of f bus device func). unfold is_present.
  destruct (vendor_of f bus device func =? 0xFFFF); cbn [negb]; [by exists b1|].
  destruct (found_ok bus device func Hp m b1 Hb1) as (b2 & E2 & Hb2). rewrite visit_one in E2. cbn [fst snd] in E2. fold p in E2.
  rewrite (bind_run _ _ _ _ _ E2). destruct (fst (act p)) as [r|]; [by exists b2|].
  destruct (Z.eqb_spec func 0) as [->|]; cbn [andb]; [|by exists b2].
  destruct (read_config_run bus device 0 3 f (add_serial (snd (act p)) m) b2 Hp ltac:(lia) Hb2) as (b3 & E3 & Hb3).
  rewrite (bind_run _ _ _ _ _ E3). exists b3. split; [|done]. do 3 f_equal. change (4 * 3) with 0x0C.
  change 0x80 with (2 ^ 7). rewrite land_pow2_bit, Z.shiftr_spec by lia. unfold multi_function. change (7 + 16) with 23.
  by destruct (Z.testbit _ 23).
Qed.

(** The functions from [func] on, for a device with several. *)
Lemma rest_visits bus device n : forall func, 0 < func -> func + Z.of_nat n <= 8 -> place_ok bus device 0 ->
  visits (c_for n func (probe found bus device)) (pair (bus, device) <$> List.filter (is_present f bus device) (seqZ func (Z.of_nat n))).
Proof using PH found_ok.
  induction n as [|n IH]; intros func Hf Hn Hp; [by apply visits_ret|].
  intros m b Hb. rewrite seqZ_cons by lia. cbn [List.filter c_for]. replace (Z.pred (Z.of_nat (S n))) with (Z.of_nat n) by lia. rewrite <- Z.add_1_r.
  destruct (probe_run bus device func m b) as (b1 & E1 & Hb1); [destruct Hp as (? & ? & _); split_and!; lia|done|].
  rewrite (bind_run _ _ _ _ _ E1). clear E1. destruct (Z.eqb_spec func 0); [lia|]. cbn [andb].
  destruct (is_present f bus device func); [|by apply IH; [lia|lia|..]].
  rewrite fmap_cons. cbn [visit]. destruct (act (bus, device, func)) as [[r|] es]; cbn [fst snd]; [by exists b1|].
  destruct (IH (func + 1) ltac:(lia) ltac:(lia) Hp (add_serial es m) b1 Hb1) as (b2 & E2 & Hb2). exists b2. rewrite E2.
  destruct (visit act _) as [r' es']. cbn [fst snd]. by rewrite add_serial_app.
Qed.

Lemma device_visits bus device : place_ok bus device 0 ->
  visits (c_for 8 0 (probe found bus device)) (pair (bus, device) <$> functions f bus device).
Proof using PH found_ok.
  intros Hp m b Hb. change (c_for 8 0 (probe found bus device)) with
    (r ← probe found bus device 0; match r with Next => c_for 7 1 (probe found bus device) | Break => mret None | Return v => mret (Some v) end).
  destruct (probe_run bus device 0 m b Hp Hb) as (b1 & E1 & Hb1). rewrite (bind_run _ _ _ _ _ E1). clear E1. cbn [Z.eqb andb]. unfold functions.
  destruct (is_present f bus device 0); [|exists b1; cbn [fmap list_fmap visit fst snd]; by rewrite add_serial_nil].
  rewrite fmap_cons. cbn [visit]. destruct (act (bus, device, 0)) as [[r|] es]; cbn [fst snd]; [by exists b1|].
  destruct (multi_function f bus device); cbn [negb].
  - destruct (rest_visits bus device 7 1 ltac:(lia) ltac:(lia) Hp (add_serial es m) b1 Hb1) as (b2 & E2 & Hb2). exists b2. rewrite E2.
    change (Z.of_nat 7) with 7. destruct (visit act _) as [r' es']. cbn [fst snd]. by rewrite add_serial_app.
  - exists b1. cbn [fmap list_fmap visit fst snd]. by rewrite app_nil_r.
Qed.

Lemma scan_visits : visits (scan_all found) (all_functions f).
Proof using PH found_ok.
  unfold scan_all, all_functions. apply (visits_for _ (fun bus => _) 256). intros bus Hbus. cbn beta.
  apply (visits_for _ (fun device => pair (bus, device) <$> functions f bus device) 32). intros device Hd. apply device_visits. split_and!; lia.
Qed.
End Scan.

(** ** The two scans *)

Definition gpu_at (f : Z -> Z) (gpu0 : virtio_gpu_pci_t) (p : place) : virtio_gpu_pci_t :=
  let '((bus, device), func) := p in
  let r i := reg f bus device func (16 + 4 * Z.of_nat i) in
  GpuPci bus device func (imap (addr_entry r) (bar_addr gpu0)) (imap (mem_entry r) (bar_is_mem gpu0)) (reg f bus device func 0x3C mod 256).
Definition is_gpu (f : Z -> Z) (p : place) : bool :=
  let '((bus, device), func) := p in
  (vendor_of f bus device func =? VIRTIO_VENDOR_ID) && (device_of f bus device func =? VIRTIO_GPU_DEVICE_ID).

Lemma partial_all g n old : (length old <= n)%nat -> partial g n old = imap g old.
Proof using Type.
  intros Hl. apply imap_ext. intros i o Hi%lookup_lt_Some. destruct (Nat.ltb_spec i n); (lia || done).
Qed.

Lemma take_gpu_visits f gpu0 bus device func : place_ok bus device func -> length (bar_addr gpu0) = 6%nat -> length (bar_is_mem gpu0) = 6%nat ->
  visits f (fun p => (if is_gpu f p then Some (gpu_at f gpu0 p) else None, []))
    (take_gpu gpu0 bus device func (vendor_of f bus device func) (device_of f bus device func)) [((bus, device), func)].
Proof using PH.
  intros Hp L1 L2 m b Hb. rewrite visit_one. cbn [fst snd]. rewrite add_serial_nil. unfold take_gpu. cbn [is_gpu].
  destruct (_ && _); [|by exists b].
  destruct (read_config_run bus device func 15 f m b Hp ltac:(lia) Hb) as (b1 & E1 & Hb1).
  rewrite (bind_run _ _ _ (reg f bus device func 0x3C mod 256) (DState m b1)).
  2:{ unfold pci_cfg_read8. change (Z.land 0x3C 0xFC) with (4 * 15). rewrite (bind_run _ _ _ _ _ E1).
      change (Z.land 0x3C 0x3 * 8) with 0. rewrite Z.shiftr_0_r. change 0xFF with (Z.ones 8). by rewrite Z.land_ones by lia. }
  destruct (read_bar_loop_run f bus device func Hp (bar_addr gpu0) (bar_is_mem gpu0) 7 0 m b1 Hb1 ltac:(lia) ltac:(lia) eq_refl) as (b2 & E2 & Hb2).
  rewrite !partial_0, !partial_all in E2 by lia. exists b2. split; [|done]. unfold pci_read_bar_addrs. change (Z.of_nat 0) with 0 in E2.
  by rewrite (bind_run _ _ _ _ _ E2).
Qed.

Lemma visit_find {R} (f : Z -> Z) (test : place -> bool) (g : place -> R) l :
  visit (fun p => (if test p then Some (g p) else None, [])) l = (g <$> List.find test l, []).
Proof using Type.
  induction l as [|x l IH]; [done|]. cbn [visit List.find]. destruct (test x); [done|]. by rewrite IH.
Qed.

Lemma find_virtio_gpu_run f gpu0 m b :
  host b f -> length (bar_addr gpu0) = 6%nat -> length (bar_is_mem gpu0) = 6%nat ->
  exists b', find_virtio_gpu gpu0 (DState m b) = Ret (gpu_at f gpu0 <$> List.find (is_gpu f) (all_functions f), DState m b') /\ host b' f.
Proof using PH.
  intros Hb L1 L2. unfold find_virtio_gpu.
  destruct (scan_visits f (take_gpu gpu0) _ (fun bus device func Hp => take_gpu_visits f gpu0 bus device func Hp L1 L2) m b Hb) as (b' & E & Hb').
  exists b'. rewrite E, visit_find by done. cbn [fst snd]. by rewrite add_serial_nil.
Qed.

(** C21. [find_virtio_gpu] finds the first function, in the order of bus,
    device and function numbers, that is present and has the identifiers of
    the VirtIO GPU; functions above 0 count only on devices that have
    several.  It returns 0 exactly when there is none.  The interrupt line
    and the decoded base addresses are those of the function found, except
    that entries of upper halves stay as they were. *)
Theorem find_virtio_gpu_correct f gpu0 m b :
  host b f -> length (bar_addr gpu0) = 6%nat -> length (bar_is_mem gpu0) = 6%nat ->
  exists b', find_virtio_gpu gpu0 (DState m b) = Ret (gpu_at f gpu0 <$> List.find (is_gpu f) (all_functions f), DState m b') /\ host b' f.
Proof using PH. apply find_virtio_gpu_run. Qed.

(** What the scan prints for a function. *)
Definition device_at (f : Z -> Z) (p : place) : pci_device_t :=
  let '((bus, device), func) := p in
  let c := reg f bus device func 8 in
  PciDevice bus device func (vendor_of f bus device func) (device_of f bus device func) (c / 16777216) (c / 65536 mod 256) (c / 256 mod 256)
    ((fun i => reg f bus device func (16 + 4 * i)) <$> seqZ 0 6).

Lemma read_bars_run f bus device func n : place_ok bus device func -> forall i m b, host b f -> 0 <= i -> i + Z.of_nat n <= 6 ->
  exists b', read_bars_from n i bus device func (DState m b) =
    Ret ((fun j => reg f bus device func (16 + 4 * j)) <$> seqZ i (Z.of_nat n), DState m b') /\ host b' f.
Proof using PH.
  intros Hp. induction n as [|n IH]; intros i m b Hb Hi Hn; cbn [read_bars_from]; [by exists b|].
  rewrite u8_small by lia. replace (0x10 + i * 4) with (4 * (4 + i)) by lia.
  destruct (read_config_run bus device func (4 + i) f m b Hp ltac:(lia) Hb) as (b1 & E1 & Hb1). rewrite (bind_run _ _ _ _ _ E1).
  destruct (IH (i + 1) m b1 Hb1 ltac:(lia) ltac:(lia)) as (b2 & E2 & Hb2). rewrite (bind_run _ _ _ _ _ E2). exists b2. split; [|done].
  rewrite (seqZ_cons i), fmap_cons by lia. replace (Z.pred (Z.of_nat (S n))) with (Z.of_nat n) by lia. rewrite <- Z.add_1_r.
  by replace (4 * (4 + i)) with (16 + 4 * i) by lia.
Qed.

Lemma report_visits f bus device func : place_ok bus device func ->
  visits f (fun p => (None, device_report (device_at f p)))
    (report_function bus device func (vendor_of f bus device func) (device_of f bus device func)) [((bus, device), func)].
Proof using PH.
  intros Hp m b Hb. rewrite visit_one. cbn [fst snd]. unfold report_function.
  destruct (read_config_run bus device func 2 f m b Hp ltac:(lia) Hb) as (b1 & E1 & Hb1). change (4 * 2) with 8 in E1. rewrite (bind_run _ _ _ _ _ E1).
  assert (0 <= reg f bus device func 8 < 4294967296) as Hv by (destruct Hb1 as [a Ha]; exact (pci_values _ _ _ _ Ha)).
  destruct (read_bars_run f bus device func 6 Hp 0 m b1 Hb1 ltac:(lia) ltac:(lia)) as (b2 & E2 & Hb2). change (Z.of_nat 6) with 6 in E2.
  unfold pci_read_bars. cbn [pd_bus pd_device pd_func vendor_id device_id class_code subclass prog_if].
  erewrite (bind_run _ _ (DState m b1)) by (by rewrite (bind_run _ _ _ _ _ E2)). exists b2. split; [|done]. cbn [device_at].
  change 0xFF with (Z.ones 8). rewrite !Z.land_ones, !Z.shiftr_div_pow2 by lia.
  rewrite (Z.mod_small (reg f bus device func 8 / 2 ^ 24)) by word_lia. reflexivity.
Qed.

(** [pci_scan_bus_serial] prints one report for each function that is
    present, in the order of their numbers, and nothing else; the
    configuration registers keep their values. *)
Theorem pci_scan_reports f m b : host b f ->
  exists b', pci_scan_bus_serial (DState m b) = Ret (tt, DState (add_serial (all_functions f ≫= fun p => device_report (device_at f p)) m) b') /\ host b' f.
Proof using PH.
  intros Hb. unfold pci_scan_bus_serial. destruct (scan_visits f report_function _ (report_visits f) m b Hb) as (b' & E & Hb').
  assert (forall l, visit (fun p => (None, device_report (device_at f p))) l = (@None unit, l ≫= fun p => device_report (device_at f p))) as Hv.
  { induction l as [|x l IH]; [done|]. cbn [visit]. rewrite IH. done. }
  rewrite Hv in E. cbn [fst snd] in E. rewrite (bind_run _ _ _ _ _ E). by exists b'.
Qed.
End Host.

(** ** A simulated host bridge *)

Record sim_host := SimHost { sh_regs : gmap Z Z; sh_latch : Z }.
Definition sim_reg (h : sim_host) (a : Z) : Z := u32 (default 0xFFFFFFFF (sh_regs h !! a)).
#[export] Instance sim_host_ports : Ports sim_host := {
  bus_in8 _ h := (0, h);
  bus_out8 _ _ h := h;
  bus_in16 _ h := (0, h);
  bus_out16 _ _ h := h;
  bus_in32 port h := (if port =? PCI_CONFIG_DATA then sim_reg h (sh_latch h) else 0, h);
  bus_out32 port v h := if port =? PCI_CONFIG_ADDRESS then SimHost (sh_regs h) v else h
}.
#[export] Program Instance sim_host_pci : PciHost sim_host := {
  pci_at h f a := sim_reg h = f /\ sh_latch h = a
}.
Next Obligation. intros b f a x [<- _]. apply u32_range. Qed.
Next Obligation. intros b f a a' [<- _] Ha. by split. Qed.
Next Obligation. intros b f a [<- <-]. by exists b. Qed.

(** The GPU in slot 2 with a 64-bit BAR, behind a host bridge in slot 0. *)
Definition sim_bridge : sim_host := SimHost {[
  0x80000000 := 0x12378086; 0x8000000C := 0;
  0x80001000 := 0x10501AF4; 0x8000100C := 0; 0x8000103C := 0x10B;
  0x80001010 := 0xFE00000C; 0x80001014 := 8; 0x80001018 := 0xC001; 0x8000101C := 0xFEB00000; 0x80001020 := 0; 0x80001024 := 0 ]} 0.
Definition no_gpu : virtio_gpu_pci_t := GpuPci 0 0 0 (replicate 6 77) (replicate 6 77) 0.

Lemma find_virtio_gpu_correct_witness : exists b',
  find_virtio_gpu no_gpu (DState mach0 sim_bridge) =
  Ret (Some (GpuPci 0 2 0 [0x8FE000000; 77; 0; 0xFEB00000; 0; 0] [1; 77; 0; 1; 0; 0] 0x0B), DState mach0 b').
Proof.
  destruct (find_virtio_gpu_correct (sim_reg sim_bridge) no_gpu mach0 sim_bridge ltac:(by exists 0) eq_refl eq_refl) as (b' & E & _).
  exists b'. rewrite E. vm_compute. reflexivity.
Defined.

Lemma pci_scan_reports_witness : exists s, pci_scan_bus_serial (DState mach0 sim_bridge) = Ret (tt, s).
Proof.
  destruct (pci_scan_reports (sim_reg sim_bridge) mach0 sim_bridge ltac:(by exists 0)) as (b' & E & _). eexists. exact E.
Defined.
