(* ===== verification/Virtio.v ===== *)
(** * Setting up the VirtIO GPU (Kernel/Drivers/Display/VirtIO/VirtIO.c,
      lines 289-565 and 606-681, and [display_init])

    The device's registers are behind the addresses [map_mmio_virt] returns:
    class [GpuConfig] says what a read and a write there do.  The queue and
    the commands are in RAM as in Display.v, with [cmd_at] and [resp_at] for
    the two local structures.  [vstate] joins the paging state, which has
    the machine, with the devices and the driver's variables. *)
From S2P Require Import Prelude Machine Utils Serial Memory Disk Paging Pci Display.

Definition PCI_CAP_ID_VENDOR : Z := 0x09.
Definition VIRTIO_PCI_CAP_COMMON_CFG : Z := 1.
Definition VIRTIO_PCI_CAP_NOTIFY_CFG : Z := 2.
Definition VIRTIO_PCI_CAP_DEVICE_CFG : Z := 4.
Definition VIRTIO_STATUS_ACKNOWLEDGE : Z := 0x01.
Definition VIRTIO_STATUS_DRIVER : Z := 0x02.
Definition VIRTIO_STATUS_DRIVER_OK : Z := 0x04.
Definition VIRTIO_STATUS_FEATURES_OK : Z := 0x08.
Definition VIRTIO_STATUS_FAILED : Z := 0x80.
Definition VIRTIO_F_VERSION_1 : Z := Z.shiftl 1 0.
Definition VIRTIO_GPU_CMD_GET_DISPLAY_INFO : Z := 0x0100.
Definition VIRTIO_GPU_CMD_RESOURCE_CREATE_2D : Z := 0x0101.
Definition VIRTIO_GPU_CMD_SET_SCANOUT : Z := 0x0103.
Definition VIRTIO_GPU_CMD_RESOURCE_ATTACH_BACKING : Z := 0x0106.
Definition VIRTIO_GPU_RESP_OK_DISPLAY_INFO : Z := 0x1101.
Definition VIRTIO_GPU_FORMAT_B8G8R8X8_UNORM : Z := 1.
Definition GPU_SCANOUT_ID : Z := 0.

Record virtio_pci_cap_t := PciCap {
  cap_vndr : Z;
  cap_next : Z;
  cap_len : Z;
  cfg_type : Z;
  cap_bar : Z;
  cap_id : Z;
  cap_offset : Z;
  cap_length : Z
}.

Record virtio_pci_transport_t := Transport {
  common_cfg : Z;
  notify_base : Z;
  device_cfg : Z;
  notify_off_multiplier : Z
}.

(** Accesses of [n] bytes to the registers of a device. *)
Class GpuConfig (B : Type) := {
  cfg_read : Z -> Z -> B -> Z * B;
  cfg_write : Z -> Z -> Z -> B -> B
}.

Record vstate (B : Type) := VState { vpage : paging; vbus : B; vgpu : gpu_vars }.
Arguments VState {B} _ _ _.
Arguments vpage {B} _.
Arguments vbus {B} _.
Arguments vgpu {B} _.

Section Virtio.
Context {B : Type} `{Ports B} `{GpuConfig B} `{GpuDevice B}.
(** The page tables of Paging_Main.c and the local structures. *)
Context (pdpt pd cmd_at resp_at : Z) (kmalloc : Z -> M mstate Z).

Definition on_dstate {A} (c : M (dstate B) A) : M (vstate B) A :=
  zoom (fun s => DState (pmach (vpage s)) (vbus s)) (fun d s => VState (put_pmach (mach d) (vpage s)) (bus d) (vgpu s)) c.
Definition on_vpage {A} (c : M paging A) : M (vstate B) A := zoom vpage (fun p s => VState p (vbus s) (vgpu s)) c.
Definition v_say (es : list sev) : M (vstate B) unit := on_dstate (on_mach (say es)).
Definition set_gpu (g : gpu_vars) : M (vstate B) unit := modify (fun s => VState (vpage s) (vbus s) g).

(** ** Capabilities *)

(** What one vendor capability does to [t]; [None] when the function returns
    0 from inside the loop. *)
Definition use_cap (gpu : virtio_gpu_pci_t) (cap : Z) (vcap : virtio_pci_cap_t) (t : virtio_pci_transport_t)
    : M (vstate B) (option virtio_pci_transport_t) :=
  let addr := default 0 (bar_addr gpu !! Z.to_nat (cap_bar vcap)) in
  if (cap_bar vcap <? 6) && negb (default 0 (bar_is_mem gpu !! Z.to_nat (cap_bar vcap)) =? 0) && negb (addr =? 0) then
    base ← on_vpage (map_mmio_virt pdpt pd (u64 (addr + cap_offset vcap)));
    if base =? 0 then mret None
    else if cfg_type vcap =? VIRTIO_PCI_CAP_COMMON_CFG then
      mret (Some (Transport base (notify_base t) (device_cfg t) (notify_off_multiplier t)))
    else if cfg_type vcap =? VIRTIO_PCI_CAP_NOTIFY_CFG then
      mult ← on_dstate (pci_cfg_read32 (gp_bus gpu) (gp_device gpu) (gp_func gpu) (u8 (cap + 16)));
      mret (Some (Transport (common_cfg t) base (device_cfg t) mult))
    else if cfg_type vcap =? VIRTIO_PCI_CAP_DEVICE_CFG then
      mret (Some (Transport (common_cfg t) (notify_base t) base (notify_off_multiplier t)))
    else mret (Some t)
  else mret (Some t).

(** The loop over the capability list; [guard] ends it after 64 rounds. *)
Fixpoint caps_loop (fuel : nat) (gpu : virtio_gpu_pci_t) (cap guard : Z) (t : virtio_pci_transport_t)
    : M (vstate B) (option virtio_pci_transport_t) :=
  match fuel with
  | O => liftO NoFuel
  | S f =>
      if negb (negb (cap =? 0) && (0x40 <=? cap) && (guard <? 64)) then mret (Some t)
      else
        let read8 off := on_dstate (pci_cfg_read8 (gp_bus gpu) (gp_device gpu) (gp_func gpu) (u8 off)) in
        let read32 off := on_dstate (pci_cfg_read32 (gp_bus gpu) (gp_device gpu) (gp_func gpu) (u8 off)) in
        id ← read8 cap;
        next ← read8 (cap + 1);
        if id =? PCI_CAP_ID_VENDOR then
          len ← read8 (cap + 2);
          type ← read8 (cap + 3);
          bar ← read8 (cap + 4);
          vid ← read8 (cap + 5);
          offset ← read32 (cap + 8);
          length ← read32 (cap + 12);
          r ← use_cap gpu cap (PciCap id next len type bar vid offset length) t;
          match r with
          | None => mret None
          | Some t => caps_loop f gpu next (guard + 1) t
          end
        else caps_loop f gpu next (guard + 1) t
  end.

Definition virtio_pci_find_caps (gpu : virtio_gpu_pci_t) : M (vstate B) (option virtio_pci_transport_t) :=
  let t := Transport 0 0 0 0 in
  status ← on_dstate (pci_cfg_read16 (gp_bus gpu) (gp_device gpu) (gp_func gpu) 0x06);
  if Z.land status (Z.shiftl 1 4) =? 0 then mret None
  else
    cap ← on_dstate (pci_cfg_read8 (gp_bus gpu) (gp_device gpu) (gp_func gpu) 0x34);
    r ← caps_loop 65 gpu cap 0 t;
    mret match r with
         | None => None
         | Some t => if negb (common_cfg t =? 0) && negb (notify_base t =? 0) then Some t else None
         end.

(** ** Registers of the common configuration *)

Definition common_read (n : Z) (wrap : Z -> Z) (common off : Z) : M (vstate B) Z := fun s =>
  let '(v, b) := cfg_read n (u64 (common + off)) (vbus s) in Ret (wrap v, VState (vpage s) b (vgpu s)).
Definition common_read8 : Z -> Z -> M (vstate B) Z := common_read 1 u8.
Definition common_read16 : Z -> Z -> M (vstate B) Z := common_read 2 u16.
Definition common_read32 : Z -> Z -> M (vstate B) Z := common_read 4 u32.
Definition common_write (n : Z) (wrap : Z -> Z) (common off v : Z) : M (vstate B) unit :=
  modify (fun s => VState (vpage s) (cfg_write n (u64 (common + off)) (wrap v) (vbus s)) (vgpu s)).
Definition common_write8 : Z -> Z -> Z -> M (vstate B) unit := common_write 1 u8.
Definition common_write16 : Z -> Z -> Z -> M (vstate B) unit := common_write 2 u16.
Definition common_write32 : Z -> Z -> Z -> M (vstate B) unit := common_write 4 u32.
Definition common_write64 : Z -> Z -> Z -> M (vstate B) unit := common_write 8 u64.

Definition virtio_pci_device_init (gpu : virtio_gpu_pci_t) (t : virtio_pci_transport_t) : M (vstate B) bool :=
  let c := common_cfg t in
  cmd ← on_dstate (pci_cfg_read16 (gp_bus gpu) (gp_device gpu) (gp_func gpu) 0x04);
  let cmd := Z.lor (Z.lor cmd (Z.shiftl 1 1)) (Z.shiftl 1 2) in
  on_dstate (pci_cfg_write16 (gp_bus gpu) (gp_device gpu) (gp_func gpu) 0x04 cmd);;
  common_write8 c 20 0;;
  common_write8 c 20 VIRTIO_STATUS_ACKNOWLEDGE;;
  common_write8 c 20 (Z.lor VIRTIO_STATUS_ACKNOWLEDGE VIRTIO_STATUS_DRIVER);;
  common_write32 c 0 0;;
  common_read32 c 4;;
  common_write32 c 0 1;;
  common_read32 c 4;;
  common_write32 c 8 0;;
  common_write32 c 12 0;;
  common_write32 c 8 1;;
  common_write32 c 12 VIRTIO_F_VERSION_1;;
  let status := Z.lor (Z.lor VIRTIO_STATUS_ACKNOWLEDGE VIRTIO_STATUS_DRIVER) VIRTIO_STATUS_FEATURES_OK in
  common_write8 c 20 status;;
  status ← common_read8 c 20;
  if Z.land status VIRTIO_STATUS_FEATURES_OK =? 0 then
    common_write8 c 20 (Z.lor status VIRTIO_STATUS_FAILED);; mret false
  else mret true.

(** ** The control queue *)

Definition align_up_u32 (value align : Z) : Z := Z.land (u32 (value + align - 1)) (u32 (Z.lnot (u32 (align - 1)))).

Definition alloc_aligned (size align : Z) : M mstate Z :=
  raw ← kmalloc (u32 (size + align - 1));
  if raw =? 0 then mret 0
  else mret (Z.land (u64 (raw + u32 (align - 1))) (u64 (Z.lnot (u32 (align - 1))))).

(** Byte counts and offsets of the rings. *)
Record ring_sizes := RingSizes { desc_bytes : Z; avail_bytes : Z; used_off : Z; used_bytes : Z; ring_total : Z }.
Definition ring_layout (qsize : Z) : ring_sizes :=
  let desc_bytes := u32 (qsize * 16) in
  let avail_bytes := u32 (6 + u32 (qsize * 2)) in
  let used_off := align_up_u32 (u32 (desc_bytes + avail_bytes)) 4 in
  let used_bytes := u32 (6 + u32 (qsize * 8)) in
  RingSizes desc_bytes avail_bytes used_off used_bytes (u32 (used_off + used_bytes)).

Definition virtqueue_init_ctrl (t : virtio_pci_transport_t) (queue_index : Z) : M (vstate B) (option virtqueue_t) :=
  let c := common_cfg t in
  common_write16 c 22 queue_index;;
  qsize ← common_read16 c 24;
  if qsize <? 2 then mret None
  else
    let l := ring_layout qsize in
    ring ← on_dstate (on_mach (alloc_aligned (ring_total l) 4096));
    if ring =? 0 then mret None
    else
      on_dstate (on_dev_ram (fun m => memset m ring 0 (ring_total l)));;
      let desc := ring in
      let avail := u64 (ring + desc_bytes l) in
      let used := u64 (ring + used_off l) in
      common_write16 c 26 0xFFFF;;
      common_write64 c 32 desc;;
      common_write64 c 40 avail;;
      common_write64 c 48 used;;
      common_write16 c 28 1;;
      notify_off ← common_read16 c 30;
      let notify_addr := u64 (notify_base t + u32 (notify_off * notify_off_multiplier t)) in
      common_write16 c 22 queue_index;;
      enabled ← common_read16 c 28;
      if enabled =? 0 then mret None
      else mret (Some (Virtqueue queue_index qsize desc avail used 0 0 notify_addr)).

(** ** Commands *)

(** Both structures cleared, the fields of the command stored by [fill], the
    command submitted, and the type of the response. *)
Definition gpu_cmd (len resp_len : Z) (fill : mem -> mem) (vq : virtqueue_t) : M (dstate B) (option Z * virtqueue_t) :=
  on_dev_ram (fun m => fill (memset (memset m cmd_at 0 len) resp_at 0 resp_len));;
  '(r, vq) ← virtqueue_submit_sync vq cmd_at len resp_at resp_len;
  if r =? 0 then mret (None, vq)
  else ty ← gets (fun d => ld32 (dev_ram d) resp_at); mret (Some ty, vq).

(** [Some (width, height)] when it returns 1. *)
Definition gpu_cmd_get_display_info (vq : virtqueue_t) : M (dstate B) (option (Z * Z) * virtqueue_t) :=
  '(ty, vq) ← gpu_cmd 24 408 (fun m => st32 m cmd_at VIRTIO_GPU_CMD_GET_DISPLAY_INFO) vq;
  match ty with
  | None => mret (None, vq)
  | Some ty =>
      if negb (ty =? VIRTIO_GPU_RESP_OK_DISPLAY_INFO) then mret (None, vq)
      else
        w ← gets (fun d => ld32 (dev_ram d) (resp_at + 32));
        h ← gets (fun d => ld32 (dev_ram d) (resp_at + 36));
        mret (if (w =? 0) || (h =? 0) then None else Some (w, h), vq)
  end.

Definition ok_nodata (c : M (dstate B) (option Z * virtqueue_t)) : M (dstate B) (bool * virtqueue_t) :=
  '(ty, vq) ← c;
  mret (match ty with None => false | Some ty => ty =? VIRTIO_GPU_RESP_OK_NODATA end, vq).

Definition gpu_cmd_resource_create_2d (vq : virtqueue_t) (width height : Z) : M (dstate B) (bool * virtqueue_t) :=
  ok_nodata (gpu_cmd 40 24 (fun m =>
    let m := st32 m cmd_at VIRTIO_GPU_CMD_RESOURCE_CREATE_2D in
    let m := st32 m (cmd_at + 24) GPU_RESOURCE_ID in
    let m := st32 m (cmd_at + 28) VIRTIO_GPU_FORMAT_B8G8R8X8_UNORM in
    let m := st32 m (cmd_at + 32) width in
    st32 m (cmd_at + 36) height) vq).

Definition gpu_cmd_resource_attach_backing (vq : virtqueue_t) (fb bytes : Z) : M (dstate B) (bool * virtqueue_t) :=
  ok_nodata (gpu_cmd 48 24 (fun m =>
    let m := st32 m cmd_at VIRTIO_GPU_CMD_RESOURCE_ATTACH_BACKING in
    let m := st32 m (cmd_at + 24) GPU_RESOURCE_ID in
    let m := st32 m (cmd_at + 28) 1 in
    let m := st64 m (cmd_at + 32) fb in
    st32 m (cmd_at + 40) bytes) vq).

Definition gpu_cmd_set_scanout (vq : virtqueue_t) (width height : Z) : M (dstate B) (bool * virtqueue_t) :=
  ok_nodata (gpu_cmd 48 24 (fun m =>
    let m := st32 m cmd_at VIRTIO_GPU_CMD_SET_SCANOUT in
    let m := st32 m (cmd_at + 24) 0 in
    let m := st32 m (cmd_at + 28) 0 in
    let m := st32 m (cmd_at + 32) width in
    let m := st32 m (cmd_at + 36) height in
    let m := st32 m (cmd_at + 40) GPU_SCANOUT_ID in
    st32 m (cmd_at + 44) GPU_RESOURCE_ID) vq).

(** ** virtio_gpu_init *)

Definition init_failed (msg : string) : M (vstate B) bool := v_say [line msg];; mret false.

(** The part that follows the size of the display. *)
Definition setup_framebuffer (vq : virtqueue_t) (width height : Z) : M (vstate B) bool :=
  let pixel_count := u64 (width * height) in
  if (pixel_count =? 0) || (64 * 1024 * 1024 <? pixel_count) then init_failed "[OS] [VIRTIO] Invalid display size"
  else
    let fb_bytes := u32 (u64 (pixel_count * 4)) in
    fb ← on_dstate (on_mach (kmalloc fb_bytes));
    if fb =? 0 then init_failed "[OS] [VIRTIO] Framebuffer allocation failed"
    else
      on_dstate (on_dev_ram (fun m => memset m fb 0 fb_bytes));;
      '(r, vq) ← on_dstate (gpu_cmd_resource_create_2d vq width height);
      if negb r then init_failed "[OS] [VIRTIO] RESOURCE_CREATE_2D failed"
      else
        '(r, vq) ← on_dstate (gpu_cmd_resource_attach_backing vq fb fb_bytes);
        if negb r then init_failed "[OS] [VIRTIO] ATTACH_BACKING failed"
        else
          '(r, vq) ← on_dstate (gpu_cmd_set_scanout vq width height);
          if negb r then init_failed "[OS] [VIRTIO] SET_SCANOUT failed"
          else
            v_say [line "[OS] [VIRTIO] Init complete"];;
            set_gpu (GpuVars 1 width height fb vq);;
            mret true.

(** From the device's reset to the end, once its registers are known. *)
Definition bring_up (gpu : virtio_gpu_pci_t) (t : virtio_pci_transport_t) : M (vstate B) bool :=
  r ← virtio_pci_device_init gpu t;
  if negb r then init_failed "[OS] [VIRTIO] Device init failed"
  else
    q ← virtqueue_init_ctrl t 0;
    match q with
    | None => init_failed "[OS] [VIRTIO] Control queue init failed"
    | Some vq =>
        status ← common_read8 (common_cfg t) 20;
        common_write8 (common_cfg t) 20 (Z.lor status VIRTIO_STATUS_DRIVER_OK);;
        '(size, vq) ← on_dstate (gpu_cmd_get_display_info vq);
        let '(width, height) := default (1024, 768) size in
        setup_framebuffer vq width height
    end.

Definition virtio_gpu_init (gpu0 : virtio_gpu_pci_t) : M (vstate B) bool :=
  q0 ← gets (fun s => g_gpu_controlq (vgpu s));
  set_gpu (GpuVars 0 0 0 0 q0);;
  found ← on_dstate (find_virtio_gpu gpu0);
  match found with
  | None => init_failed "[OS] [VIRTIO] GPU device not found"
  | Some gpu =>
      v_say [SStr "[OS] [VIRTIO] GPU found (IRQ "; SU32 (irq gpu); line ")"];;
      t ← virtio_pci_find_caps gpu;
      match t with
      | None => init_failed "[OS] [VIRTIO] Required PCI capabilities are missing"
      | Some t => bring_up gpu t
      end
  end.

Definition display_init (gpu0 : virtio_gpu_pci_t) : M (vstate B) bool := virtio_gpu_init gpu0.
End Virtio.
