(* ===== verification/VirtioTheorems.v ===== *)
(** * The properties of the GPU set-up

    What the driver relies on is the class [VirtioGpu], the part of the
    VirtIO specification it uses: configuration through PCI and the common
    configuration structure, and a device that writes only to the used ring
    and to the buffers it was given.  [PromptGpu] is what the driver relies
    on beyond the specification.  With any such device and any allocator the
    set-up ends, and when it reports success the frame buffer is an
    allocation of the right size that is cleared. *)
From S2P Require Import Prelude Machine Utils Serial Memory Heap HeapChain HeapInv HeapOps HeapSpec Alloc HeapTheorems SysFileTheorems.
From S2P Require Import Disk BlockDev Paging Pci Display Virtio.

(** What is fixed of a device: its place on PCI, the addresses of the common
    configuration and notification structures, the notification multiplier,
    and size and notification offset of queue 0. *)
Record gpu_regs := GpuRegs { gr_place : Z * Z * Z; gr_common : Z; gr_notify : Z; gr_mult : Z; gr_size : Z; gr_off : Z }.
Definition notify_at (R : gpu_regs) : Z := u64 (gr_notify R + u32 (gr_off R * gr_mult R)).
Definition command_register (R : gpu_regs) : Z := let '((bus, device), func) := gr_place R in u32 (config_address bus device func 4).

(** The state of queue 0: the addresses of its parts, whether it is the one
    selected, whether it is enabled, and the bytes the driver lets the
    device write. *)
Record gpu_queue := GpuQueue { gq_desc : Z; gq_avail : Z; gq_used : Z; gq_selected : bool; gq_enabled : bool; gq_buffers : Z -> Prop }.
Definition may_write (R : gpu_regs) (Q : gpu_queue) (x : Z) : Prop :=
  gq_used Q <= x < gq_used Q + 6 + 8 * gr_size R \/ gq_buffers Q x.

(** The queue as this driver fills it: the only chain is descriptor 0 with
    the command and descriptor 1 with the buffer for the response. *)
Record posted (R : gpu_regs) (Q : gpu_queue) (m : mem) : Prop := {
  po_first : ld16 m (gq_desc Q + 12) = VIRTQ_DESC_F_NEXT /\ ld16 m (gq_desc Q + 14) = 1;
  po_second : ld16 m (gq_desc Q + 28) = VIRTQ_DESC_F_WRITE;
  po_buffer x : ld64 m (gq_desc Q + 16) <= x < ld64 m (gq_desc Q + 16) + ld32 m (gq_desc Q + 24) -> gq_buffers Q x;
  po_ring i : 0 <= i < gr_size R -> ld16 m (gq_avail Q + 4 + 2 * i) = 0
}.

(** A device as the VirtIO and PCI specifications describe it, for the
    accesses of this driver. *)
Class VirtioGpu (B : Type) `{Ports B} `{GpuConfig B} `{GpuDevice B} := {
  (** Before the reset, with memory decoding on or off; during the reset;
      and after it. *)
  dev_at : B -> gpu_regs -> bool -> Prop;
  dev_resetting : B -> gpu_regs -> Prop;
  dev_ok : B -> gpu_regs -> gpu_queue -> Prop;
  (** Configuration space: reading it changes nothing; writing the command
      register with memory space and bus master set turns decoding on. *)
  dv_address b R on v : dev_at b R on -> dev_at (bus_out32 PCI_CONFIG_ADDRESS v b) R on;
  dv_in b R on : dev_at b R on -> dev_at (snd (bus_in32 PCI_CONFIG_DATA b)) R on;
  dv_command b R on v : dev_at b R on -> Z.testbit v 1 = true -> Z.testbit v 2 = true ->
    dev_at (bus_out32 PCI_CONFIG_DATA v (bus_out32 PCI_CONFIG_ADDRESS (command_register R) b)) R true;
  (** Writing 0 to the status register starts a reset. *)
  dv_reset b R : dev_at b R true -> dev_resetting (cfg_write 1 (gr_common R + 20) 0 b) R;
  dv_values b R Q : dev_ok b R Q -> 0 <= gr_size R < 65536 /\ 0 <= gr_off R < 65536;
  (** Reading features, status, or size, enable bit and notification offset
      of the queue changes nothing; nor does writing the status, the feature
      selectors and the driver's features. *)
  dv_read b R Q n off : dev_ok b R Q -> (n, off) ∈ [(4, 4); (1, 20); (2, 24); (2, 28); (2, 30)] ->
    dev_ok (snd (cfg_read n (gr_common R + off) b)) R Q;
  dv_status b R Q v : dev_ok b R Q -> 0 < v < 256 -> dev_ok (cfg_write 1 (gr_common R + 20) v b) R Q;
  dv_feature b R Q off v : dev_ok b R Q -> off ∈ [0; 8; 12] -> dev_ok (cfg_write 4 (gr_common R + off) v b) R Q;
  (** Queue 0 is selected, and then the queue registers are its own. *)
  dv_select b R Q : dev_ok b R Q ->
    dev_ok (cfg_write 2 (gr_common R + 22) 0 b) R (GpuQueue (gq_desc Q) (gq_avail Q) (gq_used Q) true (gq_enabled Q) (gq_buffers Q));
  dv_queue_size b R Q : dev_ok b R Q -> gq_selected Q = true -> fst (cfg_read 2 (gr_common R + 24) b) = gr_size R;
  dv_notify_off b R Q : dev_ok b R Q -> gq_selected Q = true -> fst (cfg_read 2 (gr_common R + 30) b) = gr_off R;
  dv_vector b R Q : dev_ok b R Q -> gq_selected Q = true -> dev_ok (cfg_write 2 (gr_common R + 26) 0xFFFF b) R Q;
  dv_enable b R Q : dev_ok b R Q -> gq_selected Q = true ->
    dev_ok (cfg_write 2 (gr_common R + 28) 1 b) R (GpuQueue (gq_desc Q) (gq_avail Q) (gq_used Q) true true (gq_buffers Q));
  (** At work the device writes to the used ring and to buffers it was
      given. *)
  dv_notify b R Q m b' m' : dev_ok b R Q -> gq_enabled Q = true -> posted R Q m -> gpu_notify (notify_at R) 0 b m = (b', m') ->
    dev_ok b' R Q /\ forall x, ~ may_write R Q x -> ld8 m' x = ld8 m x;
  dv_poll b R Q m b' m' : dev_ok b R Q -> gq_enabled Q = true -> posted R Q m -> gpu_poll b m = (b', m') ->
    dev_ok b' R Q /\ forall x, ~ may_write R Q x -> ld8 m' x = ld8 m x
}.

(** What the driver takes for granted beyond that: it does not wait for the
    end of the reset, after which the device holds no buffer and has no
    queue enabled, and it writes each 64-bit address of a queue with one
    access (the specification asks for two of 32 bits). *)
Class PromptGpu (B : Type) `{VirtioGpu B} : Prop := {
  pr_reset b R W : dev_resetting b R -> exists d a u, dev_ok b R (GpuQueue d a u false false W);
  pr_desc b R d a u W v : dev_ok b R (GpuQueue d a u true false W) -> dev_ok (cfg_write 8 (gr_common R + 32) v b) R (GpuQueue v a u true false W);
  pr_avail b R d a u W v : dev_ok b R (GpuQueue d a u true false W) -> dev_ok (cfg_write 8 (gr_common R + 40) v b) R (GpuQueue d v u true false W);
  pr_used b R d a u W v : dev_ok b R (GpuQueue d a u true false W) -> dev_ok (cfg_write 8 (gr_common R + 48) v b) R (GpuQueue d a v true false W)
}.

Lemma testbit_u8 v k : 0 <= k < 8 -> Z.testbit (u8 v) k = Z.testbit v k.
Proof. intros Hk. exact (Z.mod_pow2_bits_low v 8 k (proj2 Hk)). Qed.
Lemma testbit_u32 v k : 0 <= k < 32 -> Z.testbit (u32 v) k = Z.testbit v k.
Proof. intros Hk. exact (Z.mod_pow2_bits_low v 32 k (proj2 Hk)). Qed.

(** ** The layout of the rings *)

Lemma align_up_4 v : 0 <= v < 4294967293 -> align_up_u32 v 4 = 4 * ((v + 3) / 4).
Proof.
  intros Hv. unfold align_up_u32. replace (v + 4 - 1) with (v + 3) by lia. rewrite (u32_small (v + 3)) by lia.
  change (u32 (Z.lnot (u32 (4 - 1)))) with (Z.ldiff (Z.ones 32) (Z.ones 2)).
  rewrite Z.ldiff_land, Z.land_assoc, Z.land_ones, Z.mod_small, land_lnot_ones by lia. change (2 ^ 2) with 4. word_lia.
Qed.

Lemma ring_layout_value q : 2 <= q < 65536 ->
  ring_layout q = RingSizes (16 * q) (6 + 2 * q) (4 * ((18 * q + 9) / 4)) (6 + 8 * q) (4 * ((18 * q + 9) / 4) + (6 + 8 * q)) /\
  18 * q + 6 <= 4 * ((18 * q + 9) / 4) <= 18 * q + 9.
Proof.
  intros Hq. split; [|word_lia]. unfold ring_layout. rewrite (u32_small (q * 2)), (u32_small (q * 16)), (u32_small (q * 8)) by lia.
  rewrite (u32_small (6 + q * 2)), (u32_small (q * 16 + _)), (u32_small (6 + q * 8)) by lia. rewrite align_up_4 by lia.
  replace (q * 16 + (6 + q * 2) + 3) with (18 * q + 9) by lia. rewrite u32_small by word_lia. f_equal; lia.
Qed.

Section Setup.
Context {B : Type} {P : Ports B} {CF : GpuConfig B} {GD : GpuDevice B} {GC : VirtioGpu B} {PR : PromptGpu B}.
Context (cmd_at resp_at : Z) (malloc : Z -> M mstate Z) (free : Z -> M mstate unit) (lo hi : Z)
  (aok : mstate -> gmap Z Z -> Prop) {AL : Allocator malloc free lo hi aok}.
Implicit Types (m : mstate) (b : B) (p : paging) (g : gpu_vars) (L : gmap Z Z).

(** A page-aligned part of a fresh allocation. *)
Lemma alloc_aligned_run m L size : aok m L -> 0 < size < 4294963000 ->
  exists r m', alloc_aligned malloc size 4096 m = Ret (r, m') /\
    (forall x, owned lo hi L x -> ld8 (ram m') x = ld8 (ram m) x) /\
    ((r = 0 /\ aok m' L) \/
     exists raw n, L !! raw = None /\ aok m' (<[raw := n]> L) /\ r mod 4096 = 0 /\ 0 < raw <= r /\ r + size <= raw + n).
Proof using AL.
  intros Hok Hs. unfold alloc_aligned. rewrite (u32_small (size + 4096 - 1)) by lia.
  destruct (alloc_malloc m L (size + 4096 - 1) Hok ltac:(lia)) as (raw & m1 & E & (_ & _ & _ & Hk) & Hc). rewrite (bind_run _ _ _ _ _ E).
  destruct Hc as [[-> Hok1]|(Hr0 & HL & n & Hn & Hok1 & _)]; [exists 0, m1; split_and!; [done|done|by left]|].
  destruct (Z.eqb_spec raw 0); [done|]. eexists _, m1. split; [reflexivity|]. split; [done|]. right. exists raw, n.
  destruct (alloc_range m1 _ raw n Hok1 (lookup_insert_eq _ _ _)) as (R0 & R1 & R2 & R3 & _ & R5).
  change (u32 (4096 - 1)) with 4095. rewrite (u64_small (raw + 4095)) by lia.
  pose proof (land_u64_lnot_ones (raw + 4095) 12 ltac:(lia) ltac:(lia)) as Ea. change (Z.ones 12) with 4095 in Ea. rewrite Ea. change (2 ^ 12) with 4096.
  split_and!; try done; word_lia.
Qed.

(** ** Registers *)

Definition vs p m b g : vstate B := VState (put_pmach m p) b g.

Lemma bind_write {A} n w c off v (k : unit -> M (vstate B) A) p m b g :
  (x ← common_write n w c off v; k x) (vs p m b g) = k tt (vs p m (cfg_write n (u64 (c + off)) (w v) b) g).
Proof using Type. reflexivity. Qed.
Lemma bind_read {A} n w c off (k : Z -> M (vstate B) A) p m b g :
  (x ← common_read n w c off; k x) (vs p m b g) =
  k (w (fst (cfg_read n (u64 (c + off)) b))) (vs p m (snd (cfg_read n (u64 (c + off)) b)) g).
Proof using Type. unfold common_read, mbind, M_bind. cbn [vbus vpage vgpu vs]. by destruct (cfg_read _ _ b). Qed.
Lemma bind_on_dstate {A A'} (c : M (dstate B) A) (k : A -> M (vstate B) A') p m b g a m' b' :
  c (DState m b) = Ret (a, DState m' b') -> (x ← on_dstate c; k x) (vs p m b g) = k a (vs p m' b' g).
Proof using Type. intros E. apply bind_run. unfold on_dstate, zoom. cbn. by rewrite E. Qed.
Lemma bind_v_say {A} es (k : unit -> M (vstate B) A) p m b g :
  (x ← v_say es; k x) (vs p m b g) = k tt (vs p (add_serial es m) b g).
Proof using Type. reflexivity. Qed.

Lemma pci_read_keeps bus device func o m b R on : dev_at b R on ->
  exists v b', pci_read_config bus device func o (DState m b) = Ret (v, DState m b') /\ dev_at b' R on.
Proof using GC.
  intros Hd. unfold pci_read_config, outl. rewrite bind_modify. cbn [mach Disk.bus]. unfold inl_port. cbn [Disk.bus mach].
  pose proof (dv_in _ _ _ (dv_address b R on (u32 (config_address bus device func o)) Hd)) as H.
  destruct (bus_in32 _ _) as [v b']. by exists (u32 v), b'.
Qed.

(** The device is turned on in the command register, with bits 1 and 2. *)
Lemma command_keeps bus device func m b R on value : dev_at b R on -> gr_place R = (bus, device, func) ->
  Z.testbit value 1 = true -> Z.testbit value 2 = true ->
  exists b', pci_cfg_write16 bus device func 4 value (DState m b) = Ret (tt, DState m b') /\ dev_at b' R true.
Proof using GC.
  intros Hd Hp H1 H2. unfold pci_cfg_write16. change (Z.land 4 252) with 4.
  destruct (pci_read_keeps bus device func 4 m b R on Hd) as (old & b1 & E1 & Hd1). rewrite (bind_run _ _ _ _ _ E1).
  change (Z.land 4 2 * 8) with 0. rewrite !Z.shiftl_0_r. unfold pci_write_config, outl. rewrite bind_modify. eexists. split; [reflexivity|].
  cbn [Disk.bus mach]. assert (u32 (config_address bus device func 4) = command_register R) as -> by (unfold command_register; by rewrite Hp).
  apply (dv_command b1 R on); [done|..]; rewrite testbit_u32, Z.lor_spec, testbit_u32 by lia;
    rewrite ?H1, ?H2; apply orb_true_r.
Qed.

(** A status with one of its bits set is not zero. *)
Lemma status_bit v k bit : 0 <= bit < 8 -> 0 <= v < 256 -> k = 2 ^ bit -> 0 < u8 (Z.lor v k) < 256.
Proof using Type.
  intros Hb Hv ->. pose proof (u8_range (Z.lor v (2 ^ bit))) as Hr. assert (u8 (Z.lor v (2 ^ bit)) <> 0); [|lia].
  intros E. assert (Z.testbit (u8 (Z.lor v (2 ^ bit))) bit = true) as Ht; [|by rewrite E, Z.bits_0 in Ht].
  rewrite testbit_u8, Z.lor_spec, Z.pow2_bits_true by lia. apply orb_true_r.
Qed.

Ltac in_list := repeat first [apply list_elem_of_here | apply list_elem_of_further].

(** The device is told that there is a driver; memory does not change. *)
Lemma device_init_run gpu t p m b g R on W : dev_at b R on -> gr_place R = (gp_bus gpu, gp_device gpu, gp_func gpu) ->
  common_cfg t = gr_common R -> 0 <= common_cfg t < 2 ^ 63 ->
  exists r b' d a u, virtio_pci_device_init gpu t (vs p m b g) = Ret (r, vs p m b' g) /\ dev_ok b' R (GpuQueue d a u false false W).
Proof using GC PR.
  intros Hd Hp Hcc Hc. unfold virtio_pci_device_init. unfold pci_cfg_read16.
  destruct (pci_read_keeps (gp_bus gpu) (gp_device gpu) (gp_func gpu) (Z.land 4 252) m b R on Hd) as (v & b1 & E1 & Hd1).
  erewrite bind_on_dstate by (by rewrite (bind_run _ _ _ _ _ E1)). set (cmd := Z.land _ _).
  destruct (command_keeps (gp_bus gpu) (gp_device gpu) (gp_func gpu) m b1 R on (Z.lor (Z.lor cmd (Z.shiftl 1 1)) (Z.shiftl 1 2)) Hd1 Hp) as (b2 & E2 & Hd2).
  { by rewrite !Z.lor_spec, orb_true_r. }
  { rewrite !Z.lor_spec. apply orb_true_r. }
  rewrite (bind_on_dstate _ _ _ _ _ _ _ _ _ E2).
  unfold common_write8, common_write32, common_read8, common_read32. rewrite !bind_write, bind_read, bind_write, bind_read, !bind_write, bind_read.
  rewrite Hcc in Hc |- *. rewrite !(u64_small (gr_common R + _)) by lia.
  destruct (pr_reset _ R W (dv_reset _ _ Hd2)) as (d & a & u & Hd3). set (Q := GpuQueue d a u false false W) in *.
  change (u8 0) with 0. set (b3 := cfg_write 1 _ 0 b2) in *. set (b4 := cfg_write 1 _ _ (cfg_write 4 _ _ _)).
  assert (dev_ok b4 R Q) as Hd4.
  { unfold b4. apply dv_status; [|done]. repeat first [apply dv_feature; [|in_list]|apply dv_read; [|in_list]|apply dv_status; [|done]]. exact Hd3. }
  assert (dev_ok (snd (cfg_read 1 (gr_common R + 20) b4)) R Q) as Hd5 by (apply dv_read; [done|in_list]).
  destruct (_ =? 0); [rewrite bind_write|]; eexists _, _, d, a, u; (split; [reflexivity|]); [|exact Hd5].
  rewrite (u64_small (gr_common R + 20)) by lia. apply dv_status; [exact Hd5|]. apply (status_bit _ _ 7); [lia|apply u8_range|reflexivity].
Qed.

(** The bytes of the response, the only buffer the device is given. *)
Definition resp_bytes (x : Z) : Prop := resp_at <= x < resp_at + 408.
(** The device's view of the driver's queue. *)
Definition queue_of (vq : virtqueue_t) : gpu_queue := GpuQueue (vq_desc vq) (vq_avail vq) (vq_used vq) true true resp_bytes.

(** A queue whose rings are parts of a fresh allocation. *)
Record queue_ok (R : gpu_regs) (vq : virtqueue_t) (raw n : Z) : Prop := {
  qo_size : queue_size vq = gr_size R /\ 2 <= gr_size R < 65536;
  qo_avail : vq_avail vq = vq_desc vq + 16 * gr_size R;
  qo_used : vq_desc vq + 18 * gr_size R + 6 <= vq_used vq;
  qo_end : vq_used vq + 6 + 8 * gr_size R <= raw + n;
  qo_start : 0 < raw <= vq_desc vq;
  qo_aligned : vq_desc vq mod 4096 = 0 /\ vq_used vq mod 4 = 0;
  qo_notify : queue_index vq = 0 /\ notify_addr vq = notify_at R
}.
(** All entries of the available ring name descriptor 0. *)
Definition ring_clear (vq : virtqueue_t) (mm : mem) : Prop :=
  forall x, vq_avail vq + 4 <= x < vq_avail vq + 4 + 2 * queue_size vq -> ld8 mm x = 0.
Record queue_live (R : gpu_regs) (vq : virtqueue_t) (raw n : Z) (b : B) (mm : mem) : Prop := {
  ql_queue : queue_ok R vq raw n;
  ql_dev : dev_ok b R (queue_of vq);
  ql_ring : ring_clear vq mm
}.

Lemma queue_live_ext R vq raw n b mm mm' : queue_live R vq raw n b mm -> (forall x, raw <= x < raw + n -> ld8 mm' x = ld8 mm x) -> queue_live R vq raw n b mm'.
Proof using Type.
  intros [K1 K2 K3] Hx. split; try done. intros x Hr. pose proof K1 as [[Q Q0] Q1 Q2 Q3 Q4 _ _]. rewrite Hx by lia. by apply K3.
Qed.

Lemma virtqueue_init_run t p m b g L R d a u : aok m L -> dev_ok b R (GpuQueue d a u false false resp_bytes) ->
  common_cfg t = gr_common R -> notify_base t = gr_notify R -> notify_off_multiplier t = gr_mult R -> 0 <= common_cfg t < 2 ^ 63 ->
  exists r m' b', virtqueue_init_ctrl malloc t 0 (vs p m b g) = Ret (r, vs p m' b' g) /\
    (forall x, owned lo hi L x -> ld8 (ram m') x = ld8 (ram m) x) /\
    ((r = None /\ (exists L', aok m' L' /\ L ⊆ L') /\ exists Q, dev_ok b' R Q) \/
     exists vq raw n, r = Some vq /\ L !! raw = None /\ aok m' (<[raw := n]> L) /\ queue_live R vq raw n b' (ram m')).
Proof using GC PR AL.
  intros Hok Hd Hcc Hnb Hnm Hc. unfold virtqueue_init_ctrl. rewrite Hcc, Hnb, Hnm. rewrite Hcc in Hc. set (c := gr_common R) in *.
  unfold common_write16, common_read16, common_write64. rewrite bind_write, bind_read. rewrite !(u64_small (c + _)) by lia. change (u16 0) with 0.
  set (b1 := cfg_write 2 (c + 22) 0 b). pose proof (dv_select _ _ _ Hd : dev_ok b1 R (GpuQueue d a u true false resp_bytes)) as Hd1.
  set (q := gr_size R) in *. destruct (dv_values _ _ _ Hd1) as [Hq Hoff]. fold q in Hq.
  rewrite (dv_queue_size _ _ _ Hd1 eq_refl : fst (cfg_read 2 (c + 24) b1) = q). rewrite u16_small by lia. set (b2 := snd (cfg_read 2 (c + 24) b1)).
  assert (dev_ok b2 R (GpuQueue d a u true false resp_bytes)) as Hd2 by (apply dv_read; [done|in_list]).
  destruct (Z.ltb_spec q 2). { exists None, m, b2. split_and!; [done|done|]. left. split_and!; [done|by exists L|by eexists]. }
  destruct (ring_layout_value q ltac:(lia)) as [-> Hu]. cbn [ring_total desc_bytes used_off]. set (uo := 4 * _) in *.
  assert (uo mod 4 = 0) as Hu4 by (unfold uo; rewrite Z.mul_comm; apply Z_mod_mult). clearbody uo.
  destruct (alloc_aligned_run m L (uo + (6 + 8 * q)) Hok ltac:(lia)) as (ring & m1 & E & Hk & Hr).
  rewrite (bind_on_dstate _ _ _ _ b2 _ ring m1 b2) by (unfold on_mach, zoom; cbn; by rewrite E). clear E.
  destruct Hr as [[-> Hok1]|(raw & n & HL & Hok1 & Ha & Hraw & Hend)].
  { exists None, m1, b2. split_and!; [done|done|]. left. split_and!; [done|by exists L|by eexists]. }
  destruct (Z.eqb_spec ring 0); [lia|].
  set (m2 := set_ram (memset (ram m1) ring 0 (uo + (6 + 8 * q))) m1).
  rewrite (bind_on_dstate _ _ _ _ b2 _ tt m2 b2) by done.
  destruct (alloc_range m1 _ raw n Hok1 (lookup_insert_eq _ _ _)) as (R0 & R1 & R2 & R3 & _ & R5).
  assert (aok m2 (<[raw := n]> L)) as Hok2.
  { apply (alloc_write_own m1 _ _ raw n); try done; [apply lookup_insert_eq|]. intros x Hx. cbn. rewrite ld8_memset. zcases; (lia || done). }
  assert (forall x, owned lo hi L x -> ld8 (ram m2) x = ld8 (ram m) x) as Hk2.
  { intros x Hx. pose proof (fresh_apart m1 L raw n x Hok1 HL Hx). cbn. rewrite ld8_memset. zcases; try lia; by apply Hk. }
  rewrite !bind_write, bind_read, !bind_write, bind_read. rewrite !(u64_small (ring + _)), (u64_small ring), !(u64_small (c + _)) by lia.
  change (u16 0xFFFF) with 0xFFFF. change (u16 1) with 1. change (u16 0) with 0.
  match goal with |- context [cfg_read 2 (c + 30) ?bb] => set (b3 := bb) end.
  assert (dev_ok b3 R (GpuQueue ring (ring + 16 * q) (ring + uo) true true resp_bytes)) as Hd3.
  { unfold b3. apply (dv_enable _ R (GpuQueue ring (ring + 16 * q) (ring + uo) true false resp_bytes)); [|done].
    apply (pr_used _ R _ _ u), (pr_avail _ R _ a), (pr_desc _ R d), dv_vector; done. }
  rewrite (dv_notify_off _ _ _ Hd3 eq_refl : fst (cfg_read 2 (c + 30) b3) = gr_off R), (u16_small (gr_off R)) by lia.
  match goal with |- context [cfg_read 2 (c + 28) ?bb] => set (b4 := bb) end.
  assert (dev_ok b4 R (GpuQueue ring (ring + 16 * q) (ring + uo) true true resp_bytes)) as Hd4.
  { unfold b4. apply (dv_select _ R (GpuQueue ring (ring + 16 * q) (ring + uo) true true resp_bytes)). apply dv_read; [done|in_list]. }
  set (b5 := snd (cfg_read 2 (c + 28) b4)). assert (dev_ok b5 R (GpuQueue ring (ring + 16 * q) (ring + uo) true true resp_bytes)) as Hd5 by (apply dv_read; [done|in_list]).
  destruct (_ =? 0).
  { exists None, m2, b5. split_and!; [done|done|]. left. split_and!; [done|exists (<[raw := n]> L); split; [done|by apply insert_subseteq]|by eexists]. }
  eexists _, m2, b5. split_and!; [reflexivity|done|]. right. eexists _, raw, n. split; [reflexivity|]. split_and!; try done. split.
  - split; cbn [queue_size vq_desc vq_avail vq_used queue_index notify_addr]; fold q; try lia; try done. split; [done|]. rewrite Z.add_mod, Hu4 by lia. word_lia.
  - exact Hd5.
  - intros x. cbn [vq_avail queue_size]. fold q. intros Hx. cbn [ram set_ram m2]. rewrite ld8_memset. zcases; (lia || done).
Qed.

(** ** Commands *)

Section Queue.
Context (R : gpu_regs) (raw n resp_len : Z) (vq : virtqueue_t) (Hq : queue_ok R vq raw n).
Context (Hresp : 0 <= resp_at /\ resp_at + 408 < 2 ^ 63 /\ 0 <= resp_len <= 408)
  (Hapart : resp_at + 408 <= raw \/ raw + n <= resp_at).
Let d := vq_desc vq.
Let u := vq_used vq.

(** The device, with the response buffer in the second descriptor. *)
Definition armed b (mm : mem) : Prop := dev_ok b R (queue_of vq) /\ posted R (queue_of vq) mm.
(** Outside the rings and the response buffer nothing changed, and the
    available ring still names descriptor 0 only. *)
Definition io_frame (mm mm' : mem) : Prop :=
  (forall x, (x < d \/ u + 6 + 8 * gr_size R <= x) -> (x < resp_at \/ resp_at + 408 <= x) -> ld8 mm' x = ld8 mm x) /\
  (ring_clear vq mm -> ring_clear vq mm').

Lemma armed_step b mm b' mm' : armed b mm ->
  dev_ok b' R (queue_of vq) -> (forall x, ~ may_write R (queue_of vq) x -> ld8 mm' x = ld8 mm x) -> armed b' mm' /\ io_frame mm mm'.
Proof using Hq Hresp Hapart.
  intros (Hd & [P1 P2 P3 P4]) Hd' Hw. pose proof Hq as [[Q Q0] Q1 Q2 Q3 Q4 _ _]. fold d u in Q1, Q2, Q3, Q4. cbn [queue_of gq_desc gq_avail] in P1, P2, P3, P4.
  assert (forall x, (x < u \/ u + 6 + 8 * gr_size R <= x) -> (x < resp_at \/ resp_at + 408 <= x) -> ld8 mm' x = ld8 mm x) as Hf.
  { intros x Hx1 Hx2. apply Hw. unfold may_write, queue_of, resp_bytes. cbn [gq_used gq_buffers]. fold u. lia. }
  assert (forall x, d <= x < u -> ld8 mm' x = ld8 mm x) as Hin by (intros x Hx; apply Hf; lia).
  split; [|split; [intros x Hx1 Hx2; apply Hf; lia|intros Hc x Hx; rewrite Hin by lia; by apply Hc]]. split; [done|].
  assert (forall a, d <= a -> a + 2 <= u -> ld16 mm' a = ld16 mm a) as E16 by (intros a Ha1 Ha2; apply ldn_ext; intros x Hx; apply Hin; lia).
  assert (ld64 mm' (d + 16) = ld64 mm (d + 16)) as E64 by (apply ld64_ext; intros x Hx; apply Hin; lia).
  assert (ld32 mm' (d + 24) = ld32 mm (d + 24)) as E32 by (apply ld32_ext; intros x Hx; apply Hin; lia).
  split; cbn [queue_of gq_desc gq_avail]; fold d; rewrite ?E64, ?E32, ?E16 by lia; try done. intros i Hi. rewrite E16 by lia. by apply P4.
Qed.

Lemma io_frame_trans a1 a2 a3 : io_frame a1 a2 -> io_frame a2 a3 -> io_frame a1 a3.
Proof using Type. intros [H1 C1] [H2 C2]. split; [intros x Hx1 Hx2; by rewrite H2, H1|auto]. Qed.

Lemma poll_step b mm b' mm' : armed b mm -> gpu_poll b mm = (b', mm') -> armed b' mm' /\ io_frame mm mm'.
Proof using GC Hq Hresp Hapart. intros Ha E. pose proof Ha as (Hd & Hp). destruct (dv_poll _ _ _ _ _ _ Hd eq_refl Hp E). by apply (armed_step b). Qed.

(** The wait ends, with the time-out at the latest. *)
Lemma wait_used_run vq' m b : vq_used vq' = u -> armed b (ram m) ->
  exists r mm b', wait_used vq' (DState m b) = Ret (r, DState (set_ram mm m) b') /\ armed b' mm /\ io_frame (ram m) mm.
Proof using GC Hq Hresp Hapart.
  intros Hu Ha. unfold wait_used. rewrite loop_pos_nat, <- (positive_nat_Z 10000000).
  set (body := fun x : Z * B * mem => _). cbn [Disk.bus dev_ram mach]. unfold dev_ram. cbn [mach].
  assert (forall k b0 mm0, armed b0 mm0 -> (0 < k)%nat -> exists r b' mm, loop_nat k body (Z.of_nat k, b0, mm0) = inr (r, b', mm) /\
    armed b' mm /\ io_frame mm0 mm) as H.
  { induction k as [|k IH]; intros b0 mm0 Ha0 Hk; [lia|]. cbn [loop_nat]. unfold body at 1. destruct (gpu_poll b0 mm0) as [b1 mm1] eqn:E.
    destruct (poll_step _ _ _ _ Ha0 E) as [Ha1 Hf1]. destruct (_ =? 0); [|by exists 1, b1, mm1].
    replace (Z.of_nat (S k) - 1) with (Z.of_nat k) by lia. destruct (Z.eqb_spec (Z.of_nat k) 0); [by exists 0, b1, mm1|].
    destruct (IH b1 mm1 Ha1 ltac:(lia)) as (r & b' & mm & E2 & Ha2 & Hf2). exists r, b', mm. split_and!; [exact E2|done|by eapply io_frame_trans]. }
  destruct (H (Pos.to_nat 10000000) b (ram m) Ha (Pos2Nat.is_pos _)) as (r & b' & mm & E & Ha' & Hf). rewrite E. by exists r, mm, b'.
Qed.

Lemma bind_dev_ram {A} (f : mem -> mem) (k : unit -> M (dstate B) A) m b :
  (x ← on_dev_ram f; k x) (DState m b) = k tt (DState (set_ram (f (ram m)) m) b).
Proof using Type. reflexivity. Qed.

(** The descriptors and the ring entry of a submission. *)
Definition arm (cmd cmd_len : Z) (mm : mem) : mem :=
  let desc := d in
  let mm := st64 mm desc cmd in
  let mm := st32 mm (desc + 8) cmd_len in
  let mm := st16 mm (desc + 12) VIRTQ_DESC_F_NEXT in
  let mm := st16 mm (desc + 14) 1 in
  let mm := st64 mm (desc + 16) resp_at in
  let mm := st32 mm (desc + 24) resp_len in
  let mm := st16 mm (desc + 28) VIRTQ_DESC_F_WRITE in
  let mm := st16 mm (desc + 30) 0 in
  st16 mm (vq_avail vq + 4 + 2 * (avail_idx vq mod queue_size vq)) 0.

Lemma st16_zero mm a x : ld8 mm x = 0 -> ld8 (st16 mm a 0) x = 0.
Proof using Type. intros Hx. rewrite ld8_st16. by zcases. Qed.

Lemma arm_spec cmd cmd_len v mm : ring_clear vq mm -> let mm' := st16 (arm cmd cmd_len mm) (vq_avail vq + 2) v in
  posted R (queue_of vq) mm' /\ io_frame mm mm'.
Proof using Hq Hresp.
  intros Hclear. pose proof Hq as [[Q Q0] Q1 Q2 Q3 Q4 _ _]. fold d u in Q1, Q2, Q3, Q4. pose proof (Z.mod_pos_bound (avail_idx vq) (queue_size vq) ltac:(lia)) as Hi.
  cbv zeta. unfold arm. set (slot := vq_avail vq + 4 + _). assert (d + 32 <= slot /\ slot + 2 <= u) as Hslot by (unfold slot; lia).
  assert (d + 32 <= vq_avail vq + 2 /\ vq_avail vq + 4 <= u) as Hidx by lia.
  set (m1 := st16 (st16 (st32 _ _ _) _ _) (d + 30) 0).
  assert (forall x, d + 32 <= x -> ld8 m1 x = ld8 mm x) as Hm1.
  { intros x Hx. unfold m1, st16, st32, st64. assert (forall k a v0 mm0, a + Z.of_nat k <= d + 32 -> ld8 (stn k mm0 a v0) x = ld8 mm0 x) as Hst
      by (intros k a v0 mm0 Ha; apply (agree_stn k mm0 a v0 x (x + 1)); lia). by rewrite !Hst by lia. }
  assert (ring_clear vq (st16 (st16 m1 slot 0) (vq_avail vq + 2) v)) as Hclear'.
  { intros x Hx. unfold st16 at 1. rewrite (agree_stn 2 _ (vq_avail vq + 2) v x (x + 1)) by lia. apply st16_zero. rewrite Hm1 by lia. by apply Hclear. }
  assert (forall k a, a + Z.of_nat k <= d + 32 -> ldn k (st16 (st16 m1 slot 0) (vq_avail vq + 2) v) a = ldn k m1 a) as Hout
    by (intros k a Ha; unfold st16; rewrite !ldn_stn_disj by lia; done).
  split; [split|split].
  - cbn [queue_of gq_desc]. fold d. unfold ld16. rewrite !Hout by lia. unfold m1, st16, st32, st64. split; rewrite !ldn_stn_disj by lia; rewrite ldn_stn_eq; reflexivity.
  - cbn [queue_of gq_desc]. fold d. unfold ld16. rewrite Hout by lia. unfold m1, st16. rewrite ldn_stn_disj by lia. rewrite ldn_stn_eq. reflexivity.
  - cbn [queue_of gq_desc gq_buffers]. fold d. unfold ld64, ld32. rewrite !Hout by lia. unfold m1, st16. rewrite !ldn_stn_disj by lia. fold ld32. rewrite ld32_st32_eq.
    unfold st32. rewrite ldn_stn_disj by lia. fold ld64. rewrite ld64_st64_eq, u64_small, u32_small by lia. unfold resp_bytes. lia.
  - cbn [queue_of gq_avail]. intros i Hir. unfold ld16. cbn [ldn]. rewrite !Hclear' by lia. reflexivity.
  - intros x Hx1 _. assert (forall k a v mm, d <= a -> a + Z.of_nat k <= u -> ld8 (stn k mm a v) x = ld8 mm x) as Hst.
    { intros k a v0 mm0 Ha1 Ha2. apply (agree_stn k mm0 a v0 x (x + 1)); lia. }
    unfold m1, st16, st32, st64. by rewrite !Hst by lia.
  - intros _. exact Hclear'.
Qed.

Lemma submit_run m b cmd cmd_len : dev_ok b R (queue_of vq) -> ring_clear vq (ram m) ->
  exists r vq' mm b', virtqueue_submit_sync vq cmd cmd_len resp_at resp_len (DState m b) = Ret ((r, vq'), DState (set_ram mm m) b') /\
    queue_live R vq' raw n b' mm /\ (forall x, (x < d \/ u + 6 + 8 * gr_size R <= x) -> (x < resp_at \/ resp_at + 408 <= x) -> ld8 mm x = ld8 (ram m) x).
Proof using GC Hq Hresp Hapart.
  intros Hd Hclear. unfold virtqueue_submit_sync. pose proof Hq as [[Q Q0] Q1 Q2 Q3 Q4 Q5 [Q6 Q7]]. destruct (Z.ltb_spec (queue_size vq) 2); [lia|].
  cbv zeta. rewrite bind_dev_ram. cbn [queue_index queue_size vq_desc vq_avail vq_used avail_idx used_idx_seen notify_addr].
  set (vq1 := Virtqueue _ _ _ _ _ _ _ _). rewrite bind_dev_ram. fold d. cbn [ram set_ram].
  change (st16 (st16 _ (d + 30) 0) _ 0) with (arm cmd cmd_len (ram m)).
  set (mm1 := st16 _ (vq_avail vq + 2) _). destruct (arm_spec cmd cmd_len (u16 (avail_idx vq + 1)) (ram m) Hclear) as (A1 & A3). fold mm1 in A1, A3.
  rewrite bind_modify. cbn [Disk.bus mach].
  change (dev_ram (DState (set_ram mm1 (set_ram (arm cmd cmd_len (ram m)) m)) b)) with mm1.
  destruct (gpu_notify (notify_addr vq) (queue_index vq) b mm1) as [b2 mm2] eqn:E2. rewrite Q6, Q7 in E2.
  destruct (dv_notify _ _ _ _ _ _ Hd eq_refl A1 E2) as [Hd2 Hw2].
  destruct (armed_step b mm1 b2 mm2 ltac:(by split) Hd2 Hw2) as [Ha2 Hf2].
  change (set_ram mm2 (set_ram mm1 (set_ram (arm cmd cmd_len (ram m)) m))) with (set_ram mm2 m).
  destruct (wait_used_run vq1 (set_ram mm2 m) b2 eq_refl Ha2) as (r & mm3 & b3 & E3 & Ha3 & Hf3). rewrite (bind_run _ _ _ _ _ E3).
  cbn [ram set_ram] in Hf3. change (set_ram mm3 (set_ram mm2 m)) with (set_ram mm3 m).
  assert (io_frame (ram m) mm3) as Hf by (eapply io_frame_trans; [exact A3|]; by eapply io_frame_trans).
  destruct (r =? 0). { eexists _, _, mm3, b3. split; [reflexivity|]. split; [split; [by split|apply Ha3|by apply Hf]|by apply Hf]. }
  rewrite bind_modify. cbn [Disk.bus mach]. change (dev_ram (DState (set_ram mm3 m) b3)) with mm3. destruct (gpu_poll b3 mm3) as [b4 mm4] eqn:E4.
  destruct (poll_step _ _ _ _ Ha3 E4) as [Ha4 Hf4]. rewrite bind_gets. change (set_ram mm4 (set_ram mm3 m)) with (set_ram mm4 m).
  assert (io_frame (ram m) mm4) as Hf' by by eapply io_frame_trans.
  eexists _, _, mm4, b4. split; [reflexivity|]. split; [split; [by split|apply Ha4|by apply Hf']|by apply Hf'].
Qed.
End Queue.

(** The local structures are on the stack, outside the heap. *)
Definition off_locals (x : Z) : Prop := (x < cmd_at \/ cmd_at + 64 <= x) /\ (x < resp_at \/ resp_at + 408 <= x).
Record locals_ok : Prop := {
  lk_cmd : cmd_at + 64 <= lo \/ hi <= cmd_at;
  lk_resp : resp_at + 408 <= lo \/ hi <= resp_at;
  lk_range : 0 <= resp_at /\ resp_at + 408 < 2 ^ 63
}.

(** A command ends, keeps the queue usable, and changes nothing outside the
    queue's memory and the local structures. *)
Definition command {A} (ret : A -> Prop) (c : virtqueue_t -> M (dstate B) (A * virtqueue_t)) : Prop := forall R raw n vq m b,
  queue_live R vq raw n b (ram m) -> lo <= raw -> raw + n <= hi ->
  exists a vq' mm b', c vq (DState m b) = Ret ((a, vq'), DState (set_ram mm m) b') /\
    ret a /\ queue_live R vq' raw n b' mm /\
    forall x, x < raw \/ raw + n <= x -> off_locals x -> ld8 mm x = ld8 (ram m) x.

Lemma gpu_cmd_command len resp_len (fill : mem -> mem) : locals_ok -> 0 <= len <= 64 -> 0 <= resp_len <= 408 ->
  (forall mm x, x < cmd_at \/ cmd_at + 64 <= x -> ld8 (fill mm) x = ld8 mm x) -> command (fun _ => True) (gpu_cmd cmd_at resp_at len resp_len fill).
Proof using GC.
  intros [K1 K2 K3] Hl Hrl Hfill R raw n vq m b Hlive Hraw Hend. unfold gpu_cmd. rewrite bind_dev_ram. set (mm1 := fill _).
  pose proof (ql_queue _ _ _ _ _ _ Hlive) as Hq. pose proof Hq as [_ _ O1 O2 O3 _ _].
  assert (forall x, x < cmd_at \/ cmd_at + 64 <= x -> x < resp_at \/ resp_at + 408 <= x -> ld8 mm1 x = ld8 (ram m) x) as Hmm1.
  { intros x Hx1 Hx2. unfold mm1. rewrite Hfill by lia. rewrite !ld8_memset. zcases; (lia || done). }
  destruct (queue_live_ext R vq raw n b (ram m) mm1 Hlive) as [_ Hd Hc]; [intros x Hx; apply Hmm1; lia|].
  destruct (submit_run R raw n resp_len vq Hq ltac:(lia) ltac:(lia) (set_ram mm1 m) b cmd_at len Hd Hc)
    as (r & vq' & mm & b' & E & Hlive' & Hf). rewrite (bind_run _ _ _ _ _ E). change (set_ram mm (set_ram mm1 m)) with (set_ram mm m).
  assert (forall x, x < raw \/ raw + n <= x -> off_locals x -> ld8 mm x = ld8 (ram m) x) as Hframe.
  { intros x Hx [Hx1 Hx2]. rewrite Hf by lia. cbn [ram set_ram]. by apply Hmm1. }
  destruct (r =? 0); [by eexists _, vq', mm, b'|]. rewrite bind_gets. by eexists _, vq', mm, b'.
Qed.

Lemma ok_nodata_command c : command (fun _ => True) c -> command (fun _ => True) (fun vq => ok_nodata (c vq)).
Proof using Type.
  intros Hc R raw n vq m b Hlive Hraw Hend. destruct (Hc R raw n vq m b Hlive Hraw Hend) as (a & vq' & mm & b' & E & H).
  unfold ok_nodata. rewrite (bind_run _ _ _ _ _ E). by eexists _, vq', mm, b'.
Qed.

Lemma fill_local k a v mm x : cmd_at <= a -> a + Z.of_nat k <= cmd_at + 64 -> x < cmd_at \/ cmd_at + 64 <= x -> ld8 (stn k mm a v) x = ld8 mm x.
Proof using Type. intros H1 H2 Hx. apply (agree_stn k mm a v x (x + 1)); lia. Qed.

Definition size_ok (size : option (Z * Z)) : Prop := forall w h, size = Some (w, h) -> 0 <= w < 4294967296 /\ 0 <= h < 4294967296.
Lemma display_info_command : locals_ok -> command size_ok (gpu_cmd_get_display_info cmd_at resp_at).
Proof using GC.
  intros Hk R raw n vq m b Hlive Hraw Hend. unfold gpu_cmd_get_display_info.
  destruct (gpu_cmd_command 24 408 (fun mm : mem => st32 mm cmd_at VIRTIO_GPU_CMD_GET_DISPLAY_INFO) Hk ltac:(lia) ltac:(lia)
    ltac:(intros mm x Hx; apply fill_local; lia) R raw n vq m b Hlive Hraw Hend) as (a & vq' & mm & b' & E & _ & H).
  rewrite (bind_run _ _ _ _ _ E). destruct a as [ty|]; [|by eexists None, vq', mm, b'].
  destruct (negb _); [by eexists None, vq', mm, b'|]. rewrite !bind_gets. eexists _, vq', mm, b'. split; [reflexivity|]. split; [|done].
  intros w h. destruct (_ || _); [done|]. intros [= <- <-]. split; apply ld32_range.
Qed.
Lemma create_command w h : locals_ok -> command (fun _ => True) (fun vq => gpu_cmd_resource_create_2d cmd_at resp_at vq w h).
Proof using GC.
  intros Hk. apply ok_nodata_command, gpu_cmd_command; try lia; [done|]. intros mm x Hx. unfold st32. by rewrite !fill_local by lia.
Qed.
Lemma attach_command fb len : locals_ok -> command (fun _ => True) (fun vq => gpu_cmd_resource_attach_backing cmd_at resp_at vq fb len).
Proof using GC.
  intros Hk. apply ok_nodata_command, gpu_cmd_command; try lia; [done|]. intros mm x Hx. unfold st32, st64. by rewrite !fill_local by lia.
Qed.
Lemma scanout_command w h : locals_ok -> command (fun _ => True) (fun vq => gpu_cmd_set_scanout cmd_at resp_at vq w h).
Proof using GC.
  intros Hk. apply ok_nodata_command, gpu_cmd_command; try lia; [done|]. intros mm x Hx. unfold st32. by rewrite !fill_local by lia.
Qed.

(** A command on the allocated queue. *)
Lemma command_run {A} (ret : A -> Prop) c m b L R raw n vq : command ret c -> locals_ok -> aok m L -> L !! raw = Some n ->
  queue_live R vq raw n b (ram m) ->
  exists a vq' m' b', c vq (DState m b) = Ret ((a, vq'), DState m' b') /\ ret a /\ aok m' L /\ queue_live R vq' raw n b' (ram m') /\
    forall x, x < raw \/ raw + n <= x -> off_locals x -> ld8 (ram m') x = ld8 (ram m) x.
Proof using AL.
  intros Hc [K1 K2 K3] Hok HL Hq. destruct (alloc_range m L raw n Hok HL) as (R0 & R1 & R2 & R3 & _).
  destruct (Hc R raw n vq m b Hq R1 R3) as (a & vq' & mm & b' & E & Hret & Hq' & Hf).
  exists a, vq', (set_ram mm m), b'. split_and!; try done. apply (alloc_write m); try done. intros x Hx. cbn. unfold owned in Hx.
  assert (lo <= x < hi) by (destruct (decide (lo <= x < hi)); [done|exfalso; apply Hx; lia]).
  assert (x < raw \/ raw + n <= x) by (destruct (decide (raw <= x < raw + n)); [exfalso; apply Hx; right; right; by exists raw, n|lia]).
  apply Hf; [done|]. split; lia.
Qed.

(** What the set-up leaves: with [true], the frame buffer. *)
Definition framebuffer L (mm : mem) (g : gpu_vars) : Prop :=
  g_gpu_ready g = 1 /\ 0 < g_gpu_width g /\ 0 < g_gpu_height g /\ g_gpu_width g * g_gpu_height g <= 67108864 /\
  exists k, L !! g_gpu_fb g = Some k /\ 4 * (g_gpu_width g * g_gpu_height g) <= k /\
    forall x, 0 <= x < 4 * (g_gpu_width g * g_gpu_height g) -> ld8 mm (g_gpu_fb g + x) = 0.
(** On success the device works on the driver's queue. *)
Record set_up L m (s : bool * gpu_vars) m' g b' R : Prop := {
  su_heap : exists L', aok m' L' /\ L ⊆ L' /\ (s.1 = true -> framebuffer L' (ram m') s.2 /\ L !! g_gpu_fb s.2 = None);
  su_vars : s.1 = false -> s.2 = g;
  su_dev : exists Q, dev_ok b' R Q /\ (s.1 = true -> Q = queue_of (g_gpu_controlq s.2));
  su_frame : forall x, owned lo hi L x -> off_locals x -> ld8 (ram m') x = ld8 (ram m) x
}.

Lemma set_up_fail L L' m m' g b' R Q : dev_ok b' R Q -> aok m' L' -> L ⊆ L' -> (forall x, owned lo hi L x -> off_locals x -> ld8 (ram m') x = ld8 (ram m) x) ->
  set_up L m (false, g) m' g b' R.
Proof using Type. intros Hd Hok Hsub Hf. split; [|done|by exists Q|done]. by exists L'. Qed.

Lemma init_failed_run msg p m b g : init_failed msg (vs p m b g) = Ret (false, vs p (add_serial [line msg] m) b g).
Proof using Type. reflexivity. Qed.

Lemma aok_output m L es : aok m L -> aok (add_serial es m) L.
Proof using AL. intros H. by apply (alloc_write m). Qed.

Section Framebuffer.
Context (L : gmap Z Z) (m0 : mstate) (raw n fb k size : Z) (R : gpu_regs).
Let L2 := <[fb := k]> (<[raw := n]> L).
Context (Hraw : L !! raw = None) (Hfb : <[raw := n]> L !! fb = None) (Hsize : size <= k) (Hlk : locals_ok).

(** The frame buffer is clear, and what was there before is unchanged. *)
Record cleared (m : mstate) (b : B) (vq : virtqueue_t) : Prop := {
  cl_heap : aok m L2;
  cl_queue : queue_live R vq raw n b (ram m);
  cl_frame : forall x, owned lo hi L x -> off_locals x -> ld8 (ram m) x = ld8 (ram m0) x;
  cl_zero : forall x, 0 <= x < size -> ld8 (ram m) (fb + x) = 0
}.

Lemma fb_not_raw : fb <> raw /\ L2 !! raw = Some n /\ L2 !! fb = Some k.
Proof using Hfb.
  assert (fb <> raw) by (intros ->; by rewrite lookup_insert_eq in Hfb). unfold L2. split_and!; [done| |apply lookup_insert_eq].
  by rewrite lookup_insert_ne, lookup_insert_eq.
Qed.

Lemma cleared_command {A} (ret : A -> Prop) c m b vq : command ret c -> cleared m b vq ->
  exists a vq' m' b', c vq (DState m b) = Ret ((a, vq'), DState m' b') /\ cleared m' b' vq'.
Proof using AL Hraw Hfb Hsize Hlk.
  intros Hc [C1 C2 C4 C5]. destruct fb_not_raw as (Hne & Hr & Hf).
  destruct (command_run ret c m b L2 R raw n vq Hc Hlk C1 Hr C2) as (a & vq' & m' & b' & E & _ & Hok & Hq & Hframe).
  exists a, vq', m', b'. split; [done|]. destruct (alloc_range m L2 fb k C1 Hf) as (R0 & R1 & R2 & R3 & _).
  destruct (alloc_disjoint m L2 fb k raw n C1 Hf Hr) as [?|Hap]; [done|]. destruct Hlk as [K1 K2 K3]. split; try done.
  - intros x Hx Hl. rewrite Hframe; [by apply C4| |done].
    destruct Hx as [?|[?|(p0 & n0 & Hp & Hx)]]; [destruct (alloc_range m L2 raw n C1 Hr) as (? & ? & ? & ? & _); lia..|].
    assert (p0 <> raw) by congruence. assert (p0 <> fb) by (intros ->; rewrite lookup_insert_ne in Hfb by done; congruence).
    destruct (alloc_disjoint m L2 p0 n0 raw n C1) as [?|?]; [|done|done|lia]. unfold L2. by rewrite !lookup_insert_ne.
  - intros x Hx. rewrite Hframe; [by apply C5|lia|]. split; lia.
Qed.

Lemma cleared_fail m b vq g msg : cleared m b vq -> set_up L m0 (false, g) (add_serial [line msg] m) g b R.
Proof using AL Hraw Hfb.
  intros [C1 C2 C4 C5]. eapply (set_up_fail L L2); [exact (ql_dev _ _ _ _ _ _ C2)|by apply aok_output| |exact C4].
  unfold L2. transitivity (<[raw := n]> L); by apply insert_subseteq.
Qed.
End Framebuffer.

Lemma setup_framebuffer_run p m b g L raw n R vq w h :
  locals_ok -> aok m (<[raw := n]> L) -> L !! raw = None -> queue_live R vq raw n b (ram m) ->
  0 <= w < 4294967296 -> 0 <= h < 4294967296 ->
  exists r m' b' g', setup_framebuffer cmd_at resp_at malloc vq w h (vs p m b g) = Ret (r, vs p m' b' g') /\ set_up L m (r, g') m' g b' R.
Proof using GC AL.
  intros Hlk Hok HL Hq Hw Hh. unfold setup_framebuffer. rewrite (u64_small (w * h)) by nia. pose proof (ql_dev _ _ _ _ _ _ Hq) as Hd.
  assert (forall msg, set_up L m (false, g) (add_serial [line msg] m) g b R) as Hfail0.
  { intros msg. eapply (set_up_fail L (<[raw := n]> L)); [done|by apply aok_output|by apply insert_subseteq|done]. }
  destruct (Z.eqb_spec (w * h) 0) as [|Hz]; cbn [orb]; [rewrite init_failed_run; by eexists _, _, b, g|].
  destruct (Z.ltb_spec (64 * 1024 * 1024) (w * h)); [rewrite init_failed_run; by eexists _, _, b, g|].
  rewrite (u64_small (w * h * 4)), u32_small by nia.
  destruct (alloc_malloc m _ (w * h * 4) Hok ltac:(nia)) as (fb & m1 & E & (_ & _ & _ & Hk) & Hc).
  rewrite (bind_on_dstate _ _ _ _ b _ fb m1 b) by (unfold on_mach, zoom; cbn; by rewrite E). clear E.
  destruct Hc as [[-> Hok1]|(Hfb0 & HLf & k & Hk2 & Hok1 & _)].
  { cbn [Z.eqb]. rewrite init_failed_run. eexists _, _, b, g. split; [done|]. eapply (set_up_fail L (<[raw := n]> L)); [done|by apply aok_output|by apply insert_subseteq|].
    intros x Hx _. apply Hk. by apply owned_mono. }
  destruct (Z.eqb_spec fb 0); [done|].
  set (m2 := set_ram (memset (ram m1) fb 0 (w * h * 4)) m1). rewrite (bind_on_dstate _ _ _ _ b _ tt m2 b) by done.
  assert (forall x, owned lo hi (<[raw := n]> L) x -> ld8 (ram m2) x = ld8 (ram m) x) as Hkeep.
  { intros x Hx. pose proof (fresh_apart m1 _ fb k x Hok1 HLf Hx). cbn. rewrite ld8_memset. zcases; try lia; by apply Hk. }
  assert (cleared L m raw n fb k (w * h * 4) R m2 b vq) as C2.
  { destruct (alloc_range m1 _ fb k Hok1 (lookup_insert_eq _ _ _)) as (R0 & R1 & R2 & R3 & _). split; try done.
    - apply (alloc_write_own m1 _ _ fb k); try done; [apply lookup_insert_eq|]. intros x Hx. cbn. rewrite ld8_memset. zcases; (lia || done).
    - apply (queue_live_ext R vq raw n b (ram m)); [done|]. intros x Hx. apply Hkeep. right; right. exists raw, n. split; [apply lookup_insert_eq|done].
    - intros x Hx _. apply Hkeep. by apply owned_mono.
    - intros x Hx. cbn. rewrite ld8_memset. zcases; (lia || done). }
  destruct (cleared_command L m raw n fb k (w * h * 4) R HL HLf Hk2 Hlk _ _ _ _ _ (create_command w h Hlk) C2) as (r1 & vq3 & m3 & b3 & E3 & C3).
  rewrite (bind_on_dstate _ _ _ _ _ _ _ _ _ E3). destruct r1; cbn [negb];
    [|rewrite init_failed_run; eexists _, _, b3, g; split; [done|]; by eapply cleared_fail].
  destruct (cleared_command L m raw n fb k (w * h * 4) R HL HLf Hk2 Hlk _ _ _ _ _ (attach_command fb (w * h * 4) Hlk) C3) as (r2 & vq4 & m4 & b4 & E4 & C4).
  rewrite (bind_on_dstate _ _ _ _ _ _ _ _ _ E4). destruct r2; cbn [negb];
    [|rewrite init_failed_run; eexists _, _, b4, g; split; [done|]; by eapply cleared_fail].
  destruct (cleared_command L m raw n fb k (w * h * 4) R HL HLf Hk2 Hlk _ _ _ _ _ (scanout_command w h Hlk) C4) as (r3 & vq5 & m5 & b5 & E5 & C5).
  rewrite (bind_on_dstate _ _ _ _ _ _ _ _ _ E5). destruct r3; cbn [negb];
    [|rewrite init_failed_run; eexists _, _, b5, g; split; [done|]; by eapply cleared_fail].
  rewrite bind_v_say. eexists _, _, b5, _. split; [reflexivity|]. destruct C5 as [D1 D2 D4 D5].
  split; [|done|exists (queue_of vq5); split; [exact (ql_dev _ _ _ _ _ _ D2)|done]|exact D4].
  exists (<[fb := k]> (<[raw := n]> L)). split_and!; [by apply aok_output|transitivity (<[raw := n]> L); by apply insert_subseteq|].
  intros _. cbn [snd]. split.
  - unfold framebuffer. cbn [g_gpu_ready g_gpu_width g_gpu_height g_gpu_fb]. split_and!; [done|nia|nia|lia|].
    exists k. rewrite lookup_insert_eq. split_and!; [done|lia|]. intros x Hx. apply D5. lia.
  - cbn [g_gpu_fb]. destruct (decide (fb = raw)) as [->|]; [done|]. by rewrite lookup_insert_ne in HLf.
Qed.

(** The transport has the addresses of the device's structures. *)
Record reached (gpu : virtio_gpu_pci_t) (t : virtio_pci_transport_t) (R : gpu_regs) : Prop := {
  rc_place : gr_place R = (gp_bus gpu, gp_device gpu, gp_func gpu);
  rc_common : common_cfg t = gr_common R;
  rc_notify : notify_base t = gr_notify R;
  rc_mult : notify_off_multiplier t = gr_mult R;
  rc_range : 0 <= common_cfg t < 2 ^ 63
}.

(** Bringing up the GPU, over any device that writes only to the used
    ring and the response buffer it was given, and any allocator: the code
    ends, whatever the device answers.  With [true] the driver's variables
    describe a frame buffer that is a fresh allocation, large enough for
    the display's pixels and cleared, and the device works on the driver's
    queue; with [false] they are unchanged.  No older allocation and no byte
    outside the heap changes but the two local structures. *)
Theorem bring_up_framebuffer gpu t p m b g L R on :
  locals_ok -> aok m L -> dev_at b R on -> reached gpu t R ->
  exists r m' b' g', bring_up cmd_at resp_at malloc gpu t (vs p m b g) = Ret (r, vs p m' b' g') /\ set_up L m (r, g') m' g b' R.
Proof using GC PR AL.
  intros Hlk Hok Hd [T1 T2 T3 T4 T5]. unfold bring_up.
  destruct (device_init_run gpu t p m b g R on resp_bytes Hd T1 T2 T5) as (r1 & b1 & d & a & u & E1 & Hd1). rewrite (bind_run _ _ _ _ _ E1).
  destruct r1; cbn [negb]; [|rewrite init_failed_run; eexists _, _, b1, g; split; [done|]; by eapply (set_up_fail L L); [exact Hd1|apply aok_output| |]].
  destruct (virtqueue_init_run t p m b1 g L R d a u Hok Hd1 T2 T3 T4 T5) as (r2 & m2 & b2 & E2 & Hf2 & Hr2). rewrite (bind_run _ _ _ _ _ E2).
  destruct Hr2 as [(-> & (L' & Hok2 & Hsub) & (Q & Hd2))|(vq & raw & n & -> & HL & Hok2 & [Hq Hd2 Hring])].
  { rewrite init_failed_run. eexists _, _, b2, g. split; [done|]. eapply (set_up_fail L L'); [exact Hd2|by apply aok_output|done|]. intros x Hx _. by apply Hf2. }
  unfold common_read8, common_write8. rewrite bind_read, bind_write. rewrite T2 in T5 |- *. rewrite !(u64_small (gr_common R + 20)) by lia. set (b3 := cfg_write 1 _ _ _).
  assert (queue_live R vq raw n b3 (ram m2)) as Hlive.
  { split; try done. unfold b3. apply dv_status; [apply dv_read; [done|in_list]|]. apply (status_bit _ _ 2); [lia|apply u8_range|reflexivity]. }
  destruct (command_run _ _ m2 b3 _ R raw n vq (display_info_command Hlk) Hlk Hok2 (lookup_insert_eq _ _ _) Hlive)
    as (size & vq4 & m4 & b4 & E4 & Hsz & Hok4 & Hq4 & Hf4). rewrite (bind_on_dstate _ _ _ _ _ _ _ _ _ E4).
  assert (exists w h, default (1024, 768) size = (w, h) /\ 0 <= w < 4294967296 /\ 0 <= h < 4294967296) as (w & h & -> & Hw & Hh).
  { destruct size as [[w h]|]; [|by exists 1024, 768]. exists w, h. split; [done|]. by apply Hsz. }
  destruct (setup_framebuffer_run p m4 b4 g L raw n R vq4 w h Hlk Hok4 HL Hq4 Hw Hh) as (r5 & m5 & b5 & g5 & E5 & [S1 S2 S4 S3]).
  exists r5, m5, b5, g5. split; [exact E5|]. split; [done|done|done|]. intros x Hx Hl. rewrite S3, Hf4; [by apply Hf2| |done|done|done].
  apply (fresh_apart m2 L raw n x Hok2 HL Hx).
Qed.
End Setup.

(** ** The capability list *)

Definition total {S A} (c : M S A) : Prop := forall s, exists r s', c s = Ret (r, s').
Lemma total_ret {S A} (a : A) : total (mret a : M S A).
Proof. intros s. by exists a, s. Qed.
Lemma total_bind {S A A'} (c : M S A) (k : A -> M S A') : total c -> (forall a, total (k a)) -> total (x ← c; k x).
Proof. intros Hc Hk s. destruct (Hc s) as (a & s1 & E). rewrite (bind_run _ _ _ _ _ E). apply Hk. Qed.
Lemma total_gets {S A} (f : S -> A) : total (gets f).
Proof. intros s. by exists (f s), s. Qed.
Lemma total_modify {S} (f : S -> S) : total (modify f).
Proof. intros s. by exists tt, (f s). Qed.
Lemma total_zoom {S T A} (get : S -> T) put (c : M T A) : total c -> total (zoom get put c).
Proof. intros Hc s. unfold zoom. destruct (Hc (get s)) as (a & t & ->). by exists a, (put t s). Qed.
Lemma total_if {S A} (b : bool) (c1 c2 : M S A) : total c1 -> total c2 -> total (if b then c1 else c2).
Proof. by destruct b. Qed.
Create HintDb total.
#[export] Hint Resolve total_ret total_bind total_gets total_modify total_zoom total_if : total.

Section Caps.
Context {B : Type} {P : Ports B} (pdpt pd : Z).

Lemma total_read bus device func o : total (pci_read_config bus device func o : M (dstate B) Z).
Proof. apply total_bind; [apply total_modify|]. intros _ s. unfold inl_port. destruct (bus_in32 _ _). by eexists _, _. Qed.
Lemma total_map phys : total (map_mmio_virt pdpt pd phys).
Proof. unfold map_mmio_virt, on_pmach, on_tables, on_pmach, say. repeat (intros; auto with total; first [apply total_if|apply total_bind]). Qed.

Lemma total_on_dstate {A} (c : M (dstate B) A) : total c -> total (on_dstate c).
Proof. apply total_zoom. Qed.
Lemma total_read8 bus device func o : total (on_dstate (pci_cfg_read8 bus device func o) : M (vstate B) Z).
Proof. apply total_on_dstate, total_bind; [apply total_read|intros; apply total_ret]. Qed.
Lemma total_read32 bus device func o : total (on_dstate (pci_cfg_read32 bus device func o) : M (vstate B) Z).
Proof. apply total_on_dstate, total_read. Qed.
Lemma total_use_cap gpu cap vcap t : total (use_cap pdpt pd gpu cap vcap t : M (vstate B) _).
Proof.
  unfold use_cap. apply total_if; [|apply total_ret]. apply total_bind; [apply total_zoom, total_map|intros base].
  repeat (apply total_if; [|]; try apply total_ret). apply total_bind; [apply total_read32|intros; apply total_ret].
Qed.

Lemma caps_loop_returns gpu fuel : forall cap guard t, guard <= 64 -> 64 - guard < Z.of_nat fuel -> total (caps_loop pdpt pd fuel gpu cap guard t : M (vstate B) _).
Proof.
  induction fuel as [|fuel IH]; intros cap guard t H0 Hf; [|cbn [caps_loop]].
  - lia.
  - destruct (negb _) eqn:E; [apply total_ret|]. assert (guard < 64) as Hg by (destruct (Z.ltb_spec guard 64); [done|]; rewrite andb_false_r in E; discriminate E).
    cbv zeta. apply total_bind; [apply total_read8|intros id]. apply total_bind; [apply total_read8|intros next].
    apply total_if; [|apply IH; lia]. do 4 (apply total_bind; [apply total_read8|intros ?]). do 2 (apply total_bind; [apply total_read32|intros ?]).
    apply total_bind; [apply total_use_cap|intros [t'|]; [apply IH; lia|apply total_ret]].
Qed.

(** [virtio_pci_find_caps] returns on any configuration space, also
    when the capability list runs in a circle: the guard ends the loop. *)
Theorem find_caps_returns gpu (s : vstate B) : exists r s', virtio_pci_find_caps pdpt pd gpu s = Ret (r, s').
Proof.
  apply total_bind; [apply total_on_dstate, total_bind; [apply total_read|intros; apply total_ret]|intros status].
  apply total_if; [apply total_ret|]. apply total_bind; [apply total_read8|intros cap].
  apply total_bind; [apply caps_loop_returns; lia|intros; apply total_ret].
Qed.
End Caps.

(** ** A simulated device

    One queue of four entries, with the registers of the common
    configuration structure that matter here; it answers the query of the
    display's size with two by two pixels and everything else with success. *)

Record sim_gpu := SimGpu { sg_common : Z; sg_status : Z; sg_select : Z; sg_desc : Z; sg_avail : Z; sg_used : Z; sg_enabled : bool }.
Definition new_gpu (common : Z) : sim_gpu := SimGpu common 0 0 0 0 0 false.
Definition low_half (old v : Z) : Z := old / 4294967296 * 4294967296 + v.
Definition high_half (old v : Z) : Z := v * 4294967296 + old mod 4294967296.
#[export] Instance sim_gpu_ports : Ports sim_gpu := {
  bus_in8 _ h := (0, h); bus_out8 _ _ h := h; bus_in16 _ h := (0, h); bus_out16 _ _ h := h; bus_in32 _ h := (0, h); bus_out32 _ _ h := h
}.
Definition sim_gpu_read (n a : Z) (h : sim_gpu) : Z :=
  let o := a - sg_common h in
  if o =? 4 then 1
  else if o =? 20 then sg_status h
  else if o =? 22 then sg_select h
  else if o =? 24 then (if sg_select h =? 0 then 4 else 0)
  else if o =? 28 then (if (sg_select h =? 0) && sg_enabled h then 1 else 0)
  else 0.
Definition sim_gpu_write (n a v : Z) (h : sim_gpu) : sim_gpu :=
  let o := a - sg_common h in
  let rings d av u := SimGpu (sg_common h) (sg_status h) (sg_select h) d av u (sg_enabled h) in
  if (n =? 1) && (o =? 20) then
    if v =? 0 then new_gpu (sg_common h) else SimGpu (sg_common h) v (sg_select h) (sg_desc h) (sg_avail h) (sg_used h) (sg_enabled h)
  else if (n =? 2) && (o =? 22) then SimGpu (sg_common h) (sg_status h) v (sg_desc h) (sg_avail h) (sg_used h) (sg_enabled h)
  else if negb (sg_select h =? 0) then h
  else if (n =? 2) && (o =? 28) then SimGpu (sg_common h) (sg_status h) (sg_select h) (sg_desc h) (sg_avail h) (sg_used h) (v =? 1)
  else if (n =? 8) && (o =? 32) then rings v (sg_avail h) (sg_used h)
  else if (n =? 8) && (o =? 40) then rings (sg_desc h) v (sg_used h)
  else if (n =? 8) && (o =? 48) then rings (sg_desc h) (sg_avail h) v
  else if (n =? 4) && (o =? 32) then rings (low_half (sg_desc h) v) (sg_avail h) (sg_used h)
  else if (n =? 4) && (o =? 36) then rings (high_half (sg_desc h) v) (sg_avail h) (sg_used h)
  else if (n =? 4) && (o =? 40) then rings (sg_desc h) (low_half (sg_avail h) v) (sg_used h)
  else if (n =? 4) && (o =? 44) then rings (sg_desc h) (high_half (sg_avail h) v) (sg_used h)
  else if (n =? 4) && (o =? 48) then rings (sg_desc h) (sg_avail h) (low_half (sg_used h) v)
  else if (n =? 4) && (o =? 52) then rings (sg_desc h) (sg_avail h) (high_half (sg_used h) v)
  else h.
#[export] Instance sim_gpu_config : GpuConfig sim_gpu := { cfg_read n a h := (sim_gpu_read n a h, h); cfg_write := sim_gpu_write }.

Definition sim_answer (h : sim_gpu) (m : mem) : mem :=
  let resp := ld64 m (sg_desc h + 16) in
  let len := ld32 m (sg_desc h + 24) in
  let m1 :=
    if (ld32 m (ld64 m (sg_desc h)) =? VIRTIO_GPU_CMD_GET_DISPLAY_INFO) && (40 <=? len)
    then st32 (st32 (st32 m resp VIRTIO_GPU_RESP_OK_DISPLAY_INFO) (resp + 32) 2) (resp + 36) 2
    else if 4 <=? len then st32 m resp VIRTIO_GPU_RESP_OK_NODATA else m in
  st16 m1 (sg_used h + 2) (ld16 m1 (sg_used h + 2) + 1).
#[export] Instance sim_gpu_device : GpuDevice sim_gpu := {
  gpu_notify _ _ h m := (h, if sg_enabled h then sim_answer h m else m);
  gpu_poll h m := (h, m)
}.

Lemma sim_answer_confined h m x :
  ~ (sg_used h <= x < sg_used h + 6 + 8 * 4 \/ ld64 m (sg_desc h + 16) <= x < ld64 m (sg_desc h + 16) + ld32 m (sg_desc h + 24)) ->
  ld8 (sim_answer h m) x = ld8 m x.
Proof.
  unfold sim_answer. set (resp := ld64 m _). set (len := ld32 m (sg_desc h + 24)). set (u := sg_used h). intros Hx.
  assert (forall k a v mm, (forall y, a <= y < a + Z.of_nat k -> u <= y < u + 6 + 8 * 4 \/ resp <= y < resp + len) -> ld8 (stn k mm a v) x = ld8 mm x) as Hst.
  { intros k a v mm Ha. apply (agree_stn k mm a v x (x + 1)); [|lia].
    destruct (Z.le_gt_cases a x), (Z.lt_ge_cases x (a + Z.of_nat k)); try lia. exfalso. apply Hx, Ha. lia. }
  unfold st16, st32. rewrite Hst by (intros y Hy; lia). destruct (_ && _) eqn:E; [|destruct (Z.leb_spec 4 len); [|done]].
  - apply andb_true_iff in E as [_ E]. apply Z.leb_le in E. by rewrite !Hst by (intros y Hy; lia).
  - by rewrite !Hst by (intros y Hy; lia).
Qed.

(** The device has the registers [R]. *)
Definition sim_is (h : sim_gpu) (R : gpu_regs) : Prop := sg_common h = gr_common R /\ gr_size R = 4 /\ gr_off R = 0.
Definition sim_queue (h : sim_gpu) (R : gpu_regs) (Q : gpu_queue) : Prop :=
  sim_is h R /\ sg_desc h = gq_desc Q /\ sg_avail h = gq_avail Q /\ sg_used h = gq_used Q /\ sg_enabled h = gq_enabled Q /\
  (gq_selected Q = true -> sg_select h = 0).

Ltac sim_write := cbn [cfg_write sim_gpu_config]; unfold sim_gpu_write; cbv zeta;
  repeat match goal with |- context [?a + ?o - ?b] => replace (a + o - b) with o by lia end; cbn [Z.eqb Pos.eqb andb negb].

#[export] Program Instance sim_virtio : VirtioGpu sim_gpu := {
  dev_at h R on := sim_is h R;
  dev_resetting h R := sim_is h R /\ sg_enabled h = false;
  dev_ok := sim_queue
}.
Next Obligation. done. Qed.
Next Obligation. done. Qed.
Next Obligation. done. Qed.
Next Obligation. intros h R (E & E2 & E3). sim_write. done. Qed.
Next Obligation. intros h R Q ((E & E2 & E3) & _). rewrite E2, E3. lia. Qed.
Next Obligation. done. Qed.
Next Obligation. intros h R Q v ((E & E2 & E3) & H) Hv. sim_write. destruct (Z.eqb_spec v 0); [lia|]. by split. Qed.
Next Obligation.
  intros h R Q off v ((E & E2 & E3) & H) Hoff. repeat apply elem_of_cons in Hoff as [->|Hoff]; [..|by apply not_elem_of_nil in Hoff];
    sim_write; destruct (sg_select h =? 0); by split.
Qed.
Next Obligation. intros h R Q ((E & E2 & E3) & H1 & H2 & H3 & H4 & _). sim_write. by split_and!. Qed.
Next Obligation.
  intros h R Q ((E & E2 & E3) & _ & _ & _ & _ & Hs) Hsel. cbn [cfg_read sim_gpu_config fst]. unfold sim_gpu_read. replace (gr_common R + 24 - sg_common h) with 24 by lia.
  cbn [Z.eqb Pos.eqb]. by rewrite (Hs Hsel).
Qed.
Next Obligation.
  intros h R Q ((E & E2 & E3) & _) Hsel. cbn [cfg_read sim_gpu_config fst]. unfold sim_gpu_read. by replace (gr_common R + 30 - sg_common h) with 30 by lia.
Qed.
Next Obligation. intros h R Q ((E & E2 & E3) & H1 & H2 & H3 & H4 & Hs) Hsel. sim_write. rewrite (Hs Hsel). by split_and!. Qed.
Next Obligation. intros h R Q ((E & E2 & E3) & H1 & H2 & H3 & H4 & Hs) Hsel. sim_write. rewrite (Hs Hsel). by split_and!. Qed.
Next Obligation.
  intros h R Q m h' m' (Hi & H1 & H2 & H3 & H4 & Hs) Hen [_ _ Hbuf _] [= <- <-]. split; [by split_and!|]. intros x Hx. rewrite H4, Hen.
  apply sim_answer_confined. rewrite H1, H3. unfold may_write in Hx. destruct Hi as (_ & Hsz & _). rewrite Hsz in Hx. naive_solver.
Qed.
Next Obligation. intros h R Q m h' m' H _ _ [= <- <-]. by split. Qed.

#[export] Instance sim_prompt_gpu : PromptGpu sim_gpu.
Proof.
  split.
  - intros h R W [Hi He]. exists (sg_desc h), (sg_avail h), (sg_used h). by split_and!.
  - intros h R d a u W v ((E & E2 & E3) & H1 & H2 & H3 & H4 & Hs). sim_write. rewrite (Hs eq_refl). by split_and!.
  - intros h R d a u W v ((E & E2 & E3) & H1 & H2 & H3 & H4 & Hs). sim_write. rewrite (Hs eq_refl). by split_and!.
  - intros h R d a u W v ((E & E2 & E3) & H1 & H2 & H3 & H4 & Hs). sim_write. rewrite (Hs eq_refl). by split_and!.
Qed.

Definition sample_card : virtio_gpu_pci_t := GpuPci 0 2 0 [0xFEB00000; 0; 0; 0; 0; 0] [1; 0; 0; 0; 0; 0] 11.
Definition sim_gpu_regs : gpu_regs := GpuRegs (0, 2, 0) 0xFEB00000 0xFEB03000 4 4 0.
Definition sample_transport : virtio_pci_transport_t := Transport 0xFEB00000 0xFEB03000 0xFEB02000 4.
Definition no_vars : gpu_vars := GpuVars 0 0 0 0 (Virtqueue 0 0 0 0 0 0 0 0).
Definition no_paging : paging := Paging mach0 0 0 0 (replicate 16 0) 0.

Lemma bring_up_framebuffer_witness : exists s,
  bring_up 0x4000 0x5000 kmalloc sample_card sample_transport (vs no_paging booted (new_gpu 0xFEB00000) no_vars) = Ret (true, s) /\
  g_gpu_ready (vgpu s) = 1 /\ g_gpu_width (vgpu s) * g_gpu_height (vgpu s) <= 67108864.
Proof.
  assert (locals_ok 0x4000 0x5000 0x180000 (0x180000 + HEAP_BYTES)) as Hlk by (split; lia).
  assert (dev_at (new_gpu 0xFEB00000) sim_gpu_regs true) as Hdv by (repeat split).
  destruct (bring_up_framebuffer 0x4000 0x5000 kmalloc kfree 0x180000 _ (heap_ok 0x180000) sample_card sample_transport no_paging booted
    (new_gpu 0xFEB00000) no_vars ∅ sim_gpu_regs true Hlk booted_heap Hdv ltac:(split; cbn; lia || done)) as (r & m' & b' & g' & E & [(L' & _ & _ & Hr) _ _ _]).
  assert (match bring_up 0x4000 0x5000 kmalloc sample_card sample_transport (vs no_paging booted (new_gpu 0xFEB00000) no_vars) with
    | Ret (r, _) => r | _ => false end = true) as Hv by (vm_compute; reflexivity).
  rewrite E in Hv. subst r. exists (vs no_paging m' b' g'). split; [exact E|]. destruct (Hr eq_refl) as [(H1 & _ & _ & H2 & _) _]. by split.
Defined.
