(* ===== verification/VirtioInit.v ===== *)
(** * Starting the display

    [virtio_pci_find_caps] walks the list of capabilities in configuration
    space and maps the regions they describe.  [regions] is that list as the
    PCI and VirtIO specifications describe it; the function maps all of them
    and returns the addresses of the last region of each kind.  With it,
    [display_init] is the composition of the theorems on PCI, page tables,
    the allocator and the device.  A simulated computer with a drive, a PCI
    host and a GPU closes the file. *)
From S2P Require Import Prelude Machine Utils Serial Memory Heap HeapChain HeapInv HeapSpec Alloc HeapTheorems.
From S2P Require Import SysFileTheorems Disk BlockDev Paging PagingTheorems Pci PciTheorems Display Virtio VirtioTheorems.

Section Space.
Context (f : Z -> Z) (p : place).

(** Configuration space of a function, by words and by bytes. *)
Definition word_of (o : Z) : Z := let '((bus, device), func) := p in reg f bus device func (4 * (o / 4)).
Definition byte_of (o : Z) : Z := word_of o / 2 ^ (8 * (o mod 4)) mod 256.

(** The offsets of the capabilities, at most [n]; the list ends with an
    offset in the header. *)
Fixpoint cap_list (n : nat) (cap : Z) : list Z :=
  match n with
  | O => []
  | S n => if cap <? 0x40 then [] else cap :: cap_list n (byte_of (u8 (cap + 1)))
  end.

Record region := Region { rg_type : Z; rg_phys : Z; rg_mult : Z }.
(** The region a vendor capability describes, when its base address register
    is one of the six and maps memory. *)
Definition region_at (gpu : virtio_gpu_pci_t) (cap : Z) : option region :=
  let bar := byte_of (u8 (cap + 4)) in
  let addr := default 0 (bar_addr gpu !! Z.to_nat bar) in
  if (byte_of cap =? 0x09) && ((bar <? 6) && negb (default 0 (bar_is_mem gpu !! Z.to_nat bar) =? 0) && negb (addr =? 0))
  then Some (Region (byte_of (u8 (cap + 3))) (u64 (addr + word_of (u8 (cap + 8)))) (word_of (u8 (cap + 16)))) else None.
Definition regions (gpu : virtio_gpu_pci_t) : list region := omap (region_at gpu) (cap_list 64 (byte_of 0x34)).
Definition has_caps : bool := Z.testbit (word_of 0x04) 20.
End Space.

Definition last_of (ty : Z) (rs : list region) : option region := last (filter (fun r => rg_type r = ty) rs).
Lemma last_of_snoc ty rs r : last_of ty (rs ++ [r]) = if decide (rg_type r = ty) then Some r else last_of ty rs.
Proof.
  unfold last_of. rewrite filter_app, filter_cons, filter_nil. case_decide; [apply last_snoc|by rewrite app_nil_r].
Qed.

Definition place_of (gpu : virtio_gpu_pci_t) : place := (gp_bus gpu, gp_device gpu, gp_func gpu).
Definition at_place (gpu : virtio_gpu_pci_t) : Prop := place_ok (gp_bus gpu) (gp_device gpu) (gp_func gpu).

(** [v] is the address the kernel uses for [phys]. *)
Definition given (pg : paging) (v phys : Z) : Prop :=
  (0 <= phys < 4 * GB /\ v = phys) \/
  (4 * GB <= phys /\ exists i, 0 <= i < mmio_slots_used pg /\ slot_base pg i = phys - phys mod MB2 /\ v = MMIO_WINDOW_BASE + i * MB2 + phys mod MB2).

(** The 2 MiB pages the slots of the window map, in order. *)
Definition slots (pg : paging) : list Z := take (Z.to_nat (mmio_slots_used pg)) (mmio_phys_base pg).
(** Their growth when [phys] is mapped, and the address it has then. *)
Definition assign (w : list Z) (phys : Z) : list Z :=
  if decide (phys < 4 * GB \/ phys - phys mod MB2 ∈ w) then w else w ++ [phys - phys mod MB2].
Definition address_in (w : list Z) (phys : Z) : Z :=
  if phys <? 4 * GB then phys
  else MMIO_WINDOW_BASE + Z.of_nat (default 0%nat (fst <$> list_find (eq (phys - phys mod MB2)) w)) * MB2 + phys mod MB2.

Lemma slots_lookup pg i base : length (mmio_phys_base pg) = 16%nat -> 0 <= i < mmio_slots_used pg -> mmio_slots_used pg <= 16 -> slots pg !! Z.to_nat i = Some base <-> slot_base pg i = base.
Proof.
  intros Hl Hi. unfold slots, slot_base. rewrite lookup_take_lt by lia.
  destruct (mmio_phys_base pg !! Z.to_nat i) as [y|] eqn:E; [cbn; split; congruence|]. apply lookup_ge_None in E. lia.
Qed.
Lemma elem_slots pg base : length (mmio_phys_base pg) = 16%nat -> 0 <= mmio_slots_used pg <= 16 ->
  base ∈ slots pg <-> exists i, 0 <= i < mmio_slots_used pg /\ slot_base pg i = base.
Proof.
  intros Hl Hu. rewrite list_elem_of_lookup. split.
  - intros (i & Hi). pose proof (lookup_lt_Some _ _ _ Hi) as Hlt. unfold slots in Hlt. rewrite length_take in Hlt.
    exists (Z.of_nat i). split; [lia|]. apply slots_lookup; [done|lia|lia|]. by rewrite Nat2Z.id.
  - intros (i & Hi & Hb). exists (Z.to_nat i). apply slots_lookup; (done || lia).
Qed.
Lemma slots_add pdpt pd base pg : length (mmio_phys_base pg) = 16%nat -> 0 <= mmio_slots_used pg < 16 -> slots (add_slot pdpt pd base pg) = slots pg ++ [base].
Proof.
  intros Hl Hu. unfold slots, add_slot. cbn [mmio_slots_used mmio_phys_base put_slots]. rewrite u32_small by lia.
  replace (Z.to_nat (mmio_slots_used pg + 1)) with (S (Z.to_nat (mmio_slots_used pg))) by lia.
  rewrite (take_S_r _ _ base) by (apply list_lookup_insert_eq; lia). by rewrite take_insert_ge by lia.
Qed.
Lemma assign_NoDup w phys : NoDup w -> NoDup (assign w phys).
Proof. intros Hw. unfold assign. case_decide; [done|]. apply NoDup_app. split_and!; [done|set_solver|apply NoDup_singleton]. Qed.
Lemma window_NoDup l : forall w, NoDup w -> NoDup (fold_left assign l w).
Proof. induction l as [|x l IH]; intros w Hw; [done|]. apply IH. by apply assign_NoDup. Qed.

(** With distinct pages the slot of an address is determined. *)
Lemma given_address pg v phys : length (mmio_phys_base pg) = 16%nat -> mmio_slots_used pg <= 16 -> NoDup (slots pg) ->
  given pg v phys -> v = address_in (slots pg) phys.
Proof.
  intros Hl Hu Hn [[Hp ->]|(Hp & i & Hi & Hb & ->)]; unfold address_in; destruct (Z.ltb_spec phys (4 * GB)); try lia.
  apply (slots_lookup pg i) in Hb; [|done|lia|lia]. assert (list_find (eq (phys - phys mod MB2)) (slots pg) = Some (Z.to_nat i, phys - phys mod MB2)) as ->.
  { apply list_find_Some. split_and!; [done|done|]. intros j y Hj Hlt <-. pose proof (NoDup_lookup _ _ _ _ Hn Hj Hb). lia. }
  change (fst <$> _) with (Some (Z.to_nat i)). cbn [default from_option id]. by rewrite Z2Nat.id by lia.
Qed.

Lemma given_range pg v phys : 0 <= mmio_slots_used pg <= 16 -> given pg v phys -> 0 <= v < 4 * GB.
Proof.
  intros Hu [[Hp ->]|(_ & i & Hi & _ & ->)]; [done|]. pose proof (Z.mod_pos_bound phys MB2 ltac:(unfold MB2; lia)).
  unfold MMIO_WINDOW_BASE, MB2, GB in *. lia.
Qed.

Lemma land_fc_any o : 0 <= o < 256 -> Z.land o 0xFC = 4 * (o / 4).
Proof.
  intros Ho. change 0xFC with (Z.ldiff (Z.ones 8) (Z.ones 2)). rewrite Z.ldiff_land, Z.land_assoc, Z.land_ones, Z.mod_small, land_lnot_ones by lia.
  change (2 ^ 2) with 4. word_lia.
Qed.

Lemma u8_offset o : 0 <= u8 o < 256.
Proof. apply Z.mod_pos_bound. lia. Qed.

Section Mapping.
Context (pml4 pdpt pd : Z) (T : tables_ok pml4 pdpt pd).
Abbreviation paging_ok := (paging_ok pml4 pdpt pd).

Lemma given_add n s base v phys : paging_ok n s -> mmio_slots_used s < 16 -> given s v phys -> given (add_slot pdpt pd base s) v phys.
Proof using Type.
  intros [_ _ _ K4 K5 _] Hu [H|(Hp & i & Hi & Hb & Hv)]; [by left|right]. split; [done|]. exists i.
  change (mmio_slots_used (add_slot pdpt pd base s)) with (u32 (mmio_slots_used s + 1)). rewrite u32_small, slot_base_add by lia.
  destruct (Z.eqb_spec i (mmio_slots_used s)); [lia|]. split_and!; (done || lia).
Qed.

(** An address the kernel uses translates to the one it stands for. *)
Lemma given_walk n s v phys : paging_ok n s -> given s v phys -> 0 <= phys ->
  4 * GB <= phys \/ ~ (MMIO_WINDOW_BASE <= phys < MMIO_WINDOW_BASE + MMIO_WINDOW_SLOTS * MB2) -> walk (page_ram s) (cr3 s) v = Some phys.
Proof using T.
  intros Hok Hg Hp Hw. pose proof Hok as [K1 K2 K3 K4 K5 K6]. destruct Hg as [[Hlt ->]|(Hge & i & Hi & Hb & ->)].
  - rewrite (walk_page _ _ _ T n) by first [done|unfold GB in *; lia]. destruct (Z.ltb_spec phys (n * GB)); [|unfold GB in *; lia]. f_equal.
    unfold page_of, identity. unfold MMIO_WINDOW_BASE, MMIO_WINDOW_SLOTS, GB, MB2 in *.
    destruct (Z.leb_spec 1920 (phys / (2 * 1024 * 1024))), (Z.ltb_spec (phys / (2 * 1024 * 1024)) (1920 + mmio_slots_used s)); cbn [andb]; word_lia.
  - assert (0 <= phys mod MB2 < MB2) as Ho by (apply Z.mod_pos_bound; unfold MB2; lia).
    destruct (window_addr i (phys mod MB2) ltac:(lia) Ho) as (E & _). rewrite <- E, (walk_window _ _ _ T n) by done. f_equal. lia.
Qed.

(** Mapping devices changes the tables, the slots and the output only, and
    leaves addresses in use what they are. *)
Record remapped (n : Z) (s s' : paging) : Prop := {
  kp_ok : paging_ok n s';
  kp_machine : same_machine (pmach s) (pmach s');
  kp_tables x : off_tables pml4 pdpt pd x -> ld8 (page_ram s') x = ld8 (page_ram s) x;
  kp_cr0 : cr0 s' = cr0 s;
  kp_given v phys : given s v phys -> given s' v phys
}.
Lemma remapped_refl n s : paging_ok n s -> remapped n s s.
Proof using Type. split; try done. exists [], (page_ram s). rewrite add_serial_nil. by destruct s as [[]]. Qed.
Lemma remapped_trans n s1 s2 s3 : remapped n s1 s2 -> remapped n s2 s3 -> remapped n s1 s3.
Proof using Type.
  intros [A1 A2 A3 A4 A5] [B1 B2 B3 B4 B5].
  split; [done|by eapply same_machine_trans|intros x Hx; by rewrite B3, A3|by rewrite B4|auto].
Qed.

(** [map_mmio_virt] on every address. *)
Lemma map_mmio_run n s phys : paging_ok n s -> 0 <= phys < 2 ^ 52 ->
  exists v s', map_mmio_virt pdpt pd phys s = Ret (v, s') /\ remapped n s s' /\ ((v = 0 /\ (phys = 0 \/ mmio_slots_used s' = 16)) \/ (v <> 0 /\ given s' v phys /\ slots s' = assign (slots s) phys)).
Proof using T.
  intros Hok Hp. pose proof Hok as [K1 K2 K3 K4 K5 K6].
  pose proof (remapped_refl n s Hok) as Hsame.
  destruct (Z.lt_ge_cases phys (4 * GB)) as [Hlt|Hge].
  { exists phys, s. unfold map_mmio_virt. destruct (Z.ltb_spec phys (4 * GB)); [|lia]. split_and!; try done.
    destruct (Z.eq_dec phys 0); [left; auto|right]. split_and!; [done|left; split; [lia|done]|]. unfold assign. by rewrite decide_True by (by left). }
  destruct (phys_split phys Hp) as (P1 & P2 & P3 & P4). cbv zeta in P2.
  assert (0 <= phys mod MB2 < MB2) as Ho by (apply Z.mod_pos_bound; unfold MB2; lia).
  destruct (first_from_spec (Z.to_nat (mmio_slots_used s)) 0 (fun i => slot_base s i =? phys - phys mod MB2) ltac:(lia)) as [[Ef Hall]|(H1 & H2 & _)].
  - destruct (Z.lt_ge_cases (mmio_slots_used s) 16) as [Hu|Hu].
    + rewrite (map_mmio_new pml4 pdpt pd T); [|lia|lia|intros i Hi; apply Z.eqb_neq, Hall; lia].
      destruct (add_slot_ok _ _ _ T n s (phys - phys mod MB2) Hok Hu ltac:(unfold GB, MB2 in *; word_lia) ltac:(by rewrite <- P1)) as [Hok' Hoff].
      destruct (window_addr (mmio_slots_used s) (phys mod MB2) ltac:(lia) Ho) as (W1 & _ & _ & W4). rewrite W1.
      eexists _, _. split; [reflexivity|]. split_and!; [|right].
      { split; [done| |done|done|intros v2 p2; by apply (given_add n)]. exists []. eexists. unfold add_slot. cbn. by rewrite add_serial_nil. }
      split; [rewrite W1 in W4; lia|]. split.
      2:{ rewrite slots_add by lia. unfold assign. rewrite decide_False; [done|]. rewrite elem_slots by done.
          intros [?|(i & Hi & Hb)]; [lia|]. specialize (Hall i ltac:(lia)). apply Z.eqb_neq in Hall. done. }
      right. split; [done|]. exists (mmio_slots_used s).
      change (mmio_slots_used (add_slot pdpt pd _ s)) with (u32 (mmio_slots_used s + 1)).
      rewrite u32_small, slot_base_add, Z.eqb_refl by lia. split_and!; (done || lia).
    + exists 0, (put_pmach (add_serial [line "[OS] [Memory] MMIO window exhausted"] (pmach s)) s).
      assert (map_mmio_virt pdpt pd phys s = Ret (0, put_pmach (add_serial [line "[OS] [Memory] MMIO window exhausted"] (pmach s)) s)) as ->.
      { unfold map_mmio_virt. destruct (Z.ltb_spec phys (4 * GB)); [lia|]. rewrite P1, !bind_gets, Ef.
        by destruct (Z.leb_spec MMIO_WINDOW_SLOTS (mmio_slots_used s)) as [_|Hc]; [|unfold MMIO_WINDOW_SLOTS in Hc; lia]. }
      split; [done|]. split; [|left; split; [done|right; cbn; lia]].
      split; [done|by eexists [_], (page_ram s); destruct s as [[]]|done|done|done].
  - set (i := first_from _ _ _) in *. exists (u64 (u64 (MMIO_WINDOW_BASE + i * MB2) + phys mod MB2)), s.
    assert (map_mmio_virt pdpt pd phys s = Ret (u64 (u64 (MMIO_WINDOW_BASE + i * MB2) + phys mod MB2), s)) as ->.
    { unfold map_mmio_virt. destruct (Z.ltb_spec phys (4 * GB)); [lia|]. rewrite P2, P1, !bind_gets. fold i. by destruct (Z.leb_spec 0 i); [|lia]. }
    destruct (window_addr i (phys mod MB2) ltac:(lia) Ho) as (W1 & _ & _ & W4). rewrite W1 in W4 |- *.
    split_and!; try done. right. apply Z.eqb_eq in H2. split; [lia|]. split.
    { right. split; [done|]. exists i. split_and!; (done || lia). }
    unfold assign. rewrite decide_True; [done|]. right. apply elem_slots; [done|done|]. exists i. split; [lia|done].
Qed.

(** ** The walk *)

Definition fits pg (v : Z) (r : option region) : Prop := match r with None => v = 0 | Some r => v <> 0 /\ given pg v (rg_phys r) end.
(** [t] has the addresses of the last region of each kind. *)
Record found pg (t : virtio_pci_transport_t) (rs : list region) : Prop := {
  fd_common : fits pg (common_cfg t) (last_of VIRTIO_PCI_CAP_COMMON_CFG rs);
  fd_notify : fits pg (notify_base t) (last_of VIRTIO_PCI_CAP_NOTIFY_CFG rs);
  fd_device : fits pg (device_cfg t) (last_of VIRTIO_PCI_CAP_DEVICE_CFG rs);
  fd_mult : notify_off_multiplier t = default 0 (rg_mult <$> last_of VIRTIO_PCI_CAP_NOTIFY_CFG rs)
}.
Definition with_region (t : virtio_pci_transport_t) (r : region) (v : Z) : virtio_pci_transport_t :=
  if rg_type r =? VIRTIO_PCI_CAP_COMMON_CFG then Transport v (notify_base t) (device_cfg t) (notify_off_multiplier t)
  else if rg_type r =? VIRTIO_PCI_CAP_NOTIFY_CFG then Transport (common_cfg t) v (device_cfg t) (rg_mult r)
  else if rg_type r =? VIRTIO_PCI_CAP_DEVICE_CFG then Transport (common_cfg t) (notify_base t) v (notify_off_multiplier t)
  else t.

Lemma found_remapped n pg pg' t rs : remapped n pg pg' -> found pg t rs -> found pg' t rs.
Proof using Type.
  intros [_ _ _ _ Hg] [F1 F2 F3 F4]. split; [..|done]; unfold fits in *; repeat case_match; try done; naive_solver.
Qed.
Lemma found_add pg t rs r v : found pg t rs -> v <> 0 -> given pg v (rg_phys r) -> found pg (with_region t r v) (rs ++ [r]).
Proof using Type.
  intros [F1 F2 F3 F4] Hv Hg. unfold with_region.
  destruct (Z.eqb_spec (rg_type r) VIRTIO_PCI_CAP_COMMON_CFG) as [E1|E1];
    [|destruct (Z.eqb_spec (rg_type r) VIRTIO_PCI_CAP_NOTIFY_CFG) as [E2|E2];
      [|destruct (Z.eqb_spec (rg_type r) VIRTIO_PCI_CAP_DEVICE_CFG) as [E3|E3]]];
    split; rewrite last_of_snoc; case_decide; try done; try (by split);
      exfalso; unfold VIRTIO_PCI_CAP_COMMON_CFG, VIRTIO_PCI_CAP_NOTIFY_CFG, VIRTIO_PCI_CAP_DEVICE_CFG in *; lia.
Qed.

Section Walk.
Context {B : Type} {P : Ports B} {PH : PciHost B} (f : Z -> Z) (gpu : virtio_gpu_pci_t) (Hp : at_place gpu).
Implicit Types (b : B) (pg : paging) (g : gpu_vars).
Abbreviation byte := (byte_of f (place_of gpu)).
Abbreviation word := (word_of f (place_of gpu)).

Lemma word_run o pg b g : 0 <= o < 256 -> host b f ->
  exists b', on_dstate (pci_cfg_read32 (gp_bus gpu) (gp_device gpu) (gp_func gpu) o) (VState pg b g) = Ret (word o, VState pg b' g) /\ host b' f.
Proof using PH Hp.
  intros Ho Hb. unfold on_dstate, zoom, pci_cfg_read32. rewrite land_fc_any by done.
  destruct (read_config_run _ _ _ (o / 4) f (pmach pg) b Hp ltac:(word_lia) Hb) as (b' & E & Hb'). exists b'. split; [|done].
  cbn [vpage vbus]. rewrite E. by destruct pg.
Qed.

Lemma byte_run o pg b g : 0 <= o < 256 -> host b f ->
  exists b', on_dstate (pci_cfg_read8 (gp_bus gpu) (gp_device gpu) (gp_func gpu) o) (VState pg b g) = Ret (byte o, VState pg b' g) /\ host b' f.
Proof using PH Hp.
  intros Ho Hb. unfold on_dstate, zoom, pci_cfg_read8. rewrite land_fc_any by done.
  destruct (read_config_run _ _ _ (o / 4) f (pmach pg) b Hp ltac:(word_lia) Hb) as (b' & E & Hb'). exists b'. split; [|done].
  cbn [vpage vbus]. rewrite (bind_run _ _ _ _ _ E). change 0x3 with (Z.ones 2). change 0xFF with (Z.ones 8).
  rewrite !Z.land_ones, Z.shiftr_div_pow2 by (rewrite ?Z.land_ones by lia; word_lia). change (2 ^ 2) with 4. change (2 ^ 8) with 256.
  unfold byte_of. rewrite (Z.mul_comm 8). by destruct pg.
Qed.

Lemma byte_range o : 0 <= byte o < 256.
Proof using Type. apply Z.mod_pos_bound. lia. Qed.

(** Mapping failed: a region at address 0, or no slot left. *)
Definition map_failed pg (rs : list region) : Prop := (exists r, r ∈ rs /\ rg_phys r = 0) \/ mmio_slots_used pg = 16.

(** One capability that describes a region. *)
Lemma use_cap_run n cap c t rs r pg b g : host b f -> paging_ok n pg -> found pg t rs -> region_at f (place_of gpu) gpu cap = Some r ->
  cap_bar c = byte (u8 (cap + 4)) -> cfg_type c = byte (u8 (cap + 3)) -> cap_offset c = word (u8 (cap + 8)) -> rg_phys r < 2 ^ 52 ->
  exists o pg' b', use_cap pdpt pd gpu cap c t (VState pg b g) = Ret (o, VState pg' b' g) /\ host b' f /\ remapped n pg pg' /\
    match o with Some t' => found pg' t' (rs ++ [r]) /\ slots pg' = assign (slots pg) (rg_phys r) | None => map_failed pg' [r] end.
Proof using T PH Hp.
  intros Hb Hok Hf Hr Ebar Ety Eoff Hphys. unfold use_cap. rewrite Ebar, Ety, Eoff. unfold region_at in Hr.
  destruct (byte cap =? 9); [|discriminate Hr]. cbn [andb] in Hr. destruct (_ && _); [|discriminate Hr]. apply (inj Some) in Hr. subst r. cbn [rg_phys] in Hphys.
  set (r := Region _ _ _). destruct (map_mmio_run n pg (rg_phys r) Hok) as (v & pg1 & E & Hk & Hv).
  { cbn [rg_phys r]. split; [apply Z.mod_pos_bound; lia|done]. }
  rewrite (bind_run _ _ _ v (VState pg1 b g)) by (unfold on_vpage, zoom; cbn [vpage]; unfold r in E; cbn [rg_phys] in E; by rewrite E).
  destruct Hv as [[-> Hz]|(Hv & Hg & Hs)].
  { exists None, pg1, b. split_and!; try done. destruct Hz as [Hz|Hz]; [left|by right]. exists r. by split; [apply list_elem_of_singleton|]. }
  destruct (Z.eqb_spec v 0); [done|]. pose proof (found_add pg1 t rs r v (found_remapped n pg pg1 t rs Hk Hf) Hv Hg) as Hf1.
  unfold with_region in Hf1. cbn [rg_type rg_mult r] in Hf1.
  destruct (_ =? VIRTIO_PCI_CAP_COMMON_CFG); [by eexists (Some _), pg1, b|]. destruct (_ =? VIRTIO_PCI_CAP_NOTIFY_CFG).
  { destruct (word_run (u8 (cap + 16)) pg1 b g (u8_offset _) Hb) as (b1 & E1 & Hb1). rewrite (bind_run _ _ _ _ _ E1).
    by eexists (Some _), pg1, b1. }
  destruct (_ =? VIRTIO_PCI_CAP_DEVICE_CFG); by eexists (Some _), pg1, b.
Qed.

(** One that describes none. *)
Lemma skip_cap_run cap c t (s : vstate B) : region_at f (place_of gpu) gpu cap = None -> byte cap = 0x09 ->
  cap_bar c = byte (u8 (cap + 4)) -> use_cap pdpt pd gpu cap c t s = Ret (Some t, s).
Proof using Type.
  intros Hr Hid Ebar. unfold use_cap. rewrite Ebar. unfold region_at in Hr. rewrite Hid in Hr. cbn [Z.eqb Pos.eqb andb] in Hr. by destruct (_ && _).
Qed.
(** The loop, from a state in which [rs] have been mapped. *)
Lemma caps_loop_run n fuel : forall cap guard t rs pg b g, 0 <= cap < 256 -> 0 <= guard <= 64 -> 64 - guard < Z.of_nat fuel ->
  host b f -> paging_ok n pg -> found pg t rs ->
  let l := omap (region_at f (place_of gpu) gpu) (cap_list f (place_of gpu) (Z.to_nat (64 - guard)) cap) in
  Forall (fun r => rg_phys r < 2 ^ 52) l ->
  exists o pg' b', caps_loop pdpt pd fuel gpu cap guard t (VState pg b g) = Ret (o, VState pg' b' g) /\ host b' f /\ remapped n pg pg' /\
    match o with Some t' => found pg' t' (rs ++ l) /\ slots pg' = fold_left assign (rg_phys <$> l) (slots pg) | None => map_failed pg' l end.
Proof using T PH Hp.
  induction fuel as [|fuel IH]; intros cap guard t rs pg b g Hcap Hg Hfuel Hb Hok Hf l Hl; [lia|]. cbn [caps_loop]. unfold l in *. clear l.
  assert (negb (negb (cap =? 0) && (64 <=? cap) && (guard <? 64)) = (cap <? 64) || (64 <=? guard)) as -> by (zcases; try lia; done).
  destruct (Z.leb_spec 64 guard) as [Hend|Hmore].
  { rewrite orb_true_r. replace (Z.to_nat (64 - guard)) with 0%nat by lia. exists (Some t), pg, b. cbn [cap_list omap list_omap].
    rewrite app_nil_r. split_and!; [done|done|by apply remapped_refl|done|done]. }
  replace (Z.to_nat (64 - guard)) with (S (Z.to_nat (64 - (guard + 1)))) in * by lia. cbn [cap_list] in Hl |- *. rewrite orb_false_r.
  destruct (cap <? 64). { exists (Some t), pg, b. cbn [omap list_omap]. rewrite app_nil_r. split_and!; [done|done|by apply remapped_refl|done|done]. }
  rewrite (u8_small cap) by lia.
  destruct (byte_run cap pg b g Hcap Hb) as (b1 & E1 & Hb1). rewrite (bind_run _ _ _ _ _ E1).
  destruct (byte_run (u8 (cap + 1)) pg b1 g (u8_offset _) Hb1) as (b2 & E2 & Hb2). rewrite (bind_run _ _ _ _ _ E2).
  set (next := byte (u8 (cap + 1))) in *. cbn [omap list_omap] in Hl |- *.
  destruct (Z.eqb_spec (byte cap) PCI_CAP_ID_VENDOR) as [Hid|Hid].
  2:{ assert (region_at f (place_of gpu) gpu cap = None) as Hn.
      { unfold region_at. destruct (Z.eqb_spec (byte cap) 9); [done|reflexivity]. }
      rewrite Hn in Hl |- *. by apply IH; [apply byte_range|lia|lia|..]. }
  destruct (byte_run (u8 (cap + 2)) pg b2 g (u8_offset _) Hb2) as (b3 & E3 & Hb3). rewrite (bind_run _ _ _ _ _ E3).
  destruct (byte_run (u8 (cap + 3)) pg b3 g (u8_offset _) Hb3) as (b4 & E4 & Hb4). rewrite (bind_run _ _ _ _ _ E4).
  destruct (byte_run (u8 (cap + 4)) pg b4 g (u8_offset _) Hb4) as (b5 & E5 & Hb5). rewrite (bind_run _ _ _ _ _ E5).
  destruct (byte_run (u8 (cap + 5)) pg b5 g (u8_offset _) Hb5) as (b6 & E6 & Hb6). rewrite (bind_run _ _ _ _ _ E6).
  destruct (word_run (u8 (cap + 8)) pg b6 g (u8_offset _) Hb6) as (b7 & E7 & Hb7). rewrite (bind_run _ _ _ _ _ E7).
  destruct (word_run (u8 (cap + 12)) pg b7 g (u8_offset _) Hb7) as (b8 & E8 & Hb8). rewrite (bind_run _ _ _ _ _ E8).
  set (c := PciCap _ _ _ _ _ _ _ _). destruct (region_at f (place_of gpu) gpu cap) as [r|] eqn:Er.
  2:{ rewrite (bind_run _ _ _ _ _ (skip_cap_run cap c t (VState pg b8 g) Er Hid eq_refl)). by apply IH; [apply byte_range|lia|lia|..]. }
  apply Forall_cons in Hl as [Hr Hl].
  destruct (use_cap_run n cap c t rs r pg b8 g Hb8 Hok Hf Er eq_refl eq_refl eq_refl Hr) as (o & pg9 & b9 & E9 & Hb9 & Hk9 & Ho).
  rewrite (bind_run _ _ _ _ _ E9). destruct o as [t'|].
  2:{ exists None, pg9, b9. split_and!; try done. destruct Ho as [(r' & Hr'%list_elem_of_singleton & Hz)|Hs]; [|by right].
      left. exists r'. split; [|done]. rewrite Hr'. apply list_elem_of_here. }
  destruct Ho as [Ho Hs9].
  destruct (IH next (guard + 1) t' (rs ++ [r]) pg9 b9 g (byte_range _) ltac:(lia) ltac:(lia) Hb9 (kp_ok _ _ _ Hk9) Ho Hl) as (o & pg' & b' & E & Hb' & Hk & Ho').
  exists o, pg', b'. split_and!; [exact E|done|by eapply remapped_trans|]. destruct o as [t''|]; [rewrite <- app_assoc, Hs9 in Ho'; exact Ho'|].
  destruct Ho' as [(r' & Hr' & Hz)|Hs]; [left|by right]. exists r'. split; [by apply list_elem_of_further|done].
Qed.

Lemma find_caps_run n pg b g : host b f -> paging_ok n pg ->
  let rs := regions f (place_of gpu) gpu in Forall (fun r => rg_phys r < 2 ^ 52) rs ->
  exists o pg' b', virtio_pci_find_caps pdpt pd gpu (VState pg b g) = Ret (o, VState pg' b' g) /\ host b' f /\ remapped n pg pg' /\
    match o with
    | Some t => has_caps f (place_of gpu) = true /\ found pg' t rs /\ slots pg' = fold_left assign (rg_phys <$> rs) (slots pg) /\
        common_cfg t <> 0 /\ notify_base t <> 0
    | None => has_caps f (place_of gpu) = false \/ last_of VIRTIO_PCI_CAP_COMMON_CFG rs = None \/
        last_of VIRTIO_PCI_CAP_NOTIFY_CFG rs = None \/ map_failed pg' rs
    end.
Proof using T PH Hp.
  intros Hb Hok rs Hrs. unfold virtio_pci_find_caps.
  destruct (read_config_run _ _ _ 1 f (pmach pg) b Hp ltac:(lia) Hb) as (b1 & E1 & Hb1).
  rewrite (bind_run _ _ _ (Z.land (Z.shiftr (word 4) 16) 0xFFFF) (VState pg b1 g)).
  2:{ unfold on_dstate, zoom, pci_cfg_read16. change (Z.land 6 0xFC) with (4 * 1). cbn [vpage vbus]. rewrite (bind_run _ _ _ _ _ E1). by destruct pg. }
  change (Z.shiftl 1 4) with (2 ^ 4). rewrite land_pow2_bit, Z.land_spec, Z.shiftr_spec by lia.
  change (Z.testbit 0xFFFF 4) with true. rewrite andb_true_r. change (4 + 16) with 20. fold (has_caps f (place_of gpu)).
  destruct (has_caps f (place_of gpu)); cbn [negb]; [|exists None, pg, b1; split_and!; try done; [by apply remapped_refl|by left]].
  destruct (byte_run 0x34 pg b1 g ltac:(lia) Hb1) as (b2 & E2 & Hb2). rewrite (bind_run _ _ _ _ _ E2).
  destruct (caps_loop_run n 65 (byte 0x34) 0 (Transport 0 0 0 0) [] pg b2 g (byte_range _) ltac:(lia) ltac:(lia) Hb2 Hok ltac:(by split) Hrs)
    as (o & pg' & b' & E & Hb' & Hk & Ho). rewrite (bind_run _ _ _ _ _ E). change (omap _ _) with rs in Ho. eexists _, pg', b'. split_and!; [reflexivity|done|done|].
  destruct o as [t|]; [destruct Ho as [Ho Hs]|by do 3 right]. destruct (Z.eqb_spec (common_cfg t) 0) as [Ec|Ec]; cbn [negb andb].
  { right; left. destruct Ho as [Hc _ _ _]. cbn [app] in Hc. unfold fits in Hc. destruct (last_of _ rs); [naive_solver|done]. }
  destruct (Z.eqb_spec (notify_base t) 0) as [En|En]; cbn [negb]; [|by split_and!].
  right; right; left. destruct Ho as [_ Hc _ _]. cbn [app] in Hc. unfold fits in Hc. destruct (last_of _ rs); [naive_solver|done].
Qed.
End Walk.
End Mapping.

(** ** [display_init] *)

(** The GPU that is used, and where the kernel finds its registers. *)
Definition card (f : Z -> Z) (gpu0 : virtio_gpu_pci_t) : option virtio_gpu_pci_t := gpu_at f gpu0 <$> List.find (is_gpu f) (all_functions f).
Definition region_address (f : Z -> Z) (gpu : virtio_gpu_pci_t) (ty : Z) : option Z :=
  let rs := regions f (place_of gpu) gpu in
  (fun r => address_in (fold_left assign (rg_phys <$> rs) []) (rg_phys r)) <$> last_of ty rs.
Definition notify_multiplier (f : Z -> Z) (gpu : virtio_gpu_pci_t) : option Z :=
  rg_mult <$> last_of VIRTIO_PCI_CAP_NOTIFY_CFG (regions f (place_of gpu) gpu).
Definition mappable (f : Z -> Z) (gpu0 : virtio_gpu_pci_t) : Prop := forall gpu, card f gpu0 = Some gpu ->
  Forall (fun r => rg_phys r < 2 ^ 52) (regions f (place_of gpu) gpu).

Lemma all_functions_ok f bus device func : (bus, device, func) ∈ all_functions f -> place_ok bus device func.
Proof.
  unfold all_functions. rewrite list_elem_of_bind. intros (x & Hx & Hbus). rewrite list_elem_of_bind in Hx. destruct Hx as (y & Hy & Hdev).
  rewrite elem_of_seqZ in Hbus, Hdev. apply list_elem_of_fmap in Hy as (z & [= -> -> ->] & Hz). unfold functions in Hz.
  destruct (is_present _ _ _ _); [|by apply not_elem_of_nil in Hz]. apply elem_of_cons in Hz as [->|Hz]; [split_and!; lia|].
  destruct (multi_function _ _ _); [|by apply not_elem_of_nil in Hz]. apply list_elem_of_In, List.filter_In in Hz as [Hz _].
  apply list_elem_of_In, elem_of_seqZ in Hz. split_and!; lia.
Qed.
Lemma card_place f gpu0 gpu : card f gpu0 = Some gpu -> at_place gpu.
Proof.
  unfold card. destruct (List.find _ _) as [[[bus device] func]|] eqn:E; [|done]. intros [= <-]. apply List.find_some in E as [Hin _].
  apply list_elem_of_In, all_functions_ok in Hin. exact Hin.
Qed.

Section Start.
Context {B : Type} {P : Ports B} {PH : PciHost B} {CF : GpuConfig B} {GD : GpuDevice B} {GC : VirtioGpu B} {PR : PromptGpu B}.
Context (pml4 pdpt pd : Z) (T : tables_ok pml4 pdpt pd) (cmd_at resp_at : Z).
Context (malloc : Z -> M mstate Z) (free : Z -> M mstate unit) (lo hi : Z) (aok : mstate -> gmap Z Z -> Prop) {AL : Allocator malloc free lo hi aok}.
Context (f : Z -> Z) (gpu0 : virtio_gpu_pci_t) (R : gpu_regs).

(** The device is the one configuration space describes: its structures are
    at the addresses under which the kernel maps their regions. *)
Record described (gpu : virtio_gpu_pci_t) : Prop := {
  ds_place : gr_place R = place_of gpu;
  ds_common c : region_address f gpu VIRTIO_PCI_CAP_COMMON_CFG = Some c -> gr_common R = c;
  ds_notify c : region_address f gpu VIRTIO_PCI_CAP_NOTIFY_CFG = Some c -> gr_notify R = c;
  ds_mult k : notify_multiplier f gpu = Some k -> gr_mult R = k
}.
Definition placed (b : B) : Prop := forall gpu, card f gpu0 = Some gpu -> described gpu /\ exists on, dev_at b R on.

Program Definition host_with_gpu : PciHost B := {| pci_at b r a := pci_at b r a /\ placed b |}.
Next Obligation. intros b r a x [H _]. by apply (pci_values b r a). Qed.
Next Obligation.
  intros b r a a' [H Hd] Ha. split; [by apply (pci_latch b r a)|]. intros gpu Hc. destruct (Hd gpu Hc) as (Hs & on & Hon).
  split; [done|]. exists on. by apply dv_address.
Qed.
Next Obligation.
  intros b r a [H Hd]. destruct (pci_in b r a H) as (b' & E & H'). exists b'. split_and!; [done|done|].
  intros gpu Hc. destruct (Hd gpu Hc) as (Hs & on & Hon). split; [done|]. exists on. pose proof (dv_in b R on Hon) as Hb. by rewrite E in Hb.
Qed.

Context (Hout : forall x, lo <= x < hi -> off_tables pml4 pdpt pd x) (Hloc : forall x, ~ off_tables pml4 pdpt pd x -> off_locals cmd_at resp_at x).

Lemma in_heap L x : ~ owned lo hi L x -> lo <= x < hi.
Proof using Type. intros H. destruct (decide (lo <= x < hi)); [done|]. exfalso. apply H. unfold owned. lia. Qed.

(** Writing page tables leaves the heap alone. *)
Lemma remapped_heap n pg pg' L : remapped pml4 pdpt pd n pg pg' -> aok (pmach pg) L -> aok (pmach pg') L.
Proof using AL Hout.
  intros [_ (es & mm & Hm) Hx _ _] Hok. apply (alloc_write (pmach pg)); [done| |by rewrite Hm|by rewrite Hm].
  intros x Hno. apply Hx, Hout. by apply (in_heap L).
Qed.

(** Changes outside the tables leave the mapping alone. *)
Lemma paging_elsewhere n pg m' : paging_ok pml4 pdpt pd n pg -> (forall x, ~ off_tables pml4 pdpt pd x -> ld8 (ram m') x = ld8 (page_ram pg) x) ->
  paging_ok pml4 pdpt pd n (put_pmach m' pg).
Proof using Type. intros [K1 K2 K3 K4 K5 K6] Hx. split; try done. exact (mapped_ext _ _ _ (page_ram pg) _ n _ K3 Hx). Qed.

(** What [display_init] leaves, with [true] or [false]. *)
Record started (n : Z) (pg : paging) (g : gpu_vars) (L : gmap Z Z) (r : bool) (pg' : paging) (b' : B) (g' : gpu_vars) : Prop := {
  st_paging : paging_ok pml4 pdpt pd n pg' /\ cr0 pg' = cr0 pg;
  st_frame x : owned lo hi L x -> off_locals cmd_at resp_at x -> off_tables pml4 pdpt pd x -> ld8 (page_ram pg') x = ld8 (page_ram pg) x;
  st_heap : exists L', aok (pmach pg') L' /\ L ⊆ L' /\ (card f gpu0 = None -> L' = L) /\
    (r = true -> framebuffer L' (page_ram pg') g' /\ L !! g_gpu_fb g' = None);
  st_failed : r = false -> g' = GpuVars 0 0 0 0 (g_gpu_controlq g);
  st_shown : r = true -> exists gpu, card f gpu0 = Some gpu /\ has_caps f (place_of gpu) = true /\
    region_address f gpu VIRTIO_PCI_CAP_COMMON_CFG = Some (gr_common R) /\ region_address f gpu VIRTIO_PCI_CAP_NOTIFY_CFG = Some (gr_notify R) /\
    dev_ok b' R (queue_of resp_at (g_gpu_controlq g'));
  st_device : host b' f \/ exists Q, dev_ok b' R Q
}.

(** The address of a region that was found. *)
Lemma found_address pg gpu v ty : let rs := regions f (place_of gpu) gpu in
  length (mmio_phys_base pg) = 16%nat -> 0 <= mmio_slots_used pg <= 16 -> slots pg = fold_left assign (rg_phys <$> rs) [] ->
  fits pg v (last_of ty rs) -> v <> 0 -> region_address f gpu ty = Some v /\ 0 <= v < 4 * GB.
Proof using Type.
  intros rs Hl Hu Hs Hf Hv. unfold region_address, fits, rs in *. clear rs. cbv zeta. rewrite <- Hs. destruct (last_of ty _) as [r|]; [|done]. destruct Hf as [_ Hg].
  cbn [fmap option_fmap option_map]. split; [|by apply (given_range pg _ (rg_phys r))]. f_equal. symmetry. apply given_address; [done|lia| |done]. rewrite Hs. apply window_NoDup. constructor.
Qed.

Lemma display_init_run n pg b g L :
  host b f -> placed b -> mappable f gpu0 -> length (bar_addr gpu0) = 6%nat -> length (bar_is_mem gpu0) = 6%nat ->
  paging_ok pml4 pdpt pd n pg -> mmio_slots_used pg = 0 -> aok (pmach pg) L -> locals_ok cmd_at resp_at lo hi ->
  exists r pg' b' g', display_init pdpt pd cmd_at resp_at malloc gpu0 (VState pg b g) = Ret (r, VState pg' b' g') /\ started n pg g L r pg' b' g'.
Proof using T GC PR AL Hout Hloc PH.
  intros [a Ha] Hpl Hmap L1 L2 Hok Hu Hheap Hlk. unfold display_init, virtio_gpu_init. rewrite bind_gets. unfold set_gpu. rewrite bind_modify.
  cbn [vpage vbus vgpu]. set (g0 := GpuVars _ _ _ _ _).
  destruct (find_virtio_gpu_run (PH := host_with_gpu) f gpu0 (pmach pg) b) as (b1 & E1 & a1 & Ha1 & Hpl1); [by exists a|done|done|].
  rewrite (bind_run _ _ _ (card f gpu0) (VState pg b1 g0)) by (unfold on_dstate, zoom; cbn [vpage vbus vgpu]; rewrite E1; by destruct pg).
  assert (forall pg' b' es, remapped pml4 pdpt pd n pg pg' -> (host b' f \/ exists Q, dev_ok b' R Q) ->
    started n pg g L false (put_pmach (add_serial es (pmach pg')) pg') b' g0) as Hfail.
  { intros pg' b' es Hr Hb'. split; try done; [split; [apply paging_elsewhere; [apply Hr|done]|by apply (kp_cr0 _ _ _ _ _ _ Hr)]|..].
    - intros x _ _ Hx. by apply (kp_tables _ _ _ _ _ _ Hr).
    - exists L. split_and!; try done. apply (alloc_write (pmach pg')); [|done..]. by apply (remapped_heap n pg). }
  destruct (card f gpu0) as [gpu|] eqn:Ecard.
  2:{ eexists false, _, b1, g0. split; [reflexivity|]. apply Hfail; [by apply remapped_refl|]. left. by exists a1. }
  set (es := [_; _; _]). rewrite (bind_run _ _ _ tt (VState (put_pmach (add_serial es (pmach pg)) pg) b1 g0)) by reflexivity.
  set (pg1 := put_pmach _ pg). assert (remapped pml4 pdpt pd n pg pg1) as Hk1.
  { split; try done; [by apply paging_elsewhere|]. exists es, (page_ram pg). by destruct pg as [[]]. }
  destruct (find_caps_run pml4 pdpt pd T (PH := host_with_gpu) f gpu (card_place _ _ _ Ecard) n pg1 b1 g0 ltac:(by exists a1) (kp_ok _ _ _ _ _ _ Hk1) (Hmap gpu Ecard))
    as (o & pg2 & b2 & E2 & (a2 & Ha2 & Hpl2) & Hk2 & Ho). rewrite (bind_run _ _ _ _ _ E2).
  assert (remapped pml4 pdpt pd n pg pg2) as Hk by (eapply remapped_trans; done).
  destruct o as [t|]; [|eexists false, _, b2, g0; split; [reflexivity|]; apply Hfail; [done|left; by exists a2]].
  destruct Ho as (Hcaps & Hf & Hs & Hc0 & Hn0). pose proof (kp_ok _ _ _ _ _ _ Hk2) as Hok2.
  assert (slots pg2 = fold_left assign (rg_phys <$> regions f (place_of gpu) gpu) []) as Hs2.
  { rewrite Hs. unfold slots at 1, pg1. cbn [mmio_slots_used put_pmach]. by rewrite Hu. }
  destruct Hf as [Fc Fn _ Fm].
  destruct (found_address pg2 gpu (common_cfg t) VIRTIO_PCI_CAP_COMMON_CFG) as [Hreg Hrange]; [apply Hok2|apply Hok2|done|done|done|].
  destruct (found_address pg2 gpu (notify_base t) VIRTIO_PCI_CAP_NOTIFY_CFG) as [Hnreg _]; [apply Hok2|apply Hok2|done|done|done|].
  destruct (Hpl2 gpu Ecard) as ([S1 S2 S3 S4] & on & Hd).
  assert (reached gpu t R) as Hreach.
  { split; [exact S1|symmetry; by apply S2|symmetry; by apply S3| |unfold GB in Hrange; lia]. symmetry. apply S4. unfold notify_multiplier.
    rewrite Fm. unfold fits in Fn. by destruct (last_of VIRTIO_PCI_CAP_NOTIFY_CFG _). }
  destruct (bring_up_framebuffer cmd_at resp_at malloc free lo hi aok gpu t pg2 (pmach pg2) b2 g0 L R on Hlk (remapped_heap n pg pg2 L Hk Hheap) Hd Hreach)
    as (r & m' & b' & g' & E & [(L' & Hok' & Hsub & Hfb) Hg' (Q & Hd' & HQ) Hfr]). cbn [fst snd] in Hg', HQ, Hfb.
  exists r, (put_pmach m' pg2), b', g'. split.
  { unfold vs in E. replace (put_pmach (pmach pg2) pg2) with pg2 in E by by destruct pg2. exact E. }
  split; [split; [|exact (kp_cr0 _ _ _ _ _ _ Hk)]| | |done| |right; by exists Q].
  - apply paging_elsewhere; [done|]. intros x Hx. apply Hfr; [|by apply Hloc].
    unfold owned. destruct (decide (lo <= x < hi)) as [Hin|]; [by destruct (Hx (Hout x Hin))|lia].
  - intros x Hx Hl Ht. rewrite <- (kp_tables _ _ _ _ _ _ Hk x Ht). by apply Hfr.
  - exists L'. split_and!; [done|done|by rewrite Ecard|done].
  - intros Hr. exists gpu. rewrite (rc_common _ _ _ Hreach) in Hreg. rewrite (rc_notify _ _ _ Hreach) in Hnreg. split_and!; try done. by rewrite <- (HQ Hr).
Qed.

(** C18. [display_init] on any machine with a PCI host, over any allocator,
    for any GPU that behaves as the VirtIO specification says, resets at once
    and takes 64-bit register writes: it returns, whatever the device
    answers.  With [true], the GPU that is used is the first on PCI, its
    registers are at the addresses under which its common configuration and
    notification regions were mapped, the device works on the driver's
    queue, and the driver's variables describe a cleared frame buffer in a
    fresh allocation; with [false] they say that there is no display.  The
    page tables still map every other page to itself, older allocations live
    on, and memory outside heap, page tables and the driver's two local
    structures is unchanged. *)
Theorem display_init_correct n pg b g L :
  host b f -> placed b -> mappable f gpu0 -> length (bar_addr gpu0) = 6%nat -> length (bar_is_mem gpu0) = 6%nat ->
  paging_ok pml4 pdpt pd n pg -> mmio_slots_used pg = 0 -> aok (pmach pg) L -> locals_ok cmd_at resp_at lo hi ->
  exists r pg' b' g', display_init pdpt pd cmd_at resp_at malloc gpu0 (VState pg b g) = Ret (r, VState pg' b' g') /\ started n pg g L r pg' b' g'.
Proof using T GC PR AL Hout Hloc PH. apply display_init_run. Qed.
End Start.

(** ** A simulated computer *)

Record computer := Computer { cp_drive : sim; cp_host : sim_host; cp_gpu : sim_gpu }.
Definition set_drive (b : computer) (d : sim) : computer := Computer d (cp_host b) (cp_gpu b).
Definition set_host (b : computer) (h : sim_host) : computer := Computer (cp_drive b) h (cp_gpu b).
Definition set_card (b : computer) (g : sim_gpu) : computer := Computer (cp_drive b) (cp_host b) g.
Definition on_part {S A} (put : computer -> S -> computer) (b : computer) (r : A * S) : A * computer := (fst r, put b (snd r)).

#[export] Instance computer_ports : Ports computer := {
  bus_in8 p b := on_part set_drive b (bus_in8 p (cp_drive b));
  bus_out8 p v b := set_drive b (bus_out8 p v (cp_drive b));
  bus_in16 p b := on_part set_drive b (bus_in16 p (cp_drive b));
  bus_out16 p v b := set_drive b (bus_out16 p v (cp_drive b));
  bus_in32 p b := on_part set_host b (bus_in32 p (cp_host b));
  bus_out32 p v b := set_host b (bus_out32 p v (cp_host b))
}.
#[export] Instance computer_config : GpuConfig computer := {
  cfg_read n a b := on_part set_card b (cfg_read n a (cp_gpu b));
  cfg_write n a v b := set_card b (cfg_write n a v (cp_gpu b))
}.
Definition on_card (b : computer) (r : sim_gpu * mem) : computer * mem := (set_card b (fst r), snd r).
#[export] Instance computer_device : GpuDevice computer := {
  gpu_notify a v b m := on_card b (gpu_notify a v (cp_gpu b) m);
  gpu_poll b m := on_card b (gpu_poll (cp_gpu b) m)
}.

#[export] Program Instance computer_pci : PciHost computer := { pci_at b f a := pci_at (cp_host b) f a }.
Next Obligation. intros b f a x H. exact (pci_values _ f a x H). Qed.
Next Obligation. intros b f a a' H Ha. exact (pci_latch _ f a a' H Ha). Qed.
Next Obligation. intros b f a H. destruct (pci_in _ f a H) as (h & E & Hh). exists (set_host b h). split; [|exact Hh]. cbn [bus_in32 computer_ports]. by rewrite E. Qed.

#[export] Program Instance computer_gpu : VirtioGpu computer := {
  dev_at b := dev_at (cp_gpu b); dev_resetting b := dev_resetting (cp_gpu b); dev_ok b := dev_ok (cp_gpu b)
}.
Next Obligation. intros b R on v H. exact H. Qed.
Next Obligation. intros b R on H. exact H. Qed.
Next Obligation. intros b R on v H _ _. exact H. Qed.
Next Obligation. intros b R H. exact (dv_reset _ R H). Qed.
Next Obligation. intros b R Q H. exact (dv_values _ R Q H). Qed.
Next Obligation. intros b R Q n off H Hn. exact (dv_read _ R Q n off H Hn). Qed.
Next Obligation. intros b R Q v H Hv. exact (dv_status _ R Q v H Hv). Qed.
Next Obligation. intros b R Q off v H Ho. exact (dv_feature _ R Q off v H Ho). Qed.
Next Obligation. intros b R Q H. exact (dv_select _ R Q H). Qed.
Next Obligation. intros b R Q H Hs. exact (dv_queue_size _ R Q H Hs). Qed.
Next Obligation. intros b R Q H Hs. exact (dv_notify_off _ R Q H Hs). Qed.
Next Obligation. intros b R Q H Hs. exact (dv_vector _ R Q H Hs). Qed.
Next Obligation. intros b R Q H Hs. exact (dv_enable _ R Q H Hs). Qed.
Next Obligation. intros b R Q m b' m' H He Hp [= <- <-]. exact (dv_notify _ R Q m _ _ H He Hp (surjective_pairing _)). Qed.
Next Obligation. intros b R Q m b' m' H He Hp [= <- <-]. exact (dv_poll _ R Q m _ _ H He Hp (surjective_pairing _)). Qed.
#[export] Instance computer_prompt : PromptGpu computer.
Proof.
  split; intros b R.
  - intros W H. exact (pr_reset (cp_gpu b) R W H).
  - intros d a u W v H. exact (pr_desc (cp_gpu b) R d a u W v H).
  - intros d a u W v H. exact (pr_avail (cp_gpu b) R d a u W v H).
  - intros d a u W v H. exact (pr_used (cp_gpu b) R d a u W v H).
Qed.

(** A host bridge in slot 0 and the GPU in slot 2, with the common
    configuration and the notification register behind its first BAR. *)
Definition card_registers : gmap Z Z := list_to_map [
  (0x80000000, 0x12378086); (0x8000000C, 0);
  (0x80001000, 0x10501AF4); (0x80001004, 0x00100000); (0x8000100C, 0); (0x80001034, 0x40); (0x8000103C, 0x10B);
  (0x80001010, 0xFEB00000); (0x80001014, 0); (0x80001018, 0); (0x8000101C, 0); (0x80001020, 0); (0x80001024, 0);
  (0x80001040, 0x01105409); (0x80001044, 0); (0x80001048, 0); (0x8000104C, 0x1000);
  (0x80001054, 0x02140009); (0x80001058, 0); (0x8000105C, 0x3000); (0x80001060, 0x1000); (0x80001064, 4) ].
Definition sim_computer (drive : sim) : computer := Computer drive (SimHost card_registers 0) (new_gpu 0xFEB00000).
Definition computer_registers : Z -> Z := sim_reg (SimHost card_registers 0).
Definition no_card : virtio_gpu_pci_t := GpuPci 0 0 0 (replicate 6 0) (replicate 6 0) 0.

Lemma computer_card : card computer_registers no_card = Some (GpuPci 0 2 0 [0xFEB00000; 0; 0; 0; 0; 0] [1; 0; 0; 0; 0; 0] 0x0B).
Proof. vm_compute. reflexivity. Qed.
Lemma computer_regions gpu : card computer_registers no_card = Some gpu ->
  regions computer_registers (place_of gpu) gpu = [Region 1 0xFEB00000 0xFFFFFFFF; Region 2 0xFEB03000 4].
Proof. rewrite computer_card. intros [= <-]. vm_compute. reflexivity. Qed.
Lemma computer_mappable : mappable computer_registers no_card.
Proof. intros gpu Hg. rewrite (computer_regions gpu Hg). repeat constructor. Qed.
Lemma computer_placed drive : placed computer_registers no_card sim_gpu_regs (sim_computer drive).
Proof.
  intros gpu Hg. split; [|exists true; by repeat split].
  split.
  - rewrite computer_card in Hg. injection Hg as <-. reflexivity.
  - intros c Hc. unfold region_address in Hc. rewrite (computer_regions gpu Hg) in Hc. vm_compute in Hc. by injection Hc as <-.
  - intros c Hc. unfold region_address in Hc. rewrite (computer_regions gpu Hg) in Hc. vm_compute in Hc. by injection Hc as <-.
  - intros k Hk. unfold notify_multiplier in Hk. rewrite (computer_regions gpu Hg) in Hk. vm_compute in Hk. by injection Hk as <-.
Qed.

Lemma display_init_correct_witness : exists r pg s, mmio_slots_used pg = 0 /\
  display_init 0x101000 0x102000 0x4000 0x5000 kmalloc no_card (VState pg (sim_computer sim0) no_vars) = Ret (r, s) /\ (g_gpu_ready (vgpu s) = b2z r).
Proof.
  destruct (init_paging_run 0x100000 0x101000 0x102000 sample_tables (put_pmach booted paging0) 0xE0000000 0x1000000
    ltac:(lia) ltac:(lia) ltac:(vm_compute; congruence)) as (pg & _ & Hpg & Hu & _ & _ & (es & mm & Hm) & Hx).
  assert (forall x, 0x180000 <= x < 0x180000 + HEAP_BYTES -> off_tables 0x100000 0x101000 0x102000 x) as Hout by (unfold off_tables; intros x; lia).
  assert (heap_ok 0x180000 (pmach pg) ∅) as Hok.
  { apply (alloc_write (Allocator := kernel_heap 0x180000) booted); [exact booted_heap| |by rewrite Hm|by rewrite Hm].
    intros x Hno. apply Hx, Hout. by apply (in_heap _ _ ∅). }
  destruct (display_init_correct 0x100000 0x101000 0x102000 sample_tables 0x4000 0x5000 kmalloc kfree 0x180000 _ (heap_ok 0x180000) computer_registers no_card sim_gpu_regs
    Hout ltac:(unfold off_tables, off_locals; intros x; lia) _ pg (sim_computer sim0) no_vars ∅ ltac:(by exists 0) (computer_placed _) computer_mappable
    eq_refl eq_refl Hpg Hu Hok ltac:(split; lia)) as (r & pg' & b' & g' & E & [_ _ (L' & _ & _ & _ & Ht) Hf _ _]).
  exists r, pg, (VState pg' b' g'). split; [exact Hu|]. split; [exact E|]. cbn [vgpu]. destruct r; [by destruct (Ht eq_refl) as [[-> _] _]|by rewrite Hf].
Defined.
