(* ===== verification/Loader.v ===== *)
(** * The UEFI boot loader (BootLoader/Loader.c)

    The firmware and the EFI library are not code of the repository.  They
    are the class [Firmware] over a type of firmware states: every service
    the loader calls, with the results the UEFI specification gives it.  A
    service that stores to memory returns the bytes it stores.  [CopyMem],
    [SetMem] and [EFI_SIZE_TO_PAGES] of the library are functions of the
    class too. *)
From S2P Require Import Prelude Machine Utils Elf.

Definition EFI_SUCCESS : Z := 0.
Definition EFI_LOAD_ERROR : Z := 0x8000000000000001.
Definition EFI_BUFFER_TOO_SMALL : Z := 0x8000000000000005.
(** [EFI_ERROR]: the status is negative as a signed number. *)
Definition efi_error (status : Z) : bool := s64 status <? 0.

Record gop_mode := GopMode {
  gm_base : Z;
  gm_size : Z;
  gm_horizontal : Z;
  gm_vertical : Z;
  gm_scan_line : Z
}.

(** The reply of GetMemoryMap. *)
Record map_reply := MapReply {
  mr_status : Z;
  mr_size : Z;
  mr_key : Z;
  mr_desc_size : Z;
  mr_desc_version : Z;
  mr_map : list Z
}.

Class Firmware (F : Type) := {
  fw_allocate_pages : Z -> Z -> F -> Z * F;
  fw_allocate_pool : Z -> F -> Z * Z * F;
  fw_free_pool : Z -> F -> F;
  fw_get_info : Z -> Z -> F -> Z * list Z * F;
  fw_read : Z -> Z -> F -> Z * list Z * F;
  fw_get_memory_map : Z -> Z -> F -> map_reply * F;
  fw_exit_boot_services : Z -> Z -> F -> Z * F;
  fw_loaded_image : Z -> F -> Z * Z * F;
  fw_file_system : Z -> F -> Z * Z * F;
  fw_open_volume : Z -> F -> Z * Z * F;
  fw_locate_gop : F -> Z * gop_mode * F;
  fw_open : Z -> string -> F -> Z * Z * F;
  copy_mem : mem -> Z -> Z -> Z -> mem;
  set_mem : mem -> Z -> Z -> Z -> mem;
  size_to_pages : Z -> Z;
  file_info_size : Z
}.

Record LOADED_FILE := LoadedFile { PhysAddr : Z; Size : Z }.

Record BOOT_INFO := BootInfo {
  MemoryMap : Z;
  MemoryMapSize : Z;
  MemoryMapDescriptorSize : Z;
  MemoryMapDescriptorVersion : Z;
  FrameBufferBase : Z;
  FrameBufferSize : Z;
  HorizontalResolution : Z;
  VerticalResolution : Z;
  PixelsPerScanLine : Z;
  LoadedFileCount : Z;
  LoadedFiles : list LOADED_FILE
}.
Definition MAX_LOADED_FILES : nat := 8.

(** Memory, firmware and what was printed. *)
Record lstate (F : Type) := LState { lmem : mem; lfw : F; printed : list (string * Z) }.
Arguments LState {F} _ _ _.
Arguments lmem {F} _.
Arguments lfw {F} _.
Arguments printed {F} _.

Section Loader.
Context {F : Type} `{Firmware F}.

(** A call of a service. *)
Definition fw {A} (f : F -> A * F) : M (lstate F) A := fun s =>
  let '(a, g) := f (lfw s) in Ret (a, LState (lmem s) g (printed s)).
Definition on_lmem (f : mem -> mem) : M (lstate F) unit := modify (fun s => LState (f (lmem s)) (lfw s) (printed s)).
Definition print (msg : string) (status : Z) : M (lstate F) unit :=
  modify (fun s => LState (lmem s) (lfw s) (printed s ++ [(msg, status)])).

(** The status, [*Buffer] and [*Size]; the latter two are what they were
    set to when an error returns early. *)
Definition LoadFileToMemory (File Buffer Size : Z) : M (lstate F) (Z * Z * Z) :=
  let InfoSize := u64 (file_info_size + 256) in
  '(Status, Info) ← fw (fw_allocate_pool InfoSize);
  if efi_error Status then mret (Status, Buffer, Size)
  else
    '(Status, info) ← fw (fw_get_info File InfoSize);
    on_lmem (fun m => store_bytes m Info info);;
    if efi_error Status then mret (Status, Buffer, Size)
    else
      Size ← gets (fun s => ld64 (lmem s) (Info + 8));
      '(Status, Buffer) ← fw (fw_allocate_pool Size);
      if efi_error Status then mret (Status, Buffer, Size)
      else
        '(Status, data) ← fw (fw_read File Size);
        on_lmem (fun m => store_bytes m Buffer data);;
        mret (Status, Buffer, Z.of_nat (length data)).

(** The loop over the program headers; the status of an early return. *)
Fixpoint load_kernel_segments (fuel : nat) (i image : Z) : M (lstate F) (option Z) :=
  match fuel with
  | O => liftO NoFuel
  | S f =>
      m ← gets lmem;
      if negb (i <? e_phnum m image) then mret None
      else
        let ph := u64 (u64 (image + e_phoff m image) + PHDR_SIZE * i) in
        if negb (p_type m ph =? PT_LOAD) then load_kernel_segments f (u64 (i + 1)) image
        else
          Status ← fw (fw_allocate_pages (size_to_pages (p_memsz m ph)) (p_paddr m ph));
          if efi_error Status then mret (Some Status)
          else
            on_lmem (fun m => copy_mem m (p_paddr m ph) (u64 (image + p_offset m ph)) (p_filesz m ph));;
            on_lmem (fun m => set_mem m (u64 (p_paddr m ph + p_filesz m ph)) (u64 (p_memsz m ph - p_filesz m ph)) 0);;
            load_kernel_segments f (u64 (i + 1)) image
  end.

(** The status, and the entry point when it is stored. *)
Definition LoadKernelELF (KernelImage : Z) : M (lstate F) (Z * option Z) :=
  m ← gets lmem;
  if negb (elf_magic m KernelImage) then mret (EFI_LOAD_ERROR, None)
  else
    r ← load_kernel_segments (Z.to_nat 65537) 0 KernelImage;
    match r with
    | Some Status => mret (Status, None)
    | None => m ← gets lmem; mret (EFI_SUCCESS, Some (e_entry m KernelImage))
    end.

(** The loop repeats while the firmware refuses the key. *)
Fixpoint ExitBootServicesComplete (fuel : nat) (ImageHandle : Z) (b : BOOT_INFO) : M (lstate F) (Z * BOOT_INFO) :=
  match fuel with
  | O => liftO NoFuel
  | S f =>
      let with_map p n r := BootInfo p n (mr_desc_size r) (mr_desc_version r) (FrameBufferBase b) (FrameBufferSize b)
            (HorizontalResolution b) (VerticalResolution b) (PixelsPerScanLine b)
            (LoadedFileCount b) (LoadedFiles b) in
      r ← fw (fw_get_memory_map 0 0);
      let b1 := with_map (MemoryMap b) (MemoryMapSize b) r in
      if negb (mr_status r =? EFI_BUFFER_TOO_SMALL) then mret (mr_status r, b1)
      else
        let BufferSize := u64 (mr_size r + u64 (mr_desc_size r * 8)) in
        '(Status, p) ← fw (fw_allocate_pool BufferSize);
        let b2 := with_map p (MemoryMapSize b) r in
        if efi_error Status then mret (Status, b2)
        else
          r ← fw (fw_get_memory_map BufferSize p);
          on_lmem (fun m => store_bytes m p (mr_map r));;
          let b3 := with_map p (MemoryMapSize b) r in
          if efi_error (mr_status r) then mret (mr_status r, b3)
          else
            let b4 := with_map p (mr_size r) r in
            Status ← fw (fw_exit_boot_services ImageHandle (mr_key r));
            if Status =? EFI_SUCCESS then mret (EFI_SUCCESS, b4)
            else
              fw (fun g => (tt, fw_free_pool p g));;
              ExitBootServicesComplete f ImageHandle b4
  end.

(** How [efi_main] ends: it returns a status, it hangs, or it calls the
    kernel. *)
Inductive efi_end : Type :=
| EfiReturn (status : Z)
| EfiHang
| EfiKernel (entry : Z) (info : BOOT_INFO).

(** The macro [CHECK]. *)
Definition check (Status : Z) (msg : string) (k : M (lstate F) efi_end) : M (lstate F) efi_end :=
  if efi_error Status then print msg Status;; mret (EfiReturn Status) else k.

Definition efi_main (fuel : nat) (ImageHandle KernelBuffer KernelSize : Z) : M (lstate F) efi_end :=
  print "[LOADER] start" 0;;
  '(Status, DeviceHandle) ← fw (fw_loaded_image ImageHandle);
  check Status "LoadedImage" (
  '(Status, Fs) ← fw (fw_file_system DeviceHandle);
  check Status "SimpleFS" (
  '(Status, Root) ← fw (fw_open_volume Fs);
  check Status "OpenVolume" (
  '(Status, mode) ← fw fw_locate_gop;
  check Status "GOP" (
  let b := BootInfo 0 0 0 0 (gm_base mode) (u32 (gm_size mode)) (gm_horizontal mode) (gm_vertical mode) (gm_scan_line mode)
    0 (replicate MAX_LOADED_FILES (LoadedFile 0 0)) in
  '(Status, KernelFile) ← fw (fw_open Root "\Kernel\Kernel_Main.ELF");
  check Status "Open Kernel" (
  '(Status, KernelBuffer, KernelSize) ← LoadFileToMemory KernelFile KernelBuffer KernelSize;
  check Status "Read Kernel" (
  '(Status, KernelEntry) ← LoadKernelELF KernelBuffer;
  check Status "ELF Load" (
  print "[LOADER] Jumping to kernel" 0;;
  '(Status, b) ← ExitBootServicesComplete fuel ImageHandle b;
  if efi_error Status then mret EfiHang
  else mret match KernelEntry with Some entry => EfiKernel entry b | None => EfiHang end))))))).
End Loader.
