(* ===== verification/LoaderTheorems.v ===== *)
(** * The properties of the boot loader

    [FirmwareLaws] states what the library's memory routines do, and
    [BootServices] how a firmware ends its services: it gives the memory map
    with a key and accepts the key of the last map, possibly after some
    refusals. *)
From S2P Require Import Prelude Machine Utils Serial Memory Heap Alloc Disk BlockDev Fat32 Elf ElfTheorems Loader.

Class FirmwareLaws (F : Type) `{Firmware F} := {
  copy_mem_spec m d s n x : 0 <= n ->
    ld8 (copy_mem m d s n) x = if (d <=? x) && (x <? d + n) then ld8 m (s + (x - d)) else ld8 m x;
  set_mem_spec m a n v x : 0 <= n ->
    ld8 (set_mem m a n v) x = if (a <=? x) && (x <? a + n) then u8 v else ld8 m x
}.

(** ** The kernel image: segments at their physical addresses *)

Definition kseg_of (data : list Z) (i : Z) : option seg :=
  let o := phdr_at data i in
  if word32_at data o =? 1 then
    Some (Seg (word64_at data (o + 8)) (word64_at data (o + 24)) (word64_at data (o + 32)) (word64_at data (o + 40)))
  else None.
Definition ksegs_from (data : list Z) (i n : Z) : list seg := omap (kseg_of data) (seqZ i n).
Definition kernel_segments (data : list Z) : list seg := ksegs_from data 0 (elf_phnum data).

Section Kernel.
Context {F : Type} {FW : Firmware F} {FL : FirmwareLaws F} (image : Z) (data : list Z).

Record kseg_ok (s : seg) : Prop := {
  kk_file : s_off s + s_filesz s <= Z.of_nat (length data);
  kk_size : s_filesz s <= s_memsz s;
  kk_end : s_addr s + s_memsz s < 2 ^ 63;
  kk_apart : s_addr s + s_memsz s <= image \/ image + Z.of_nat (length data) <= s_addr s
}.

Record kernel_ok : Prop := {
  ko_bytes : byte_list data;
  ko_head : 64 <= Z.of_nat (length data);
  ko_table : phdr_at data (elf_phnum data) <= Z.of_nat (length data);
  ko_place : 0 < image /\ image + Z.of_nat (length data) < 2 ^ 63
}.

Lemma ksegs_cons i n : 0 < n ->
  ksegs_from data i n = match kseg_of data i with Some s => [s] | None => [] end ++ ksegs_from data (i + 1) (n - 1).
Proof using Type.
  intros Hn. unfold ksegs_from. rewrite seqZ_cons by lia. cbn [omap list_omap]. rewrite <- Z.add_1_r, <- Z.sub_1_r. by destruct (kseg_of data i).
Qed.

Lemma bind_fw {A A'} (f : F -> A * F) (k : A -> M (lstate F) A') s :
  (x ← fw f; k x) s = k (fst (f (lfw s))) (LState (lmem s) (snd (f (lfw s))) (printed s)).
Proof using Type. unfold fw, mbind, M_bind. by destruct (f (lfw s)). Qed.
Lemma bind_on_lmem {A} (f : mem -> mem) (k : unit -> M (lstate F) A) m g l :
  (x ← on_lmem f; k x) (LState m g l) = k tt (LState (f m) g l).
Proof using Type. reflexivity. Qed.

(** The fields of program header [i] in any memory that holds the file. *)
Lemma header_fields m i : kernel_ok -> holds m image data -> 0 <= i < elf_phnum data ->
  let ph := u64 (u64 (image + e_phoff m image) + PHDR_SIZE * i) in
  let o := phdr_at data i in
  p_type m ph = word32_at data o /\ p_offset m ph = word64_at data (o + 8) /\ p_paddr m ph = word64_at data (o + 24) /\
  p_filesz m ph = word64_at data (o + 32) /\ p_memsz m ph = word64_at data (o + 40).
Proof using Type.
  intros [K1 K2 K3 K4] Hh Hi ph o. pose proof (word64_at_range data 32 K1) as R32. pose proof (word16_at_range data 56 K1) as R16.
  unfold phdr_at, elf_phnum in *. unfold ph, e_phoff. rewrite (holds64 m image data) by (done || lia).
  replace (u64 _) with (image + o) by (unfold PHDR_SIZE, o; rewrite !u64_small by (rewrite ?u64_small; lia); lia).
  assert (0 <= o /\ o + 56 <= Z.of_nat (length data)) as Ho by (unfold o; lia).
  unfold p_type, p_offset, p_paddr, p_filesz, p_memsz. rewrite <- !Z.add_assoc.
  rewrite (holds32 m image data), !(holds64 m image data) by (done || lia). done.
Qed.

(** One segment: copied, and cleared behind. *)
Lemma place_segment m s : kernel_ok -> kseg_ok s -> holds m image data -> 0 <= s_off s -> 0 <= s_filesz s -> 0 <= s_addr s ->
  let m1 := copy_mem m (s_addr s) (image + s_off s) (s_filesz s) in
  let m2 := set_mem m1 (s_addr s + s_filesz s) (s_memsz s - s_filesz s) 0 in
  holds m1 image data /\ holds m2 image data /\ forall x, ld8 m2 x = seg_byte data x (ld8 m x) s.
Proof using FL.
  intros [K1 K2 K3 K4] [S1 S2 S3 S4] Hh Ho Hf Ha m1 m2.
  assert (forall x, ld8 m1 x = if (s_addr s <=? x) && (x <? s_addr s + s_filesz s) then byte_at data (s_off s + (x - s_addr s)) else ld8 m x) as H1.
  { intros x. unfold m1. rewrite copy_mem_spec by done. destruct (Z.leb_spec (s_addr s) x), (Z.ltb_spec x (s_addr s + s_filesz s)); cbn [andb]; try done.
    rewrite <- (holds8 m image) by (done || lia). f_equal. lia. }
  assert (forall x, ld8 m2 x = seg_byte data x (ld8 m x) s) as H2.
  { intros x. unfold m2, seg_byte. rewrite set_mem_spec, H1 by lia. zcases; (lia || done). }
  split_and!; [| |done]; (eapply holds_agree; [|exact Hh]); intros x Hx; rewrite ?H1, ?H2; unfold seg_byte; zcases; (lia || done).
Qed.

(** Asking the firmware for the pages of each segment in turn: the segments
    up to the first refusal, the refusal's status, and the firmware after. *)
Fixpoint ask_pages (ss : list seg) (g : F) : list seg * option Z * F :=
  match ss with
  | [] => ([], None, g)
  | s :: ss =>
      let '(st, g) := fw_allocate_pages (size_to_pages (s_memsz s)) (s_addr s) g in
      if efi_error st then ([], Some st, g) else let '(placed, r, g) := ask_pages ss g in (s :: placed, r, g)
  end.

Lemma load_kernel_run : kernel_ok -> forall n i s fuel, 0 <= i -> i + Z.of_nat n = elf_phnum data -> (n < fuel)%nat ->
  holds (lmem s) image data -> Forall kseg_ok (ksegs_from data i (Z.of_nat n)) ->
  let '(placed, r, g) := ask_pages (ksegs_from data i (Z.of_nat n)) (lfw s) in
  exists m', load_kernel_segments fuel i image s = Ret (r, LState m' g (printed s)) /\ holds m' image data /\
    forall x, ld8 m' x = loaded data placed (lmem s) x.
Proof using FL.
  intros K. pose proof (word16_at_range data 56 (ko_bytes K)) as R16. change (word16_at data 56) with (elf_phnum data) in R16.
  pose proof (ko_bytes K) as Kb. pose proof (ko_head K) as Kh. pose proof (ko_place K) as Kp.
  assert (forall m, holds m image data -> e_phnum m image = elf_phnum data) as Hnum by (intros m Hm; unfold e_phnum; by rewrite (holds16 _ image data) by (done || lia)).
  induction n as [|n IH]; intros i [m g l] [|fuel] Hi Hn Hf Hh Hs; try lia; cbn [load_kernel_segments]; rewrite bind_gets; cbn [lmem] in Hh |- *; rewrite Hnum by done.
  { destruct (Z.ltb_spec i (elf_phnum data)); [lia|]. exists m. by split_and!. }
  destruct (Z.ltb_spec i (elf_phnum data)); [|lia]. cbn [negb]. rewrite ksegs_cons in Hs |- * by lia.
  replace (Z.of_nat (S n) - 1) with (Z.of_nat n) in * by lia. rewrite (u64_small (i + 1)) by lia.
  set (ph := u64 (u64 (image + e_phoff m image) + PHDR_SIZE * i)).
  assert (forall m', holds m' image data -> ph = u64 (u64 (image + e_phoff m' image) + PHDR_SIZE * i)) as Hph.
  { intros m' Hm'. unfold ph, e_phoff. by rewrite !(holds64 _ image data) by (done || lia). }
  destruct (header_fields m i K Hh ltac:(lia)) as (F1 & _ & F3 & _ & F5). fold ph in F1, F3, F5. rewrite F1, F3, F5.
  unfold kseg_of in Hs |- *. cbv zeta in Hs |- *. unfold PT_LOAD.
  destruct (Z.eqb_spec (word32_at data (phdr_at data i)) 1) as [_|_]; cbn [negb app] in Hs |- *; [|by apply IH; try done; lia].
  set (s := Seg _ _ _ _) in *. inversion_clear Hs as [|? ? Hseg Hss].
  assert (forall m', holds m' image data -> p_offset m' ph = s_off s /\ p_paddr m' ph = s_addr s /\ p_filesz m' ph = s_filesz s /\ p_memsz m' ph = s_memsz s) as Hfields.
  { intros m' Hm'. rewrite (Hph m' Hm'). destruct (header_fields m' i K Hm' ltac:(lia)) as (_ & ? & ? & ? & ?). done. }
  assert (0 <= s_off s < 18446744073709551616 /\ 0 <= s_filesz s < 18446744073709551616 /\ 0 <= s_memsz s < 18446744073709551616 /\ 0 <= s_addr s) as (P1 & P2 & P3 & P4)
    by (split_and!; apply word64_at_range; done).
  pose proof Hseg as [S1 S2 S3 S4]. rewrite bind_fw. cbn [lfw lmem printed ask_pages].
  change (word64_at data (phdr_at data i + 40)) with (s_memsz s). change (word64_at data (phdr_at data i + 24)) with (s_addr s).
  destruct (fw_allocate_pages _ _ g) as [st g']. cbn [fst snd].
  destruct (efi_error st) eqn:Est; [exists m; by split_and!|]. rewrite bind_on_lmem.
  destruct (Hfields m Hh) as (-> & -> & -> & _). rewrite (u64_small (image + s_off s)) by lia.
  destruct (place_segment m s K Hseg Hh ltac:(lia) ltac:(lia) P4) as (H1 & H2 & H3). set (m1 := copy_mem m _ _ _) in *.
  rewrite bind_on_lmem. destruct (Hfields m1 H1) as (_ & -> & -> & ->). rewrite !u64_small by lia. set (m2 := set_mem m1 _ _ _) in *.
  specialize (IH (i + 1) (LState m2 g' l) fuel ltac:(lia) ltac:(lia) ltac:(lia) H2 Hss). cbn [lfw lmem printed] in IH.
  destruct (ask_pages _ g') as [[placed r] g'']. destruct IH as (m' & E & Hh' & Hx). exists m'. split_and!; [exact E|done|].
  intros x. rewrite Hx. unfold loaded. cbn [fold_left]. by rewrite H3.
Qed.

(** C13. [LoadKernelELF] on a file whose loadable segments lie inside it and
    apart from its buffer: a file without the magic number gives
    [EFI_LOAD_ERROR] and changes nothing.  Otherwise the firmware is asked
    for the pages of each segment in turn, at its physical address.  When it
    gives them all, the result is success with the image's entry point, and
    every address holds the byte the image says or what it held before.  At
    the first refusal the firmware's own error status is returned, no entry
    point is stored, and just the segments before it have been placed. *)
Theorem LoadKernelELF_correct s : kernel_ok -> holds (lmem s) image data -> Forall kseg_ok (kernel_segments data) ->
  if bool_decide (take 4 data = [0x7F; 69; 76; 70]) then
    let '(placed, r, g) := ask_pages (kernel_segments data) (lfw s) in
    exists m', LoadKernelELF image s =
        Ret (match r with Some st => (st, None) | None => (EFI_SUCCESS, Some (elf_entry data)) end, LState m' g (printed s)) /\
      forall x, ld8 m' x = loaded data placed (lmem s) x
  else LoadKernelELF image s = Ret ((EFI_LOAD_ERROR, None), s).
Proof using FL.
  intros K Hh Hs. pose proof (ko_head K) as Kh. pose proof (word16_at_range data 56 (ko_bytes K)) as R16.
  change (word16_at data 56) with (elf_phnum data) in R16. unfold LoadKernelELF. rewrite bind_gets, (elf_magic_data _ image data) by (done || lia).
  destruct (bool_decide _); cbn [negb]; [|done]. unfold kernel_segments in *.
  pose proof (load_kernel_run K (Z.to_nat (elf_phnum data)) 0 s (Z.to_nat 65537) ltac:(lia) ltac:(lia) ltac:(lia) Hh) as Hr.
  rewrite Z2Nat.id in Hr by lia. specialize (Hr Hs). destruct (ask_pages _ _) as [[placed r] g]. destruct Hr as (m' & E & Hh' & Hx).
  exists m'. split; [|done]. rewrite (bind_run _ _ _ _ _ E). destruct r as [st|]; [done|]. rewrite bind_gets. cbn [lmem]. unfold e_entry.
  by rewrite (holds64 _ image data) by (done || lia).
Qed.
End Kernel.

(** ** Leaving the firmware *)

Class BootServices (F : Type) `{Firmware F} := {
  (** The services run, and the key will be refused [n] more times: before
      the size is asked, after it, with room for the map, and with a map
      given out under a key. *)
  boot_in : F -> nat -> Prop;
  boot_asked : F -> nat -> Z -> Prop;
  boot_room : F -> nat -> Z -> Prop;
  boot_keyed : F -> nat -> Z -> list Z -> Prop;
  (** The services have ended with this memory map. *)
  boot_over : F -> list Z -> Prop;
  bs_size f n : boot_in f n -> exists r f', fw_get_memory_map 0 0 f = (r, f') /\ mr_status r = EFI_BUFFER_TOO_SMALL /\
    0 <= mr_size r /\ 0 <= mr_desc_size r /\ mr_size r + mr_desc_size r * 8 < 2 ^ 63 /\ boot_asked f' n (mr_size r + mr_desc_size r * 8);
  bs_pool f n size : boot_asked f n size -> exists p f', fw_allocate_pool size f = ((EFI_SUCCESS, p), f') /\ boot_room f' n size;
  bs_map f n size p : boot_room f n size -> exists r f', fw_get_memory_map size p f = (r, f') /\ mr_status r = EFI_SUCCESS /\
    byte_list (mr_map r) /\ mr_size r = Z.of_nat (length (mr_map r)) /\ boot_keyed f' n (mr_key r) (mr_map r);
  bs_accept f key map image : boot_keyed f 0 key map -> exists f', fw_exit_boot_services image key f = (EFI_SUCCESS, f') /\ boot_over f' map;
  bs_refuse f n key map image p : boot_keyed f (S n) key map ->
    exists st f', fw_exit_boot_services image key f = (st, f') /\ st <> EFI_SUCCESS /\ boot_in (fw_free_pool p f') n
}.

(** C14. [ExitBootServicesComplete] retries until the firmware accepts: it
    returns success with the memory map that was valid when the services
    ended, complete in memory where [BOOT_INFO] says, and with the frame
    buffer's description unchanged. *)
Theorem exit_hands_over_map {F : Type} {FW : Firmware F} {BS : BootServices F} image n : forall fuel b (s : lstate F),
  boot_in (lfw s) n -> (n < fuel)%nat ->
  exists b' s' map, ExitBootServicesComplete fuel image b s = Ret ((EFI_SUCCESS, b'), s') /\ boot_over (lfw s') map /\
    bytes (lmem s') (MemoryMap b') (MemoryMapSize b') = map /\ MemoryMapSize b' = Z.of_nat (length map) /\
    FrameBufferBase b' = FrameBufferBase b /\ FrameBufferSize b' = FrameBufferSize b.
Proof.
  induction n as [|n IH]; intros [|fuel] b [m f l] Hb Hf; try lia; cbn [lfw lmem printed] in Hb; cbn [ExitBootServicesComplete];
    rewrite bind_fw; cbn [lfw lmem printed];
    destruct (bs_size f _ Hb) as (r1 & f1 & -> & Hst & Hs & Hds & Hmax & H1); cbn [fst snd]; rewrite Hst, Z.eqb_refl; cbn [negb];
    rewrite (u64_small (mr_desc_size r1 * 8)), u64_small by lia; rewrite bind_fw; cbn [lfw lmem printed];
    destruct (bs_pool f1 _ _ H1) as (p & f2 & -> & H2); cbn [fst snd]; change (efi_error EFI_SUCCESS) with false; cbv iota;
    rewrite bind_fw; cbn [lfw lmem printed]; destruct (bs_map f2 _ _ p H2) as (r3 & f3 & -> & Hst3 & Hb3 & Hl3 & H3); cbn [fst snd];
    rewrite bind_on_lmem, Hst3; change (efi_error EFI_SUCCESS) with false; cbv iota; rewrite bind_fw; cbn [lfw lmem printed].
  - destruct (bs_accept f3 _ _ image H3) as (f4 & -> & H4). cbn [fst snd]. change (EFI_SUCCESS =? EFI_SUCCESS) with true. cbv iota.
    eexists _, _, (mr_map r3). split; [reflexivity|]. cbn [lfw lmem MemoryMap MemoryMapSize FrameBufferBase FrameBufferSize].
    split_and!; try done. rewrite Hl3. by apply holds_store_bytes.
  - destruct (bs_refuse f3 n _ _ image p H3) as (st & f4 & -> & Hne & H4). cbn [fst snd]. rewrite (proj2 (Z.eqb_neq _ _) Hne), bind_fw.
    cbn [lfw lmem printed fst snd]. match goal with |- context [ExitBootServicesComplete fuel image ?b0 ?s0] =>
      destruct (IH fuel b0 s0 H4 ltac:(lia)) as (b' & s' & map & E & H5 & H6 & H7 & H8 & H9) end.
    exists b', s', map. by split_and!.
Qed.

(** ** A simulated firmware

    It refuses the map key a given number of times, and every refusal changes
    the map.  The kernel file is [sim_file]. *)

Record sim_fw := SimFw { refusals : nat; map_key : Z; sim_file : list Z; ended : option (list Z) }.
Definition sim_map (f : sim_fw) : list Z := replicate 95 7 ++ [map_key f mod 256].

#[export] Instance sim_firmware : Firmware sim_fw := {|
  fw_allocate_pages pages addr f := (EFI_SUCCESS, f);
  fw_allocate_pool size f := ((EFI_SUCCESS, if size <? 400 then 0x70000 else 0x80000), f);
  fw_free_pool p f := f;
  fw_get_info file n f := ((EFI_SUCCESS, le64 80 ++ le64 (Z.of_nat (length (sim_file f)))), f);
  fw_read file n f := ((EFI_SUCCESS, sim_file f), f);
  fw_get_memory_map size p f :=
    if size <? 96 then (MapReply EFI_BUFFER_TOO_SMALL 96 0 48 1 [], f)
    else (MapReply EFI_SUCCESS 96 (map_key f) 48 1 (sim_map f), f);
  fw_exit_boot_services image key f :=
    match refusals f with
    | S n => (0x8000000000000002, SimFw n (map_key f + 1) (sim_file f) (ended f))
    | O => if key =? map_key f then (EFI_SUCCESS, SimFw 0 (map_key f) (sim_file f) (Some (sim_map f))) else (0x8000000000000002, f)
    end;
  fw_loaded_image image f := ((EFI_SUCCESS, 1), f);
  fw_file_system device f := ((EFI_SUCCESS, 2), f);
  fw_open_volume fs f := ((EFI_SUCCESS, 3), f);
  fw_locate_gop f := ((EFI_SUCCESS, GopMode 0x80000000 0x300000 1024 768 1024), f);
  fw_open root path f := ((EFI_SUCCESS, 4), f);
  copy_mem m d s n := store_bytes m d (bytes m s n);
  set_mem m a n v := memset m a v n;
  size_to_pages n := (n + 4095) / 4096;
  file_info_size := 80
|}.

#[export] Instance sim_firmware_laws : FirmwareLaws sim_fw.
Proof.
  split.
  - intros m d s n x Hn. cbn [copy_mem sim_firmware]. assert (Z.of_nat (length (bytes m s n)) = n) as Hl by (rewrite length_bytes; lia).
    destruct (Z.leb_spec d x), (Z.ltb_spec x (d + n)); cbn [andb]; try (rewrite ld8_store_bytes by lia; reflexivity).
    pose proof (holds_store_bytes (bytes m s n) (bytes_range m s n) m d) as Hh.
    replace x with (d + (x - d)) at 1 by lia. rewrite (holds8 _ d (bytes m s n)) by (done || lia). by rewrite byte_at_bytes by lia.
  - intros m a n v x Hn. cbn [set_mem sim_firmware]. by rewrite ld8_memset.
Qed.

Lemma sim_map_bytes f : byte_list (sim_map f).
Proof. unfold byte_list, sim_map. rewrite Forall_app. split; [repeat constructor; lia|]. repeat constructor; word_lia. Qed.

#[export] Program Instance sim_boot_services : BootServices sim_fw := {|
  boot_in f n := refusals f = n;
  boot_asked f n size := refusals f = n /\ size = 480;
  boot_room f n size := refusals f = n /\ size = 480;
  boot_keyed f n key map := refusals f = n /\ key = map_key f /\ map = sim_map f;
  boot_over f map := ended f = Some map
|}.
Next Obligation. intros f n Hn. eexists _, f. split; [reflexivity|]. cbn. split_and!; (done || lia). Qed.
Next Obligation. intros f n size Hn. eexists _, f. by split. Qed.
Next Obligation. intros f n size p [Hn ->]. eexists _, f. split; [reflexivity|]. cbn. split_and!; try done. apply sim_map_bytes. Qed.
Next Obligation. intros f key map image (Hn & -> & ->). cbn. rewrite Hn, Z.eqb_refl. by eexists. Qed.
Next Obligation. intros f n key map image p (Hn & -> & ->). cbn. rewrite Hn. by eexists _, _. Qed.

Definition loader_start (n : nat) : lstate sim_fw := LState (store_bytes ∅ 0x80000 (elf_bytes 0x100000)) (SimFw n 0 (elf_bytes 0x100000) None) [].

Lemma LoadKernelELF_correct_witness : exists m', LoadKernelELF 0x80000 (loader_start 0) =
    Ret ((EFI_SUCCESS, Some 0x100000), LState m' (lfw (loader_start 0)) []) /\ ld8 m' 0x100000 = 0xEB.
Proof.
  pose proof (LoadKernelELF_correct 0x80000 (elf_bytes 0x100000) (loader_start 0)) as H.
  assert (kernel_segments (elf_bytes 0x100000) = [Seg 120 0x100000 4 8]) as Hs by (vm_compute; reflexivity).
  rewrite Hs in H. rewrite bool_decide_eq_true_2 in H by (vm_compute; reflexivity). cbn [ask_pages fw_allocate_pages sim_firmware] in H.
  change (efi_error EFI_SUCCESS) with false in H. cbv iota in H.
  destruct H as (m' & E & Hx).
  - split; [apply elf_bytes_list|vm_compute; congruence|vm_compute; congruence|split; [lia|vm_compute; reflexivity]].
  - apply holds_store_bytes, elf_bytes_list.
  - constructor; [|constructor]. split; [vm_compute; congruence|cbn; lia|cbn; lia|right; vm_compute; congruence].
  - exists m'. split; [exact E|]. rewrite Hx. vm_compute. reflexivity.
Defined.

Lemma exit_hands_over_map_witness : exists b' s',
  ExitBootServicesComplete 3 1 (BootInfo 0 0 0 0 0x80000000 0x300000 1024 768 1024 0 []) (loader_start 2) = Ret ((EFI_SUCCESS, b'), s') /\
  ended (lfw s') = Some (bytes (lmem s') (MemoryMap b') (MemoryMapSize b')) /\ FrameBufferBase b' = 0x80000000.
Proof.
  destruct (exit_hands_over_map 1 2 3 (BootInfo 0 0 0 0 0x80000000 0x300000 1024 768 1024 0 []) (loader_start 2)) as (b' & s' & map & E & Ho & Hm & _ & Hf & _);
    [reflexivity|lia|]. exists b', s'. rewrite Hm. by split_and!.
Defined.

(** A whole run of [efi_main]: two refusals, then the kernel is entered at
    its entry point with the last map. *)
Definition boot_run : option (Z * Z * list Z * list Z) :=
  match efi_main 3 1 0 0 (LState ∅ (SimFw 2 0 (elf_bytes 0x100000) None) []) with
  | Ret (EfiKernel entry b, s) =>
      Some (entry, FrameBufferSize b, bytes (lmem s) 0x100000 8, bytes (lmem s) (MemoryMap b + 95) 1)
  | _ => None
  end.
Example boot_run_result : boot_run = Some (0x100000, 0x300000, [0xEB; 0xFE; 0x90; 0x90; 0; 0; 0; 0], [2]).
Proof. vm_compute. reflexivity. Qed.
