(* ===== verification/Userland.v ===== *)
(** * The user program (Userland/Userland.c)

    The program reaches the rest of the system by the [syscall] instruction
    only: [syscall num args] runs call [num] with the argument registers that
    the program sets (rdi, rsi, rdx, r10 in this order) and gives rax.  It is
    a parameter; [kernel_syscall] in UserCalls.v is the kernel's.  The
    program's [kmalloc], [kfree], [memcpy], [memcmp] and
    [serial_write_string] have the prefix [user_] here.  [lit] gives the
    addresses of the program's string literals, [sig] that of the decoder's
    signature. *)
From S2P Require Import Prelude Machine Utils Serial Memory Alloc Fat32 Syscall UserHeap Png.

(** A literal that ends in a newline. *)
Definition nl (s : string) : string := s +:+ String (Ascii.ascii_of_nat 10) EmptyString.

Record ImageSize := Size { img_width : Z; img_height : Z }.

(** [for (i = 0; i < n; i++) f(i)] *)
Fixpoint for_each {S} (n : nat) (i : Z) (f : Z -> M S unit) : M S unit :=
  match n with
  | O => mret tt
  | Datatypes.S n => f i;; for_each n (i + 1) f
  end.

Section Userland.
Context {S : Type} `{HasRam S} (syscall : Z -> list Z -> M S Z) (lit : string -> Z) (sig : Z).

Definition syscall0 (num : Z) : M S Z := syscall num [].
Definition syscall1 (num arg1 : Z) : M S Z := syscall num [arg1].
Definition syscall2 (num arg1 arg2 : Z) : M S Z := syscall num [arg1; arg2].
Definition syscall3 (num arg1 arg2 arg3 : Z) : M S Z := syscall num [arg1; arg2; arg3].
Definition syscall4 (num arg1 arg2 arg3 arg4 : Z) : M S Z := syscall num [arg1; arg2; arg3; arg4].

Definition user_serial_write_string (str : Z) : M S unit := syscall1 SYSCALL_SERIAL_PUTS str;; mret tt.
Definition thread_create (entry : Z) : M S Z := r ← syscall1 SYSCALL_THREAD_CREATE entry; mret (s32 r).
Definition process_yield : M S unit := syscall0 SYSCALL_PROCESS_YIELD;; mret tt.
Definition draw_fill_rect (x y w h color : Z) : M S unit :=
  let packed_wh := Z.lor (u64 (Z.shiftl w 32)) h in
  syscall4 SYSCALL_DRAW_FILL_RECT x y packed_wh color;; mret tt.
Definition draw_present : M S unit := syscall0 SYSCALL_DRAW_PRESENT;; mret tt.
Definition file_open (path flags : Z) : M S Z := r ← syscall2 SYSCALL_FILE_OPEN path flags; mret (s32 r).
Definition file_read (fd buffer len : Z) : M S Z := r ← syscall3 SYSCALL_FILE_READ (u64 fd) buffer len; mret (s64 r).
Definition file_write (fd buffer len : Z) : M S Z := r ← syscall3 SYSCALL_FILE_WRITE (u64 fd) buffer len; mret (s64 r).
Definition file_close (fd : Z) : M S Z := r ← syscall1 SYSCALL_FILE_CLOSE (u64 fd); mret (s32 r).
Definition user_kmalloc (size : Z) : M S Z := syscall1 SYSCALL_USER_KMALLOC size.
Definition user_kfree (ptr : Z) : M S unit := syscall1 SYSCALL_USER_KFREE ptr;; mret tt.
Definition user_memcpy (dst src n : Z) : M S Z := syscall3 SYSCALL_USER_MEMCPY dst src n.
Definition user_memcmp (s1 s2 n : Z) : M S Z := r ← syscall3 SYSCALL_USER_MEMCMP s1 s2 n; mret (s32 r).
(** If the call returns, the loop behind it does not end. *)
Definition process_exit : M S unit := syscall0 SYSCALL_PROCESS_EXIT;; liftO Hang.

(** ** load_png *)

Definition PNG_BUFFER : Z := 1024 * 1024.

(** The loop that reads the file; the final [offset]. *)
Fixpoint read_whole_file (fuel : nat) (fd file_buffer offset : Z) : M S Z :=
  match fuel with
  | O => liftO NoFuel
  | Datatypes.S f =>
      read_bytes ← file_read fd (u64 (file_buffer + offset)) 256;
      if 0 <? read_bytes then
        let offset := u64 (offset + u64 read_bytes) in
        if PNG_BUFFER <=? offset then user_serial_write_string (lit (nl "[U] PNG too large"));; mret offset
        else read_whole_file f fd file_buffer offset
      else mret offset
  end.

(** The image and [*out_size]. *)
Definition load_png (path : Z) : M S (Z * ImageSize) :=
  fd ← file_open path 0;
  if fd <? 0 then
    user_serial_write_string (lit (nl "[U] Failed to open PNG file"));; mret (0, Size 0 0)
  else
    file_buffer ← user_kmalloc PNG_BUFFER;
    if file_buffer =? 0 then
      user_serial_write_string (lit (nl "[U] Failed to allocate memory for PNG"));;
      file_close fd;; mret (0, Size 0 0)
    else
      offset ← read_whole_file 4097 fd file_buffer 0;
      file_close fd;;
      r ← png_decode_buffer sig user_kmalloc user_kfree file_buffer offset;
      user_kfree file_buffer;;
      let '(rgba, width, height) := default (0, 0, 0) r in
      if (rgba =? 0) || (width =? 0) || (height =? 0) then
        user_serial_write_string (lit (nl "[U] Failed to decode PNG"));; mret (0, Size 0 0)
      else mret (rgba, Size width height).

(** ** The program *)

(** The loops that draw the image. *)
Definition draw_image (rgba : Z) (img : ImageSize) : M S unit :=
  for_each (Z.to_nat (img_height img)) 0 (fun y =>
    for_each (Z.to_nat (img_width img)) 0 (fun x =>
      m ← gets ram_of;
      draw_fill_rect x y 1 1 (ld32 m (rgba + 4 * u32 (u32 (y * img_width img) + x))))).

(** [_start] up to its last loop. *)
Definition start_body : M S unit :=
  user_serial_write_string (lit (nl "[U] userland start"));;
  draw_fill_rect 50 50 100 250 0xFFFFFFFF;;
  draw_present;;
  '(rgba, img) ← load_png (lit "LOGO.PNG");
  if negb (rgba =? 0) then draw_image rgba img;; draw_present;; user_kfree rgba
  else mret tt.

(** The last loop yields for ever. *)
Fixpoint yield_loop (fuel : nat) : M S unit :=
  match fuel with
  | O => liftO NoFuel
  | Datatypes.S f => process_yield;; yield_loop f
  end.
Definition start (fuel : nat) : M S unit := start_body;; yield_loop fuel.
End Userland.
