(* ===== verification/UserCalls.v ===== *)
(** * The user program on the kernel

    [kernel_syscall] is the [syscall] instruction of a program on this
    kernel: the argument registers are set, rcx and r11 get the return
    address and the flags, and the kernel's stub runs.  The program goes on
    where it was only if the stub comes back with the program's own stack
    pointer and return address.  It does after drawing, as shown here; it does
    not after asking for memory (SyscallTheorems.v, [user_kmalloc_call]), so
    that [load_png] and what follows it in [_start] do not work on this
    kernel. *)
From S2P Require Import Prelude Machine Utils Serial Memory Heap HeapTheorems Process ProcessTheorems Disk BlockDev Display DisplayTheorems.
From S2P Require Import Fat32 Fat32Spec Fat32Theorems SysFile SysFileTheorems Syscall SyscallTheorems UserHeap Png Userland.

(** The packing of a size into one argument, undone. *)
Lemma packed_size w h : 0 <= w < 2 ^ 32 -> 0 <= h < 2 ^ 32 ->
  Z.lor (u64 (Z.shiftl w 32)) h = w * 2 ^ 32 + h.
Proof.
  intros Hw Hh. rewrite u64_small by (rewrite Z.shiftl_mul_pow2; lia). rewrite Z.lor_comm, lor_shiftl by lia. lia.
Qed.

Record ustate (B : Type) := UState { uk : kernel B; uregs : list Z; ursp : Z }.
Arguments UState {B} _ _ _.
Arguments uk {B} _.
Arguments uregs {B} _.
Arguments ursp {B} _.

(** The registers of the arguments: rdi, rsi, rdx, r10. *)
Definition arg_regs : list nat := [3; 2; 1; 6]%nat.
Definition call_regs (rip flags num : Z) (args : list Z) (g : list Z) : list Z :=
  <[0%nat := num]> (<[13%nat := rip]> (<[14%nat := flags]> (foldr (fun '(i, v) g => <[i := v]> g) g (zip arg_regs args)))).

Section Calls.
Context {B : Type} {P : Ports B} {G : GpuDevice B} (junk : mem) (cmd_at resp_at rip flags : Z).
Implicit Types (k : kernel B) (g : list Z).

(** [Hang] when the program does not get control back. *)
Definition kernel_syscall (num : Z) (args : list Z) : M (ustate B) Z := fun s =>
  match syscall_entry junk cmd_at resp_at (call_regs rip flags num args (uregs s)) (ursp s) (uk s) with
  | Ret ((g, rsp), k) => if (rsp =? ursp s) && (reg g 13 =? rip) then Ret (reg g 0, UState k g rsp) else Hang
  | Hang => Hang
  | NoFuel => NoFuel
  end.

Lemma insert_regs_ok g i v : user_regs g -> 0 <= v < 18446744073709551616 -> user_regs (<[i := v]> g).
Proof. intros [Hl Hr] Hv. split; [by rewrite length_insert|]. by apply Forall_insert. Qed.

Lemma reg_insert_eq g i v : user_regs g -> (i < 15)%nat -> reg (<[i := v]> g) i = v.
Proof. intros [Hl _] Hi. unfold reg. by rewrite list_lookup_insert_eq by lia. Qed.
Lemma reg_insert_ne g i j v : i <> j -> reg (<[i := v]> g) j = reg g j.
Proof. intros Hij. unfold reg. by rewrite list_lookup_insert_ne by done. Qed.

(** The screen of a kernel. *)
Definition kscreen k : screen B := Screen (DState (kmem (kprocs k)) (kbus k)) (kgpu k).

Section Regs.
Context (num a1 a2 a3 a4 : Z) (g : list Z) (Hg : user_regs g)
  (Hv : Forall (fun v => 0 <= v < 18446744073709551616) [num; rip; flags; a1; a2; a3; a4]).

Lemma call_regs_ok : user_regs (call_regs rip flags num [a1; a2; a3; a4] g).
Proof using Hg Hv. clear cmd_at resp_at. rewrite !Forall_cons in Hv. destruct Hv as (? & ? & ? & ? & ? & ? & ? & _).
  unfold call_regs, arg_regs. cbn [zip_with foldr]. repeat (apply insert_regs_ok; [|lia]). done. Qed.

Lemma call_regs_at :
  let g' := call_regs rip flags num [a1; a2; a3; a4] g in
  reg g' 0 = num /\ reg g' 3 = a1 /\ reg g' 2 = a2 /\ reg g' 1 = a3 /\ reg g' 6 = a4 /\ reg g' 13 = rip.
Proof using Hg Hv.
  clear cmd_at resp_at. pose proof Hg as [Hl _]. unfold call_regs, arg_regs. cbn [zip_with foldr]. unfold reg.
  split_and!; repeat (first [rewrite list_lookup_insert_eq by (rewrite ?length_insert; lia)|rewrite list_lookup_insert_ne by lia]); done.
Qed.
End Regs.

(** The kernel after drawing. *)
Definition with_screen (t : screen B) k : kernel B :=
  Kernel (put_mem (mach (sdev t)) (kprocs k)) (bus (sdev t)) (kbpb k) (kfiles k) (gpu t) (g_syscall_cpu_state k).

Lemma rect_switch frame x y w h color k t :
  0 <= x < 2 ^ 32 -> 0 <= y < 2 ^ 32 -> 0 <= w < 2 ^ 32 -> 0 <= h < 2 ^ 32 -> 0 <= color < 2 ^ 32 ->
  virtio_gpu_fill_rect x y w h color (kscreen k) = Ret (tt, t) ->
  syscall_switch junk cmd_at resp_at frame SYSCALL_DRAW_FILL_RECT x y (w * 2 ^ 32 + h) color k = case_done frame 0 (with_screen t k).
Proof using Type.
  intros Hx Hy Hw Hh Hc E.
  change (syscall_switch junk cmd_at resp_at frame SYSCALL_DRAW_FILL_RECT x y (w * 2 ^ 32 + h) color k) with
    ((on_screen (display_fill_rect (u32 x) (u32 y) (u32 (Z.shiftr (w * 2 ^ 32 + h) 32)) (u32 (Z.land (w * 2 ^ 32 + h) 0xFFFFFFFF)) (u32 color));;
      case_done frame 0) k).
  change 0xFFFFFFFF with (Z.ones 32). rewrite Z.shiftr_div_pow2, Z.land_ones, Z.div_add_l, (Z.div_small h), Z.add_0_r by lia.
  rewrite (Z.add_comm (w * 2 ^ 32) h), Z_mod_plus_full, (Z.mod_small h), !u32_small by lia.
  rewrite (bind_run _ _ _ tt (with_screen t k)); [done|]. unfold on_screen, zoom, display_fill_rect. change (Screen _ _) with (kscreen k). by rewrite E.
Qed.

(** C12. [draw_fill_rect] of the user program, through the kernel's stub and
    dispatcher to the frame buffer: the program comes back with its own
    stack pointer and return address, exactly the pixels of the rectangle
    that lie on the screen have the colour, whatever sizes are packed into
    the third argument, and no other memory outside the call's frame has
    changed. *)
Theorem user_fill_rect_draws (s : ustate B) x y w h color :
  stack_ok (uk s) -> running_inv (kprocs (uk s)) -> user_regs (uregs s) -> 0 <= rip < 2 ^ 64 -> 0 <= flags < 2 ^ 64 ->
  0 <= x < 2 ^ 32 -> 0 <= y < 2 ^ 32 -> 0 <= w < 2 ^ 32 -> 0 <= h < 2 ^ 32 -> 0 <= color < 2 ^ 32 ->
  ready_screen (kscreen (uk s)) ->
  let fb := g_gpu_fb (kgpu (uk s)) in let W := g_gpu_width (kgpu (uk s)) in let n := W * g_gpu_height (kgpu (uk s)) in
  off_frame (uk s) fb (4 * n) ->
  exists s', draw_fill_rect kernel_syscall x y w h color s = Ret (tt, s') /\
    ursp s' = ursp s /\ reg (uregs s') 13 = rip /\ running_inv (kprocs (uk s')) /\
    g_current_pid (kprocs (uk s')) = g_current_pid (kprocs (uk s)) /\
    (forall i, 0 <= i < n -> pixel (kscreen (uk s')) i = if in_rect W x (x + w) y (y + h) i then color else pixel (kscreen (uk s)) i) /\
    (forall a, a < frame_at (uk s) \/ frame_at (uk s) + 120 <= a -> a < fb \/ fb + 4 * n <= a -> ld8 (kram (uk s')) a = ld8 (kram (uk s)) a).
Proof using Type.
  intros Hs Hi Hg Hrip Hfl Hx Hy Hw Hh Hc Hrs fb W n Hoff. destruct s as [k g rsp]. cbn [uk uregs ursp] in *.
  set (g' := call_regs rip flags SYSCALL_DRAW_FILL_RECT [x; y; w * 2 ^ 32 + h; color] g).
  assert (Forall (fun v => 0 <= v < 18446744073709551616) [SYSCALL_DRAW_FILL_RECT; rip; flags; x; y; w * 2 ^ 32 + h; color]) as Hv
    by (rewrite !Forall_cons; unfold SYSCALL_DRAW_FILL_RECT; split_and!; [lia..|apply Forall_nil_2]).
  pose proof (call_regs_ok _ _ _ _ _ g Hg Hv) as Hg'. pose proof (call_regs_at _ _ _ _ _ g Hg Hv) as (A0 & A3 & A2 & A1 & A6 & A13).
  fold g' in Hg', A0, A1, A2, A3, A6, A13.
  destruct (fill_rect_clipped (kscreen (entered g' rsp k)) x y w h color) as (t & Et & D1 & D2 & D3 & D4 & D5); [|lia..|].
  { destruct Hrs. by split. }
  change (gpu (kscreen (entered g' rsp k))) with (kgpu k) in *. fold fb W in D4, D5. fold n in D4, D5.
  destruct (call_returns junk cmd_at resp_at g' rsp k (with_screen t (entered g' rsp k)) 0) as (k' & E & [R1 R2 R3 R4 R5 R6 R7 R8]); try done.
  { unfold switched. rewrite A0, A1, A2, A3, A6. by apply rect_switch. }
  { intros a Ha. change (ld8 (screen_ram t) a = ld8 (screen_ram (kscreen (entered g' rsp k))) a). apply D5. unfold off_frame in Hoff. lia. }
  exists (UState k' (<[0%nat := u64 0]> g') rsp). split.
  { unfold draw_fill_rect, syscall4. cbv zeta. rewrite packed_size by done.
    rewrite (bind_run _ _ _ (reg (<[0%nat := u64 0]> g') 0) (UState k' (<[0%nat := u64 0]> g') rsp)); [done|].
    unfold kernel_syscall. cbn [uk uregs ursp]. fold g'. rewrite E, Z.eqb_refl, reg_insert_ne, A13, Z.eqb_refl by lia. done. }
  cbn [uk uregs ursp]. rewrite reg_insert_ne by lia.
  assert (forall a, a < frame_at k \/ frame_at k + 120 <= a -> ld8 (kram k') a = ld8 (screen_ram t) a) as Hram.
  { intros a Ha. unfold kram. rewrite R1. change (ld8 (st64 (screen_ram t) (frame_at k) (u64 0)) a = ld8 (screen_ram t) a).
    apply (agree_st64 _ (frame_at k) (u64 0) a (a + 1)); lia. }
  split_and!; try done.
  - intros i Hin. specialize (D4 i Hin). rewrite (u32_small color) in D4 by lia.
    assert (pixel (kscreen (entered g' rsp k)) i = pixel (kscreen k) i) as <-.
    { unfold pixel. apply ld32_ext. intros a Ha. apply entered_ram; [done|]. change (gpu _) with (kgpu k) in Ha. fold fb in Ha. unfold off_frame in Hoff. lia. }
    rewrite <- D4. unfold pixel. change (gpu (kscreen k')) with (kgpu k'). rewrite R7. change (kgpu (with_screen t (entered g' rsp k))) with (gpu t). rewrite D1. fold fb.
    apply ld32_ext. intros a Ha. apply Hram. unfold off_frame in Hoff. lia.
  - intros a Ha Hout. rewrite Hram, D5 by done. by apply entered_ram.
Qed.
End Calls.

(** ** Witness

    A screen of four by two pixels at 0x20000. *)
#[local] Instance still_gpu : GpuDevice sim := {| gpu_notify := fun _ _ b m => (b, m); gpu_poll := fun b m => (b, m) |}.
Definition small_gpu : gpu_vars := GpuVars 1 4 2 0x20000 (Virtqueue 0 0 0 0 0 0 0 0).
Definition user_kernel : kernel sim := Kernel (Procs booted one_proc 0) volume_drive volume_bpb open_table small_gpu (CpuState 0 0x9000).

Lemma user_fill_rect_draws_witness : exists s',
  draw_fill_rect (kernel_syscall ∅ 0 0 0x400100 0x202) 3 1 100 250 0xFF00FF (UState user_kernel (replicate 15 5) 0x7000) = Ret (tt, s') /\
  pixel (kscreen (uk s')) 7 = 0xFF00FF /\ pixel (kscreen (uk s')) 6 = 0.
Proof.
  destruct (user_fill_rect_draws ∅ 0 0 0x400100 0x202 (UState user_kernel (replicate 15 5) 0x7000) 3 1 100 250 0xFF00FF) as (s' & E & _ & _ & _ & _ & Hp & _);
    [split; [cbn; lia|reflexivity]|exact one_proc_inv|split; [reflexivity|repeat constructor; lia]|lia..|split; cbn; lia|right; vm_compute; congruence|].
  exists s'. split; [exact E|]. split; (rewrite Hp by (cbn; lia); reflexivity).
Defined.
