(* ===== verification/Boot.v ===== *)
(** * The boot sequence (Kernel/Kernel_Main.c, [entry_user_mode] and
      [kernel_main])

    [boot] is the whole machine: the kernel's state with RAM and the devices,
    the processor's registers and the paging registers.  The [mstate] inside
    [bcpu] and [bpage] is a copy that is refreshed before and stored back
    after each use.  [layout] has the addresses of the static variables and
    handlers.  [kernel_main] does not return: it ends in user mode or in the
    halt loop. *)
From S2P Require Import Prelude Machine Utils Serial Memory Heap Pages Process Disk Fat32 SysFile Display Syscall.
From S2P Require Import Paging Uart Cpu Elf Pci Virtio Loader.

Definition USER_STACK_SIZE : Z := 8192.

Record layout := Layout {
  l_kernel_end : Z;
  l_pml4 : Z; l_pdpt : Z; l_pd : Z;
  l_idt : Z; l_idt_ptr : Z; l_isr_default : Z; l_isr_page_fault : Z;
  l_gdt : Z; l_gdtr : Z; l_tss : Z; l_kernel_stack : Z;
  l_syscall_entry : Z; l_cpu_state : Z; l_syscall_stack : Z;
  l_user_stack : Z;
  l_cmd : Z; l_resp : Z
}.

Record boot (B : Type) := Boot { bk : kernel B; bcpu : cpu; bpage : paging; user_entry : Z }.
Arguments Boot {B} _ _ _ _.
Arguments bk {B} _.
Arguments bcpu {B} _.
Arguments bpage {B} _.
Arguments user_entry {B} _.

(** How the kernel's start ends. *)
Inductive boot_end :=
| Halted
| UserMode (rip rsp : Z).

Section Boot.
Context {B : Type} `{Ports B} `{GpuConfig B} `{GpuDevice B} (junk : mem) (gpu0 : virtio_gpu_pci_t) (l : layout).
Implicit Types (s : boot B).

Definition bmem s : mstate := kmem (kprocs (bk s)).
Definition put_kmem (m : mstate) (k : kernel B) : kernel B :=
  Kernel (put_mem m (kprocs k)) (kbus k) (kbpb k) (kfiles k) (kgpu k) (g_syscall_cpu_state k).
Definition on_kernel {A} (c : M (kernel B) A) : M (boot B) A := zoom bk (fun k s => Boot k (bcpu s) (bpage s) (user_entry s)) c.
Definition on_cpu {A} (c : M cpu A) : M (boot B) A :=
  zoom (fun s => let c := bcpu s in Cpu (bmem s) (gdtr c) (idtr c) (tr c) (cs c) (data_selectors c) (msr c))
    (fun c s => Boot (put_kmem (cmach c) (bk s)) c (bpage s) (user_entry s)) c.
Definition on_paging {A} (c : M paging A) : M (boot B) A :=
  zoom (fun s => put_pmach (bmem s) (bpage s)) (fun p s => Boot (put_kmem (pmach p) (bk s)) (bcpu s) p (user_entry s)) c.
Definition on_virtio {A} (c : M (vstate B) A) : M (boot B) A :=
  zoom (fun s => VState (put_pmach (bmem s) (bpage s)) (kbus (bk s)) (kgpu (bk s)))
    (fun v s => let k := bk s in
       Boot (Kernel (put_mem (pmach (vpage v)) (kprocs k)) (vbus v) (kbpb k) (kfiles k) (vgpu v) (g_syscall_cpu_state k))
         (bcpu s) (vpage v) (user_entry s)) c.
Definition on_ports {A} (c : M (dstate B) A) : M (kernel B) A := on_files (on_fs (on_dev c)).
Definition b_say (es : list sev) : M (boot B) unit := on_kernel (on_memory (say es)).

(** The registers after [iretq]; ds, es, fs and gs were loaded before. *)
Definition iretq (rip rsp user_rflags user_cs user_ss : Z) : M (boot B) boot_end :=
  on_cpu (modify (fun c => Cpu (set_rflags user_rflags (cmach c)) (gdtr c) (idtr c) (tr c) user_cs (replicate 5 user_ss) (msr c)));;
  mret (UserMode rip rsp).

Definition entry_user_mode : M (boot B) boot_end :=
  entry ← gets user_entry;
  b_say [line "[OS] Entering user mode..."; SStr "[OS] User entry: "; SU64 entry; line ""];;
  let user_rsp := Z.land (u64 (l_user_stack l + USER_STACK_SIZE)) (u64 (Z.lnot 0xF)) in
  let user_ss := Z.lor GDT_USER_DATA 3 in
  let user_cs := Z.lor GDT_USER_CODE 3 in
  iretq entry user_rsp 0x202 user_cs user_ss.

Definition all_fs_initialize : M (boot B) unit := on_kernel (on_files (on_fs (fat32_init disk_read junk)));; mret tt.

(** [kernel_main] from the process manager on. *)
Definition boot_userland : M (boot B) boot_end :=
  b_say [line "[OS] Initializing process manager..."];;
  on_kernel (on_procs process_manager_init);;
  b_say [line "[OS] Initializing file system..."];;
  all_fs_initialize;;
  on_kernel (on_files syscall_file_init);;
  b_say [line "[OS] Loading userland ELF..."];;
  r ← on_kernel (on_files (on_fs (load_userland_elf disk_read junk kmalloc kfree)));
  match r with
  | None => b_say [line "[OS] [ERROR] Failed to load userland ELF"; line "[OS] [ERROR] System halted"];; mret Halted
  | Some entry =>
      modify (fun s => Boot (bk s) (bcpu s) (bpage s) entry);;
      b_say [line "[OS] ===== Kernel Init Complete =====";
             line (String.append "[OS] Transferring control to userland..." (String (Ascii.ascii_of_nat 10) EmptyString))];;
      entry ← gets user_entry;
      pid ← on_kernel (on_procs (process_register_boot_process entry (u64 (l_user_stack l + USER_STACK_SIZE))));
      if pid <? 0 then b_say [line "[OS] [ERROR] Failed to register boot process"];; mret Halted
      else entry_user_mode
  end.

(** [kernel_main] up to here, in three parts. *)
Definition start_memory (boot_info : BOOT_INFO) : M (boot B) unit :=
  on_kernel (on_ports serial_init);;
  b_say [line (String (Ascii.ascii_of_nat 10) "[OS] ===== Kernel Starting =====");
         line "[OS] Initializing physical memory..."];;
  on_kernel (on_memory (init_physical_memory (l_kernel_end l) (MemoryMap boot_info) (MemoryMapSize boot_info)
    (MemoryMapDescriptorSize boot_info)));;
  b_say [line "[OS] Initializing paging..."];;
  on_paging (init_paging (l_pml4 l) (l_pdpt l) (l_pd l) (FrameBufferBase boot_info) (FrameBufferSize boot_info));;
  b_say [line "[OS] Initializing memory manager..."];;
  on_kernel (on_memory (memory_init (l_kernel_end l))).

Definition start_tables : M (boot B) unit :=
  b_say [line "[OS] Initializing IDT..."];;
  on_cpu (init_idt (l_idt l) (l_idt_ptr l) (l_isr_default l) (l_isr_page_fault l));;
  b_say [line "[OS] Initializing GDT..."];;
  on_cpu (init_gdt (l_gdt l) (l_gdtr l) (l_tss l) (l_kernel_stack l)).

Definition start_services : M (boot B) unit :=
  b_say [line "[OS] Initializing display..."];;
  shown ← on_virtio (display_init (l_pdpt l) (l_pd l) (l_cmd l) (l_resp l) kmalloc gpu0);
  (if negb shown then b_say [line "[OS] [WARN] Display init failed"] else mret tt);;
  b_say [line "[OS] Initializing syscall..."];;
  on_kernel (syscall_init_state (l_syscall_stack l));;
  on_cpu (syscall_init (l_syscall_entry l) (l_cpu_state l)).

Definition kernel_main (boot_info : BOOT_INFO) : M (boot B) boot_end :=
  start_memory boot_info;;
  start_tables;;
  start_services;;
  boot_userland.
End Boot.
