(* ===== verification/BootTheorems.v ===== *)
(** * The properties of the boot sequence

    What [kernel_main] does once memory is set up: from the process manager
    to the first instruction in user mode, composed from the theorems of the
    heap, the disk, the file system, the ELF loader and the process table. *)
From S2P Require Import Prelude Machine Utils Serial Memory Heap HeapChain HeapInv HeapSpec Alloc HeapTheorems.
From S2P Require Import Process ProcessTheorems Disk BlockDev Fat32 Fat32Spec Fat32Theorems SysFile SysFileTheorems Display Syscall.
From S2P Require Import Paging Uart Cpu Elf ElfTheorems Pci Virtio Loader Boot.

Section Boot.
Context {B : Type} {P : Ports B} {AD : AtaDrive B} (junk : mem) (l : layout) (lo htop : Z).
Abbreviation hi := (lo + HEAP_BYTES).

(** The parts of the machine. *)
Definition bst (m : mstate) (t : list process_t) (cur : Z) (b : B) (p : FAT32_BPB) (fl : list kernel_file_t) (g : gpu_vars)
    (c : syscall_cpu_state_t) (cp : cpu) (pg : paging) (e : Z) : boot B :=
  Boot (Kernel (Procs m t cur) b p fl g c) cp pg e.

Section Runs.
Context (t : list process_t) (cur : Z) (fl : list kernel_file_t) (g : gpu_vars) (c : syscall_cpu_state_t) (cp : cpu) (pg : paging) (e : Z).

Lemma bind_b_say {A} es (k : unit -> M (boot B) A) m b p :
  (x ← b_say es; k x) (bst m t cur b p fl g c cp pg e) = k tt (bst (add_serial es m) t cur b p fl g c cp pg e).
Proof using Type. reflexivity. Qed.

Lemma fs_boot_run {A} (f : M (fs B) A) m b p a m' b' p' :
  f (Fs (DState m b) p) = Ret (a, Fs (DState m' b') p') ->
  on_kernel (on_files (on_fs f)) (bst m t cur b p fl g c cp pg e) = Ret (a, bst m' t cur b' p' fl g c cp pg e).
Proof using Type. intros E. unfold on_kernel, on_files, on_fs, zoom, bst. cbn. by rewrite E. Qed.

Lemma procs_boot_run {A} (f : M procs A) m b p a m' t' cur' :
  f (Procs m t cur) = Ret (a, Procs m' t' cur') ->
  on_kernel (on_procs f) (bst m t cur b p fl g c cp pg e) = Ret (a, bst m' t' cur' b p fl g c cp pg e).
Proof using Type. intros E. unfold on_kernel, on_procs, zoom, bst. cbn. by rewrite E. Qed.
End Runs.

Lemma init_table mm t cur : length t = 16%nat ->
  process_manager_init (Procs mm t cur) = Ret (tt, Procs mm (replicate 16 unused_process) (-1)).
Proof using Type. intros Hl. do 16 (destruct t as [|? t]; [discriminate|]). destruct t; [reflexivity|discriminate]. Qed.

Lemma register_boot mm entry top :
  process_register_boot_process entry top (Procs mm (replicate 16 unused_process) (-1)) = Ret (0, boot_table mm entry top).
Proof using Type. reflexivity. Qed.

Lemma heap_say m L es : heap_ok lo m L -> heap_ok lo (add_serial es m) L.
Proof using Type. apply (aok_say kmalloc kfree lo hi (heap_ok lo)). Qed.

(** The parameters in a boot sector. *)
Definition sector_bpb (sec : list Z) : FAT32_BPB :=
  Bpb (word16_at sec 11) (byte_at sec 13) (word16_at sec 14) (byte_at sec 16) (word32_at sec 36) (word32_at sec 44).

(** The state in user mode. *)
Record in_user_mode (s : boot B) (rip rsp : Z) : Prop := {
  iu_cs : cs (bcpu s) = 0x2B;
  iu_data : data_selectors (bcpu s) = replicate 5 0x23;
  iu_flags : rflags (bmem s) = 0x202;
  iu_procs : running_inv (kprocs (bk s)) /\ g_current_pid (kprocs (bk s)) = 0;
  iu_boot : proc (g_processes (kprocs (bk s))) 0 = Process PROCESS_STATE_RUNNING rip (l_user_stack l + USER_STACK_SIZE) (l_user_stack l + USER_STACK_SIZE) 0;
  iu_rsp : rsp mod 16 = 0 /\ l_user_stack l + USER_STACK_SIZE - 16 < rsp <= l_user_stack l + USER_STACK_SIZE
}.

Lemma stack_top_aligned : 0 <= l_user_stack l < 2 ^ 63 ->
  let rsp := Z.land (u64 (l_user_stack l + USER_STACK_SIZE)) (u64 (Z.lnot 0xF)) in
  rsp mod 16 = 0 /\ l_user_stack l + USER_STACK_SIZE - 16 < rsp <= l_user_stack l + USER_STACK_SIZE.
Proof using Type.
  intros Hu rsp. unfold rsp, USER_STACK_SIZE. change (Z.lnot 0xF) with (Z.lnot (Z.ones 4)). rewrite u64_small by lia.
  rewrite land_u64_lnot_ones by lia. change (2 ^ 4) with 16. word_lia.
Qed.

(** What stays from before: tables and system registers, page tables, the
    stack of the system calls. *)
Definition system_kept (s s' : boot B) : Prop :=
  gdtr (bcpu s') = gdtr (bcpu s) /\ idtr (bcpu s') = idtr (bcpu s) /\ tr (bcpu s') = tr (bcpu s) /\ msr (bcpu s') = msr (bcpu s) /\
  bpage s' = bpage s /\ g_syscall_cpu_state (bk s') = g_syscall_cpu_state (bk s) /\ kgpu (bk s') = kgpu (bk s).

(** The last part: the entry point is known. *)
Lemma enter_user m b p fl g c cp pg e0 entry : 0 <= l_user_stack l < 2 ^ 63 ->
  exists rsp s', (modify (fun s => Boot (bk s) (bcpu s) (bpage s) entry);;
      b_say [line "[OS] ===== Kernel Init Complete =====";
             line (String.append "[OS] Transferring control to userland..." (String (Ascii.ascii_of_nat 10) EmptyString))];;
      entry ← gets user_entry;
      pid ← on_kernel (on_procs (process_register_boot_process entry (u64 (l_user_stack l + USER_STACK_SIZE))));
      if pid <? 0 then b_say [line "[OS] [ERROR] Failed to register boot process"];; mret Halted
      else entry_user_mode l) (bst m (replicate 16 unused_process) (-1) b p fl g c cp pg e0) = Ret (UserMode entry rsp, s') /\
    in_user_mode s' entry rsp /\ kbus (bk s') = b /\ kbpb (bk s') = p /\ kfiles (bk s') = fl /\
    ram (bmem s') = ram m /\ system_kept (bst m (replicate 16 unused_process) (-1) b p fl g c cp pg e0) s' /\
    forall L, heap_ok lo m L -> heap_ok lo (bmem s') L.
Proof using Type.
  intros Hu. pose proof (stack_top_aligned Hu) as Hrsp. cbv zeta in Hrsp. set (rsp := Z.land _ _) in *.
  rewrite bind_modify. change (Boot _ _ _ entry) with (bst m (replicate 16 unused_process) (-1) b p fl g c cp pg entry).
  rewrite bind_b_say, bind_gets. change (user_entry _) with entry. rewrite u64_small by (unfold USER_STACK_SIZE; lia).
  rewrite (bind_run _ _ _ _ _ (procs_boot_run _ _ _ _ _ _ _ _ _ _ _ _ _ _ _ _ (register_boot _ _ _))). cbn [Z.ltb Z.compare].
  unfold entry_user_mode. rewrite bind_gets. change (user_entry _) with entry. rewrite bind_b_say. cbv zeta.
  eexists _, _. split; [reflexivity|]. split; [|split_and!; try reflexivity; [by unfold system_kept; split_and!|intros L HL; by apply (alloc_write (Allocator := kernel_heap lo) m)]].
  split; try reflexivity; [|exact Hrsp]. split; [|reflexivity]. exact (boot_table_inv m entry (l_user_stack l + USER_STACK_SIZE)).
Qed.

(** Everything that follows from the process manager on. *)
Lemma boot_userland_run s f sec root rcs file L :
  length (g_processes (kprocs (bk s))) = 16%nat -> heap_ok lo (bmem s) L -> ata_disk (kbus (bk s)) f ->
  f !! 0 = Some sec -> geometry (sector_bpb sec) -> user_file f (sector_bpb sec) root rcs file -> 0 <= l_user_stack l < 2 ^ 63 ->
  let data := file_data f (sector_bpb sec) rcs file in
  image_placed lo htop L (size file) data ->
  exists r s', boot_userland junk l s = Ret (r, s') /\ heap_ok lo (bmem s') L /\ ata_disk (kbus (bk s')) f /\ kbpb (bk s') = sector_bpb sec /\
    (forall fd, used (file_at (kfiles (bk s')) fd) = 0) /\ system_kept s s' /\
    ((r = Halted /\ refuses kmalloc (bmem s) (size file) /\ forall x, owned lo htop L x -> ld8 (ram (bmem s')) x = ld8 (ram (bmem s)) x) \/
     (exists rsp, r = UserMode (elf_entry data) rsp /\ in_user_mode s' (elf_entry data) rsp /\
        forall x, owned lo htop L x -> ld8 (ram (bmem s')) x = loaded data (segments data) (ram (bmem s)) x)).
Proof using AD.
  intros Ht Hok Hd Hsec Hgeo Hu Hst data He. destruct s as [[[m t cur] b p0 fl g c] cp pg e].
  change (bmem (Boot (Kernel (Procs m t cur) b p0 fl g c) cp pg e)) with m in *. cbn [kprocs bk g_processes kbus] in Ht, Hd.
  set (p := sector_bpb sec) in *.
  assert (forall fd, used (file_at (replicate (Z.to_nat FILE_MAX_FD) zero_file) fd) = 0) as Hfiles.
  { intros fd. unfold file_at. destruct (replicate (Z.to_nat FILE_MAX_FD) zero_file !! Z.to_nat fd) as [z|] eqn:E; [|done]. by apply lookup_replicate in E as [-> _]. }
  change (Boot _ cp pg e) with (bst m t cur b p0 fl g c cp pg e). unfold boot_userland.
  rewrite bind_b_say, (bind_run _ _ _ _ _ (procs_boot_run _ _ _ _ _ _ _ _ _ _ _ _ _ _ _ _ (init_table _ _ cur Ht))), bind_b_say.
  set (m1 := add_serial _ (add_serial _ m)). assert (heap_ok lo m1 L) as Hok1 by by apply heap_say, heap_say.
  pose proof (fat32_init_correct disk_read ata_disk junk m1 b f p0 Hd) as Hinit. rewrite Hsec in Hinit. destruct Hinit as (es & b2 & E2 & Hd2).
  fold (sector_bpb sec) in E2. fold p in E2. unfold all_fs_initialize.
  rewrite (bind_run _ _ _ tt (bst (add_serial es m1) (replicate 16 unused_process) (-1) b2 p fl g c cp pg e)).
  2:{ by rewrite (bind_run _ _ _ _ _ (fs_boot_run _ _ _ _ _ _ _ _ _ _ _ _ _ _ _ _ E2)). }
  set (fl' := replicate (Z.to_nat FILE_MAX_FD) zero_file) in *. set (m2 := add_serial es m1).
  rewrite (bind_run _ _ _ tt (bst m2 (replicate 16 unused_process) (-1) b2 p fl' g c cp pg e)) by reflexivity.
  rewrite bind_b_say. set (m3 := add_serial _ m2). assert (heap_ok lo m3 L) as Hok3 by by apply heap_say, heap_say.
  destruct (kernel_load_run disk_read ata_disk junk lo htop m3 b2 f p root rcs file L Hok3 Hd2 Hgeo Hu He)
    as (r & m4 & b4 & E4 & Hd4 & Hok4 & Hr).
  rewrite (bind_run _ _ _ _ _ (fs_boot_run _ _ _ _ _ _ _ _ _ _ _ _ _ _ _ _ E4)).
  destruct Hr as [(-> & (es' & m' & Hno) & Hk)|[-> Hk]].
  - rewrite bind_b_say. eexists Halted, _. split; [reflexivity|]. split_and!; [by apply heap_say|done|done|done|by unfold system_kept; split_and!|]. left. split; [done|]. split; [|exact Hk].
    eexists _, m'. rewrite <- Hno. unfold m3, m2, m1. rewrite !add_serial_app. reflexivity.
  - destruct (enter_user m4 b4 p fl' g c cp pg e (elf_entry data) Hst) as (rsp & s' & E & Hi & H1 & H2 & H3 & H4 & H6 & H5).
    exists (UserMode (elf_entry data) rsp), s'. split; [exact E|]. split_and!; [by apply H5|by rewrite H1|done|by rewrite H3|exact H6|].
    right. exists rsp. split_and!; [done|done|]. rewrite H4. exact Hk.
Qed.

(** From the process manager on, with a working heap and a drive that
    holds a FAT32 volume with a valid image URLD.ELF outside the heap (or,
    while nothing is allocated, above [htop] in it), [kernel_main] ends in
    user mode at the image's entry point: the image's
    bytes are in memory, the code and data selectors are the user's, the
    interrupt flag is set and the stack is aligned; the boot process is the
    one that runs, no file is open, and heap and disk are as before.  Only
    when the heap has no room for the file it halts instead, with memory
    untouched. *)
Theorem boot_reaches_user s f sec root rcs file L :
  length (g_processes (kprocs (bk s))) = 16%nat -> heap_ok lo (bmem s) L -> ata_disk (kbus (bk s)) f ->
  f !! 0 = Some sec -> geometry (sector_bpb sec) -> user_file f (sector_bpb sec) root rcs file -> 0 <= l_user_stack l < 2 ^ 63 ->
  let data := file_data f (sector_bpb sec) rcs file in
  image_placed lo htop L (size file) data ->
  exists r s', boot_userland junk l s = Ret (r, s') /\ heap_ok lo (bmem s') L /\ ata_disk (kbus (bk s')) f /\ kbpb (bk s') = sector_bpb sec /\
    (forall fd, used (file_at (kfiles (bk s')) fd) = 0) /\
    ((r = Halted /\ refuses kmalloc (bmem s) (size file) /\ forall x, owned lo htop L x -> ld8 (ram (bmem s')) x = ld8 (ram (bmem s)) x) \/
     (exists rsp, r = UserMode (elf_entry data) rsp /\ in_user_mode s' (elf_entry data) rsp /\
        forall x, owned lo htop L x -> ld8 (ram (bmem s')) x = loaded data (segments data) (ram (bmem s)) x)).
Proof using AD.
  intros Ht Hok Hd Hsec Hgeo Hu Hst data He.
  destruct (boot_userland_run s f sec root rcs file L Ht Hok Hd Hsec Hgeo Hu Hst He) as (r & s' & E & H1 & H2 & H3 & H4 & _ & H5).
  exists r, s'. split_and!; assumption.
Qed.
End Boot.

(** ** Witness: the volume and image of ElfTheorems.v. *)
Definition sample_layout : layout := Layout 0x180000 0x100000 0x101000 0x102000 0x150000 0x151000 0x160000 0x160100
  0x152000 0x152100 0x152200 0x153000 0x160200 0x157010 0x158000 0x15A000 0x30000 0x31000.
Definition before_userland : boot sim :=
  bst booted (replicate 16 unused_process) 0 (elf_drive (elf_bytes 0x2000000)) (Bpb 0 0 0 0 0 0) [] (GpuVars 0 0 0 0 (Virtqueue 0 0 0 0 0 0 0 0))
    (CpuState 0 0x159000) (Cpu booted (0, 0) (0, 0) 0 0x08 [] ∅) (Paging booted 0 0 0 [] 0) 0.

Lemma boot_reaches_user_witness : exists s', boot_userland ∅ sample_layout before_userland = Ret (UserMode 0x2000000 0x15C000, s') /\
  ld8 (ram (bmem s')) 0x2000000 = 0xEB.
Proof.
  destruct (boot_reaches_user ∅ sample_layout 0x180000 0x1180000 before_userland (elf_volume (elf_bytes 0x2000000)) boot_sector [2] [3] elf_file ∅
    eq_refl booted_heap (elf_volume_ok _ (elf_bytes_list _)) eq_refl volume_geometry (elf_user_file _) ltac:(cbn; lia)
    ltac:(change (sector_bpb boot_sector) with volume_bpb; rewrite elf_image_data; split; [exact elf_image_ok|by left])) as (r & s' & E & _ & _ & _ & _ & Hr).
  destruct Hr as [(_ & Hno & _)|(rsp & -> & [_ _ _ _ _ Hrsp] & Hx)]; [by destruct booted_room|].
  change (sector_bpb boot_sector) with volume_bpb in *. rewrite elf_image_data in *. exists s'. split.
  - rewrite E. change (elf_entry (elf_bytes 0x2000000)) with 0x2000000. do 3 f_equal. cbn in Hrsp. unfold USER_STACK_SIZE in Hrsp. word_lia.
  - rewrite Hx; [vm_compute; reflexivity|]. right; left; unfold HEAP_BYTES; vm_compute; congruence.
Defined.
