(* ===== verification/Fat32List.v ===== *)
(** * Listing the root directory ([fat32_list_root_files] of
      Kernel/Drivers/FileSystem/FAT32/FAT32_Main.c)

    The buffer for long names, [lfn_stack], is a memory of its own: its 260
    bytes are at 0 to 259, and what follows on the stack comes after them.
    A sector is scanned without effects but the output, which [list_sector]
    collects.  A long name is printed by its low bytes. *)
From S2P Require Import Prelude Machine Utils Serial Memory Disk Fat32 Syscall.

Definition LFN_STACK_SIZE : Z := 260.

(** One of the three loops over the characters of a long-name entry: [n]
    characters at [at_], written from [pos + k] on; the final [k]. *)
Fixpoint lfn_chars (n : nat) (buf : mem) (at_ pos k : Z) (stack : mem) : Z * mem :=
  match n with
  | O => (k, stack)
  | S n' =>
      let c := ld16 buf at_ in
      if (c =? 0) || (c =? 0xFFFF) then (k, stack)
      else lfn_chars n' buf (at_ + 2) pos (k + 1) (st8 stack (u32 (pos + k)) c)
  end.

Definition lfn_entry (buf : mem) (i order : Z) (stack : mem) : mem :=
  let pos := u32 ((order - 1) * 13) in
  let '(k, stack) := lfn_chars 5 buf (i + 1) pos 0 stack in
  let '(k, stack) := lfn_chars 6 buf (i + 14) pos k stack in
  snd (lfn_chars 2 buf (i + 28) pos k stack).

(** The loop that cuts trailing spaces; [n] characters are left. *)
Fixpoint cut_spaces (n : nat) (name : mem) : mem :=
  match n with
  | O => name
  | S j => if ld8 name (Z.of_nat j) =? 32 then cut_spaces j (st8 name (Z.of_nat j) 0) else name
  end.

(** How the scan of a sector ends: the function returns, or goes on. *)
Inductive list_scan := ListEnd (out : list sev) | ListMore (out : list sev) (stack : mem) (count : Z).
Definition printed_first (es : list sev) (r : list_scan) : list_scan :=
  match r with ListEnd out => ListEnd (es ++ out) | ListMore out st n => ListMore (es ++ out) st n end.

Section List.
Context {B : Type} (rd : Z -> Z -> Z -> mem -> M (dstate B) (bool * mem)) (junk : mem).

(** The loop over the entries of a sector; [n] are left. *)
Fixpoint list_sector (n : nat) (i : Z) (buf stack : mem) (count : Z) : outcome list_scan :=
  match n with
  | O => Ret (ListMore [] stack count)
  | S n' =>
      if ld8 buf i =? 0x00 then Ret (ListEnd [])
      else if ld8 buf i =? 0xE5 then list_sector n' (i + 32) buf stack 0
      else
        let attr := ld8 buf (i + 11) in
        if attr =? 0x0F then
          let order := Z.land (ld8 buf i) 0x3F in
          list_sector n' (i + 32) buf (lfn_entry buf i order stack) (if count <? order then order else count)
        else if negb (Z.land attr 0x08 =? 0) then list_sector n' (i + 32) buf stack 0
        else
          let stack := if negb (count =? 0) then st8 stack (u32 (count * 13)) 0 else stack in
          name ←
            (if negb (count =? 0) then read_cstring (S (stdpp.base.size stack)) stack 0
             else read_cstring 12 (cut_spaces 11 (st8 (copy_between junk 0 buf i 11) 11 0)) 0);
          r ← list_sector n' (i + 32) buf (memset stack 0 0 LFN_STACK_SIZE) 0;
          Ret (printed_first [SBytes name; line ""] r)
  end.

(** The loop over the sectors of a cluster; [n] are left.  [None] when the
    function returns. *)
Fixpoint list_cluster (n : nat) (sec cluster : Z) (buf stack : mem) (count : Z) : M (fs B) (option (mem * mem * Z)) :=
  match n with
  | O => mret (Some (buf, stack, count))
  | S n' =>
      p ← gets bpb;
      let lba := cluster_to_lba p cluster in
      if lba =? 0 then mret None
      else
        '(r, buf) ← on_dev (rd (u32 (lba + sec)) 0 1 buf);
        if negb r then mret None
        else
          l ← liftO (list_sector (Z.to_nat ((bytes_per_sector p + 31) / 32)) 0 buf stack count);
          match l with
          | ListEnd out => fs_say out;; mret None
          | ListMore out stack count => fs_say out;; list_cluster n' (sec + 1) cluster buf stack count
          end
  end.

(** The loop over [c]; [n] rounds are left. *)
Fixpoint list_chain (n : nat) (cluster : Z) (buf stack : mem) (count : Z) : M (fs B) unit :=
  match n with
  | O => mret tt
  | S n' =>
      p ← gets bpb;
      r ← list_cluster (Z.to_nat (sectors_per_cluster p)) 0 cluster buf stack count;
      match r with
      | None => mret tt
      | Some (buf, stack, count) =>
          next ← fat_get_next_cluster rd junk cluster;
          if end_of_chain next then mret tt else list_chain n' next buf stack count
      end
  end.

Definition fat32_list_root_files : M (fs B) unit :=
  p ← gets bpb;
  list_chain (Z.to_nat (max_clusters p)) (root_cluster p) junk (memset junk 0 0 LFN_STACK_SIZE) 0.
End List.
