(* ===== verification/Fat32ListTheorems.v ===== *)
(** * The properties of the directory listing

    The scan of the sectors is first related to a function over the list of
    all 32-byte entries of the directory ([list_entries]); then directories
    that are written as files with optional long names are listed. *)
From S2P Require Import Prelude Machine Utils Serial Memory Heap HeapTheorems Process Disk BlockDev Fat32 Fat32Spec Fat32Dir Fat32Theorems.
From S2P Require Import SysFile SysFileTheorems Display Syscall SyscallTheorems Uart Elf ElfTheorems Fat32List.

(** ** Entries as lists of bytes *)

(** The characters up to the first 0 or 0xFFFF. *)
Fixpoint good (us : list Z) : list Z :=
  match us with
  | [] => []
  | c :: us => if (c =? 0) || (c =? 0xFFFF) then [] else c :: good us
  end.
Definition units (e : list Z) (o n : Z) : list Z := (fun j => word16_at e (o + 2 * j)) <$> seqZ 0 n.
Definition entry_chars (e : list Z) : list Z := good (units e 1 5) ++ good (units e 14 6) ++ good (units e 28 2).

(** A short name without its trailing spaces. *)
Fixpoint rstrip (l : list Z) : list Z :=
  match l with
  | [] => []
  | c :: l => match rstrip l with [] => if c =? 32 then [] else [c] | l' => c :: l' end
  end.
Fixpoint until_nul (l : list Z) : list Z :=
  match l with [] => [] | c :: l => if c =? 0 then [] else c :: until_nul l end.
Definition short_name (e : list Z) : list Z := until_nul (rstrip (take 11 e)).

Fixpoint list_entries (es : list (list Z)) (stack : mem) (count : Z) : outcome list_scan :=
  match es with
  | [] => Ret (ListMore [] stack count)
  | e :: es =>
      if byte_at e 0 =? 0 then Ret (ListEnd [])
      else if byte_at e 0 =? 0xE5 then list_entries es stack 0
      else if byte_at e 11 =? 0x0F then
        let order := Z.land (byte_at e 0) 0x3F in
        list_entries es (store_bytes stack (u32 ((order - 1) * 13)) (entry_chars e)) (if count <? order then order else count)
      else if negb (Z.land (byte_at e 11) 0x08 =? 0) then list_entries es stack 0
      else
        let stack := if negb (count =? 0) then st8 stack (u32 (count * 13)) 0 else stack in
        name ← (if negb (count =? 0) then read_cstring (S (stdpp.base.size stack)) stack 0 else Ret (short_name e));
        r ← list_entries es (memset stack 0 0 LFN_STACK_SIZE) 0;
        Ret (printed_first [SBytes name; line ""] r)
  end.

Lemma length_good us : (length (good us) <= length us)%nat.
Proof. induction us as [|c us IH]; cbn; [lia|]. destruct (_ || _); cbn; lia. Qed.

Lemma store_bytes_app m a l1 l2 : store_bytes m a (l1 ++ l2) = store_bytes (store_bytes m a l1) (a + Z.of_nat (length l1)) l2.
Proof.
  revert m a; induction l1 as [|v l1 IH]; intros m a; cbn [store_bytes app length]; [by rewrite Z.add_0_r|].
  rewrite IH. f_equal. lia.
Qed.

Lemma lfn_chars_run n buf pos : forall a k stack, 0 <= k -> 0 <= pos -> pos + k + Z.of_nat n <= 4294967296 ->
  let l := good ((fun j => ld16 buf (a + 2 * j)) <$> seqZ 0 (Z.of_nat n)) in
  lfn_chars n buf a pos k stack = (k + Z.of_nat (length l), store_bytes stack (pos + k) l).
Proof.
  induction n as [|n IH]; intros a k stack Hk Hp Hn.
  { cbn. by rewrite Z.add_0_r. }
  rewrite seqZ_cons, fmap_cons by lia. cbn [lfn_chars good]. cbv zeta. replace (a + 2 * 0) with a by lia.
  destruct ((ld16 buf a =? 0) || _); [cbn; by rewrite Z.add_0_r|].
  rewrite u32_small, IH by lia. cbv zeta. replace (Z.pred (Z.of_nat (S n))) with (Z.of_nat n) by lia.
  assert ((fun j => ld16 buf (a + 2 + 2 * j)) <$> seqZ 0 (Z.of_nat n) = (fun j => ld16 buf (a + 2 * j)) <$> seqZ (Z.succ 0) (Z.of_nat n)) as ->.
  { rewrite <- (fmap_add_seqZ 1 0), <- list_fmap_compose. apply list_fmap_ext. intros i x _. cbn. f_equal. lia. }
  cbn [length store_bytes]. f_equal; [lia|f_equal; lia].
Qed.

Lemma entry_units buf i o n : 0 <= o -> o + 2 * n <= 32 ->
  (fun j => ld16 buf (i + o + 2 * j)) <$> seqZ 0 n = units (bytes buf i 32) o n.
Proof.
  intros Ho Hn. unfold units. apply list_fmap_ext. intros k j Hj. apply list_elem_of_lookup_2, elem_of_seqZ in Hj.
  rewrite word16_at_bytes by lia. f_equal. lia.
Qed.

Lemma lfn_entry_run buf i order stack : 0 <= order < 64 ->
  lfn_entry buf i order stack = store_bytes stack (u32 ((order - 1) * 13)) (entry_chars (bytes buf i 32)).
Proof.
  intros Ho. unfold lfn_entry, entry_chars. set (pos := u32 ((order - 1) * 13)).
  assert (0 <= pos <= 4294967283) as Hp by (unfold pos; word_lia).
  pose proof (length_good (units (bytes buf i 32) 1 5)) as L1. pose proof (length_good (units (bytes buf i 32) 14 6)) as L2.
  unfold units in L1 at 2, L2 at 2. rewrite length_fmap, length_seqZ in L1, L2.
  rewrite lfn_chars_run by lia. cbv zeta. change (Z.of_nat 5) with 5. rewrite (entry_units buf i 1 5), Z.add_0_l by lia.
  rewrite lfn_chars_run by lia. cbv zeta. change (Z.of_nat 6) with 6. rewrite (entry_units buf i 14 6) by lia.
  rewrite lfn_chars_run by lia. cbv zeta. change (Z.of_nat 2) with 2. rewrite (entry_units buf i 28 2) by lia.
  cbn [snd]. rewrite !store_bytes_app, Z.add_0_r. f_equal. lia.
Qed.

(** ** The short name *)

Lemma rstrip_snoc l c : rstrip (l ++ [c]) = if c =? 32 then rstrip l else l ++ [c].
Proof.
  induction l as [|d l IH]; [cbn; by destruct (c =? 32)|]. cbn [app rstrip]. rewrite IH.
  destruct (c =? 32); [done|]. by destruct l.
Qed.

Lemma cut_spaces_run l : forall name, holds name 0 l ->
  exists k, (k <= length l)%nat /\ rstrip l = take k l /\ forall x, ld8 (cut_spaces (length l) name) x = if (Z.of_nat k <=? x) && (x <? Z.of_nat (length l)) then 0 else ld8 name x.
Proof.
  induction l as [|c l IH] using rev_ind; intros name Hn.
  { exists 0%nat. split_and!; [done|done|]. intros x. cbn. zcases; (lia || done). }
  rewrite length_app, Nat.add_comm. cbn [length Nat.add cut_spaces]. rewrite holds_app, holds_cons in Hn. destruct Hn as (Hl & Hc & _).
  rewrite Z.add_0_l in Hc. rewrite Hc, rstrip_snoc. destruct (Z.eqb_spec c 32) as [->|Hne].
  - destruct (IH (st8 name (Z.of_nat (length l)) 0)) as (k & Hk & Hr & Hx).
    { eapply holds_agree; [|exact Hl]. intros x Hx. rewrite ld8_st8. zcases; (lia || done). }
    exists k. split_and!; [lia|by rewrite Hr, take_app_le by lia|]. intros x. rewrite Hx, ld8_st8. zcases; try lia; done.
  - exists (S (length l)). split_and!; [lia|by rewrite take_ge by (rewrite length_app; cbn; lia)|].
    intros x. zcases; (lia || done).
Qed.

Lemma read_cstring_until m l : forall p fuel, holds m p (l ++ [0]) -> (length l < fuel)%nat -> read_cstring fuel m p = Ret (until_nul l).
Proof.
  induction l as [|c l IH]; intros p [|fuel] Hh Hf; cbn [length app] in *; try lia; rewrite holds_cons in Hh; destruct Hh as [Hc Hh]; cbn [read_cstring until_nul].
  - by rewrite Hc.
  - rewrite Hc. destruct (c =? 0); [done|]. by rewrite (IH (p + 1) fuel Hh ltac:(lia)).
Qed.

Lemma short_name_run (junk buf : mem) i :
  read_cstring 12 (cut_spaces 11 (st8 (copy_between junk 0 buf i 11) 11 0)) 0 = Ret (short_name (bytes buf i 32)).
Proof.
  set (name := st8 _ 11 0). set (l := bytes buf i 11).
  assert (forall x, 0 <= x < 11 -> ld8 (copy_between junk 0 buf i 11) x = ld8 buf (i + x)) as Hc.
  { intros x Hx. rewrite ld8_copy_between by lia. zcases; try lia. f_equal. lia. }
  assert (length l = 11%nat) as Hl by (unfold l; by rewrite length_bytes).
  assert (holds name 0 l) as Hh.
  { unfold holds. rewrite Hl. apply bytes_eq. intros j Hj. unfold name. rewrite ld8_st8, Z.add_0_l. change (Z.of_nat 11) with 11 in Hj. rewrite Hc by lia. zcases; (lia || done). }
  destruct (cut_spaces_run l name Hh) as (k & Hk & Hr & Hx). rewrite Hl in Hk, Hx.
  unfold short_name. change 11%nat with (Z.to_nat 11). rewrite bytes_take by lia. fold l. rewrite Hr.
  apply read_cstring_until; [|rewrite length_take; lia].
  rewrite holds_app, holds_cons. split_and!; [| |by apply holds_nil].
  - unfold holds. rewrite length_take, Hl. rewrite <- Hh at 1. rewrite Hl. change (Z.of_nat 11) with 11.
    replace (Z.of_nat (k `min` 11)) with (Z.of_nat k) by lia. replace k with (Z.to_nat (Z.of_nat k)) at 2 by lia. rewrite bytes_take by lia.
    apply bytes_agree. intros x Hx2. rewrite Hx. zcases; (lia || done).
  - rewrite Hx, length_take, Hl. unfold name. zcases; try done; rewrite ld8_st8; zcases; (lia || done).
Qed.

(** ** From sectors to the whole directory *)

Definition then_list (o : outcome list_scan) (k : mem -> Z -> outcome list_scan) : outcome list_scan :=
  match o with
  | Ret (ListMore out stack count) => r ← k stack count; Ret (printed_first out r)
  | o => o
  end.
Definition scan_out (r : list_scan) : list sev := match r with ListEnd out | ListMore out _ _ => out end.

Lemma printed_first_nil r : printed_first [] r = r.
Proof. by destruct r. Qed.
Lemma printed_first_app es1 es2 r : printed_first es1 (printed_first es2 r) = printed_first (es1 ++ es2) r.
Proof. destruct r; cbn; by rewrite app_assoc. Qed.

Lemma list_sector_run junk n i buf stack count :
  list_sector junk n i buf stack count = list_entries (chunks n (bytes buf i (32 * Z.of_nat n))) stack count.
Proof.
  revert i stack count; induction n as [|n IH]; intros i stack count; [reflexivity|]. cbn [list_sector chunks list_entries].
  replace (32 * Z.of_nat (S n)) with (32 + 32 * Z.of_nat n) by lia. rewrite bytes_app by lia.
  rewrite take_app_length', drop_app_length' by (by rewrite length_bytes). rewrite !IH.
  rewrite !byte_at_bytes, Z.add_0_r by lia.
  destruct (ld8 buf i =? 0x00); [done|]. destruct (ld8 buf i =? 0xE5); [done|].
  destruct (ld8 buf (i + 11) =? 0x0F).
  { cbv zeta. rewrite lfn_entry_run; [by rewrite ?IH|]. change 0x3F with (Z.ones 6). rewrite Z.land_ones by lia. change (2 ^ 6) with 64. word_lia. }
  destruct (negb _); [done|]. by rewrite short_name_run, ?IH.
Qed.

Lemma list_entries_app es1 es2 : forall stack count,
  list_entries (es1 ++ es2) stack count = then_list (list_entries es1 stack count) (list_entries es2).
Proof.
  induction es1 as [|e es1 IH]; intros stack count; cbn [app list_entries then_list].
  { destruct (list_entries es2 stack count); cbn; [by rewrite printed_first_nil|done..]. }
  destruct (byte_at e 0 =? 0); [done|]. destruct (byte_at e 0 =? 0xE5); [apply IH|]. destruct (byte_at e 11 =? 0x0F); [apply IH|].
  destruct (negb (Z.land _ _ =? 0)); [apply IH|]. cbv zeta. destruct (if negb (count =? 0) then read_cstring _ _ _ else _) as [name| |]; [|done..].
  cbn [mbind outcome_bind]. rewrite IH. destruct (list_entries es1 _ _) as [[out|out st n]| |]; cbn [then_list mbind outcome_bind printed_first]; [done| |done..].
  destruct (list_entries es2 st n) as [r| |]; cbn; [|done..]. by rewrite printed_first_app.
Qed.

Section Chain.
Context {B : Type} (rd : Z -> Z -> Z -> mem -> M (dstate B) (bool * mem))
  (ok : B -> contents -> Prop)
  {BR : BlockReader B rd ok} (junk : mem).
Implicit Types (m : mstate) (b : B) (f : contents) (p : FAT32_BPB).

Lemma fs_say_run m b p es : fs_say es (Fs (DState m b) p) = Ret (tt, Fs (DState (add_serial es m) b) p).
Proof using Type. reflexivity. Qed.

Lemma list_cluster_run n p c : geometry p -> valid_cluster p c ->
  forall m b f sec buf stack count r, ok b f -> 0 <= sec -> sec + Z.of_nat n <= sectors_per_cluster p ->
  readable f (cluster_lba p c + sec) (Z.of_nat n) ->
  list_entries (entries (sectors_data f (cluster_lba p c + sec) (Z.of_nat n))) stack count = Ret r ->
  exists buf' b', list_cluster rd junk n sec c buf stack count (Fs (DState m b) p) =
      Ret (match r with ListEnd _ => None | ListMore _ st k => Some (buf', st, k) end, Fs (DState (add_serial (scan_out r) m) b') p) /\ ok b' f.
Proof using BR.
  intros Hg Hv. destruct (cluster_to_lba_val p c Hg Hv) as (Hlba & _ & Hl0). pose proof (geo_spc p Hg).
  destruct Hv as (_ & _ & Hend). unfold LBA_LIMIT in Hend.
  induction n as [|n IH]; intros m b f sec buf stack count r Hok Hsec Hn Hrd He; cbn [list_cluster].
  { injection He as <-. exists buf, b. cbn. by rewrite add_serial_nil. }
  rewrite bind_gets. cbn [bpb]. rewrite (geo_bps p Hg), Hlba. destruct (Z.eqb_spec (cluster_lba p c) 0); [lia|].
  rewrite u32_small by lia. destruct (Hrd 0 ltac:(lia)) as [l Hl]. rewrite Z.add_0_r in Hl.
  destruct (read_one rd ok m b f p (cluster_lba p c + sec) buf l Hok ltac:(unfold LBA_LIMIT; lia) Hl) as (buf1 & b1 & E1 & Hok1 & Hb).
  rewrite (bind_run _ _ _ _ _ E1). cbn [negb]. change (Z.to_nat ((512 + 31) / 32)) with 16%nat. rewrite list_sector_run.
  change (32 * Z.of_nat 16) with 512. rewrite <- Hb.
  replace (Z.of_nat (S n)) with (Z.of_nat n + 1) in He by lia. rewrite sectors_data_S, Hl in He by lia. unfold default, id in He.
  assert (length l = 512%nat) as Hlen by (rewrite Hb; apply length_bytes).
  rewrite entries_app in He by (by rewrite Hlen). rewrite list_entries_app in He.
  assert (entries l = chunks 16 l) as El by (unfold entries; by rewrite Hlen). rewrite El in He.
  destruct (list_entries (chunks 16 l) stack count) as [[out|out st k]| |] eqn:E; cbn [then_list] in He; try discriminate He.
  - injection He as <-. rewrite (bind_run _ _ _ (ListEnd out) (Fs (DState m b1) p)) by done. cbn [scan_out].
    rewrite (bind_run _ _ _ _ _ (fs_say_run m b1 p out)). by exists buf1, b1.
  - rewrite (bind_run _ _ _ (ListMore out st k) (Fs (DState m b1) p)) by done. rewrite (bind_run _ _ _ _ _ (fs_say_run m b1 p out)).
    destruct (list_entries (entries _) st k) as [r2| |] eqn:E2; cbn in He; try discriminate He. injection He as <-.
    destruct (IH (add_serial out m) b1 f (sec + 1) buf1 st k r2 Hok1 ltac:(lia) ltac:(lia)) as (buf2 & b2 & E3 & Hok2).
    { intros i Hi. replace (cluster_lba p c + (sec + 1) + i) with (cluster_lba p c + sec + (1 + i)) by lia. apply Hrd. lia. }
    { by replace (cluster_lba p c + (sec + 1)) with (cluster_lba p c + sec + 1) by lia. }
    exists buf2, b2. split; [|done]. rewrite E3, add_serial_app. by destruct r2.
Qed.

Lemma list_chain_run f p c cs : geometry p -> fat_chain p f c cs -> Forall (cluster_readable p f) cs ->
  forall n m b buf stack count r, ok b f -> (length cs <= n)%nat ->
  list_entries (entries (chain_data p f cs)) stack count = Ret r ->
  exists b', list_chain rd junk n c buf stack count (Fs (DState m b) p) = Ret (tt, Fs (DState (add_serial (scan_out r) m) b') p) /\ ok b' f.
Proof using BR.
  intros Hg Hch. pose proof (geo_spc p Hg).
  induction Hch as [c e Hv He Hend|c e cs Hv He Hend Hch IH]; intros Hrd n m b buf stack count r Hok Hn Hr;
    (destruct n as [|n]; [cbn in Hn; lia|]); inversion_clear Hrd as [|? ? Hrc Hrcs]; cbn [list_chain];
    rewrite bind_gets; cbn [bpb]; unfold cluster_readable in Hrc;
    pose proof (length_sectors_data f _ _ (bd_sectors b f Hok) Hrc ltac:(lia)) as Hlen;
    rewrite chain_data_cons, entries_app, list_entries_app in Hr
      by (rewrite Hlen; apply Nat2Z.inj; rewrite Nat2Z.inj_mod, Z2Nat.id by lia; change (Z.of_nat 32) with 32; word_lia);
    (destruct (list_entries (entries (sectors_data _ _ _)) stack count) as [r1| |] eqn:E1 in Hr; [|discriminate Hr..]);
    (destruct (list_cluster_run (Z.to_nat (sectors_per_cluster p)) p c Hg Hv m b f 0 buf stack count r1 Hok) as (buf1 & b1 & E2 & Hok1);
      [lia|lia|rewrite Z.add_0_r, Z2Nat.id by lia; exact Hrc|rewrite Z.add_0_r, Z2Nat.id by lia; exact E1|]);
    rewrite (bind_run _ _ _ _ _ E2); destruct Hv as (Hv1 & Hv2 & _);
    destruct (get_next_run rd ok junk (add_serial (scan_out r1) m) b1 f p c e Hok1 Hg Hv1 Hv2 He) as (b2 & E3 & Hok2);
    (destruct r1 as [out|out st k]; cbn [then_list] in Hr;
     [injection Hr as <-; by exists b1|rewrite (bind_run _ _ _ _ _ E3), Hend]).
  - cbn in Hr. injection Hr as <-. cbn [scan_out printed_first]. rewrite app_nil_r. by exists b2.
  - destruct (list_entries (entries _) st k) as [r2| |] eqn:E4; cbn in Hr; try discriminate Hr. injection Hr as <-.
    destruct (IH Hrcs n (add_serial out m) b2 buf1 st k r2 Hok2 ltac:(cbn in Hn; lia) E4) as (b3 & E5 & Hok3).
    exists b3. split; [|done]. cbn [scan_out]. rewrite E5, add_serial_app. by destruct r2.
Qed.
End Chain.

(** ** Directories

    A file is listed under its long name, which is in the entries before its
    own, thirteen characters each and the last part first; without a long
    name it is listed under its short name. *)

Definition pad13 (l : list Z) : list Z := take 13 (l ++ 0 :: replicate 12 0xFFFF).
Definition part (long : list Z) (k : nat) : list Z := take 13 (drop (13 * k) long).

(** The entry with part [k] (counted from 0) of a long name. *)
Record lfn_part (long : list Z) (k : nat) (e : list Z) : Prop := {
  lp_order : Z.land (byte_at e 0) 0x3F = Z.of_nat k + 1;
  lp_live : byte_at e 0 <> 0 /\ byte_at e 0 <> 0xE5;
  lp_attr : byte_at e 11 = 0x0F;
  lp_chars : units e 1 5 ++ units e 14 6 ++ units e 28 2 = pad13 (part long k)
}.
Fixpoint lfn_parts (long : list Z) (n : nat) (es : list (list Z)) : Prop :=
  match n, es with
  | O, [] => True
  | S k, e :: es => lfn_part long k e /\ lfn_parts long k es
  | _, _ => False
  end.

Inductive dir_item := Hidden (e : list Z) | Named (long : list Z) (lfns : list (list Z)) (e : list Z).
Definition item_entries (it : dir_item) : list (list Z) := match it with Hidden e => [e] | Named _ lfns e => lfns ++ [e] end.
Definition item_names (it : dir_item) : list (list Z) :=
  match it with
  | Hidden _ => []
  | Named long _ e => [if bool_decide (long = []) then short_name e else long]
  end.
(** Names are at most 247 characters long, the most that fits. *)
Definition item_ok (it : dir_item) : Prop :=
  match it with
  | Hidden e => byte_at e 0 <> 0 /\ (byte_at e 0 = 0xE5 \/ (byte_at e 11 <> 0x0F /\ Z.land (byte_at e 11) 0x08 <> 0))
  | Named long lfns e =>
      Forall (fun c => 0 < c < 256) long /\ Z.of_nat (length long) <= 247 /\ lfn_parts long ((length long + 12) / 13) lfns /\
      byte_at e 0 <> 0 /\ byte_at e 0 <> 0xE5 /\ byte_at e 11 <> 0x0F /\ Z.land (byte_at e 11) 0x08 = 0
  end.
Definition listing (names : list (list Z)) : list sev := names ≫= fun n => [SBytes n; line ""].

Lemma good_padded l n o : Forall (fun c => 0 < c < 256) l ->
  good (take n (drop o (l ++ 0 :: replicate 12 0xFFFF))) = take n (drop o l).
Proof.
  assert (forall n k, good (take n (replicate k 0xFFFF)) = []) as Hff by (intros [|n'] [|k]; reflexivity).
  assert (forall n o, good (take n (drop o (0 :: replicate 12 0xFFFF))) = []) as Hpad.
  { intros n' [|o']; [by destruct n'|]. cbn [drop]. rewrite drop_replicate. apply Hff. }
  intros Hl. revert n o; induction Hl as [|c l Hc Hl IH]; intros n o; cbn [app].
  { rewrite Hpad. by rewrite drop_nil, take_nil. }
  destruct o as [|o]; [|apply IH]. cbn [drop]. destruct n as [|n]; [done|]. cbn [take good].
  destruct (Z.eqb_spec c 0), (Z.eqb_spec c 0xFFFF); try lia. cbn [orb]. f_equal. exact (IH n 0%nat).
Qed.

Lemma length_units e o n : 0 <= n -> length (units e o n) = Z.to_nat n.
Proof. intros Hn. unfold units. by rewrite length_fmap, length_seqZ. Qed.

(** The characters of an entry are its part of the name. *)
Lemma part_chars long k e : Forall (fun c => 0 < c < 256) long -> lfn_part long k e -> entry_chars e = part long k.
Proof.
  intros Hl [_ _ _ Hc]. assert (Forall (fun c => 0 < c < 256) (part long k)) as Hp by by apply Forall_take, Forall_drop.
  unfold pad13 in Hc. set (l := part long k) in *. set (pad := l ++ _) in *.
  assert (length l <= 13)%nat as Hlen by (unfold l, part; rewrite length_take; lia).
  assert (units e 1 5 = take 5 (drop 0 pad) /\ units e 14 6 = take 6 (drop 5 pad) /\ units e 28 2 = take 2 (drop 11 pad)) as (E1 & E2 & E3).
  { pose proof (length_units e 1 5 ltac:(lia)) as L1. pose proof (length_units e 14 6 ltac:(lia)) as L2. pose proof (length_units e 28 2 ltac:(lia)) as L3.
    split_and!.
    - apply (f_equal (take 5)) in Hc. rewrite take_app_length' in Hc by done. by rewrite take_take in Hc.
    - apply (f_equal (fun x => take 6 (drop 5 x))) in Hc. rewrite drop_app_length' in Hc by done. rewrite take_app_length' in Hc by done.
      rewrite Hc, skipn_firstn_comm, take_take. done.
    - apply (f_equal (drop 11)) in Hc. rewrite app_assoc, drop_app_length' in Hc by (rewrite length_app; lia). by rewrite Hc, skipn_firstn_comm. }
  unfold entry_chars. rewrite E1, E2, E3. unfold pad. rewrite !good_padded by done. rewrite drop_0.
  rewrite <- (take_drop 5 l) at 4. f_equal. rewrite <- (take_drop 6 (drop 5 l)) at 2. f_equal. rewrite drop_drop. apply take_ge. rewrite length_drop. lia.
Qed.

(** The parts from [n] on are in [lfn_stack], the rest is 0. *)
Definition parts_from (long : list Z) (n : nat) (stack : mem) : Prop :=
  forall x, 0 <= x < 260 -> ld8 stack x = if 13 * Z.of_nat n <=? x then byte_at long x else 0.

Lemma byte_at_ge (l : list Z) x : Z.of_nat (length l) <= x -> byte_at l x = 0.
Proof. intros Hx. unfold byte_at. by rewrite lookup_ge_None_2 by lia. Qed.

Lemma part_stored long k stack : Forall (fun c => 0 < c < 256) long -> (k < 19)%nat -> parts_from long (S k) stack ->
  parts_from long k (store_bytes stack (13 * Z.of_nat k) (part long k)).
Proof.
  intros Hl Hk Hp x Hx. set (l := part long k).
  assert (length l = Nat.min 13 (length long - 13 * k)) as Hlen by (unfold l, part; rewrite length_take, length_drop; lia).
  assert (byte_list l) as Hb by (apply (Forall_impl (fun c => 0 < c < 256)); [by apply Forall_take, Forall_drop|cbn; lia]).
  destruct (Z.lt_ge_cases x (13 * Z.of_nat k)) as [Hlt|Hge].
  { rewrite ld8_store_bytes, Hp by lia. zcases; (lia || done). }
  destruct (Z.leb_spec (13 * Z.of_nat k) x); [|lia]. destruct (Z.lt_ge_cases x (13 * Z.of_nat k + Z.of_nat (length l))) as [Hin|Hout].
  - replace x with (13 * Z.of_nat k + (x - 13 * Z.of_nat k)) at 1 by lia. rewrite (holds8 _ _ l) by (first [by apply holds_store_bytes|lia]).
    unfold l, part, byte_at. rewrite lookup_take_lt, lookup_drop by lia. do 2 f_equal. lia.
  - rewrite ld8_store_bytes, Hp by lia. destruct (Z.leb_spec (13 * Z.of_nat (S k)) x); [done|]. symmetry. apply byte_at_ge. lia.
Qed.

Lemma lfn_parts_run long rest : Forall (fun c => 0 < c < 256) long ->
  forall n lfns stack count, lfn_parts long n lfns -> (n <= 19)%nat -> 0 <= count -> parts_from long n stack ->
  exists stack', parts_from long 0 stack' /\ list_entries (lfns ++ rest) stack count = list_entries rest stack' (Z.max count (Z.of_nat n)).
Proof.
  intros Hl. induction n as [|k IH]; intros [|e lfns] stack count Hps Hn Hcount Hp; cbn [lfn_parts] in Hps; try done.
  { exists stack. split; [done|]. by rewrite Z.max_l. }
  destruct Hps as [He Hps]. pose proof (part_chars long k e Hl He) as Hc. destruct He as [H1 [H2 H3] H4 _].
  pose proof (part_stored long k stack Hl ltac:(lia) Hp) as Hp'. cbn [app list_entries].
  rewrite (proj2 (Z.eqb_neq _ _) H2), (proj2 (Z.eqb_neq _ _) H3), H4. change (0x0F =? 0x0F) with true. cbv zeta iota. rewrite H1, Hc.
  replace ((Z.of_nat k + 1 - 1) * 13) with (13 * Z.of_nat k) by lia. rewrite u32_small by lia.
  replace (if count <? Z.of_nat k + 1 then Z.of_nat k + 1 else count) with (Z.max count (Z.of_nat (S k))) by (zcases; lia).
  destruct (IH lfns _ (Z.max count (Z.of_nat (S k))) Hps ltac:(lia) ltac:(lia) Hp') as (st & Hst & E).
  exists st. split; [done|]. rewrite E. f_equal. lia.
Qed.

Definition clean (stack : mem) : Prop := forall x, 0 <= x < 260 -> ld8 stack x = 0.
Lemma clean_memset stack : clean (memset stack 0 0 LFN_STACK_SIZE).
Proof. intros x Hx. rewrite ld8_memset. unfold LFN_STACK_SIZE. zcases; (lia || done). Qed.

(** The name in [lfn_stack] when all its parts are there. *)
Lemma long_name_read long n stack : Forall (fun c => 0 < c < 256) long -> n = Z.of_nat ((length long + 12) / 13) -> Z.of_nat (length long) <= 247 ->
  parts_from long 0 stack -> let st := st8 stack (u32 (n * 13)) 0 in read_cstring (S (stdpp.base.size st)) st 0 = Ret long.
Proof.
  intros Hl -> Hlen Hp st. assert (Z.of_nat (length long) <= Z.of_nat ((length long + 12) / 13) * 13 < 260) as Hn.
  { rewrite Nat2Z.inj_div, Nat2Z.inj_add. change (Z.of_nat 12) with 12. change (Z.of_nat 13) with 13. word_lia. }
  set (n := Z.of_nat ((length long + 12) / 13) * 13) in *.
  assert (forall x, 0 <= x < 260 -> ld8 st x = byte_at long x) as Hst.
  { intros x Hx. unfold st. rewrite u32_small, ld8_st8 by lia. destruct (Z.eqb_spec n x) as [Ex|].
    - symmetry. apply byte_at_ge. lia.
    - rewrite Hp by done. change (13 * Z.of_nat 0) with 0. by destruct (Z.leb_spec 0 x); [|lia]. }
  assert (cstring_at st 0 long) as Hc.
  { split; [eapply Forall_impl; [exact Hl|cbn; lia]|]. apply list_eq. intros i. rewrite lookup_bytes, Z.add_0_l.
    destruct (Z.ltb_spec (Z.of_nat i) (Z.of_nat (length long) + 1)) as [Hi|Hi].
    - rewrite Hst by lia. destruct (Nat.eq_dec i (length long)) as [->|].
      + rewrite lookup_app_r, Nat.sub_diag, byte_at_ge by lia. done.
      + rewrite lookup_app_l by lia. unfold byte_at. rewrite Nat2Z.id. destruct (lookup_lt_is_Some_2 long i) as [v ->]; [lia|done].
    - symmetry. apply lookup_ge_None_2. rewrite length_app. cbn. lia. }
  apply read_cstring_run; [done|]. apply le_n_S, (cstring_fits _ 0), Hc.
Qed.

Lemma visible_entry e rest stack count name : byte_at e 0 <> 0 -> byte_at e 0 <> 0xE5 -> byte_at e 11 <> 0x0F -> Z.land (byte_at e 11) 0x08 = 0 ->
  (if negb (count =? 0) then let st := st8 stack (u32 (count * 13)) 0 in read_cstring (S (stdpp.base.size st)) st 0 else Ret (short_name e)) = Ret name ->
  exists st, clean st /\ list_entries (e :: rest) stack count = then_list (Ret (ListMore (listing [name]) st 0)) (list_entries rest).
Proof.
  intros H1 H2 H3 H4 Hname. cbn [list_entries]. rewrite (proj2 (Z.eqb_neq _ _) H1), (proj2 (Z.eqb_neq _ _) H2), (proj2 (Z.eqb_neq _ _) H3), H4.
  cbn [Z.eqb negb]. cbv zeta in Hname |- *. destruct (count =? 0); cbn [negb] in Hname |- *; rewrite Hname;
    (eexists; split; [apply clean_memset|reflexivity]).
Qed.

Lemma then_list_nil st n k : then_list (Ret (ListMore [] st n)) k = k st n.
Proof. cbn. destruct (k st n); cbn; by rewrite ?printed_first_nil. Qed.

(** One file, with its long name. *)
Lemma item_run it rest stack : item_ok it -> clean stack ->
  exists st, clean st /\ list_entries (item_entries it ++ rest) stack 0 = then_list (Ret (ListMore (listing (item_names it)) st 0)) (list_entries rest).
Proof.
  intros Hok Hcl. destruct it as [e|long lfns e]; cbn [item_entries item_names item_ok] in *.
  - destruct Hok as [H1 H2]. exists stack. split; [done|]. rewrite then_list_nil. cbn [app list_entries]. rewrite (proj2 (Z.eqb_neq _ _) H1).
    destruct (Z.eqb_spec (byte_at e 0) 0xE5); [done|]. destruct H2 as [?|[H2 H3]]; [done|].
    by rewrite (proj2 (Z.eqb_neq _ _) H2), (proj2 (Z.eqb_neq _ _) H3).
  - destruct Hok as (Hl & Hlen & Hps & H1 & H2 & H3 & H4). rewrite <- app_assoc. cbn [app].
    assert (((length long + 12) / 13 <= 19)%nat) as Hn.
    { apply Nat2Z.inj_le. rewrite Nat2Z.inj_div, Nat2Z.inj_add. change (Z.of_nat 12) with 12. change (Z.of_nat 13) with 13. change (Z.of_nat 19) with 19. word_lia. }
    destruct (lfn_parts_run long (e :: rest) Hl ((length long + 12) / 13)%nat lfns stack 0 Hps Hn ltac:(lia)) as (st & Hst & ->).
    { intros x Hx. rewrite Hcl by done. destruct (Z.leb_spec (13 * Z.of_nat ((length long + 12) / 13)) x); [|done]. symmetry. apply byte_at_ge.
      assert (Z.of_nat (length long) <= 13 * Z.of_nat ((length long + 12) / 13)); [|lia].
      rewrite Nat2Z.inj_div, Nat2Z.inj_add. change (Z.of_nat 12) with 12. change (Z.of_nat 13) with 13. word_lia. }
    rewrite Z.max_r by lia. apply visible_entry; try done. destruct long as [|c long]; [done|]. rewrite bool_decide_eq_false_2 by done.
    destruct (Z.eqb_spec (Z.of_nat ((length (c :: long) + 12) / 13)) 0) as [Hz|_].
    + exfalso. rewrite Nat2Z.inj_div, Nat2Z.inj_add in Hz. change (Z.of_nat 12) with 12 in Hz. change (Z.of_nat 13) with 13 in Hz. cbn [length] in Hz. word_lia.
    + cbn [negb]. by apply long_name_read.
Qed.

Lemma items_run items rest stack : Forall item_ok items -> clean stack ->
  exists st, clean st /\ list_entries ((items ≫= item_entries) ++ rest) stack 0 =
    then_list (Ret (ListMore (listing (items ≫= item_names)) st 0)) (list_entries rest).
Proof.
  intros Hi. revert stack; induction Hi as [|it items Hit _ IH]; intros stack Hcl.
  { exists stack. split; [done|]. by rewrite then_list_nil. }
  rewrite !bind_cons, <- app_assoc. destruct (item_run it ((items ≫= item_entries) ++ rest) stack Hit Hcl) as (st & Hst & ->). cbn [then_list].
  destruct (IH st Hst) as (st2 & Hst2 & ->). exists st2. split; [done|]. cbn [then_list]. unfold listing at 3. rewrite bind_app.
  destruct (list_entries rest st2 0); cbn; by rewrite ?printed_first_app.
Qed.

Section Listing.
Context {B : Type} (rd : Z -> Z -> Z -> mem -> M (dstate B) (bool * mem))
  (ok : B -> contents -> Prop)
  {BR : BlockReader B rd ok} (junk : mem).

(** C35. [fat32_list_root_files] on a root directory of files, deleted
    entries and volume labels, whatever their order and however they spread
    over sectors and clusters, in which every long name has at most 247
    characters, of codes 1 to 255, and its parts are all there, numbered and
    in order, right before the file's entry: it prints one line for each
    file, in order, with the file's long name, or the short name without
    trailing spaces when it has none, and changes nothing.  Longer names,
    which FAT32 allows, are excluded: from 248 characters on the function
    writes its terminator at index 260 of the 260 bytes of [lfn_stack]. *)
Theorem list_root_files_correct m b f p root items rest :
  ok b f -> geometry p -> fat_chain p f (root_cluster p) root -> Forall (cluster_readable p f) root -> Z.of_nat (length root) <= max_clusters p ->
  entries (chain_data p f root) = (items ≫= item_entries) ++ rest -> Forall item_ok items ->
  match rest with [] => True | e :: _ => byte_at e 0 = 0 end ->
  exists b', fat32_list_root_files rd junk (Fs (DState m b) p) = Ret (tt, Fs (DState (add_serial (listing (items ≫= item_names)) m) b') p) /\ ok b' f.
Proof using BR.
  intros Hok Hg Hch Hrd Hmax He Hi Hrest. unfold fat32_list_root_files. rewrite bind_gets. cbn [bpb].
  destruct (items_run items rest (memset junk 0 0 LFN_STACK_SIZE) Hi (clean_memset junk)) as (st & Hst & E).
  assert (exists r, list_entries (entries (chain_data p f root)) (memset junk 0 0 LFN_STACK_SIZE) 0 = Ret r /\ scan_out r = listing (items ≫= item_names)) as (r & Er & Hr).
  { rewrite He, E. destruct rest as [|e rest]; [|cbn [then_list list_entries]; rewrite Hrest]; (eexists; split; [reflexivity|]); apply app_nil_r. }
  rewrite <- Hr. exact (list_chain_run rd ok junk f p _ root Hg Hch Hrd (Z.to_nat (max_clusters p)) m b junk _ 0 r Hok ltac:(lia) Er).
Qed.
End Listing.

(** ** Examples *)

Definition word_bytes (v : Z) : list Z := [v mod 256; v / 256 mod 256].
Definition lfn_bytes (order : Z) (chars13 : list Z) : list Z :=
  [order] ++ (take 5 chars13 ≫= word_bytes) ++ [0x0F; 0; 0] ++ (take 6 (drop 5 chars13) ≫= word_bytes) ++ [0; 0] ++ (drop 11 chars13 ≫= word_bytes).
Definition file_bytes (short : list Z) : list Z := short ++ [0x20] ++ replicate 20 0.

(** A directory with a label, a file with a long name in two parts, a
    deleted file and a file with a short name. *)
Definition two_part_name : list Z := chars "a longer name.txt".
Definition sample_items : list dir_item :=
  [Hidden (chars "MY DISK    " ++ [0x08] ++ replicate 20 0);
   Named two_part_name [lfn_bytes 0x42 (pad13 (part two_part_name 1)); lfn_bytes 1 (pad13 (part two_part_name 0))] (file_bytes (chars "ALONGE~1TXT"));
   Hidden ([0xE5] ++ replicate 31 0); Named [] [] (file_bytes (chars "KERNEL     "))].
Definition list_root : list Z := sector_of (fun i => byte_at ((sample_items ≫= item_entries) ≫= id) i).

Lemma sample_items_ok : Forall item_ok sample_items.
Proof.
  assert (forall k e, (k =? 0) || (k =? 1) = true -> e = lfn_bytes (if k =? 1 then 0x42 else 1) (pad13 (part two_part_name (Z.to_nat k))) -> lfn_part two_part_name (Z.to_nat k) e) as Hpart.
  { intros k e Hk ->. apply orb_true_iff in Hk as [->%Z.eqb_eq| ->%Z.eqb_eq]; (split; [vm_compute; reflexivity|split; vm_compute; discriminate|vm_compute; reflexivity|vm_compute; reflexivity]). }
  unfold sample_items. rewrite !Forall_cons. split_and!; [| | | |apply Forall_nil_2].
  - split; [vm_compute; discriminate|right; split; vm_compute; discriminate].
  - split_and!; try (vm_compute; discriminate); try (vm_compute; reflexivity); try (vm_compute; congruence).
    + apply (bool_decide_unpack _). vm_compute. exact I.
    + split; [apply (Hpart 1); reflexivity|]. split; [apply (Hpart 0); reflexivity|exact I].
  - split; [vm_compute; discriminate|left; reflexivity].
  - split_and!; try (vm_compute; discriminate); try (vm_compute; reflexivity); try (vm_compute; congruence). apply Forall_nil_2.
Qed.

Lemma list_root_files_correct_witness : exists b',
  fat32_list_root_files disk_read ∅ (Fs (DState booted (drive_with list_root [])) volume_bpb) =
  Ret (tt, Fs (DState (add_serial [SBytes two_part_name; line ""; SBytes (chars "KERNEL"); line ""] booted) b') volume_bpb).
Proof.
  destruct (list_root_files_correct disk_read ata_disk ∅ booted (drive_with list_root []) (volume_with list_root []) volume_bpb [2] sample_items
    (drop 6 (entries (chain_data volume_bpb (volume_with list_root []) [2])))) as (b' & E & _).
  - apply volume_with_ok; [apply Forall_nil_2|]. apply sector_of_ok. intros i Hi. apply byte_at_range. apply (bool_decide_unpack _). vm_compute. exact I.
  - apply volume_geometry.
  - apply (chain_last _ _ 2 0x0FFFFFFF); try (vm_compute; reflexivity). split; [cbn; lia|split; [lia|vm_compute; congruence]].
  - repeat constructor. intros i Hi. cbn in Hi. assert (i = 0) as -> by lia. vm_compute. eauto.
  - vm_compute. congruence.
  - vm_compute. reflexivity.
  - apply sample_items_ok.
  - vm_compute. reflexivity.
  - exists b'. exact E.
Defined.
