(* ===== verification/KernelMain.v ===== *)
(** * The whole of [kernel_main]

    The theorems of the components meet: from the state in which the boot
    loader enters the kernel to the first instruction in user mode, on a
    machine with a FAT32 drive, a PCI host and perhaps a VirtIO GPU.  They
    share a bus; [Board] says that they do not disturb each other. *)
From S2P Require Import Prelude Machine Utils Serial Memory Heap HeapChain HeapInv HeapSpec Alloc HeapTheorems Pages.
From S2P Require Import Process ProcessTheorems Disk BlockDev Fat32 Fat32Spec Fat32Theorems SysFile SysFileTheorems Display Syscall.
From S2P Require Import Paging PagingTheorems Uart Cpu CpuTheorems Interrupt InterruptTheorems Elf ElfTheorems Pci PciTheorems Virtio VirtioTheorems VirtioInit.
From S2P Require Import Loader Boot BootTheorems.

(** A GPU that is there, in any state with memory decoding on. *)
Definition gpu_there {B} `{VirtioGpu B} (b : B) (R : gpu_regs) : Prop := dev_at b R true \/ dev_resetting b R \/ exists Q, dev_ok b R Q.

(** The serial port leaves the other devices alone, and reading PCI
    configuration space, turning the GPU on in its command register, its
    common configuration structure and its queue leave the drive. *)
Class Board (B : Type) `{Ports B, !AtaDrive B, !PciHost B, GpuConfig B, GpuDevice B, !VirtioGpu B} : Prop := {
  bd_serial b f r a p v : ata_disk b f -> pci_at b r a -> 0x3F8 <= p < 0x400 -> ata_disk (bus_out8 p v b) f /\ pci_at (bus_out8 p v b) r a;
  bd_serial_gpu b R on p v : dev_at b R on -> 0x3F8 <= p < 0x400 -> dev_at (bus_out8 p v b) R on;
  bd_address b f v : ata_disk b f -> ata_disk (bus_out32 PCI_CONFIG_ADDRESS v b) f;
  bd_data b f : ata_disk b f -> ata_disk (snd (bus_in32 PCI_CONFIG_DATA b)) f;
  bd_command b f R on v : ata_disk b f -> dev_at b R on ->
    ata_disk (bus_out32 PCI_CONFIG_DATA v (bus_out32 PCI_CONFIG_ADDRESS (command_register R) b)) f;
  bd_cfg_read b f R n off : ata_disk b f -> gpu_there b R -> 0 <= off < 56 -> ata_disk (snd (cfg_read n (gr_common R + off) b)) f;
  bd_cfg_write b f R n off v : ata_disk b f -> gpu_there b R -> 0 <= off < 56 -> ata_disk (cfg_write n (gr_common R + off) v b) f;
  bd_notify b f R Q m : ata_disk b f -> dev_ok b R Q -> ata_disk (fst (gpu_notify (notify_at R) 0 b m)) f;
  bd_poll b f R Q m : ata_disk b f -> dev_ok b R Q -> ata_disk (fst (gpu_poll b m)) f
}.

(** The addresses of the kernel's variables and their sizes. *)
Definition statics (l : layout) : list (Z * Z) :=
  [(l_pml4 l, 4096); (l_pdpt l, 4096); (l_pd l, 262144); (l_idt l, 4096); (l_idt_ptr l, 10); (l_gdt l, 64); (l_gdtr l, 10); (l_tss l, 104)].

(** The heap begins at the first page after the kernel. *)
Definition heap_base (l : layout) : Z := (l_kernel_end l + 4095) / 4096 * 4096.

Record layout_ok (l : layout) : Prop := {
  lo_end : 0 < l_kernel_end l <= 0x400000;
  lo_in : Forall (fun r => 0 < fst r /\ fst r + snd r <= l_kernel_end l) (statics l);
  lo_apart i j r1 r2 : statics l !! i = Some r1 -> statics l !! j = Some r2 -> i <> j ->
    fst r1 + snd r1 <= fst r2 \/ fst r2 + snd r2 <= fst r1;
  lo_aligned : l_pml4 l mod 4096 = 0 /\ l_pdpt l mod 4096 = 0 /\ l_pd l mod 4096 = 0;
  (** The local structures of the display driver are on the stack. *)
  lo_locals : locals_ok (l_cmd l) (l_resp l) (heap_base l) (heap_base l + HEAP_BYTES);
  lo_off : Forall (fun r => (l_cmd l + 64 <= fst r \/ fst r + snd r <= l_cmd l) /\ (l_resp l + 408 <= fst r \/ fst r + snd r <= l_resp l)) (statics l);
  lo_stubs : 0 <= l_isr_default l < 2 ^ 64 /\ 0 <= l_isr_page_fault l < 2 ^ 64;
  lo_calls : 0 <= l_syscall_entry l < 2 ^ 64 /\ 0 <= l_cpu_state l < 2 ^ 64;
  lo_stacks : 0 <= l_kernel_stack l < 2 ^ 63 /\ 0 <= l_syscall_stack l < 2 ^ 63 /\ 0 <= l_user_stack l < 2 ^ 63
}.

(** Two static variables are apart. *)
Ltac apart L i j := let H := fresh "Hap" in pose proof (lo_apart _ L i j _ _ eq_refl eq_refl ltac:(discriminate)) as H; cbn [fst snd] in H.

Lemma layout_tables l : layout_ok l -> tables_ok (l_pml4 l) (l_pdpt l) (l_pd l).
Proof.
  intros L. apart L 0%nat 1%nat. apart L 0%nat 2%nat. apart L 1%nat 2%nat. destruct L as [H1 H2 _ H3 _ _ _ _ _].
  unfold statics in H2. rewrite !Forall_cons in H2. cbn [fst snd] in H2. split; lia.
Qed.

Lemma layout_gdt l : layout_ok l -> gdt_layout (l_gdt l) (l_gdtr l) (l_tss l) (l_kernel_stack l).
Proof.
  intros L. apart L 5%nat 6%nat. apart L 5%nat 7%nat. apart L 6%nat 7%nat. destruct L as [H1 H2 _ H3 _ _ _ _ H4].
  unfold statics in H2. rewrite !Forall_cons in H2. cbn [fst snd] in H2. split; lia.
Qed.

(** The registers of the [syscall] and [sysret] instructions. *)
Definition calls_ready (l : layout) (c : cpu) : Prop := let r := rdmsr c in
  r IA32_LSTAR = l_syscall_entry l /\ r IA32_FMASK = 0x200 /\ r IA32_KERNEL_GS_BASE = l_cpu_state l /\
  syscall_cs (r IA32_STAR) = GDT_KERNEL_CODE /\ sysret_cs (r IA32_STAR) = Z.lor GDT_USER_CODE 3 /\ Z.testbit (r IA32_EFER) 0 = true.

(** The addresses at which devices above 4 GiB appear. *)
Definition in_window (va : Z) : Prop := MMIO_WINDOW_BASE <= va < MMIO_WINDOW_BASE + MMIO_WINDOW_SLOTS * MB2.

(** What has been set up when the user program starts; [L] are the live
    allocations. *)
Record kernel_up {B} (l : layout) (mapped_gb : Z) (L : gmap Z Z) (s : boot B) : Prop := {
  ku_paging : Z.testbit (cr0 (bpage s)) 31 = true /\ forall va, 0 <= va < 2 ^ 48 -> ~ in_window va ->
    walk (ram (bmem s)) (cr3 (bpage s)) va = if va <? mapped_gb * GB then Some va else None;
  ku_heap : heap_ok (heap_base l) (bmem s) L;
  ku_screen : let g := kgpu (bk s) in g_gpu_ready g = 0 \/ framebuffer L (ram (bmem s)) g;
  ku_tables : tables_ready (l_gdt l) (l_kernel_stack l + 16384) (l_isr_default l) (l_isr_page_fault l) (put_cmach (bmem s) (bcpu s));
  ku_calls : calls_ready l (bcpu s);
  ku_stack : let sp := kernel_rsp (g_syscall_cpu_state (bk s)) in
    sp mod 16 = 0 /\ l_syscall_stack l + SYSCALL_KERNEL_STACK_SIZE - 16 < sp <= l_syscall_stack l + SYSCALL_KERNEL_STACK_SIZE
}.

Section Boot.
Context {B : Type} {P : Ports B} {AD : AtaDrive B} {PH : PciHost B} {GCf : GpuConfig B} {GD : GpuDevice B} {GC : VirtioGpu B} {PR : PromptGpu B} {BD : Board B}.
Context (junk : mem) (l : layout) (gpu0 : virtio_gpu_pci_t) (R : gpu_regs).

Section Runs.
Context (t : list process_t) (cur : Z) (fl : list kernel_file_t) (p : FAT32_BPB) (c : syscall_cpu_state_t) (e : Z).

Lemma ports_boot_run {A} (f : M (dstate B) A) m b g cp pg a m' b' : f (DState m b) = Ret (a, DState m' b') ->
  on_kernel (on_ports f) (bst m t cur b p fl g c cp pg e) = Ret (a, bst m' t cur b' p fl g c cp pg e).
Proof using Type. intros E. unfold on_kernel, on_ports, on_files, on_fs, on_dev, zoom, bst. cbn. by rewrite E. Qed.

Lemma memory_boot_run {A} (f : M mstate A) m (b : B) g cp pg a m' : f m = Ret (a, m') ->
  on_kernel (on_memory f) (bst m t cur b p fl g c cp pg e) = Ret (a, bst m' t cur b p fl g c cp pg e).
Proof using Type. intros E. unfold on_kernel, on_memory, on_procs, on_mem, zoom, bst. cbn. by rewrite E. Qed.

Lemma paging_boot_run {A} (f : M paging A) m (b : B) g cp pg a pg' : f (put_pmach m pg) = Ret (a, pg') ->
  on_paging f (bst m t cur b p fl g c cp pg e) = Ret (a, bst (pmach pg') t cur b p fl g c cp pg' e).
Proof using Type. intros E. unfold on_paging, zoom, bst, bmem. cbn. by rewrite E. Qed.

Lemma cpu_boot_run {A} (f : M cpu A) m (b : B) g cp pg a cp' : f (put_cmach m cp) = Ret (a, cp') ->
  on_cpu f (bst m t cur b p fl g c cp pg e) = Ret (a, bst (cmach cp') t cur b p fl g c cp' pg e).
Proof using Type. intros E. unfold put_cmach in E. unfold on_cpu, zoom, bst, bmem. cbn. by rewrite E. Qed.

Lemma virtio_boot_run {A} (f : M (vstate B) A) m b g cp pg a pg' b' g' : f (VState (put_pmach m pg) b g) = Ret (a, VState pg' b' g') ->
  on_virtio f (bst m t cur b p fl g c cp pg e) = Ret (a, bst (pmach pg') t cur b' p fl g' c cp pg' e).
Proof using Type. intros E. unfold on_virtio, zoom, bst, bmem. cbn. by rewrite E. Qed.
End Runs.

(** The drive's contents, the registers of the PCI host and the GPU where
    they say, through the accesses at start. *)
Definition devices (f : contents) (r : Z -> Z) (b : B) : Prop := ata_disk b f /\ host b r /\ placed r gpu0 R b.

Lemma serial_init_run m b f r : devices f r b -> exists b', serial_init (DState m b) = Ret (tt, DState m b') /\ devices f r b'.
Proof using BD.
  intros Hdev. eexists. split; [reflexivity|]. cbn [bus].
  assert (forall p v b, 0x3F8 <= p < 0x400 -> devices f r b -> devices f r (bus_out8 p v b)) as Hk.
  { clear b Hdev. intros p v b Hp (Hd & [a Ha] & Hg). destruct (bd_serial b f r a p v Hd Ha Hp) as [Hd' Ha'].
    split_and!; [done|by exists a|]. intros gpu E1. destruct (Hg gpu E1) as (Hs & on & Hon). split; [done|]. exists on. by apply bd_serial_gpu. }
  repeat (apply Hk; [unfold COM1_PORT; lia|]). exact Hdev.
Qed.

(** The PCI host, with the drive's contents kept. *)
Program Definition host_with_drive (f : contents) : PciHost B := {| pci_at b r a := pci_at b r a /\ ata_disk b f |}.
Next Obligation. intros f b r a x [H _]. by apply (pci_values b r a). Qed.
Next Obligation. intros f b r a a' [H Hd] Ha. split; [by apply (pci_latch b r a)|by apply bd_address]. Qed.
Next Obligation.
  intros f b r a [H Hd]. destruct (pci_in b r a H) as (b' & E & H'). exists b'. split_and!; [done|done|].
  pose proof (bd_data b f Hd) as Hb. by rewrite E in Hb.
Qed.

(** The GPU, with the drive's contents kept. *)
Ltac in_common := repeat match goal with H : _ ∈ _ :: _ |- _ => apply elem_of_cons in H as [H|H]; [injection H as -> -> || subst; lia|]
  | H : _ ∈ [] |- _ => by apply not_elem_of_nil in H end.
Program Definition gpu_with_drive (f : contents) : VirtioGpu B := {|
  dev_at b R on := dev_at b R on /\ ata_disk b f;
  dev_resetting b R := dev_resetting b R /\ ata_disk b f;
  dev_ok b R Q := dev_ok b R Q /\ ata_disk b f |}.
Next Obligation. intros f b R0 on v [H Hd]. split; [by apply dv_address|by apply bd_address]. Qed.
Next Obligation. intros f b R0 on [H Hd]. split; [by apply dv_in|by apply bd_data]. Qed.
Next Obligation. intros f b R0 on v [H Hd] H1 H2. split; [by apply (dv_command b R0 on)|by apply (bd_command b f R0 on)]. Qed.
Next Obligation. intros f b R0 [H Hd]. split; [by apply dv_reset|]. apply bd_cfg_write; [done|by left|lia]. Qed.
Next Obligation. intros f b R0 Q [H _]. exact (dv_values b R0 Q H). Qed.
Next Obligation. intros f b R0 Q n off [H Hd] Hn. split; [by apply dv_read|]. apply bd_cfg_read; [done|right; right; by exists Q|in_common]. Qed.
Next Obligation. intros f b R0 Q v [H Hd] Hv. split; [by apply dv_status|]. apply bd_cfg_write; [done|right; right; by exists Q|lia]. Qed.
Next Obligation. intros f b R0 Q off v [H Hd] Ho. split; [by apply dv_feature|]. apply bd_cfg_write; [done|right; right; by exists Q|in_common]. Qed.
Next Obligation. intros f b R0 Q [H Hd]. split; [by apply dv_select|]. apply bd_cfg_write; [done|right; right; by exists Q|lia]. Qed.
Next Obligation. intros f b R0 Q [H Hd] Hs. exact (dv_queue_size b R0 Q H Hs). Qed.
Next Obligation. intros f b R0 Q [H Hd] Hs. exact (dv_notify_off b R0 Q H Hs). Qed.
Next Obligation. intros f b R0 Q [H Hd] Hs. split; [by apply dv_vector|]. apply bd_cfg_write; [done|right; right; by exists Q|lia]. Qed.
Next Obligation. intros f b R0 Q [H Hd] Hs. split; [by apply dv_enable|]. apply bd_cfg_write; [done|right; right; by exists Q|lia]. Qed.
Next Obligation.
  intros f b R0 Q m b' m' [H Hd] He Hp E. destruct (dv_notify b R0 Q m b' m' H He Hp E) as [H1 H2].
  pose proof (bd_notify b f R0 Q m Hd H) as Hn. rewrite E in Hn. by split_and!.
Qed.
Next Obligation.
  intros f b R0 Q m b' m' [H Hd] He Hp E. destruct (dv_poll b R0 Q m b' m' H He Hp E) as [H1 H2].
  pose proof (bd_poll b f R0 Q m Hd H) as Hn. rewrite E in Hn. by split_and!.
Qed.
Lemma prompt_with_drive f : PromptGpu (H2 := gpu_with_drive f) B.
Proof using PR BD.
  split.
  - intros b R0 W [H Hd]. destruct (pr_reset b R0 W H) as (d & a & u & Ho). exists d, a, u. by split.
  - intros b R0 d a u W v [H Hd]. split; [by apply (pr_desc b R0 d)|]. apply bd_cfg_write; [done|right; right; by eexists|lia].
  - intros b R0 d a u W v [H Hd]. split; [by apply (pr_avail b R0 d a)|]. apply bd_cfg_write; [done|right; right; by eexists|lia].
  - intros b R0 d a u W v [H Hd]. split; [by apply (pr_used b R0 d a u)|]. apply bd_cfg_write; [done|right; right; by eexists|lia].
Qed.

(** ** Memory *)

Record info_ok (bi : BOOT_INFO) : Prop := {
  bi_map : 0 < MemoryMap bi /\ 0 < MemoryMapDescriptorSize bi /\ 0 <= MemoryMapSize bi /\
    MemoryMapSize bi + MemoryMapDescriptorSize bi < 18446744073709551616;
  bi_screen : 0 <= FrameBufferBase bi /\ 0 <= FrameBufferSize bi /\ FrameBufferBase bi + FrameBufferSize bi <= 18446744073709551616 - GB
}.
(** The static variables of the memory manager are zero. *)
Definition memory_fresh (m : mstate) : Prop := heap_initialized (hv m) = 0 /\ heap_start_page (hv m) = 0 /\ heap_lock m = 0.
Abbreviation heap_base := (heap_base l).
Abbreviation tables_off := (off_tables (l_pml4 l) (l_pdpt l) (l_pd l)).

Context (L : layout_ok l).

Lemma start_memory_run bi f r m t cur b p fl g c cp pg e : info_ok bi -> memory_fresh m -> devices f r b ->
  exists m' b' pg', start_memory l bi (bst m t cur b p fl g c cp pg e) = Ret (tt, bst m' t cur b' p fl g c cp pg' e) /\
    devices f r b' /\ heap_ok heap_base m' ∅ /\ Z.testbit (cr0 pg') 31 = true /\
    paging_ok (l_pml4 l) (l_pdpt l) (l_pd l) (gigabytes (FrameBufferBase bi) (FrameBufferSize bi)) pg' /\ mmio_slots_used pg' = 0 /\
    (forall x, x < heap_base -> ld8 (ram m') x = ld8 (page_ram pg') x) /\
    (forall x, x < heap_base \/ heap_base + HEAP_BYTES <= x -> tables_off x -> ld8 (ram m') x = ld8 (ram m) x).
Proof using PR BD L.
  intros [(I1 & I2 & I3 & I4) (I5 & I6 & I7)] (F1 & F2 & F3) Hdev. pose proof (lo_end _ L) as Hend. unfold start_memory.
  destruct (serial_init_run m b f r Hdev) as (b1 & E1 & Hdev1). rewrite (bind_run _ _ _ _ _ (ports_boot_run _ _ _ _ _ _ _ _ _ _ _ _ _ _ _ E1)).
  rewrite bind_b_say. set (m1 := add_serial _ m).
  destruct (init_physical_memory_run (l_kernel_end l) (MemoryMap bi) (MemoryMapSize bi) (MemoryMapDescriptorSize bi) m1) as (out & v & E2 & _); [done|lia..|].
  cbv zeta in E2. rewrite (bind_run _ _ _ _ _ (memory_boot_run _ _ _ _ _ _ _ _ _ _ _ _ _ _ E2)). rewrite bind_b_say. set (m2 := add_serial _ (MState _ _ _ _ _ _ _)).
  destruct (init_paging_run _ _ _ (layout_tables l L) (put_pmach m2 pg) (FrameBufferBase bi) (FrameBufferSize bi) I5 I6 I7)
    as (pg3 & E3 & Hpg & Hslots & Hcr0 & _ & (es & r3 & Hm3) & Hoff).
  rewrite (bind_run _ _ _ _ _ (paging_boot_run _ _ _ _ _ _ _ _ _ _ _ _ _ _ E3)). rewrite bind_b_say. set (m3 := add_serial _ (pmach pg3)).
  destruct (memory_init_ready (l_kernel_end l) m3) as (m4 & E4 & Hok & _ & Hfr); [..|lia|].
  { unfold m3. rewrite Hm3. exact F1. }
  { right. unfold m3. rewrite Hm3. reflexivity. }
  { unfold m3. rewrite Hm3. exact F3. }
  rewrite (memory_boot_run _ _ _ _ _ _ _ _ _ _ _ _ _ _ E4). fold heap_base in Hok, Hfr.
  exists m4, b1, pg3. split_and!; try done.
  - rewrite Hcr0, Z.lor_spec, Z.shiftl_spec by lia. apply orb_true_r.
  - intros x Hx. rewrite (Hfr x) by lia. reflexivity.
  - intros x Hx Ht. rewrite (Hfr x) by (change HEAP_BYTES with 16777216 in Hx; lia). change (ram m3) with (page_ram pg3). by rewrite Hoff.
Qed.

(** ** Tables *)

(** Outside the tables of interrupts and segments. *)
Definition gates_off (x : Z) : Prop :=
  ~ (l_idt l <= x < l_idt l + 4096) /\ ~ (l_idt_ptr l <= x < l_idt_ptr l + 10) /\
  ~ (l_gdt l <= x < l_gdt l + 64) /\ ~ (l_tss l <= x < l_tss l + 104) /\ ~ (l_gdtr l <= x < l_gdtr l + 10).

Definition same_system (c c' : cpu) : Prop := gdtr c' = gdtr c /\ idtr c' = idtr c /\ tr c' = tr c.
(** The tables in a memory, whatever the rest of the machine. *)
Definition tables_in (m : mem) (c : cpu) : Prop := forall m', (forall x, ~ gates_off x -> ld8 (ram m') x = ld8 m x) -> forall c', same_system c c' ->
  tables_ready (l_gdt l) (l_kernel_stack l + 16384) (l_isr_default l) (l_isr_page_fault l) (put_cmach m' c').

Lemma heap_above : l_kernel_end l <= heap_base.
Proof using L. pose proof (lo_end _ L). unfold heap_base. word_lia. Qed.

Lemma gates_below x : ~ gates_off x -> x < l_kernel_end l.
Proof using L.
  pose proof (lo_in _ L) as Hin. unfold statics in Hin. rewrite !Forall_cons in Hin. cbn [fst snd] in Hin. unfold gates_off.
  destruct (Z.lt_ge_cases x (l_kernel_end l)); [done|]. intros Hx. exfalso. apply Hx. lia.
Qed.

Lemma start_tables_run m t cur b p fl g c cp pg e : heap_ok heap_base m ∅ ->
  exists m' cp', start_tables l (bst m t cur b p fl g c cp pg e : boot B) = Ret (tt, bst m' t cur b p fl g c cp' pg e) /\
    heap_ok heap_base m' ∅ /\ msr cp' = msr cp /\ tables_in (ram m') cp' /\ forall x, gates_off x -> ld8 (ram m') x = ld8 (ram m) x.
Proof using L.
  intros Hok. pose proof (lo_in _ L) as Hin. unfold statics in Hin. rewrite !Forall_cons in Hin. cbn [fst snd] in Hin. pose proof (lo_end _ L) as Hend.
  apart L 3%nat 4%nat. apart L 3%nat 5%nat. apart L 3%nat 6%nat. apart L 3%nat 7%nat. destruct (lo_stubs _ L) as [Hd Hp]. unfold start_tables.
  rewrite bind_b_say. set (m1 := add_serial _ m).
  destruct (init_idt_run (l_idt l) (l_idt_ptr l) (l_isr_default l) (l_isr_page_fault l) (put_cmach m1 cp)) as (es & mi & E1 & Hg & Hf1); [lia..|].
  rewrite (bind_run _ _ _ _ _ (cpu_boot_run _ _ _ _ _ _ _ _ _ _ _ _ _ _ E1)). cbn [cmach put_cmach]. rewrite bind_b_say.
  set (c1 := Cpu _ _ _ _ _ _ _). set (m2 := add_serial _ (add_serial es _)).
  destruct (init_gdt_result _ _ _ _ (layout_gdt l L) (put_cmach m2 c1)) as (es2 & E2).
  rewrite (cpu_boot_run _ _ _ _ _ _ _ _ _ _ _ _ _ _ E2). cbn [cmach]. set (m3 := add_serial es2 _).
  change (cpu_ram (put_cmach m2 c1)) with mi in *.
  assert (ram m3 = gdt_memory (l_gdt l) (l_gdtr l) (l_tss l) (l_kernel_stack l) mi) as Hm3 by reflexivity.
  assert (forall x, gates_off x -> ld8 (ram m3) x = ld8 (ram m) x) as Hf.
  { intros x (X1 & X2 & X3 & X4 & X5). rewrite Hm3, gdt_memory_frame, Hf1 by done. reflexivity. }
  eexists m3, _. split; [reflexivity|]. split_and!; [|reflexivity| |exact Hf].
  - apply (alloc_write (Allocator := kernel_heap heap_base) m); [done| |reflexivity|reflexivity].
    intros x Hx. apply Hf. destruct (Z.lt_ge_cases x heap_base) as [Hlt|Hge]; [exfalso; apply Hx; by left|].
    pose proof heap_above. unfold gates_off. lia.
  - intros m' Hm' c' (S1 & S2 & S3).
    assert (forall x, ~ gates_off x -> ld8 (ram m') x = ld8 (gdt_memory (l_gdt l) (l_gdtr l) (l_tss l) (l_kernel_stack l) mi) x) as Hx by (rewrite <- Hm3; exact Hm').
    apply (tables_ready_memory (l_gdt l) (l_gdtr l) (l_tss l) (l_kernel_stack l) (l_idt l) _ _ mi); [by apply layout_gdt|exact S1|exact S2|exact S3|..].
    + intros x Hr. apply Hx. unfold gates_off. lia.
    + intros x Hr. apply Hx. unfold gates_off. lia.
    + intros v Hv. rewrite <- Hg by done. apply gate_ext. intros x Hr. change (cpu_ram _) with (ram m'). rewrite Hx by (unfold gates_off; lia).
      apply gdt_memory_frame; lia.
Qed.

(** ** Display and system calls *)

Lemma tables_below x : ~ tables_off x -> x < l_kernel_end l.
Proof using L.
  pose proof (lo_in _ L) as Hin. unfold statics in Hin. rewrite !Forall_cons in Hin. cbn [fst snd] in Hin. unfold off_tables.
  destruct (Z.lt_ge_cases x (l_kernel_end l)); [done|]. intros Hx. exfalso. apply Hx. lia.
Qed.
Abbreviation locals_off := (off_locals (l_cmd l) (l_resp l)).
(** The local structures are apart from the kernel's tables. *)
Lemma static_off_locals i r x : statics l !! i = Some r -> fst r <= x < fst r + snd r -> locals_off x.
Proof using L. intros Hi Hx. pose proof (Forall_lookup_1 _ _ _ _ (lo_off _ L) Hi) as [H1 H2]. split; lia. Qed.
Lemma tables_off_locals x : ~ tables_off x -> locals_off x.
Proof using L.
  intros Hx. assert ((l_pml4 l <= x < l_pml4 l + 4096) \/ (l_pdpt l <= x < l_pdpt l + 4096) \/ (l_pd l <= x < l_pd l + 262144)) as [H|[H|H]]
    by (unfold off_tables in Hx; lia);
    [apply (static_off_locals 0 _ x eq_refl H)|apply (static_off_locals 1 _ x eq_refl H)|apply (static_off_locals 2 _ x eq_refl H)].
Qed.
Lemma gates_off_locals x : ~ gates_off x -> locals_off x.
Proof using L.
  intros Hx. assert ((l_idt l <= x < l_idt l + 4096) \/ (l_idt_ptr l <= x < l_idt_ptr l + 10) \/ (l_gdt l <= x < l_gdt l + 64) \/
    (l_tss l <= x < l_tss l + 104) \/ (l_gdtr l <= x < l_gdtr l + 10)) as [H|[H|[H|[H|H]]]] by (unfold gates_off in Hx; lia);
    [apply (static_off_locals 3 _ x eq_refl H)|apply (static_off_locals 4 _ x eq_refl H)|apply (static_off_locals 5 _ x eq_refl H)
    |apply (static_off_locals 7 _ x eq_refl H)|apply (static_off_locals 6 _ x eq_refl H)].
Qed.

Lemma display_run f r n m b pg g : devices f r b -> mappable r gpu0 -> length (bar_addr gpu0) = 6%nat -> length (bar_is_mem gpu0) = 6%nat ->
  paging_ok (l_pml4 l) (l_pdpt l) (l_pd l) n (put_pmach m pg) -> mmio_slots_used pg = 0 -> heap_ok heap_base m ∅ ->
  exists shown m' pg' b' g' L', display_init (l_pdpt l) (l_pd l) (l_cmd l) (l_resp l) kmalloc gpu0 (VState (put_pmach m pg) b g) =
    Ret (shown, VState (put_pmach m' pg') b' g') /\ ata_disk b' f /\
    paging_ok (l_pml4 l) (l_pdpt l) (l_pd l) n (put_pmach m' pg') /\ cr0 pg' = cr0 pg /\
    heap_ok heap_base m' L' /\ (card r gpu0 = None -> L' = ∅) /\ (g_gpu_ready g' = 0 \/ framebuffer L' (ram m') g') /\
    forall x, x < heap_base \/ heap_base + HEAP_BYTES <= x -> locals_off x -> tables_off x -> ld8 (ram m') x = ld8 (ram m) x.
Proof using PR BD L.
  intros (Hd & [a Ha] & Hg) Hmap L1 L2 Hpg Hu Hok. pose proof heap_above as Hab.
  destruct (display_init_run (PH := host_with_drive f) (GC := gpu_with_drive f) (PR := prompt_with_drive f) (l_pml4 l) (l_pdpt l) (l_pd l) (layout_tables l L) (l_cmd l) (l_resp l)
    kmalloc kfree heap_base (heap_base + HEAP_BYTES) (heap_ok heap_base) r gpu0 R) with (n := n) (pg := put_pmach m pg) (b := b) (g := g) (L := ∅ : gmap Z Z)
    as (shown & pg' & b' & g' & E & [[S1 S2] S3 (L' & S4 & _ & S5 & S6) S7 _ S8]).
  - intros x Hx. destruct (decide (x < l_kernel_end l)) as [|Hge]; [lia|]. pose proof (tables_below x). unfold off_tables in *. lia.
  - exact tables_off_locals.
  - by exists a.
  - intros gpu E1. destruct (Hg gpu E1) as (Hs & on & Hon). split; [exact Hs|]. by exists on.
  - done.
  - done.
  - done.
  - done.
  - done.
  - done.
  - apply (lo_locals _ L).
  - exists shown, (pmach pg'), pg', b', g', L'. replace (put_pmach (pmach pg') pg') with pg' by by destruct pg'. split; [exact E|]. split_and!; try done.
    + destruct S8 as [(a' & _ & Hd')|(Q & _ & Hd')]; exact Hd'.
    + destruct shown; [right; by apply S6|left; by rewrite S7].
    + intros x Hx. apply S3. unfold owned. lia.
Qed.

Lemma syscall_init_run c : exists c', syscall_init (l_syscall_entry l) (l_cpu_state l) c = Ret (tt, c') /\
  cmach c' = cmach c /\ same_system c c' /\ calls_ready l c'.
Proof using L.
  destruct (lo_calls _ L) as [He Hc]. unfold syscall_init. rewrite bind_gets, !bind_wrmsr, wrmsr_run.
  eexists. split; [reflexivity|]. split; [reflexivity|]. split; [by split_and!|]. unfold calls_ready. cbv zeta. msr_read. split_and!.
  - by apply Z.mod_small.
  - reflexivity.
  - by apply Z.mod_small.
  - reflexivity.
  - reflexivity.
  - rewrite Z.mod_pow2_bits_low by lia. rewrite Z.lor_spec. apply orb_true_r.
Qed.

Lemma start_services_run f r n m t cur b p fl g c cp pg e : devices f r b -> mappable r gpu0 -> length (bar_addr gpu0) = 6%nat -> length (bar_is_mem gpu0) = 6%nat ->
  paging_ok (l_pml4 l) (l_pdpt l) (l_pd l) n (put_pmach m pg) -> mmio_slots_used pg = 0 -> heap_ok heap_base m ∅ ->
  exists m' mp b' g' pg' cp' L', start_services gpu0 l (bst m t cur b p fl g c cp pg e) =
      Ret (tt, bst m' t cur b' p fl g' (CpuState 0 (Z.land (u64 (l_syscall_stack l + SYSCALL_KERNEL_STACK_SIZE)) (u64 (Z.lnot 0xF)))) cp' (put_pmach mp pg') e) /\
    ata_disk b' f /\ paging_ok (l_pml4 l) (l_pdpt l) (l_pd l) n (put_pmach m' pg') /\ cr0 pg' = cr0 pg /\
    heap_ok heap_base m' L' /\ (card r gpu0 = None -> L' = ∅) /\ (g_gpu_ready g' = 0 \/ framebuffer L' (ram m') g') /\
    (forall x, x < heap_base \/ heap_base + HEAP_BYTES <= x -> locals_off x -> tables_off x -> ld8 (ram m') x = ld8 (ram m) x) /\
    same_system cp cp' /\ calls_ready l cp'.
Proof using PR BD L.
  intros Hdev Hmap L1 L2 Hpg Hu Hok. unfold start_services. rewrite bind_b_say. set (m1 := add_serial _ m).
  destruct (display_run f r n m1 b pg g Hdev Hmap L1 L2 (paging_elsewhere _ _ _ n _ m1 Hpg (fun _ _ => eq_refl)) Hu Hok) as (shown & m2 & pg2 & b2 & g2 & L' & E2 & D1 & D2 & D3 & D4 & D5 & D6 & D7).
  rewrite (bind_run _ _ _ _ _ (virtio_boot_run _ _ _ _ _ _ _ _ _ _ _ _ _ _ _ _ E2)). cbn [pmach put_pmach].
  assert (exists es, (if negb shown then b_say [line "[OS] [WARN] Display init failed"] else mret tt) (bst m2 t cur b2 p fl g2 c cp (put_pmach m2 pg2) e) =
    Ret (tt, bst (add_serial es m2) t cur b2 p fl g2 c cp (put_pmach m2 pg2) e)) as (es & E3).
  { destruct shown; [exists []; by rewrite add_serial_nil|by eexists]. }
  rewrite (bind_run _ _ _ _ _ E3), bind_b_say. set (m3 := add_serial _ (add_serial es m2)).
  unfold syscall_init_state, on_kernel at 1. rewrite (bind_run _ _ _ tt
    (bst m3 t cur b2 p fl g2 (CpuState 0 (Z.land (u64 (l_syscall_stack l + SYSCALL_KERNEL_STACK_SIZE)) (u64 (Z.lnot 0xF)))) cp (put_pmach m2 pg2) e))
    by reflexivity.
  destruct (syscall_init_run (put_cmach m3 cp)) as (c2 & E4 & Hc & Hs & Hr).
  rewrite (cpu_boot_run _ _ _ _ _ _ _ _ _ _ _ _ _ _ E4). rewrite Hc.
  exists m3, m2, b2, g2, pg2, c2, L'. split_and!; try done. exact (paging_elsewhere _ _ _ n _ m3 D2 (fun _ _ => eq_refl)).
Qed.

(** ** From entry to user mode *)

Lemma tables_off_gates x : ~ tables_off x -> gates_off x.
Proof using L.
  intros Hx. assert ((l_pml4 l <= x < l_pml4 l + 4096) \/ (l_pdpt l <= x < l_pdpt l + 4096) \/ (l_pd l <= x < l_pd l + 262144)) as [H|[H|H]]
    by (unfold off_tables in Hx; lia); clear Hx; unfold gates_off; split_and!;
    [apart L 0%nat 3%nat|apart L 0%nat 4%nat|apart L 0%nat 5%nat|apart L 0%nat 7%nat|apart L 0%nat 6%nat
    |apart L 1%nat 3%nat|apart L 1%nat 4%nat|apart L 1%nat 5%nat|apart L 1%nat 7%nat|apart L 1%nat 6%nat
    |apart L 2%nat 3%nat|apart L 2%nat 4%nat|apart L 2%nat 5%nat|apart L 2%nat 7%nat|apart L 2%nat 6%nat]; lia.
Qed.

(** Loading an image leaves everything below its segments and the heap. *)
Lemma loaded_elsewhere lo hi data ss m x : Forall (seg_ok lo hi data) ss -> x < 0x400000 \/ lo <= x < hi -> loaded data ss m x = ld8 m x.
Proof using Type.
  intros Hs Hx. unfold loaded. generalize (ld8 m x) as old. induction Hs as [|s ss [_ Hsz Ha _ Hh] _ IH]; intros old; [done|].
  cbn [fold_left]. rewrite IH. unfold seg_byte. zcases; (lia || done).
Qed.

(** What a segment fills does not depend on what was there. *)
Definition in_image (data : list Z) (x : Z) : Prop := Exists (fun sg => s_addr sg <= x < s_addr sg + s_memsz sg) (segments data).
Lemma loaded_covered data m m' x : Forall (fun sg => s_filesz sg <= s_memsz sg) (segments data) -> in_image data x ->
  loaded data (segments data) m x = loaded data (segments data) m' x.
Proof using Type.
  unfold in_image, loaded. generalize (ld8 m x) as v, (ld8 m' x) as v'. induction (segments data) as [|sg ss IH]; intros v v' Hs Hx.
  { by apply Exists_nil in Hx. }
  apply Forall_cons in Hs as [Hsz Hs]. cbn [fold_left].
  destruct (decide (s_addr sg <= x < s_addr sg + s_memsz sg)) as [Hc|Hc].
  - f_equal. unfold seg_byte. zcases; (lia || done).
  - apply IH; [done|]. apply Exists_cons in Hx as [?|?]; [done|assumption].
Qed.

(** Only the memory of the tables matters to the page walk. *)
Lemma identity_kept n pg m : paging_ok (l_pml4 l) (l_pdpt l) (l_pd l) n pg -> (forall x, ~ tables_off x -> ld8 (ram m) x = ld8 (page_ram pg) x) ->
  forall va, 0 <= va < 2 ^ 48 -> ~ in_window va -> walk (ram m) (cr3 pg) va = if va <? n * GB then Some va else None.
Proof using L.
  intros Hpg Hm va Hva Hw. pose proof (paging_elsewhere _ _ _ n pg m Hpg Hm) as Hok. pose proof (pk_used _ _ _ _ _ Hok) as Hu.
  change (walk (page_ram (put_pmach m pg)) (cr3 (put_pmach m pg)) va = if va <? n * GB then Some va else None).
  rewrite (walk_page _ _ _ (layout_tables l L) n) by done. destruct (va <? _); [|done]. f_equal. unfold page_of, identity.
  unfold in_window, MMIO_WINDOW_BASE, MMIO_WINDOW_SLOTS, MB2 in *.
  destruct (Z.leb_spec 1920 (va / (2 * 1024 * 1024))), (Z.ltb_spec (va / (2 * 1024 * 1024)) (1920 + mmio_slots_used (put_pmach m pg))); cbn [andb]; word_lia.
Qed.

Lemma call_stack_aligned : let sp := Z.land (u64 (l_syscall_stack l + SYSCALL_KERNEL_STACK_SIZE)) (u64 (Z.lnot 0xF)) in
  sp mod 16 = 0 /\ l_syscall_stack l + SYSCALL_KERNEL_STACK_SIZE - 16 < sp <= l_syscall_stack l + SYSCALL_KERNEL_STACK_SIZE.
Proof using L.
  destruct (lo_stacks _ L) as (_ & Hs & _). cbv zeta. unfold SYSCALL_KERNEL_STACK_SIZE. rewrite u64_small by lia. change (Z.lnot 0xF) with (Z.lnot (Z.ones 4)).
  rewrite land_u64_lnot_ones by lia. change (2 ^ 4) with 16. word_lia.
Qed.

(** A frame buffer stays when its bytes do. *)
Lemma framebuffer_kept L0 m m' g : heap_ok heap_base m L0 -> (forall x, heap_base <= x < heap_base + HEAP_BYTES -> owned heap_base (heap_base + HEAP_BYTES) L0 x -> ld8 (ram m') x = ld8 (ram m) x) ->
  framebuffer L0 (ram m) g -> framebuffer L0 (ram m') g.
Proof using Type.
  intros Hok Hx (F1 & F2 & F3 & F4 & k & Hk & F5 & F6). unfold framebuffer. split_and!; try done. exists k. split_and!; try done.
  intros x Hr. destruct (alloc_range (Allocator := kernel_heap heap_base) m L0 _ _ Hok Hk) as (R0 & R1 & R2 & R3 & _).
  rewrite Hx; [by apply F6|lia|]. do 2 right. exists (g_gpu_fb g), k. split; [done|lia].
Qed.

(** Loading the image leaves low memory and the live allocations. *)
Lemma image_kept top L0 file data m s res : image_placed heap_base top L0 (size file) data ->
  ((res = Halted /\ refuses kmalloc m (size file) /\ forall x, owned heap_base top L0 x -> ld8 (ram (bmem s)) x = ld8 (ram m) x) \/
   (exists rsp, res = UserMode (elf_entry data) rsp /\ in_user_mode (B := B) l s (elf_entry data) rsp /\
      forall x, owned heap_base top L0 x -> ld8 (ram (bmem s)) x = loaded data (segments data) (ram m) x)) ->
  forall x, x < 0x400000 \/ heap_base <= x < heap_base + HEAP_BYTES -> owned heap_base (heap_base + HEAP_BYTES) L0 x ->
    ld8 (ram (bmem s)) x = ld8 (ram m) x.
Proof using Type.
  intros [Helf Hpl] Hres x Hx Hown.
  assert (owned heap_base top L0 x /\ (x < 0x400000 \/ heap_base <= x < top)) as [Ho Hr].
  { destruct Hpl as [->|[-> Ht]]; [by split|]. destruct Hown as [?|[?|(q & n & Hq & _)]]; [..|by rewrite lookup_empty in Hq]; (split; [unfold owned; lia|lia]). }
  destruct Hres as [(_ & _ & H)|(rsp & _ & _ & H)]; rewrite H by done; [done|].
  apply (loaded_elsewhere heap_base top); [apply Helf|done].
Qed.

(** The empty heap has room for the file. *)
Lemma file_fits m n : heap_ok heap_base m ∅ -> 0 < n <= HEAP_BYTES - 24 -> refuses kmalloc m n -> False.
Proof using Type.
  intros Hok Hn (es & m' & Hrefuse). destruct (empty_heap_serves heap_base (add_serial es m) n Hok Hn) as (m'' & Hq & Hne).
  rewrite Hq in Hrefuse. injection Hrefuse as E _. lia.
Qed.

(** C4. The kernel boots: entered with a memory map and a frame buffer, on a
    machine with a FAT32 drive that holds a valid image URLD.ELF, with or
    without a VirtIO GPU, [kernel_main] reaches user mode at the image's
    entry point.  The image may lie outside the kernel and its heap; without
    a GPU it may also lie in the heap above the part that the buffer for the
    file takes ([top]), where the repository's linker script puts it
    (0x400000), the heap being empty.  With a GPU an image inside the heap is
    not covered: the display has taken memory there.  The GPU is one that
    follows the interface [VirtioGpu] and resets and takes queue addresses
    as [PromptGpu] says.
    At the end paging is on and maps the first gigabytes to themselves but
    for the MMIO window, the interrupt gates and segments are those of
    [tables_ready], [syscall] goes to its stub on its own stack, the heap is
    well formed, a display that is announced has a cleared frame buffer of
    its own in it, the drive is unchanged, memory outside the kernel's
    tables, the heap and the display driver's locals holds the image and
    what it held before, and so does every byte of the image inside the heap.
    It halts instead only when there is a GPU and what its set-up has taken
    leaves no room for the file in the heap; without one it always boots. *)
Theorem kernel_main_boots bi f sec root rcs file r top s :
  info_ok bi -> memory_fresh (bmem s) -> length (g_processes (kprocs (bk s))) = 16%nat ->
  devices f r (kbus (bk s)) -> mappable r gpu0 -> length (bar_addr gpu0) = 6%nat -> length (bar_is_mem gpu0) = 6%nat ->
  f !! 0 = Some sec -> geometry (sector_bpb sec) -> user_file f (sector_bpb sec) root rcs file ->
  let data := file_data f (sector_bpb sec) rcs file in
  elf_ok heap_base top data ->
  top = heap_base + HEAP_BYTES \/ (card r gpu0 = None /\ heap_base + size file + 103 <= top <= heap_base + HEAP_BYTES) ->
  exists res s' L', kernel_main junk gpu0 l bi s = Ret (res, s') /\
    kernel_up l (gigabytes (FrameBufferBase bi) (FrameBufferSize bi)) L' s' /\ (card r gpu0 = None -> L' = ∅) /\ ata_disk (kbus (bk s')) f /\
    ((exists rsp, res = UserMode (elf_entry data) rsp /\ in_user_mode l s' (elf_entry data) rsp /\
        forall x, x < heap_base \/ heap_base + HEAP_BYTES <= x \/ (top <= x /\ in_image data x) -> tables_off x -> gates_off x -> locals_off x ->
          ld8 (ram (bmem s')) x = loaded data (segments data) (ram (bmem s)) x) \/
     (res = Halted /\ card r gpu0 <> None /\ exists m, heap_ok heap_base m L' /\ refuses kmalloc m (size file))).
Proof using PR BD L.
  intros Hbi Hfresh Hprocs Hdev Hmap L1 L2 Hsec Hgeo Hfile data Helf Hplace.
  destruct s as [[[m t cur] b p fl g c] cp pg e]. cbn [bmem bk kprocs g_processes kbus kmem] in Hfresh, Hprocs, Hdev.
  change (Boot _ cp pg e) with (bst m t cur b p fl g c cp pg e). change (bmem (bst m t cur b p fl g c cp pg e)) with m. unfold kernel_main.
  destruct (start_memory_run bi f r m t cur b p fl g c cp pg e Hbi Hfresh Hdev) as (m1 & b1 & pg1 & E1 & Hdev1 & Hok1 & Hcr0 & Hpg & Hslots & Hlow & Hout).
  rewrite (bind_run _ _ _ _ _ E1).
  destruct (start_tables_run m1 t cur b1 p fl g c cp pg1 e Hok1) as (m2 & cp2 & E2 & Hok2 & _ & Htab & Hgates). rewrite (bind_run _ _ _ _ _ E2).
  pose proof heap_above as Hhb. pose proof (lo_end _ L) as Hend.
  assert (paging_ok (l_pml4 l) (l_pdpt l) (l_pd l) (gigabytes (FrameBufferBase bi) (FrameBufferSize bi)) (put_pmach m2 pg1)) as Hpg2.
  { apply paging_elsewhere; [done|]. intros x Ht. pose proof (tables_below x Ht). rewrite Hgates, Hlow by (first [lia|by apply tables_off_gates]). done. }
  destruct (start_services_run f r _ m2 t cur b1 p fl g c cp2 pg1 e Hdev1 Hmap L1 L2 Hpg2 Hslots Hok2)
    as (m3 & mp & b3 & g3 & pg3 & cp3 & L' & E3 & Hd3 & Hpg3 & Hcr3 & Hok3 & Hempty & Hscreen & Hram3 & Hsys & Hcalls).
  rewrite (bind_run _ _ _ _ _ E3). set (s3 := bst m3 _ _ _ _ _ _ _ _ _ _).
  assert (image_placed heap_base top L' (size file) data) as Hplaced.
  { split; [exact Helf|]. destruct Hplace as [?|[Hc ?]]; [by left|right; split; [exact (Hempty Hc)|assumption]]. }
  destruct (boot_userland_run junk l heap_base top s3 f sec root rcs file L' Hprocs Hok3 Hd3 Hsec Hgeo Hfile ltac:(apply (lo_stacks _ L)) Hplaced)
    as (res & s4 & E4 & Hok4 & Hd4 & _ & _ & (K1 & K2 & K3 & K4 & K5 & K6 & K7) & Hres). change (bmem s3) with m3 in Hres.
  pose proof (image_kept top L' file data m3 s4 res Hplaced Hres) as Hkeep.
  assert (forall x, x < l_kernel_end l -> ld8 (ram (bmem s4)) x = ld8 (ram m3) x) as Hstatic by (intros x Hx; apply Hkeep; [lia|left; lia]).
  assert (same_system cp2 (bcpu s4)) as Hsame.
  { destruct Hsys as (S1 & S2 & S3). exact (conj (eq_trans K1 S1) (conj (eq_trans K2 S2) (eq_trans K3 S3))). }
  exists res, s4, L'. split; [exact E4|]. split; [|split; [exact Hempty|split; [exact Hd4|]]].
  - split.
    + rewrite K5. split; [change (Z.testbit (cr0 pg3) 31 = true); by rewrite Hcr3|]. apply (identity_kept _ _ _ Hpg3).
      intros x Ht. by apply Hstatic, tables_below.
    + exact Hok4.
    + rewrite K7. destruct Hscreen as [Hz|Hfb]; [by left|right]. apply (framebuffer_kept L' m3); [done| |done]. intros x Hx. apply Hkeep. by right.
    + apply (Htab (bmem s4)); [|exact Hsame]. intros x Hg. pose proof (gates_below x Hg). rewrite Hstatic by done. apply Hram3; [lia|by apply gates_off_locals|].
      destruct (decide (off_tables (l_pml4 l) (l_pdpt l) (l_pd l) x)) as [|Ht]; [done|]. by destruct (Hg (tables_off_gates x Ht)).
    + unfold calls_ready, rdmsr in *. rewrite K4. exact Hcalls.
    + rewrite K6. exact call_stack_aligned.
  - destruct Hres as [(-> & Hrefuse & _)|(rsp & -> & Huser & Hx)].
    + right. split; [reflexivity|]. split; [|exists m3; exact (conj Hok3 Hrefuse)]. intros Hnone. rewrite (Hempty Hnone) in Hok3.
      apply (file_fits m3 (size file) Hok3); [|exact Hrefuse]. destruct Hfile. change HEAP_BYTES with 16777216. lia.
    + left. exists rsp. split; [reflexivity|]. split; [exact Huser|]. intros x Hxr Ht Hg Hl.
      rewrite (Hx x) by (destruct Hplace as [->|[_ ?]]; unfold owned; lia).
      assert (x < heap_base \/ heap_base + HEAP_BYTES <= x \/ in_image data x) as [Hout'|[Hout'|Him]] by tauto.
      3: { apply loaded_covered; [|exact Him]. eapply Forall_impl; [apply Helf|]. by intros sg []. }
      all: unfold loaded; rewrite (Hram3 x) by (try assumption; lia); rewrite (Hgates x Hg); f_equal; apply Hout; [lia|exact Ht].
Qed.
End Boot.

(** ** Witness: the simulated computer, with the volume and image of
    ElfTheorems.v on its drive, without and with a GPU *)

#[local] Instance computer_drive : AtaDrive computer.
Proof.
  refine {| ata_idle b := sim_idle (cp_drive b); ata_pending b := sim_pending (cp_drive b);
    ata_sending b := sim_sending (cp_drive b); ata_taking b := sim_taking (cp_drive b);
    ata_writing b := ata_writing (cp_drive b) |}; intros [d h g]; cbn [cp_drive].
  - exact (ata_contents (AtaDrive := sim_drive) d).
  - exact (ata_issue (AtaDrive := sim_drive) d).
  - intros f cmd lba n Hp. destruct (ata_busy (AtaDrive := sim_drive) d f cmd lba n Hp) as (v & d' & E & Hr).
    exists v, (Computer d' h g). split; [|exact Hr]. cbn [bus_in8 computer_ports cp_drive]. by rewrite E.
  - intros f cmd lba Hp. destruct (ata_ready (AtaDrive := sim_drive) d f cmd lba Hp) as (v & d' & E & Hr).
    exists v, (Computer d' h g). split; [|exact Hr]. cbn [bus_in8 computer_ports cp_drive]. by rewrite E.
  - exact (ata_error (AtaDrive := sim_drive) d).
  - exact (ata_read_start (AtaDrive := sim_drive) d).
  - intros f x y k Hp. destruct (ata_in16 (AtaDrive := sim_drive) d f x y k Hp) as (d' & E & Hr).
    exists (Computer d' h g). split; [|exact Hr]. cbn [bus_in16 computer_ports cp_drive]. by rewrite E.
  - exact (ata_read_end (AtaDrive := sim_drive) d).
  - exact (ata_write_start (AtaDrive := sim_drive) d).
  - exact (ata_out16 (AtaDrive := sim_drive) d).
  - exact (ata_write_end (AtaDrive := sim_drive) d).
  - intros f n Hw. destruct (ata_write_busy (AtaDrive := sim_drive) d f n Hw) as (v & d' & E & Hr).
    exists v, (Computer d' h g). split; [|exact Hr]. cbn [bus_in8 computer_ports cp_drive]. by rewrite E.
  - exact (ata_write_done (AtaDrive := sim_drive) d).
Defined.

#[local] Instance computer_board : Board computer.
Proof.
  split; [|intros b R on p v H _; exact H|intros b f v H; exact H|intros b f H; exact H|intros b f R on v H _; exact H
    |intros b f R n off H _ _; exact H|intros b f R n off v H _ _; exact H|intros b f R Q m H _; exact H|intros b f R Q m H _; exact H].
  intros b f r a p v Hf Hr Hp. split; [|exact Hr]. assert (bus_out8 p v b = b) as ->; [|exact Hf].
  destruct b as [d h g]. cbn [bus_out8 computer_ports cp_drive set_drive cp_host cp_gpu]. f_equal.
  cbn [bus_out8 sim_ports]. unfold sim_out8. unfold ATA_HDDEVSEL, ATA_LBA0, ATA_LBA1, ATA_LBA2, ATA_COMMAND. zcases; (lia || done).
Qed.

Lemma sample_layout_ok : layout_ok sample_layout.
Proof.
  split; try (split_and!; vm_compute; congruence).
  - unfold statics. repeat (apply Forall_cons; split; [split; vm_compute; congruence|]). apply Forall_nil_2.
  - assert (forall i j, (i < 8)%nat -> (j < 8)%nat -> i <> j ->
      match statics sample_layout !! i, statics sample_layout !! j with
      | Some r1, Some r2 => (fst r1 + snd r1 <=? fst r2) || (fst r2 + snd r2 <=? fst r1) = true | _, _ => True end) as Hall.
    { intros i j Hi Hj Hij. do 8 (destruct i as [|i]; [do 8 (destruct j as [|j]; [first [done|vm_compute; reflexivity]|]); lia|]). lia. }
    intros i j r1 r2 H1 H2 Hij. pose proof (lookup_lt_Some _ _ _ H1) as L1. pose proof (lookup_lt_Some _ _ _ H2) as L2.
    specialize (Hall i j L1 L2 Hij). rewrite H1, H2 in Hall. apply orb_true_iff in Hall as [?%Z.leb_le|?%Z.leb_le]; [by left|by right].
  - split; [left; vm_compute; congruence|left; vm_compute; congruence|split; vm_compute; congruence].
  - unfold statics. repeat (apply Forall_cons; split; [split; left; vm_compute; congruence|]). apply Forall_nil_2.
Qed.

Definition sample_info : BOOT_INFO := BootInfo 0x20000 40 40 1 0x80000000 0x300000 1024 768 1024 0 [].
(** The computer at the entry of the kernel, with an image linked at
    [addr] on its drive. *)
Definition at_entry (addr : Z) (host : sim_host) : boot computer :=
  bst power_on (replicate 16 unused_process) 0 (Computer (elf_drive (elf_bytes addr)) host (new_gpu 0xFEB00000)) (Bpb 0 0 0 0 0 0) []
    (GpuVars 0 0 0 0 (Virtqueue 0 0 0 0 0 0 0 0)) (CpuState 0 0) cpu0 (Paging power_on 0 0 0 [] 0) 0.

Lemma no_card_found : card (sim_reg (SimHost ∅ 0)) no_card = None.
Proof. vm_compute. reflexivity. Qed.
Lemma no_card_devices f b : ata_disk b f -> cp_host b = SimHost ∅ 0 -> devices no_card sim_gpu_regs f (sim_reg (SimHost ∅ 0)) b.
Proof.
  intros Hd Hh. split; [exact Hd|]. split; [exists 0; cbn; by rewrite Hh|]. intros gpu Hc. rewrite no_card_found in Hc. discriminate Hc.
Qed.

Lemma computer_disk addr host g : ata_disk (Computer (elf_drive (elf_bytes addr)) host g) (elf_volume (elf_bytes addr)).
Proof. exact (elf_volume_ok _ (elf_bytes_list _)). Qed.
Lemma sample_info_ok : info_ok sample_info.
Proof. split; (split_and!; vm_compute; congruence). Qed.
Lemma sample_image : elf_ok (heap_base sample_layout) (heap_base sample_layout + HEAP_BYTES) (file_data (elf_volume (elf_bytes 0x2000000)) (sector_bpb boot_sector) [3] elf_file).
Proof. change (sector_bpb boot_sector) with volume_bpb. rewrite elf_image_data. exact elf_image_ok. Qed.
(** An image at the address of the linker script, inside the heap. *)
Lemma linked_data : file_data (elf_volume (elf_bytes 0x400000)) (sector_bpb boot_sector) [3] elf_file = elf_bytes 0x400000.
Proof. vm_compute. reflexivity. Qed.
Lemma linked_image : elf_ok (heap_base sample_layout) 0x400000 (elf_bytes 0x400000).
Proof.
  split; [split; [apply elf_bytes_list|vm_compute; congruence..]|reflexivity|].
  assert (segments (elf_bytes 0x400000) = [Seg 120 0x400000 4 8]) as -> by (vm_compute; reflexivity).
  constructor; [|constructor]. split; cbn; try lia. vm_compute; congruence.
Qed.

(** The image's first byte, and where its address is. *)
Lemma linked_byte s : loaded (elf_bytes 0x400000) (segments (elf_bytes 0x400000)) s 0x400000 = 0xEB.
Proof. rewrite (loaded_covered _ s ∅); [vm_compute; reflexivity|repeat constructor; vm_compute; congruence|repeat constructor; vm_compute; congruence]. Qed.
Lemma image_byte s : loaded (elf_bytes 0x2000000) (segments (elf_bytes 0x2000000)) s 0x2000000 = 0xEB.
Proof. rewrite (loaded_covered _ s ∅); [vm_compute; reflexivity|repeat constructor; vm_compute; congruence|repeat constructor; vm_compute; congruence]. Qed.
Lemma linked_covered : in_image (elf_bytes 0x400000) 0x400000.
Proof. repeat constructor; vm_compute; congruence. Qed.
Lemma image_apart x : 0x400000 <= x -> off_tables (l_pml4 sample_layout) (l_pdpt sample_layout) (l_pd sample_layout) x /\
  gates_off sample_layout x /\ off_locals (l_cmd sample_layout) (l_resp sample_layout) x.
Proof.
  unfold off_tables, gates_off, off_locals. cbn [sample_layout l_pml4 l_pdpt l_pd l_idt l_idt_ptr l_gdt l_gdtr l_tss l_cmd l_resp]. lia.
Qed.

Lemma kernel_main_boots_witness :
  (exists rsp s', kernel_main ∅ no_card sample_layout sample_info (at_entry 0x400000 (SimHost ∅ 0)) = Ret (UserMode 0x400000 rsp, s') /\
     cs (bcpu s') = 0x2B /\ ld8 (ram (bmem s')) 0x400000 = 0xEB) /\
  exists res s', kernel_main ∅ no_card sample_layout sample_info (at_entry 0x2000000 (SimHost card_registers 0)) = Ret (res, s') /\
    (res = Halted \/ (exists rsp, res = UserMode 0x2000000 rsp) /\ ld8 (ram (bmem s')) 0x2000000 = 0xEB).
Proof.
  split.
  - destruct (kernel_main_boots ∅ sample_layout no_card sim_gpu_regs sample_layout_ok sample_info (elf_volume (elf_bytes 0x400000)) boot_sector [2] [3] elf_file
      (sim_reg (SimHost ∅ 0)) 0x400000 (at_entry 0x400000 (SimHost ∅ 0)) sample_info_ok ltac:(by split_and!) eq_refl) as (res & s' & L' & E & _ & _ & _ & Hr).
    + apply no_card_devices; [apply computer_disk|reflexivity].
    + intros gpu Hc. rewrite no_card_found in Hc. discriminate Hc.
    + reflexivity.
    + reflexivity.
    + reflexivity.
    + apply volume_geometry.
    + apply elf_user_file.
    + rewrite linked_data. exact linked_image.
    + right. split; [exact no_card_found|]. split; vm_compute; congruence.
    + destruct Hr as [(rsp & -> & Hu & Hx)|(_ & Hc & _)]; [|by destruct (Hc no_card_found)].
      rewrite linked_data in *. exists rsp, s'. split; [exact E|]. split; [apply Hu|].
      destruct (image_apart 0x400000 (Z.le_refl _)) as (A1 & A2 & A3).
      rewrite (Hx 0x400000 (or_intror (or_intror (conj (Z.le_refl _) linked_covered))) A1 A2 A3). apply linked_byte.
  - destruct (kernel_main_boots ∅ sample_layout no_card sim_gpu_regs sample_layout_ok sample_info (elf_volume (elf_bytes 0x2000000)) boot_sector [2] [3] elf_file
      computer_registers (heap_base sample_layout + HEAP_BYTES) (at_entry 0x2000000 (SimHost card_registers 0)) sample_info_ok ltac:(by split_and!) eq_refl) as (res & s' & L' & E & _ & _ & _ & Hr).
    + split; [apply computer_disk|]. split; [by exists 0|]. apply computer_placed.
    + apply computer_mappable.
    + reflexivity.
    + reflexivity.
    + reflexivity.
    + apply volume_geometry.
    + apply elf_user_file.
    + exact sample_image.
    + by left.
    + change (sector_bpb boot_sector) with volume_bpb in *. rewrite elf_image_data in *. exists res, s'. split; [exact E|].
      destruct Hr as [(rsp & -> & _ & Hx)|(-> & _)]; [right; split; [by exists rsp|]|by left].
      destruct (image_apart 0x2000000 ltac:(vm_compute; congruence)) as (A1 & A2 & A3).
      assert (heap_base sample_layout + HEAP_BYTES <= 0x2000000) as A0 by (vm_compute; congruence).
      rewrite (Hx 0x2000000 (or_intror (or_introl A0)) A1 A2 A3). apply image_byte.
Defined.
